(* ===== verification/_CoqProject ===== *)
-Q . S2P
Prelude.v
Golang.v
Calendar.v
Errors.v
Engine.v
EngineRounding.v
EngineCalc.v
EngineSpec.v
LateFee.v
Models.v
Store.v
Schema.v
Logic.v
Crypto.v
Token.v
Invite.v
Password.v
AuthUser.v
Net.v
Gateway.v
Notification.v
AuthHandlers.v
BillingRepo.v
BuildingRepo.v
BuildingService.v
Occupancy.v
Calc.v
Period.v
PaymentRepo.v
PaymentService.v
Http.v
BuildingHandlers.v
BillingHandlers.v
PaymentHandlers.v
Middleware.v
Config.v
Storage.v
CalendarSpec.v
Wire.v
Maintenance.v
Expense.v
Announcement.v
Dashboard.v
NotificationHandlers.v
BillingLemmas.v
BuildingSpec.v
AuthSpec.v
SessionSpec.v
AccountSpec.v
PanelSpec.v
Server.v
Process.v
RequestSpec.v
ExpenseSpec.v
AnnouncementSpec.v
DashboardSpec.v
Sample.v
PanelTheorems.v
BuildingTheorems.v
AuthTheorems.v
Frozen.v
PaymentSpec.v
BillingSpec.v
System.v
BillingGuards.v
Issue.v
CalcSpec.v
Ledger.v
ServerSpec.v
ServerRun.v
ServerAnswers.v
ProcessSpec.v
ServerTheorems.v
BillingTheorems.v
SystemTheorems.v
PaymentTheorems.v
HandlerTheorems.v
PlatformTheorems.v
WireTheorems.v
ProcessTheorems.v
