(* ===== verification/Prelude.v ===== *)
(** * Hamsa backend: verification library

    Hamsa ([src/backend], a Go service over PostgreSQL) runs residential
    buildings: a registry of buildings, units, people and occupancies; billing
    periods whose cost items are divided over the units and issued as invoices;
    payments, by hand or through an online gateway, with a balance per unit;
    accounts with roles, invitations and refresh-token sessions; maintenance
    requests, expenses and announcements with the pages that sum them up. This
    library models those domains and proves what makes them correct.

    ** The shape of the model

    A call of the backend is a function of an environment and a world
    ([Store.M]): the world holds the tables ([Store.DB], one finite map per
    table, keyed by the primary key), the mock gateway's switches and a clock
    tick; the environment gives, tick by tick, the time, the fresh UUIDs, the
    random bytes and the failure, if any, of each statement. A call ends with a
    value, an error or a panic ([Errors.Res]). One SQL statement is one step
    ([Store.stmt]): it fails without effect when the environment says so, and
    otherwise runs on the tables, through the unique indexes, checks, enums,
    triggers, cascades and delete-blocking foreign keys of [src/backend/migrations]
    ([Schema]). [Store.Transaction] restores the tables on an error, a panic or a
    failed commit. Integers are wrapped to 64 bits where Go wraps them
    ([Prelude.wrap64]), floats are binary64 ([SpecFloat]), [big.Rat] is [Q].
    A JSON body is the Go value that decoding produced; the types that decode
    themselves (money, dates, two payment types) are modelled on their text.

    A call is sequential: the theorems on runs are about sequences of whole
    calls, in any environment, one environment per call. Where two requests race,
    the interleaving of their statements is written out and the theorem shows
    what goes wrong.

    Around the calls is a machine ([Process.Machine]): the process that is up with
    its configuration, or down; the world; the disks of stored files by their
    directories; the drivers of the database. [Process.step] takes it through its
    events, in which nothing is assumed of the order: starts with any
    configuration, requests, uploads and downloads, migrations by the other
    command, a listener that fails, signals, a process killed amid a call, which
    leaves what a call leaves whose remaining statements and commits fail.

    ** Files and the code they model (under [src/backend/internal])

    - [Prelude]: notations, hints, sums, 64-bit arithmetic, sorting by a Go
      [less]. [Golang]: what is used of [strings], [strconv], [time], [math/big]
      and floats. [Errors]: [platform/httpx/errors.go] and Go error values.
    - [Engine] ([billing/engine/engine.go]) with [EngineRounding] (the
      largest-remainder method against its specification), [EngineCalc] and
      [EngineSpec] (reconciliation, totality, fairness, determinism); [LateFee].
    - [Models] (the rows), [Store] (tables, statements, the monad), [Schema] (one
      [Table] instance per table), [Logic] (rules [holds], relations [Stays],
      reads, tables with a history, and their tactics).
    - [BillingRepo] ([billing/repository.go]), [Calc] ([calc_service.go]),
      [Period] ([period_service.go]); their lemmas [BillingLemmas], [Frozen],
      [BillingSpec], [BillingGuards], [Issue], [CalcSpec] and theorems
      [BillingTheorems]. [Calc.BalanceProvider] and [Period.BalanceRecomputer]
      are the interfaces billing sees of payments.
    - [Net] (net/url, time layouts), [Gateway] ([payment/gateway/gateway.go], the
      class [PaymentGateway] with its two adapters), [Notification]
      ([notification/notification.go], [audit/audit.go]), [PaymentRepo]
      ([payment/repository.go], [balance_service.go]), [PaymentService]
      ([payment/service.go]); [PaymentSpec], [PaymentTheorems].
    - [System]: billing wired to payments as in [cmd/server], and the runs of both;
      [Ledger] (the backing of paid amounts); [SystemTheorems].
    - [BuildingRepo] ([building/repository.go], [occupancy_repository.go]),
      [BuildingService] ([service.go]), [Occupancy] ([occupancy_service.go]);
      [BuildingSpec], [BuildingTheorems].
    - [Crypto] (SHA-256, hex, random bytes), [Token] ([auth/token.go]), [Invite]
      ([invite.go]), [Password] ([password.go]), [AuthUser] ([user.go],
      [middleware.go]), [AuthHandlers] ([handlers.go], [cookies.go]); [AuthSpec]
      (roles, invites), [SessionSpec] (token families), [AccountSpec] (invites
      and accounts over runs, answers), [AuthTheorems].
    - [Calendar] (months and dates in the zone of the server), [Http] (requests,
      replies, and what the handlers share), [Maintenance] ([maintenance]),
      [Expense] ([expense]), [Announcement] ([announcement]), [Dashboard]
      ([dashboard]), [NotificationHandlers] ([notification/handlers.go]), each the
      repository, the service and the handlers of its directory. [PanelSpec] makes
      one system of their endpoints ([PanelSpec.serve_panel]); [RequestSpec],
      [ExpenseSpec], [AnnouncementSpec], [DashboardSpec]; [PanelTheorems].
    - [BuildingHandlers] ([building/handlers.go], [occupancy_handlers.go]),
      [BillingHandlers] ([billing/handlers.go]), [PaymentHandlers]
      ([payment/handlers.go]): the endpoints of the registry, of billing and of
      payments; [HandlerTheorems].
    - [Middleware] ([platform/httpx/middleware.go], [router.go]: request ids,
      Recovery, CORS), [Config] ([platform/config]), [Storage]
      ([platform/storage]: a disk beside the world, the two endpoints, and what they
      leave); [PlatformTheorems].
    - [Server] ([cmd/server/main.go] and the [Register] functions): the services
      as they are wired, the routes and what stands in front of them, and the
      sequences of requests. [ServerSpec] (what each group of routes writes),
      [ServerRun] (relations kept by any sequence), [ServerAnswers] (who can
      panic); [ServerTheorems].
    - [Process] ([main] of [cmd/server] and of [cmd/migrate], [platform/db], the
      stack of [router.go] around a request, the routes of the files): the machine
      above; [ProcessSpec] (the start over the promises of the drivers; what an
      event does to tables, disks and phase); [ProcessTheorems].
    - [Wire]: the marshalling the code writes itself ([billing/models.go],
      [building/occupancy_models.go], [payment/marshal.go]); [CalendarSpec]
      (digits; the calendar of [time] is right); [WireTheorems].
    - [Sample]: the concrete world the theorems are applied to.

    ** What the theorems show

    - The engine: shares are non-negative, add up to the amount charged, are the
      largest-remainder vector, are fair, do not depend on map order; it succeeds
      exactly on valid inputs and never panics; late fees round half up.
    - Billing: the period state machine over runs of both services; invoices of
      issued periods never change; a calculation conserves money from the cost
      items to the invoices; numbering; the lock on cost items; authorisation.
    - Payments: an application is capped and decides the status; outcomes of the
      manual and of the gateway flow on every branch; paid amounts are backed by
      verified payments; a balance is the documented position of its unit, overstated
      by the debt its open invoices carry; the redirect stays on its origin; the Zarinpal
      adapter verifies the right amount.
    - Registry: buildings keep a manager; revoking refines its specification;
      occupancy history is never rewritten; a unit has one open tenancy at most; the
      two occupant counts agree.
    - Accounts: no role changes but a resident's, to manager, and that by the grant
      of a manager only; a superadmin stays the only one; live refresh tokens never multiply; what a
      rotation does; invites are used once; a registered account can log in; the
      access token round trip; every answer is well formed; CSRF.
    - Panels, over runs of any of their calls: requests follow their workflow,
      expenses are kept and final once deleted, announcements stay well formed;
      those notified of an announcement are those who can open it; the overview
      of a building agrees with the financial report and the home page with the
      list of announcements; every call is answered.
    - A deployment, over any events: the history of every domain is kept and its
      state stays sound; what was uploaded is served as it was sent; a server that
      answers has a valid configuration, an open pool and the schema it asked for,
      and stops cleanly; every route but the public ones, those of the files included,
      runs for an active account only, and the registry for a manager; every request is answered, and a calculation and
      a page beyond 2^56 apart without a panic for Recovery to catch.
    - Endpoints: a change of a unit is in its history; an invoice is shown to its
      people only; the payment callback redirects within its site; the parsers of
      numeric parameters agree on digits.
    - Platform: a configuration that loads is valid; an unknown provider is the
      mock gateway; credentials are allowed to listed origins only; a file that
      is uploaded downloads as it was.
    - The wire: money, dates and lists of units read back as written.
    - Defects found while modelling are theorems too (races that fork a family,
      empty a building, apply a payment twice or undo an issuance; operations
      that cannot succeed; a lost invite; a page number that panics; a blank
      entry of the trail and a change missing from a history; a second owner who
      ends the first; carried debt counted twice; a missing building told from a
      forbidden one; a refusal answered as an internal error; a ledger that ends a
      day late; an orphaned file; a connection string with its password in the log).

    ** Bounds and parameters

    [Engine.Calculate] runs [Calculate_fuel] with fuel 2: a combined item calls
    the simple methods once and they do not recurse
    ([EngineSpec.Calculate_fuel_enough]); the other recursions are structural, or
    bounded by the length of their input. Parameters, each a class with the laws
    the code relies on and an instance that satisfies them: the UUID text codec,
    the JWT library, bcrypt, the Unicode tables, the collation and ILIKE of the
    database, the order in which Go visits a map, the provider behind the
    gateway, push delivery, the zone of the server ([Calendar.Location], in which
    invoices are dated and numbered, months begin and instants are written), the
    validator's view of a zero date ([BillingHandlers.RequiredDates]), lower case
    beyond ASCII ([Middleware.CaseTables]), the sniffer of content types
    ([Storage.ContentSniffer]), the database drivers and the migration library
    ([Process.PostgresDrivers], its laws in [Process.DriversOk]). The files, variables and YAML decoder a
    configuration is loaded from, and the faults of a disk, are arguments. The
    answers of the panels need no fuel; the resident's list is proved to answer
    up to page 2^56, beyond which its offset may overflow.

    ** Not modelled

    Row locks ([FOR UPDATE] is the identity); foreign keys on insertion and
    VARCHAR lengths (they are among the failures the environment may inject); the
    JSON and form decoding that gin and [encoding/json] do by reflection, and the
    SQL codecs of the driver; the limits of the connection pool; the schema
    between two versions (the tables are those of the latest one); the text
    of the log of the ORM; and the web and mobile clients (other languages). *)

From Stdlib Require Export ZArith Lia QArith Qround Qabs Lqa.
From stdpp Require Export base list strings gmap sorting.

#[global] Open Scope Z_scope.

(** ** Hint databases of the development *)

Create HintDb hamsa discriminated.
Create Rewrite HintDb arith64.
Create Rewrite HintDb hamsa_sums.

(** ** Boolean guards as propositions *)

Lemma bool_decide_eq_if {A} (P : Prop) `{Decision P} (x y : A) :
  (if bool_decide P then x else y) = (if decide P then x else y).
Proof. by case_bool_decide; case_decide. Qed.

(** [case_guards] splits every [if] and [match] the goal or a hypothesis is
    stuck on, and closes the branches that contradict each other. *)
Ltac case_guards :=
  repeat (case_match; simplify_eq/=; try done).

(** ** Sums of integers *)

Definition sumZ (l : list Z) : Z := foldr Z.add 0 l.

Definition sum_of {A} (f : A → Z) (l : list A) : Z := sumZ (f <$> l).

Lemma sumZ_app l1 l2 : sumZ (l1 ++ l2) = sumZ l1 + sumZ l2.
Proof. induction l1 as [|x l1 IH]; simpl; lia. Qed.

Lemma sumZ_Permutation l1 l2 : l1 ≡ₚ l2 → sumZ l1 = sumZ l2.
Proof. induction 1; simpl; lia. Qed.

Lemma sumZ_nonneg l : Forall (λ x, 0 ≤ x) l → 0 ≤ sumZ l.
Proof. induction 1; simpl; lia. Qed.

#[export] Instance sumZ_proper : Proper ((≡ₚ) ==> (=)) sumZ.
Proof. intros l1 l2. apply sumZ_Permutation. Qed.

Lemma sum_of_nil {A} (f : A → Z) : sum_of f [] = 0.
Proof. done. Qed.

Lemma sum_of_cons {A} (f : A → Z) x l : sum_of f (x :: l) = f x + sum_of f l.
Proof. done. Qed.

Lemma sum_of_app {A} (f : A → Z) l1 l2 :
  sum_of f (l1 ++ l2) = sum_of f l1 + sum_of f l2.
Proof. unfold sum_of. by rewrite fmap_app, sumZ_app. Qed.

Lemma sum_of_Permutation {A} (f : A → Z) l1 l2 :
  l1 ≡ₚ l2 → sum_of f l1 = sum_of f l2.
Proof. intros H. unfold sum_of. by rewrite H. Qed.

#[export] Instance sum_of_proper {A} (f : A → Z) : Proper ((≡ₚ) ==> (=)) (sum_of f).
Proof. intros l1 l2. apply sum_of_Permutation. Qed.

Lemma sum_of_nonneg {A} (f : A → Z) l :
  Forall (λ x, 0 ≤ f x) l → 0 ≤ sum_of f l.
Proof. induction 1; [done|]. rewrite sum_of_cons. lia. Qed.

Lemma sum_of_ext {A} (f g : A → Z) l :
  Forall (λ x, f x = g x) l → sum_of f l = sum_of g l.
Proof. induction 1 as [|x l Hx _ IH]; [done|]. rewrite !sum_of_cons. lia. Qed.

Lemma sum_of_fmap {A B} (f : B → Z) (g : A → B) l :
  sum_of f (g <$> l) = sum_of (f ∘ g) l.
Proof. unfold sum_of. by rewrite <- list_fmap_compose. Qed.

Lemma sum_of_le {A} (f g : A → Z) l :
  Forall (λ x, f x ≤ g x) l → sum_of f l ≤ sum_of g l.
Proof. induction 1; [done|]. rewrite !sum_of_cons. lia. Qed.

Lemma sum_of_plus {A} (f g : A → Z) l :
  sum_of (λ x, f x + g x) l = sum_of f l + sum_of g l.
Proof. induction l as [|x l IH]; [done|]. rewrite !sum_of_cons. lia. Qed.

Lemma sum_of_const {A} (c : Z) (l : list A) :
  sum_of (λ _, c) l = c * Z.of_nat (length l).
Proof. induction l as [|x l IH]; [simpl; unfold sum_of; simpl; lia|].
    rewrite sum_of_cons, IH. simpl length. lia. Qed.

Lemma sum_of_elem_le {A} (f : A → Z) l x :
  Forall (λ x, 0 ≤ f x) l → x ∈ l → f x ≤ sum_of f l.
Proof.
  intros Hl Hx. apply elem_of_Permutation in Hx as [l' Hp].
  rewrite Hp, sum_of_cons. rewrite Hp in Hl. inv Hl.
  pose proof (sum_of_nonneg f l' ltac:(done)). lia.
Qed.

#[export] Hint Rewrite @sum_of_nil @sum_of_cons @sum_of_app @sum_of_fmap : hamsa_sums.
Ltac sums := autorewrite with hamsa_sums in *.

(** ** Rationals *)

#[export] Instance Qle_decision (x y : Q) : Decision (x <= y)%Q.
Proof.
  refine (match Qle_bool x y as b return Qle_bool x y = b → _ with
          | true => λ H, left _ | false => λ H, right _ end eq_refl).
  - by apply Qle_bool_iff.
  - intros Hle. apply Qle_bool_iff in Hle. congruence.
Defined.

#[export] Instance Qlt_decision (x y : Q) : Decision (x < y)%Q.
Proof.
  destruct (decide (y <= x)%Q) as [H|H]; [right|left].
  - by apply Qle_not_lt.
  - by apply Qnot_le_lt.
Defined.

(** ** Sums of rationals *)

Definition sumQ (l : list Q) : Q := foldr Qplus 0%Q l.

Lemma sumQ_app l1 l2 : (sumQ (l1 ++ l2) == sumQ l1 + sumQ l2)%Q.
Proof. induction l1 as [|x l1 IH]; simpl; [ring|]. rewrite IH. ring. Qed.

Lemma sumQ_nonneg l : Forall (λ x, 0 <= x)%Q l → (0 <= sumQ l)%Q.
Proof.
  induction 1 as [|x l Hx _ IH]; simpl; [apply Qle_refl|].
  apply (Qplus_le_compat 0 x 0); done.
Qed.

Lemma sumQ_mult_l c l : (sumQ ((λ x, c * x) <$> l) == c * sumQ l)%Q.
Proof. induction l as [|x l IH]; simpl; [ring|]. rewrite IH. ring. Qed.

Lemma sumQ_ext {A} (f g : A → Q) l :
  Forall (λ x, f x == g x)%Q l → (sumQ (f <$> l) == sumQ (g <$> l))%Q.
Proof.
  induction 1 as [|x l Hx _ IH]; simpl; [reflexivity|]. by rewrite Hx, IH.
Qed.

(** ** Fixed-width integers *)

(** [int64] is kept as a [Z]; the operations that can leave the range wrap. *)
Definition wrap64 (z : Z) : Z := (z + 2 ^ 63) mod 2 ^ 64 - 2 ^ 63.

#[global] Arguments wrap64 : simpl never.

Definition in64 (z : Z) : Prop := - 2 ^ 63 ≤ z < 2 ^ 63.

#[export] Instance in64_dec z : Decision (in64 z).
Proof. unfold in64. apply _. Defined.

Lemma wrap64_id z : in64 z → wrap64 z = z.
Proof. unfold wrap64, in64. intros H. rewrite Z.mod_small; lia. Qed.

Lemma wrap64_in64 z : in64 (wrap64 z).
Proof.
  unfold wrap64, in64.
  pose proof (Z.mod_pos_bound (z + 2 ^ 63) (2 ^ 64) ltac:(lia)). lia.
Qed.

#[export] Hint Rewrite wrap64_id using (unfold in64 in *; lia) : arith64.
#[export] Hint Resolve wrap64_in64 : hamsa.

(** Addition and multiplication of Go's [int64]. *)
Definition add64 (a b : Z) : Z := wrap64 (a + b).
Definition sub64 (a b : Z) : Z := wrap64 (a - b).
Definition mul64 (a b : Z) : Z := wrap64 (a * b).

Lemma add64_id a b : in64 (a + b) → add64 a b = a + b.
Proof. apply wrap64_id. Qed.

Lemma wrap64_add_l a b : wrap64 (wrap64 a + b) = wrap64 (a + b).
Proof.
  unfold wrap64. f_equal.
  replace ((a + 2 ^ 63) `mod` 2 ^ 64 - 2 ^ 63 + b + 2 ^ 63)
    with ((a + 2 ^ 63) `mod` 2 ^ 64 + b) by lia.
  rewrite Zplus_mod_idemp_l. f_equal. lia.
Qed.

Definition sum64 (l : list Z) : Z := foldl add64 0 l.

Lemma foldl_add64 l a : foldl add64 (wrap64 a) l = wrap64 (a + sumZ l).
Proof.
  revert a. induction l as [|x l IH]; intros a; simpl.
  { by rewrite Z.add_0_r. }
  unfold add64 at 2. rewrite wrap64_add_l, IH. f_equal. lia.
Qed.

(** A left-to-right accumulation with wrap-around is the wrapped exact sum. *)
Lemma sum64_wrap l : sum64 l = wrap64 (sumZ l).
Proof. unfold sum64. change 0 with (wrap64 0) at 1. by rewrite foldl_add64. Qed.

(** ** Lists *)

(** [first_where p l]: the first element satisfying [p]. *)
Definition first_where {A} (p : A → bool) (l : list A) : option A := List.find p l.

Lemma first_where_Some {A} (p : A → bool) l x :
  first_where p l = Some x → x ∈ l ∧ p x.
Proof.
  intros H. apply find_some in H as [H1 H2].
  rewrite <- list_elem_of_In in H1. split; [done|by apply Is_true_true].
Qed.

Lemma first_where_None {A} (p : A → bool) l x :
  first_where p l = None → x ∈ l → p x = false.
Proof. intros H Hx. eapply find_none; [done|]. by apply list_elem_of_In. Qed.

(** ** Sorting by a Go [less] function *)

(** [sort.SliceStable] with comparison [less]: a stable merge sort for the
    relation "[b] need not come before [a]". *)
Definition sort_le {A} (less : A → A → bool) (a b : A) : Prop := less b a = false.

#[export] Instance sort_le_dec {A} (less : A → A → bool) a b :
  Decision (sort_le less a b).
Proof. unfold sort_le. apply _. Defined.

Definition sort_by {A} (less : A → A → bool) (l : list A) : list A :=
  merge_sort (sort_le less) l.

(** A strict weak order, the contract of the [less] argument. *)
Class StrictWeak {A} (less : A → A → bool) : Prop := {
  less_asym : ∀ a b, less a b = true → less b a = false;
  less_neg_trans : ∀ a b c, less b a = false → less c b = false → less c a = false;
}.

Lemma sort_by_Permutation {A} (less : A → A → bool) l : sort_by less l ≡ₚ l.
Proof. apply merge_sort_Permutation. Qed.

Section sort_by.
Context {A : Type} (less : A → A → bool) `{!StrictWeak less}.

#[local] Instance sort_le_total : Total (sort_le less).
Proof.
  intros a b. unfold sort_le. destruct (less b a) eqn:E; [right|by left].
  by apply less_asym.
Qed.

#[local] Instance sort_le_trans : Transitive (sort_le less).
Proof. intros a b c. unfold sort_le. apply less_neg_trans. Qed.

Lemma sort_by_sorted l : StronglySorted (sort_le less) (sort_by less l).
Proof. apply StronglySorted_merge_sort; apply _. Qed.

(** When no two distinct elements tie, the sorted permutation is unique, so
    neither the algorithm nor the input order can be observed. *)
Lemma sort_by_unique l1 l2 :
  (∀ a b, a ∈ l1 → b ∈ l1 → less a b = false → less b a = false → a = b) →
  l1 ≡ₚ l2 → StronglySorted (sort_le less) l2 → sort_by less l1 = l2.
Proof.
  intros Htie Hp Hs. apply (StronglySorted_unique_strong (sort_le less)).
  - intros a b Ha Hb H1 H2. apply Htie; [| |done..].
    + by rewrite sort_by_Permutation in Ha.
    + by rewrite Hp.
  - apply sort_by_sorted.
  - done.
  - by rewrite sort_by_Permutation.
Qed.

Lemma sort_by_perm_eq l1 l2 :
  (∀ a b, a ∈ l1 → b ∈ l1 → less a b = false → less b a = false → a = b) →
  l1 ≡ₚ l2 → sort_by less l1 = sort_by less l2.
Proof.
  intros Htie Hp. apply sort_by_unique; [done| |apply sort_by_sorted].
  by rewrite sort_by_Permutation.
Qed.
(** The first of a sorted list is below no other. *)
Lemma sort_by_head (l : list A) x l' :
  sort_by less l = x :: l' → x ∈ l ∧ ∀ y, y ∈ l → less y x = false.
Proof.
  intros E. pose proof (sort_by_sorted l) as Hs. pose proof (sort_by_Permutation less l) as Hp.
  rewrite E in Hs, Hp. apply StronglySorted_inv in Hs as [_ Hs]. split; [rewrite <- Hp; by left|].
  intros y Hy. rewrite <- Hp in Hy. apply elem_of_cons in Hy as [->|Hy].
  - destruct (less x x) eqn:Ex; [|done]. by rewrite (less_asym _ _ Ex) in Ex.
  - by apply (proj1 (Forall_forall _ _) Hs).
Qed.

End sort_by.

(** ** More on lists of integers *)

Lemma sumZ_le_pointwise l1 l2 : Forall2 Z.le l1 l2 → sumZ l1 ≤ sumZ l2.
Proof. induction 1; simpl; lia. Qed.

Lemma sumZ_eq_pointwise l1 l2 :
  Forall2 Z.le l1 l2 → sumZ l1 = sumZ l2 → l1 = l2.
Proof.
  induction 1 as [|x y l1 l2 Hxy Hl IH]; [done|]. simpl. intros Hs.
  pose proof (sumZ_le_pointwise _ _ Hl). f_equal; [|apply IH]; lia.
Qed.

(** Lists of equal length and sum are equal, or one is smaller somewhere. *)
Lemma sumZ_exchange l1 l2 :
  length l1 = length l2 → sumZ l1 = sumZ l2 →
  l1 = l2 ∨ ∃ i x y, l1 !! i = Some x ∧ l2 !! i = Some y ∧ y < x.
Proof.
  intros Hlen Hs.
  destruct (decide (Forall2 Z.le l1 l2)) as [H|H].
  { left. by apply sumZ_eq_pointwise. }
  right. clear Hs. revert l2 Hlen H.
  induction l1 as [|x l1 IH]; intros [|y l2] Hlen H; simplify_eq/=.
  { by destruct H. }
  destruct (decide (x ≤ y)) as [Hxy|Hxy].
  - destruct (IH l2) as (i & x' & y' & ? & ? & ?); [done| |].
    { intros Hl. apply H. by constructor. }
    by exists (S i), x', y'.
  - exists 0%nat, x, y. split_and!; [done..|lia].
Qed.

Lemma inject_Z_sumZ l : (inject_Z (sumZ l) == sumQ (inject_Z <$> l))%Q.
Proof.
  induction l as [|x l IH]; simpl; [reflexivity|]. by rewrite inject_Z_plus, IH.
Qed.

Lemma sumQ_plus {A} (f g : A → Q) l :
  (sumQ ((λ x, f x + g x) <$> l) == sumQ (f <$> l) + sumQ (g <$> l))%Q.
Proof. induction l as [|x l IH]; csimpl; [ring|]. rewrite IH. ring. Qed.

Lemma sumQ_le_length l :
  Forall (λ x, x < 1)%Q l → (sumQ l <= inject_Z (Z.of_nat (length l)))%Q.
Proof.
  induction 1 as [|x l Hx H IH]; [done|].
  simpl length. rewrite Nat2Z.inj_succ, <- Z.add_1_l, inject_Z_plus. simpl.
  change (inject_Z 1) with 1%Q. lra.
Qed.

(** Fractional part. *)
Definition Qfrac (x : Q) : Q := (x - inject_Z (Qfloor x))%Q.

Lemma Qfrac_bounds x : (0 <= Qfrac x)%Q ∧ (Qfrac x < 1)%Q.
Proof.
  unfold Qfrac. pose proof (Qfloor_le x). pose proof (Qlt_floor x) as H2.
  rewrite inject_Z_plus in H2. change (inject_Z 1) with 1%Q in H2. split; lra.
Qed.

Lemma Qfloor_nonneg x : (0 <= x)%Q → 0 ≤ Qfloor x.
Proof. intros H. apply (Qfloor_resp_le 0 x) in H. done. Qed.

Lemma NoDup_take {A} n (l : list A) : NoDup l → NoDup (take n l).
Proof. intros H. rewrite <- (take_drop n l) in H. by apply NoDup_app in H as (? & _). Qed.

Lemma Forall_filter_l {A} (P Q : A → Prop) `{∀ x, Decision (Q x)} l :
  Forall P l → Forall P (filter Q l).
Proof.
  rewrite !Forall_forall. intros H1 x Hx. apply list_elem_of_filter in Hx as [_ Hx].
  by apply H1.
Qed.

Lemma filter_none {A} (P : A → Prop) `{∀ x, Decision (P x)} l :
  (∀ x, ¬ P x) → filter P l = [].
Proof. intros Hn. induction l as [|x l IH]; [done|]. by rewrite filter_cons_False. Qed.
