(* ===== verification/Golang.v ===== *)
(** * The Go standard library, as far as the backend uses it

    Strings are byte sequences ([strings], [strconv], [fmt], [regexp]), times
    are nanoseconds since Go's zero time ([time]), rationals are [Q]
    ([math/big]) and [float64] is the binary64 of the [SpecFloat] library. *)

From Stdlib Require Import Ascii DecimalString DecimalN DecimalZ Decimal DecimalFacts.
From Stdlib Require String.
From Stdlib Require Import SpecFloat.
From S2P Require Import Prelude.

(** ** strings *)

Fixpoint HasPrefix (s pre : string) : bool :=
  match pre, s with
  | EmptyString, _ => true
  | String c pre', String d s' => bool_decide (c = d) && HasPrefix s' pre'
  | String _ _, EmptyString => false
  end.

Definition HasSuffix (s suf : string) : bool :=
  HasPrefix (String.rev s) (String.rev suf).

(** [strings.Contains(s, sub)]. *)
Fixpoint Contains (s sub : string) : bool :=
  HasPrefix s sub ||
  match s with
  | EmptyString => false
  | String _ s' => Contains s' sub
  end.

Fixpoint drop_bytes (n : nat) (s : string) : string :=
  match n, s with
  | O, _ => s
  | S n', String _ s' => drop_bytes n' s'
  | S _, EmptyString => EmptyString
  end.

(** [strings.TrimPrefix]. *)
Definition TrimPrefix (s pre : string) : string :=
  if HasPrefix s pre then drop_bytes (String.length pre) s else s.

(** Strips one of [cutset] repeatedly from the front. *)
Fixpoint trim_left_any (fuel : nat) (cutset : list string) (s : string) : string :=
  match fuel with
  | O => s
  | S fuel' =>
      match List.find (λ c, HasPrefix s c) cutset with
      | Some c => trim_left_any fuel' cutset (drop_bytes (String.length c) s)
      | None => s
      end
  end.

Definition trim_left (cutset : list string) (s : string) : string :=
  trim_left_any (String.length s) cutset s.

Definition trim_right (cutset : list string) (s : string) : string :=
  String.rev (trim_left (String.rev <$> cutset) (String.rev s)).

Definition bytes (l : list nat) : string :=
  String.string_of_list_ascii (ascii_of_nat <$> l).

(** The UTF-8 encodings of the runes [unicode.IsSpace] accepts. *)
Definition unicode_spaces : list string := bytes <$>
  [[9]; [10]; [11]; [12]; [13]; [32]; [194; 133]; [194; 160]; [225; 154; 128];
   [226; 128; 128]; [226; 128; 129]; [226; 128; 130]; [226; 128; 131];
   [226; 128; 132]; [226; 128; 133]; [226; 128; 134]; [226; 128; 135];
   [226; 128; 136]; [226; 128; 137]; [226; 128; 138]; [226; 128; 168];
   [226; 128; 169]; [226; 128; 175]; [226; 129; 159]; [227; 128; 128]]%nat.

Definition TrimSpace (s : string) : string :=
  trim_right unicode_spaces (trim_left unicode_spaces s).

(** [strings.TrimRight(s, "/")]. *)
Definition TrimRight_slash (s : string) : string := trim_right ["/"] s.

(** [strings.SplitN(s, ":", 2)[0]]: the text before the first colon. *)
Fixpoint before_colon (s : string) : string :=
  match s with
  | EmptyString => EmptyString
  | String c s' =>
      if bool_decide (c = ":"%char) then EmptyString else String c (before_colon s')
  end.

(** Number of runes of a valid UTF-8 string: the bytes that do not continue one. *)
Fixpoint rune_count (s : string) : Z :=
  match s with
  | EmptyString => 0
  | String c s' =>
      (if bool_decide (128 ≤ nat_of_ascii c < 192)%nat then 0 else 1) + rune_count s'
  end.

(** Go compares strings bytewise. *)
Definition str_lt (a b : string) : bool := String.ltb a b.

Lemma str_lt_false a b : str_lt a b = false ↔ String.le b a.
Proof.
  unfold str_lt, String.ltb, String.le, String.leb.
  rewrite (String.compare_antisym b a).
  destruct (String.compare a b); cbn; split; intros;
    (exact I || reflexivity || discriminate || contradiction).
Qed.

Lemma str_lt_tie a b : str_lt a b = false → str_lt b a = false → a = b.
Proof. rewrite !str_lt_false. intros. by apply (anti_symm String.le). Qed.

(** Sorting by a text key. *)
#[export] Instance str_key_strict {A} (key : A → string) :
  StrictWeak (λ a b, str_lt (key a) (key b)).
Proof.
  split.
  - intros a b H. destruct (str_lt (key b) (key a)) eqn:E; [|done].
    exfalso. destruct (total String.le (key a) (key b)) as [Hle|Hle];
      apply str_lt_false in Hle; congruence.
  - intros a b c. rewrite !str_lt_false. intros H1 H2. by transitivity (key b).
Qed.

Definition is_digit (c : ascii) : bool :=
  bool_decide (48 ≤ nat_of_ascii c ≤ 57)%nat.

Fixpoint all_digits (s : string) : bool :=
  match s with
  | EmptyString => true
  | String c s' => is_digit c && all_digits s'
  end.

(** ** range over a map *)

(** [for k, v := range m] visits the entries in an order the language leaves
    open, here that of [range_order]. *)
Class MapOrder := {
  range_order {A} : list A → list A;
  range_order_perm {A} (l : list A) : range_order l ≡ₚ l;
}.

(** ** strconv and fmt *)

(** [strconv.FormatInt(v, 10)] and the [%d] verb. *)
Definition FormatInt (z : Z) : string := NilZero.string_of_int (Z.to_int z).

(** Unsigned decimal text; the empty text is not a number. *)
Definition parse_digits (s : string) : option Z :=
  match s with
  | EmptyString => None
  | _ => Z.of_uint <$> NilEmpty.uint_of_string s
  end.

(** [strconv.ParseInt(s, 10, 64)]: an optional sign, digits, range check. *)
Definition ParseInt (s : string) : option Z :=
  let v := match s with
           | String "-"%char s' => Z.opp <$> parse_digits s'
           | String "+"%char s' => parse_digits s'
           | _ => parse_digits s
           end in
  z ← v; if decide (in64 z) then Some z else None.

(** [strconv.Quote] on a text without quotes, backslashes or control bytes. *)
Definition quote (s : string) : string :=
  bytes [34%nat] +:+ s +:+ bytes [34%nat].

Fixpoint zeros (n : nat) : string :=
  match n with O => EmptyString | S n' => String "0" (zeros n') end.

(** The [%04d] verb, for the width given. *)
Definition FormatPad (width : nat) (z : Z) : string :=
  let digits := FormatInt (Z.abs z) in
  if z <? 0
  then "-" +:+ zeros (width - 1 - String.length digits) +:+ digits
  else zeros (width - String.length digits) +:+ digits.

Lemma parse_digits_FormatInt z : 0 ≤ z → parse_digits (FormatInt z) = Some z.
Proof.
  intros Hz. destruct z as [|p|p]; [done| |lia].
  unfold FormatInt. cbn [Z.to_int NilZero.string_of_int].
  pose proof (DecimalPos.Unsigned.to_uint_nonnil p) as Hnil.
  assert (parse_digits (NilZero.string_of_uint (Pos.to_uint p))
          = Z.of_uint <$> NilEmpty.uint_of_string (NilEmpty.string_of_uint (Pos.to_uint p))) as ->.
  { destruct (Pos.to_uint p); done. }
  rewrite NilEmpty.usu. simpl. f_equal. apply (DecimalZ.of_to (Z.pos p)).
Qed.

Lemma parse_digits_zeros n s z :
  parse_digits s = Some z → parse_digits (zeros n +:+ s) = Some z.
Proof.
  intros H. induction n as [|n IH]; [done|].
  change (zeros (S n) +:+ s) with (String "0" (zeros n +:+ s)).
  revert IH. generalize (zeros n +:+ s) as t. intros t Ht.
  destruct t as [|c t]; [done|].
  unfold parse_digits in *.
  remember (String c t) as u eqn:Hu.
  simpl. destruct (NilEmpty.uint_of_string u); done.
Qed.

(** The padded text still denotes the number: the verb is injective. *)
Lemma parse_digits_FormatPad w z : 0 ≤ z → parse_digits (FormatPad w z) = Some z.
Proof.
  intros Hz. unfold FormatPad. destruct (Z.ltb_spec z 0); [lia|].
  rewrite Z.abs_eq by done. by apply parse_digits_zeros, parse_digits_FormatInt.
Qed.

Lemma FormatPad_inj w z1 z2 :
  0 ≤ z1 → 0 ≤ z2 → FormatPad w z1 = FormatPad w z2 → z1 = z2.
Proof.
  intros H1 H2 Heq.
  pose proof (parse_digits_FormatPad w z1 H1) as E1.
  rewrite Heq, parse_digits_FormatPad in E1 by done. congruence.
Qed.

Lemma FormatInt_nonneg_head z : 0 ≤ z →
  ∀ s, FormatInt z ≠ String "-" s ∧ FormatInt z ≠ String "+" s.
Proof.
  intros Hz s. destruct z as [|p|p]; [done| |lia].
  unfold FormatInt. cbn [Z.to_int NilZero.string_of_int].
  destruct (Pos.to_uint p); simpl; split; intros [=].
Qed.

(** [ParseInt] inverts [FormatInt] on every [int64]. *)
Lemma ParseInt_FormatInt z : in64 z → ParseInt (FormatInt z) = Some z.
Proof.
  intros Hz. unfold ParseInt. destruct (decide (0 ≤ z)) as [Hpos|Hneg].
  - pose proof (FormatInt_nonneg_head z Hpos) as Hh.
    pose proof (parse_digits_FormatInt z Hpos) as Hp.
    destruct (FormatInt z) as [|c s]; [done|].
    assert (c ≠ "-"%char) by (intros ->; by destruct (Hh s)).
    assert (c ≠ "+"%char) by (intros ->; by destruct (Hh s)).
    assert (∀ (A B C : option Z), match String c s with
      | String "-"%char _ => A | String "+"%char _ => B | _ => C end = C) as Hm.
    { intros A B C. destruct c as [[] [] [] [] [] [] [] []]; done. }
    rewrite Hm, Hp. simpl. by rewrite decide_True.
  - destruct z as [|p|p]; [lia|lia|].
    change (FormatInt (Z.neg p)) with (String "-" (FormatInt (Z.pos p))).
    cbv beta iota.
    rewrite parse_digits_FormatInt by lia. simpl. by rewrite decide_True.
Qed.

(** ** regexp *)

(** The expression [^09\d{9}$], shared by [auth] and [building]. *)
Definition mobile_re (s : string) : bool :=
  HasPrefix s "09" && bool_decide (String.length s = 11%nat) && all_digits s.

(** ** time *)

(** [time.Time] is the number of nanoseconds since January 1, year 1 UTC, the
    zero [Time] of the language. *)
Definition Time : Type := Z.

Definition Second : Z := 10 ^ 9.
Definition Hour : Z := 3600 * Second.
Definition Day : Z := 24 * Hour.

Definition IsZero (t : Time) : bool := t =? 0.
Definition After (a b : Time) : bool := b <? a.
Definition Before (a b : Time) : bool := a <? b.

(** [t.Truncate(24 * time.Hour)]. *)
Definition TruncateDay (t : Time) : Time := t - t mod Day.

Lemma TruncateDay_idem t : TruncateDay (TruncateDay t) = TruncateDay t.
Proof.
  unfold TruncateDay. assert (0 < Day) by done.
  pose proof (Z.mod_pos_bound t Day). rewrite (Z.mod_eq t Day) by lia.
  replace (t - (t - Day * (t / Day))) with ((t / Day) * Day) by lia.
  rewrite Z_mod_mult. lia.
Qed.

Definition is_leap (y : Z) : bool :=
  (y mod 4 =? 0) && (negb (y mod 100 =? 0) || (y mod 400 =? 0)).

Definition days_in_month (y m : Z) : Z :=
  if m =? 2 then (if is_leap y then 29 else 28)
  else if (m =? 4) || (m =? 6) || (m =? 9) || (m =? 11) then 30 else 31.

Definition days_before_year (y : Z) : Z :=
  let n := y - 1 in 365 * n + n / 4 - n / 100 + n / 400.

Definition days_before_month (y m : Z) : Z :=
  sum_of (λ k, days_in_month y (Z.of_nat k)) (seq 1 (Z.to_nat (m - 1))).

(** [time.Date(y, m, d, 0, 0, 0, 0, time.UTC)] for a valid date. *)
Definition DateUTC (y m d : Z) : Time :=
  (days_before_year y + days_before_month y m + (d - 1)) * Day.

(** [t.Year()], by the cycle lengths the runtime uses. *)
Definition Year (t : Time) : Z :=
  let n := t / Day in
  let n400 := n / 146097 in
  let n := n - 146097 * n400 in
  let n100 := n / 36524 in
  let n100 := n100 - n100 / 4 in
  let n := n - 36524 * n100 in
  let n4 := n / 1461 in
  let n := n - 1461 * n4 in
  let n1 := n / 365 in
  let n1 := n1 - n1 / 4 in
  400 * n400 + 100 * n100 + 4 * n4 + n1 + 1.

(** [time.Parse("2006-01-02", s)]. *)
Definition ParseDate (s : string) : option Time :=
  match s with
  | String a (String b (String c (String d (String h1
      (String e (String f (String h2 (String g (String i EmptyString))))))))) =>
      let y := String a (String b (String c (String d EmptyString))) in
      let m := String e (String f EmptyString) in
      let dd := String g (String i EmptyString) in
      if bool_decide (h1 = "-"%char) && bool_decide (h2 = "-"%char)
         && all_digits y && all_digits m && all_digits dd
      then
        y ← parse_digits y; m ← parse_digits m; dd ← parse_digits dd;
        if (1 <=? m) && (m <=? 12) && (1 <=? dd) && (dd <=? days_in_month y m)
        then Some (DateUTC y m dd) else None
      else None
  | _ => None
  end.

Example ParseDate_leap : ParseDate "2024-02-29" = Some (DateUTC 2024 2 29).
Proof. vm_compute. reflexivity. Qed.

Example Year_of_date : Year (DateUTC 2026 3 20 + 5 * Hour) = 2026.
Proof. vm_compute. reflexivity. Qed.

(** ** math/big *)

(** [new(big.Int).Quo(r.Num(), r.Denom())]: truncation toward zero. *)
Definition rat_quo (r : Q) : Z := Z.quot (Qnum r) (Zpos (Qden r)).

Definition Rat_SetInt64 (z : Z) : Q := inject_Z z.

Definition Rat_Sign (r : Q) : Z := Z.sgn (Qnum r).

Lemma rat_quo_floor r : (0 <= r)%Q → rat_quo r = Qfloor r.
Proof.
  unfold rat_quo, Qfloor, Qle. destruct r as [n d]; simpl. intros H.
  apply Z.quot_div_nonneg; lia.
Qed.

(** Round half to even of a rational. *)
Definition Q_nearest_even (r : Q) : Z :=
  let n := Qfloor r in
  match (r - inject_Z n ?= (1 # 2))%Q with
  | Lt => n
  | Gt => n + 1
  | Eq => if Z.even n then n else n + 1
  end.

Definition Q_pow2 (e : Z) : Q :=
  if 0 <=? e then inject_Z (2 ^ e) else (1 # Z.to_pos (2 ^ (- e)))%Q.

(** Binary exponent: the [e] with [2^e <= r < 2^(e+1)], for positive [r]. *)
Definition Q_exponent (r : Q) : Z :=
  let e := Z.log2 (Qnum r) - Z.log2 (Zpos (Qden r)) in
  if bool_decide (Q_pow2 e <= r)%Q then e else e - 1.

(** Rounding of a positive rational to a [prec]-bit binary float, to nearest
    even, the exponent being unbounded ([big.Float]'s 32 bits do not matter). *)
Definition round_pos_float (prec : Z) (r : Q) : Q :=
  let ulp := Q_pow2 (Q_exponent r - prec + 1) in
  (inject_Z (Q_nearest_even (r / ulp)) * ulp)%Q.

Definition round_float (prec : Z) (r : Q) : Q :=
  if Rat_Sign r =? 0 then 0%Q
  else if Rat_Sign r =? 1 then round_pos_float prec r
  else (- round_pos_float prec (- r))%Q.

Definition bit_len (z : Z) : Z := if z =? 0 then 0 else Z.log2 (Z.abs z) + 1.

(** [new(big.Float).SetRat(r)]: the precision is that of the larger of the
    two integers of the reduced fraction, at least 64. *)
Definition Float_SetRat (r : Q) : Q :=
  let r := Qred r in
  if (Qden r =? 1)%positive then r
  else round_float (Z.max 64 (Z.max (bit_len (Qnum r)) (bit_len (Zpos (Qden r))))) r.

(** [new(big.Rat).SetFloat64(f)]: exact, nil when [f] is not finite. *)
Definition Rat_SetFloat64 (f : spec_float) : option Q :=
  match f with
  | S754_zero _ => Some 0%Q
  | S754_finite s m e =>
      let v := (inject_Z (Zpos m) * Q_pow2 e)%Q in
      Some (if s then (- v)%Q else v)
  | S754_infinity _ | S754_nan => None
  end.

(** [r.FloatString(prec)]: decimal text, halves away from zero. *)
Definition FloatString (prec : nat) (r : Q) : string :=
  let r := Qred r in
  let a := Z.abs (Qnum r) in
  let b := Zpos (Qden r) in
  let p := 10 ^ Z.of_nat prec in
  let q := a / b in
  let rp := (a mod b) * p in
  let d := rp / b in
  let d := if (2 * (rp mod b) >=? b) then d + 1 else d in
  let '(q, d) := if (d >=? p) then (q + 1, d - p) else (q, d) in
  let sign := if Qnum r <? 0 then "-" else EmptyString in
  sign +:+ FormatInt q +:+
  match prec with O => EmptyString | _ => "." +:+ FormatPad prec d end.

Example FloatString_third : FloatString 4 (1000 # 3) = "333.3333".
Proof. vm_compute. reflexivity. Qed.

(** [float64] division, rounding to nearest even. *)
Definition float64_div (a b : spec_float) : spec_float := SFdiv 53 1024 a b.

(** The [float64] of a small integer constant. *)
Definition float64_of_Z (z : Z) : spec_float := binary_normalize 53 1024 z 0 false.

Definition float64_half : spec_float := S754_finite false 4503599627370496 (-53).

Example float64_half_exact : Rat_SetFloat64 float64_half ≠ None ∧
  float64_half = float64_div (float64_of_Z 1) (float64_of_Z 2).
Proof. vm_compute. split; [done|reflexivity]. Qed.

(** [int64(f)]; out of range, the platform gives the least integer. *)
Definition int64_of_float (f : spec_float) : Z :=
  match Rat_SetFloat64 f with
  | Some q => let z := rat_quo q in if decide (in64 z) then z else - 2 ^ 63
  | None => - 2 ^ 63
  end.

(** [t.Sub(u)] in nanoseconds, saturating at the ends of [int64]. *)
Definition Time_Sub (t u : Time) : Z := Z.max (- 2 ^ 63) (Z.min (2 ^ 63 - 1) (t - u)).

(** [d.Seconds()]: whole seconds plus the fraction, as a [float64]. *)
Definition Duration_Seconds (d : Z) : spec_float :=
  SFadd 53 1024 (float64_of_Z (Z.quot d Second))
    (float64_div (float64_of_Z (Z.rem d Second)) (float64_of_Z Second)).

Example fifteen_minutes : int64_of_float (Duration_Seconds (900 * Second - 1)) = 899.
Proof. vm_compute. reflexivity. Qed.
