(* ===== verification/Calendar.v ===== *)
(** * Months

    The months of [time]: the month of an instant, the first of a month, and
    the [YYYY-MM] text. A date column is compared with the date of an instant in
    its location. *)

From Stdlib Require Import Ascii.
From S2P Require Import Prelude Golang.

(** The zone of the server: what is added to an instant to read its clock. *)
Class Location := { utc_offset : Time → Z }.

(** [t.Month()]. *)
Definition Month (t : Time) : Z :=
  let y := Year t in
  let day := t / Day - days_before_year y in
  1 + Z.of_nat (length (List.filter (λ k, days_before_month y (Z.of_nat k) <=? day) (seq 2 11))).

(** [time.Date(y, m, 1, ...)] and the same [AddDate(0, 1, 0)] later. *)
Definition first_of (y m : Z) : Time := DateUTC y m 1.
Definition first_of_next (y m : Z) : Time :=
  if m =? 12 then DateUTC (y + 1) 1 1 else DateUTC y (m + 1) 1.

(** [t.Format("2006-01")]. *)
Definition FormatMonth (y m : Z) : string := FormatPad 4 y +:+ "-" +:+ FormatPad 2 m.

(** [t.Day()]. *)
Definition DayOfMonth (t : Time) : Z :=
  let y := Year t in
  t / Day - days_before_year y - days_before_month y (Month t) + 1.

(** [t.Format("2006-01-02")] of a clock reading. *)
Definition FormatDate (t : Time) : string :=
  FormatMonth (Year t) (Month t) +:+ "-" +:+ FormatPad 2 (DayOfMonth t).

Section location.
Context {loc : Location}.

(** What the clock of the server reads at an instant, and its date. *)
Definition local (t : Time) : Time := t + utc_offset t.
Definition local_date (t : Time) : Time := TruncateDay (local t).

(** [Z07:00]. *)
Definition FormatZone (offset : Z) : string :=
  if offset =? 0 then "Z" else
  let minutes := Z.abs offset / (60 * Second) in
  (if offset <? 0 then "-" else "+") +:+ FormatPad 2 (minutes / 60) +:+ ":"
    +:+ FormatPad 2 (minutes mod 60).

(** [t.Format(time.RFC3339)] of an instant read from the store, which is in the
    zone of the server. *)
Definition FormatRFC3339 (t : Time) : string :=
  let s := local t mod Day / Second in
  FormatDate (local t) +:+ "T" +:+ FormatPad 2 (s / 3600) +:+ ":" +:+ FormatPad 2 (s / 60 mod 60)
    +:+ ":" +:+ FormatPad 2 (s mod 60) +:+ FormatZone (utc_offset t).

(** [time.Date(t.Year(), t.Month(), 1, ...)] in the zone of [t], and the same
    [AddDate(0, 1, 0)] later, as the dates the store compares with. *)
Definition monthFloor (t : Time) : Time := first_of (Year (local t)) (Month (local t)).
Definition monthEnd (t : Time) : Time := first_of_next (Year (local t)) (Month (local t)).
End location.

#[local] Instance tehran : Location := {| utc_offset _ := 12600 * Second |}.

Example FormatRFC3339_sample :
  FormatRFC3339 (DateUTC 2026 3 20 + 22 * Hour) = "2026-03-21T01:30:00+03:30".
Proof. vm_compute. reflexivity. Qed.

Example monthFloor_sample : monthFloor (DateUTC 2026 3 31 + 22 * Hour) = DateUTC 2026 4 1.
Proof. vm_compute. reflexivity. Qed.

Example Month_march : Month (DateUTC 2024 3 1) = 3 ∧ Month (DateUTC 2024 3 1 - Second) = 2 ∧
  Month (DateUTC 2025 12 31) = 12 ∧ Month (DateUTC 2026 1 1) = 1.
Proof. vm_compute. repeat split. Qed.

Example FormatMonth_sample : FormatMonth 2026 3 = "2026-03".
Proof. vm_compute. reflexivity. Qed.
