(* ===== verification/Errors.v ===== *)
(** * Errors

    [internal/platform/httpx/errors.go]: the application error carried through
    every service and the way it is rendered; and the Go [error] values the
    backend inspects ([errors.Is], [errors.As], [%w] wrapping), with the result
    type of a call that can fail or panic. *)

From S2P Require Import Prelude Golang.

(** ** httpx.AppError *)

Record FieldError := MkFieldError { fe_Field : string; fe_Rule : string }.

Record AppError := MkAppError {
  ae_Status : Z;
  ae_Code : string;
  ae_Message : string;
  ae_Details : list FieldError;
}.

#[export] Instance FieldError_eq_dec : EqDecision FieldError.
Proof. solve_decision. Defined.
#[export] Instance AppError_eq_dec : EqDecision AppError.
Proof. solve_decision. Defined.

Definition AppError_Error (e : AppError) : string := ae_Code e +:+ ": " +:+ ae_Message e.

Definition BadRequest (msg : string) : AppError := MkAppError 400 "VALIDATION_ERROR" msg [].
Definition Unauthorized (msg : string) : AppError := MkAppError 401 "UNAUTHENTICATED" msg [].
Definition Forbidden (msg : string) : AppError := MkAppError 403 "FORBIDDEN" msg [].
Definition NotFound (msg : string) : AppError := MkAppError 404 "NOT_FOUND" msg [].
Definition Conflict (msg : string) : AppError := MkAppError 409 "CONFLICT" msg [].
Definition RateLimited (msg : string) : AppError := MkAppError 429 "RATE_LIMITED" msg [].
Definition Internal (msg : string) : AppError := MkAppError 500 "INTERNAL" msg [].

Definition WithDetail (e : AppError) (field rule : string) : AppError :=
  MkAppError (ae_Status e) (ae_Code e) (ae_Message e)
    (ae_Details e ++ [MkFieldError field rule]).

Definition ErrInternal : AppError := Internal "خطای داخلی سرور. لطفاً دوباره تلاش کنید.".

(** ** error values *)

Inductive GoError :=
  | EApp (e : AppError)                      (** [*httpx.AppError] *)
  | ESentinel (name msg : string)            (** a package-level [errors.New] *)
  | EWrap (pre : string) (e : GoError) (post : string) (** [fmt.Errorf("pre%wpost")] *)
  | EText (msg : string)                     (** any other error, no identity *)
  | EPg (code : string).                     (** [*pgconn.PgError] *)

#[export] Instance GoError_eq_dec : EqDecision GoError.
Proof. solve_decision. Defined.

Fixpoint Error (e : GoError) : string :=
  match e with
  | EApp e => AppError_Error e
  | ESentinel _ msg => msg
  | EWrap pre e post => pre +:+ Error e +:+ post
  | EText msg => msg
  | EPg code => "ERROR (SQLSTATE " +:+ code +:+ ")"
  end.

(** [errors.Is(err, target)] for a sentinel target. *)
Fixpoint errors_Is (e target : GoError) : bool :=
  bool_decide (e = target) ||
  match e with EWrap _ e' _ => errors_Is e' target | _ => false end.

(** [errors.As(err, &appErr)]. *)
Fixpoint errors_As_AppError (e : GoError) : option AppError :=
  match e with
  | EApp e => Some e
  | EWrap _ e' _ => errors_As_AppError e'
  | _ => None
  end.

(** [errors.As(err, &pgErr)], the SQLSTATE. *)
Fixpoint errors_As_PgError (e : GoError) : option string :=
  match e with
  | EPg code => Some code
  | EWrap _ e' _ => errors_As_PgError e'
  | _ => None
  end.

Definition gorm_ErrRecordNotFound : GoError :=
  ESentinel "gorm.ErrRecordNotFound" "record not found".

(** [errors.Is(err, gorm.ErrRecordNotFound)] mapped to a 404. *)
Definition not_found_as (msg : string) (e : GoError) : GoError :=
  if errors_Is e gorm_ErrRecordNotFound then EApp (NotFound msg) else e.

(** ** Results: a value, an [error], or a run-time panic *)

Inductive Res (A : Type) :=
  | Ok (a : A)
  | Err (e : GoError)
  | Panic (why : string).
Arguments Ok {A} a.
Arguments Err {A} e.
Arguments Panic {A} why.

#[export] Instance Res_ret : MRet Res := @Ok.
#[export] Instance Res_bind : MBind Res := λ A B f m,
  match m with Ok a => f a | Err e => Err e | Panic w => Panic w end.

Lemma Res_bind_Ok {A B} (m : Res A) (f : A → Res B) b :
  m ≫= f = Ok b ↔ ∃ a, m = Ok a ∧ f a = Ok b.
Proof. destruct m; simpl; naive_solver. Qed.

(** ** httpx.WriteError *)

(** The status and body of the response: an [AppError] is rendered as it is,
    anything else is a sanitised 500. *)
Definition WriteError (err : GoError) : AppError :=
  let appErr := match errors_As_AppError err with
                | Some e => e
                | None => ErrInternal
                end in
  if (ae_Status appErr >=? 500) && bool_decide (ae_Message appErr = ae_Message ErrInternal)
  then ErrInternal else appErr.
