(* ===== verification/Engine.v ===== *)
(** * The charge-calculation engine

    [internal/billing/engine/engine.go]: six calculation methods over exact
    rationals, largest-remainder rounding to integer Toman. *)

From S2P Require Import Prelude Golang Errors.

(** ** Data *)

Definition MethodEqual : string := "equal".
Definition MethodPerOccupant : string := "per_occupant".
Definition MethodPerArea : string := "per_area".
Definition MethodFixed : string := "fixed".
Definition MethodSpecificUnits : string := "specific_units".
Definition MethodCombined : string := "combined".

Record ComboWeight := MkComboWeight {
  ew_Method : string;
  ew_Weight : Z;
  ew_FixedAmountPerUnit : Z;
}.

Record CostItem := MkCostItem {
  ei_ID : string;
  ei_Total : Z;
  ei_Method : string;
  ei_FixedAmountPerUnit : Z;
  ei_ComboWeights : list ComboWeight;
  ei_IncludeVacant : bool;
  ei_UnitIDs : list string;
}.

Record EUnit := MkEUnit {
  eu_ID : string;
  eu_Occupants : Z;
  eu_AreaM2 : Z;
  eu_Vacant : bool;
}.

Record Share := MkShare {
  sh_UnitID : string;
  sh_Exact : Q;
  sh_Rounded : Z;
}.

Record ItemResult := MkItemResult {
  ir_CostItemID : string;
  ir_TotalUsed : Z;
  ir_Shares : list Share;
  ir_Reconciled : bool;
}.

Definition ErrNoParticipants := ESentinel "engine.ErrNoParticipants"
  "هیچ واحد مشارکت‌کننده‌ای برای این قلم هزینه وجود ندارد".
Definition ErrZeroFactor := ESentinel "engine.ErrZeroFactor"
  "عامل مشارکت صفر است (جمع شمارنده‌ها/متراژها صفر است)".
Definition ErrSpecificUnitsEmpty := ESentinel "engine.ErrSpecificUnitsEmpty"
  "هیچ واحدی برای این قلم هزینه انتخاب نشده است".
Definition ErrBadWeights := ESentinel "engine.ErrBadWeights"
  "وزن‌های روش ترکیبی نامعتبر است (باید جمعاً ۱۰۰ و بزرگ‌تر از صفر باشند)".
Definition ErrNonPositiveTotal := ESentinel "engine.ErrNonPositiveTotal"
  "مبلغ قلم هزینه باید بزرگ‌تر از صفر باشد".
Definition ErrUnknownMethod := ESentinel "engine.ErrUnknownMethod"
  "روش محاسبه نامعتبر است".
Definition ErrUnknownLateFee := ESentinel "engine.ErrUnknownLateFee"
  "نوع دیرکرد نامعتبر است".

(** ** Largest-remainder rounding *)

(** [type rem struct] of [allocateLargestRemainder]. *)
Record rem := MkRem { rem_idx : nat; rem_frac : Q }.

(** The comparison handed to [sort.SliceStable]. *)
Definition rem_less (a b : rem) : bool :=
  match (rem_frac a ?= rem_frac b)%Q with
  | Eq => (rem_idx a <? rem_idx b)%nat
  | Gt => true
  | Lt => false
  end.

(** The last loop: one unit to each of the first [n] remainders. Indexing past
    the end of [rems] panics. *)
Fixpoint hand_out (n : nat) (rems : list rem) (out : list Z) : Res (list Z) :=
  match n, rems with
  | O, _ => Ok out
  | S _, [] => Panic "index out of range"
  | S n', r :: rems' => hand_out n' rems' (alter (λ x, add64 x 1) (rem_idx r) out)
  end.

Definition rems_of (exact : list Q) : list rem :=
  imap (λ i e, MkRem i (e - inject_Z (rat_quo e))%Q) exact.

Definition allocateLargestRemainder (total : Z) (exact : list Q) : Res (list Z) :=
  let out := (λ e, wrap64 (rat_quo e)) <$> exact in
  let leftover := sub64 total (sum64 out) in
  if leftover <=? 0 then Ok out
  else hand_out (Z.to_nat leftover) (sort_by rem_less (rems_of exact)) out.

(** ** Distribution *)

Definition share_less (a b : Share) : bool := str_lt (sh_UnitID a) (sh_UnitID b).

Definition sortShares (shares : list Share) : list Share := sort_by share_less shares.

Definition sumShares (res : ItemResult) : Z := sum64 (sh_Rounded <$> ir_Shares res).

Definition participants (item : CostItem) (units : list EUnit) : list EUnit :=
  filter (λ u, ¬ (eu_Vacant u = true ∧ ei_IncludeVacant item = false)) units.

(** The [shares] literal of [distribute], before sorting. *)
Definition mk_shares (els : list EUnit) (exacts : list Q) (rounded : list Z) : list Share :=
  zip_with (λ u '(x, r), MkShare (eu_ID u) x r) els (zip exacts rounded).

Definition distribute (itemID : string) (total : Z) (els : list EUnit)
    (weight : EUnit → Q) : Res ItemResult :=
  if decide (els = []) then Err ErrNoParticipants else
  let weights := weight <$> els in
  let sum := sumQ weights in
  if Rat_Sign sum =? 0 then Err ErrZeroFactor else
  let exacts := (λ w, inject_Z total * (w / sum))%Q <$> weights in
  rounded ← allocateLargestRemainder total exacts;
  let shares := sortShares (mk_shares els exacts rounded) in
  let roundedSum := sum64 (sh_Rounded <$> shares) in
  Ok (MkItemResult itemID total shares (roundedSum =? total)).

Definition ratOne : Q := 1.

Definition calcFixed (item : CostItem) (units : list EUnit) : Res ItemResult :=
  let els := participants item units in
  if decide (els = []) then Err ErrNoParticipants else
  let total := mul64 (ei_FixedAmountPerUnit item) (Z.of_nat (length els)) in
  let shares := (λ u, MkShare (eu_ID u) (Rat_SetInt64 (ei_FixedAmountPerUnit item))
                        (ei_FixedAmountPerUnit item)) <$> els in
  Ok (MkItemResult (ei_ID item) total (sortShares shares) true).

Definition calcSpecific (item : CostItem) (units : list EUnit) : Res ItemResult :=
  if decide (ei_UnitIDs item = []) then Err ErrSpecificUnitsEmpty else
  let want : gset string := list_to_set (ei_UnitIDs item) in
  let els := filter (λ u, eu_ID u ∈ want) units in
  if decide (els = []) then Err ErrSpecificUnitsEmpty else
  distribute (ei_ID item) (ei_Total item) els (λ _, ratOne).

(** ** The combined method *)

(** [acc.Exact.Add(...)], [acc.Rounded += ...] for one share of a sub-result. *)
Definition add_share (perUnit : gmap string Share) (sh : Share) : gmap string Share :=
  let acc := default (MkShare (sh_UnitID sh) 0%Q 0) (perUnit !! sh_UnitID sh) in
  <[sh_UnitID sh := MkShare (sh_UnitID acc) (sh_Exact acc + sh_Exact sh)%Q
                      (add64 (sh_Rounded acc) (sh_Rounded sh))]> perUnit.

(** The weight checks: every weight positive, none combined, sum exactly 100. *)
Definition combo_weights_ok (ws : list ComboWeight) : bool :=
  negb (bool_decide (ws = [])) &&
  forallb (λ w, negb ((ew_Weight w <=? 0) || bool_decide (ew_Method w = MethodCombined))) ws &&
  (sum64 (ew_Weight <$> ws) =? 100).

Definition combo_sub (item : CostItem) (w : ComboWeight) (pool : Z) : CostItem :=
  MkCostItem (ei_ID item) pool (ew_Method w) (ew_FixedAmountPerUnit w) []
    (ei_IncludeVacant item) [].

Section combined.
(** The recursive call of [calcCombined] to [Calculate]. *)
Context (calculate : CostItem → list EUnit → Res ItemResult).

Definition combo_component (item : CostItem) (units : list EUnit)
    (w : ComboWeight) (pool : Z) : Res ItemResult :=
  let sub := combo_sub item w pool in
  if decide (ew_Method w = MethodFixed)
  then distribute (ei_ID sub) pool (participants sub units) (λ _, ratOne)
  else calculate sub units.

Fixpoint combo_loop (item : CostItem) (units : list EUnit)
    (ws : list (ComboWeight * Z)) (running : Z) (perUnit : gmap string Share)
    : Res (Z * gmap string Share) :=
  match ws with
  | [] => Ok (running, perUnit)
  | (w, pool) :: ws' =>
      res ← combo_component item units w pool;
      combo_loop item units ws' (add64 running (sumShares res))
        (foldl add_share perUnit (ir_Shares res))
  end.

Definition combo_pools (item : CostItem) : list Q :=
  (λ w, (inject_Z (ei_Total item) * inject_Z (ew_Weight w)) / inject_Z 100)%Q
    <$> ei_ComboWeights item.

(** The final [range] over [perUnit] visits the map in an unspecified order,
    the argument [enum]. *)
Definition calcCombined_enum (enum : gmap string Share → list Share)
    (item : CostItem) (units : list EUnit) : Res ItemResult :=
  if negb (combo_weights_ok (ei_ComboWeights item)) then Err ErrBadWeights else
  pools ← allocateLargestRemainder (ei_Total item) (combo_pools item);
  '(running, perUnit) ←
    combo_loop item units (zip (ei_ComboWeights item) pools) 0 ∅;
  Ok (MkItemResult (ei_ID item) (ei_Total item)
        (sortShares (enum perUnit)) (running =? ei_Total item)).

Definition calcCombined : CostItem → list EUnit → Res ItemResult :=
  calcCombined_enum (λ m, (map_to_list m).*2).
End combined.

(** ** Calculate *)

Definition non_positive_total (item : CostItem) : GoError :=
  EWrap "" ErrNonPositiveTotal (": قلم " +:+ ei_ID item).

(** [Calculate] and [calcCombined] call each other; a component of a combined
    item is never combined itself, so the recursion is two calls deep. *)
Fixpoint Calculate_fuel (fuel : nat) (item : CostItem) (units : list EUnit)
    : Res ItemResult :=
  match fuel with
  | O => Panic "fuel"
  | S fuel' =>
    let m := ei_Method item in
    if (ei_Total item <=? 0) && negb (bool_decide (m = MethodFixed))
    then Err (non_positive_total item) else
    if bool_decide (m = MethodFixed) && (ei_FixedAmountPerUnit item <=? 0)
    then Err (non_positive_total item) else
    if decide (m = MethodEqual) then
      distribute (ei_ID item) (ei_Total item) (participants item units) (λ _, ratOne)
    else if decide (m = MethodPerOccupant) then
      distribute (ei_ID item) (ei_Total item) (participants item units)
        (λ u, Rat_SetInt64 (eu_Occupants u))
    else if decide (m = MethodPerArea) then
      distribute (ei_ID item) (ei_Total item) (participants item units)
        (λ u, Rat_SetInt64 (eu_AreaM2 u))
    else if decide (m = MethodFixed) then calcFixed item units
    else if decide (m = MethodSpecificUnits) then calcSpecific item units
    else if decide (m = MethodCombined) then
      calcCombined (Calculate_fuel fuel') item units
    else Err (EWrap "" ErrUnknownMethod (": " +:+ m))
  end.

Definition Calculate (item : CostItem) (units : list EUnit) : Res ItemResult :=
  Calculate_fuel 2 item units.
