(* ===== verification/EngineRounding.v ===== *)
(** * Largest-remainder rounding

    [allocateLargestRemainder] implements the largest-remainder method: its
    result is the unique vector the declarative specification [LargestRemainder]
    accepts. *)

From S2P Require Import Prelude Golang Errors Engine.

(** ** The specification *)

Record LargestRemainder (total : Z) (exact : list Q) (out : list Z) : Prop := {
  lr_length : length out = length exact;
  lr_sum : sumZ out = total;
  lr_floor : ∀ i e r, exact !! i = Some e → out !! i = Some r →
    r = Qfloor e ∨ r = Qfloor e + 1;
  lr_order : ∀ i j e f, exact !! i = Some e → exact !! j = Some f →
    out !! i = Some (Qfloor e + 1) → out !! j = Some (Qfloor f) →
    (Qfrac f < Qfrac e)%Q ∨ (Qfrac f == Qfrac e)%Q ∧ (i < j)%nat;
}.

(** Two vectors accepted for the same input are equal. *)
Lemma LargestRemainder_unique total exact out1 out2 :
  LargestRemainder total exact out1 → LargestRemainder total exact out2 → out1 = out2.
Proof.
  intros H1 H2.
  destruct (sumZ_exchange out1 out2) as [|(i & x1 & x2 & Hi1 & Hi2 & Hi)];
    [by rewrite (lr_length _ _ _ H1), (lr_length _ _ _ H2)
    |by rewrite (lr_sum _ _ _ H1), (lr_sum _ _ _ H2)|done|].
  destruct (sumZ_exchange out2 out1) as [|(j & y2 & y1 & Hj2 & Hj1 & Hj)];
    [by rewrite (lr_length _ _ _ H1), (lr_length _ _ _ H2)
    |by rewrite (lr_sum _ _ _ H1), (lr_sum _ _ _ H2)|done|].
  destruct (lookup_lt_is_Some_2 exact i) as [e He].
  { rewrite <- (lr_length _ _ _ H1). by eapply lookup_lt_Some. }
  destruct (lookup_lt_is_Some_2 exact j) as [f Hf].
  { rewrite <- (lr_length _ _ _ H1). by eapply lookup_lt_Some. }
  pose proof (lr_floor _ _ _ H1 _ _ _ He Hi1). pose proof (lr_floor _ _ _ H2 _ _ _ He Hi2).
  pose proof (lr_floor _ _ _ H1 _ _ _ Hf Hj1). pose proof (lr_floor _ _ _ H2 _ _ _ Hf Hj2).
  assert (x1 = Qfloor e + 1) as -> by lia. assert (x2 = Qfloor e) as -> by lia.
  assert (y2 = Qfloor f + 1) as -> by lia. assert (y1 = Qfloor f) as -> by lia.
  pose proof (lr_order _ _ _ H1 i j e f He Hf Hi1 Hj1) as Ho1.
  pose proof (lr_order _ _ _ H2 j i f e Hf He Hj2 Hi2) as Ho2.
  destruct Ho1 as [Hlt1|[Heq1 ?]], Ho2 as [Hlt2|[Heq2 ?]]; exfalso; [lra..|lia].
Qed.

(** ** The comparison is a strict weak order, and ties are impossible *)

#[export] Instance rem_less_strict : StrictWeak rem_less.
Proof.
  unfold rem_less. split.
  - intros [i x] [j y]; simpl. rewrite <- (Qcompare_antisym x y).
    destruct (x ?= y)%Q; simpl; [|done..]. rewrite Nat.ltb_lt, Nat.ltb_ge. lia.
  - intros [i x] [j y] [k z]; simpl.
    destruct (Qcompare_spec y x), (Qcompare_spec z y), (Qcompare_spec z x);
      try done; rewrite ?Nat.ltb_ge; try lia; exfalso; lra.
Qed.

Lemma rems_of_lookup exact i r :
  rems_of exact !! i = Some r →
  rem_idx r = i ∧ ∃ e, exact !! i = Some e ∧ rem_frac r = (e - inject_Z (rat_quo e))%Q.
Proof.
  unfold rems_of. rewrite list_lookup_imap. intros H.
  apply fmap_Some in H as (e & He & ->). eauto.
Qed.

Lemma rem_idx_rems_of exact : rem_idx <$> rems_of exact = seq 0 (length exact).
Proof.
  unfold rems_of. rewrite fmap_imap. apply list_eq. intros i.
  rewrite list_lookup_imap. destruct (exact !! i) as [e|] eqn:He; simpl.
  - rewrite lookup_seq_lt; [done|]. by eapply lookup_lt_Some.
  - rewrite lookup_seq_ge; [done|]. by apply lookup_ge_None.
Qed.

(** ** The hand-out loop *)

(** [bump S out]: one more unit at every index of [S]. *)
Definition bump (S : list nat) (out : list Z) : list Z :=
  imap (λ i x, if decide (i ∈ S) then add64 x 1 else x) out.

Lemma bump_nil out : bump [] out = out.
Proof.
  unfold bump. apply list_eq. intros j. rewrite list_lookup_imap.
  by destruct (out !! j).
Qed.

Lemma bump_cons i S out : i ∉ S →
  bump S (alter (λ x, add64 x 1) i out) = bump (i :: S) out.
Proof.
  intros Hi. unfold bump. apply list_eq. intros j. rewrite !list_lookup_imap.
  destruct (decide (j = i)) as [->|Hji].
  - rewrite list_lookup_alter_eq. destruct (out !! i); simpl; [|done].
    rewrite decide_False by done. rewrite decide_True by set_solver. done.
  - rewrite list_lookup_alter_ne by done. destruct (out !! j); simpl; [|done].
    destruct (decide (j ∈ S)); [rewrite decide_True by set_solver|
      rewrite decide_False by set_solver]; done.
Qed.

(** The loop does not run off the end of [rems] as long as there are enough of
    them, and it serves the first [n] indices. *)
Lemma hand_out_spec n rems out :
  (n ≤ length rems)%nat → NoDup (rem_idx <$> rems) →
  hand_out n rems out = Ok (bump (rem_idx <$> take n rems) out).
Proof.
  revert rems out. induction n as [|n IH]; intros rems out Hn Hnd.
  { by rewrite take_0, bump_nil. }
  destruct rems as [|r rems]; [simpl in Hn; lia|]. csimpl in Hnd. inv Hnd.
  simpl. rewrite IH; [|simpl in Hn; lia|done].
  rewrite bump_cons; [done|]. intros Hin.
  apply list_elem_of_fmap in Hin as (r' & Heq & Hin). rewrite Heq in *.
  apply (H1). apply list_elem_of_fmap_2. by eapply elem_of_take in Hin as (? & ? & _); eapply list_elem_of_lookup_2.
Qed.

Lemma sumZ_alter_succ i l x :
  l !! i = Some x → in64 (x + 1) →
  sumZ (alter (λ x, add64 x 1) i l) = sumZ l + 1.
Proof.
  revert i. induction l as [|y l IH]; intros [|i] Hi Hx; simplify_eq/=.
  - rewrite add64_id by done. lia.
  - change (y + sumZ (alter (λ x, add64 x 1) i l) = y + sumZ l + 1).
    rewrite IH by done. lia.
Qed.

Lemma sumZ_bump S l :
  NoDup S → (∀ i, i ∈ S → ∃ x, l !! i = Some x ∧ in64 (x + 1)) →
  sumZ (bump S l) = sumZ l + Z.of_nat (length S).
Proof.
  revert l. induction S as [|i S IH]; intros l Hnd Hin.
  { rewrite bump_nil. simpl. lia. }
  inv Hnd. rewrite <- bump_cons by done. rewrite IH; [|done|].
  - destruct (Hin i) as (x & Hx & ?); [set_solver|].
    rewrite (sumZ_alter_succ _ _ x) by done. simpl length. lia.
  - intros j Hj. rewrite list_lookup_alter_ne by set_solver.
    apply Hin. set_solver.
Qed.

Lemma bump_lookup S l i x :
  l !! i = Some x →
  bump S l !! i = Some (if decide (i ∈ S) then add64 x 1 else x).
Proof. intros H. unfold bump. by rewrite list_lookup_imap, H. Qed.

(** ** allocateLargestRemainder meets the specification *)

Section allocate.
Context (total : Z) (exact : list Q).
Context (Hpos : Forall (λ e, 0 <= e)%Q exact).
Context (Hsum : (sumQ exact == inject_Z total)%Q).
Context (Hrange : in64 total).

Let floors : list Z := Qfloor <$> exact.

Lemma alloc_leftover : (inject_Z (total - sumZ floors) == sumQ (Qfrac <$> exact))%Q.
Proof.
  unfold Z.sub. rewrite inject_Z_plus, inject_Z_opp, <- Hsum, inject_Z_sumZ.
  unfold floors. clear. induction exact as [|e l IH]; csimpl; [ring|].
  rewrite <- IH. unfold Qfrac. ring.
Qed.

Lemma alloc_floors_nonneg : Forall (λ x, 0 ≤ x) floors.
Proof.
  apply Forall_fmap. eapply Forall_impl; [exact Hpos|]. apply Qfloor_nonneg.
Qed.

Lemma alloc_leftover_nonneg : 0 ≤ total - sumZ floors.
Proof.
  rewrite Zle_Qle, alloc_leftover. apply sumQ_nonneg, Forall_fmap.
  apply Forall_true. intros x. apply Qfrac_bounds.
Qed.

Lemma alloc_leftover_le : total - sumZ floors ≤ Z.of_nat (length exact).
Proof.
  rewrite Zle_Qle, alloc_leftover, <- (length_fmap Qfrac). apply sumQ_le_length.
  apply Forall_fmap, Forall_true. intros x. apply Qfrac_bounds.
Qed.

Lemma alloc_floor_le i x : floors !! i = Some x → 0 ≤ x ≤ sumZ floors.
Proof.
  intros Hx. apply list_elem_of_lookup_2 in Hx.
  pose proof alloc_floors_nonneg as Hn. rewrite Forall_forall in Hn.
  split; [by apply Hn|].
  replace (sumZ floors) with (sum_of id floors) by (unfold sum_of; by rewrite list_fmap_id).
  apply (sum_of_elem_le id); [by apply Forall_forall|done].
Qed.

Lemma alloc_out : (λ e, wrap64 (rat_quo e)) <$> exact = floors.
Proof.
  apply list_fmap_ext. intros i e He.
  rewrite rat_quo_floor by (eapply Forall_lookup_1; eauto).
  apply wrap64_id. destruct (alloc_floor_le i (Qfloor e)) as [? ?].
  { unfold floors. by rewrite list_lookup_fmap, He. }
  pose proof alloc_leftover_nonneg. unfold in64 in *. lia.
Qed.

Lemma alloc_sub : sub64 total (sum64 floors) = total - sumZ floors.
Proof.
  pose proof alloc_leftover_nonneg. pose proof (sumZ_nonneg _ alloc_floors_nonneg).
  unfold sub64. rewrite sum64_wrap, (wrap64_id (sumZ floors)), wrap64_id; unfold in64 in *; lia.
Qed.

Let S : list nat :=
  rem_idx <$> take (Z.to_nat (total - sumZ floors)) (sort_by rem_less (rems_of exact)).

Lemma sorted_rems_idx :
  rem_idx <$> sort_by rem_less (rems_of exact) ≡ₚ seq 0 (length exact).
Proof. by rewrite sort_by_Permutation, rem_idx_rems_of. Qed.

Lemma alloc_result : allocateLargestRemainder total exact = Ok (bump S floors).
Proof.
  unfold allocateLargestRemainder. rewrite alloc_out, alloc_sub.
  pose proof alloc_leftover_nonneg.
  destruct (Z.leb_spec (total - sumZ floors) 0) as [Hle|Hgt].
  { unfold S. replace (Z.to_nat (total - sumZ floors)) with 0%nat by lia.
    by rewrite take_0, bump_nil. }
  apply hand_out_spec.
  - rewrite <- (length_fmap rem_idx), sorted_rems_idx, length_seq.
    pose proof alloc_leftover_le. lia.
  - rewrite sorted_rems_idx. apply NoDup_seq.
Qed.
End allocate.

Section allocate_spec.
Context (total : Z) (exact : list Q).
Context (Hpos : Forall (λ e, 0 <= e)%Q exact).
Context (Hsum : (sumQ exact == inject_Z total)%Q).
Context (Hrange : in64 total).

Let floors : list Z := Qfloor <$> exact.
Let k : nat := Z.to_nat (total - sumZ floors).
Let sorted : list rem := sort_by rem_less (rems_of exact).
Let S : list nat := rem_idx <$> take k sorted.

Lemma served_idx : rem_idx <$> sorted ≡ₚ seq 0 (length exact).
Proof. apply sorted_rems_idx. Qed.

Lemma k_le : (k ≤ length sorted)%nat.
Proof.
  rewrite <- (length_fmap rem_idx), served_idx, length_seq. unfold k.
  pose proof (alloc_leftover_le _ _ Hsum). unfold floors. lia.
Qed.

Lemma S_NoDup : NoDup S.
Proof.
  unfold S. rewrite fmap_take. apply NoDup_take. rewrite served_idx. apply NoDup_seq.
Qed.

Lemma S_length : length S = k.
Proof. unfold S. rewrite length_fmap, length_take. pose proof k_le. lia. Qed.

(** Adding one to a floor stays in range whenever something is handed out. *)
Lemma floor_succ_in64 i x : floors !! i = Some x → (0 < k)%nat → in64 (x + 1).
Proof.
  intros Hx Hk. pose proof (alloc_floor_le _ Hpos i x Hx).
  unfold k, floors, in64 in *. lia.
Qed.

Lemma result_lookup i e :
  exact !! i = Some e →
  bump S floors !! i = Some (if decide (i ∈ S) then Qfloor e + 1 else Qfloor e).
Proof.
  intros He. assert (floors !! i = Some (Qfloor e)) as Hf.
  { unfold floors. by rewrite list_lookup_fmap, He. }
  rewrite (bump_lookup _ _ _ _ Hf). destruct (decide (i ∈ S)) as [HiS|]; [|done].
  rewrite add64_id; [done|]. apply (floor_succ_in64 i); [done|].
  rewrite <- S_length. destruct S; [by apply elem_of_nil in HiS|simpl; lia].
Qed.

(** Served remainders come before the others in the sorted order. *)
Lemma served_before i j e f :
  exact !! i = Some e → exact !! j = Some f → i ∈ S → j ∉ S →
  (Qfrac f < Qfrac e)%Q ∨ (Qfrac f == Qfrac e)%Q ∧ (i < j)%nat.
Proof.
  intros He Hf Hi Hj.
  assert (∀ r n g, exact !! n = Some g → r ∈ sorted → rem_idx r = n →
    rem_frac r == Qfrac g)%Q as Hfrac.
  { intros r n g Hg Hr Hn. unfold sorted in Hr. rewrite sort_by_Permutation in Hr.
    apply list_elem_of_lookup in Hr as [m Hm].
    apply rems_of_lookup in Hm as (Hm & e' & He' & Hfr). simplify_eq.
    rewrite Hfr. unfold Qfrac. rewrite rat_quo_floor; [reflexivity|].
    by eapply Forall_lookup_1. }
  unfold S in Hi. apply list_elem_of_fmap in Hi as (ri & -> & Hri).
  assert (j ∈ rem_idx <$> sorted) as Hjs.
  { rewrite served_idx. apply elem_of_seq. apply lookup_lt_Some in Hf. lia. }
  apply list_elem_of_fmap in Hjs as (rj & -> & Hrj).
  assert (rj ∈ drop k sorted) as Hrj'.
  { rewrite <- (take_drop k sorted), elem_of_app in Hrj. destruct Hrj as [Hrj|]; [|done].
    destruct Hj. unfold S. by apply list_elem_of_fmap_2. }
  assert (rem_less rj ri = false) as Hless.
  { pose proof (sort_by_sorted rem_less (rems_of exact)) as Hs. fold sorted in Hs.
    rewrite <- (take_drop k sorted) in Hs.
    by apply (StronglySorted_app_1_elem_of _ _ _ ri rj) in Hs. }
  assert (ri ∈ sorted) as Hri' by (rewrite <- (take_drop k sorted); set_solver).
  pose proof (Hfrac ri _ e He Hri' eq_refl) as Hei.
  pose proof (Hfrac rj _ f Hf Hrj eq_refl) as Hfj.
  unfold rem_less in Hless.
  destruct (Qcompare_spec (rem_frac rj) (rem_frac ri)) as [Heq|Hlt|Hgt]; [right|left|done].
  - split; [lra|]. apply Nat.ltb_ge in Hless.
    assert (rem_idx ri ≠ rem_idx rj); [|lia]. intros Heqi. apply Hj.
    unfold S. rewrite <- Heqi. by apply list_elem_of_fmap_2.
  - lra.
Qed.

Lemma allocate_meets : LargestRemainder total exact (bump S floors).
Proof.
  split.
  - unfold bump, floors. by rewrite length_imap, length_fmap.
  - rewrite sumZ_bump; [|apply S_NoDup|].
    + rewrite S_length. pose proof (alloc_leftover_nonneg _ _ Hsum).
      unfold k, floors in *. lia.
    + intros i Hi.
      assert ((0 < k)%nat) as Hk.
      { rewrite <- S_length. destruct S; [by apply elem_of_nil in Hi|simpl; lia]. }
      assert (i < length exact)%nat as Hlt.
      { unfold S in Hi. apply list_elem_of_fmap in Hi as (r & -> & Hr).
        assert (rem_idx r ∈ rem_idx <$> sorted) as Hin.
        { apply list_elem_of_fmap_2. rewrite <- (take_drop k sorted). set_solver. }
        rewrite served_idx, elem_of_seq in Hin. lia. }
      apply lookup_lt_is_Some_2 in Hlt as [e He].
      exists (Qfloor e). assert (floors !! i = Some (Qfloor e)) as Hf.
      { unfold floors. by rewrite list_lookup_fmap, He. }
      split; [done|]. by eapply floor_succ_in64.
  - intros i e r He Hr. rewrite (result_lookup _ _ He) in Hr.
    simplify_eq. case_decide; lia.
  - intros i j e f He Hf Hi Hj.
    rewrite (result_lookup _ _ He) in Hi. rewrite (result_lookup _ _ Hf) in Hj.
    simplify_eq. apply served_before; [done..| |].
    + destruct (decide (i ∈ S)); [done|lia].
    + destruct (decide (j ∈ S)); [lia|done].
Qed.

(** The code computes exactly the vector the specification describes. *)
Lemma allocate_iff out :
  allocateLargestRemainder total exact = Ok out ↔ LargestRemainder total exact out.
Proof.
  rewrite (alloc_result _ _ Hpos Hsum Hrange). split.
  - intros [= <-]. apply allocate_meets.
  - intros Hout. f_equal. eapply LargestRemainder_unique; [|done]. apply allocate_meets.
Qed.

Lemma allocate_ok : ∃ out, allocateLargestRemainder total exact = Ok out ∧
  LargestRemainder total exact out.
Proof.
  rewrite (alloc_result _ _ Hpos Hsum Hrange). eexists. split; [done|].
  apply allocate_meets.
Qed.
End allocate_spec.

(** Consequences of the specification used by the callers. *)
Lemma LargestRemainder_nonneg total exact out :
  Forall (λ e, 0 <= e)%Q exact → LargestRemainder total exact out →
  Forall (λ r, 0 ≤ r) out.
Proof.
  intros Hpos H. apply Forall_lookup_2. intros i r Hr.
  destruct (lookup_lt_is_Some_2 exact i) as [e He].
  { rewrite <- (lr_length _ _ _ H). by eapply lookup_lt_Some. }
  pose proof (Qfloor_nonneg e ltac:(by eapply (Forall_lookup_1 _ _ _ _ Hpos))).
  destruct (lr_floor _ _ _ H _ _ _ He Hr); lia.
Qed.
