(* ===== verification/EngineCalc.v ===== *)
(** * Calculate: reconciliation, totality and determinism

    What [Calculate] guarantees for every method on well-formed units: the
    rounded shares add up to the amount distributed (BR-09), no share is
    negative, and the result depends neither on the sorting algorithm nor on
    the order in which Go visits a map. *)

From S2P Require Import Prelude Golang Errors Engine EngineRounding.

(** ** Units as the calculation service builds them *)

Record units_wf (units : list EUnit) : Prop := {
  uw_ids : NoDup (eu_ID <$> units);
  uw_nonneg : Forall (λ u, 0 ≤ eu_Occupants u ∧ 0 ≤ eu_AreaM2 u) units;
}.

(** [res] splits [total]: the flag is set, the shares are non-negative, sorted
    by unit, and sum to it. *)
Record Splits (total : Z) (els : list EUnit) (res : ItemResult) : Prop := {
  sp_total : ir_TotalUsed res = total;
  sp_flag : ir_Reconciled res = true;
  sp_sum : sum_of sh_Rounded (ir_Shares res) = total;
  sp_nonneg : Forall (λ sh, 0 ≤ sh_Rounded sh) (ir_Shares res);
  sp_units : sh_UnitID <$> ir_Shares res ≡ₚ eu_ID <$> els;
  sp_sorted : StronglySorted (sort_le share_less) (ir_Shares res);
}.

Lemma sortShares_perm l : sortShares l ≡ₚ l.
Proof. apply sort_by_Permutation. Qed.

Lemma sortShares_sorted l : StronglySorted (sort_le share_less) (sortShares l).
Proof. apply sort_by_sorted, (str_key_strict sh_UnitID). Qed.

(** With one share per unit the order is forced. *)
Lemma sortShares_perm_eq l1 l2 :
  NoDup (sh_UnitID <$> l1) → l1 ≡ₚ l2 → sortShares l1 = sortShares l2.
Proof.
  intros Hnd Hp. apply (sort_by_perm_eq share_less (StrictWeak0 := str_key_strict sh_UnitID));
    [|done].
  intros a b Ha Hb H1 H2. pose proof (str_lt_tie _ _ H1 H2) as Heq.
  apply list_elem_of_lookup in Ha as [i Hi]. apply list_elem_of_lookup in Hb as [j Hj].
  assert (i = j) as ->; [|congruence].
  eapply (NoDup_lookup (sh_UnitID <$> l1)); [done|rewrite list_lookup_fmap, Hi; done|].
  rewrite list_lookup_fmap, Hj. simpl. congruence.
Qed.

(** ** distribute *)

Lemma mk_shares_ids els exacts rounded :
  length exacts = length els → length rounded = length els →
  sh_UnitID <$> mk_shares els exacts rounded = eu_ID <$> els.
Proof.
  unfold mk_shares. revert exacts rounded.
  induction els as [|u els IH]; intros [|x exacts] [|r rounded] ??; simplify_eq/=; [done|].
  f_equal. by apply IH.
Qed.

Lemma mk_shares_rounded els exacts rounded :
  length exacts = length els → length rounded = length els →
  sh_Rounded <$> mk_shares els exacts rounded = rounded.
Proof.
  unfold mk_shares. revert exacts rounded.
  induction els as [|u els IH]; intros [|x exacts] [|r rounded] ??; simplify_eq/=; [done|].
  f_equal. by apply IH.
Qed.

Lemma mk_shares_exact els exacts rounded :
  length exacts = length els → length rounded = length els →
  sh_Exact <$> mk_shares els exacts rounded = exacts.
Proof.
  unfold mk_shares. revert exacts rounded.
  induction els as [|u els IH]; intros [|x exacts] [|r rounded] ??; simplify_eq/=; [done|].
  f_equal. by apply IH.
Qed.

(** The exact proportional shares: non-negative and adding up to the total. *)
Definition proportional (total : Z) (weights : list Q) : list Q :=
  (λ w, inject_Z total * (w / sumQ weights))%Q <$> weights.

Lemma Rat_Sign_zero q : Rat_Sign q = 0 ↔ (q == 0)%Q.
Proof.
  unfold Rat_Sign, Qeq. destruct q as [n d]; simpl. rewrite Z.sgn_null_iff. lia.
Qed.

Lemma proportional_sum total weights :
  ¬ (sumQ weights == 0)%Q → (sumQ (proportional total weights) == inject_Z total)%Q.
Proof.
  intros Hs. unfold proportional.
  transitivity (sumQ ((λ w, (inject_Z total / sumQ weights) * w) <$> weights))%Q.
  - apply sumQ_ext, Forall_true. intros w. field. done.
  - rewrite sumQ_mult_l. field. done.
Qed.

Lemma proportional_nonneg total weights :
  0 ≤ total → Forall (λ w, 0 <= w)%Q weights → ¬ (sumQ weights == 0)%Q →
  Forall (λ e, 0 <= e)%Q (proportional total weights).
Proof.
  intros Ht Hw Hs. pose proof (sumQ_nonneg _ Hw) as Hn.
  assert (0 < sumQ weights)%Q as Hlt by (apply Qle_lteq in Hn as [?|E]; [done|by rewrite <- E in Hs]).
  apply Forall_fmap. eapply Forall_impl; [exact Hw|]. intros w Hw'. simpl.
  apply Qmult_le_0_compat; [by rewrite Zle_Qle in Ht|].
  apply Qle_shift_div_l; [done|]. by rewrite Qmult_0_l.
Qed.

Section distribute.
Context (id : string) (total : Z) (els : list EUnit) (weight : EUnit → Q).
Context (Hw : Forall (λ u, 0 <= weight u)%Q els).
Context (Ht : 0 ≤ total) (Hr : in64 total).

Lemma distribute_weights_nonneg : Forall (λ w, 0 <= w)%Q (weight <$> els).
Proof. by apply Forall_fmap. Qed.

(** Never a panic; the only failures are an empty group and a zero factor. *)
Lemma distribute_cases :
  (els = [] ∧ distribute id total els weight = Err ErrNoParticipants) ∨
  (els ≠ [] ∧ (sumQ (weight <$> els) == 0)%Q ∧
     distribute id total els weight = Err ErrZeroFactor) ∨
  (els ≠ [] ∧ ¬ (sumQ (weight <$> els) == 0)%Q ∧ ∃ res rounded,
     distribute id total els weight = Ok res ∧ Splits total els res ∧
     LargestRemainder total (proportional total (weight <$> els)) rounded ∧
     ir_Shares res ≡ₚ mk_shares els (proportional total (weight <$> els)) rounded).
Proof.
  unfold distribute. case_decide as Hels; [by left|right].
  destruct (Z.eqb_spec (Rat_Sign (sumQ (weight <$> els))) 0) as [Hz|Hz];
    rewrite Rat_Sign_zero in Hz; [by left|right].
  split_and!; [done..|].
  destruct (allocate_ok total (proportional total (weight <$> els))) as (out & Hout & Hlr);
    [by apply proportional_nonneg, Hz; [|apply distribute_weights_nonneg]
    |by apply proportional_sum|done|].
  unfold proportional in Hout. rewrite Hout. cbn [mbind Res_bind].
  fold (proportional total (weight <$> els)).
  set (exacts := proportional total (weight <$> els)) in *.
  assert (length exacts = length els) as Hle by (unfold exacts, proportional; by rewrite !length_fmap).
  assert (length out = length els) as Hlo by (by rewrite (lr_length _ _ _ Hlr)).
  set (shares := sortShares (mk_shares els exacts out)).
  assert (sumZ (sh_Rounded <$> shares) = total) as Hsum.
  { unfold shares. rewrite sortShares_perm, mk_shares_rounded by done. apply Hlr. }
  eexists _, out. split; [done|]. split_and!; [|done|apply sortShares_perm].
  split; simpl.
  - done.
  - rewrite sum64_wrap, Hsum, wrap64_id by done. by apply Z.eqb_eq.
  - done.
  - apply (Forall_fmap sh_Rounded (λ r, 0 ≤ r)). unfold shares.
    rewrite sortShares_perm, mk_shares_rounded by done.
    eapply LargestRemainder_nonneg; [|done].
    apply proportional_nonneg; [done|apply distribute_weights_nonneg|done].
  - unfold shares. by rewrite sortShares_perm, mk_shares_ids.
  - apply sortShares_sorted.
Qed.

Lemma distribute_no_panic w : distribute id total els weight ≠ Panic w.
Proof.
  destruct distribute_cases as [[_ ->]|[(_ & _ & ->)|(_ & _ & ? & ? & -> & _)]]; done.
Qed.

Lemma distribute_splits res : distribute id total els weight = Ok res → Splits total els res.
Proof.
  destruct distribute_cases as [[_ ->]|[(_ & _ & ->)|(_ & _ & ? & ? & -> & ? & _)]]; [done..|].
  by intros [= <-].
Qed.
End distribute.

(** ** The simple methods *)

(** The units an item is charged to. *)
Definition targets (item : CostItem) (units : list EUnit) : list EUnit :=
  if decide (ei_Method item = MethodSpecificUnits)
  then filter (λ u, eu_ID u ∈ (list_to_set (ei_UnitIDs item) : gset string)) units
  else participants item units.

Definition simple (item : CostItem) : Prop := ei_Method item ≠ MethodCombined.

Lemma filter_wf (P : EUnit → Prop) `{∀ u, Decision (P u)} units :
  units_wf units → units_wf (filter P units).
Proof.
  intros [Hnd Hn]. split.
  - eapply sublist_NoDup; [exact Hnd|]. apply fmap_sublist, sublist_filter.
  - by apply Forall_filter_l.
Qed.

Lemma targets_wf item units : units_wf units → units_wf (targets item units).
Proof. intros H. unfold targets, participants. case_decide; by apply filter_wf. Qed.

Lemma nonneg_ones (units : list EUnit) : Forall (λ u, 0 <= (λ _, ratOne) u)%Q units.
Proof. by apply Forall_true. Qed.

Lemma nonneg_occupants units : units_wf units →
  Forall (λ u, 0 <= Rat_SetInt64 (eu_Occupants u))%Q units.
Proof.
  intros H. eapply Forall_impl; [apply H|]. intros u [Hu _].
  unfold Rat_SetInt64. by rewrite Zle_Qle in Hu.
Qed.

Lemma nonneg_areas units : units_wf units →
  Forall (λ u, 0 <= Rat_SetInt64 (eu_AreaM2 u))%Q units.
Proof.
  intros H. eapply Forall_impl; [apply H|]. intros u [_ Hu].
  unfold Rat_SetInt64. by rewrite Zle_Qle in Hu.
Qed.

#[export] Hint Resolve nonneg_ones nonneg_occupants nonneg_areas targets_wf filter_wf : hamsa.

(** A simple non-fixed item: [Calculate] is a guard followed by [distribute]
    over its targets, for non-negative weights. *)
Lemma Calculate_simple_cases n item units :
  simple item → ei_Method item ≠ MethodFixed → units_wf units →
  (∃ e, Calculate_fuel (S n) item units = Err e) ∨
  (0 < ei_Total item ∧ ∃ weight,
    Forall (λ u, 0 <= weight u)%Q (targets item units) ∧
    Calculate_fuel (S n) item units =
      distribute (ei_ID item) (ei_Total item) (targets item units) weight).
Proof.
  intros Hs Hf Hwf. cbn [Calculate_fuel].
  rewrite (bool_decide_eq_false_2 (ei_Method item = MethodFixed)) by done.
  cbn [negb andb]. rewrite andb_true_r.
  destruct (Z.leb_spec (ei_Total item) 0) as [Hle|Hlt]; [left; eauto|].
  pose proof (targets_wf item units Hwf) as Ht. revert Ht. unfold targets.
  destruct (decide (ei_Method item = MethodSpecificUnits)) as [Hsp|Hsp]; intros Ht.
  - rewrite Hsp. rewrite !decide_False by done.
    unfold calcSpecific. case_decide; [left; eauto|]. case_decide; [left; eauto|].
    right. split; [done|]. eexists. split; [|done]. by apply nonneg_ones.
  - destruct (decide (ei_Method item = MethodEqual)); [right; split; [done|eexists; split; [|done]; by apply nonneg_ones]|].
    destruct (decide (ei_Method item = MethodPerOccupant)); [right; split; [done|eexists; split; [|done]; by apply nonneg_occupants]|].
    destruct (decide (ei_Method item = MethodPerArea)); [right; split; [done|eexists; split; [|done]; by apply nonneg_areas]|].
    rewrite !decide_False by done. left. eauto.
Qed.

Lemma Calculate_simple_splits n item units res :
  simple item → ei_Method item ≠ MethodFixed → units_wf units → in64 (ei_Total item) →
  Calculate_fuel (S n) item units = Ok res →
  0 < ei_Total item ∧ Splits (ei_Total item) (targets item units) res.
Proof.
  intros Hs Hf Hwf Hr H.
  destruct (Calculate_simple_cases n item units Hs Hf Hwf) as [[e E]|(Ht & w & Hw & E)];
    rewrite E in H; [done|]. split; [done|].
  eapply distribute_splits; [done|lia|done|exact H].
Qed.

Lemma Calculate_simple_no_panic n item units w :
  simple item → ei_Method item ≠ MethodFixed → units_wf units → in64 (ei_Total item) →
  Calculate_fuel (S n) item units ≠ Panic w.
Proof.
  intros Hs Hf Hwf Hr.
  destruct (Calculate_simple_cases n item units Hs Hf Hwf) as [[e ->]|(Ht & wt & Hw & ->)];
    [done|]. apply distribute_no_panic; [done|lia|done].
Qed.

(** The fuel does not matter for a simple item. *)
Lemma Calculate_simple_fuel n m item units :
  simple item → Calculate_fuel (S n) item units = Calculate_fuel (S m) item units.
Proof.
  intros Hs. cbn [Calculate_fuel]. by rewrite !(decide_False (P := ei_Method item = MethodCombined)).
Qed.

(** ** The fixed method *)

Lemma Calculate_fixed n item units :
  ei_Method item = MethodFixed →
  Calculate_fuel (S n) item units =
    if ei_FixedAmountPerUnit item <=? 0 then Err (non_positive_total item)
    else calcFixed item units.
Proof.
  intros Hm. cbn [Calculate_fuel]. rewrite Hm.
  rewrite (bool_decide_eq_true_2 (MethodFixed = MethodFixed)) by done.
  rewrite andb_false_r. cbn [andb]. by destruct (_ <=? 0).
Qed.

Lemma calcFixed_splits item units res :
  0 < ei_FixedAmountPerUnit item →
  in64 (ei_FixedAmountPerUnit item * Z.of_nat (length (participants item units))) →
  calcFixed item units = Ok res →
  Splits (ei_FixedAmountPerUnit item * Z.of_nat (length (participants item units)))
    (participants item units) res.
Proof.
  intros Hp Hr. unfold calcFixed. case_decide; [done|]. intros [= <-]. split; simpl.
  - by apply wrap64_id.
  - done.
  - unfold sum_of. rewrite sortShares_perm, <- list_fmap_compose.
    change (sum_of (λ _ : EUnit, ei_FixedAmountPerUnit item) (participants item units) =
      ei_FixedAmountPerUnit item * Z.of_nat (length (participants item units))).
    apply sum_of_const.
  - apply (Forall_fmap sh_Rounded (λ r, 0 ≤ r)). rewrite sortShares_perm, <- list_fmap_compose.
    apply Forall_fmap, Forall_true. intros u. simpl. lia.
  - rewrite sortShares_perm, <- list_fmap_compose. done.
  - apply sortShares_sorted.
Qed.

(** ** The combined method *)

Definition shares_of (m : gmap string Share) : list Share := (map_to_list m).*2.

(** The accumulator of the loop: keyed by unit, no negative share, and the
    shares it holds add up to [running]. *)
Record acc_ok (running : Z) (m : gmap string Share) : Prop := {
  ao_keys : ∀ k sh, m !! k = Some sh → sh_UnitID sh = k;
  ao_nonneg : Forall (λ sh, 0 ≤ sh_Rounded sh) (shares_of m);
  ao_sum : sum_of sh_Rounded (shares_of m) = running;
}.

Lemma shares_of_insert k sh m :
  shares_of (<[k := sh]> m) ≡ₚ sh :: shares_of (delete k m).
Proof.
  unfold shares_of. rewrite <- insert_delete_eq.
  rewrite map_to_list_insert by apply lookup_delete_eq. done.
Qed.

Lemma shares_of_lookup k sh m :
  m !! k = Some sh → shares_of m ≡ₚ sh :: shares_of (delete k m).
Proof. intros H. rewrite <- (insert_id m k sh) at 1 by done. apply shares_of_insert. Qed.

Lemma shares_of_NoDup running m :
  acc_ok running m → NoDup (sh_UnitID <$> shares_of m).
Proof.
  intros Ha. unfold shares_of. rewrite <- list_fmap_compose.
  replace ((sh_UnitID ∘ snd) <$> map_to_list m) with (fst <$> map_to_list m).
  - apply NoDup_fst_map_to_list.
  - apply list_fmap_ext. intros i [k sh] Hi. simpl. symmetry.
    apply (ao_keys _ _ Ha). apply elem_of_map_to_list. by eapply list_elem_of_lookup_2.
Qed.

Lemma acc_ok_empty : acc_ok 0 ∅.
Proof.
  split; unfold shares_of; rewrite ?map_to_list_empty; [|constructor|done].
  intros k sh. by rewrite lookup_empty.
Qed.

Lemma add_share_ok running m sh :
  acc_ok running m → 0 ≤ sh_Rounded sh → in64 (running + sh_Rounded sh) →
  acc_ok (running + sh_Rounded sh) (add_share m sh).
Proof.
  intros Ha Hsh Hr. unfold add_share.
  destruct (m !! sh_UnitID sh) as [acc|] eqn:Hacc; simpl.
  - pose proof (ao_keys _ _ Ha _ _ Hacc) as Hk.
    pose proof (shares_of_lookup _ _ _ Hacc) as Hp.
    pose proof (ao_nonneg _ _ Ha) as Hn. rewrite Hp in Hn. inv Hn as [|?? Hacc0 Hn'].
    pose proof (ao_sum _ _ Ha) as Hs. rewrite Hp, sum_of_cons in Hs.
    pose proof (sum_of_nonneg sh_Rounded _ Hn').
    assert (add64 (sh_Rounded acc) (sh_Rounded sh) = sh_Rounded acc + sh_Rounded sh) as Hadd.
    { apply add64_id. unfold in64 in *. lia. }
    rewrite Hadd. split.
    + intros k sh' Hl. rewrite lookup_insert in Hl. case_decide; simplify_eq/=; [done|].
      by apply (ao_keys _ _ Ha).
    + rewrite shares_of_insert. constructor; simpl; [lia|done].
    + rewrite shares_of_insert, sum_of_cons. simpl. lia.
  - assert (add64 0 (sh_Rounded sh) = sh_Rounded sh) as ->.
    { apply add64_id. unfold in64 in *.
      pose proof (sum_of_nonneg sh_Rounded _ (ao_nonneg _ _ Ha)).
      rewrite (ao_sum _ _ Ha) in *. lia. }
    assert (shares_of (delete (sh_UnitID sh) m) = shares_of m) as Hd by by rewrite delete_id.
    split.
    + intros k sh' Hl. rewrite lookup_insert in Hl. case_decide; simplify_eq/=; [done|].
      by apply (ao_keys _ _ Ha).
    + rewrite shares_of_insert, Hd. constructor; [done|]. apply Ha.
    + rewrite shares_of_insert, sum_of_cons, Hd. simpl. rewrite (ao_sum _ _ Ha). lia.
Qed.

Lemma add_shares_ok shares running m :
  acc_ok running m → Forall (λ sh, 0 ≤ sh_Rounded sh) shares → 0 ≤ running →
  in64 (running + sum_of sh_Rounded shares) →
  acc_ok (running + sum_of sh_Rounded shares) (foldl add_share m shares).
Proof.
  revert running m. induction shares as [|sh shares IH]; intros running m Ha Hn Hrun Hr.
  { rewrite sum_of_nil, Z.add_0_r. done. }
  inv Hn as [|?? Hsh Hn']. rewrite sum_of_cons in *. simpl.
  pose proof (sum_of_nonneg sh_Rounded _ Hn').
  rewrite Z.add_assoc. apply IH; [|done|lia|unfold in64 in *; lia].
  apply add_share_ok; [done..|]. unfold in64 in *. lia.
Qed.

Lemma add_share_dom m sh :
  dom (add_share m sh) = {[sh_UnitID sh]} ∪ dom m.
Proof. unfold add_share. apply dom_insert_L. Qed.

Lemma add_shares_dom shares m :
  dom (foldl add_share m shares) = list_to_set (sh_UnitID <$> shares) ∪ dom m.
Proof.
  revert m. induction shares as [|sh shares IH]; intros m; csimpl; [set_solver|].
  rewrite IH, add_share_dom. set_solver.
Qed.

(** ** One component of a combined item *)

Lemma combo_weights_ok_Forall ws :
  combo_weights_ok ws = true →
  ws ≠ [] ∧ Forall (λ w, 0 < ew_Weight w ∧ ew_Method w ≠ MethodCombined) ws ∧
  sum64 (ew_Weight <$> ws) = 100.
Proof.
  unfold combo_weights_ok. rewrite !andb_true_iff, negb_true_iff, bool_decide_eq_false.
  intros [[Hne Hall] Hsum%Z.eqb_eq]. split_and!; [done| |done].
  apply Forall_forall. intros w Hw%list_elem_of_In.
  rewrite List.forallb_forall in Hall. specialize (Hall w Hw).
  rewrite negb_true_iff, orb_false_iff, bool_decide_eq_false in Hall.
  destruct Hall. split; [lia|done].
Qed.

Lemma participants_sub item units w pool :
  participants (combo_sub item w pool) units = participants item units.
Proof. done. Qed.

Lemma combo_component_cases item units w pool :
  ew_Method w ≠ MethodCombined → units_wf units → 0 ≤ pool → in64 pool →
  (∃ e, combo_component (Calculate_fuel 1) item units w pool = Err e) ∨
  (∃ res, combo_component (Calculate_fuel 1) item units w pool = Ok res ∧
    Splits pool (participants item units) res).
Proof.
  intros Hm Hwf Hp Hr. unfold combo_component. case_decide as Hf.
  - destruct (distribute_cases (ei_ID (combo_sub item w pool)) pool
      (participants (combo_sub item w pool) units) (λ _, ratOne) (nonneg_ones _) Hp Hr)
      as [[_ ->]|[(_ & _ & ->)|(_ & _ & res & ? & -> & ? & _)]]; [left; eauto..|].
    right. exists res. by rewrite participants_sub in *.
  - set (sub := combo_sub item w pool).
    destruct (Calculate_simple_cases 0 sub units) as [[e E]|(Hpos & wt & Hw & E)]; [done..| |].
    { left. eauto. }
    destruct (decide (ei_Method sub = MethodSpecificUnits)) as [Hsp|Hsp].
    { left. cbn [Calculate_fuel] in *. rewrite Hsp in *. unfold calcSpecific in *. simpl in *.
      destruct ((pool <=? 0) && true); eauto. }
    destruct (distribute_cases (ei_ID sub) pool (targets sub units) wt Hw Hp Hr)
      as [[_ E']|[(_ & _ & E')|(_ & _ & res & ? & E' & ? & _)]];
      rewrite E; change (ei_Total sub) with pool; rewrite E'; [left; eauto..|].
    right. exists res. split; [done|]. unfold targets in *. by rewrite decide_False in * by done.
Qed.

(** ** The loop *)

Lemma combo_loop_spec item units ws running m :
  units_wf units → Forall (λ '(w, pool), ew_Method w ≠ MethodCombined ∧ 0 ≤ pool) ws →
  acc_ok running m → 0 ≤ running → in64 (running + sum_of snd ws) →
  (∃ e, combo_loop (Calculate_fuel 1) item units ws running m = Err e) ∨
  (∃ m', combo_loop (Calculate_fuel 1) item units ws running m
      = Ok (running + sum_of snd ws, m') ∧
    acc_ok (running + sum_of snd ws) m' ∧
    (dom m' = dom m ∪ (if decide (ws = []) then ∅
       else list_to_set (eu_ID <$> participants item units)))).
Proof.
  intros Hwf. revert running m.
  induction ws as [|[w pool] ws IH]; intros running m Hws Ha Hrun Hr.
  { right. exists m. rewrite sum_of_nil, Z.add_0_r in *. split_and!; [done..|set_solver]. }
  apply Forall_cons in Hws as [[Hm Hp] Hws']. rewrite sum_of_cons in *.
  cbn [snd combo_loop] in *.
  assert (0 ≤ sum_of snd ws) as Hrest.
  { apply sum_of_nonneg. eapply Forall_impl; [exact Hws'|]. by intros [??] [??]. }
  destruct (combo_component_cases item units w pool Hm Hwf Hp) as [[e ->]|(res & -> & Hsp)];
    [unfold in64 in *; lia|left; by eexists|].
  cbn [mbind Res_bind].
  assert (sumShares res = pool) as Hsum.
  { unfold sumShares. rewrite sum64_wrap. unfold sum_of in Hsp.
    pose proof (sp_sum _ _ _ Hsp) as H. unfold sum_of in H. rewrite H.
    apply wrap64_id. unfold in64 in *. lia. }
  rewrite Hsum. assert (add64 running pool = running + pool) as ->.
  { apply add64_id. unfold in64 in *. lia. }
  assert (acc_ok (running + pool) (foldl add_share m (ir_Shares res))) as Ha'.
  { rewrite <- (sp_sum _ _ _ Hsp). apply add_shares_ok; [done|apply Hsp|done|].
    rewrite (sp_sum _ _ _ Hsp). unfold in64 in *. lia. }
  rewrite Z.add_assoc.
  destruct (IH (running + pool) _ Hws' Ha') as [?|(m' & -> & Ha'' & Hd)];
    [lia|by rewrite <- Z.add_assoc|by left|].
  right. exists m'. split_and!; [done..|]. rewrite Hd, add_shares_dom.
  assert (list_to_set (sh_UnitID <$> ir_Shares res)
          =@{gset string} list_to_set (eu_ID <$> participants item units)) as ->.
  { apply list_to_set_perm_L, Hsp. }
  destruct (decide (ws = [])); set_solver.
Qed.

(** ** calcCombined *)

Lemma combo_pools_nonneg item :
  0 ≤ ei_Total item → Forall (λ w, 0 < ew_Weight w ∧ ew_Method w ≠ MethodCombined)
    (ei_ComboWeights item) → Forall (λ e, 0 <= e)%Q (combo_pools item).
Proof.
  intros Ht Hws. unfold combo_pools. apply Forall_fmap.
  eapply Forall_impl; [exact Hws|]. intros w [Hw _]. simpl.
  apply Qle_shift_div_l; [done|]. rewrite Qmult_0_l, <- inject_Z_mult.
  change 0%Q with (inject_Z 0). rewrite <- Zle_Qle. nia.
Qed.

Lemma combo_pools_sum item :
  sumZ (ew_Weight <$> ei_ComboWeights item) = 100 →
  (sumQ (combo_pools item) == inject_Z (ei_Total item))%Q.
Proof.
  intros Hs. unfold combo_pools.
  transitivity (sumQ ((λ x, (inject_Z (ei_Total item) / inject_Z 100) * x)
    <$> (inject_Z <$> (ew_Weight <$> ei_ComboWeights item))))%Q.
  - rewrite <- !list_fmap_compose. apply sumQ_ext, Forall_true. intros w.
    unfold compose. field.
  - rewrite sumQ_mult_l, <- inject_Z_sumZ, Hs. field.
Qed.

Lemma zip_snd_sum {A} (l : list A) (k : list Z) :
  length l = length k → sum_of snd (zip l k) = sumZ k.
Proof. intros H. unfold sum_of. rewrite snd_zip; [done|lia]. Qed.

Lemma calcCombined_cases enum item units :
  (∀ m, enum m ≡ₚ shares_of m) →
  units_wf units → 0 < ei_Total item → in64 (ei_Total item) →
  in64 (sumZ (ew_Weight <$> ei_ComboWeights item)) →
  (∃ e, calcCombined_enum (Calculate_fuel 1) enum item units = Err e) ∨
  (∃ res, calcCombined_enum (Calculate_fuel 1) enum item units = Ok res ∧
     res = MkItemResult (ei_ID item) (ei_Total item) (ir_Shares res) true ∧
     Splits (ei_Total item) (participants item units) res ∧
     ∃ running m, acc_ok running m ∧ ir_Shares res = sortShares (shares_of m) ∧
       calcCombined (Calculate_fuel 1) item units = Ok res).
Proof.
  intros Henum Hwf Hpos Hr Hw64. unfold calcCombined, calcCombined_enum.
  destruct (combo_weights_ok (ei_ComboWeights item)) eqn:Hok; [|left; by eexists].
  cbn [negb]. apply combo_weights_ok_Forall in Hok as (Hne & Hws & Hsum).
  rewrite sum64_wrap, wrap64_id in Hsum by done.
  destruct (allocate_ok (ei_Total item) (combo_pools item)) as (pools & -> & Hlr);
    [apply combo_pools_nonneg; [lia|done]|by apply combo_pools_sum|done|].
  cbn [mbind Res_bind].
  assert (length (ei_ComboWeights item) = length pools) as Hlen.
  { rewrite (lr_length _ _ _ Hlr). unfold combo_pools. by rewrite length_fmap. }
  pose proof (zip_snd_sum _ _ Hlen) as Hzip. rewrite (lr_sum _ _ _ Hlr) in Hzip.
  assert (Forall (λ '(w, pool), ew_Method w ≠ MethodCombined ∧ 0 ≤ pool)
    (zip (ei_ComboWeights item) pools)) as Hzf.
  { apply Forall_forall. intros [w p] Hwp. split.
    - rewrite Forall_forall in Hws. by apply (Hws w), elem_of_zip_l with p pools.
    - pose proof (LargestRemainder_nonneg _ _ _ (combo_pools_nonneg item ltac:(lia) Hws) Hlr) as Hn.
      rewrite Forall_forall in Hn. by apply Hn, elem_of_zip_r with w (ei_ComboWeights item). }
  destruct (combo_loop_spec item units (zip (ei_ComboWeights item) pools) 0 ∅)
    as [[e ->]|(m & E & Ha & Hd)]; [done..|apply acc_ok_empty|done|by rewrite Hzip|left; by eexists|].
  right. rewrite E, Hzip in *. rewrite Z.add_0_l in *. cbn [mbind Res_bind].
  rewrite Z.eqb_refl. eexists. split; [done|]. simpl.
  assert (sortShares (enum m) = sortShares (shares_of m)) as Hs.
  { symmetry. apply sortShares_perm_eq; [by eapply shares_of_NoDup|by symmetry]. }
  split_and!; [done| |].
  - split; simpl; [done..| | | |apply sortShares_sorted].
    + rewrite sortShares_perm, Henum. apply Ha.
    + rewrite sortShares_perm, Henum. apply Ha.
    + rewrite sortShares_perm, Henum. apply NoDup_Permutation.
      * by eapply shares_of_NoDup.
      * by apply (filter_wf _ _ Hwf).
      * intros id. assert (id ∈ sh_UnitID <$> shares_of m ↔ id ∈ dom m) as ->.
        { rewrite elem_of_dom, list_elem_of_fmap. unfold shares_of. split.
          - intros (sh & -> & Hsh). apply list_elem_of_fmap in Hsh as ([k sh'] & -> & Hk).
            apply elem_of_map_to_list in Hk. simpl.
            rewrite (ao_keys _ _ Ha _ _ Hk). by eexists.
          - intros [sh Hsh]. exists sh. rewrite (ao_keys _ _ Ha _ _ Hsh). split; [done|].
            apply list_elem_of_fmap. exists (id, sh). split; [done|]. by apply elem_of_map_to_list. }
        rewrite Hd, decide_False.
        -- rewrite elem_of_union, elem_of_list_to_set. set_solver.
        -- destruct (ei_ComboWeights item), pools; done.
  - exists (ei_Total item), m. split_and!; [done|done|].
    f_equal. f_equal. by rewrite Hs.
Qed.
