(* ===== verification/EngineSpec.v ===== *)
(** * What the charge engine guarantees

    The properties of [engine.Calculate]: it implements the largest-remainder
    method, reconciles every cost item to the amount charged (BR-09), terminates
    without panicking, is fair, succeeds exactly on the valid inputs, and does
    not depend on Go's map order. It does depend on the order of its input. *)

From S2P Require Import Prelude Golang Errors Engine EngineRounding EngineCalc.

(** ** The amount an item distributes *)

(** [TotalUsed]: the per-unit amount times the participants for a fixed item,
    the item's total otherwise. *)
Definition charged (item : CostItem) (units : list EUnit) : Z :=
  if decide (ei_Method item = MethodFixed)
  then ei_FixedAmountPerUnit item * Z.of_nat (length (participants item units))
  else ei_Total item.

(** The inputs stay within [int64]: the columns are BIGINT, and neither the
    product of a fixed item nor the sum of a combined item's weights may wrap. *)
Record item_in_range (item : CostItem) (units : list EUnit) : Prop := {
  ir_total : in64 (ei_Total item);
  ir_fixed : in64 (ei_FixedAmountPerUnit item * Z.of_nat (length (participants item units)));
  ir_weights : in64 (sumZ (ew_Weight <$> ei_ComboWeights item));
}.

Lemma targets_participants item units :
  ei_Method item ≠ MethodSpecificUnits → targets item units = participants item units.
Proof. intros H. unfold targets. by rewrite decide_False. Qed.

(** [Calculate] on a combined item, with the guard on the total resolved. *)
Lemma Calculate_combined n item units :
  ei_Method item = MethodCombined →
  Calculate_fuel (S n) item units =
    if ei_Total item <=? 0 then Err (non_positive_total item)
    else calcCombined (Calculate_fuel n) item units.
Proof.
  intros Hm. cbn [Calculate_fuel]. rewrite Hm.
  rewrite (bool_decide_eq_false_2 (MethodCombined = MethodFixed)) by done.
  rewrite andb_true_r. by destruct (_ <=? 0).
Qed.

(** Every run of [Calculate]: an error, or a result that splits the amount. *)
Lemma Calculate_cases item units :
  units_wf units → item_in_range item units →
  (∃ e, Calculate item units = Err e) ∨
  (∃ res, Calculate item units = Ok res ∧
     Splits (charged item units) (targets item units) res).
Proof.
  intros Hwf [Ht Hf Hw]. unfold Calculate, charged.
  destruct (decide (ei_Method item = MethodFixed)) as [Hm|Hm].
  { rewrite Calculate_fixed, targets_participants by (done || by rewrite Hm).
    destruct (Z.leb_spec (ei_FixedAmountPerUnit item) 0); [left; by eexists|].
    destruct (calcFixed item units) as [res|e|why] eqn:E; [right|left; by eexists|].
    - exists res. split; [done|]. by apply calcFixed_splits.
    - exfalso. revert E. unfold calcFixed. by case_decide. }
  destruct (decide (ei_Method item = MethodCombined)) as [Hc|Hc].
  { rewrite Calculate_combined, targets_participants by (done || by rewrite Hc).
    destruct (Z.leb_spec (ei_Total item) 0); [left; by eexists|].
    destruct (calcCombined_cases (λ m, (map_to_list m).*2) item units)
      as [[e E]|(res & E & _ & Hs & _)]; [done..| |].
    - left. by exists e.
    - right. by exists res. }
  destruct (Calculate_simple_cases 1 item units Hc Hm Hwf) as [[e ->]|(Hp & wt & Hwt & E)];
    [left; by eexists|].
  rewrite E.
  destruct (distribute_cases (ei_ID item) (ei_Total item) (targets item units) wt)
    as [[_ ->]|[(_ & _ & ->)|(_ & _ & res & _ & -> & Hs & _)]];
    [done|lia|done|left; by eexists..|right; by exists res].
Qed.

(** ** Properties *)

(** C11: [allocateLargestRemainder] implements the largest-remainder method: on
    non-negative exact shares that sum to the total, its result is the one
    vector of integers that sums to the total, gives every share its floor or
    one unit more, and gives the extra units to the largest fractional parts,
    ties going to the lowest index. *)
Theorem allocate_refines (total : Z) (exact : list Q)
    (Hpos : Forall (λ e, 0 <= e)%Q exact)
    (Hsum : (sumQ exact == inject_Z total)%Q) (Hrange : in64 total) (out : list Z) :
  allocateLargestRemainder total exact = Ok out ↔ LargestRemainder total exact out.
Proof. by apply allocate_iff. Qed.

Lemma allocate_refines_witness :
  LargestRemainder 100 [100 # 3; 100 # 3; 100 # 3]%Q [34; 33; 33].
Proof.
  apply (allocate_refines 100 [100 # 3; 100 # 3; 100 # 3]%Q).
  - apply (bool_decide_unpack _); vm_compute; exact I.
  - reflexivity.
  - split; done.
  - vm_compute. reflexivity.
Defined.

(** C1: Reconciliation (BR-09): whenever [Calculate] returns a result, the
    rounded shares are non-negative, there is exactly one per charged unit in
    unit order, they add up to the amount charged, [TotalUsed] is that amount
    and the [Reconciled] flag is set. *)
Theorem Calculate_reconciles (item : CostItem) (units : list EUnit) (res : ItemResult)
    (Hwf : units_wf units) (Hrange : item_in_range item units)
    (Hres : Calculate item units = Ok res) :
  Splits (charged item units) (targets item units) res.
Proof.
  destruct (Calculate_cases item units Hwf Hrange) as [[e E]|(res' & E & Hs)]; congruence.
Qed.

Definition witness_units : list EUnit :=
  [MkEUnit "a" 2 80 false; MkEUnit "b" 1 120 false; MkEUnit "c" 4 50 true].

Definition witness_combo : CostItem :=
  MkCostItem "x" 1001 MethodCombined 0
    [MkComboWeight MethodEqual 30 0; MkComboWeight MethodPerArea 50 0;
     MkComboWeight MethodFixed 20 7] true [].

Lemma witness_units_wf : units_wf witness_units.
Proof.
  split; [apply (bool_decide_unpack _); vm_compute; exact I|].
  repeat constructor; simpl; lia.
Qed.

Lemma Calculate_reconciles_witness :
  ∃ res, Calculate witness_combo witness_units = Ok res ∧
    Splits 1001 (targets witness_combo witness_units) res.
Proof.
  eexists. split; [vm_compute; reflexivity|].
  apply (Calculate_reconciles witness_combo witness_units);
    [apply witness_units_wf|split; vm_compute; split; done|vm_compute; reflexivity].
Defined.

(** ** Totality *)

(** A component of a combined item is simple: the inner calls never need more
    than one level of fuel. *)
Lemma combo_component_fuel n m item units w pool :
  ew_Method w ≠ MethodCombined →
  combo_component (Calculate_fuel (S n)) item units w pool =
  combo_component (Calculate_fuel (S m)) item units w pool.
Proof.
  intros Hw. unfold combo_component. case_decide; [done|].
  by apply Calculate_simple_fuel.
Qed.

Lemma combo_loop_fuel n m item units ws running acc :
  Forall (λ '(w, _), ew_Method w ≠ MethodCombined) ws →
  combo_loop (Calculate_fuel (S n)) item units ws running acc =
  combo_loop (Calculate_fuel (S m)) item units ws running acc.
Proof.
  intros H. revert running acc. induction H as [|[w pool] ws Hw _ IH]; intros; [done|].
  cbn [combo_loop]. rewrite (combo_component_fuel n m) by done.
  destruct (combo_component _ _ _ _ _); [apply IH|done..].
Qed.

Lemma combo_zip_simple item (pools : list Z) :
  Forall (λ w, 0 < ew_Weight w ∧ ew_Method w ≠ MethodCombined) (ei_ComboWeights item) →
  Forall (λ '(w, _), ew_Method w ≠ MethodCombined) (zip (ei_ComboWeights item) pools).
Proof.
  intros Hw. apply Forall_forall. intros [w p] Hin. rewrite Forall_forall in Hw.
  by apply Hw, elem_of_zip_l with p pools.
Qed.

Lemma Calculate_fuel_enough n item units :
  Calculate_fuel (S (S n)) item units = Calculate item units.
Proof.
  unfold Calculate.
  destruct (decide (ei_Method item = MethodCombined)) as [Hc|Hc];
    [|by apply Calculate_simple_fuel].
  rewrite !Calculate_combined by done. destruct (_ <=? 0); [done|].
  unfold calcCombined, calcCombined_enum.
  destruct (combo_weights_ok (ei_ComboWeights item)) eqn:Hok; [|done].
  apply combo_weights_ok_Forall in Hok as (_ & Hws & _). cbn [negb].
  destruct (allocateLargestRemainder _ _) as [pools|e|y]; [|done..].
  cbn [mbind Res_bind]. by rewrite (combo_loop_fuel n 0) by by apply combo_zip_simple.
Qed.

(** C23: [Calculate] terminates and never panics: two levels of recursion are
    enough for every item, and on well-formed units no index leaves its slice. *)
Theorem Calculate_total (item : CostItem) (units : list EUnit)
    (Hwf : units_wf units) (Hrange : item_in_range item units) :
  (∀ n, Calculate_fuel (S (S n)) item units = Calculate item units) ∧
  (∀ why, Calculate item units ≠ Panic why).
Proof.
  split; [intros n; apply Calculate_fuel_enough|]. intros why.
  destruct (Calculate_cases item units Hwf Hrange) as [[e ->]|(res & -> & _)]; done.
Qed.

Lemma Calculate_total_witness :
  Calculate_fuel 7 witness_combo witness_units = Calculate witness_combo witness_units.
Proof.
  refine (proj1 (Calculate_total witness_combo witness_units _ _) 5%nat);
    [apply witness_units_wf|split; vm_compute; split; done].
Defined.

(** ** Determinism *)

(** Go visits the per-unit map of [calcCombined] in an unspecified order;
    whatever the order, the result is the same. *)
Theorem calcCombined_map_order (enum : gmap string Share → list Share)
    (item : CostItem) (units : list EUnit)
    (Henum : ∀ m, enum m ≡ₚ shares_of m) (Hwf : units_wf units)
    (Hpos : 0 < ei_Total item) (Hrange : item_in_range item units) :
  calcCombined_enum (Calculate_fuel 1) enum item units =
  calcCombined (Calculate_fuel 1) item units.
Proof.
  destruct Hrange as [Ht _ Hw].
  destruct (calcCombined_cases enum item units Henum Hwf Hpos Ht Hw)
    as [[e E]|(res & E & _ & _ & _ & _ & _ & _ & E')]; [|by rewrite E, E'].
  destruct (calcCombined_cases (λ m, (map_to_list m).*2) item units ltac:(done) Hwf Hpos Ht Hw)
    as [[e' E']|(res' & E' & _)]; revert E E'; unfold calcCombined, calcCombined_enum.
  - destruct (negb _); [congruence|].
    destruct (allocateLargestRemainder _ _) as [pools|e1|y]; cbn [mbind Res_bind];
      [|congruence..].
    destruct (combo_loop _ _ _ _ _ _) as [[r m]|e2|y]; cbn [mbind Res_bind]; congruence.
  - destruct (negb _); [congruence|].
    destruct (allocateLargestRemainder _ _) as [pools|e1|y]; cbn [mbind Res_bind];
      [|congruence..].
    destruct (combo_loop _ _ _ _ _ _) as [[r m]|e2|y]; cbn [mbind Res_bind]; congruence.
Qed.

Lemma calcCombined_map_order_witness :
  calcCombined_enum (Calculate_fuel 1) (λ m, reverse (shares_of m)) witness_combo witness_units
  = calcCombined (Calculate_fuel 1) witness_combo witness_units.
Proof.
  apply (calcCombined_map_order (λ m, reverse (shares_of m)));
    [intros m; apply reverse_Permutation|apply witness_units_wf|done
    |split; vm_compute; split; done].
Defined.

(** ** Success *)

(** The factor a unit contributes under a proportional method. *)
Definition factor (m : string) (u : EUnit) : Z :=
  if decide (m = MethodPerOccupant) then eu_Occupants u
  else if decide (m = MethodPerArea) then eu_AreaM2 u else 1.

Definition proportional_method (m : string) : Prop :=
  m = MethodEqual ∨ m = MethodPerOccupant ∨ m = MethodPerArea ∨ m = MethodSpecificUnits.

#[export] Instance proportional_method_dec m : Decision (proportional_method m).
Proof. unfold proportional_method. apply _. Defined.

Lemma sumQ_inject {A} (f : A → Z) l :
  (sumQ ((λ x, inject_Z (f x)) <$> l) == inject_Z (sum_of f l))%Q.
Proof. unfold sum_of. by rewrite inject_Z_sumZ, <- list_fmap_compose. Qed.

(** A proportional item: the guards, then [distribute] with its factor. *)
Lemma Calculate_proportional_eq n item units :
  proportional_method (ei_Method item) →
  Calculate_fuel (S n) item units =
    if ei_Total item <=? 0 then Err (non_positive_total item)
    else if bool_decide (ei_Method item = MethodSpecificUnits ∧ targets item units = [])
    then Err ErrSpecificUnitsEmpty
    else distribute (ei_ID item) (ei_Total item) (targets item units)
           (λ u, inject_Z (factor (ei_Method item) u)).
Proof.
  intros Hp. cbn [Calculate_fuel]. unfold targets, factor.
  destruct Hp as [Hm|[Hm|[Hm|Hm]]]; rewrite Hm;
    rewrite ?(bool_decide_eq_false_2 (_ = MethodFixed)) by done;
    cbn [negb andb]; rewrite ?andb_true_r; destruct (_ <=? 0); try done.
  assert (∀ A (x y z w v : A),
    (if decide (MethodSpecificUnits = MethodEqual) then x else
     if decide (MethodSpecificUnits = MethodPerOccupant) then y else
     if decide (MethodSpecificUnits = MethodPerArea) then z else
     if decide (MethodSpecificUnits = MethodFixed) then w else v) = v) as -> by done.
  rewrite !(decide_True (P := MethodSpecificUnits = MethodSpecificUnits)) by done.
  unfold calcSpecific. destruct (decide (ei_UnitIDs item = [])) as [Hids|Hids].
  - rewrite bool_decide_eq_true_2; [done|]. split; [done|]. rewrite Hids.
    apply filter_none. set_solver.
  - destruct (decide (filter _ units = [])) as [Hels|Hels].
    + by rewrite bool_decide_eq_true_2.
    + rewrite bool_decide_eq_false_2 by (intros [_ ?]; done). done.
Qed.

Lemma factor_nonneg m units : units_wf units → Forall (λ u, 0 ≤ factor m u) units.
Proof.
  intros H. eapply Forall_impl; [apply H|]. intros u [? ?]. unfold factor.
  repeat case_decide; lia.
Qed.

Lemma factor_nonneg_Q m units :
  units_wf units → Forall (λ u, 0 <= inject_Z (factor m u))%Q units.
Proof.
  intros H. eapply Forall_impl; [by apply (factor_nonneg m)|]. intros u Hu.
  simpl in *. by rewrite Zle_Qle in Hu.
Qed.

(** A simple item can be computed: its amount is positive and its group of
    units is not empty and carries a positive total factor. *)
Definition computable (item : CostItem) (units : list EUnit) : Prop :=
  if decide (ei_Method item = MethodFixed)
  then 0 < ei_FixedAmountPerUnit item ∧ participants item units ≠ []
  else proportional_method (ei_Method item) ∧ 0 < ei_Total item ∧
       0 < sum_of (factor (ei_Method item)) (targets item units).

(** A combined item splits its total over its components by weight, and each
    component must be computable with its pool; a [fixed] component only needs
    a participant. *)
Definition component_computable (item : CostItem) (units : list EUnit)
    (w : ComboWeight) (pool : Z) : Prop :=
  if decide (ew_Method w = MethodFixed) then participants item units ≠ []
  else computable (combo_sub item w pool) units.

Definition combo_computable (item : CostItem) (units : list EUnit) : Prop :=
  combo_weights_ok (ei_ComboWeights item) = true ∧ 0 < ei_Total item ∧
  ∃ pools, LargestRemainder (ei_Total item) (combo_pools item) pools ∧
    Forall (λ '(w, pool), component_computable item units w pool)
      (zip (ei_ComboWeights item) pools).

Lemma sumQ_factor_zero m els :
  (sumQ ((λ u, inject_Z (factor m u)) <$> els) == 0)%Q ↔ sum_of (factor m) els = 0.
Proof.
  rewrite sumQ_inject. change 0%Q with (inject_Z 0).
  split; [apply inject_Z_injective|by intros ->].
Qed.

Lemma simple_computable n item units :
  simple item → units_wf units → in64 (ei_Total item) →
  (∃ res, Calculate_fuel (S n) item units = Ok res) ↔ computable item units.
Proof.
  intros Hs Hwf Hr. unfold computable.
  destruct (decide (ei_Method item = MethodFixed)) as [Hm|Hm].
  { rewrite Calculate_fixed by done. unfold calcFixed.
    destruct (Z.leb_spec (ei_FixedAmountPerUnit item) 0).
    { split; [by intros [? ?]|]. intros [? _]. lia. }
    case_decide; [split; [by intros [? ?]|by intros [_ ?]]|].
    split; [done|]. intros _. by eexists. }
  destruct (decide (proportional_method (ei_Method item))) as [Hp|Hp]; last first.
  { split; [|naive_solver]. intros [res H]. exfalso. revert H. cbn [Calculate_fuel].
    rewrite (bool_decide_eq_false_2 (ei_Method item = MethodFixed)) by done.
    unfold proportional_method in Hp. cbn [negb andb]. rewrite andb_true_r. destruct (_ <=? 0); [done|].
    unfold simple in Hs. rewrite !decide_False by tauto. done. }
  rewrite Calculate_proportional_eq by done.
  pose proof (targets_wf item units Hwf) as Ht.
  pose proof (sum_of_nonneg _ _ (factor_nonneg (ei_Method item) _ Ht)) as Hn.
  destruct (Z.leb_spec (ei_Total item) 0).
  { split; [by intros [? ?]|]. intros (_ & ? & _). lia. }
  case_bool_decide as Hsp.
  { destruct Hsp as [_ E]. rewrite E. split; [by intros [? ?]|].
    intros (_ & _ & Hlt). rewrite sum_of_nil in Hlt. lia. }
  destruct (distribute_cases (ei_ID item) (ei_Total item) (targets item units)
    (λ u, inject_Z (factor (ei_Method item) u)))
    as [[E ->]|[(_ & E & ->)|(_ & E & res & _ & -> & _)]];
    [by apply factor_nonneg_Q|lia|done| | |].
  - rewrite E. split; [by intros [? ?]|]. intros (_ & _ & Hlt). rewrite sum_of_nil in Hlt. lia.
  - rewrite sumQ_factor_zero in E. split; [by intros [? ?]|]. intros (_ & _ & Hlt). lia.
  - rewrite sumQ_factor_zero in E. split; [|eauto]. intros _. split_and!; [done..|lia].
Qed.

Lemma distribute_ones id total els :
  0 ≤ total → in64 total →
  (∃ res, distribute id total els (λ _, ratOne) = Ok res) ↔ els ≠ [].
Proof.
  intros Ht Hr.
  destruct (distribute_cases id total els (λ _, ratOne) (nonneg_ones _) Ht Hr)
    as [[E ->]|[(E & Hz & _)|(E & _ & res & _ & -> & _)]]; [naive_solver| |naive_solver].
  exfalso. change (λ _ : EUnit, ratOne) with (λ u : EUnit, inject_Z ((λ _, 1) u)) in Hz.
  rewrite sumQ_inject, sum_of_const in Hz.
  change 0%Q with (inject_Z 0) in Hz. rewrite inject_Z_injective in Hz.
  destruct els; [done|cbn [length] in Hz; lia].
Qed.

Lemma component_success item units w pool :
  ew_Method w ≠ MethodCombined → units_wf units → 0 ≤ pool → in64 pool →
  (∃ res, combo_component (Calculate_fuel 1) item units w pool = Ok res) ↔
  component_computable item units w pool.
Proof.
  intros Hm Hwf Hp Hr. unfold combo_component, component_computable.
  case_decide; [|by apply simple_computable].
  rewrite participants_sub. by apply distribute_ones.
Qed.

Lemma combo_loop_success item units ws running acc :
  units_wf units →
  Forall (λ '(w, pool), ew_Method w ≠ MethodCombined ∧ 0 ≤ pool ∧ in64 pool) ws →
  (∃ out, combo_loop (Calculate_fuel 1) item units ws running acc = Ok out) ↔
  Forall (λ '(w, pool), component_computable item units w pool) ws.
Proof.
  intros Hwf H. revert running acc.
  induction H as [|[w pool] ws (Hm & Hp & Hr) _ IH]; intros running acc; cbn [combo_loop].
  { split; [by constructor|eauto]. }
  rewrite Forall_cons. rewrite <- component_success by done.
  destruct (combo_component _ _ _ _ _) as [res|e|y]; cbn [mbind Res_bind];
    [rewrite IH; naive_solver|naive_solver..].
Qed.

(** Every pool stays within the total. *)
Lemma pools_bounded total exact pools :
  in64 total → Forall (λ e, 0 <= e)%Q exact → LargestRemainder total exact pools →
  Forall (λ p, 0 ≤ p ∧ in64 p) pools.
Proof.
  intros Hr He Hl. pose proof (LargestRemainder_nonneg _ _ _ He Hl) as Hn.
  apply Forall_forall. intros p Hp.
  assert (sum_of id pools = total) as Hs by (unfold sum_of; rewrite list_fmap_id; apply Hl).
  pose proof (sum_of_elem_le id pools p Hn Hp). rewrite Forall_forall in Hn.
  specialize (Hn p Hp). unfold in64, id in *. lia.
Qed.

Lemma combined_computable item units :
  ei_Method item = MethodCombined → units_wf units → item_in_range item units →
  (∃ res, Calculate item units = Ok res) ↔ combo_computable item units.
Proof.
  intros Hm Hwf [Hr _ Hw]. unfold Calculate. rewrite Calculate_combined by done.
  unfold combo_computable, calcCombined, calcCombined_enum.
  destruct (Z.leb_spec (ei_Total item) 0).
  { split; [by intros [? ?]|]. intros (_ & ? & _). lia. }
  destruct (combo_weights_ok (ei_ComboWeights item)) eqn:Hok; [cbn [negb]|naive_solver].
  apply combo_weights_ok_Forall in Hok as (Hne & Hws & Hsum).
  rewrite sum64_wrap, wrap64_id in Hsum by done.
  pose proof (combo_pools_nonneg item ltac:(lia) Hws) as Hpn.
  destruct (allocate_ok (ei_Total item) (combo_pools item)) as (pools & -> & Hlr);
    [done|by apply combo_pools_sum|done|]. cbn [mbind Res_bind].
  pose proof (pools_bounded _ _ _ Hr Hpn Hlr) as Hb.
  assert (Forall (λ '(w, pool), ew_Method w ≠ MethodCombined ∧ 0 ≤ pool ∧ in64 pool)
    (zip (ei_ComboWeights item) pools)) as Hz.
  { apply Forall_forall. intros [w p] Hin. rewrite Forall_forall in Hws. rewrite Forall_forall in Hb.
    split; [by apply Hws, elem_of_zip_l with p pools|].
    by apply Hb, elem_of_zip_r with w (ei_ComboWeights item). }
  pose proof (combo_loop_success item units _ 0 ∅ Hwf Hz) as Hl.
  assert ((∃ out, combo_loop (Calculate_fuel 1) item units
      (zip (ei_ComboWeights item) pools) 0 ∅ = Ok out) ↔
    (∃ pools, LargestRemainder (ei_Total item) (combo_pools item) pools ∧
     Forall (λ '(w, pool), component_computable item units w pool)
       (zip (ei_ComboWeights item) pools))) as Hiff.
  { rewrite Hl. split; [by eauto|]. intros (pools' & Hlr' & ?).
    by rewrite (LargestRemainder_unique _ _ _ _ Hlr Hlr'). }
  destruct (combo_loop _ _ _ _ _ _) as [[rn mp]|e|y]; cbn [mbind Res_bind]; naive_solver.
Qed.

(** C21: Success is decided by the input alone. A simple item is computed exactly
    when its amount is positive and its group of units is non-empty with a
    positive total factor; a combined item exactly when its weights are valid
    and each component can be computed with its share of the total. *)
Theorem Calculate_succeeds_iff (item : CostItem) (units : list EUnit)
    (Hwf : units_wf units) (Hrange : item_in_range item units) :
  (∃ res, Calculate item units = Ok res) ↔
  (if decide (ei_Method item = MethodCombined) then combo_computable item units
   else computable item units).
Proof.
  case_decide; [by apply combined_computable|].
  apply simple_computable; [done..|apply Hrange].
Qed.

Lemma Calculate_succeeds_iff_witness : combo_computable witness_combo witness_units.
Proof.
  apply (Calculate_succeeds_iff witness_combo witness_units);
    [apply witness_units_wf|split; vm_compute; split; done|].
  eexists. vm_compute. reflexivity.
Defined.

(** ** Fairness *)







Section fairness.
Context (item : CostItem) (units : list EUnit).
Let els := targets item units.
Let w (u : EUnit) : Q := inject_Z (factor (ei_Method item) u).


End fairness.



(** ** Order dependence and the limits of the combined method *)

Definition tie_item : CostItem := MkCostItem "x" 100 MethodEqual 0 [] true [].

Definition plain_unit (id : string) : EUnit := MkEUnit id 1 1 false.

(** Ties go to the first unit of the input, not to the lowest unit id:
    reordering the same units moves the odd Toman to another unit. *)
Theorem tie_break_follows_input :
  (∃ res, Calculate tie_item (plain_unit <$> ["b"; "a"; "c"]) = Ok res ∧
     (λ sh, (sh_UnitID sh, sh_Rounded sh)) <$> ir_Shares res = [("a", 33); ("b", 34); ("c", 33)]) ∧
  (∃ res, Calculate tie_item (plain_unit <$> ["a"; "b"; "c"]) = Ok res ∧
     (λ sh, (sh_UnitID sh, sh_Rounded sh)) <$> ir_Shares res = [("a", 34); ("b", 33); ("c", 33)]).
Proof. split; (eexists; split; vm_compute; reflexivity). Qed.

(** A combined item whose smallest pool rounds to nothing is rejected
    although its total is positive, and a combined item with a [specific_units]
    component is rejected whatever its units, because the component carries no
    unit list. *)
Theorem combined_limits (units : list EUnit) (ws : list ComboWeight) (total : Z)
    (vacant : bool) (ids : list string)
    (Hwf : units_wf units)
    (Hrange : item_in_range (MkCostItem "x" total MethodCombined 0 ws vacant ids) units)
    (Hspec : Exists (λ w, ew_Method w = MethodSpecificUnits) ws) :
  (∃ e, Calculate (MkCostItem "x" total MethodCombined 0 ws vacant ids) units = Err e) ∧
  Calculate (MkCostItem "x" 1 MethodCombined 0
      [MkComboWeight MethodEqual 50 0; MkComboWeight MethodPerArea 50 0] true [])
    (plain_unit <$> ["a"; "b"])
  = Err (EWrap "" ErrNonPositiveTotal ": قلم x").
Proof.
  split; [|vm_compute; reflexivity].
  destruct (Calculate_cases _ units Hwf Hrange) as [?|(res & E & _)]; [done|exfalso].
  assert (combo_computable (MkCostItem "x" total MethodCombined 0 ws vacant ids) units)
    as (Hok & _ & pools & Hlr & Hall) by (apply combined_computable; eauto).
  apply Exists_exists in Hspec as (w & Hw & Hm).
  apply list_elem_of_lookup in Hw as [i Hi].
  destruct (lookup_lt_is_Some_2 pools i) as [p Hpi].
  { rewrite (lr_length _ _ _ Hlr). unfold combo_pools. rewrite length_fmap. by eapply lookup_lt_Some. }
  rewrite Forall_forall in Hall. specialize (Hall (w, p)).
  simpl in Hall. assert ((w, p) ∈ zip ws pools) as Hin.
  { apply elem_of_lookup_zip_with. by exists i, w, p. }
  specialize (Hall Hin). unfold component_computable in Hall. rewrite Hm in Hall.
  rewrite decide_False in Hall by done. unfold computable in Hall. simpl in Hall.
  rewrite Hm, decide_False in Hall by done. destruct Hall as (_ & _ & Hsum).
  revert Hsum. unfold targets. simpl. rewrite Hm, decide_True by done.
  rewrite filter_none by set_solver. rewrite sum_of_nil. lia.
Qed.

Lemma combined_limits_witness :
  ∃ e, Calculate (MkCostItem "x" 1000 MethodCombined 0
    [MkComboWeight MethodSpecificUnits 40 0; MkComboWeight MethodEqual 60 0] true ["a"])
    witness_units = Err e.
Proof.
  eapply (combined_limits witness_units
    [MkComboWeight MethodSpecificUnits 40 0; MkComboWeight MethodEqual 60 0] 1000 true ["a"]);
    [apply witness_units_wf|split; vm_compute; split; done|by left].
Defined.
