(* ===== verification/LateFee.v ===== *)
(** * Late fees

    [LateFee] and [roundRat] of [internal/billing/engine/engine.go]: the fee of
    an invoice by kind, and the rounding of a rational to Toman through a
    binary float. *)

From Stdlib Require Import SpecFloat.
From S2P Require Import Prelude Golang Errors Engine.

Definition LateFeeNone : string := "none".
Definition LateFeeFixed : string := "fixed".
Definition LateFeePercent : string := "percent".
Definition LateFeePerDay : string := "per_day".

(** [f.Int(nil)] truncates toward zero; [i.Int64()] keeps the low 64 bits. *)
Definition roundRat (r : Q) : Z :=
  let f := Float_SetRat r in
  let i := rat_quo f in
  let diff := (r - inject_Z i)%Q in
  wrap64 (if bool_decide ((1 # 2) <= diff)%Q then i + 1 else i).

(** [new(big.Rat).SetFloat64(value)] is nil when the value is not finite, and
    using the nil rational panics. *)
Definition rat_of_float (value : spec_float) : Res Q :=
  match Rat_SetFloat64 value with
  | Some r => Ok r
  | None => Panic "invalid memory address or nil pointer dereference"
  end.

Definition float64_100 : spec_float := float64_of_Z 100.

Definition LateFee (kind : string) (value : spec_float) (baseAmount daysLate : Z) : Res Z :=
  let daysLate := if daysLate <? 0 then 0 else daysLate in
  if decide (kind = LateFeeNone) then Ok 0
  else if decide (kind = LateFeeFixed) then
    r ← rat_of_float value; Ok (roundRat r)
  else if decide (kind = LateFeePercent) then
    v ← rat_of_float (float64_div value float64_100);
    Ok (roundRat (inject_Z baseAmount * v)%Q)
  else if decide (kind = LateFeePerDay) then
    r ← rat_of_float value; Ok (mul64 daysLate (roundRat r))
  else Err (EWrap "" ErrUnknownLateFee (": " +:+ kind)).

Example LateFee_percent :
  LateFee LateFeePercent (float64_div (float64_of_Z 5) (float64_of_Z 2)) 1010 0 = Ok 25.
Proof. vm_compute. reflexivity. Qed.

(** ** Binary rounding *)

Lemma Q_nearest_even_le x k : (x <= inject_Z k)%Q → Q_nearest_even x ≤ k.
Proof.
  intros H. unfold Q_nearest_even. pose proof (Qfloor_resp_le _ _ H) as Hf.
  rewrite Qfloor_Z in Hf.
  destruct (decide (Qfloor x = k)) as [E|E].
  - assert (x - inject_Z (Qfloor x) <= 0)%Q as Hz by (rewrite E; lra).
    destruct (Qcompare_spec (x - inject_Z (Qfloor x)) (1 # 2)); [exfalso; lra|lia|exfalso; lra].
  - destruct (_ ?= _)%Q; [destruct (Z.even _)|..]; lia.
Qed.

Lemma Q_nearest_even_ge x k : (inject_Z k <= x)%Q → k ≤ Q_nearest_even x.
Proof.
  intros H. unfold Q_nearest_even. pose proof (Qfloor_resp_le _ _ H) as Hf.
  rewrite Qfloor_Z in Hf. destruct (_ ?= _)%Q; [destruct (Z.even _)|..]; lia.
Qed.

Lemma Q_pow2_pos e : (0 < Q_pow2 e)%Q.
Proof.
  unfold Q_pow2. destruct (Z.leb_spec 0 e); [|done].
  change 0%Q with (inject_Z 0). rewrite <- Zlt_Qlt. by apply Z.pow_pos_nonneg.
Qed.

(** A multiple of half a Toman is a multiple of every finer power of two. *)
Lemma half_multiple e k : e ≤ -1 →
  (inject_Z k * (1 # 2) == inject_Z (k * 2 ^ (- e - 1)) * Q_pow2 e)%Q.
Proof.
  intros He. unfold Q_pow2. destruct (Z.leb_spec 0 e); [lia|].
  assert (0 < 2 ^ (- e)) as Hp by (apply Z.pow_pos_nonneg; lia).
  unfold Qeq, Qmult, inject_Z. cbn [Qnum Qden].
  rewrite !Pos2Z.inj_mul, Z2Pos.id by done. rewrite !Z.mul_1_r, !Z.mul_1_l.
  replace (- e) with ((- e - 1) + 1) at 1 by lia.
  rewrite Z.pow_add_r by lia. lia.
Qed.

Section round.
Context (prec : Z) (r : Q).
Let u := Q_pow2 (Q_exponent r - prec + 1).
Context (He : Q_exponent r - prec + 1 ≤ -1).

Lemma u_pos : (0 < u)%Q.
Proof. apply Q_pow2_pos. Qed.

(** Rounding does not cross a multiple of one half. *)
Lemma round_pos_le k :
  (r <= inject_Z k * (1 # 2))%Q → (round_pos_float prec r <= inject_Z k * (1 # 2))%Q.
Proof.
  intros H. unfold round_pos_float. fold u.
  rewrite (half_multiple _ _ He) in *. fold u in H |- *.
  apply Qmult_le_compat_r; [|apply Qlt_le_weak, u_pos]. rewrite <- Zle_Qle.
  apply Q_nearest_even_le, Qle_shift_div_r; [apply u_pos|done].
Qed.

Lemma round_pos_ge k :
  (inject_Z k * (1 # 2) <= r)%Q → (inject_Z k * (1 # 2) <= round_pos_float prec r)%Q.
Proof.
  intros H. unfold round_pos_float. fold u.
  rewrite (half_multiple _ _ He) in *. fold u in H |- *.
  apply Qmult_le_compat_r; [|apply Qlt_le_weak, u_pos]. rewrite <- Zle_Qle.
  apply Q_nearest_even_ge, Qle_shift_div_l; [apply u_pos|done].
Qed.
End round.

(** An amount below [2^63] has an exponent of at most 62. *)
Lemma Q_exponent_bound r :
  (0 < r)%Q → (r < inject_Z (2 ^ 63))%Q → Q_exponent r ≤ 62.
Proof.
  intros Hp Hr. unfold Q_exponent.
  assert (Z.log2 (Qnum r) ≤ Z.log2 (Zpos (Qden r)) + 63) as Hl.
  { unfold Qlt in Hp, Hr. cbn [Qnum Qden inject_Z] in Hp, Hr. rewrite Z.mul_1_r in Hr.
    assert (0 < Qnum r) as Hn by lia.
    pose proof (Z.log2_spec (Z.pos (Qden r)) ltac:(lia)) as [_ H2].
    enough (Z.log2 (Qnum r) < Z.succ (Z.log2 (Z.pos (Qden r))) + 63) by lia.
    apply Z.log2_lt_pow2; [done|]. rewrite Z.pow_add_r by (pose proof (Z.log2_nonneg (Z.pos (Qden r))); lia).
    nia. }
  case_bool_decide as Hq; [|lia].
  destruct (decide (Z.log2 (Qnum r) - Z.log2 (Z.pos (Qden r)) = 63)) as [E|]; [|lia].
  rewrite E in Hq. exfalso. change (Q_pow2 63) with (inject_Z (2 ^ 63)) in Hq. lra.
Qed.

(** The float conversion of a non-negative rational never crosses a multiple
    of one half. *)
Lemma Float_SetRat_half r k :
  (0 <= r)%Q → (r < inject_Z (2 ^ 63))%Q →
  ((r <= inject_Z k * (1 # 2))%Q → (Float_SetRat r <= inject_Z k * (1 # 2))%Q) ∧
  ((inject_Z k * (1 # 2) <= r)%Q → (inject_Z k * (1 # 2) <= Float_SetRat r)%Q).
Proof.
  intros H0 Hr. unfold Float_SetRat. pose proof (Qred_correct r) as Hq.
  rewrite <- Hq in H0, Hr |- * at 1. set (s := Qred r) in *.
  rewrite <- Hq. clear Hq. destruct (_ =? _)%positive; [done|].
  set (prec := Z.max 64 _). unfold round_float.
  destruct (Z.eqb_spec (Rat_Sign s) 0) as [Hs|Hs].
  { unfold Rat_Sign in Hs. rewrite Z.sgn_null_iff in Hs.
    assert (s == 0)%Q as E by (unfold Qeq; simpl; lia). rewrite E. lra. }
  assert (0 < s)%Q as Hp.
  { apply Qle_lteq in H0 as [?|E]; [done|]. exfalso. apply Hs. unfold Rat_Sign.
    apply Z.sgn_null_iff. unfold Qeq in E. simpl in E. lia. }
  assert (Rat_Sign s = 1) as ->.
  { unfold Rat_Sign. apply Z.sgn_pos_iff. unfold Qlt in Hp. simpl in Hp. lia. }
  rewrite Z.eqb_refl.
  assert (Q_exponent s - prec + 1 ≤ -1) as He.
  { pose proof (Q_exponent_bound s Hp Hr). lia. }
  split; [by apply round_pos_le|by apply round_pos_ge].
Qed.

Lemma inject_half k : (inject_Z (2 * k) * (1 # 2) == inject_Z k)%Q.
Proof. rewrite inject_Z_mult. change (inject_Z 2) with 2%Q. field. Qed.

Lemma inject_half_succ k : (inject_Z (2 * k + 1) * (1 # 2) == inject_Z k + (1 # 2))%Q.
Proof. rewrite inject_Z_plus, inject_Z_mult. change (inject_Z 2) with 2%Q. field. Qed.

Lemma Qfloor_unique x n : (inject_Z n <= x)%Q → (x < inject_Z (n + 1))%Q → Qfloor x = n.
Proof.
  intros H1 H2. pose proof (Qfloor_le x). pose proof (Qlt_floor x).
  assert (n < Qfloor x + 1) by (rewrite Zlt_Qlt; lra).
  assert (Qfloor x < n + 1) by (rewrite Zlt_Qlt; lra). lia.
Qed.

Lemma roundRat_floor r :
  (0 <= r)%Q → (r < inject_Z (2 ^ 63 - 1))%Q → roundRat r = Qfloor (r + (1 # 2)).
Proof.
  intros H0 Hr. assert (r < inject_Z (2 ^ 63))%Q as Hr'.
  { eapply Qlt_trans; [exact Hr|]. rewrite <- Zlt_Qlt. lia. }
  set (n := Qfloor r). pose proof (Qfloor_nonneg r H0) as Hn. fold n in Hn.
  pose proof (Qfloor_le r) as Hlo. pose proof (Qlt_floor r) as Hhi. fold n in Hlo, Hhi.
  assert (n < 2 ^ 63 - 1) as Hn2 by (rewrite Zlt_Qlt; lra).
  set (f := Float_SetRat r).
  pose proof (proj2 (Float_SetRat_half r (2 * n) H0 Hr')) as F1.
  pose proof (proj1 (Float_SetRat_half r (2 * (n + 1)) H0 Hr')) as F2.
  pose proof (proj1 (Float_SetRat_half r (2 * n + 1) H0 Hr')) as F3.
  rewrite !inject_half in F1, F2. rewrite inject_half_succ in F3. fold f in F1, F2, F3.
  specialize (F1 Hlo). specialize (F2 ltac:(lra)).
  assert (0 <= f)%Q as Hf by (change 0%Q with (inject_Z 0); rewrite Zle_Qle in Hn; lra).
  unfold roundRat. fold f. rewrite (rat_quo_floor f Hf).
  rewrite inject_Z_plus in *. change (inject_Z 1) with 1%Q in *.
  destruct (Qlt_le_dec f (inject_Z n + 1)) as [Hlt|Hge].
  - assert (Qfloor f = n) as ->.
    { apply Qfloor_unique; [done|]. rewrite inject_Z_plus. done. }
    case_bool_decide as Hd; rewrite wrap64_id by (unfold in64; lia); symmetry;
      apply Qfloor_unique; rewrite ?inject_Z_plus; change (inject_Z 1) with 1%Q; lra.
  - assert (Qfloor f = n + 1) as ->.
    { apply Qfloor_unique; rewrite !inject_Z_plus; change (inject_Z 1) with 1%Q; lra. }
    assert (¬ (r <= inject_Z n + (1 # 2)))%Q as Hgt by (intros Hle; specialize (F3 Hle); lra).
    rewrite inject_Z_plus. change (inject_Z 1) with 1%Q.
    rewrite bool_decide_eq_false_2 by lra. rewrite wrap64_id by (unfold in64; lia).
    symmetry. apply Qfloor_unique; rewrite ?inject_Z_plus; change (inject_Z 1) with 1%Q; lra.
Qed.

(** ** Properties *)

(** [roundRat] rounds a non-negative amount below [2^63 - 1] to the nearest
    Toman, halves up, although it goes through a binary float. *)
Theorem roundRat_half_up (r : Q) (H0 : (0 <= r)%Q) (Hr : (r < inject_Z (2 ^ 63 - 1))%Q) :
  roundRat r = Qfloor (r + (1 # 2)).
Proof. by apply roundRat_floor. Qed.

Lemma roundRat_half_up_witness : roundRat (5 # 2) = 3.
Proof. apply (roundRat_half_up (5 # 2)); vm_compute; done. Defined.

(** On negative amounts it is not "half away from zero" but truncation
    toward zero: no fraction of a negative amount is ever rounded. *)
Theorem roundRat_negative_truncates :
  roundRat (- 5 # 2) = -2 ∧ roundRat (- 29 # 10) = -2 ∧ roundRat (- 1 # 2) = 0.
Proof. vm_compute. done. Qed.

(** The value of a finite float. *)
Definition float_Q (f : spec_float) : Q := default 0%Q (Rat_SetFloat64 f).

Definition half_up (r : Q) : Z := Qfloor (r + (1 # 2)).

(** An amount the rounding is exact on. *)
Definition amount (r : Q) : Prop := (0 <= r)%Q ∧ (r < inject_Z (2 ^ 63 - 1))%Q.

(** The fee of each kind. *)
Inductive late_fee_of (value : spec_float) (base daysLate : Z) : string → Z → Prop :=
  | lf_none : late_fee_of value base daysLate LateFeeNone 0
  | lf_fixed : late_fee_of value base daysLate LateFeeFixed (half_up (float_Q value))
  | lf_percent : late_fee_of value base daysLate LateFeePercent
      (half_up (inject_Z base * float_Q (float64_div value float64_100)))
  | lf_per_day : late_fee_of value base daysLate LateFeePerDay
      (Z.max 0 daysLate * half_up (float_Q value)).

Ltac fee := eexists; split_and!; [done|lia|constructor].

Lemma rat_of_float_finite f : Rat_SetFloat64 f ≠ None → rat_of_float f = Ok (float_Q f).
Proof. unfold rat_of_float, float_Q. by destruct (Rat_SetFloat64 f). Qed.

(** [LateFee] charges nothing for [none], the value for [fixed], that
    percentage of the base for [percent] and the value per day late for
    [per_day] (an early payment counting as zero days), rounded half up; the
    fee is never negative, and any other kind is an error. *)
Theorem LateFee_correct (kind : string) (value : spec_float) (base daysLate : Z)
    (Hfin : Rat_SetFloat64 value ≠ None)
    (Hfin' : Rat_SetFloat64 (float64_div value float64_100) ≠ None)
    (Hv : amount (float_Q value))
    (Hp : amount (inject_Z base * float_Q (float64_div value float64_100)))
    (Hd : in64 (Z.max 0 daysLate * half_up (float_Q value))) :
  (∃ fee, LateFee kind value base daysLate = Ok fee ∧ 0 ≤ fee ∧
     late_fee_of value base daysLate kind fee) ∨
  (kind ∉ [LateFeeNone; LateFeeFixed; LateFeePercent; LateFeePerDay] ∧
   LateFee kind value base daysLate = Err (EWrap "" ErrUnknownLateFee (": " +:+ kind))).
Proof.
  assert (∀ r, amount r → roundRat r = half_up r ∧ 0 ≤ half_up r) as Hround.
  { intros r [H0 Hr]. split; [by apply roundRat_floor|]. apply Qfloor_nonneg. lra. }
  unfold LateFee. rewrite !rat_of_float_finite by done. cbn [mbind Res_bind].
  destruct (Hround _ Hv) as [-> Hv0]. destruct (Hround _ Hp) as [-> Hp0].
  replace (if daysLate <? 0 then 0 else daysLate) with (Z.max 0 daysLate)
    by (destruct (Z.ltb_spec daysLate 0); lia).
  unfold mul64. rewrite wrap64_id by done.
  destruct (decide (kind = LateFeeNone)) as [E0|]; [left; rewrite E0; fee|].
  destruct (decide (kind = LateFeeFixed)) as [E1|]; [left; rewrite E1; fee|].
  destruct (decide (kind = LateFeePercent)) as [E2|]; [left; rewrite E2; fee|].
  destruct (decide (kind = LateFeePerDay)) as [E3|].
  - left. rewrite E3. fee.
  - right. split; [|done]. set_solver.
Qed.

Lemma LateFee_correct_witness :
  ∃ fee, LateFee LateFeePercent (float64_of_Z 5) 1010 0 = Ok fee ∧ 0 ≤ fee.
Proof.
  destruct (LateFee_correct LateFeePercent (float64_of_Z 5) 1010 0)
    as [(fee & H1 & H2 & _)|[H _]].
  - vm_compute. discriminate.
  - vm_compute. discriminate.
  - split; vm_compute; [discriminate|reflexivity].
  - split; vm_compute; [discriminate|reflexivity].
  - split; vm_compute; [discriminate|reflexivity].
  - exists fee. exact (conj H1 H2).
  - destruct H. right. right. left.
Defined.
