(* ===== verification/Models.v ===== *)
(** * Data model

    The rows the backend stores: [building/models.go], [building/occupancy_models.go],
    [auth/user.go], [auth/token.go], [auth/invite.go], [billing/models.go],
    [payment/models.go], [notification/notification.go], [audit/audit.go],
    [expense/models.go], [maintenance/models.go], [announcement/models.go] and
    [platform/storage/handler.go].
    A pointer field is an [option], an [int64] or [int] a [Z], an instant or a
    date a [Time] (a date is a midnight, UTC). *)

From Stdlib Require Import SpecFloat.
From S2P Require Import Prelude Golang.

(** ** uuid *)

(** A 16-byte identifier, ordered as its bytes. *)
Definition UUID : Type := N.
Bind Scope N_scope with UUID.
Definition uuid_Nil : UUID := 0%N.

(** [github.com/google/uuid]: the canonical text and its parser. *)
Class UuidCodec := {
  uuid_String : UUID → string;
  uuid_Parse : string → option UUID;
  uuid_Parse_String : ∀ u, uuid_Parse (uuid_String u) = Some u;
}.

Lemma uuid_String_inj `{UuidCodec} u v : uuid_String u = uuid_String v → u = v.
Proof.
  intros E. pose proof (uuid_Parse_String u) as Hu.
  rewrite E, uuid_Parse_String in Hu. congruence.
Qed.

(** ** building *)

Definition UnitStatusActive : string := "active".
Definition UnitStatusVacant : string := "vacant".
Definition UnitStatusOccupied : string := "occupied".
Definition UnitStatusInactive : string := "inactive".

Record Building := MkBuilding {
  b_ID : UUID;
  b_Name : string;
  b_Address : option string;
  b_BlockCount : Z;
  b_FloorCount : Z;
  b_UnitCount : Z;
  b_BuiltYear : option Z;
  b_ManagerPhone : option string;
  b_EmergencyPhone : option string;
  b_Notes : option string;
  b_CreatedAt : Time;
  b_UpdatedAt : Time;
  b_DeletedAt : option Time;
}.

Record Unit := MkUnit {
  u_ID : UUID;
  u_BuildingID : UUID;
  u_Number : string;
  u_Block : option string;
  u_Floor : Z;
  u_AreaM2 : Z;
  u_ParkingCount : Z;
  u_ParkingNumbers : option string;
  u_StorageCount : Z;
  u_StorageNumbers : option string;
  u_Status : string;
  u_Notes : option string;
  u_CreatedAt : Time;
  u_UpdatedAt : Time;
  u_DeletedAt : option Time;
}.

Record UserBuilding := MkUserBuilding {
  ub_UserID : UUID;
  ub_BuildingID : UUID;
  ub_GrantedAt : Time;
}.

Record BuildingManager := MkBuildingManager {
  bm_UserID : UUID;
  bm_Phone : string;
  bm_Name : string;
  bm_Role : string;
  bm_GrantedAt : Time;
}.

Definition RelOwner : string := "owner".
Definition RelTenant : string := "tenant".
Definition RelNonResidentOwner : string := "non_resident_owner".

Record Person := MkPerson {
  p_ID : UUID;
  p_BuildingID : UUID;
  p_FullName : string;
  p_Phone : option string;
  p_NationalID : option string;
  p_CreatedAt : Time;
  p_UpdatedAt : Time;
  p_DeletedAt : option Time;
}.

(** The [Person] association is loaded on lists only and is not a column. *)
Record Occupancy := MkOccupancy {
  o_ID : UUID;
  o_UnitID : UUID;
  o_PersonID : UUID;
  o_Relationship : string;
  o_StartDate : Time;
  o_EndDate : option Time;
  o_IsActive : bool;
  o_CreatedAt : Time;
}.

Record OccupantCount := MkOccupantCount {
  oc_ID : UUID;
  oc_UnitID : UUID;
  oc_OccupantCount : Z;
  oc_EffectiveFrom : Time;
  oc_CreatedAt : Time;
}.

(** ** auth *)

Definition RoleSuperAdmin : string := "superadmin".
Definition RoleManager : string := "manager".
Definition RoleResident : string := "resident".

Record User := MkUser {
  us_ID : UUID;
  us_Phone : string;
  us_PasswordHash : option string;
  us_Role : string;
  us_Name : string;
  us_FCMToken : option string;
  us_IsActive : bool;
  us_CreatedAt : Time;
  us_UpdatedAt : Time;
  us_DeletedAt : option Time;
}.

Record RefreshToken := MkRefreshToken {
  rt_ID : UUID;
  rt_UserID : UUID;
  rt_FamilyID : UUID;
  rt_TokenHash : string;
  rt_ExpiresAt : Time;
  rt_RevokedAt : option Time;
  rt_CreatedAt : Time;
}.

Record InviteCode := MkInviteCode {
  iv_ID : UUID;
  iv_Phone : string;
  iv_CodeHash : string;
  iv_Role : string;
  iv_CreatedBy : option UUID;
  iv_ExpiresAt : Time;
  iv_ConsumedAt : option Time;
  iv_CreatedAt : Time;
}.

(** ** billing *)

(** Integer Toman. *)
Definition Money : Type := Z.

Definition PeriodDraft : string := "draft".
Definition PeriodCalculated : string := "calculated".
Definition PeriodIssued : string := "issued".
Definition PeriodClosed : string := "closed".

Definition InvoiceUnpaid : string := "unpaid".
Definition InvoicePartial : string := "partial".
Definition InvoicePaid : string := "paid".
Definition InvoiceExpired : string := "expired".
Definition InvoiceCanceled : string := "cancelled".

Record BillingPeriod := MkBillingPeriod {
  bp_ID : UUID;
  bp_BuildingID : UUID;
  bp_Title : string;
  bp_StartDate : Time;
  bp_EndDate : Time;
  bp_DueDate : Time;
  bp_LateFeeType : string;
  bp_LateFeeValue : spec_float;
  bp_Status : string;
  bp_CalculatedAt : option Time;
  bp_IssuedAt : option Time;
  bp_ClosedAt : option Time;
  bp_CreatedAt : Time;
  bp_UpdatedAt : Time;
}.

(** [billing.ComboWeight], the JSON column of a cost item. *)
Record BComboWeight := MkBComboWeight {
  cw_Method : string;
  cw_Weight : Z;
  cw_FixedAmountPerUnit : Money;
}.

(** [billing.CostItem]. *)
Record BCostItem := MkBCostItem {
  ci_ID : UUID;
  ci_PeriodID : UUID;
  ci_Title : string;
  ci_TotalAmount : Money;
  ci_Method : string;
  ci_FixedAmountPerUnit : option Money;
  ci_ComboWeights : list BComboWeight;
  ci_IncludeVacant : bool;
  ci_UnitIDs : list UUID;
  ci_CreatedAt : Time;
  ci_UpdatedAt : Time;
}.

(** The [inputs_snapshot] column: the map with keys [occupants], [area_m2] and
    [vacant], or the empty map. *)
Record Inputs := MkInputs {
  is_occupants : Z;
  is_area_m2 : Z;
  is_vacant : bool;
}.

Record CostItemShare := MkCostItemShare {
  cs_ID : UUID;
  cs_CostItemID : UUID;
  cs_UnitID : UUID;
  cs_ExactShare : string;
  cs_RoundedShare : Money;
  cs_InputsSnapshot : option Inputs;
}.

(** The columns of an invoice. *)
Record Invoice := MkInvoice {
  inv_ID : UUID;
  inv_InvoiceNumber : string;
  inv_BuildingID : UUID;
  inv_PeriodID : UUID;
  inv_UnitID : UUID;
  inv_BaseAmount : Money;
  inv_PriorDebt : Money;
  inv_LateFeeAmount : Money;
  inv_CreditAmount : Money;
  inv_FinalAmount : Money;
  inv_IssueDate : option Time;
  inv_DueDate : option Time;
  inv_Status : string;
  inv_PaidAmount : Money;
  inv_InputsFrozenAt : option Time;
  inv_CreatedAt : Time;
  inv_UpdatedAt : Time;
}.

Definition ItemCharge : string := "charge".
Definition ItemLateFee : string := "late_fee".
Definition ItemAdjustment : string := "adjustment".

Record InvoiceItem := MkInvoiceItem {
  ii_ID : UUID;
  ii_InvoiceID : UUID;
  ii_Kind : string;
  ii_Title : string;
  ii_CostItemID : option UUID;
  ii_Amount : Money;
  ii_Method : option string;
  ii_AdjustmentID : option UUID;
  ii_CreatedAt : Time;
}.

Definition AdjustmentDebit : string := "debit".
Definition AdjustmentCredit : string := "credit".

Record InvoiceAdjustment := MkInvoiceAdjustment {
  ad_ID : UUID;
  ad_InvoiceID : UUID;
  ad_Kind : string;
  ad_Amount : Money;
  ad_Reason : string;
  ad_CreatedBy : option UUID;
  ad_CreatedAt : Time;
}.

(** ** payment *)

Definition MethodManual : string := "manual".
Definition MethodGateway : string := "gateway".

Definition StatusRecorded : string := "recorded".
Definition StatusVerified : string := "verified".
Definition StatusFailed : string := "failed".
Definition StatusReversed : string := "reversed".

Record Payment := MkPayment {
  pay_ID : UUID;
  pay_BuildingID : UUID;
  pay_UnitID : UUID;
  pay_InvoiceID : option UUID;
  pay_Method : string;
  pay_Amount : Money;
  pay_PaidAt : Time;
  pay_TrackingNumber : option string;
  pay_Gateway : option string;
  pay_Authority : option string;
  pay_RecordedBy : option UUID;
  pay_Status : string;
  pay_CreatedAt : Time;
  pay_UpdatedAt : Time;
}.

Record UnitBalance := MkUnitBalance {
  bal_UnitID : UUID;
  bal_PriorDebt : Z;
  bal_CurrentInvoiceAmount : Z;
  bal_LateFeeTotal : Z;
  bal_Credit : Z;
  bal_PaidTotal : Z;
  bal_CreditAsset : Z;
  bal_Balance : Z;
  bal_UpdatedAt : Time;
}.

(** ** files, expense, maintenance, announcement *)

Record File := MkFile {
  fl_ID : UUID;
  fl_Path : string;
  fl_ContentType : string;
  fl_SizeBytes : Z;
  fl_UploadedBy : option UUID;
  fl_CreatedAt : Time;
}.

Record Expense := MkExpense {
  ex_ID : UUID;
  ex_BuildingID : UUID;
  ex_Title : string;
  ex_Category : string;
  ex_Amount : Z;
  ex_ExpenseDate : Time;
  ex_Description : option string;
  ex_PayerPersonID : option UUID;
  ex_ReceiptFile : option string;
  ex_ApprovalStatus : string;
  ex_CreatedBy : option UUID;
  ex_CreatedAt : Time;
  ex_UpdatedAt : Time;
  ex_DeletedAt : option Time;
}.

Record MaintenanceRequest := MkMaintenanceRequest {
  mr_ID : UUID;
  mr_BuildingID : UUID;
  mr_UnitID : option UUID;
  mr_SubmittedBy : UUID;
  mr_Title : string;
  mr_Category : string;
  mr_Description : option string;
  mr_Location : option string;
  mr_PhotoFile : option string;
  mr_Priority : string;
  mr_Status : string;
  mr_AssigneePersonID : option UUID;
  mr_RecordedCost : option Z;
  mr_Notes : option string;
  mr_CreatedAt : Time;
  mr_UpdatedAt : Time;
  mr_ClosedAt : option Time;
}.

Definition CatElevator : string := "elevator".
Definition CatUtilities : string := "utilities".
Definition CatElectrical : string := "electrical".
Definition CatWater : string := "water".
Definition CatCleaning : string := "cleaning".
Definition CatCommonArea : string := "common_area".
Definition CatParking : string := "parking".
Definition CatOther : string := "other".
Definition CatElectricity : string := "electricity".
Definition CatGas : string := "gas".
Definition CatSecurity : string := "security".
Definition CatRepair : string := "repair".
Definition CatInsurance : string := "insurance".
Definition CatEquipment : string := "equipment".

Definition ApprovalPending : string := "pending".
Definition ApprovalApproved : string := "approved".
Definition ApprovalRejected : string := "rejected".

Definition PriNormal : string := "normal".
Definition PriImportant : string := "important".
Definition PriUrgent : string := "urgent".

Definition StatusNew : string := "new".
Definition StatusUnderReview : string := "under_review".
Definition StatusInProgress : string := "in_progress".
Definition StatusDone : string := "done".
Definition StatusClosed : string := "closed".

Definition AudienceAll : string := "all".
Definition AudienceBlock : string := "block".
Definition AudienceFloor : string := "floor".
Definition AudienceUnit : string := "unit".

Record Announcement := MkAnnouncement {
  an_ID : UUID;
  an_BuildingID : UUID;
  an_Title : string;
  an_Body : string;
  an_AudienceType : string;
  an_AudienceValue : option string;
  an_PublishAt : option Time;
  an_ExpireAt : option Time;
  an_AttachmentFile : option string;
  an_CreatedBy : option UUID;
  an_CreatedAt : Time;
  an_UpdatedAt : Time;
}.

Record AnnouncementRead := MkAnnouncementRead {
  ar_AnnouncementID : UUID;
  ar_UserID : UUID;
  ar_ReadAt : Time;
}.

(** ** notification and audit *)

Record Notification := MkNotification {
  nt_ID : UUID;
  nt_UserID : UUID;
  nt_Type : string;
  nt_Title : string;
  nt_Body : option string;
  nt_RefType : option string;
  nt_RefID : option UUID;
  nt_IsRead : bool;
  nt_ReadAt : option Time;
  nt_CreatedAt : Time;
}.

(** The value an audit entry snapshots; the column holds its JSON text. *)
Inductive AuditSnapshot :=
  | SnInvoice (inv : Invoice)
  | SnCancelled (reason : string) (inv : Invoice)
  | SnAdjustment (adj : InvoiceAdjustment)
  | SnSession (phone role : string)
  | SnInvite (phone role : string)
  | SnMaintenance (m : MaintenanceRequest)
  | SnAnnouncement (a : Announcement)
  | SnExpense (e : Expense)
  | SnPeriod (p : BillingPeriod)
  | SnCostItem (ci : BCostItem)
  | SnCalculated (reconciled : bool)
  | SnIssuedCount (n : Z)
  | SnBuilding (b : Building)
  | SnUnit (u : Unit)
  | SnPerson (p : Person)
  | SnOccupancy (o : Occupancy)
  | SnOccupantCount (c : OccupantCount)
  | SnGranted (user : UUID) (role : string)
  | SnRevoked (user : UUID)
  | SnDeleted (at_ : Time).

Record AuditLog := MkAuditLog {
  au_UserID : option UUID;
  au_Action : string;
  au_ObjectType : string;
  au_ObjectID : option UUID;
  au_Before : option AuditSnapshot;
  au_After : option AuditSnapshot;
  au_CreatedAt : Time;
}.

(** A codec that satisfies the laws, to run the model: 24 decimal digits. *)
Definition digits_codec : UuidCodec := {|
  uuid_String u := FormatPad 24 (Z.of_N u);
  uuid_Parse s := option_map Z.to_N (parse_digits s);
  uuid_Parse_String u := eq_trans
    (f_equal (option_map Z.to_N) (parse_digits_FormatPad 24 (Z.of_N u) (N2Z.is_nonneg u)))
    (f_equal Some (N2Z.id u));
|}.
