(* ===== verification/Store.v ===== *)
(** * The store and the effects of the backend

    The PostgreSQL tables ([src/backend/migrations]) and the statements the
    repositories run on them through GORM, as a state monad over a world that
    holds the tables; the wall clock, [uuid.New], random bytes and the failures
    of a statement come from an environment indexed by a tick that every use
    advances. Operations run one after the other: a [FOR UPDATE] lock is the
    identity here, and interleavings are stated explicitly where they matter. *)

From Stdlib Require Import SpecFloat.
From S2P Require Import Prelude Golang Errors Models.

(** ** Tables *)

Record DB := MkDB {
  db_buildings : gmap UUID Building;
  db_units : gmap UUID Unit;
  db_persons : gmap UUID Person;
  db_occupancies : gmap UUID Occupancy;
  db_occupant_counts : gmap UUID OccupantCount;
  db_users : gmap UUID User;
  db_refresh_tokens : gmap UUID RefreshToken;
  db_invite_codes : gmap UUID InviteCode;
  db_periods : gmap UUID BillingPeriod;
  db_cost_items : gmap UUID BCostItem;
  db_shares : gmap UUID CostItemShare;
  db_invoices : gmap UUID Invoice;
  db_invoice_items : gmap UUID InvoiceItem;
  db_adjustments : gmap UUID InvoiceAdjustment;
  db_payments : gmap UUID Payment;
  db_balances : gmap UUID UnitBalance;
  db_notifications : gmap UUID Notification;
  db_user_buildings : gmap (UUID * UUID) UserBuilding;
  db_files : gmap UUID File;
  db_expenses : gmap UUID Expense;
  db_maintenance : gmap UUID MaintenanceRequest;
  db_announcements : gmap UUID Announcement;
  db_announcement_reads : gmap (UUID * UUID) AnnouncementRead;
  db_audit_logs : list AuditLog;
}.

Definition empty_db : DB :=
  MkDB ∅ ∅ ∅ ∅ ∅ ∅ ∅ ∅ ∅ ∅ ∅ ∅ ∅ ∅ ∅ ∅ ∅ ∅ ∅ ∅ ∅ ∅ ∅ [].

Definition set_buildings (m : gmap UUID Building) (d : DB) : DB :=
  MkDB m (db_units d) (db_persons d) (db_occupancies d) (db_occupant_counts d) (db_users d)
    (db_refresh_tokens d) (db_invite_codes d) (db_periods d) (db_cost_items d) (db_shares d)
    (db_invoices d) (db_invoice_items d) (db_adjustments d) (db_payments d) (db_balances d)
    (db_notifications d) (db_user_buildings d) (db_files d) (db_expenses d) (db_maintenance d)
    (db_announcements d) (db_announcement_reads d) (db_audit_logs d).
Definition set_units (m : gmap UUID Unit) (d : DB) : DB :=
  MkDB (db_buildings d) m (db_persons d) (db_occupancies d) (db_occupant_counts d) (db_users d)
    (db_refresh_tokens d) (db_invite_codes d) (db_periods d) (db_cost_items d) (db_shares d)
    (db_invoices d) (db_invoice_items d) (db_adjustments d) (db_payments d) (db_balances d)
    (db_notifications d) (db_user_buildings d) (db_files d) (db_expenses d) (db_maintenance d)
    (db_announcements d) (db_announcement_reads d) (db_audit_logs d).
Definition set_persons (m : gmap UUID Person) (d : DB) : DB :=
  MkDB (db_buildings d) (db_units d) m (db_occupancies d) (db_occupant_counts d) (db_users d)
    (db_refresh_tokens d) (db_invite_codes d) (db_periods d) (db_cost_items d) (db_shares d)
    (db_invoices d) (db_invoice_items d) (db_adjustments d) (db_payments d) (db_balances d)
    (db_notifications d) (db_user_buildings d) (db_files d) (db_expenses d) (db_maintenance d)
    (db_announcements d) (db_announcement_reads d) (db_audit_logs d).
Definition set_occupancies (m : gmap UUID Occupancy) (d : DB) : DB :=
  MkDB (db_buildings d) (db_units d) (db_persons d) m (db_occupant_counts d) (db_users d)
    (db_refresh_tokens d) (db_invite_codes d) (db_periods d) (db_cost_items d) (db_shares d)
    (db_invoices d) (db_invoice_items d) (db_adjustments d) (db_payments d) (db_balances d)
    (db_notifications d) (db_user_buildings d) (db_files d) (db_expenses d) (db_maintenance d)
    (db_announcements d) (db_announcement_reads d) (db_audit_logs d).
Definition set_occupant_counts (m : gmap UUID OccupantCount) (d : DB) : DB :=
  MkDB (db_buildings d) (db_units d) (db_persons d) (db_occupancies d) m (db_users d)
    (db_refresh_tokens d) (db_invite_codes d) (db_periods d) (db_cost_items d) (db_shares d)
    (db_invoices d) (db_invoice_items d) (db_adjustments d) (db_payments d) (db_balances d)
    (db_notifications d) (db_user_buildings d) (db_files d) (db_expenses d) (db_maintenance d)
    (db_announcements d) (db_announcement_reads d) (db_audit_logs d).
Definition set_users (m : gmap UUID User) (d : DB) : DB :=
  MkDB (db_buildings d) (db_units d) (db_persons d) (db_occupancies d) (db_occupant_counts d) m
    (db_refresh_tokens d) (db_invite_codes d) (db_periods d) (db_cost_items d) (db_shares d)
    (db_invoices d) (db_invoice_items d) (db_adjustments d) (db_payments d) (db_balances d)
    (db_notifications d) (db_user_buildings d) (db_files d) (db_expenses d) (db_maintenance d)
    (db_announcements d) (db_announcement_reads d) (db_audit_logs d).
Definition set_refresh_tokens (m : gmap UUID RefreshToken) (d : DB) : DB :=
  MkDB (db_buildings d) (db_units d) (db_persons d) (db_occupancies d) (db_occupant_counts d)
    (db_users d) m (db_invite_codes d) (db_periods d) (db_cost_items d) (db_shares d)
    (db_invoices d) (db_invoice_items d) (db_adjustments d) (db_payments d) (db_balances d)
    (db_notifications d) (db_user_buildings d) (db_files d) (db_expenses d) (db_maintenance d)
    (db_announcements d) (db_announcement_reads d) (db_audit_logs d).
Definition set_invite_codes (m : gmap UUID InviteCode) (d : DB) : DB :=
  MkDB (db_buildings d) (db_units d) (db_persons d) (db_occupancies d) (db_occupant_counts d)
    (db_users d) (db_refresh_tokens d) m (db_periods d) (db_cost_items d) (db_shares d)
    (db_invoices d) (db_invoice_items d) (db_adjustments d) (db_payments d) (db_balances d)
    (db_notifications d) (db_user_buildings d) (db_files d) (db_expenses d) (db_maintenance d)
    (db_announcements d) (db_announcement_reads d) (db_audit_logs d).
Definition set_periods (m : gmap UUID BillingPeriod) (d : DB) : DB :=
  MkDB (db_buildings d) (db_units d) (db_persons d) (db_occupancies d) (db_occupant_counts d)
    (db_users d) (db_refresh_tokens d) (db_invite_codes d) m (db_cost_items d) (db_shares d)
    (db_invoices d) (db_invoice_items d) (db_adjustments d) (db_payments d) (db_balances d)
    (db_notifications d) (db_user_buildings d) (db_files d) (db_expenses d) (db_maintenance d)
    (db_announcements d) (db_announcement_reads d) (db_audit_logs d).
Definition set_cost_items (m : gmap UUID BCostItem) (d : DB) : DB :=
  MkDB (db_buildings d) (db_units d) (db_persons d) (db_occupancies d) (db_occupant_counts d)
    (db_users d) (db_refresh_tokens d) (db_invite_codes d) (db_periods d) m (db_shares d)
    (db_invoices d) (db_invoice_items d) (db_adjustments d) (db_payments d) (db_balances d)
    (db_notifications d) (db_user_buildings d) (db_files d) (db_expenses d) (db_maintenance d)
    (db_announcements d) (db_announcement_reads d) (db_audit_logs d).
Definition set_shares (m : gmap UUID CostItemShare) (d : DB) : DB :=
  MkDB (db_buildings d) (db_units d) (db_persons d) (db_occupancies d) (db_occupant_counts d)
    (db_users d) (db_refresh_tokens d) (db_invite_codes d) (db_periods d) (db_cost_items d) m
    (db_invoices d) (db_invoice_items d) (db_adjustments d) (db_payments d) (db_balances d)
    (db_notifications d) (db_user_buildings d) (db_files d) (db_expenses d) (db_maintenance d)
    (db_announcements d) (db_announcement_reads d) (db_audit_logs d).
Definition set_invoices (m : gmap UUID Invoice) (d : DB) : DB :=
  MkDB (db_buildings d) (db_units d) (db_persons d) (db_occupancies d) (db_occupant_counts d)
    (db_users d) (db_refresh_tokens d) (db_invite_codes d) (db_periods d) (db_cost_items d)
    (db_shares d) m (db_invoice_items d) (db_adjustments d) (db_payments d) (db_balances d)
    (db_notifications d) (db_user_buildings d) (db_files d) (db_expenses d) (db_maintenance d)
    (db_announcements d) (db_announcement_reads d) (db_audit_logs d).
Definition set_invoice_items (m : gmap UUID InvoiceItem) (d : DB) : DB :=
  MkDB (db_buildings d) (db_units d) (db_persons d) (db_occupancies d) (db_occupant_counts d)
    (db_users d) (db_refresh_tokens d) (db_invite_codes d) (db_periods d) (db_cost_items d)
    (db_shares d) (db_invoices d) m (db_adjustments d) (db_payments d) (db_balances d)
    (db_notifications d) (db_user_buildings d) (db_files d) (db_expenses d) (db_maintenance d)
    (db_announcements d) (db_announcement_reads d) (db_audit_logs d).
Definition set_adjustments (m : gmap UUID InvoiceAdjustment) (d : DB) : DB :=
  MkDB (db_buildings d) (db_units d) (db_persons d) (db_occupancies d) (db_occupant_counts d)
    (db_users d) (db_refresh_tokens d) (db_invite_codes d) (db_periods d) (db_cost_items d)
    (db_shares d) (db_invoices d) (db_invoice_items d) m (db_payments d) (db_balances d)
    (db_notifications d) (db_user_buildings d) (db_files d) (db_expenses d) (db_maintenance d)
    (db_announcements d) (db_announcement_reads d) (db_audit_logs d).
Definition set_payments (m : gmap UUID Payment) (d : DB) : DB :=
  MkDB (db_buildings d) (db_units d) (db_persons d) (db_occupancies d) (db_occupant_counts d)
    (db_users d) (db_refresh_tokens d) (db_invite_codes d) (db_periods d) (db_cost_items d)
    (db_shares d) (db_invoices d) (db_invoice_items d) (db_adjustments d) m (db_balances d)
    (db_notifications d) (db_user_buildings d) (db_files d) (db_expenses d) (db_maintenance d)
    (db_announcements d) (db_announcement_reads d) (db_audit_logs d).
Definition set_balances (m : gmap UUID UnitBalance) (d : DB) : DB :=
  MkDB (db_buildings d) (db_units d) (db_persons d) (db_occupancies d) (db_occupant_counts d)
    (db_users d) (db_refresh_tokens d) (db_invite_codes d) (db_periods d) (db_cost_items d)
    (db_shares d) (db_invoices d) (db_invoice_items d) (db_adjustments d) (db_payments d) m
    (db_notifications d) (db_user_buildings d) (db_files d) (db_expenses d) (db_maintenance d)
    (db_announcements d) (db_announcement_reads d) (db_audit_logs d).
Definition set_notifications (m : gmap UUID Notification) (d : DB) : DB :=
  MkDB (db_buildings d) (db_units d) (db_persons d) (db_occupancies d) (db_occupant_counts d)
    (db_users d) (db_refresh_tokens d) (db_invite_codes d) (db_periods d) (db_cost_items d)
    (db_shares d) (db_invoices d) (db_invoice_items d) (db_adjustments d) (db_payments d)
    (db_balances d) m (db_user_buildings d) (db_files d) (db_expenses d) (db_maintenance d)
    (db_announcements d) (db_announcement_reads d) (db_audit_logs d).
Definition set_user_buildings (m : gmap (UUID * UUID) UserBuilding) (d : DB) : DB :=
  MkDB (db_buildings d) (db_units d) (db_persons d) (db_occupancies d) (db_occupant_counts d)
    (db_users d) (db_refresh_tokens d) (db_invite_codes d) (db_periods d) (db_cost_items d)
    (db_shares d) (db_invoices d) (db_invoice_items d) (db_adjustments d) (db_payments d)
    (db_balances d) (db_notifications d) m (db_files d) (db_expenses d) (db_maintenance d)
    (db_announcements d) (db_announcement_reads d) (db_audit_logs d).
Definition set_files (m : gmap UUID File) (d : DB) : DB :=
  MkDB (db_buildings d) (db_units d) (db_persons d) (db_occupancies d) (db_occupant_counts d)
    (db_users d) (db_refresh_tokens d) (db_invite_codes d) (db_periods d) (db_cost_items d)
    (db_shares d) (db_invoices d) (db_invoice_items d) (db_adjustments d) (db_payments d)
    (db_balances d) (db_notifications d) (db_user_buildings d) m (db_expenses d)
    (db_maintenance d) (db_announcements d) (db_announcement_reads d) (db_audit_logs d).
Definition set_expenses (m : gmap UUID Expense) (d : DB) : DB :=
  MkDB (db_buildings d) (db_units d) (db_persons d) (db_occupancies d) (db_occupant_counts d)
    (db_users d) (db_refresh_tokens d) (db_invite_codes d) (db_periods d) (db_cost_items d)
    (db_shares d) (db_invoices d) (db_invoice_items d) (db_adjustments d) (db_payments d)
    (db_balances d) (db_notifications d) (db_user_buildings d) (db_files d) m (db_maintenance d)
    (db_announcements d) (db_announcement_reads d) (db_audit_logs d).
Definition set_maintenance (m : gmap UUID MaintenanceRequest) (d : DB) : DB :=
  MkDB (db_buildings d) (db_units d) (db_persons d) (db_occupancies d) (db_occupant_counts d)
    (db_users d) (db_refresh_tokens d) (db_invite_codes d) (db_periods d) (db_cost_items d)
    (db_shares d) (db_invoices d) (db_invoice_items d) (db_adjustments d) (db_payments d)
    (db_balances d) (db_notifications d) (db_user_buildings d) (db_files d) (db_expenses d) m
    (db_announcements d) (db_announcement_reads d) (db_audit_logs d).
Definition set_announcements (m : gmap UUID Announcement) (d : DB) : DB :=
  MkDB (db_buildings d) (db_units d) (db_persons d) (db_occupancies d) (db_occupant_counts d)
    (db_users d) (db_refresh_tokens d) (db_invite_codes d) (db_periods d) (db_cost_items d)
    (db_shares d) (db_invoices d) (db_invoice_items d) (db_adjustments d) (db_payments d)
    (db_balances d) (db_notifications d) (db_user_buildings d) (db_files d) (db_expenses d)
    (db_maintenance d) m (db_announcement_reads d) (db_audit_logs d).
Definition set_announcement_reads (m : gmap (UUID * UUID) AnnouncementRead) (d : DB) : DB :=
  MkDB (db_buildings d) (db_units d) (db_persons d) (db_occupancies d) (db_occupant_counts d)
    (db_users d) (db_refresh_tokens d) (db_invite_codes d) (db_periods d) (db_cost_items d)
    (db_shares d) (db_invoices d) (db_invoice_items d) (db_adjustments d) (db_payments d)
    (db_balances d) (db_notifications d) (db_user_buildings d) (db_files d) (db_expenses d)
    (db_maintenance d) (db_announcements d) m (db_audit_logs d).
Definition set_audit_logs (m : list AuditLog) (d : DB) : DB :=
  MkDB (db_buildings d) (db_units d) (db_persons d) (db_occupancies d) (db_occupant_counts d)
    (db_users d) (db_refresh_tokens d) (db_invite_codes d) (db_periods d) (db_cost_items d)
    (db_shares d) (db_invoices d) (db_invoice_items d) (db_adjustments d) (db_payments d)
    (db_balances d) (db_notifications d) (db_user_buildings d) (db_files d) (db_expenses d)
    (db_maintenance d) (db_announcements d) (db_announcement_reads d) m.

(** ** Environment, world, monad *)

Record Env := MkEnv {
  env_now : nat → Time;                 (** [time.Now()] and SQL [now()] *)
  env_uuid : nat → UUID;                (** [uuid.New()] *)
  env_rand : nat → option (list N);     (** [crypto/rand] bytes *)
  env_fault : nat → option GoError;     (** failure of a statement or of a commit *)
  env_numeric : spec_float → option spec_float; (** a NUMERIC(12,2) column, read back *)
  env_collate : string → string → bool; (** the order of text in ORDER BY *)
  env_ilike : string → string → bool;   (** [text ILIKE pattern], by the locale *)
}.

(** [gateway.Mock]. *)
Record Mock := MkMock { FailNext : bool; MismatchNext : bool }.

Record World := MkWorld {
  w_db : DB;
  w_mock : Mock;
  w_tick : nat;
}.

Definition set_db (d : DB) (w : World) : World := MkWorld d (w_mock w) (w_tick w).
Definition next_tick (w : World) : World := MkWorld (w_db w) (w_mock w) (S (w_tick w)).

(** A call of the backend: it returns a value, an error or a panic. *)
Definition M (A : Type) : Type := Env → World → Res A * World.

#[export] Instance M_ret : MRet M := λ A a _ w, (Ok a, w).
#[export] Instance M_bind : MBind M := λ A B f m env w,
  match m env w with
  | (Ok a, w') => f a env w'
  | (Err e, w') => (Err e, w')
  | (Panic s, w') => (Panic s, w')
  end.

(** [return nil, err]. *)
Definition fail {A} (e : GoError) : M A := λ _ w, (Err e, w).

(** [if !ok { return nil, err }]. *)
Definition guard_or (b : bool) (e : GoError) : M unit :=
  if b then mret tt else fail e.

Definition lift {A} (r : Res A) : M A := λ _ w, (r, w).

(** Rewrites the error of a call: [if err != nil { return f(err) }]. *)
Definition map_err {A} (f : GoError → GoError) (m : M A) : M A := λ env w,
  match m env w with
  | (Err e, w') => (Err (f e), w')
  | x => x
  end.

(** Hands the error of a call to the code that follows: [x, err := m()]. *)
Definition attempt {A} (m : M A) : M (A + GoError) := λ env w,
  match m env w with
  | (Ok a, w') => (Ok (inl a), w')
  | (Err e, w') => (Ok (inr e), w')
  | (Panic s, w') => (Panic s, w')
  end.

(** [_ = m()]: the error is dropped. *)
Definition ignore_err {A} (m : M A) : M unit := attempt m ≫= λ _, mret tt.

(** A call whose result is not looked at. *)
Definition discard {A} (m : M A) : M unit := m ≫= λ _, mret tt.

Definition time_Now : M Time := λ env w, (Ok (env_now env (w_tick w)), next_tick w).
Definition uuid_New : M UUID := λ env w, (Ok (env_uuid env (w_tick w)), next_tick w).
Definition rand_Read : M (list N) := λ env w,
  (match env_rand env (w_tick w) with
   | Some l => Ok l
   | None => Err (EText "crypto/rand: read failed")
   end, next_tick w).

(** [for _, x := range l { if err := f(x); err != nil { return err } }]. *)
Fixpoint for_each {A} (f : A → M ()) (l : list A) : M () :=
  match l with
  | [] => mret tt
  | x :: l' => f x ≫= λ _, for_each f l'
  end.

Fixpoint map_each {A B} (f : A → M B) (l : list A) : M (list B) :=
  match l with
  | [] => mret []
  | x :: l' => f x ≫= λ y, map_each f l' ≫= λ ys, mret (y :: ys)
  end.

(** ** Statements *)

(** One SQL statement: it fails without effect when the environment says so,
    and otherwise computes its result and the new tables. [now()] is the time
    of its tick. *)
Definition stmt {A} (f : Env → Time → DB → Res (A * DB)) : M A := λ env w,
  match env_fault env (w_tick w) with
  | Some e => (Err e, next_tick w)
  | None =>
      match f env (env_now env (w_tick w)) (w_db w) with
      | Ok (a, d) => (Ok a, set_db d (next_tick w))
      | Err e => (Err e, next_tick w)
      | Panic s => (Panic s, next_tick w)
      end
  end.

(** A statement that only reads. *)
Definition query {A} (f : DB → A) : M A := stmt (λ _ _ d, Ok (f d, d)).

(** [db.Transaction]: an error or a panic of the body, or a failed commit,
    restores the tables. *)
Definition Transaction {A} (m : M A) : M A := λ env w,
  match m env w with
  | (Ok a, w') =>
      match env_fault env (w_tick w') with
      | Some e => (Err e, set_db (w_db w) (next_tick w'))
      | None => (Ok a, next_tick w')
      end
  | (Err e, w') => (Err e, set_db (w_db w) w')
  | (Panic s, w') => (Panic s, set_db (w_db w) w')
  end.

(** PostgreSQL error codes. *)
Definition unique_violation : GoError := EPg "23505".
Definition check_violation : GoError := EPg "23514".
Definition bad_enum : GoError := EPg "22P02".
Definition numeric_range : GoError := EPg "22003".
Definition raise_exception : GoError := EPg "P0001".
Definition foreign_key_violation : GoError := EPg "23503".

(** A table: where it is, what GORM fills in, what the schema checks. *)
Class Table (R : Type) := {
  tbl : DB → gmap UUID R;
  set_tbl : gmap UUID R → DB → DB;
  key : R → UUID;
  (** the time stamps GORM fills in on [Create] and on [Save] *)
  stamp : Time → R → R;
  touch : Time → R → R;
  (** the row as stored, or the constraint it violates *)
  accept : Env → DB → R → Res R;
  (** the row triggers *)
  on_insert : DB → R → option GoError;
  on_update : R → R → option GoError;
  on_delete : DB → R → option GoError;
  (** ON DELETE CASCADE *)
  cascade : UUID → DB → DB;
  tbl_set_tbl : ∀ m d, tbl (set_tbl m d) = m;
}.

(** The rows stored under their own identifier. *)
Definition rows_of {R} (key : R → UUID) (m : gmap UUID R) : list R :=
  (filter (λ kr, key kr.2 = kr.1) (map_to_list m)).*2.

Section statements.
Context {R : Type} `{!Table R}.

(** The rows of a table, in the order a query without ORDER BY returns them:
    nothing is assumed about it. *)
Definition rows (d : DB) : list R := rows_of key (tbl d).

(** The row with a given identifier. *)
Definition row_at (d : DB) (id : UUID) : option R :=
  r ← tbl d !! id; if decide (key r = id) then Some r else None.

Definition put (r : R) (d : DB) : DB := set_tbl (<[key r := r]> (tbl d)) d.

Definition insert_row (env : Env) (r : R) (d : DB) : Res DB :=
  match on_insert d r with
  | Some e => Err e
  | None =>
      r' ← accept env d r;
      match tbl d !! key r with
      | Some _ => Err unique_violation
      | None => Ok (put r' d)
      end
  end.

Definition update_row (env : Env) (old r : R) (d : DB) : Res DB :=
  r' ← accept env d r;
  match on_update old r' with
  | Some e => Err e
  | None => Ok (put r' d)
  end.

Fixpoint update_rows (env : Env) (f : R → R) (l : list R) (d : DB) : Res DB :=
  match l with
  | [] => Ok d
  | r :: l' => d' ← update_row env r (f r) d; update_rows env f l' d'
  end.

Fixpoint first_error (f : R → option GoError) (l : list R) : option GoError :=
  match l with
  | [] => None
  | r :: l' => match f r with Some e => Some e | None => first_error f l' end
  end.

Definition delete_row (d : DB) (r : R) : DB :=
  cascade (key r) (set_tbl (delete (key r) (tbl d)) d).

(** [tx.Create(&r)]; the row comes back with its time stamps. *)
Definition Create (r : R) : M R :=
  stmt (λ env now d, d' ← insert_row env (stamp now r) d; Ok (stamp now r, d')).

Definition save_row (env : Env) (r : R) (d : DB) : Res DB :=
  match tbl d !! key r with
  | Some old => update_row env old r d
  | None => insert_row env r d
  end.

(** [tx.Save(&r)]: UPDATE, or INSERT when no row has the key. *)
Definition Save (r : R) : M R :=
  stmt (λ env now d, d' ← save_row env (touch now r) d; Ok (touch now r, d')).

(** [tx.Where("id = ?", id).First(&r)]. *)
Definition First_id (id : UUID) : M R :=
  stmt (λ _ _ d, match row_at d id with
                 | Some r => Ok (r, d)
                 | None => Err gorm_ErrRecordNotFound
                 end).

(** [tx.Where(P).Order(less).First(&r)]: the first row in the given order. *)
Definition First_where (less : R → R → bool) (P : R → bool) : M R :=
  stmt (λ _ _ d, match sort_by less (List.filter P (rows d)) with
                 | r :: _ => Ok (r, d)
                 | [] => Err gorm_ErrRecordNotFound
                 end).

(** The order [First] falls back to: the primary key. *)
Definition by_key (a b : R) : bool := (key a <? key b)%N.

(** [tx.Where(P).Order(less).Find(&out)]. *)
Definition Find (less : R → R → bool) (P : R → bool) : M (list R) :=
  query (λ d, sort_by less (List.filter P (rows d))).

(** [tx.Where(P).Find(&out)]. *)
Definition Find_unordered (P : R → bool) : M (list R) :=
  query (λ d, List.filter P (rows d)).

Definition Count (P : R → bool) : M Z :=
  query (λ d, Z.of_nat (length (List.filter P (rows d)))).

(** [UPDATE ... WHERE P]; the number of rows. *)
Definition Update_where (P : R → bool) (f : Time → R → R) : M Z :=
  stmt (λ env now d,
    let l := List.filter P (rows d) in
    d' ← update_rows env (f now) l d; Ok (Z.of_nat (length l), d')).

(** [DELETE ... WHERE P], with its triggers and cascades; [P] may look at the
    other tables. *)
Definition Delete_where (P : DB → R → bool) : M Z :=
  stmt (λ env now d,
    let l := List.filter (P d) (rows d) in
    match first_error (on_delete d) l with
    | Some e => Err e
    | None => Ok (Z.of_nat (length l), foldl delete_row d l)
    end).
End statements.

#[global] Arguments put : simpl never.
#[global] Arguments row_at : simpl never.
#[global] Arguments rows : simpl never.
#[global] Arguments delete_row : simpl never.
#[global] Arguments save_row : simpl never.
