(* ===== verification/Schema.v ===== *)
(** * The schema

    The tables of [src/backend/migrations] as instances of [Table]: primary
    keys, UNIQUE indexes, CHECK constraints, enum types, row triggers and
    ON DELETE CASCADE. Foreign keys are modelled where they block a delete (of a
    building, a unit, a person, a cost item or an invoice); the other failures they and the VARCHAR lengths cause are
    among those of the environment. *)

From S2P Require Import Prelude Golang Errors Models Store.

(** ** Column types *)

Definition in_enum (s : string) (l : list string) : bool := bool_decide (s ∈ l).

Definition is_int4 (z : Z) : bool := bool_decide (- 2 ^ 31 ≤ z < 2 ^ 31).

(** A guard of the schema. *)
Definition require (b : bool) (e : GoError) : Res unit := if b then Ok tt else Err e.

Definition stamp_if_zero (now t : Time) : Time := if IsZero t then now else t.

Definition no_trigger {R} (_ : DB) (_ : R) : option GoError := None.
Definition no_update_trigger {R} (_ _ : R) : option GoError := None.
Definition no_cascade (_ : UUID) (d : DB) : DB := d.

Definition opt_eqb (a b : option string) : bool := bool_decide (a = b).
Definition is_null {A} (o : option A) : bool := match o with None => true | Some _ => false end.

(** A row of the table references [id] through the column [fk]. *)
Definition referenced {R} (key fk : R → UUID) (m : gmap UUID R) (id : UUID) : bool :=
  existsb (λ r, bool_decide (fk r = id)) (rows_of key m).

Definition referenced_opt {R} (key : R → UUID) (fk : R → option UUID) (m : gmap UUID R)
    (id : UUID) : bool :=
  existsb (λ r, bool_decide (fk r = Some id)) (rows_of key m).

Definition if_referenced (b : bool) : option GoError :=
  if b then Some foreign_key_violation else None.

(** ** 0001_core, 0009, 0010 *)

Definition user_role : list string := [RoleManager; RoleResident; RoleSuperAdmin].

#[export] Instance User_table : Table User := {
  tbl := db_users; set_tbl := set_users; key := us_ID;
  stamp now r := MkUser (us_ID r) (us_Phone r) (us_PasswordHash r) (us_Role r) (us_Name r)
    (us_FCMToken r) (us_IsActive r) (stamp_if_zero now (us_CreatedAt r))
    (stamp_if_zero now (us_UpdatedAt r)) (us_DeletedAt r);
  touch now r := MkUser (us_ID r) (us_Phone r) (us_PasswordHash r) (us_Role r) (us_Name r)
    (us_FCMToken r) (us_IsActive r) (us_CreatedAt r) now (us_DeletedAt r);
  accept _ d r :=
    require (in_enum (us_Role r) user_role) bad_enum ;;
    require (negb (existsb (λ r', negb (bool_decide (us_ID r' = us_ID r))
               && bool_decide (us_Phone r' = us_Phone r)) (rows_of us_ID (db_users d))))
      unique_violation ;;
    Ok r;
  on_insert := no_trigger; on_update := no_update_trigger; on_delete := no_trigger;
  cascade := no_cascade;
  tbl_set_tbl := λ _ _, eq_refl;
}.

#[export] Instance RefreshToken_table : Table RefreshToken := {
  tbl := db_refresh_tokens; set_tbl := set_refresh_tokens; key := rt_ID;
  stamp now r := MkRefreshToken (rt_ID r) (rt_UserID r) (rt_FamilyID r) (rt_TokenHash r)
    (rt_ExpiresAt r) (rt_RevokedAt r) (stamp_if_zero now (rt_CreatedAt r));
  touch _ r := r;
  accept _ d r :=
    require (negb (existsb (λ r', negb (bool_decide (rt_ID r' = rt_ID r))
               && bool_decide (rt_TokenHash r' = rt_TokenHash r))
               (rows_of rt_ID (db_refresh_tokens d)))) unique_violation ;;
    Ok r;
  on_insert := no_trigger; on_update := no_update_trigger; on_delete := no_trigger;
  cascade := no_cascade;
  tbl_set_tbl := λ _ _, eq_refl;
}.

#[export] Instance InviteCode_table : Table InviteCode := {
  tbl := db_invite_codes; set_tbl := set_invite_codes; key := iv_ID;
  stamp now r := MkInviteCode (iv_ID r) (iv_Phone r) (iv_CodeHash r) (iv_Role r)
    (iv_CreatedBy r) (iv_ExpiresAt r) (iv_ConsumedAt r) (stamp_if_zero now (iv_CreatedAt r));
  touch _ r := r;
  accept _ _ r := require (in_enum (iv_Role r) user_role) bad_enum ;; Ok r;
  on_insert := no_trigger; on_update := no_update_trigger; on_delete := no_trigger;
  cascade := no_cascade;
  tbl_set_tbl := λ _ _, eq_refl;
}.

Definition notification_type : list string :=
  ["invoice_issued"; "due_soon"; "overdue"; "payment_recorded"; "request_submitted";
   "request_status_changed"; "announcement_published"].

#[export] Instance Notification_table : Table Notification := {
  tbl := db_notifications; set_tbl := set_notifications; key := nt_ID;
  stamp now r := MkNotification (nt_ID r) (nt_UserID r) (nt_Type r) (nt_Title r) (nt_Body r)
    (nt_RefType r) (nt_RefID r) (nt_IsRead r) (nt_ReadAt r) (stamp_if_zero now (nt_CreatedAt r));
  touch _ r := r;
  accept _ _ r := require (in_enum (nt_Type r) notification_type) bad_enum ;; Ok r;
  on_insert := no_trigger; on_update := no_update_trigger; on_delete := no_trigger;
  cascade := no_cascade;
  tbl_set_tbl := λ _ _, eq_refl;
}.

(** ** 0002_buildings *)

(** A building goes only when nothing references it, no grant either. *)
Definition building_fk (d : DB) (b : Building) : option GoError :=
  if_referenced (referenced u_ID u_BuildingID (db_units d) (b_ID b)
    || existsb (λ kv, bool_decide (kv.1.2 = b_ID b)) (map_to_list (db_user_buildings d))
    || referenced p_ID p_BuildingID (db_persons d) (b_ID b)
    || referenced bp_ID bp_BuildingID (db_periods d) (b_ID b)
    || referenced inv_ID inv_BuildingID (db_invoices d) (b_ID b)
    || referenced pay_ID pay_BuildingID (db_payments d) (b_ID b)
    || referenced ex_ID ex_BuildingID (db_expenses d) (b_ID b)
    || referenced mr_ID mr_BuildingID (db_maintenance d) (b_ID b)
    || referenced an_ID an_BuildingID (db_announcements d) (b_ID b)).

#[export] Instance Building_table : Table Building := {
  tbl := db_buildings; set_tbl := set_buildings; key := b_ID;
  stamp now r := MkBuilding (b_ID r) (b_Name r) (b_Address r) (b_BlockCount r) (b_FloorCount r)
    (b_UnitCount r) (b_BuiltYear r) (b_ManagerPhone r) (b_EmergencyPhone r) (b_Notes r)
    (stamp_if_zero now (b_CreatedAt r)) (stamp_if_zero now (b_UpdatedAt r)) (b_DeletedAt r);
  touch now r := MkBuilding (b_ID r) (b_Name r) (b_Address r) (b_BlockCount r) (b_FloorCount r)
    (b_UnitCount r) (b_BuiltYear r) (b_ManagerPhone r) (b_EmergencyPhone r) (b_Notes r)
    (b_CreatedAt r) now (b_DeletedAt r);
  accept _ _ r :=
    require (is_int4 (b_BlockCount r) && is_int4 (b_FloorCount r) && is_int4 (b_UnitCount r)
             && is_int4 (default 0 (b_BuiltYear r))) numeric_range ;;
    require ((0 <=? b_BlockCount r) && (0 <=? b_FloorCount r) && (0 <=? b_UnitCount r))
      check_violation ;;
    Ok r;
  on_insert := no_trigger; on_update := no_update_trigger; on_delete := building_fk;
  cascade := no_cascade;
  tbl_set_tbl := λ _ _, eq_refl;
}.

Definition unit_status : list string :=
  [UnitStatusActive; UnitStatusVacant; UnitStatusOccupied; UnitStatusInactive].

(** [uq_units_building_number_active]. *)
Definition same_live_number (a b : Unit) : bool :=
  bool_decide (u_BuildingID a = u_BuildingID b) && bool_decide (u_Number a = u_Number b)
  && is_null (u_DeletedAt a) && is_null (u_DeletedAt b).

Definition unit_fk (d : DB) (u : Unit) : option GoError :=
  if_referenced (referenced o_ID o_UnitID (db_occupancies d) (u_ID u)
    || referenced oc_ID oc_UnitID (db_occupant_counts d) (u_ID u)
    || referenced cs_ID cs_UnitID (db_shares d) (u_ID u)
    || referenced inv_ID inv_UnitID (db_invoices d) (u_ID u)
    || referenced pay_ID pay_UnitID (db_payments d) (u_ID u)
    || referenced bal_UnitID bal_UnitID (db_balances d) (u_ID u)
    || referenced_opt mr_ID mr_UnitID (db_maintenance d) (u_ID u)).

#[export] Instance Unit_table : Table Unit := {
  tbl := db_units; set_tbl := set_units; key := u_ID;
  stamp now r := MkUnit (u_ID r) (u_BuildingID r) (u_Number r) (u_Block r) (u_Floor r)
    (u_AreaM2 r) (u_ParkingCount r) (u_ParkingNumbers r) (u_StorageCount r) (u_StorageNumbers r)
    (u_Status r) (u_Notes r) (stamp_if_zero now (u_CreatedAt r))
    (stamp_if_zero now (u_UpdatedAt r)) (u_DeletedAt r);
  touch now r := MkUnit (u_ID r) (u_BuildingID r) (u_Number r) (u_Block r) (u_Floor r)
    (u_AreaM2 r) (u_ParkingCount r) (u_ParkingNumbers r) (u_StorageCount r) (u_StorageNumbers r)
    (u_Status r) (u_Notes r) (u_CreatedAt r) now (u_DeletedAt r);
  accept _ d r :=
    require (is_int4 (u_Floor r) && is_int4 (u_AreaM2 r) && is_int4 (u_ParkingCount r)
             && is_int4 (u_StorageCount r)) numeric_range ;;
    require (in_enum (u_Status r) unit_status) bad_enum ;;
    require ((0 <? u_AreaM2 r) && (0 <=? u_ParkingCount r) && (0 <=? u_StorageCount r))
      check_violation ;;
    require (negb (existsb (λ r', negb (bool_decide (u_ID r' = u_ID r)) && same_live_number r' r)
               (rows_of u_ID (db_units d)))) unique_violation ;;
    Ok r;
  on_insert := no_trigger; on_update := no_update_trigger; on_delete := unit_fk;
  cascade := no_cascade;
  tbl_set_tbl := λ _ _, eq_refl;
}.

(** ** 0003_people *)

Definition person_fk (d : DB) (p : Person) : option GoError :=
  if_referenced (referenced o_ID o_PersonID (db_occupancies d) (p_ID p)
    || referenced_opt ex_ID ex_PayerPersonID (db_expenses d) (p_ID p)
    || referenced_opt mr_ID mr_AssigneePersonID (db_maintenance d) (p_ID p)).

#[export] Instance Person_table : Table Person := {
  tbl := db_persons; set_tbl := set_persons; key := p_ID;
  stamp now r := MkPerson (p_ID r) (p_BuildingID r) (p_FullName r) (p_Phone r) (p_NationalID r)
    (stamp_if_zero now (p_CreatedAt r)) (stamp_if_zero now (p_UpdatedAt r)) (p_DeletedAt r);
  touch now r := MkPerson (p_ID r) (p_BuildingID r) (p_FullName r) (p_Phone r) (p_NationalID r)
    (p_CreatedAt r) now (p_DeletedAt r);
  accept _ _ r := Ok r;
  on_insert := no_trigger; on_update := no_update_trigger; on_delete := person_fk;
  cascade := no_cascade;
  tbl_set_tbl := λ _ _, eq_refl;
}.

Definition occupancy_relationship : list string := [RelOwner; RelTenant; RelNonResidentOwner].

(** The rows of [uq_occupancies_active_tenant]. *)
Definition open_tenant (o : Occupancy) : bool :=
  bool_decide (o_Relationship o = RelTenant) && is_null (o_EndDate o).

#[export] Instance Occupancy_table : Table Occupancy := {
  tbl := db_occupancies; set_tbl := set_occupancies; key := o_ID;
  stamp now r := MkOccupancy (o_ID r) (o_UnitID r) (o_PersonID r) (o_Relationship r)
    (o_StartDate r) (o_EndDate r) (o_IsActive r) (stamp_if_zero now (o_CreatedAt r));
  touch _ r := r;
  accept _ d r :=
    let r := MkOccupancy (o_ID r) (o_UnitID r) (o_PersonID r) (o_Relationship r)
      (TruncateDay (o_StartDate r)) (TruncateDay <$> o_EndDate r) (o_IsActive r)
      (o_CreatedAt r) in
    require (in_enum (o_Relationship r) occupancy_relationship) bad_enum ;;
    require (match o_EndDate r with Some e => o_StartDate r <=? e | None => true end)
      check_violation ;;
    require (negb (open_tenant r && existsb (λ r', negb (bool_decide (o_ID r' = o_ID r))
               && bool_decide (o_UnitID r' = o_UnitID r) && open_tenant r')
               (rows_of o_ID (db_occupancies d)))) unique_violation ;;
    Ok r;
  on_insert := no_trigger; on_update := no_update_trigger; on_delete := no_trigger;
  cascade := no_cascade;
  tbl_set_tbl := λ _ _, eq_refl;
}.

#[export] Instance OccupantCount_table : Table OccupantCount := {
  tbl := db_occupant_counts; set_tbl := set_occupant_counts; key := oc_ID;
  stamp now r := MkOccupantCount (oc_ID r) (oc_UnitID r) (oc_OccupantCount r)
    (oc_EffectiveFrom r) (stamp_if_zero now (oc_CreatedAt r));
  touch _ r := r;
  accept _ _ r :=
    require (is_int4 (oc_OccupantCount r)) numeric_range ;;
    require (0 <=? oc_OccupantCount r) check_violation ;;
    Ok (MkOccupantCount (oc_ID r) (oc_UnitID r) (oc_OccupantCount r)
          (TruncateDay (oc_EffectiveFrom r)) (oc_CreatedAt r));
  on_insert := no_trigger; on_update := no_update_trigger; on_delete := no_trigger;
  cascade := no_cascade;
  tbl_set_tbl := λ _ _, eq_refl;
}.

(** ** 0004_billing *)

Definition billing_period_status : list string :=
  [PeriodDraft; PeriodCalculated; PeriodIssued; PeriodClosed].
Definition cost_method : list string :=
  ["equal"; "per_occupant"; "per_area"; "fixed"; "specific_units"; "combined"].
Definition late_fee_type : list string := ["none"; "fixed"; "percent"; "per_day"].
Definition invoice_status : list string :=
  [InvoiceUnpaid; InvoicePartial; InvoicePaid; InvoiceExpired; InvoiceCanceled].
Definition invoice_item_kind : list string := [ItemCharge; ItemLateFee; ItemAdjustment].
Definition adjustment_kind : list string := [AdjustmentDebit; AdjustmentCredit].

(** [late_fee_value] is read back from its NUMERIC(12,2) column. *)
Definition admit_BillingPeriod (env : Env) (r : BillingPeriod) : Res BillingPeriod :=
  match env_numeric env (bp_LateFeeValue r) with
  | None => Err numeric_range
  | Some v =>
      let r := MkBillingPeriod (bp_ID r) (bp_BuildingID r) (bp_Title r)
        (TruncateDay (bp_StartDate r)) (TruncateDay (bp_EndDate r)) (TruncateDay (bp_DueDate r))
        (bp_LateFeeType r) v (bp_Status r) (bp_CalculatedAt r) (bp_IssuedAt r) (bp_ClosedAt r)
        (bp_CreatedAt r) (bp_UpdatedAt r) in
      require (in_enum (bp_LateFeeType r) late_fee_type
               && in_enum (bp_Status r) billing_period_status) bad_enum ;;
      require ((bp_StartDate r <=? bp_EndDate r) && (bp_EndDate r <=? bp_DueDate r))
        check_violation ;;
      Ok r
  end.

#[export] Instance BillingPeriod_table : Table BillingPeriod := {
  tbl := db_periods; set_tbl := set_periods; key := bp_ID;
  stamp now r := MkBillingPeriod (bp_ID r) (bp_BuildingID r) (bp_Title r) (bp_StartDate r)
    (bp_EndDate r) (bp_DueDate r) (bp_LateFeeType r) (bp_LateFeeValue r) (bp_Status r)
    (bp_CalculatedAt r) (bp_IssuedAt r) (bp_ClosedAt r) (stamp_if_zero now (bp_CreatedAt r))
    (stamp_if_zero now (bp_UpdatedAt r));
  touch now r := MkBillingPeriod (bp_ID r) (bp_BuildingID r) (bp_Title r) (bp_StartDate r)
    (bp_EndDate r) (bp_DueDate r) (bp_LateFeeType r) (bp_LateFeeValue r) (bp_Status r)
    (bp_CalculatedAt r) (bp_IssuedAt r) (bp_ClosedAt r) (bp_CreatedAt r) now;
  accept env _ r := admit_BillingPeriod env r;
  on_insert := no_trigger; on_update := no_update_trigger; on_delete := no_trigger;
  cascade := no_cascade;
  tbl_set_tbl := λ _ _, eq_refl;
}.

(** The items of invoices reference their cost item. *)
Definition cost_item_fk (d : DB) (ci : BCostItem) : option GoError :=
  if_referenced (referenced_opt ii_ID ii_CostItemID (db_invoice_items d) (ci_ID ci)).

#[export] Instance BCostItem_table : Table BCostItem := {
  tbl := db_cost_items; set_tbl := set_cost_items; key := ci_ID;
  stamp now r := MkBCostItem (ci_ID r) (ci_PeriodID r) (ci_Title r) (ci_TotalAmount r)
    (ci_Method r) (ci_FixedAmountPerUnit r) (ci_ComboWeights r) (ci_IncludeVacant r)
    (ci_UnitIDs r) (stamp_if_zero now (ci_CreatedAt r)) (stamp_if_zero now (ci_UpdatedAt r));
  touch now r := MkBCostItem (ci_ID r) (ci_PeriodID r) (ci_Title r) (ci_TotalAmount r)
    (ci_Method r) (ci_FixedAmountPerUnit r) (ci_ComboWeights r) (ci_IncludeVacant r)
    (ci_UnitIDs r) (ci_CreatedAt r) now;
  accept _ _ r :=
    require (in_enum (ci_Method r) cost_method) bad_enum ;;
    require (0 <? ci_TotalAmount r) check_violation ;;
    Ok r;
  on_insert := no_trigger; on_update := no_update_trigger; on_delete := cost_item_fk;
  cascade := λ id d, set_shares (filter (λ '(_, s), cs_CostItemID s ≠ id) (db_shares d)) d;
  tbl_set_tbl := λ _ _, eq_refl;
}.

#[export] Instance CostItemShare_table : Table CostItemShare := {
  tbl := db_shares; set_tbl := set_shares; key := cs_ID;
  stamp _ r := r;
  touch _ r := r;
  accept _ d r :=
    require (negb (existsb (λ r', negb (bool_decide (cs_ID r' = cs_ID r))
               && bool_decide (cs_CostItemID r' = cs_CostItemID r)
               && bool_decide (cs_UnitID r' = cs_UnitID r))
               (rows_of cs_ID (db_shares d)))) unique_violation ;;
    Ok r;
  on_insert := no_trigger; on_update := no_update_trigger; on_delete := no_trigger;
  cascade := no_cascade;
  tbl_set_tbl := λ _ _, eq_refl;
}.

(** [invoice_number LIKE 'DRAFT-%']. *)
Definition is_draft_number (s : string) : bool := HasPrefix s "DRAFT-".

(** [billing_period_status IN ('issued', 'closed')] for a period id. *)
Definition period_frozen (d : DB) (id : UUID) : bool :=
  match row_at (R := BillingPeriod) d id with
  | Some p => in_enum (bp_Status p) [PeriodIssued; PeriodClosed]
  | None => false
  end.

(** The columns [billing_invoice_guard_update] protects, the number apart. *)
Definition same_amounts (a b : Invoice) : bool :=
  bool_decide (inv_BaseAmount a = inv_BaseAmount b)
  && bool_decide (inv_PriorDebt a = inv_PriorDebt b)
  && bool_decide (inv_LateFeeAmount a = inv_LateFeeAmount b)
  && bool_decide (inv_CreditAmount a = inv_CreditAmount b)
  && bool_decide (inv_FinalAmount a = inv_FinalAmount b)
  && bool_decide (inv_BuildingID a = inv_BuildingID b)
  && bool_decide (inv_PeriodID a = inv_PeriodID b)
  && bool_decide (inv_UnitID a = inv_UnitID b)
  && bool_decide (inv_DueDate a = inv_DueDate b).

Definition billing_invoice_guard_update (old new : Invoice) : option GoError :=
  if is_draft_number (inv_InvoiceNumber old)
     && negb (bool_decide (inv_InvoiceNumber new = inv_InvoiceNumber old))
     && same_amounts old new
  then None
  else if negb (same_amounts old new
                && bool_decide (inv_InvoiceNumber old = inv_InvoiceNumber new))
  then Some raise_exception else None.

Definition billing_invoice_guard_delete (d : DB) (old : Invoice) : option GoError :=
  if period_frozen d (inv_PeriodID old) then Some raise_exception else None.

(** The trigger comes first; then the payments reference their invoice. *)
Definition invoice_delete (d : DB) (old : Invoice) : option GoError :=
  match billing_invoice_guard_delete d old with
  | Some e => Some e
  | None => if_referenced (referenced_opt pay_ID pay_InvoiceID (db_payments d) (inv_ID old))
  end.

#[export] Instance Invoice_table : Table Invoice := {
  tbl := db_invoices; set_tbl := set_invoices; key := inv_ID;
  stamp now r := MkInvoice (inv_ID r) (inv_InvoiceNumber r) (inv_BuildingID r) (inv_PeriodID r)
    (inv_UnitID r) (inv_BaseAmount r) (inv_PriorDebt r) (inv_LateFeeAmount r)
    (inv_CreditAmount r) (inv_FinalAmount r) (inv_IssueDate r) (inv_DueDate r) (inv_Status r)
    (inv_PaidAmount r) (inv_InputsFrozenAt r) (stamp_if_zero now (inv_CreatedAt r))
    (stamp_if_zero now (inv_UpdatedAt r));
  touch now r := MkInvoice (inv_ID r) (inv_InvoiceNumber r) (inv_BuildingID r) (inv_PeriodID r)
    (inv_UnitID r) (inv_BaseAmount r) (inv_PriorDebt r) (inv_LateFeeAmount r)
    (inv_CreditAmount r) (inv_FinalAmount r) (inv_IssueDate r) (inv_DueDate r) (inv_Status r)
    (inv_PaidAmount r) (inv_InputsFrozenAt r) (inv_CreatedAt r) now;
  accept _ d r :=
    let r := MkInvoice (inv_ID r) (inv_InvoiceNumber r) (inv_BuildingID r) (inv_PeriodID r)
      (inv_UnitID r) (inv_BaseAmount r) (inv_PriorDebt r) (inv_LateFeeAmount r)
      (inv_CreditAmount r) (inv_FinalAmount r) (TruncateDay <$> inv_IssueDate r)
      (TruncateDay <$> inv_DueDate r) (inv_Status r)
      (inv_PaidAmount r) (inv_InputsFrozenAt r) (inv_CreatedAt r) (inv_UpdatedAt r) in
    require (in_enum (inv_Status r) invoice_status) bad_enum ;;
    require (0 <=? inv_PaidAmount r) check_violation ;;
    require (negb (existsb (λ r', negb (bool_decide (inv_ID r' = inv_ID r))
               && bool_decide (inv_BuildingID r' = inv_BuildingID r)
               && bool_decide (inv_InvoiceNumber r' = inv_InvoiceNumber r))
               (rows_of inv_ID (db_invoices d)))) unique_violation ;;
    Ok r;
  on_insert := no_trigger;
  on_update := billing_invoice_guard_update;
  on_delete := invoice_delete;
  cascade := λ id d,
    set_adjustments (filter (λ '(_, a), ad_InvoiceID a ≠ id) (db_adjustments d))
      (set_invoice_items (filter (λ '(_, i), ii_InvoiceID i ≠ id) (db_invoice_items d)) d);
  tbl_set_tbl := λ _ _, eq_refl;
}.

(** The period of the invoice an item belongs to is issued or closed. *)
Definition item_frozen (d : DB) (invoice_id : UUID) : bool :=
  match row_at (R := Invoice) d invoice_id with
  | Some inv => period_frozen d (inv_PeriodID inv)
  | None => false
  end.

Definition billing_invoice_item_guard_insert (d : DB) (new : InvoiceItem) : option GoError :=
  if negb (bool_decide (ii_Kind new = ItemAdjustment)) && item_frozen d (ii_InvoiceID new)
  then Some raise_exception else None.

Definition billing_invoice_item_guard_delete (d : DB) (old : InvoiceItem) : option GoError :=
  if item_frozen d (ii_InvoiceID old) then Some raise_exception else None.

#[export] Instance InvoiceItem_table : Table InvoiceItem := {
  tbl := db_invoice_items; set_tbl := set_invoice_items; key := ii_ID;
  stamp now r := MkInvoiceItem (ii_ID r) (ii_InvoiceID r) (ii_Kind r) (ii_Title r)
    (ii_CostItemID r) (ii_Amount r) (ii_Method r) (ii_AdjustmentID r)
    (stamp_if_zero now (ii_CreatedAt r));
  touch _ r := r;
  accept _ _ r :=
    require (in_enum (ii_Kind r) invoice_item_kind
             && match ii_Method r with Some m => in_enum m cost_method | None => true end)
      bad_enum ;;
    Ok r;
  on_insert := billing_invoice_item_guard_insert;
  on_update := λ _ _, Some raise_exception;
  on_delete := billing_invoice_item_guard_delete;
  cascade := no_cascade;
  tbl_set_tbl := λ _ _, eq_refl;
}.

#[export] Instance InvoiceAdjustment_table : Table InvoiceAdjustment := {
  tbl := db_adjustments; set_tbl := set_adjustments; key := ad_ID;
  stamp now r := MkInvoiceAdjustment (ad_ID r) (ad_InvoiceID r) (ad_Kind r) (ad_Amount r)
    (ad_Reason r) (ad_CreatedBy r) (stamp_if_zero now (ad_CreatedAt r));
  touch _ r := r;
  accept _ _ r :=
    require (in_enum (ad_Kind r) adjustment_kind) bad_enum ;;
    require (0 <? ad_Amount r) check_violation ;;
    Ok r;
  on_insert := no_trigger;
  on_update := λ _ _, Some raise_exception;
  on_delete := no_trigger;
  cascade := no_cascade;
  tbl_set_tbl := λ _ _, eq_refl;
}.

(** ** 0005_payments *)

Definition payment_method : list string := [MethodManual; MethodGateway].
Definition payment_status : list string :=
  [StatusRecorded; StatusVerified; StatusFailed; StatusReversed].

(** The rows of [uq_payments_authority]. *)
Definition pending_authority (p : Payment) : bool :=
  bool_decide (pay_Status p = StatusRecorded) && negb (is_null (pay_Authority p)).

#[export] Instance Payment_table : Table Payment := {
  tbl := db_payments; set_tbl := set_payments; key := pay_ID;
  stamp now r := MkPayment (pay_ID r) (pay_BuildingID r) (pay_UnitID r) (pay_InvoiceID r)
    (pay_Method r) (pay_Amount r) (pay_PaidAt r) (pay_TrackingNumber r) (pay_Gateway r)
    (pay_Authority r) (pay_RecordedBy r) (pay_Status r) (stamp_if_zero now (pay_CreatedAt r))
    (stamp_if_zero now (pay_UpdatedAt r));
  touch now r := MkPayment (pay_ID r) (pay_BuildingID r) (pay_UnitID r) (pay_InvoiceID r)
    (pay_Method r) (pay_Amount r) (pay_PaidAt r) (pay_TrackingNumber r) (pay_Gateway r)
    (pay_Authority r) (pay_RecordedBy r) (pay_Status r) (pay_CreatedAt r) now;
  accept _ d r :=
    let r := MkPayment (pay_ID r) (pay_BuildingID r) (pay_UnitID r) (pay_InvoiceID r)
      (pay_Method r) (pay_Amount r) (TruncateDay (pay_PaidAt r)) (pay_TrackingNumber r)
      (pay_Gateway r) (pay_Authority r) (pay_RecordedBy r) (pay_Status r) (pay_CreatedAt r)
      (pay_UpdatedAt r) in
    require (in_enum (pay_Method r) payment_method && in_enum (pay_Status r) payment_status)
      bad_enum ;;
    require (0 <? pay_Amount r) check_violation ;;
    require (negb (pending_authority r
      && existsb (λ r', negb (bool_decide (pay_ID r' = pay_ID r)) && pending_authority r'
           && opt_eqb (pay_Authority r') (pay_Authority r)) (rows_of pay_ID (db_payments d))))
      unique_violation ;;
    Ok r;
  on_insert := no_trigger; on_update := no_update_trigger; on_delete := no_trigger;
  cascade := no_cascade;
  tbl_set_tbl := λ _ _, eq_refl;
}.

#[export] Instance UnitBalance_table : Table UnitBalance := {
  tbl := db_balances; set_tbl := set_balances; key := bal_UnitID;
  stamp now r := MkUnitBalance (bal_UnitID r) (bal_PriorDebt r) (bal_CurrentInvoiceAmount r)
    (bal_LateFeeTotal r) (bal_Credit r) (bal_PaidTotal r) (bal_CreditAsset r) (bal_Balance r)
    (stamp_if_zero now (bal_UpdatedAt r));
  touch now r := MkUnitBalance (bal_UnitID r) (bal_PriorDebt r) (bal_CurrentInvoiceAmount r)
    (bal_LateFeeTotal r) (bal_Credit r) (bal_PaidTotal r) (bal_CreditAsset r) (bal_Balance r)
    now;
  accept _ _ r := Ok r;
  on_insert := no_trigger; on_update := no_update_trigger; on_delete := no_trigger;
  cascade := no_cascade;
  tbl_set_tbl := λ _ _, eq_refl;
}.

(** ** 0001_core: files; 0006_expenses, 0007_maintenance, 0008_announcements *)

#[export] Instance File_table : Table File := {
  tbl := db_files; set_tbl := set_files; key := fl_ID;
  stamp now r := MkFile (fl_ID r) (fl_Path r) (fl_ContentType r) (fl_SizeBytes r)
    (fl_UploadedBy r) (stamp_if_zero now (fl_CreatedAt r));
  touch _ r := r;
  accept _ _ r := Ok r;
  on_insert := no_trigger; on_update := no_update_trigger; on_delete := no_trigger;
  cascade := no_cascade;
  tbl_set_tbl := λ _ _, eq_refl;
}.

Definition expense_category : list string :=
  [CatWater; CatElectricity; CatGas; CatElevator; CatCleaning; CatSecurity; CatRepair;
   CatInsurance; CatEquipment; CatOther].

Definition expense_approval : list string := [ApprovalPending; ApprovalApproved; ApprovalRejected].

#[export] Instance Expense_table : Table Expense := {
  tbl := db_expenses; set_tbl := set_expenses; key := ex_ID;
  stamp now r := MkExpense (ex_ID r) (ex_BuildingID r) (ex_Title r) (ex_Category r) (ex_Amount r)
    (ex_ExpenseDate r) (ex_Description r) (ex_PayerPersonID r) (ex_ReceiptFile r)
    (ex_ApprovalStatus r) (ex_CreatedBy r) (stamp_if_zero now (ex_CreatedAt r))
    (stamp_if_zero now (ex_UpdatedAt r)) (ex_DeletedAt r);
  touch now r := MkExpense (ex_ID r) (ex_BuildingID r) (ex_Title r) (ex_Category r) (ex_Amount r)
    (ex_ExpenseDate r) (ex_Description r) (ex_PayerPersonID r) (ex_ReceiptFile r)
    (ex_ApprovalStatus r) (ex_CreatedBy r) (ex_CreatedAt r) now (ex_DeletedAt r);
  accept _ _ r :=
    require (in_enum (ex_Category r) expense_category) bad_enum ;;
    require (in_enum (ex_ApprovalStatus r) expense_approval) bad_enum ;;
    require (0 <? ex_Amount r) check_violation ;;
    Ok r;
  on_insert := no_trigger; on_update := no_update_trigger; on_delete := no_trigger;
  cascade := no_cascade;
  tbl_set_tbl := λ _ _, eq_refl;
}.

Definition maintenance_category : list string :=
  [CatElevator; CatUtilities; CatElectrical; CatWater; CatCleaning; CatCommonArea; CatParking;
   CatOther].

Definition maintenance_priority : list string := [PriNormal; PriImportant; PriUrgent].

Definition maintenance_status : list string :=
  [StatusNew; StatusUnderReview; StatusInProgress; StatusDone; StatusClosed].

#[export] Instance MaintenanceRequest_table : Table MaintenanceRequest := {
  tbl := db_maintenance; set_tbl := set_maintenance; key := mr_ID;
  stamp now r := MkMaintenanceRequest (mr_ID r) (mr_BuildingID r) (mr_UnitID r) (mr_SubmittedBy r)
    (mr_Title r) (mr_Category r) (mr_Description r) (mr_Location r) (mr_PhotoFile r)
    (mr_Priority r) (mr_Status r) (mr_AssigneePersonID r) (mr_RecordedCost r) (mr_Notes r)
    (stamp_if_zero now (mr_CreatedAt r)) (stamp_if_zero now (mr_UpdatedAt r)) (mr_ClosedAt r);
  touch now r := MkMaintenanceRequest (mr_ID r) (mr_BuildingID r) (mr_UnitID r) (mr_SubmittedBy r)
    (mr_Title r) (mr_Category r) (mr_Description r) (mr_Location r) (mr_PhotoFile r)
    (mr_Priority r) (mr_Status r) (mr_AssigneePersonID r) (mr_RecordedCost r) (mr_Notes r)
    (mr_CreatedAt r) now (mr_ClosedAt r);
  accept _ _ r :=
    require (in_enum (mr_Category r) maintenance_category) bad_enum ;;
    require (in_enum (mr_Priority r) maintenance_priority) bad_enum ;;
    require (in_enum (mr_Status r) maintenance_status) bad_enum ;;
    require (match mr_RecordedCost r with Some c => 0 <=? c | None => true end) check_violation ;;
    Ok r;
  on_insert := no_trigger; on_update := no_update_trigger; on_delete := no_trigger;
  cascade := no_cascade;
  tbl_set_tbl := λ _ _, eq_refl;
}.

Definition announcement_audience : list string :=
  [AudienceAll; AudienceBlock; AudienceFloor; AudienceUnit].

(** [chk_ann_audience] and [chk_ann_expire]. *)
Definition chk_ann_audience (a : Announcement) : bool :=
  let none := bool_decide (default "" (an_AudienceValue a) = "") in
  if bool_decide (an_AudienceType a = AudienceAll) then none else negb none.

Definition chk_ann_expire (a : Announcement) : bool :=
  match an_ExpireAt a, an_PublishAt a with
  | Some e, Some p => p <? e
  | _, _ => true
  end.

Definition cascade_announcement (id : UUID) (d : DB) : DB :=
  set_announcement_reads (filter (λ kv, kv.1.1 ≠ id) (db_announcement_reads d)) d.

#[export] Instance Announcement_table : Table Announcement := {
  tbl := db_announcements; set_tbl := set_announcements; key := an_ID;
  stamp now r := MkAnnouncement (an_ID r) (an_BuildingID r) (an_Title r) (an_Body r)
    (an_AudienceType r) (an_AudienceValue r) (an_PublishAt r) (an_ExpireAt r)
    (an_AttachmentFile r) (an_CreatedBy r) (stamp_if_zero now (an_CreatedAt r))
    (stamp_if_zero now (an_UpdatedAt r));
  touch now r := MkAnnouncement (an_ID r) (an_BuildingID r) (an_Title r) (an_Body r)
    (an_AudienceType r) (an_AudienceValue r) (an_PublishAt r) (an_ExpireAt r)
    (an_AttachmentFile r) (an_CreatedBy r) (an_CreatedAt r) now;
  accept _ _ r :=
    require (in_enum (an_AudienceType r) announcement_audience) bad_enum ;;
    require (chk_ann_audience r) check_violation ;;
    require (chk_ann_expire r) check_violation ;;
    Ok r;
  on_insert := no_trigger; on_update := no_update_trigger; on_delete := no_trigger;
  cascade := cascade_announcement;
  tbl_set_tbl := λ _ _, eq_refl;
}.

(** ** The schema never panics *)

Class AdmitSafe (R : Type) `{!Table R} := {
  admit_safe : ∀ env d r s, accept env d r ≠ Panic s;
  admit_key : ∀ env d r r', accept env d r = Ok r' → key r' = key r;
}.

Lemma require_bind_panic {A} b e (m : Res A) s :
  m ≠ Panic s → (require b e ;; m) ≠ Panic s.
Proof. by destruct b. Qed.

Lemma require_Ok {A} b e (m : Res A) a : (require b e ;; m) = Ok a ↔ b = true ∧ m = Ok a.
Proof. destruct b; simpl; naive_solver. Qed.

Ltac solve_admit := split; intros *; cbn -[require mbind];
  [repeat apply require_bind_panic; done
  |rewrite ?require_Ok; intros; destruct_and?; by simplify_eq].

#[export] Instance User_safe : AdmitSafe User.
Proof. solve_admit. Qed.
#[export] Instance RefreshToken_safe : AdmitSafe RefreshToken.
Proof. solve_admit. Qed.
#[export] Instance InviteCode_safe : AdmitSafe InviteCode.
Proof. solve_admit. Qed.
#[export] Instance Notification_safe : AdmitSafe Notification.
Proof. solve_admit. Qed.
#[export] Instance File_safe : AdmitSafe File.
Proof. solve_admit. Qed.
#[export] Instance Expense_safe : AdmitSafe Expense.
Proof. solve_admit. Qed.
#[export] Instance MaintenanceRequest_safe : AdmitSafe MaintenanceRequest.
Proof. solve_admit. Qed.
#[export] Instance Announcement_safe : AdmitSafe Announcement.
Proof. solve_admit. Qed.
#[export] Instance Building_safe : AdmitSafe Building.
Proof. solve_admit. Qed.
#[export] Instance Unit_safe : AdmitSafe Unit.
Proof. solve_admit. Qed.
#[export] Instance Person_safe : AdmitSafe Person.
Proof. solve_admit. Qed.
#[export] Instance Occupancy_safe : AdmitSafe Occupancy.
Proof. solve_admit. Qed.
#[export] Instance OccupantCount_safe : AdmitSafe OccupantCount.
Proof. solve_admit. Qed.
#[export] Instance BCostItem_safe : AdmitSafe BCostItem.
Proof. solve_admit. Qed.
#[export] Instance CostItemShare_safe : AdmitSafe CostItemShare.
Proof. solve_admit. Qed.
#[export] Instance Invoice_safe : AdmitSafe Invoice.
Proof. solve_admit. Qed.
#[export] Instance InvoiceItem_safe : AdmitSafe InvoiceItem.
Proof. solve_admit. Qed.
#[export] Instance InvoiceAdjustment_safe : AdmitSafe InvoiceAdjustment.
Proof. solve_admit. Qed.
#[export] Instance Payment_safe : AdmitSafe Payment.
Proof. solve_admit. Qed.
#[export] Instance UnitBalance_safe : AdmitSafe UnitBalance.
Proof. solve_admit. Qed.
#[export] Instance BillingPeriod_safe : AdmitSafe BillingPeriod.
Proof.
  split; intros *; cbn -[require mbind]; unfold admit_BillingPeriod;
    destruct (env_numeric _ _); try done.
  - repeat apply require_bind_panic; done.
  - rewrite ?require_Ok. intros. destruct_and?. by simplify_eq.
Qed.
