(* ===== verification/Logic.v ===== *)
(** * Reasoning about calls of the backend

    [holds m d Q]: whatever the environment, running [m] on the tables [d] ends
    with a result and tables that satisfy [Q]. One rule per construct; the
    tactic [step] applies the rule of the next one. *)

From S2P Require Import Prelude Golang Errors Models Store Schema.

Definition holds {A} (m : M A) (d : DB) (Q : Res A → DB → Prop) : Prop :=
  ∀ env w, w_db w = d → Q (m env w).1 (w_db (m env w).2).

(** What a result means for the rest of the call. *)
Definition after {A B} (Q : Res B → DB → Prop) (k : A → DB → Prop) (r : Res A) (d : DB) : Prop :=
  match r with
  | Ok a => k a d
  | Err e => Q (Err e) d
  | Panic s => Q (Panic s) d
  end.

Lemma holds_mono {A} (m : M A) d (Q Q' : Res A → DB → Prop) :
  holds m d Q → (∀ r d', Q r d' → Q' r d') → holds m d Q'.
Proof. intros H HQ env w Hw. by apply HQ, H. Qed.

Lemma holds_run {A} (m : M A) (Q : Res A → DB → Prop) env w :
  holds m (w_db w) Q → Q (m env w).1 (w_db (m env w).2).
Proof. intros H. by apply H. Qed.

Lemma holds_ret {A} (a : A) d Q : Q (Ok a) d → holds (mret a) d Q.
Proof. intros H env w <-. apply H. Qed.

Lemma holds_fail {A} (e : GoError) d (Q : Res A → DB → Prop) : Q (Err e) d → holds (fail e) d Q.
Proof. intros H env w <-. apply H. Qed.

Lemma holds_lift {A} (r : Res A) d (Q : Res A → DB → Prop) : Q r d → holds (lift r) d Q.
Proof. intros H env w <-. apply H. Qed.

Lemma holds_guard b e d (Q : Res unit → DB → Prop) :
  (b = true → Q (Ok tt) d) → (b = false → Q (Err e) d) → holds (guard_or b e) d Q.
Proof. unfold guard_or. destruct b; intros; [apply holds_ret|apply holds_fail]; auto. Qed.

Lemma holds_bind {A B} (m : M A) (f : A → M B) d Q :
  holds m d (after Q (λ a d', holds (f a) d' Q)) → holds (m ≫= f) d Q.
Proof.
  intros H env w Hw. specialize (H env w Hw). unfold mbind, M_bind in *.
  destruct (m env w) as [[a|e|s] w']; simpl in *; [|done..]. by apply H.
Qed.

Lemma holds_map_err {A} f (m : M A) d Q :
  holds m d (λ r d', match r with Err e => Q (Err (f e)) d' | _ => Q r d' end) →
  holds (map_err f m) d Q.
Proof.
  intros H env w Hw. specialize (H env w Hw). unfold map_err.
  destruct (m env w) as [[a|e|s] w']; exact H.
Qed.

Lemma holds_attempt {A} (m : M A) d Q :
  holds m d (λ r d', match r with
    | Ok a => Q (Ok (inl a)) d' | Err e => Q (Ok (inr e)) d' | Panic s => Q (Panic s) d' end) →
  holds (attempt m) d Q.
Proof.
  intros H env w Hw. specialize (H env w Hw). unfold attempt.
  destruct (m env w) as [[a|e|s] w']; exact H.
Qed.

Lemma holds_now d (Q : Res Time → DB → Prop) : (∀ t, Q (Ok t) d) → holds time_Now d Q.
Proof. intros H env w <-. apply H. Qed.

Lemma holds_uuid d (Q : Res UUID → DB → Prop) : (∀ u, Q (Ok u) d) → holds uuid_New d Q.
Proof. intros H env w <-. apply H. Qed.

Lemma holds_rand d (Q : Res (list N) → DB → Prop) :
  (∀ l, Q (Ok l) d) → (∀ e, Q (Err e) d) → holds rand_Read d Q.
Proof.
  intros H1 H2 env w <-. unfold rand_Read. destruct (env_rand _ _); simpl; auto.
Qed.

Lemma holds_stmt {A} (f : Env → Time → DB → Res (A * DB)) d (Q : Res A → DB → Prop) :
  (∀ e, Q (Err e) d) →
  (∀ env now, match f env now d with
    | Ok (a, d') => Q (Ok a) d' | Err e => Q (Err e) d | Panic s => Q (Panic s) d end) →
  holds (stmt f) d Q.
Proof.
  intros He Hf env w <-. unfold stmt. destruct (env_fault _ _); [apply He|].
  specialize (Hf env (env_now env (w_tick w))).
  destruct (f _ _ _) as [[a d']|e|s]; exact Hf.
Qed.

Lemma holds_query {A} (f : DB → A) d (Q : Res A → DB → Prop) :
  (∀ e, Q (Err e) d) → Q (Ok (f d)) d → holds (query f) d Q.
Proof. intros He Hq. by apply holds_stmt. Qed.

Lemma holds_transaction {A} (m : M A) d (Q : Res A → DB → Prop) :
  (∀ e, Q (Err e) d) → (∀ s, Q (Panic s) d) →
  holds m d (λ r d', match r with Ok a => Q (Ok a) d' | _ => True end) →
  holds (Transaction m) d Q.
Proof.
  intros He Hs H env w <-. specialize (H env w eq_refl). unfold Transaction.
  destruct (m env w) as [[a|e|s] w']; simpl in *; [|apply He|apply Hs].
  destruct (env_fault _ _); [apply He|done].
Qed.

Lemma holds_for_each {A} (f : A → M ()) (l : list A) (I : list A → DB → Prop)
    d (Q : Res () → DB → Prop) :
  I l d → (∀ d', I [] d' → Q (Ok tt) d') →
  (∀ x l' d', I (x :: l') d' → holds (f x) d' (after Q (λ _, I l'))) →
  holds (for_each f l) d Q.
Proof.
  intros HI Hend Hstep. revert d HI. induction l as [|x l IH]; intros d HI; simpl.
  - by apply holds_ret, Hend.
  - apply holds_bind. eapply holds_mono; [by apply Hstep|].
    intros [[]|e|s] d' H; simpl in *; [by apply IH|done..].
Qed.

Lemma holds_discard {A} (m : M A) d (Q : DB → Prop) :
  holds m d (λ _ d', Q d') → holds (discard m) d (λ _ d', Q d').
Proof.
  intros H. unfold discard. apply holds_bind. eapply holds_mono; [exact H|].
  intros [a|e|s] d'; simpl; [|done..]. intros. by apply holds_ret.
Qed.

Section table_rules.
Context {R : Type} `{!Table R} `{!AdmitSafe R}.

(** A stored row: not there before, passed by the triggers and the schema. *)
Lemma insert_row_Ok env (r : R) d d' :
  insert_row env r d = Ok d' ↔
  on_insert d r = None ∧ tbl d !! key r = None ∧ ∃ r', accept env d r = Ok r' ∧ d' = put r' d.
Proof.
  unfold insert_row. destruct (on_insert d r); [naive_solver|].
  destruct (accept env d r) as [r'|e|s]; simpl; [|naive_solver..].
  destruct (tbl d !! key r); naive_solver.
Qed.

Lemma update_row_Ok env (old r : R) d d' :
  update_row env old r d = Ok d' ↔
  ∃ r', accept env d r = Ok r' ∧ on_update old r' = None ∧ d' = put r' d.
Proof.
  unfold update_row. destruct (accept env d r) as [r'|e|s]; simpl; [|naive_solver..].
  destruct (on_update old r') eqn:E; naive_solver.
Qed.

Lemma insert_row_no_panic env (r : R) d s : insert_row env r d ≠ Panic s.
Proof.
  unfold insert_row. destruct (on_insert d r); [done|]. pose proof (admit_safe env d r) as H.
  destruct (accept env d r); simpl; [by destruct (tbl d !! _)|done|naive_solver].
Qed.

Lemma update_row_no_panic env (old r : R) d s : update_row env old r d ≠ Panic s.
Proof.
  unfold update_row. pose proof (admit_safe env d r) as H.
  destruct (accept env d r) as [r'|e|s']; simpl; [by destruct (on_update old r')|done|naive_solver].
Qed.

Lemma save_row_no_panic env (r : R) d s : save_row env r d ≠ Panic s.
Proof. unfold save_row. case_match; [apply update_row_no_panic|apply insert_row_no_panic]. Qed.

Lemma update_rows_no_panic env f (l : list R) d s : update_rows env f l d ≠ Panic s.
Proof.
  revert d. induction l as [|r l IH]; intros d; [done|]. simpl.
  pose proof (update_row_no_panic env r (f r) d) as H.
  destruct (update_row env r (f r) d); simpl; [apply IH|done|naive_solver].
Qed.

Lemma holds_First_id id d (Q : Res R → DB → Prop) :
  (∀ e, Q (Err e) d) → (∀ r, row_at d id = Some r → Q (Ok r) d) →
  holds (First_id id) d Q.
Proof.
  intros He Hr. apply holds_stmt; [done|]. intros _ _. destruct (row_at d id) eqn:E; auto.
Qed.

Lemma holds_First_where less P d (Q : Res R → DB → Prop) :
  (∀ e, Q (Err e) d) →
  (∀ r l, sort_by less (List.filter P (rows d)) = r :: l → Q (Ok r) d) →
  holds (First_where less P) d Q.
Proof.
  intros He Hr. apply holds_stmt; [done|]. intros _ _.
  destruct (sort_by _ _) eqn:E; eauto.
Qed.

Lemma holds_Find less P d (Q : Res (list R) → DB → Prop) :
  (∀ e, Q (Err e) d) → Q (Ok (sort_by less (List.filter P (rows d)))) d →
  holds (Find less P) d Q.
Proof. intros He Hq. by apply holds_stmt. Qed.

Lemma holds_Find_unordered P d (Q : Res (list R) → DB → Prop) :
  (∀ e, Q (Err e) d) → Q (Ok (List.filter P (rows d))) d →
  holds (Find_unordered P) d Q.
Proof. intros He Hq. by apply holds_stmt. Qed.

Lemma holds_Count (P : R → bool) d (Q : Res Z → DB → Prop) :
  (∀ e, Q (Err e) d) → Q (Ok (Z.of_nat (length (List.filter P (rows d))))) d →
  holds (Count P) d Q.
Proof. intros He Hq. by apply holds_stmt. Qed.

Lemma holds_Create (r : R) d (Q : Res R → DB → Prop) :
  (∀ e, Q (Err e) d) →
  (∀ env now r' d', on_insert d (stamp now r) = None → tbl d !! key (stamp now r) = None →
     accept env d (stamp now r) = Ok r' → d' = put r' d → Q (Ok (stamp now r)) d') →
  holds (Create r) d Q.
Proof.
  intros He Hok. apply holds_stmt; [done|]. intros env now.
  destruct (insert_row env (stamp now r) d) eqn:E; simpl; [|apply He|].
  - apply insert_row_Ok in E as (? & ? & r' & ? & ?). by eapply Hok.
  - by apply insert_row_no_panic in E.
Qed.

Lemma holds_Save (r : R) d (Q : Res R → DB → Prop) :
  (∀ e, Q (Err e) d) →
  (∀ env now d', save_row env (touch now r) d = Ok d' → Q (Ok (touch now r)) d') →
  holds (Save r) d Q.
Proof.
  intros He Hok. apply holds_stmt; [done|]. intros env now.
  destruct (save_row env (touch now r) d) eqn:E; simpl; [eauto|apply He|].
  by apply save_row_no_panic in E.
Qed.

Lemma holds_Update_where (P : R → bool) f d (Q : Res Z → DB → Prop) :
  (∀ e, Q (Err e) d) →
  (∀ env now d', update_rows env (f now) (List.filter P (rows d)) d = Ok d' →
     Q (Ok (Z.of_nat (length (List.filter P (rows d))))) d') →
  holds (Update_where P f) d Q.
Proof.
  intros He Hok. apply holds_stmt; [done|]. intros env now.
  cbv zeta. destruct (update_rows _ _ _ _) eqn:E; simpl; [eauto|apply He|].
  by apply update_rows_no_panic in E.
Qed.

Lemma holds_Delete_where (P : DB → R → bool) d (Q : Res Z → DB → Prop) :
  (∀ e, Q (Err e) d) →
  (first_error (on_delete d) (List.filter (P d) (rows d)) = None →
     Q (Ok (Z.of_nat (length (List.filter (P d) (rows d)))))
       (foldl delete_row d (List.filter (P d) (rows d)))) →
  holds (Delete_where P) d Q.
Proof.
  intros He Hok. apply holds_stmt; [done|]. intros env now. cbv zeta.
  destruct (first_error _ _) eqn:E; simpl; [apply He|by apply Hok].
Qed.

(** An UPDATE of a row that is there, at the same key. *)
Lemma save_row_old env (r old : R) d d' :
  tbl d !! key r = Some old → save_row env r d = Ok d' →
  ∃ r', accept env d r = Ok r' ∧ on_update old r' = None ∧ d' = put r' d.
Proof. intros E. unfold save_row. rewrite E. apply update_row_Ok. Qed.

Lemma put_lookup (r : R) d : tbl (put r d) !! key r = Some r.
Proof. unfold put. by rewrite tbl_set_tbl, lookup_insert_eq. Qed.

Lemma put_lookup_ne (r : R) d k : k ≠ key r → tbl (put r d) !! k = tbl d !! k.
Proof. intros H. unfold put. rewrite tbl_set_tbl. by apply lookup_insert_ne. Qed.

Lemma row_at_Some d id (r : R) : row_at d id = Some r ↔ tbl d !! id = Some r ∧ key r = id.
Proof.
  unfold row_at. destruct (tbl d !! id) as [r'|]; simpl; [case_decide|]; naive_solver.
Qed.

(** A row of the table, among the rows of a query. *)
Lemma elem_of_rows (r : R) d : r ∈ rows d ↔ row_at d (key r) = Some r.
Proof.
  rewrite row_at_Some. unfold rows, rows_of. rewrite list_elem_of_fmap. split.
  - intros ([k r'] & -> & Hk). apply list_elem_of_filter in Hk as [E Hk].
    simpl in *. rewrite E. split; [|done]. by apply elem_of_map_to_list.
  - intros [Hk _]. exists (key r, r). split; [done|]. apply list_elem_of_filter.
    split; [done|]. by apply elem_of_map_to_list.
Qed.

Lemma elem_of_filter_rows (P : R → bool) (r : R) d :
  r ∈ List.filter P (rows d) ↔ row_at d (key r) = Some r ∧ P r = true.
Proof. rewrite <- elem_of_rows, !list_elem_of_In. apply filter_In. Qed.

Lemma row_at_put (r : R) d id :
  row_at (put r d) id = if decide (id = key r) then Some r else row_at d id.
Proof.
  unfold row_at. case_decide as E.
  - rewrite E, put_lookup. simpl. by rewrite decide_True.
  - by rewrite put_lookup_ne.
Qed.
End table_rules.

(** ** Automation *)

(** [step]: the rule of the next construct of the call. *)
Ltac step :=
  cbn [after];
  lazymatch goal with
  | |- holds (mret _) _ _ => apply holds_ret
  | |- holds (fail _) _ _ => apply holds_fail
  | |- holds (lift _) _ _ => apply holds_lift
  | |- holds (guard_or _ _) _ _ => apply holds_guard; intros
  | |- holds (mbind _ _) _ _ => apply holds_bind
  | |- holds (map_err _ _) _ _ => apply holds_map_err
  | |- holds (attempt _) _ _ => apply holds_attempt
  | |- holds (ignore_err _) _ _ => unfold ignore_err
  | |- holds time_Now _ _ => apply holds_now; intros
  | |- holds uuid_New _ _ => apply holds_uuid; intros
  | |- holds rand_Read _ _ => apply holds_rand; intros
  | |- holds (query _) _ _ => apply holds_query; intros
  | |- holds (First_id _) _ _ => apply holds_First_id; intros
  | |- holds (First_where _ _) _ _ => apply holds_First_where; intros
  | |- holds (Find _ _) _ _ => apply holds_Find; intros
  | |- holds (Find_unordered _) _ _ => apply holds_Find_unordered; intros
  | |- holds (Count _) _ _ => apply holds_Count; intros
  | |- holds (Create _) _ _ => apply holds_Create; intros
  | |- holds (Save _) _ _ => apply holds_Save; intros
  | |- holds (Update_where _ _) _ _ => apply holds_Update_where; intros
  | |- holds (Delete_where _) _ _ => apply holds_Delete_where; intros
  | |- holds (Transaction _) _ _ => apply holds_transaction; intros
  | |- holds (if ?b then _ else _) _ _ => destruct b eqn:?
  | |- holds (match ?x with _ => _ end) _ _ => destruct x eqn:?
  end; cbn [after].

Ltac steps := repeat (step; try done).

(** ** Relations a call respects *)

(** [Stays R m]: whatever its result, [m] moves the tables along [R]. *)
Class Stays {A} (R : relation DB) (m : M A) : Prop :=
  stays : ∀ d, holds m d (λ _ d', R d d').

Lemma stays_run {A} R (m : M A) `{!Stays R m} env w :
  R (w_db w) (w_db (m env w).2).
Proof. by apply (stays (w_db w)). Qed.

Section stays.
Context (R : relation DB) `{!PreOrder R}.

Lemma stays_bind {A B} (m : M A) (f : A → M B) :
  Stays R m → (∀ a, Stays R (f a)) → Stays R (m ≫= f).
Proof.
  intros Hm Hf d. apply holds_bind. eapply holds_mono; [apply Hm|].
  intros [a|e|s] d' H; simpl; [|done..].
  eapply holds_mono; [apply Hf|]. intros r d'' H'. simpl in *. by transitivity d'.
Qed.

Lemma stays_ret {A} (a : A) : Stays R (mret a).
Proof. intros d. by apply holds_ret. Qed.
Lemma stays_fail {A} e : Stays R (fail (A := A) e).
Proof. intros d. by apply holds_fail. Qed.
Lemma stays_lift {A} (r : Res A) : Stays R (lift r).
Proof. intros d. by apply holds_lift. Qed.
Lemma stays_guard b e : Stays R (guard_or b e).
Proof. intros d. by apply holds_guard. Qed.
Lemma stays_map_err {A} f (m : M A) : Stays R m → Stays R (map_err f m).
Proof.
  intros H d. apply holds_map_err. eapply holds_mono; [apply H|]. intros [] d' H'; solve [exact H' | exact I].
Qed.
Lemma stays_attempt {A} (m : M A) : Stays R m → Stays R (attempt m).
Proof.
  intros H d. apply holds_attempt. eapply holds_mono; [apply H|]. intros [] d' H'; solve [exact H' | exact I].
Qed.
Lemma stays_now : Stays R time_Now.
Proof. intros d. by apply holds_now. Qed.
Lemma stays_uuid : Stays R uuid_New.
Proof. intros d. by apply holds_uuid. Qed.
Lemma stays_rand : Stays R rand_Read.
Proof. intros d. by apply holds_rand. Qed.
Lemma stays_read {A} (f : Env → Time → DB → Res A) :
  Stays R (stmt (λ env now d, f env now d ≫= λ a, Ok (a, d))).
Proof. intros d. apply holds_stmt; [done|]. intros env now. destruct (f env now d); simpl; reflexivity. Qed.
Lemma stays_query {A} (f : DB → A) : Stays R (query f).
Proof. intros d. by apply holds_query. Qed.
Lemma stays_for_each {A} (f : A → M ()) l : (∀ a, Stays R (f a)) → Stays R (for_each f l).
Proof.
  intros H. induction l as [|x l IH]; simpl; [apply stays_ret|]. by apply stays_bind.
Qed.
Lemma stays_map_each {A B} (f : A → M B) l : (∀ a, Stays R (f a)) → Stays R (map_each f l).
Proof.
  intros H. induction l as [|x l IH]; simpl; [apply stays_ret|].
  apply stays_bind; [done|]. intros y. apply stays_bind; [done|]. intros; apply stays_ret.
Qed.
Lemma stays_Transaction {A} (m : M A) : Stays R m → Stays R (Transaction m).
Proof.
  intros H d. apply holds_transaction; [done..|].
  eapply holds_mono; [apply H|]. intros [] d' H'; solve [exact H' | exact I].
Qed.

Context {T : Type} `{!Table T, !AdmitSafe T}.

Lemma stays_First_id id : Stays R (First_id (R := T) id).
Proof. intros d. by apply holds_First_id. Qed.
Lemma stays_First_where less P : Stays R (First_where (R := T) less P).
Proof. intros d. by apply holds_First_where. Qed.
Lemma stays_Find less P : Stays R (Find (R := T) less P).
Proof. intros d. by apply holds_Find. Qed.
Lemma stays_Find_unordered P : Stays R (Find_unordered (R := T) P).
Proof. intros d. by apply holds_Find_unordered. Qed.
Lemma stays_Count P : Stays R (Count (R := T) P).
Proof. intros d. by apply holds_Count. Qed.

Lemma stays_Create (r : T) :
  (∀ env now r' d, on_insert d (stamp now r) = None → tbl d !! key (stamp now r) = None →
     accept env d (stamp now r) = Ok r' → R d (put r' d)) → Stays R (Create r).
Proof. intros H d. apply holds_Create; [done|]. intros; subst. by eapply H. Qed.

Lemma stays_Save (r : T) :
  (∀ env now d d', save_row env (touch now r) d = Ok d' → R d d') → Stays R (Save r).
Proof. intros H d. apply holds_Save; [done|]. intros. by eapply H. Qed.

(** An UPDATE moves row by row. *)
Lemma update_rows_stays env f (l : list T) d d' :
  (∀ r d d', r ∈ l → update_row env r (f r) d = Ok d' → R d d') →
  update_rows env f l d = Ok d' → R d d'.
Proof.
  intros H. revert d H. induction l as [|r l IH]; intros d H; simpl; [by intros [= ->]|].
  destruct (update_row env r (f r) d) as [d1|e|s] eqn:E; simpl; [|done..]. intros E2.
  transitivity d1; [eapply H; [by left|done]|].
  apply IH; [|done]. intros. eapply H; [by right|done].
Qed.

Lemma stays_Update_where P (f : Time → T → T) :
  (∀ env now r d d', update_row env r (f now r) d = Ok d' → R d d') →
  Stays R (Update_where P f).
Proof.
  intros H d. apply holds_Update_where; [done|]. intros env now d' E.
  eapply update_rows_stays; [|exact E]. intros. by eapply H.
Qed.

Lemma foldl_delete_stays (l : list T) d :
  (∀ r d, R d (delete_row d r)) → R d (foldl delete_row d l).
Proof.
  intros H. revert d. induction l as [|r l IH]; intros d; simpl; [done|].
  by transitivity (delete_row d r).
Qed.

Lemma stays_Delete_where (P : DB → T → bool) :
  (∀ r d, R d (delete_row d r)) → Stays R (Delete_where P).
Proof. intros H d. apply holds_Delete_where; [done|]. intros _. by apply foldl_delete_stays. Qed.
End stays.

(** What a table does not touch: the statements of [T] leave [π] alone. *)
Class Indep {X} (π : DB → X) (T : Type) `{!Table T} : Prop := {
  indep_set : ∀ m d, π (set_tbl (R := T) m d) = π d;
  indep_cascade : ∀ id d, π (cascade (R := T) id d) = π d;
}.

(** [keeps π]: the relation "[π] is unchanged". *)
Definition keeps {X} (π : DB → X) : relation DB := λ d d', π d' = π d.

#[export] Instance keeps_preorder {X} (π : DB → X) : PreOrder (keeps π).
Proof. split; unfold keeps; [by intros d|]. intros d1 d2 d3. congruence. Qed.

#[export] Instance eq_preorder {A} : PreOrder (eq (A := A)) | 10.
Proof. split; apply _. Qed.

Section indep.
Context {X} (π : DB → X) {T : Type} `{!Table T, !AdmitSafe T, !Indep π T}.

Lemma indep_put (r : T) d : π (put r d) = π d.
Proof. unfold put. apply indep_set. Qed.
Lemma indep_delete_row (r : T) d : π (delete_row d r) = π d.
Proof. unfold delete_row. by rewrite indep_cascade, indep_set. Qed.

Lemma indep_update_row env (old r : T) d d' :
  update_row env old r d = Ok d' → π d' = π d.
Proof. intros E. apply update_row_Ok in E as (r' & _ & _ & ->). apply indep_put. Qed.
Lemma indep_save_row env (r : T) d d' : save_row env r d = Ok d' → π d' = π d.
Proof.
  unfold save_row. destruct (tbl d !! key r) as [old|]; intros E.
  - by eapply indep_update_row.
  - apply insert_row_Ok in E as (_ & _ & r' & _ & ->). apply indep_put.
Qed.

Lemma keeps_Create (r : T) : Stays (keeps π) (Create r).
Proof. apply stays_Create; [apply _..|]. intros. unfold keeps. apply indep_put. Qed.
Lemma keeps_Save (r : T) : Stays (keeps π) (Save r).
Proof. apply stays_Save; [apply _..|]. intros. by eapply indep_save_row. Qed.
Lemma keeps_Update_where P (f : Time → T → T) : Stays (keeps π) (Update_where P f).
Proof. apply stays_Update_where; [apply _..|]. intros. by eapply indep_update_row. Qed.
Lemma keeps_Delete_where (P : DB → T → bool) : Stays (keeps π) (Delete_where P).
Proof. apply stays_Delete_where; [apply _..|]. intros. apply indep_delete_row. Qed.
End indep.

#[export] Hint Extern 0 (Indep _ _) => split; intros; reflexivity : typeclass_instances.

(** [stays_tac]: the structure of a call, down to the calls that have an
    instance of [Stays]. *)
Ltac stays_step :=
  lazymatch goal with
  | |- Stays _ (mret _) => apply stays_ret
  | |- Stays _ (fail _) => apply stays_fail
  | |- Stays _ (lift _) => apply stays_lift
  | |- Stays _ (guard_or _ _) => apply stays_guard
  | |- Stays _ (mbind _ _) => apply stays_bind; [| |intros]
  | |- Stays _ (map_err _ _) => apply stays_map_err
  | |- Stays _ (attempt _) => apply stays_attempt
  | |- Stays _ (ignore_err _) => unfold ignore_err
  | |- Stays _ time_Now => apply stays_now
  | |- Stays _ uuid_New => apply stays_uuid
  | |- Stays _ rand_Read => apply stays_rand
  | |- Stays _ (query _) => apply stays_query
  | |- Stays _ (for_each _ _) => apply stays_for_each; [|intros]
  | |- Stays _ (map_each _ _) => apply stays_map_each; [|intros]
  | |- Stays _ (Transaction _) => apply stays_Transaction
  | |- Stays _ (First_id _) => apply stays_First_id
  | |- Stays _ (First_where _ _) => apply stays_First_where
  | |- Stays _ (Find _ _) => apply stays_Find
  | |- Stays _ (Find_unordered _) => apply stays_Find_unordered
  | |- Stays _ (Count _) => apply stays_Count
  | |- Stays (keeps _) (Create _) => apply keeps_Create; apply _
  | |- Stays (keeps _) (Save _) => apply keeps_Save; apply _
  | |- Stays (keeps _) (Update_where _ _) => apply keeps_Update_where; apply _
  | |- Stays (keeps _) (Delete_where _) => apply keeps_Delete_where; apply _
  | |- Stays _ (if ?b then _ else _) => destruct b
  | |- Stays _ (match ?x with _ => _ end) => destruct x
  | |- Stays _ (let _ := _ in _) => cbv zeta
  | |- PreOrder _ => apply _
  | |- Stays _ _ => apply _
  end.
Ltac stays_tac := repeat stays_step.

(** ** Composition *)

Definition both (R1 R2 : relation DB) : relation DB := λ d d', R1 d d' ∧ R2 d d'.

#[export] Instance both_preorder R1 R2 `{!PreOrder R1, !PreOrder R2} : PreOrder (both R1 R2).
Proof.
  split; unfold both; [by intros d|]. intros d1 d2 d3 [? ?] [? ?]. split; by etransitivity.
Qed.

Lemma stays_both {A} R1 R2 (m : M A) : Stays R1 m → Stays R2 m → Stays (both R1 R2) m.
Proof. intros H1 H2 d env w Hw. split; [by apply H1|by apply H2]. Qed.

(** A prefix that respects [R], then the rest of the call. *)
Lemma holds_bind_stays {A B} R (m : M A) (f : A → M B) d Q :
  Stays R m →
  (∀ a d1, R d d1 → holds (f a) d1 Q) →
  (∀ e d1, R d d1 → Q (Err e) d1) → (∀ s d1, R d d1 → Q (Panic s) d1) →
  holds (m ≫= f) d Q.
Proof.
  intros Hm Hf He Hs. apply holds_bind. eapply holds_mono; [apply Hm|].
  intros [a|e|s] d1 H; simpl; auto.
Qed.

Lemma holds_stays_after {A B} R (m : M A) (k : A → DB → Prop) d (Q : Res B → DB → Prop) :
  Stays R m →
  (∀ a d1, R d d1 → k a d1) →
  (∀ e d1, R d d1 → Q (Err e) d1) → (∀ s d1, R d d1 → Q (Panic s) d1) →
  holds m d (after Q k).
Proof.
  intros Hm Hk He Hs. eapply holds_mono; [apply Hm|]. intros [a|e|s] d1 H; simpl; auto.
Qed.

Lemma holds_stays {A} R (m : M A) d (Q : Res A → DB → Prop) :
  Stays R m → (∀ r d1, R d d1 → Q r d1) → holds m d Q.
Proof. intros Hm HQ. eapply holds_mono; [apply Hm|]. auto. Qed.

Lemma stays_mono {A} (R R' : relation DB) (m : M A) :
  (∀ d d', R d d' → R' d d') → Stays R m → Stays R' m.
Proof. intros H Hm d. eapply holds_stays; [exact Hm|]. auto. Qed.

(** A call that only reads respects every preorder. *)
Class ReadOnly {A} (m : M A) : Prop := read_only : Stays eq m.

Lemma read_only_stays {A} R `{!PreOrder R} (m : M A) : ReadOnly m → Stays R m.
Proof. apply stays_mono. by intros d d' <-. Qed.

Lemma rows_NoDup `{!Table R} d : NoDup (key <$> rows (R := R) d).
Proof.
  unfold rows, rows_of. rewrite <- list_fmap_compose.
  assert (∀ l : list (UUID * R), NoDup l.*1 →
    NoDup (key ∘ snd <$> filter (λ kr, key kr.2 = kr.1) l)) as H.
  { induction l as [|[k r] l IH]; intros Hnd; [constructor|]. csimpl in *. inv Hnd.
    rewrite filter_cons. simpl. case_decide as E; [|by apply IH]. csimpl.
    constructor; [|by apply IH]. rewrite E.
    intros Hin. apply list_elem_of_fmap in Hin as ([k' r'] & E' & Hin).
    apply list_elem_of_filter in Hin as [E2 Hin]. simpl in *.
    apply H1. apply list_elem_of_fmap. exists (k', r'). simpl. split; [congruence|done]. }
  apply H, NoDup_fst_map_to_list.
Qed.

Lemma NoDup_filter_rows_ids `{!Table R} (P : R → bool) d :
  NoDup (key <$> List.filter P (rows d)).
Proof.
  pose proof (rows_NoDup (R := R) d) as Hnd. revert Hnd.
  generalize (rows (R := R) d) as l. induction l as [|x l IH]; [done|]. csimpl. intros Hnd.
  inv Hnd. simpl. destruct (P x); [|by apply IH]. csimpl. constructor; [|by apply IH].
  rewrite list_elem_of_fmap. intros (y & E & Hy). apply H1. rewrite E.
  apply list_elem_of_fmap_2. apply list_elem_of_In, filter_In in Hy as [Hy _].
  by apply list_elem_of_In.
Qed.

(** The rows with a given identifier: at most one. *)
Lemma filter_rows_id `{!Table R} (d : DB) (id : UUID) :
  List.filter (λ r : R, bool_decide (key r = id)) (rows d) =
  match row_at d id with Some r => [r] | None => [] end.
Proof.
  pose proof (rows_NoDup (R := R) d) as Hnd.
  assert (∀ r : R, r ∈ rows d ∧ key r = id ↔ row_at d id = Some r) as Hin.
  { intros r. rewrite elem_of_rows. split; [by intros [H <-]|].
    intros H. apply row_at_Some in H as Hr. destruct Hr as [_ <-]. done. }
  revert Hnd Hin. generalize (rows (R := R) d) as l. intros l.
  destruct (row_at d id) as [r|]; intros Hnd Hin.
  - destruct (proj2 (Hin r) eq_refl) as [Hr Hk]. revert Hnd Hin Hr.
    induction l as [|x l IH]; intros Hnd Hin Hr; [by apply elem_of_nil in Hr|].
    csimpl in *. inv Hnd. simpl. case_bool_decide as E.
    + assert (x = r) as -> by (assert (Some r = Some x) as [= ->] by (apply Hin; split; [by left|done]); done).
      f_equal. clear IH Hin Hr. induction l as [|y l IH]; [done|]. simpl. csimpl in *.
      apply not_elem_of_cons in H1 as [Hne ?]. inv H2.
      rewrite bool_decide_eq_false_2 by congruence. by apply IH.
    + apply elem_of_cons in Hr as [->|Hr]; [done|]. apply IH; [done| |done].
      intros r'. split; [intros [? ?]; apply Hin; split; [by right|done]|].
      intros [= <-]. done.
  - clear Hnd. induction l as [|x l IH]; [done|]. simpl. case_bool_decide as E.
    + exfalso. assert (None = Some x) by (apply Hin; split; [by left|done]). done.
    + apply IH. intros r. split; [|done]. intros [? ?]. apply Hin. split; [by right|done].
Qed.

(** The rows but the one with a given identifier. *)
Lemma rows_put {R} `{!Table R} (r : R) d : ∃ l,
  rows (put r d) ≡ₚ r :: l ∧
  rows (R := R) d ≡ₚ match row_at d (key r) with Some old => [old] | None => [] end ++ l.
Proof.
  exists (rows_of key (delete (key r) (tbl d))). unfold rows, rows_of, row_at, put.
  rewrite tbl_set_tbl. split.
  - rewrite <- insert_delete_eq. rewrite map_to_list_insert by apply lookup_delete_eq.
    rewrite filter_cons. simpl. by rewrite decide_True.
  - destruct (tbl d !! key r) as [old|] eqn:E; simpl.
    + rewrite <- (map_to_list_delete _ _ _ E) at 1. rewrite filter_cons. simpl. by case_decide.
    + by rewrite delete_id.
Qed.

(** An UPDATE of several rows: the rows selected are the ones rewritten. *)
Lemma update_rows_at `{!Table R, !AdmitSafe R} env f (l : list R) d d' :
  NoDup (key <$> l) → (∀ r, key (f r) = key r) → update_rows env f l d = Ok d' →
  (∀ r, r ∈ l → ∃ dm r', accept env dm (f r) = Ok r' ∧ row_at d' (key r) = Some r') ∧
  (∀ id, id ∉ key <$> l → row_at (R := R) d' id = row_at d id).
Proof.
  intros Hnd Hk. revert d Hnd. induction l as [|x l IH]; intros d Hnd; simpl.
  - intros [= ->]. split; [by intros r ?%elem_of_nil|done].
  - csimpl in *. inv Hnd. destruct (update_row env x (f x) d) as [d1|e|s] eqn:E; simpl; [|done..].
    intros E2. apply IH in E2 as [Hin Hout]; [|done].
    apply update_row_Ok in E as (r' & Ha & _ & ->).
    assert (key r' = key x) as Hkr by (by rewrite (admit_key _ _ _ _ Ha), Hk). split.
    + intros r [->|Hr]%elem_of_cons; [|by apply Hin].
      exists d, r'. split; [done|]. rewrite Hout, row_at_put, Hkr by done. by rewrite decide_True.
    + intros id Hid. rewrite not_elem_of_cons in Hid. destruct Hid.
      rewrite Hout, row_at_put, Hkr by done. by rewrite decide_False.
Qed.

(** ** Calls that only read *)

(** [reads m d P]: [m] leaves the tables [d] as they are, and a value it returns
    satisfies [P]. *)
Definition reads {A} (m : M A) (d : DB) (P : A → Prop) : Prop :=
  holds m d (λ r d', d' = d ∧ ∀ a, r = Ok a → P a).

Lemma reads_mono {A} (m : M A) d (P Q : A → Prop) :
  reads m d P → (∀ a, P a → Q a) → reads m d Q.
Proof. intros H HQ. eapply holds_mono; [exact H|]. intros r d' [-> Hr]. split; auto. Qed.

Lemma reads_bind {A B} (m : M A) (f : A → M B) d P Q :
  reads m d P → (∀ a, P a → reads (f a) d Q) → reads (m ≫= f) d Q.
Proof.
  intros Hm Hf. apply holds_bind. eapply holds_mono; [exact Hm|].
  intros [a|e|s] d' [-> Ha]; simpl; [by apply Hf, Ha|done..].
Qed.

Lemma reads_ret {A} (a : A) d (P : A → Prop) : P a → reads (mret a) d P.
Proof. intros H. apply holds_ret. split; [done|]. by intros ? [= <-]. Qed.

Lemma reads_fail {A} e d (P : A → Prop) : reads (fail e) d P.
Proof. by apply holds_fail. Qed.

Lemma reads_lift {A} (r : Res A) d (P : A → Prop) : (∀ a, r = Ok a → P a) → reads (lift r) d P.
Proof. intros H. by apply holds_lift. Qed.

Lemma reads_guard b e d P : (b = true → P tt) → reads (guard_or b e) d P.
Proof. destruct b; intros H; [apply reads_ret; auto|apply reads_fail]. Qed.

Lemma reads_map_err {A} f (m : M A) d P : reads m d P → reads (map_err f m) d P.
Proof.
  intros H. apply holds_map_err. eapply holds_mono; [exact H|].
  intros [a|e|s] d' [-> Ha]; split; naive_solver.
Qed.

Lemma reads_uuid d (P : UUID → Prop) : (∀ u, P u) → reads uuid_New d P.
Proof. intros H. apply holds_uuid. naive_solver. Qed.

Lemma reads_query {A} (f : DB → A) d (P : A → Prop) : P (f d) → reads (query f) d P.
Proof. intros H. apply holds_query; naive_solver. Qed.

Lemma reads_Find `{!Table R} less (Pr : R → bool) d (P : list R → Prop) :
  P (sort_by less (List.filter Pr (rows d))) → reads (Find less Pr) d P.
Proof. exact (reads_query (λ d, sort_by less (List.filter Pr (rows d))) d P). Qed.

Lemma reads_ReadOnly {A} (m : M A) d : ReadOnly m → reads m d (λ _, True).
Proof. intros H. eapply holds_stays; [exact H|]. by intros r d1 <-. Qed.

Lemma reads_map_each {A B} (f : A → M B) (P : A → B → Prop) l d :
  (∀ x, x ∈ l → reads (f x) d (P x)) → reads (map_each f l) d (Forall2 P l).
Proof.
  induction l as [|x l IH]; intros H; simpl; [apply reads_ret; constructor|].
  eapply reads_bind; [apply H; by left|]. intros y Hy.
  eapply reads_bind; [apply IH; intros; apply H; by right|]. intros ys Hys.
  apply reads_ret. by constructor.
Qed.

(** ** Tables with a history

    A table whose rows are never lost: each row moves along a relation [Later],
    and rows that satisfy [Fine] only make rows that satisfy it. The rules for
    the statements of such a table. *)

Section history.
Context {T : Type} `{!Table T, !AdmitSafe T} (Later : relation T) `{!PreOrder Later} (Fine : T → Prop).

Definition Kept_rows (d d' : DB) : Prop := ∀ id (r : T),
  row_at d id = Some r → ∃ r', row_at d' id = Some r' ∧ Later r r'.

Definition Fine_rows (d : DB) : Prop := ∀ id (r : T), row_at d id = Some r → Fine r.

Definition HistoryStep (d d' : DB) : Prop := Kept_rows d d' ∧ (Fine_rows d → Fine_rows d').

#[export] Instance HistoryStep_preorder : PreOrder HistoryStep.
Proof.
  split; [split; [intros id r H; by exists r|done]|].
  intros d1 d2 d3 [H1 O1] [H2 O2]. split; [|auto]. intros id r H.
  destruct (H1 id r H) as (r2 & E2 & L2). destruct (H2 id r2 E2) as (r3 & E3 & L3).
  exists r3. split; [done|by etransitivity].
Qed.

Lemma keeps_HistoryStep d d' : keeps (tbl (R := T)) d d' → HistoryStep d d'.
Proof.
  intros E. assert (∀ id, row_at (R := T) d' id = row_at d id) as H.
  { intros id. unfold row_at. by rewrite E. }
  split; [intros id r Hr; exists r; by rewrite H|]. intros Hok id r. rewrite H. apply Hok.
Qed.

(** One stored row: a new one, or a later state of the one that was there. *)
Lemma put_HistoryStep d (r : T) :
  (∀ old, row_at d (key r) = Some old → Later old r) → (Fine_rows d → Fine r) →
  HistoryStep d (put r d).
Proof.
  intros Hold Hok. split.
  - intros id old Hrow. rewrite row_at_put. case_decide as E.
    + subst id. exists r. split; [done|by apply Hold].
    + by exists old.
  - intros H id r'. rewrite row_at_put. case_decide; [|apply H]. intros [= <-]. by apply Hok.
Qed.

Lemma history_leaf {A} (m : M A) : Stays (keeps (tbl (R := T))) m → Stays HistoryStep m.
Proof. apply stays_mono, keeps_HistoryStep. Qed.

(** The schema stores the row it is given. *)
Context (Haccept : ∀ env d (r r' : T), accept env d r = Ok r' → r' = r).

Lemma history_Create (r : T) :
  (∀ env d now, accept env d (stamp now r) = Ok (stamp now r) → Fine (stamp now r)) →
  Stays HistoryStep (Create r).
Proof.
  intros Hok. apply stays_Create; [apply _..|]. intros env t r' d _ Hfree Ha.
  pose proof (Haccept _ _ _ _ Ha) as ->. apply put_HistoryStep.
  - intros old [H _]%row_at_Some. congruence.
  - intros _. by apply (Hok env d t).
Qed.

(** A row saved over the state it was read in. *)
Lemma history_save env d id (before r : T) d' :
  row_at d id = Some before → key r = id → Later before r → (accept env d r = Ok r → Fine before → Fine r) →
  save_row env r d = Ok d' → HistoryStep d d'.
Proof.
  intros Hrow Hk Hlater Hok Hsave. subst id. pose proof Hrow as [Htbl _]%row_at_Some.
  apply (save_row_old _ _ _ _ _ Htbl) in Hsave as (r' & Ha & _ & ->).
  pose proof (Haccept _ _ _ _ Ha) as ->. apply put_HistoryStep.
  - intros old. rewrite Hrow. by intros [= <-].
  - intros H. apply (Hok Ha), (H _ _ Hrow).
Qed.

Lemma history_Update_where P (f : Time → T → T) :
  (∀ now r, P r = true → key (f now r) = key r ∧ Later r (f now r)) →
  (∀ env d now r, P r = true → accept env d (f now r) = Ok (f now r) → Fine r → Fine (f now r)) →
  Stays HistoryStep (Update_where P f).
Proof.
  intros Hlater Hok d. apply holds_Update_where; [reflexivity|]. intros env now d' E.
  assert (∀ r : T, r ∈ List.filter P (rows d) → P r = true) as HP by
    (by intros r [? ?]%elem_of_filter_rows).
  assert (∀ r : T, r ∈ List.filter P (rows d) → row_at d (key r) = Some r) as Hrow by
    (by intros r [? ?]%elem_of_filter_rows).
  pose proof (NoDup_filter_rows_ids P d) as Hnd. revert Hnd HP Hrow E.
  generalize (List.filter P (rows d)) as l. intros l. revert d.
  induction l as [|r l IH]; intros d Hnd HP Hrow; simpl; [by intros [= ->]|].
  destruct (update_row env r (f now r) d) as [d1|e|s] eqn:E1; simpl; [|done..]. intros E2.
  apply update_row_Ok in E1 as (r' & Ha & _ & ->). pose proof (Haccept _ _ _ _ Ha) as ->.
  destruct (Hlater now r (HP r (list_elem_of_here _ _))) as [Hk HL]. csimpl in Hnd. inv Hnd.
  transitivity (put (f now r) d).
  - apply put_HistoryStep.
    + intros old. rewrite Hk, (Hrow r (list_elem_of_here _ _)). by intros [= <-].
    + intros H. eapply Hok; [apply HP; by left|exact Ha|]. apply (H (key r)). apply Hrow. by left.
  - apply IH; [done|intros; apply HP; by right| |done]. intros x Hx. rewrite row_at_put.
    rewrite decide_False; [apply Hrow; by right|]. rewrite Hk. intros E. apply H1. rewrite <- E.
    by apply list_elem_of_fmap_2.
Qed.
End history.
