(* ===== verification/Crypto.v ===== *)
(** * crypto/sha256, encoding/hex, crypto/rand

    The parts of the standard library the authentication domain rests on. The
    hash is the function of FIPS 180-4 on byte sequences; its constants are
    computed from their definition, the fractional parts of square and cube
    roots of the first primes. *)

From Stdlib Require Import Ascii.
From S2P Require Import Prelude Golang Errors Models Store.

(** ** Words of 32 bits *)

Definition word (z : Z) : Z := z mod 2 ^ 32.

(** Addition of words. *)
Definition wsum (l : list Z) : Z := word (sumZ l).

Definition rotr (n x : Z) : Z := Z.lor (Z.shiftr x n) (word (Z.shiftl x (32 - n))).

Definition xor3 (a b c : Z) : Z := Z.lxor (Z.lxor a b) c.

Definition big_sigma0 (x : Z) : Z := xor3 (rotr 2 x) (rotr 13 x) (rotr 22 x).
Definition big_sigma1 (x : Z) : Z := xor3 (rotr 6 x) (rotr 11 x) (rotr 25 x).
Definition small_sigma0 (x : Z) : Z := xor3 (rotr 7 x) (rotr 18 x) (Z.shiftr x 3).
Definition small_sigma1 (x : Z) : Z := xor3 (rotr 17 x) (rotr 19 x) (Z.shiftr x 10).

(** Each bit of [x] chooses between [y] and [z]; each bit of the majority. *)
Definition choose (x y z : Z) : Z := Z.lxor (Z.land x y) (Z.land (2 ^ 32 - 1 - x) z).
Definition majority (x y z : Z) : Z := xor3 (Z.land x y) (Z.land x z) (Z.land y z).

(** ** Constants *)

Definition is_prime (n : nat) : bool :=
  forallb (λ k, negb (Nat.eqb (n mod k) 0)) (seq 2 (n - 2)).

Definition primes (count : nat) : list Z :=
  Z.of_nat <$> take count (List.filter is_prime (seq 2 400)).

(** The integer cube root, bit by bit. *)
Fixpoint cube_root (bit : nat) (n acc : Z) : Z :=
  let acc' := acc + 2 ^ Z.of_nat bit in
  let best := if acc' * acc' * acc' <=? n then acc' else acc in
  match bit with O => best | S b => cube_root b n best end.

Definition initial_hash : list Z :=
  Eval vm_compute in (λ p, word (Z.sqrt (p * 2 ^ 64))) <$> primes 8.

Definition round_constants : list Z :=
  Eval vm_compute in (λ p, word (cube_root 40 (p * 2 ^ 96) 0)) <$> primes 64.

(** ** The compression function *)

(** The message schedule, newest word first: one more word from the last
    sixteen. *)
Definition next_word (ws : list Z) : Z :=
  let at_ n := default 0 (ws !! n) in
  wsum [small_sigma1 (at_ 1%nat); at_ 6%nat; small_sigma0 (at_ 14%nat); at_ 15%nat].

Fixpoint extend (n : nat) (ws : list Z) : list Z :=
  match n with O => ws | S n' => extend n' (next_word ws :: ws) end.

Definition schedule (block : list Z) : list Z := reverse (extend 48 (reverse block)).

Definition one_round (st : list Z) (kw : Z * Z) : list Z :=
  match st with
  | [a; b; c; d; e; f; g; h] =>
      let t1 := wsum [h; big_sigma1 e; choose e f g; kw.1; kw.2] in
      let t2 := wsum [big_sigma0 a; majority a b c] in
      [wsum [t1; t2]; a; b; c; wsum [d; t1]; e; f; g]
  | _ => st
  end.

Definition compress (st block : list Z) : list Z :=
  zip_with (λ x y, wsum [x; y]) st (foldl one_round st (zip round_constants (schedule block))).

(** ** Messages *)

(** [n] bytes of a number, the most significant first. *)
Fixpoint big_endian (n : nat) (z : Z) : list Z :=
  match n with O => [] | S n' => big_endian n' (z / 256) ++ [z mod 256] end.

Definition of_big_endian (l : list Z) : Z := foldl (λ acc b, acc * 256 + b) 0 l.

(** One bit, zeros, and the length in bits, up to a multiple of 64 bytes. *)
Definition pad (m : list Z) : list Z :=
  let n := Z.of_nat (length m) in
  m ++ [128] ++ replicate (Z.to_nat ((55 - n) mod 64)) 0 ++ big_endian 8 (8 * n).

(** The list in pieces of [n]. *)
Fixpoint pieces {A} (fuel n : nat) (l : list A) : list (list A) :=
  match fuel, l with
  | O, _ | _, [] => []
  | S fuel', _ => take n l :: pieces fuel' n (drop n l)
  end.

Definition blocks (m : list Z) : list (list Z) :=
  (λ b, of_big_endian <$> pieces 16 4 b) <$> pieces (length m) 64 m.

(** [sha256.Sum256]. *)
Definition Sum256 (m : list Z) : list Z :=
  foldl compress initial_hash (blocks (pad m)) ≫= big_endian 4.

(** ** encoding/hex *)

Definition bytes_of (s : string) : list Z :=
  (λ c, Z.of_nat (nat_of_ascii c)) <$> String.list_ascii_of_string s.

Definition hex_char (z : Z) : ascii :=
  ascii_of_nat (Z.to_nat (if z <? 10 then 48 + z else 87 + z)).

(** [hex.EncodeToString]. *)
Definition EncodeToString (l : list Z) : string :=
  String.string_of_list_ascii (l ≫= λ b, [hex_char (b / 16); hex_char (b mod 16)]).

(** [hex.EncodeToString] of [sha256.Sum256([]byte(s))]. *)
Definition sha256_hex (s : string) : string := EncodeToString (Sum256 (bytes_of s)).

Example sha256_abc : sha256_hex "abc" =
  "ba7816bf8f01cfea414140de5dae2223b00361a396177a9cb410ff61f20015ad".
Proof. vm_compute. reflexivity. Qed.

Example sha256_two_blocks :
  sha256_hex "abcdbcdecdefdefgefghfghighijhijkijkljklmklmnlmnomnopnopq" =
  "248d6a61d20638b8e5c026930c3e6039a33ce45964ff2167f6ecedd419db06c1".
Proof. vm_compute. reflexivity. Qed.

(** ** crypto/rand *)

(** [rand.Read] into a buffer of [n] bytes. *)
Definition rand_bytes (n : nat) : M (list Z) :=
  l ← rand_Read;
  mret ((λ i, Z.of_N (default 0%N (l !! i)) mod 256) <$> seq 0 n).

(** [rand.Int(rand.Reader, max)] for [max = 2^k] with [k <= 8]: the low bits of
    one byte, which are never out of range. *)
Definition rand_bits (k : Z) : M Z :=
  b ← rand_bytes 1;
  mret (Z.land (default 0 (b !! 0%nat)) (2 ^ k - 1)).

(** A value or an error of a library call. *)
Definition of_sum {A} (r : A + GoError) : Res A :=
  match r with inl a => Ok a | inr e => Err e end.

(** ** crypto/subtle *)

(** [subtle.ConstantTimeCompare(x, y) == 1]. *)
Definition ConstantTimeCompare (x y : string) : bool := bool_decide (x = y).
