(* ===== verification/Token.v ===== *)
(** * auth.TokenService

    [internal/auth/token.go]: signed access tokens, and opaque refresh tokens
    that rotate within a family and are stored hashed. The JWT library is a
    parameter. *)

From Stdlib Require Import SpecFloat.
From S2P Require Import Prelude Golang Crypto Errors Models Store Schema Logic.

(** ** golang-jwt *)

(** [jwt.RegisteredClaims], the fields the code sets. *)
Record RegisteredClaims := MkRegisteredClaims {
  rc_Subject : string;
  rc_IssuedAt : Time;
  rc_ExpiresAt : Time;
}.

(** [jwt.NewNumericDate]: whole seconds. *)
Definition NewNumericDate (t : Time) : Time := t - t mod Second.

(** [SignedString] with HS256, and [ParseWithClaims] with a key function (given
    whether the header names an HMAC method) and a time function; [Some] when it
    returns no error and a valid token. What it signs, with times in whole
    seconds, it accepts with the same key until the expiry; a token is base64url
    text and dots, which has no space around it. *)
Class JwtLibrary := {
  jwt_SignedString : string → RegisteredClaims → string + GoError;
  jwt_ParseWithClaims : (bool → option string) → Time → string → option RegisteredClaims;
  jwt_parse_signed : ∀ (secret token : string) claims keyfunc now,
    jwt_SignedString secret claims = inl token → keyfunc true = Some secret →
    NewNumericDate (rc_IssuedAt claims) = rc_IssuedAt claims →
    NewNumericDate (rc_ExpiresAt claims) = rc_ExpiresAt claims →
    jwt_ParseWithClaims keyfunc now token =
      if Before now (rc_ExpiresAt claims) then Some claims else None;
  jwt_signed_trimmed : ∀ (secret token : string) claims,
    jwt_SignedString secret claims = inl token → TrimSpace token = token;
}.

(** ** The store of refresh tokens *)

Definition hash_is (hash : string) (t : RefreshToken) : bool := bool_decide (rt_TokenHash t = hash).

(** [GormRefreshStore]. *)
Definition FindByHash (hash : string) : M RefreshToken := First_where by_key (hash_is hash).

Definition Create_token (t : RefreshToken) : M RefreshToken := Create t.

Definition Save_token (t : RefreshToken) : M RefreshToken := Save t.

Definition revoke_token (at_ : Time) (t : RefreshToken) : RefreshToken :=
  MkRefreshToken (rt_ID t) (rt_UserID t) (rt_FamilyID t) (rt_TokenHash t) (rt_ExpiresAt t)
    (Some at_) (rt_CreatedAt t).

Definition live_in (family : UUID) (t : RefreshToken) : bool :=
  bool_decide (rt_FamilyID t = family) && is_null (rt_RevokedAt t).

Definition RevokeFamily (family : UUID) (at_ : Time) : M unit :=
  Update_where (live_in family) (λ _, revoke_token at_);; mret tt.

(** ** The service *)

Definition ErrInvalidToken : GoError := EApp (Unauthorized "توکن نامعتبر است.").
Definition ErrTokenExpired : GoError := EApp (Unauthorized "توکن منقضی شده است.").
Definition ErrTokenReused : GoError := EApp (Unauthorized "توکن قبلاً استفاده شده است.").

(** [TokenService], over the real clock. *)
Record TokenService := MkTokenService {
  ts_secret : string;
  ts_accessTTL : Z;
  ts_refreshTTL : Z;
}.

Definition hashToken (token : string) : string := sha256_hex token.

Definition randomHex (nBytes : nat) : M string :=
  buf ← rand_bytes nBytes; mret (EncodeToString buf).

(** [fmt.Errorf("pre: %w", err)]. *)
Definition wrap (pre : string) (e : GoError) : GoError := EWrap (pre +:+ ": ") e "".

Section service.
Context {codec : UuidCodec} {jwt : JwtLibrary} (s : TokenService).

(** The signing key is handed out for HMAC methods only. *)
Definition keyfunc (hmac : bool) : option string := if hmac then Some (ts_secret s) else None.

Definition access_claims (userID : UUID) (now : Time) : RegisteredClaims :=
  MkRegisteredClaims (uuid_String userID) (NewNumericDate now)
    (NewNumericDate (now + ts_accessTTL s)).

(** The token and its expiry. *)
Definition IssueAccessToken (userID : UUID) : M (string * Time) :=
  now ← time_Now;
  signed ← map_err (wrap "sign access token")
    (lift (of_sum (jwt_SignedString (ts_secret s) (access_claims userID now))));
  mret (signed, now + ts_accessTTL s).

Definition ParseAccessToken (token : string) : M UUID :=
  now ← time_Now;
  match jwt_ParseWithClaims keyfunc now token with
  | None => fail ErrInvalidToken
  | Some claims =>
      match uuid_Parse (rc_Subject claims) with
      | None => fail ErrInvalidToken
      | Some id => mret id
      end
  end.

Definition new_token (id userID family : UUID) (raw : string) (now : Time) : RefreshToken :=
  MkRefreshToken id userID family (hashToken raw) (now + ts_refreshTTL s) None now.

Definition IssueRefreshToken (userID : UUID) : M string :=
  raw ← map_err (wrap "generate refresh token") (randomHex 32);
  now ← time_Now;
  id ← uuid_New;
  family ← uuid_New;
  map_err (wrap "store refresh token") (Create_token (new_token id userID family raw now));;
  mret raw.

Record Rotation := MkRotation {
  ro_UserID : UUID;
  ro_AccessToken : string;
  ro_RefreshToken : string;
  ro_ExpiresIn : Z;
}.

(** The part of a rotation that follows the checks on the record. *)
Definition rotate (rec : RefreshToken) (now : Time) : M Rotation :=
  newRaw ← map_err (wrap "generate refresh token") (randomHex 32);
  map_err (wrap "revoke old refresh token") (Save_token (revoke_token now rec));;
  id ← uuid_New;
  map_err (wrap "store new refresh token")
    (Create_token (new_token id (rt_UserID rec) (rt_FamilyID rec) newRaw now));;
  '(access, exp) ← IssueAccessToken (rt_UserID rec);
  now' ← time_Now;
  mret (MkRotation (rt_UserID rec) access newRaw
          (int64_of_float (Duration_Seconds (Time_Sub exp now')))).

Definition RotateRefreshToken (raw : string) : M Rotation :=
  rec ← map_err (λ _, ErrInvalidToken) (FindByHash (hashToken raw));
  now ← time_Now;
  if negb (is_null (rt_RevokedAt rec)) then
    map_err (wrap "revoke family") (RevokeFamily (rt_FamilyID rec) now);;
    fail ErrTokenReused
  else if After now (rt_ExpiresAt rec) then fail ErrTokenExpired
  else rotate rec now.

Definition RevokeFamilyByToken (raw : string) : M unit :=
  r ← attempt (FindByHash (hashToken raw));
  match r with
  | inr e => if errors_Is e gorm_ErrRecordNotFound then mret tt
             else fail (wrap "find refresh token" e)
  | inl rec =>
      now ← time_Now;
      map_err (wrap "revoke family") (RevokeFamily (rt_FamilyID rec) now)
  end.
End service.
