(* ===== verification/Invite.v ===== *)
(** * auth.InviteService

    [internal/auth/invite.go]: one-time invite codes, stored hashed; the newest
    invite of a phone is the authoritative one. *)

From Stdlib Require Import Ascii.
From S2P Require Import Prelude Golang Crypto Errors Models Store Schema Logic Token.

Definition iranianMobile (s : string) : bool := mobile_re s.

Definition ErrInvalidPhone : GoError := EApp (BadRequest "شماره موبایل معتبر نیست.").

Definition inviteValidity : Z := 7 * 24 * Hour.
Definition inviteCodeLength : nat := 8.
Definition inviteCodeAlphabet : string := "ABCDEFGHJKLMNPQRSTUVWXYZ23456789".

Definition ErrInviteInvalid : GoError := EApp (Unauthorized "کد دعوت نامعتبر است.").
Definition ErrInviteExpired : GoError :=
  EApp (Unauthorized "کد دعوت منقضی شده است. از مدیر ساختمان کد جدید بگیرید.").
Definition ErrInvitePhoneMismatch : GoError :=
  EApp (BadRequest "این کد دعوت برای شماره موبایل دیگری صادر شده است.").

(** ** GormInviteStore *)

Definition Create_invite (c : InviteCode) : M InviteCode := Create c.

(** [ORDER BY created_at DESC], then the primary key [First] adds. *)
Definition newest_invite (a b : InviteCode) : bool :=
  (iv_CreatedAt b <? iv_CreatedAt a)
  || ((iv_CreatedAt a =? iv_CreatedAt b) && (iv_ID a <? iv_ID b)%N).

Definition Latest (phone : string) : M InviteCode :=
  First_where newest_invite (λ c, bool_decide (iv_Phone c = phone)).

Definition consume_invite (at_ : Time) (c : InviteCode) : InviteCode :=
  MkInviteCode (iv_ID c) (iv_Phone c) (iv_CodeHash c) (iv_Role c) (iv_CreatedBy c)
    (iv_ExpiresAt c) (Some at_) (iv_CreatedAt c).

Definition unconsumed (id : UUID) (c : InviteCode) : bool :=
  bool_decide (iv_ID c = id) && is_null (iv_ConsumedAt c).

Definition Consume (id : UUID) (at_ : Time) : M unit :=
  n ← Update_where (unconsumed id) (λ _, consume_invite at_);
  if n =? 0 then fail ErrInviteInvalid else mret tt.

(** ** The service *)

Definition hashCode (code : string) : string := sha256_hex code.

(** The letter of the alphabet at an index below its length. *)
Definition alphabet_at (i : Z) : ascii :=
  default zero (String.get (Z.to_nat i) inviteCodeAlphabet).

(** The alphabet has [2^5] characters. *)
Fixpoint randomInviteCode (n : nat) : M string :=
  match n with
  | O => mret ""
  | S n' =>
      idx ← rand_bits 5;
      rest ← randomInviteCode n';
      mret (String (alphabet_at idx) rest)
  end.

Definition Issue_invite (phone role : string) (createdBy : option UUID) : M string :=
  if negb (iranianMobile phone) then fail ErrInvalidPhone else
  code ← map_err (wrap "generate invite code") (randomInviteCode inviteCodeLength);
  now ← time_Now;
  id ← uuid_New;
  map_err (wrap "store invite") (Create_invite
    (MkInviteCode id phone (hashCode code) role createdBy (now + inviteValidity) None now));;
  mret code.

Definition invite_not_found (e : GoError) : GoError :=
  if errors_Is e gorm_ErrRecordNotFound then ErrInviteInvalid else wrap "load invite" e.

(** The role an invite carries. *)
Definition invite_role (c : InviteCode) : string :=
  if bool_decide (iv_Role c = "") then RoleResident else iv_Role c.

Definition Redeem (phone code : string) : M string :=
  if negb (iranianMobile phone) then fail ErrInvalidPhone else
  invite ← map_err invite_not_found (Latest phone);
  now ← time_Now;
  if After now (iv_ExpiresAt invite) then fail ErrInviteExpired else
  if negb (ConstantTimeCompare (iv_CodeHash invite) (hashCode code)) then fail ErrInviteInvalid else
  Consume (iv_ID invite) now;;
  mret (invite_role invite).
