(* ===== verification/Password.v ===== *)
(** * Passwords

    [internal/auth/password.go]: the policy and the bcrypt hash. The Unicode
    tables and the bcrypt package are parameters. *)

From Stdlib Require Import Ascii.
From S2P Require Import Prelude Golang Crypto Errors Models Store.

Definition minimumPasswordLength : Z := 8.

Definition ErrWeakPassword : GoError := EApp (BadRequest "رمز عبور باید حداقل ۸ کاراکتر باشد.").
Definition ErrWrongLogin : GoError :=
  EApp (Unauthorized "شماره موبایل یا رمز عبور نادرست است.").
Definition ErrNoPassword : GoError :=
  EApp (Unauthorized "برای این حساب رمز عبور تنظیم نشده است. ابتدا ثبت‌نام کنید.").

(** ** unicode *)

(** The code points of a UTF-8 text: the bits of the first byte of each
    sequence, then six from each byte that continues it. *)
Fixpoint runes_from (cur : option Z) (l : list Z) : list Z :=
  match l with
  | [] => option_list cur
  | b :: l' =>
      if (128 <=? b) && (b <? 192)
      then runes_from ((λ r, r * 64 + Z.land b 63) <$> cur) l'
      else option_list cur ++
           runes_from (Some (if b <? 128 then b else if b <? 224 then Z.land b 31
                             else if b <? 240 then Z.land b 15 else Z.land b 7)) l'
  end.

Definition runes (s : string) : list Z := runes_from None (bytes_of s).

(** The general categories L and N of the Unicode character database. *)
Class UnicodeTables := {
  unicode_L : Z → bool;
  unicode_N : Z → bool;
  unicode_L_ascii : ∀ r, (65 ≤ r ≤ 90 ∨ 97 ≤ r ≤ 122) → unicode_L r = true;
  unicode_N_ascii : ∀ r, 48 ≤ r ≤ 57 → unicode_N r = true;
}.

(** ** bcrypt *)

(** [GenerateFromPassword] with the salt it draws, and
    [CompareHashAndPassword]: a hash matches the password it was made from, and
    passwords of more than 72 bytes are refused. *)
Class Bcrypt := {
  bcrypt_Generate : list Z → string → string + GoError;
  bcrypt_Compare : string → string → bool;
  bcrypt_Compare_Generate : ∀ salt p h, bcrypt_Generate salt p = inl h → bcrypt_Compare h p = true;
  bcrypt_too_long : ∀ salt p, (72 < String.length p)%nat → ∃ e, bcrypt_Generate salt p = inr e;
}.

Definition hasLetter `{UnicodeTables} (s : string) : bool := existsb unicode_L (runes s).
Definition hasDigit `{UnicodeTables} (s : string) : bool := existsb unicode_N (runes s).

Definition ValidatePassword `{UnicodeTables} (password : string) : Res unit :=
  if (rune_count password <? minimumPasswordLength)
     || negb (hasLetter password) || negb (hasDigit password)
  then Err ErrWeakPassword else Ok tt.

Definition HashPassword `{Bcrypt} (password : string) : M string :=
  salt ← rand_bytes 16;
  lift (of_sum (bcrypt_Generate salt password)).

Definition CheckPassword `{Bcrypt} (hash password : string) : bool := bcrypt_Compare hash password.
