(* ===== verification/AuthUser.v ===== *)
(** * auth.Repository, auth.ScopeResolver and the middleware

    [internal/auth/user.go] and [middleware.go]: the user rows, the scope of a
    user, and the checks in front of a protected route. [DeletedAt] is a plain
    [*time.Time] field, which GORM does not filter on. *)

From S2P Require Import Prelude Golang Errors Models Store Schema Logic Crypto Token.

(** ** auth.Repository *)

Definition FindByID (id : UUID) : M User := First_id id.

Definition FindByPhone (phone : string) : M User :=
  First_where by_key (λ u, bool_decide (us_Phone u = phone)).

Definition Create_user (u : User) : M User := Create u.

Definition CountActive : M Z := Count (R := User) (λ _, true).

Definition with_password (hash : option string) (name : string) (now : Time) (u : User) : User :=
  MkUser (us_ID u) (us_Phone u) hash (us_Role u) name (us_FCMToken u) (us_IsActive u)
    (us_CreatedAt u) now (us_DeletedAt u).

(** [Updates] of a map: the two columns, and [updated_at]. *)
Definition UpdatePassword (u : User) : M unit :=
  Update_where (λ r, bool_decide (us_ID r = us_ID u)) (with_password (us_PasswordHash u) (us_Name u));;
  mret tt.

(** ** auth.ScopeResolver *)

Definition ManagerBuildingIDs (userID : UUID) : M (list UUID) :=
  query (λ d, (λ kv : (UUID * UUID) * UserBuilding, kv.1.2) <$>
    filter (λ kv, kv.1.1 = userID) (map_to_list (db_user_buildings d))).

(** A live person with the phone. *)
Definition person_with_phone (phone : string) (d : DB) (id : UUID) : bool :=
  match row_at (R := Person) d id with
  | Some p => opt_eqb (p_Phone p) (Some phone) && is_null (p_DeletedAt p)
  | None => false
  end.

(** The open occupancies of the persons with a phone. *)
Definition occupied_by (phone : string) (d : DB) : list Occupancy :=
  List.filter (λ o, person_with_phone phone d (o_PersonID o) && is_null (o_EndDate o)) (rows d).

Definition Scope_ResidentUnitIDs (phone : string) : M (list UUID) :=
  query (λ d, remove_dups (o_UnitID <$> occupied_by phone d)).

Definition CanManagerAccessBuilding (userID buildingID : UUID) : M bool :=
  query (λ d, bool_decide (is_Some (db_user_buildings d !! (userID, buildingID)))).

Definition CanResidentAccessUnit (phone : string) (unitID : UUID) : M bool :=
  query (λ d, bool_decide (0 < Z.of_nat (length
    (List.filter (λ o, bool_decide (o_UnitID o = unitID)) (occupied_by phone d))))).

(** ** The middleware *)

Definition msgAuthRequired : string := "احراز هویت لازم است.".

(** [Authenticate]: the user it leaves in the context. *)
Definition Authenticate {codec : UuidCodec} {jwt : JwtLibrary} (tokens : TokenService)
    (header : string) : M User :=
  if negb (HasPrefix header "Bearer ") then fail (EApp (Unauthorized msgAuthRequired)) else
  let raw := TrimSpace (TrimPrefix header "Bearer ") in
  userID ← map_err (λ _, EApp (Unauthorized "توکن نامعتبر یا منقضی شده است."))
             (ParseAccessToken tokens raw);
  user ← map_err (λ _, EApp (Unauthorized "حساب کاربری نامعتبر است.")) (FindByID userID);
  if negb (us_IsActive user) then fail (EApp (Unauthorized "حساب کاربری نامعتبر است."))
  else mret user.

(** [RequireRole] on the user of the context. *)
Definition RequireRole (roles : list string) (user : option User) : M User :=
  match user with
  | None => fail (EApp (Unauthorized msgAuthRequired))
  | Some u =>
      if negb (bool_decide (us_Role u ∈ roles)) then fail (EApp (Forbidden "دسترسی غیرمجاز است."))
      else mret u
  end.
