(* ===== verification/Net.v ===== *)
(** * net/url and time.Format

    The parts of [net/url] and of the layouts of [time.Time.Format] the payment
    domain uses. *)

From Stdlib Require Import Ascii.
From S2P Require Import Prelude Golang.

(** ** net/url *)

(** The bytes [url.QueryEscape] leaves alone. *)
Definition unreserved (c : ascii) : bool :=
  let n := nat_of_ascii c in
  bool_decide (48 ≤ n ≤ 57)%nat || bool_decide (65 ≤ n ≤ 90)%nat
  || bool_decide (97 ≤ n ≤ 122)%nat
  || bool_decide (c ∈ ["-"%char; "_"%char; "."%char; "~"%char]).

Definition hex_digit (n : nat) : ascii :=
  if bool_decide (n < 10)%nat then ascii_of_nat (48 + n) else ascii_of_nat (55 + n).

Definition escape_byte (c : ascii) : string :=
  if unreserved c then String c ""
  else if bool_decide (c = " "%char) then "+"
  else let n := nat_of_ascii c in
    String "%" (String (hex_digit (n / 16)) (String (hex_digit (n mod 16)) "")).

Fixpoint QueryEscape (s : string) : string :=
  match s with
  | EmptyString => EmptyString
  | String c s' => escape_byte c +:+ QueryEscape s'
  end.

(** [url.Values] with one value per key, as [Set] leaves it. *)
Definition Values_Set (k v : string) (q : list (string * string)) : list (string * string) :=
  filter (λ kv, kv.1 ≠ k) q ++ [(k, v)].

Fixpoint join (sep : string) (l : list string) : string :=
  match l with
  | [] => ""
  | [x] => x
  | x :: l' => x +:+ sep +:+ join sep l'
  end.

(** [q.Encode()]: the pairs in the order of their keys. *)
Definition Values_Encode (q : list (string * string)) : string :=
  join "&" ((λ kv, QueryEscape kv.1 +:+ "=" +:+ QueryEscape kv.2)
    <$> sort_by (λ a b, str_lt a.1 b.1) q).

(** An escaped text has none of the characters that structure a URL. *)
Fixpoint has_byte (c : ascii) (s : string) : bool :=
  match s with
  | EmptyString => false
  | String d s' => bool_decide (d = c) || has_byte c s'
  end.

(** ** time.Format *)

(** The month (1 to 12) a day of the year (from 0) falls in. *)
Definition month_of (y yd : Z) : Z :=
  Z.of_nat (length (List.filter (λ m, days_before_month y (Z.of_nat m) <=? yd) (seq 1 12))).

Definition civil (t : Time) : Z * Z * Z :=
  let y := Year t in
  let yd := t / Day - days_before_year y in
  let m := month_of y yd in
  (y, m, yd - days_before_month y m + 1).

Definition second_of_day (t : Time) : Z := t mod Day / Second.

(** The layout [150405]. *)
Definition Format_clock (t : Time) : string :=
  let s := second_of_day t in
  FormatPad 2 (s / 3600) +:+ FormatPad 2 (s / 60 mod 60) +:+ FormatPad 2 (s mod 60).

(** The layout [20060102150405.000000000]. *)
Definition Format_compact (t : Time) : string :=
  let '(y, m, d) := civil t in
  FormatPad 4 y +:+ FormatPad 2 m +:+ FormatPad 2 d +:+ Format_clock t
  +:+ "." +:+ FormatPad 9 (t mod Second).

(** The layout [2006-01-02]. *)
Definition Format_date (t : Time) : string :=
  let '(y, m, d) := civil t in
  FormatPad 4 y +:+ "-" +:+ FormatPad 2 m +:+ "-" +:+ FormatPad 2 d.

Example Format_compact_sample :
  Format_compact (DateUTC 2026 12 31 + 23 * Hour + 5 * Second + 7) = "20261231230005.000000007".
Proof. vm_compute. reflexivity. Qed.

Example Encode_sample :
  Values_Encode [("status", "a b"); ("invoice_id", "ü")] = "invoice_id=%C3%BC&status=a+b".
Proof. vm_compute. reflexivity. Qed.
