(* ===== verification/Gateway.v ===== *)
(** * payment/gateway

    [internal/payment/gateway/gateway.go]: the contract of an online payment
    provider and its two adapters. The provider's HTTP endpoint is a parameter:
    its answers are indexed by the time of the call. *)

From Stdlib Require Import SpecFloat.
From S2P Require Import Prelude Golang Net Errors Models Store Logic.

(** ** The contract *)

Record StartRequest := MkStartRequest {
  sr_AmountToman : Z;
  sr_CallbackURL : string;
  sr_Description : string;
}.

Record StartResult := MkStartResult { sr_PayURL : string; sr_Authority : string }.

Record VerifyResult := MkVerifyResult { vr_OK : bool; vr_RefID : string }.

Definition ErrVerifyFailed : GoError :=
  ESentinel "gateway.ErrVerifyFailed" "gateway: verification failed".
Definition ErrAmountMismatch : GoError :=
  ESentinel "gateway.ErrAmountMismatch" "gateway: amount mismatch".

Class PaymentGateway := {
  gw_Name : string;
  gw_Start : StartRequest → M StartResult;
  gw_Verify : string → Z → M VerifyResult;
}.

(** A provider does not touch the tables. *)
Class GatewayOk `{!PaymentGateway} : Prop := {
  start_reads : ∀ req, ReadOnly (gw_Start req);
  verify_reads : ∀ authority amount, ReadOnly (gw_Verify authority amount);
}.

(** ** Zarinpal *)

(** What [encoding/json] decodes into [any]. *)
Inductive Json :=
  | JNull
  | JBool (b : bool)
  | JNumber (f : spec_float)
  | JString (s : string)
  | JArray (l : list Json)
  | JObject (l : list (string * Json)).

Record zarinpalEnvelope := MkZarinpalEnvelope {
  ze_Data : option (list (string * Json));
  ze_Errors : list (string * Json);
}.

(** A field of a request: text or an [int64]. *)
Inductive PayloadValue := PText (s : string) | PInt (z : Z).

(** The provider's endpoint: the HTTP round trip of [Zarinpal.post], answered
    anew at every call, and the [%v] text of decoded JSON. *)
Class ZarinpalAPI := {
  zp_post : nat → string → list (string * PayloadValue) → Res zarinpalEnvelope;
  zp_text : Json → string;
}.

Record Zarinpal := MkZarinpal { MerchantID : string; Sandbox : bool }.

Definition zarinpal_host (z : Zarinpal) : string :=
  if Sandbox z then "sandbox.zarinpal.com" else "payment.zarinpal.com".

Definition zarinpalRial (toman : Z) : Z := mul64 toman 10.

(** [m[k]] of a decoded object; of a nil one, nothing. *)
Definition json_lookup (k : string) (o : option (list (string * Json))) : option Json :=
  match o with
  | Some l => snd <$> List.find (λ kv, bool_decide (kv.1 = k)) (reverse l)
  | None => None
  end.

(** [x, _ := v.(string)]. *)
Definition as_string (v : option Json) : string :=
  match v with Some (JString s) => s | _ => "" end.

(** [x, _ := v.(float64)]. *)
Definition as_float64 (v : option Json) : spec_float :=
  match v with Some (JNumber f) => f | _ => S754_zero false end.

Section zarinpal.
Context `{!ZarinpalAPI} (z : Zarinpal).

Definition post (url : string) (payload : list (string * PayloadValue)) : M zarinpalEnvelope :=
  λ _ w, (zp_post (w_tick w) url payload, next_tick w).

Definition zarinpal_Start (req : StartRequest) : M StartResult :=
  env ← post ("https://" +:+ zarinpal_host z +:+ "/pg/v4/payment/request.json")
    [("merchant_id", PText (MerchantID z)); ("amount", PInt (zarinpalRial (sr_AmountToman req)));
     ("callback_url", PText (sr_CallbackURL req));
     ("description", PText (sr_Description req))];
  match ze_Errors env, ze_Data env with
  | [], Some data =>
      let authority := as_string (json_lookup "authority" (Some data)) in
      if bool_decide (authority = "")
      then fail (EText ("zarinpal: missing authority: " +:+ zp_text (JObject data))) else
      mret (MkStartResult ("https://" +:+ zarinpal_host z +:+ "/pg/StartPay/" +:+ authority)
              authority)
  | errors, _ => fail (EText ("zarinpal: request rejected: " +:+ zp_text (JObject errors)))
  end.

Definition zarinpal_Verify (authority : string) (amountToman : Z) : M VerifyResult :=
  env ← post ("https://" +:+ zarinpal_host z +:+ "/pg/v4/payment/verify.json")
    [("merchant_id", PText (MerchantID z)); ("amount", PInt (zarinpalRial amountToman));
     ("authority", PText authority)];
  match ze_Errors env with
  | [] =>
      let code := as_float64 (json_lookup "code" (ze_Data env)) in
      let n := int64_of_float code in
      if (n =? 100) || (n =? 101)
      then mret (MkVerifyResult true (as_string (json_lookup "ref_id" (ze_Data env))))
      else fail (EWrap "" ErrVerifyFailed (": code " +:+ zp_text (JNumber code)))
  | errors => fail (EWrap "" ErrVerifyFailed (": " +:+ zp_text (JObject errors)))
  end.

Definition ZarinpalGateway : PaymentGateway :=
  {| gw_Name := "zarinpal"; gw_Start := zarinpal_Start; gw_Verify := zarinpal_Verify |}.
End zarinpal.

Lemma post_reads `{!ZarinpalAPI} url payload : ReadOnly (post url payload).
Proof. by intros d env w <-. Qed.

Lemma Zarinpal_ok `{!ZarinpalAPI} z : @GatewayOk (ZarinpalGateway z).
Proof.
  split; intros; simpl; [unfold zarinpal_Start|unfold zarinpal_Verify];
    (apply stays_bind; [apply _|apply post_reads|intros; stays_tac]).
Qed.

(** ** The mock *)

Definition set_mock (m : Mock) (w : World) : World := MkWorld (w_db w) m (w_tick w).

Definition mock_Start (req : StartRequest) : M StartResult :=
  now ← time_Now;
  let authority := "MOCK-" +:+ Format_compact now in
  let sep := if Contains (sr_CallbackURL req) "?" then "&" else "?" in
  mret (MkStartResult (sr_CallbackURL req +:+ sep +:+ "Authority=" +:+ authority) authority).

(** The switches of the mock: read and reset. *)
Definition mock_switch : M Mock := λ _ w,
  let m := w_mock w in
  (Ok m, if MismatchNext m then set_mock (MkMock (FailNext m) false) w
         else if FailNext m then set_mock (MkMock false (MismatchNext m)) w else w).

Definition mock_Verify (_ : string) (_ : Z) : M VerifyResult :=
  m ← mock_switch;
  if MismatchNext m then fail ErrAmountMismatch
  else if FailNext m then fail ErrVerifyFailed
  else
    now ← time_Now;
    mret (MkVerifyResult true ("MOCKREF-" +:+ Format_clock now)).

Definition MockGateway : PaymentGateway :=
  {| gw_Name := "mock"; gw_Start := mock_Start; gw_Verify := mock_Verify |}.

Lemma mock_switch_reads : ReadOnly mock_switch.
Proof. intros d env w <-. unfold mock_switch. by repeat case_match. Qed.

Lemma Mock_ok : @GatewayOk MockGateway.
Proof.
  split; intros; simpl; [unfold mock_Start|unfold mock_Verify].
  - unfold ReadOnly. stays_tac.
  - apply stays_bind; [apply _|apply mock_switch_reads|intros; stays_tac].
Qed.
