(* ===== verification/Notification.v ===== *)
(** * Notifications and audit

    [internal/notification/notification.go], the guaranteed in-app channel, and
    [internal/audit/audit.go], the append-only trail. *)

From S2P Require Import Prelude Golang Errors Models Store Schema Logic.

(** ** notification.Service *)

(** [PushNotifier]: its result is ignored and it does not touch the store. *)
Class PushNotifier := { Push : UUID → string → string → option GoError }.

Definition NoopNotifier : PushNotifier := {| Push _ _ _ := None |}.

Definition set_read (at_ : Time) (n : Notification) : Notification :=
  MkNotification (nt_ID n) (nt_UserID n) (nt_Type n) (nt_Title n) (nt_Body n) (nt_RefType n)
    (nt_RefID n) true (Some at_) (nt_CreatedAt n).

(** Page and page size as the list endpoints normalise them. *)
Definition normalizePage (page size : Z) : Z * Z :=
  (if page <? 1 then 1 else page, if (size <? 1) || (size >? 100) then 20 else size).

(** [Limit(size).Offset((page - 1) * size)]. *)
Definition page_of {A} (page size : Z) (l : list A) : list A :=
  take (Z.to_nat size) (drop (Z.to_nat (mul64 (sub64 page 1) size)) l).

Section notification.
Context `{!PushNotifier}.

Definition Notification_Create (userID : UUID) (typ title body : string)
    (refType : option string) (refID : option UUID) : M Notification :=
  id ← uuid_New;
  n ← Create (MkNotification id userID typ title (Some body) refType refID false None 0);
  ignore_err (match Push userID title body with Some e => fail e | None => mret tt end);;
  mret n.

Definition Notification_List (userID : UUID) (unreadOnly : bool) (page pageSize : Z)
    : M (list Notification * Z) :=
  let '(page, pageSize) := normalizePage page pageSize in
  let q n := bool_decide (nt_UserID n = userID) && (negb unreadOnly || negb (nt_IsRead n)) in
  total ← Count q;
  items ← Find (λ a b, nt_CreatedAt b <? nt_CreatedAt a) q;
  mret (page_of page pageSize items, total).

Definition MarkRead (userID id : UUID) : M unit :=
  now ← time_Now;
  Update_where (λ n, bool_decide (nt_ID n = id) && bool_decide (nt_UserID n = userID)
                     && negb (nt_IsRead n)) (λ _, set_read now);;
  mret tt.

Definition MarkAllRead (userID : UUID) : M unit :=
  now ← time_Now;
  Update_where (λ n, bool_decide (nt_UserID n = userID) && negb (nt_IsRead n))
    (λ _, set_read now);;
  mret tt.
End notification.

(** ** audit.Service *)

Definition Audit_Append (actorID : option UUID) (action objectType : string)
    (objectID : option UUID) (before after_ : option AuditSnapshot) : M unit :=
  stmt (λ _ now d, Ok (tt, set_audit_logs (db_audit_logs d ++
    [MkAuditLog actorID action objectType objectID before after_ now]) d)).

(** The value a handler left under [audit.object_id]. *)
Inductive CtxObject :=
  | CtxUUID (id : UUID)
  | CtxUUIDPtr (id : option UUID)
  | CtxString (s : string)
  | CtxOther.

(** What [Middleware] reads from the gin context after the handler. *)
Record GinContext := MkGinContext {
  gc_Status : Z;
  gc_User : option User;
  gc_ObjectID : option CtxObject;
  gc_Before : option AuditSnapshot;
  gc_After : option AuditSnapshot;
}.

Section audit.
Context `{!UuidCodec}.

Definition ctx_object_id (v : option CtxObject) : option UUID :=
  match v with
  | Some (CtxUUID id) => Some id
  | Some (CtxUUIDPtr id) => id
  | Some (CtxString s) => uuid_Parse s
  | _ => None
  end.

(** The part of the middleware that runs after [c.Next()]; a failure to append
    is logged, never returned. *)
Definition Audit_Middleware (action objectType : string) (c : GinContext) : M unit :=
  if gc_Status c >=? 400 then mret tt
  else ignore_err (Audit_Append (us_ID <$> gc_User c) action objectType
         (ctx_object_id (gc_ObjectID c)) (gc_Before c) (gc_After c)).
End audit.

Lemma holds_Append actor action ot oid b a d (Q : Res unit → DB → Prop) :
  (∀ e, Q (Err e) d) → (∀ l, Q (Ok tt) (set_audit_logs l d)) →
  holds (Audit_Append actor action ot oid b a) d Q.
Proof. intros He Hok. by apply holds_stmt. Qed.
