(* ===== verification/AuthHandlers.v ===== *)
(** * auth.Handler

    [internal/auth/handlers.go] and [cookies.go]: the endpoints under
    [/api/v1/auth], from the decoded request to the response with its cookies.
    A JSON body is what decoding produced, [None] when it failed; the
    [binding:"required"] tags are modelled. *)

From S2P Require Import Prelude Golang Errors Models Store Schema Logic Notification Crypto Token Invite Password AuthUser.

(** ** Requests and responses *)

(** What the handlers read of a request besides its body; a cookie that is not
    there is [None]. *)
Record Request := MkRequest {
  rq_Authorization : string;
  rq_Client : string;          (** the header X-Hamsa-Client *)
  rq_CSRF : string;            (** the header X-CSRF-Token *)
  rq_RefreshCookie : option string;
  rq_CSRFCookie : option string;
}.

Record Cookie := MkCookie {
  ck_Name : string;
  ck_Value : string;
  ck_MaxAge : Z;
  ck_Path : string;
  ck_Secure : bool;
  ck_HttpOnly : bool;
}.

Inductive Body :=
  | NoBody
  | ErrorBody (e : AppError)
  | SessionBody (access_token : string) (expires_in : Z) (id : UUID) (name role : string)
      (refresh_token : option string)
  | RefreshBody (access_token : string) (expires_in : Z) (refresh_token : option string)
  | InviteBody (code role : string) (expires_in_days : Z)
  | MeBody (id : UUID) (phone name role : string) (buildings units : option (list UUID)).

Record Response := MkResponse {
  rs_Status : Z;
  rs_Cookies : list Cookie;
  rs_Body : Body;
}.

(** Every [httpx.WriteError(c, err); return] of a handler is an error of its
    call here, rendered at the end. *)
Definition handle (m : M Response) : M Response :=
  r ← attempt m;
  match r with
  | inl rs => mret rs
  | inr e => mret (MkResponse (ae_Status (WriteError e)) [] (ErrorBody (WriteError e)))
  end.

Definition internal (msg : string) (_ : GoError) : GoError := EApp (Internal msg).

(** [c.ShouldBindJSON(&req)]. *)
Definition bind_json {A} (required : A → bool) (msg : string) (body : option A) : M A :=
  match body with
  | Some a => if required a then mret a else fail (EApp (BadRequest msg))
  | None => fail (EApp (BadRequest msg))
  end.

Definition present (s : string) : bool := negb (bool_decide (s = "")).

Record credentialsReq := MkCredentialsReq {
  cr_Phone : string;
  cr_Password : string;
  cr_Name : string;
}.

Definition credentials_required (r : credentialsReq) : bool :=
  present (cr_Phone r) && present (cr_Password r).

Record registerReq := MkRegisterReq {
  rr_Credentials : credentialsReq;
  rr_Code : string;
}.

Definition register_required (r : registerReq) : bool :=
  credentials_required (rr_Credentials r) && present (rr_Code r).

Record changePasswordReq := MkChangePasswordReq {
  cp_CurrentPassword : string;
  cp_NewPassword : string;
}.

Record createInviteReq := MkCreateInviteReq {
  cq_Phone : string;
  cq_Role : string;
}.

(** ** Cookies *)

Definition RefreshCookieName : string := "hamsa_refresh".
Definition CSRFCookieName : string := "hamsa_csrf".
Definition ClientWeb : string := "web".
Definition refreshCookiePath : string := "/api/v1/auth".
Definition csrfCookiePath : string := "/".
Definition defaultRefreshTTL : Z := 30 * 24 * Hour.

(** The fields of [Handler] that are not services of this package. *)
Record Handler := MkHandler {
  h_Tokens : TokenService;
  h_Audited : bool;       (** [Auditor != nil] *)
  h_Secure : bool;        (** [Cookies.Secure] *)
}.

(** Errors of the auditor are dropped. *)
Definition audit_append (h : Handler) (actor : UUID) (action objectType : string)
    (objectID : option UUID) (after_ : AuditSnapshot) : M unit :=
  if h_Audited h
  then ignore_err (Audit_Append (Some actor) action objectType objectID None (Some after_))
  else mret tt.

Section handler.
Context {codec : UuidCodec} {jwt : JwtLibrary} {bcrypt : Bcrypt} {unicode : UnicodeTables}.
Context (h : Handler).

Definition refreshCookieMaxAge : Z :=
  let ttl := if ts_refreshTTL (h_Tokens h) >? 0 then ts_refreshTTL (h_Tokens h)
             else defaultRefreshTTL in
  int64_of_float (Duration_Seconds ttl).

(** Without random bytes the CSRF cookie is left out. *)
Definition setSessionCookies (refreshToken : string) : M (list Cookie) :=
  r ← attempt (randomHex 32);
  mret (MkCookie RefreshCookieName refreshToken refreshCookieMaxAge refreshCookiePath (h_Secure h) true
        :: match r with
           | inl csrf => [MkCookie CSRFCookieName csrf refreshCookieMaxAge csrfCookiePath
                            (h_Secure h) false]
           | inr _ => []
           end).

Definition clearSessionCookies : list Cookie :=
  [MkCookie RefreshCookieName "" (-1) refreshCookiePath (h_Secure h) true;
   MkCookie CSRFCookieName "" (-1) csrfCookiePath (h_Secure h) false].

(** The body wins over the cookie; [true] when it is the cookie's. *)
Definition refreshTokenFrom (rq : Request) (body : option string) : string * bool :=
  if present (default "" body) then (default "" body, false)
  else if present (default "" (rq_RefreshCookie rq)) then (default "" (rq_RefreshCookie rq), true)
  else ("", false).

Definition browserClient (rq : Request) : bool := bool_decide (rq_Client rq = ClientWeb).

Definition validCSRF (rq : Request) : bool :=
  match rq_CSRFCookie rq with
  | Some cookie =>
      present cookie && present (rq_CSRF rq) && ConstantTimeCompare cookie (rq_CSRF rq)
  | None => false
  end.

(** ** Sessions *)

Definition err_internal (_ : GoError) : GoError := EApp ErrInternal.

Definition respondSession (rq : Request) (u : User) : M Response :=
  '(access, expiresAt) ← map_err err_internal (IssueAccessToken (h_Tokens h) (us_ID u));
  refresh ← map_err err_internal (IssueRefreshToken (h_Tokens h) (us_ID u));
  audit_append h (us_ID u) "user.login" "user" (Some (us_ID u)) (SnSession (us_Phone u) (us_Role u));;
  cookies ← setSessionCookies refresh;
  now ← time_Now;
  mret (MkResponse 200 cookies (SessionBody access
    (int64_of_float (Duration_Seconds (Time_Sub expiresAt now))) (us_ID u) (us_Name u) (us_Role u)
    (if browserClient rq then None else Some refresh))).

(** The checks of [setup], on the request and on the users there are. *)
Definition setup_checks (body : option credentialsReq) : M credentialsReq :=
  req ← bind_json credentials_required "شماره موبایل و رمز عبور الزامی است." body;
  if negb (iranianMobile (cr_Phone req)) then fail ErrInvalidPhone else
  lift (ValidatePassword (cr_Password req));;
  count ← map_err (internal "خطا در بررسی حساب‌های موجود.") CountActive;
  if count >? 0 then fail (EApp (Conflict
    "حساب مدیریتی قبلاً ساخته شده است. برای ورود از صفحه ورود استفاده کنید."))
  else mret req.

Definition setup_account (req : credentialsReq) : M User :=
  hash ← map_err err_internal (HashPassword (cr_Password req));
  id ← uuid_New;
  map_err (internal "خطا در ساخت حساب مدیریتی.")
    (Create_user (MkUser id (cr_Phone req) (Some hash) RoleSuperAdmin (cr_Name req) None true 0 0 None)).

Definition setup (rq : Request) (body : option credentialsReq) : M Response :=
  req ← setup_checks body;
  u ← setup_account req;
  respondSession rq u.

(** The account a redeemed invite leads to: the existing user of the phone with
    a new password, or a new user with the invite's role. *)
Definition account_of (req : credentialsReq) (role hash : string) : M User :=
  r ← attempt (FindByPhone (cr_Phone req));
  match r with
  | inl u =>
      let u := MkUser (us_ID u) (us_Phone u) (Some hash) (us_Role u)
        (if present (cr_Name req) then cr_Name req else us_Name u) (us_FCMToken u) (us_IsActive u)
        (us_CreatedAt u) (us_UpdatedAt u) (us_DeletedAt u) in
      map_err (internal "خطا در ذخیره رمز عبور.") (UpdatePassword u);;
      mret u
  | inr e =>
      if errors_Is e gorm_ErrRecordNotFound then
        id ← uuid_New;
        map_err (internal "خطا در ثبت‌نام کاربر.")
          (Create_user (MkUser id (cr_Phone req) (Some hash) role (cr_Name req) None true 0 0 None))
      else fail (EApp (Internal "خطا در بازیابی حساب کاربری."))
  end.

Definition register (rq : Request) (body : option registerReq) : M Response :=
  req ← bind_json register_required "شماره موبایل، کد دعوت و رمز عبور الزامی است." body;
  let cred := rr_Credentials req in
  if negb (iranianMobile (cr_Phone cred)) then fail ErrInvalidPhone else
  lift (ValidatePassword (cr_Password cred));;
  role ← Redeem (cr_Phone cred) (rr_Code req);
  hash ← map_err err_internal (HashPassword (cr_Password cred));
  u ← account_of cred role hash;
  respondSession rq u.

Definition login_not_found (e : GoError) : GoError :=
  if errors_Is e gorm_ErrRecordNotFound then ErrWrongLogin
  else EApp (Internal "خطا در بازیابی حساب کاربری.").

(** [u.PasswordHash == nil || !CheckPassword(hash, password)]. *)
Definition password_ok (u : User) (password : string) : bool :=
  match us_PasswordHash u with Some hash => CheckPassword hash password | None => false end.

Definition login (rq : Request) (body : option credentialsReq) : M Response :=
  req ← bind_json credentials_required "شماره موبایل و رمز عبور الزامی است." body;
  if negb (iranianMobile (cr_Phone req)) then fail ErrWrongLogin else
  u ← map_err login_not_found (FindByPhone (cr_Phone req));
  if negb (password_ok u (cr_Password req)) then fail ErrWrongLogin else
  respondSession rq u.

Definition refresh (rq : Request) (body : option string) : M Response :=
  let '(raw, fromCookie) := refreshTokenFrom rq body in
  if negb (present raw) then fail (EApp (Unauthorized "نشستی برای تمدید وجود ندارد.")) else
  if fromCookie && negb (validCSRF rq) then fail (EApp (Forbidden "توکن CSRF نامعتبر است.")) else
  rot ← RotateRefreshToken (h_Tokens h) raw;
  cookies ← setSessionCookies (ro_RefreshToken rot);
  mret (MkResponse 200 cookies (RefreshBody (ro_AccessToken rot) (ro_ExpiresIn rot)
    (if negb fromCookie && negb (browserClient rq) then Some (ro_RefreshToken rot) else None))).

Definition logout (rq : Request) (body : option string) : M Response :=
  let '(raw, fromCookie) := refreshTokenFrom rq body in
  if fromCookie && negb (validCSRF rq) then fail (EApp (Forbidden "توکن CSRF نامعتبر است.")) else
  (if present raw
   then map_err (internal "خطا در خروج از حساب.") (RevokeFamilyByToken raw)
   else mret tt);;
  mret (MkResponse 204 clearSessionCookies NoBody).

(** ** Behind the middleware *)

Definition me (user : option User) : M Response :=
  match user with
  | None => fail (EApp (Unauthorized msgAuthRequired))
  | Some u =>
      let answer b un := MkResponse 200 []
        (MeBody (us_ID u) (us_Phone u) (us_Name u) (us_Role u) b un) in
      if bool_decide (us_Role u = RoleSuperAdmin) then mret (answer (Some []) None)
      else if bool_decide (us_Role u = RoleManager) then
        r ← attempt (ManagerBuildingIDs (us_ID u));
        match r with
        | inl ids => mret (answer (Some ids) None)
        | inr e => if bool_decide (errors_As_PgError e = Some "42P01") then mret (answer (Some []) None)
                   else fail (EApp (Internal "خطا در دریافت ساختمان‌های مجاز."))
        end
      else if bool_decide (us_Role u = RoleResident) then
        r ← attempt (Scope_ResidentUnitIDs (us_Phone u));
        match r with
        | inl ids => mret (answer None (Some ids))
        | inr e => if bool_decide (errors_As_PgError e = Some "42P01") then mret (answer None (Some []))
                   else fail (EApp (Internal "خطا در دریافت واحدهای سکونت."))
        end
      else mret (answer None None)
  end.

Definition changePassword (user : option User) (body : option changePasswordReq) : M Response :=
  match user with
  | None => fail (EApp (Unauthorized msgAuthRequired))
  | Some u =>
      req ← bind_json (λ r, present (cp_CurrentPassword r) && present (cp_NewPassword r))
        "رمز عبور فعلی و رمز جدید الزامی است." body;
      lift (ValidatePassword (cp_NewPassword req));;
      if negb (password_ok u (cp_CurrentPassword req)) then fail ErrWrongLogin else
      hash ← map_err err_internal (HashPassword (cp_NewPassword req));
      map_err (internal "خطا در ذخیره رمز عبور.") (UpdatePassword
        (MkUser (us_ID u) (us_Phone u) (Some hash) (us_Role u) (us_Name u) (us_FCMToken u)
           (us_IsActive u) (us_CreatedAt u) (us_UpdatedAt u) (us_DeletedAt u)));;
      mret (MkResponse 204 [] NoBody)
  end.

(** A nil caller is dereferenced only after the body was read. *)
Definition createInvite (caller : option User) (body : option createInviteReq) : M Response :=
  req ← bind_json (λ r, present (cq_Phone r)) "شماره موبایل الزامی است." body;
  let role := if bool_decide (cq_Role req = "") then RoleResident else cq_Role req in
  if negb (bool_decide (role = RoleResident)) && negb (bool_decide (role = RoleManager))
  then fail (EApp (BadRequest "نقش دعوت نامعتبر است.")) else
  match caller with
  | None => lift (Panic "runtime error: invalid memory address or nil pointer dereference")
  | Some u =>
      code ← Issue_invite (cq_Phone req) role (Some (us_ID u));
      audit_append h (us_ID u) "invite.issued" "invite" None (SnInvite (cq_Phone req) role);;
      mret (MkResponse 201 [] (InviteBody code role 7))
  end.

(** ** The routes *)

(** [Register]: the public endpoints, and those behind [Authenticate]. *)
Inductive AuthCall :=
  | CallSetup (body : option credentialsReq)
  | CallRegister (body : option registerReq)
  | CallLogin (body : option credentialsReq)
  | CallRefresh (body : option string)
  | CallLogout (body : option string)
  | CallMe
  | CallChangePassword (body : option changePasswordReq)
  | CallCreateInvite (body : option createInviteReq).

Definition serve (rq : Request) (call : AuthCall) : M Response :=
  handle match call with
  | CallSetup b => setup rq b
  | CallRegister b => register rq b
  | CallLogin b => login rq b
  | CallRefresh b => refresh rq b
  | CallLogout b => logout rq b
  | CallMe =>
      u ← Authenticate (h_Tokens h) (rq_Authorization rq); me (Some u)
  | CallChangePassword b =>
      u ← Authenticate (h_Tokens h) (rq_Authorization rq); changePassword (Some u) b
  | CallCreateInvite b =>
      u ← Authenticate (h_Tokens h) (rq_Authorization rq);
      u ← RequireRole [RoleManager; RoleSuperAdmin] (Some u);
      createInvite (Some u) b
  end.
End handler.
