(* ===== verification/BillingRepo.v ===== *)
(** * billing.Repository

    [internal/billing/repository.go]: periods, cost items, shares, invoices and
    adjustments, and the reads the calculation needs. *)

From S2P Require Import Prelude Golang Calendar Errors Models Store Schema Logic Notification.

(** ** Periods and cost items *)

Definition CreatePeriod_row (p : BillingPeriod) : M BillingPeriod := Create p.

Definition GetPeriod_row (id : UUID) : M BillingPeriod := First_id id.

Definition ListPeriods_rows (buildingID : UUID) : M (list BillingPeriod) :=
  Find (λ a b, bp_CreatedAt b <? bp_CreatedAt a)
    (λ p, bool_decide (bp_BuildingID p = buildingID)).

Definition SavePeriod (p : BillingPeriod) : M BillingPeriod := Save p.

Definition GetCostItem (id : UUID) : M BCostItem := First_id id.

(** [ORDER BY created_at, id]. *)
Definition created_then_id {R} (created : R → Time) (id : R → UUID) (a b : R) : bool :=
  (created a <? created b) || ((created a =? created b) && (id a <? id b)%N).

Definition ListCostItems (periodID : UUID) : M (list BCostItem) :=
  Find (created_then_id ci_CreatedAt ci_ID) (λ c, bool_decide (ci_PeriodID c = periodID)).

Definition IsManagerOf (userID buildingID : UUID) : M bool :=
  query (λ d, bool_decide (is_Some (db_user_buildings d !! (userID, buildingID)))).

Definition BuildingByID (id : UUID) : M Building :=
  First_where by_key (λ b, bool_decide (b_ID b = id) && is_null (b_DeletedAt b)).

(** Nil slices become empty ones: both are [[]] here. *)
Definition CreateCostItem (ci : BCostItem) : M BCostItem := Create ci.

Definition SaveCostItem (ci : BCostItem) : M BCostItem := Save ci.

Definition DeleteCostItem_row (id : UUID) : M unit :=
  Delete_where (λ _ c, bool_decide (ci_ID c = id));; mret tt.

(** ** Calculation inputs *)

Definition live_unit_of (buildingID : UUID) (u : Unit) : bool :=
  bool_decide (u_BuildingID u = buildingID) && is_null (u_DeletedAt u).

Definition UnitsForBuilding (buildingID : UUID) : M (list Unit) :=
  stmt (λ env _ d,
    Ok (sort_by (λ a b, env_collate env (u_Number a) (u_Number b))
          (List.filter (live_unit_of buildingID) (rows d)), d)).

(** The data points of a unit up to a date, newest first. *)
Definition counts_until (unitID : UUID) (ref : Time) (d : DB) : list OccupantCount :=
  sort_by (λ a b, oc_EffectiveFrom b <? oc_EffectiveFrom a)
    (List.filter (λ c, bool_decide (oc_UnitID c = unitID)
                       && (oc_EffectiveFrom c <=? TruncateDay ref)) (rows d)).

Definition BillingOccupantCountAsOf (unitID : UUID) (ref : Time) : M Z :=
  query (λ d, match counts_until unitID ref d with
              | c :: _ => oc_OccupantCount c
              | [] => 0
              end).

(** ** Calculation output *)

Record InvoiceWithItems := MkInvoiceWithItems {
  iwi_Invoice : Invoice;
  iwi_Items : list InvoiceItem;
}.

(** [cost_item_id IN (SELECT id FROM cost_items WHERE period_id = ?)]. *)
Definition share_of_period (periodID : UUID) (d : DB) (s : CostItemShare) : bool :=
  match row_at (R := BCostItem) d (cs_CostItemID s) with
  | Some c => bool_decide (ci_PeriodID c = periodID)
  | None => false
  end.

Definition with_invoice_id (id : UUID) (i : InvoiceItem) : InvoiceItem :=
  MkInvoiceItem (ii_ID i) id (ii_Kind i) (ii_Title i) (ii_CostItemID i) (ii_Amount i)
    (ii_Method i) (ii_AdjustmentID i) (ii_CreatedAt i).

Definition store_share (s : CostItemShare) : M unit := Create s;; mret tt.

Definition store_item (invoiceID : UUID) (i : InvoiceItem) : M unit :=
  Create (with_invoice_id invoiceID i);; mret tt.

Definition store_invoice (x : InvoiceWithItems) : M unit :=
  Create (iwi_Invoice x);;
  for_each (store_item (inv_ID (iwi_Invoice x))) (iwi_Items x).

Definition delete_calculation (periodID : UUID) : M unit :=
  Delete_where (share_of_period periodID);;
  Delete_where (λ _ i, bool_decide (inv_PeriodID i = periodID));;
  mret tt.

Definition ReplaceCalculation (periodID : UUID) (shares : list CostItemShare)
    (invoices : list InvoiceWithItems) : M unit :=
  Transaction (
    delete_calculation periodID;;
    for_each store_share shares;;
    for_each store_invoice invoices).

Definition DiscardCalculation (periodID : UUID) : M unit :=
  Transaction (delete_calculation periodID).

Definition ListSharesForPeriod (periodID : UUID) : M (list CostItemShare) :=
  query (λ d, List.filter (share_of_period periodID d) (rows d)).

(** ** Invoices *)

Record InvoiceFilter := MkInvoiceFilter {
  if_BuildingID : UUID;
  if_PeriodID : option UUID;
  if_UnitID : option UUID;
  if_Status : string;
  if_Page : Z;
  if_PageSize : Z;
}.

(** An invoice with the read-only columns [unit_number] and [period_title]. *)
Record InvoiceView := MkInvoiceView {
  ivw_Invoice : Invoice;
  ivw_UnitNumber : string;
  ivw_PeriodTitle : string;
}.

Definition view_invoice (d : DB) (inv : Invoice) : InvoiceView :=
  MkInvoiceView inv
    (match row_at (R := Unit) d (inv_UnitID inv) with Some u => u_Number u | None => "" end)
    (match row_at (R := BillingPeriod) d (inv_PeriodID inv) with Some p => bp_Title p | None => "" end).

Definition opt_match {A} `{EqDecision A} (o : option A) (x : A) : bool :=
  match o with Some y => bool_decide (x = y) | None => true end.

Definition invoice_matches (f : InvoiceFilter) (i : Invoice) : bool :=
  bool_decide (inv_BuildingID i = if_BuildingID f)
  && opt_match (if_PeriodID f) (inv_PeriodID i)
  && opt_match (if_UnitID f) (inv_UnitID i)
  && (bool_decide (if_Status f = "") || bool_decide (inv_Status i = if_Status f)).

(** [ORDER BY invoices.created_at DESC, invoices.id]. *)
Definition newest_invoice (a b : Invoice) : bool :=
  (inv_CreatedAt b <? inv_CreatedAt a)
  || ((inv_CreatedAt a =? inv_CreatedAt b) && (inv_ID a <? inv_ID b)%N).

Definition list_invoices (P : Invoice → bool) (page size : Z) : M (list InvoiceView * Z) :=
  total ← Count P;
  let '(page, size) := normalizePage page size in
  out ← query (λ d, view_invoice d <$>
          page_of page size (sort_by newest_invoice (List.filter P (rows d))));
  mret (out, total).

Definition ListInvoices_rows (f : InvoiceFilter) : M (list InvoiceView * Z) :=
  list_invoices (invoice_matches f) (if_Page f) (if_PageSize f).

Definition ListInvoicesForUnits (unitIDs : list UUID) (page size : Z)
    : M (list InvoiceView * Z) :=
  if decide (unitIDs = []) then mret ([], 0)
  else list_invoices (λ i, bool_decide (inv_UnitID i ∈ unitIDs)) page size.

Record InvoiceDetail := MkInvoiceDetail {
  ivd_View : InvoiceView;
  ivd_Items : list InvoiceItem;
  ivd_Adjustments : list InvoiceAdjustment;
}.

Definition GetInvoice (id : UUID) : M InvoiceDetail :=
  v ← stmt (λ _ _ d, match row_at (R := Invoice) d id with
                     | Some inv => Ok (view_invoice d inv, d)
                     | None => Err gorm_ErrRecordNotFound
                     end);
  items ← Find (created_then_id ii_CreatedAt ii_ID) (λ i, bool_decide (ii_InvoiceID i = id));
  adjs ← Find (λ a b, ad_CreatedAt a <? ad_CreatedAt b) (λ a, bool_decide (ad_InvoiceID a = id));
  mret (MkInvoiceDetail v items adjs).

Definition ErrNotCalculable : GoError :=
  ESentinel "billing.ErrNotCalculable" "دوره در وضعیت محاسبه نیست".

(** [fmt.Sprintf("BLD-%d-%04d", year, seq)]. *)
Definition invoice_number (year seq : Z) : string :=
  "BLD-" +:+ FormatInt year +:+ "-" +:+ FormatPad 4 seq.

(** [issue_date] is the date [now.Format("2006-01-02")] in the zone of the server; the
    other columns are the instant. *)
Definition issue_invoice {loc : Location} (number : string) (now : Time) (i : Invoice) : Invoice :=
  MkInvoice (inv_ID i) number (inv_BuildingID i) (inv_PeriodID i) (inv_UnitID i)
    (inv_BaseAmount i) (inv_PriorDebt i) (inv_LateFeeAmount i) (inv_CreditAmount i)
    (inv_FinalAmount i) (Some (local_date now)) (inv_DueDate i) (inv_Status i) (inv_PaidAmount i)
    (Some now) (inv_CreatedAt i) now.

Definition set_period_status (p : BillingPeriod) (status : string) : BillingPeriod :=
  MkBillingPeriod (bp_ID p) (bp_BuildingID p) (bp_Title p) (bp_StartDate p) (bp_EndDate p)
    (bp_DueDate p) (bp_LateFeeType p) (bp_LateFeeValue p) status (bp_CalculatedAt p)
    (bp_IssuedAt p) (bp_ClosedAt p) (bp_CreatedAt p) (bp_UpdatedAt p).

Definition issue_period (now : Time) (p : BillingPeriod) : BillingPeriod :=
  MkBillingPeriod (bp_ID p) (bp_BuildingID p) (bp_Title p) (bp_StartDate p) (bp_EndDate p)
    (bp_DueDate p) (bp_LateFeeType p) (bp_LateFeeValue p) PeriodIssued (bp_CalculatedAt p)
    (Some now) (bp_ClosedAt p) (bp_CreatedAt p) now.

Definition issued_number (buildingID : UUID) (i : Invoice) : bool :=
  bool_decide (inv_BuildingID i = buildingID) && negb (is_draft_number (inv_InvoiceNumber i)).

(** One iteration of the numbering loop. *)
Definition number_draft {loc : Location} (year count : Z) (now : Time) (x : nat * Invoice) : M unit :=
  let '(i, draft) := x in
  let seq := add64 (add64 count (Z.of_nat i)) 1 in
  Update_where (λ inv, bool_decide (inv_ID inv = inv_ID draft))
    (λ _, issue_invoice (invoice_number year seq) now);;
  mret tt.

Definition IssueInvoices {loc : Location} (periodID : UUID) (year : Z) (now : Time) : M (list Invoice) :=
  Transaction (
    p ← GetPeriod_row periodID;
    if negb (bool_decide (bp_Status p = PeriodCalculated)) then fail ErrNotCalculable else
    count ← Count (issued_number (bp_BuildingID p));
    drafts ← Find (λ a b, (inv_UnitID a <? inv_UnitID b)%N)
               (λ i, bool_decide (inv_PeriodID i = periodID));
    for_each (number_draft year count now) (imap pair drafts);;
    Update_where (λ p, bool_decide (bp_ID p = periodID)) (λ _, issue_period now);;
    Find_unordered (λ i, bool_decide (inv_PeriodID i = periodID))).

Definition set_invoice_status (status : string) (now : Time) (i : Invoice) : Invoice :=
  MkInvoice (inv_ID i) (inv_InvoiceNumber i) (inv_BuildingID i) (inv_PeriodID i) (inv_UnitID i)
    (inv_BaseAmount i) (inv_PriorDebt i) (inv_LateFeeAmount i) (inv_CreditAmount i)
    (inv_FinalAmount i) (inv_IssueDate i) (inv_DueDate i) status (inv_PaidAmount i)
    (inv_InputsFrozenAt i) (inv_CreatedAt i) now.

Definition SetInvoiceStatus (id : UUID) (status : string) : M unit :=
  now ← time_Now;
  Update_where (λ i, bool_decide (inv_ID i = id)) (λ _, set_invoice_status status now);;
  mret tt.

Definition with_adjustment_id (id : UUID) (i : InvoiceItem) : InvoiceItem :=
  MkInvoiceItem (ii_ID i) (ii_InvoiceID i) (ii_Kind i) (ii_Title i) (ii_CostItemID i)
    (ii_Amount i) (ii_Method i) (Some id) (ii_CreatedAt i).

Definition CreateAdjustment (adj : InvoiceAdjustment) (item : InvoiceItem)
    : M InvoiceAdjustment :=
  Transaction (
    adj ← Create adj;
    Create (with_adjustment_id (ad_ID adj) item);;
    mret adj).

(** The users whose phone is that of a live person with an open occupancy
    satisfying [P]. *)
Definition occupant_users (P : Occupancy → bool) (d : DB) : list User :=
  List.filter (λ u,
    existsb (λ p, opt_eqb (p_Phone p) (Some (us_Phone u)) && is_null (p_DeletedAt p)
      && existsb (λ o, bool_decide (o_PersonID o = p_ID p) && is_null (o_EndDate o) && P o)
           (rows d))
      (rows d)) (rows d).

Definition BillingOccupantUserIDs (unitIDs : list UUID) : M (list UUID) :=
  if decide (unitIDs = []) then mret [] else
  query (λ d, us_ID <$> List.filter (λ u, is_null (us_DeletedAt u))
          (occupant_users (λ o, bool_decide (o_UnitID o ∈ unitIDs)) d)).
