(* ===== verification/BuildingRepo.v ===== *)
(** * building.Repository

    [internal/building/repository.go] and [occupancy_repository.go]: buildings,
    units, the grants of [user_buildings], persons, occupancies and occupant
    counts. The [DeletedAt] columns are plain [*time.Time] fields, so GORM
    neither filters on them nor turns a delete into an update: every [Delete]
    is a DELETE, and [First] sees the rows whose [deleted_at] is set. *)

From S2P Require Import Prelude Golang Errors Models Store Schema Logic Notification BillingRepo.

(** ** Buildings *)

Definition CreateBuilding_row (b : Building) : M Building := Create b.

Definition FindBuilding (id : UUID) : M Building := First_id id.

Definition is_manager (d : DB) (userID buildingID : UUID) : bool :=
  bool_decide (is_Some (db_user_buildings d !! (userID, buildingID))).

Definition ListBuildingsForManager (userID : UUID) : M (list Building) :=
  query (λ d, sort_by (λ a b, b_CreatedAt b <? b_CreatedAt a)
    (List.filter (λ b, is_manager d userID (b_ID b)) (rows d))).

Definition UpdateBuilding_row (b : Building) : M Building := Save b.

Definition DeleteBuilding_row (id : UUID) : M unit :=
  Delete_where (λ _ b, bool_decide (b_ID b = id));; mret tt.

Definition CountUnits (buildingID : UUID) : M Z := Count (live_unit_of buildingID).

(** The count of the rows with that primary key is positive. *)
Definition CanManagerAccess (userID buildingID : UUID) : M bool :=
  query (λ d, is_manager d userID buildingID).

Definition insert_grant (userID buildingID : UUID) (now : Time) (d : DB) : DB :=
  set_user_buildings
    (<[(userID, buildingID) := MkUserBuilding userID buildingID now]> (db_user_buildings d)) d.

(** [FirstOrCreate]: a SELECT, then an INSERT when it found nothing. *)
Definition GrantManager (userID buildingID : UUID) : M unit :=
  found ← CanManagerAccess userID buildingID;
  if (found : bool) then mret tt else
  stmt (λ _ now d,
    if is_manager d userID buildingID then Err unique_violation
    else Ok (tt, insert_grant userID buildingID now d)).

(** ** Managers of a building *)

Definition ErrManagerAlreadyGranted : GoError :=
  ESentinel "building.ErrManagerAlreadyGranted" "manager already granted".

(** [managerTarget]: the columns of the user the grant flow reads. *)
Record managerTarget := MkManagerTarget {
  mt_ID : UUID;
  mt_Phone : string;
  mt_Name : string;
  mt_Role : string;
}.

Definition target_of (u : User) : managerTarget :=
  MkManagerTarget (us_ID u) (us_Phone u) (us_Name u) (us_Role u).

Definition active_with_phone (phone : string) (u : User) : bool :=
  bool_decide (us_Phone u = phone) && us_IsActive u && is_null (us_DeletedAt u).

(** A [Scan] of no row leaves the zero value; the phone is unique. *)
Definition FindActiveUserByPhone (phone : string) : M managerTarget :=
  t ← query (λ d, match List.filter (active_with_phone phone) (rows d) with
                  | u :: _ => target_of u
                  | [] => MkManagerTarget uuid_Nil "" "" ""
                  end);
  if bool_decide (mt_ID t = uuid_Nil) then fail gorm_ErrRecordNotFound else mret t.

(** A grant joined with its user. *)
Definition manager_view (d : DB) (g : UserBuilding) : option BuildingManager :=
  u ← row_at (R := User) d (ub_UserID g);
  Some (MkBuildingManager (us_ID u) (us_Phone u) (us_Name u) (us_Role u) (ub_GrantedAt g)).

(** The grants of a building, as key and row. *)
Definition grants_of (d : DB) (buildingID : UUID) : list ((UUID * UUID) * UserBuilding) :=
  filter (λ kv, kv.1.2 = buildingID) (map_to_list (db_user_buildings d)).

Definition live_user (d : DB) (id : UUID) : bool :=
  match row_at (R := User) d id with Some u => is_null (us_DeletedAt u) | None => false end.

Definition ListBuildingManagers (buildingID : UUID) : M (list BuildingManager) :=
  query (λ d, omap (manager_view d)
    (sort_by (λ a b, ub_GrantedAt a <? ub_GrantedAt b)
       (List.filter (λ g, live_user d (ub_UserID g)) (grants_of d buildingID).*2))).

Definition ManagerGrantRow (userID buildingID : UUID) : M BuildingManager :=
  m ← query (λ d, match g ← db_user_buildings d !! (userID, buildingID); manager_view d g with
                  | Some m => m
                  | None => MkBuildingManager uuid_Nil "" "" "" 0
                  end);
  if bool_decide (bm_UserID m = uuid_Nil) then fail gorm_ErrRecordNotFound else mret m.

Definition count_managers (d : DB) (buildingID : UUID) : Z :=
  Z.of_nat (length (grants_of d buildingID)).

Definition CountBuildingManagers (buildingID : UUID) : M Z :=
  query (λ d, count_managers d buildingID).

(** [INSERT ... ON CONFLICT DO NOTHING]; the column default stamps the row. *)
Definition InsertManagerGrant (userID buildingID : UUID) : M unit :=
  n ← stmt (λ _ now d,
        if is_manager d userID buildingID then Ok (0, d)
        else Ok (1, insert_grant userID buildingID now d));
  if n =? 0 then fail ErrManagerAlreadyGranted else mret tt.

(** The guarded DELETE. PostgreSQL evaluates its WHERE clause, the sub-select
    included, on the snapshot taken when the statement starts, and deletes the
    rows it found that are still there; alone, both are the same tables. *)
Definition revoke_exec (userID buildingID : UUID) (snapshot current : DB) : Z * DB :=
  if is_manager snapshot userID buildingID && (count_managers snapshot buildingID >? 1)
     && is_manager current userID buildingID
  then (1, set_user_buildings (delete (userID, buildingID) (db_user_buildings current)) current)
  else (0, current).

Definition RevokeManagerGuarded (userID buildingID : UUID) : M (bool * bool) :=
  n ← stmt (λ _ _ d, Ok (revoke_exec userID buildingID d d));
  if n >? 0 then mret (true, false) else
  granted ← CanManagerAccess userID buildingID;
  mret (false, granted).

Definition set_role (role : string) (now : Time) (u : User) : User :=
  MkUser (us_ID u) (us_Phone u) (us_PasswordHash u) role (us_Name u) (us_FCMToken u)
    (us_IsActive u) (us_CreatedAt u) now (us_DeletedAt u).

Definition PromoteResidentToManager (userID : UUID) : M unit :=
  Update_where (λ u, bool_decide (us_ID u = userID) && bool_decide (us_Role u = RoleResident))
    (set_role RoleManager);;
  mret tt.

(** ** Units *)

Definition ErrDuplicateUnitNumber : GoError :=
  ESentinel "building.ErrDuplicateUnitNumber" "duplicate unit number".

Definition pgUniqueViolation : string := "23505".

(** [isUniqueViolation(err)]. *)
Definition isUniqueViolation (e : GoError) : bool :=
  match errors_As_PgError e with
  | Some code => bool_decide (code = pgUniqueViolation)
  | None => false
  end.

Definition mapDup (e : GoError) : GoError :=
  if isUniqueViolation e then ErrDuplicateUnitNumber else e.

Definition CreateUnit_row (u : Unit) : M Unit := map_err mapDup (Create u).

Definition FindUnit (id : UUID) : M Unit := First_id id.

Record UnitFilter := MkUnitFilter {
  uf_Q : string;
  uf_Block : string;
  uf_Floor : option Z;
  uf_Status : string;
  uf_Page : Z;
  uf_Size : Z;
}.

Definition ilike_any (env : Env) (q : string) (cols : list string) : bool :=
  existsb (λ c, env_ilike env c ("%" +:+ q +:+ "%")) cols.

Definition unit_matches (env : Env) (buildingID : UUID) (f : UnitFilter) (u : Unit) : bool :=
  live_unit_of buildingID u
  && (bool_decide (uf_Q f = "")
      || ilike_any env (uf_Q f) [u_Number u; default "" (u_Block u); default "" (u_Notes u)])
  && (bool_decide (uf_Block f = "") || opt_eqb (u_Block u) (Some (uf_Block f)))
  && match uf_Floor f with Some n => u_Floor u =? n | None => true end
  && (bool_decide (uf_Status f = "") || bool_decide (u_Status u = uf_Status f)).

(** A status that is no value of the enum fails the query. *)
Definition units_query (env : Env) (buildingID : UUID) (f : UnitFilter) (d : DB)
    : Res (list Unit) :=
  require (bool_decide (uf_Status f = "") || in_enum (uf_Status f) unit_status) bad_enum ;;
  Ok (List.filter (unit_matches env buildingID f) (rows d)).

Definition ListUnits_rows (buildingID : UUID) (f : UnitFilter) : M (list Unit * Z) :=
  total ← stmt (λ env _ d, l ← units_query env buildingID f d; Ok (Z.of_nat (length l), d));
  let '(page, size) := normalizePage (uf_Page f) (uf_Size f) in
  out ← stmt (λ env _ d, l ← units_query env buildingID f d;
          Ok (page_of page size (sort_by (λ a b, env_collate env (u_Number a) (u_Number b)) l), d));
  mret (out, total).

Definition UpdateUnit_row (u : Unit) : M Unit := map_err mapDup (Save u).

Definition DeleteUnit_row (id : UUID) : M unit :=
  Delete_where (λ _ u, bool_decide (u_ID u = id));; mret tt.

(** ** Persons *)

Definition ErrOccupancyConflict : GoError :=
  ESentinel "building.ErrOccupancyConflict" "occupancy conflict".

Definition CreatePerson_row (p : Person) : M Person := Create p.

Definition FindPerson (id : UUID) : M Person := First_id id.

Definition person_matches (env : Env) (buildingID : UUID) (q : string) (p : Person) : bool :=
  bool_decide (p_BuildingID p = buildingID) && is_null (p_DeletedAt p)
  && (bool_decide (q = "")
      || existsb (λ c, match c with Some s => env_ilike env s ("%" +:+ q +:+ "%") | None => false end)
           [Some (p_FullName p); p_Phone p; p_NationalID p]).

(** GORM's [Limit] and [Offset]: a negative limit and an offset that is not
    positive are left out of the statement. *)
Definition limit_offset {A} (size offset : Z) (l : list A) : list A :=
  let l := drop (Z.to_nat offset) l in
  if size <? 0 then l else take (Z.to_nat size) l.

Definition ListPersons_rows (buildingID : UUID) (q : string) (page size : Z)
    : M (list Person * Z) :=
  total ← stmt (λ env _ d,
    Ok (Z.of_nat (length (List.filter (person_matches env buildingID q) (rows d))), d));
  items ← stmt (λ env _ d,
    Ok (limit_offset size (mul64 (sub64 page 1) size)
          (sort_by (λ a b, p_CreatedAt b <? p_CreatedAt a)
             (List.filter (person_matches env buildingID q) (rows d))), d));
  mret (items, total).

Definition UpdatePerson_row (p : Person) : M Person := Save p.

Definition DeletePerson_row (id : UUID) : M unit :=
  Delete_where (λ _ p, bool_decide (p_ID p = id));; mret tt.

(** ** Occupancies *)

Definition end_dated (end_ : Time) (o : Occupancy) : Occupancy :=
  MkOccupancy (o_ID o) (o_UnitID o) (o_PersonID o) (o_Relationship o) (o_StartDate o)
    (Some end_) false (o_CreatedAt o).

(** [end_date = GREATEST(start_date, ?::date - 1), is_active = FALSE]. *)
Definition close_before (start : Time) (o : Occupancy) : Occupancy :=
  end_dated (Z.max (o_StartDate o) (TruncateDay start - Day)) o.

(** [unit_id = ? AND relationship = ? AND end_date IS NULL]. *)
Definition open_as (unitID : UUID) (relationship : string) (o : Occupancy) : bool :=
  bool_decide (o_UnitID o = unitID) && bool_decide (o_Relationship o = relationship)
  && is_null (o_EndDate o).

Definition occupancy_conflict (e : GoError) : GoError :=
  if isUniqueViolation e then ErrOccupancyConflict else e.

Definition CreateOccupancy (o : Occupancy) : M Occupancy :=
  Transaction (
    Update_where (open_as (o_UnitID o) (o_Relationship o)) (λ _, close_before (o_StartDate o));;
    map_err occupancy_conflict (Create o)).

Definition FindOccupancy (id : UUID) : M Occupancy := First_id id.

(** [ORDER BY start_date DESC, created_at DESC]. *)
Definition newest_occupancy (a b : Occupancy) : bool :=
  (o_StartDate b <? o_StartDate a)
  || ((o_StartDate a =? o_StartDate b) && (o_CreatedAt b <? o_CreatedAt a)).

(** [Preload("Person")] is a second query. *)
Definition ListOccupancies_rows (unitID : UUID) : M (list (Occupancy * option Person)) :=
  items ← Find newest_occupancy (λ o, bool_decide (o_UnitID o = unitID));
  query (λ d, (λ o, (o, row_at (R := Person) d (o_PersonID o))) <$> items).

Definition EndOccupancy_row (id : UUID) (end_ : Time) : M unit :=
  Update_where (λ o, bool_decide (o_ID o = id)) (λ _, end_dated end_);; mret tt.

(** ** Occupant counts *)

Definition RecordOccupantCount_row (oc : OccupantCount) : M OccupantCount := Create oc.

(** [ORDER BY effective_from DESC, created_at DESC]. *)
Definition newest_count (a b : OccupantCount) : bool :=
  (oc_EffectiveFrom b <? oc_EffectiveFrom a)
  || ((oc_EffectiveFrom a =? oc_EffectiveFrom b) && (oc_CreatedAt b <? oc_CreatedAt a)).

Definition ListOccupantCounts_rows (unitID : UUID) : M (list OccupantCount) :=
  Find newest_count (λ c, bool_decide (oc_UnitID c = unitID)).

(** The data points of a unit up to a date. *)
Definition counted_until (unitID : UUID) (ref : Time) (d : DB) : list OccupantCount :=
  List.filter (λ c, bool_decide (oc_UnitID c = unitID)
                    && (oc_EffectiveFrom c <=? TruncateDay ref)) (rows d).

(** No row leaves the zero value. *)
Definition OccupantCountAsOf (unitID : UUID) (ref : Time) : M Z :=
  query (λ d, match sort_by newest_count (counted_until unitID ref d) with
              | c :: _ => oc_OccupantCount c
              | [] => 0
              end).
