(* ===== verification/BuildingService.v ===== *)
(** * building.Service

    [internal/building/service.go]: the registry of buildings and units, the
    managers of a building, the scope check in front of every operation, and
    the validation of the inputs. *)

From S2P Require Import Prelude Golang Errors Models Store Schema Logic Notification BillingRepo BuildingRepo.

Definition msgNameRequired : string := "نام ساختمان الزامی است.".
Definition msgPhoneInvalid : string := "شماره موبایل معتبر نیست.".
Definition msgBuildingNF : string := "ساختمان یافت نشد.".
Definition msgForbidden : string := "دسترسی غیرمجاز است.".
Definition msgUnitNF : string := "واحد یافت نشد.".
Definition msgNumberRequired : string := "شماره واحد الزامی است.".
Definition msgAreaPositive : string := "متراژ واحد باید عددی بزرگ‌تر از صفر باشد.".
Definition msgStatusInvalid : string := "وضعیت واحد معتبر نیست.".
Definition msgFloorNegative : string := "شماره طبقه نمی‌تواند منفی باشد.".
Definition msgDuplicateNumber : string := "شماره واحد در این ساختمان تکراری است.".
Definition msgCountNegative : string := "تعداد نمی‌تواند منفی باشد.".
Definition msgBuiltYear : string := "سال ساخت معتبر نیست.".
Definition msgUserNF : string := "کاربری با این شماره یافت نشد.".
Definition msgSuperadminTarget : string := "نمی‌توان سرپرست ارشد را مدیر ساختمان کرد.".
Definition msgAlreadyManager : string := "این مدیر از قبل دسترسی دارد.".
Definition msgLastManager : string := "حداقل یک مدیر باید برای ساختمان باقی بماند.".
Definition msgSelfRevoke : string := "برای حذف دسترسی خود ابتدا مدیر دیگری معرفی کنید.".
Definition msgGrantNF : string := "این مدیر دسترسی‌ای برای این ساختمان ندارد.".

(** [phoneRe], the expression of [auth.iranianMobile]. *)
Definition phoneRe (s : string) : bool := mobile_re s.

Definition validUnit (s : string) : bool :=
  bool_decide (s ∈ [UnitStatusActive; UnitStatusVacant; UnitStatusOccupied; UnitStatusInactive]).

Definition ErrNoManager : GoError :=
  ESentinel "building.ErrNoManager" "no authenticated manager".

(** A nil [*auth.User] that is dereferenced. *)
Definition deref {A} (p : option A) : M A :=
  match p with
  | Some a => mret a
  | None => lift (Panic "runtime error: invalid memory address or nil pointer dereference")
  end.

(** [WithDetail] on a fresh 400. *)
Definition invalid_field (msg field rule : string) : GoError :=
  EApp (WithDetail (BadRequest msg) field rule).

(** [if v != nil { f = *v }]. *)
Definition or_keep (v : option Z) (old : Z) : Z := default old v.

(** [v != nil && *v < 0]. *)
Definition is_negative (v : option Z) : bool := match v with Some z => z <? 0 | None => false end.

(** [v != nil && *v != "" && !phoneRe.MatchString(v)]. *)
Definition bad_phone (v : option string) : bool :=
  match v with
  | Some s => negb (bool_decide (s = "")) && negb (phoneRe s)
  | None => false
  end.

(** The loop over a map literal of counts: the first negative one met. *)
Definition check_counts `{MapOrder} (counts : list (string * option Z)) : Res unit :=
  match List.find (λ nv, is_negative nv.2) (range_order counts) with
  | Some nv => Err (invalid_field msgCountNegative nv.1 "min_0")
  | None => Ok tt
  end.

(** ** Buildings *)

Record BuildingInput := MkBuildingInput {
  bi_Name : string;
  bi_Address : option string;
  bi_BlockCount : option Z;
  bi_FloorCount : option Z;
  bi_UnitCount : option Z;
  bi_BuiltYear : option Z;
  bi_ManagerPhone : option string;
  bi_EmergencyPhone : option string;
  bi_Notes : option string;
}.

Section inputs.
Context `{!MapOrder}.

Definition applyBuildingInput (b : Building) (i : BuildingInput) : Res Building :=
  let name := TrimSpace (bi_Name i) in
  if bool_decide (name = "") then Err (invalid_field msgNameRequired "name" "required") else
  if bad_phone (bi_ManagerPhone i)
  then Err (invalid_field msgPhoneInvalid "manager_phone" "mobile_format") else
  if bad_phone (bi_EmergencyPhone i)
  then Err (invalid_field msgPhoneInvalid "emergency_phone" "mobile_format") else
  check_counts [("block_count", bi_BlockCount i); ("floor_count", bi_FloorCount i);
                ("unit_count", bi_UnitCount i)] ;;
  if match bi_BuiltYear i with Some y => (y <? 1250) || (y >? 1500) | None => false end
  then Err (invalid_field msgBuiltYear "built_year" "jalali_year") else
  Ok (MkBuilding (b_ID b) name (bi_Address i) (or_keep (bi_BlockCount i) (b_BlockCount b))
        (or_keep (bi_FloorCount i) (b_FloorCount b)) (or_keep (bi_UnitCount i) (b_UnitCount b))
        (bi_BuiltYear i) (bi_ManagerPhone i) (bi_EmergencyPhone i) (bi_Notes i)
        (b_CreatedAt b) (b_UpdatedAt b) (b_DeletedAt b)).

(** ** Units *)

Record UnitInput := MkUnitInput {
  ui_Number : string;
  ui_Block : option string;
  ui_Floor : option Z;
  ui_AreaM2 : option Z;
  ui_ParkingCount : option Z;
  ui_ParkingNumbers : option string;
  ui_StorageCount : option Z;
  ui_StorageNumbers : option string;
  ui_Status : option string;
  ui_Notes : option string;
}.

Definition applyUnitInput (u : Unit) (i : UnitInput) : Res Unit :=
  let number := TrimSpace (ui_Number i) in
  if bool_decide (number = "") then Err (invalid_field msgNumberRequired "number" "required") else
  if match ui_AreaM2 i with None => u_AreaM2 u =? 0 | Some a => a <=? 0 end
  then Err (invalid_field msgAreaPositive "area_m2" "gt_0") else
  if is_negative (ui_Floor i) then Err (invalid_field msgFloorNegative "floor" "min_0") else
  status ← match ui_Status i with
           | None => Ok (u_Status u)
           | Some s => if validUnit s then Ok s
                       else Err (invalid_field msgStatusInvalid "status" "invalid_enum")
           end;
  check_counts [("parking_count", ui_ParkingCount i); ("storage_count", ui_StorageCount i)] ;;
  Ok (MkUnit (u_ID u) (u_BuildingID u) number (ui_Block i) (or_keep (ui_Floor i) (u_Floor u))
        (or_keep (ui_AreaM2 i) (u_AreaM2 u)) (or_keep (ui_ParkingCount i) (u_ParkingCount u))
        (ui_ParkingNumbers i) (or_keep (ui_StorageCount i) (u_StorageCount u))
        (ui_StorageNumbers i) status (ui_Notes i) (u_CreatedAt u) (u_UpdatedAt u) (u_DeletedAt u)).
End inputs.

(** ** The scope of a manager *)

Definition authorizedBuilding (manager : option User) (id : UUID) : M Building :=
  match manager with
  | None => fail ErrNoManager
  | Some m =>
      b ← map_err (not_found_as msgBuildingNF) (FindBuilding id);
      ok ← CanManagerAccess (us_ID m) (b_ID b);
      if negb ok then fail (EApp (Forbidden msgForbidden)) else mret b
  end.

Definition authorizedUnit (manager : option User) (id : UUID) : M Unit :=
  match manager with
  | None => fail ErrNoManager
  | Some m =>
      u ← map_err (not_found_as msgUnitNF) (FindUnit id);
      ok ← CanManagerAccess (us_ID m) (u_BuildingID u);
      if negb ok then fail (EApp (Forbidden msgForbidden)) else mret u
  end.

(** A duplicate live number is a 409. *)
Definition duplicate_number (e : GoError) : GoError :=
  if errors_Is e ErrDuplicateUnitNumber
  then EApp (WithDetail (Conflict msgDuplicateNumber) "number" "unique_per_building") else e.

Section service.
Context `{!MapOrder}.

Definition CreateBuilding (manager : option User) (i : BuildingInput) : M Building :=
  id ← uuid_New;
  b ← lift (applyBuildingInput (MkBuilding id "" None 0 0 0 None None None None 0 0 None) i);
  b ← CreateBuilding_row b;
  m ← deref manager;
  GrantManager (us_ID m) (b_ID b);;
  mret b.

(** The building after and before. *)
Definition UpdateBuilding (manager : option User) (id : UUID) (i : BuildingInput)
    : M (Building * Building) :=
  before ← authorizedBuilding manager id;
  after_ ← lift (applyBuildingInput before i);
  after_ ← UpdateBuilding_row after_;
  mret (after_, before).

Definition GetBuilding (manager : option User) (id : UUID) : M Building :=
  authorizedBuilding manager id.

Definition ListBuildings (manager : option User) : M (list Building) :=
  m ← deref manager;
  ListBuildingsForManager (us_ID m).

Definition DeleteBuilding (manager : option User) (id : UUID) : M unit :=
  authorizedBuilding manager id;;
  DeleteBuilding_row id.

(** ** Managers of a building *)

Definition ListManagers (manager : option User) (buildingID : UUID) : M (list BuildingManager) :=
  authorizedBuilding manager buildingID;;
  ListBuildingManagers buildingID.

Definition already_manager (e : GoError) : GoError :=
  if errors_Is e ErrManagerAlreadyGranted then EApp (Conflict msgAlreadyManager) else e.

Definition GrantManagerByPhone (manager : option User) (buildingID : UUID) (phone : string)
    : M BuildingManager :=
  authorizedBuilding manager buildingID;;
  if negb (phoneRe phone) then fail (EApp (BadRequest msgPhoneInvalid)) else
  target ← map_err (not_found_as msgUserNF) (FindActiveUserByPhone phone);
  if bool_decide (mt_Role target = RoleSuperAdmin)
  then fail (EApp (BadRequest msgSuperadminTarget)) else
  map_err already_manager (InsertManagerGrant (mt_ID target) buildingID);;
  (if bool_decide (mt_Role target = RoleResident)
   then PromoteResidentToManager (mt_ID target) else mret tt);;
  ManagerGrantRow (mt_ID target) buildingID.

(** What the outcome of the guarded DELETE means. *)
Definition revoke_answer (r : bool * bool) : M unit :=
  match r with
  | (true, _) => mret tt
  | (false, true) => fail (EApp (Conflict msgLastManager))
  | (false, false) => fail (EApp (NotFound msgGrantNF))
  end.

(** The checks in front of the DELETE. *)
Definition revoke_checks (manager : option User) (buildingID userID : UUID) : M unit :=
  authorizedBuilding manager buildingID;;
  granted ← CanManagerAccess userID buildingID;
  if negb granted then fail (EApp (NotFound msgGrantNF)) else
  count ← CountBuildingManagers buildingID;
  if count <=? 1 then fail (EApp (Conflict msgLastManager)) else
  m ← deref manager;
  if bool_decide (userID = us_ID m) then fail (EApp (BadRequest msgSelfRevoke)) else mret tt.

Definition RevokeManager (manager : option User) (buildingID userID : UUID) : M unit :=
  revoke_checks manager buildingID userID;;
  r ← RevokeManagerGuarded userID buildingID;
  revoke_answer r.

(** ** Units of a building *)

Definition CreateUnit (manager : option User) (buildingID : UUID) (i : UnitInput) : M Unit :=
  authorizedBuilding manager buildingID;;
  id ← uuid_New;
  u ← lift (applyUnitInput
    (MkUnit id buildingID "" None 0 0 0 None 0 None "" None 0 0 None) i);
  map_err duplicate_number (CreateUnit_row u).

Definition UpdateUnit (manager : option User) (id : UUID) (i : UnitInput) : M (Unit * Unit) :=
  before ← authorizedUnit manager id;
  after_ ← lift (applyUnitInput before i);
  after_ ← map_err duplicate_number (UpdateUnit_row after_);
  mret (after_, before).

Definition GetUnit (manager : option User) (id : UUID) : M Unit := authorizedUnit manager id.

Definition ListUnits (manager : option User) (buildingID : UUID) (f : UnitFilter)
    : M (list Unit * Z) :=
  authorizedBuilding manager buildingID;;
  ListUnits_rows buildingID f.

Definition DeleteUnit (manager : option User) (id : UUID) : M unit :=
  authorizedUnit manager id;;
  DeleteUnit_row id.
End service.
