(* ===== verification/Occupancy.v ===== *)
(** * building.Service: people, occupancies, occupant counts

    [internal/building/occupancy_service.go]: the national-id check, persons,
    the dated links between persons and units, and the occupant counts. *)

From Stdlib Require Import Ascii.
From S2P Require Import Prelude Golang Errors Models Store Schema Logic Notification BillingRepo BuildingRepo BuildingService.

Definition msgPersonNameRequired : string := "نام شخص الزامی است.".
Definition msgNationalIDInvalid : string := "کد ملی معتبر نیست.".
Definition msgPersonNotFound : string := "شخص یافت نشد.".
Definition msgRelInvalid : string := "نسبت ساکن معتبر نیست.".
Definition msgOccDatesInvalid : string := "تاریخ پایان نمی‌تواند قبل از تاریخ شروع باشد.".
Definition msgDateRequired : string := "تاریخ الزامی است.".
Definition msgOccNotFound : string := "سابقه سکونت یافت نشد.".
Definition msgOccAlreadyEnded : string := "این سابقه سکونت قبلاً پایان یافته است.".
Definition msgOccConflict : string := "تغییر ساکن با وضعیت فعلی واحد هم‌خوانی ندارد.".
Definition msgCountInvalid : string := "تعداد ساکن نمی‌تواند منفی باشد.".

Definition validRelationship (s : string) : bool :=
  bool_decide (s ∈ [RelOwner; RelTenant; RelNonResidentOwner]).

(** ** The national id *)

(** [int(id[i] - '0')]: the subtraction is one of bytes. *)
Definition digit_of (c : ascii) : Z := (Z.of_nat (nat_of_ascii c) - 48) mod 256.

(** The loop over the first nine bytes: the weighted sum from a weight down,
    or nothing when a byte is no digit. *)
Fixpoint weighted_sum (w : Z) (l : list ascii) : option Z :=
  match l with
  | [] => Some 0
  | c :: l' =>
      if digit_of c >? 9 then None else
      s ← weighted_sum (w - 1) l'; Some (digit_of c * w + s)
  end.

(** The bytes are compared where the code compares runes: an id with a byte
    that is not ASCII is refused either way. *)
Definition nationalIDValid (id : string) : bool :=
  match String.list_ascii_of_string id with
  | (c :: rest) as l =>
      if negb (bool_decide (String.length id = 10%nat)) then false else
      if forallb (λ x, bool_decide (x = c)) rest then false else
      match weighted_sum 10 (take 9 l), l !! 9%nat with
      | Some sum, Some k =>
          let last := digit_of k in
          if last >? 9 then false else
          let r := sum mod 11 in
          ((r <? 2) && (last =? r)) || ((r >=? 2) && (last =? 11 - r))
      | _, _ => false
      end
  | [] => false
  end.

Example nationalIDValid_samples :
  nationalIDValid "0499370899" = true ∧ nationalIDValid "0499370898" = false
  ∧ nationalIDValid "1111111111" = false ∧ nationalIDValid "049937089" = false.
Proof. repeat split; vm_compute; reflexivity. Qed.

(** ** Persons *)

Record PersonInput := MkPersonInput {
  pi_FullName : string;
  pi_Phone : option string;
  pi_NationalID : option string;
}.

Definition applyPersonInput (p : Person) (i : PersonInput) : Res Person :=
  let name := TrimSpace (pi_FullName i) in
  if bool_decide (name = "") then Err (invalid_field msgPersonNameRequired "full_name" "required") else
  if bad_phone (pi_Phone i) then Err (invalid_field msgPhoneInvalid "phone" "mobile_format") else
  nationalID ← match pi_NationalID i with
               | None => Ok None
               | Some s =>
                   let s := TrimSpace s in
                   if bool_decide (s = "") then Ok None
                   else if nationalIDValid s then Ok (Some s)
                   else Err (invalid_field msgNationalIDInvalid "national_id" "checksum")
               end;
  Ok (MkPerson (p_ID p) (p_BuildingID p) name (pi_Phone i) nationalID (p_CreatedAt p)
        (p_UpdatedAt p) (p_DeletedAt p)).

Definition CreatePerson (manager : option User) (buildingID : UUID) (i : PersonInput) : M Person :=
  authorizedBuilding manager buildingID;;
  id ← uuid_New;
  p ← lift (applyPersonInput (MkPerson id buildingID "" None None 0 0 None) i);
  CreatePerson_row p.

Definition authorizedPerson (manager : option User) (id : UUID) : M Person :=
  match manager with
  | None => fail ErrNoManager
  | Some m =>
      p ← map_err (not_found_as msgPersonNotFound) (FindPerson id);
      ok ← CanManagerAccess (us_ID m) (p_BuildingID p);
      if negb ok then fail (EApp (Forbidden msgForbidden)) else mret p
  end.

(** The person after and before. *)
Definition UpdatePerson (manager : option User) (id : UUID) (i : PersonInput)
    : M (Person * Person) :=
  before ← authorizedPerson manager id;
  after_ ← lift (applyPersonInput before i);
  after_ ← UpdatePerson_row after_;
  mret (after_, before).

Definition ListPersons (manager : option User) (buildingID : UUID) (q : string) (page size : Z)
    : M (list Person * Z) :=
  authorizedBuilding manager buildingID;;
  ListPersons_rows buildingID q page size.

Definition DeletePerson (manager : option User) (id : UUID) : M unit :=
  authorizedPerson manager id;;
  DeletePerson_row id.

(** ** Occupancies *)

Record OccupancyInput := MkOccupancyInput {
  oin_PersonID : UUID;
  oin_Relationship : string;
  oin_StartDate : Time;
  oin_EndDate : option Time;
}.

Definition occupancy_refused (e : GoError) : GoError :=
  if errors_Is e ErrOccupancyConflict
  then EApp (WithDetail (Conflict msgOccConflict) "relationship" "one_active_per_unit") else e.

(** The checks on the dates and the relationship. *)
Definition occupancy_input_ok (i : OccupancyInput) : Res unit :=
  if negb (validRelationship (oin_Relationship i))
  then Err (invalid_field msgRelInvalid "relationship" "invalid_enum") else
  if IsZero (oin_StartDate i) then Err (invalid_field msgDateRequired "start_date" "required") else
  if match oin_EndDate i with Some e => Before e (oin_StartDate i) | None => false end
  then Err (invalid_field msgOccDatesInvalid "end_date" "gte_start_date") else Ok tt.

Definition new_occupancy (id unitID : UUID) (i : OccupancyInput) : Occupancy :=
  MkOccupancy id unitID (oin_PersonID i) (oin_Relationship i) (oin_StartDate i)
    (oin_EndDate i) true 0.

Definition AddOccupancy (manager : option User) (unitID : UUID) (i : OccupancyInput)
    : M Occupancy :=
  u ← authorizedUnit manager unitID;
  lift (occupancy_input_ok i);;
  p ← authorizedPerson manager (oin_PersonID i);
  if negb (bool_decide (p_BuildingID p = u_BuildingID u))
  then fail (invalid_field msgRelInvalid "person_id" "wrong_building") else
  id ← uuid_New;
  map_err occupancy_refused (CreateOccupancy (new_occupancy id unitID i)).

Definition ListOccupancies (manager : option User) (unitID : UUID)
    : M (list (Occupancy * option Person)) :=
  authorizedUnit manager unitID;;
  ListOccupancies_rows unitID.

Definition EndOccupancy (manager : option User) (id : UUID) (end_ : Time) : M Occupancy :=
  o ← map_err (not_found_as msgOccNotFound) (FindOccupancy id);
  authorizedUnit manager (o_UnitID o);;
  if negb (is_null (o_EndDate o))
  then fail (EApp (WithDetail (Conflict msgOccAlreadyEnded) "end_date" "already_set")) else
  if IsZero end_ then fail (invalid_field msgDateRequired "end_date" "required") else
  if Before end_ (o_StartDate o)
  then fail (invalid_field msgOccDatesInvalid "end_date" "gte_start_date") else
  EndOccupancy_row id end_;;
  mret (end_dated end_ o).

(** ** Occupant counts *)

Definition RecordOccupantCount (manager : option User) (unitID : UUID) (count : Z)
    (effectiveFrom : Time) : M OccupantCount :=
  authorizedUnit manager unitID;;
  if count <? 0 then fail (invalid_field msgCountInvalid "occupant_count" "min_0") else
  if IsZero effectiveFrom
  then fail (invalid_field msgDateRequired "effective_from" "required") else
  id ← uuid_New;
  RecordOccupantCount_row (MkOccupantCount id unitID count effectiveFrom 0).

Definition ListOccupantCounts (manager : option User) (unitID : UUID) : M (list OccupantCount) :=
  authorizedUnit manager unitID;;
  ListOccupantCounts_rows unitID.

Definition Service_OccupantCountAsOf (unitID : UUID) (ref : Time) : M Z :=
  OccupantCountAsOf unitID ref.
