(* ===== verification/Calc.v ===== *)
(** * billing.CalcService

    [internal/billing/calc_service.go] and the wire and engine conversions of
    [internal/billing/models.go]: snapshot of the inputs, one run of the engine
    per cost item, one draft invoice per unit, one transaction. *)

From Stdlib Require Import SpecFloat Ascii.
From S2P Require Import Prelude Golang Errors Engine LateFee Models Store Schema Logic Notification BillingRepo.

(** ** Conversions *)

Definition engineLateFeeType (s : string) : string :=
  if decide (s = "fixed") then LateFeeFixed
  else if decide (s = "percent") then LateFeePercent
  else if decide (s = "per_day") then LateFeePerDay
  else LateFeeNone.

Definition exactShareString (r : Q) : string := FloatString 4 r.

(** Engine failures become a 400 with the message up to its first colon; any
    other error passes. *)
Definition engineError (err : GoError) : GoError :=
  if errors_Is err ErrNoParticipants || errors_Is err ErrZeroFactor
     || errors_Is err ErrSpecificUnitsEmpty || errors_Is err ErrBadWeights
     || errors_Is err ErrNonPositiveTotal || errors_Is err ErrUnknownMethod
     || errors_Is err ErrUnknownLateFee
  then EApp (BadRequest (before_colon (Error err)))
  else err.

Definition lateFeeTitle (kind : string) : string :=
  if decide (kind = "fixed") then "دیرکرد (مبلغ ثابت)"
  else if decide (kind = "percent") then "دیرکرد (درصدی)"
  else if decide (kind = "per_day") then "دیرکرد (روزانه)"
  else "دیرکرد".

Definition msgPeriodNotFound : string := "دوره صدور صورتحساب یافت نشد".
Definition msgNoBuildingAccess : string := "شما به این ساختمان دسترسی ندارید".

(** The financial position of a unit when an invoice is drafted. *)
Class BalanceProvider := { Snapshot_of : UUID → M (Money * Money) }.

Definition ZeroBalanceProvider : BalanceProvider := {| Snapshot_of _ := mret (0, 0) |}.

(** [strings.ReplaceAll(s, "-", "")]. *)
Fixpoint remove_dashes (s : string) : string :=
  match s with
  | EmptyString => EmptyString
  | String c s' =>
      if bool_decide (c = "-"%char) then remove_dashes s' else String c (remove_dashes s')
  end.

(** ** Payload *)

Record PreviewShare := MkPreviewShare {
  ps_UnitID : UUID;
  ps_UnitNumber : string;
  ps_ExactShare : string;
  ps_RoundedShare : Money;
  ps_Inputs : option Inputs;
}.

Record PreviewItem := MkPreviewItem {
  pi_CostItem : BCostItem;
  pi_TotalUsed : Money;
  pi_Shares : list PreviewShare;
  pi_Reconciled : bool;
}.

Record Preview := MkPreview {
  pv_Period : BillingPeriod;
  pv_Items : list PreviewItem;
  pv_Invoices : list InvoiceView;
  pv_Reconciled : bool;
}.

(** A unit's snapshot for the engine. *)
Record buildingUnit := MkBuildingUnit { bu_unit : Unit; bu_occupants : Z }.

(** One cost item's rounded share awaiting invoice composition. *)
Record chargeLine := MkChargeLine {
  cl_title : string;
  cl_itemID : UUID;
  cl_method : string;
  cl_amount : Money;
}.

Definition is_vacant (u : Unit) : bool := bool_decide (u_Status u = UnitStatusVacant).

(** ** Preview *)

(** Fixed items reconcile against the per-unit amount times their share rows. *)
Definition preview_target (item : BCostItem) (n : nat) : Z :=
  match ci_FixedAmountPerUnit item with
  | Some amount =>
      if decide (ci_Method item = "fixed") then mul64 amount (Z.of_nat n)
      else ci_TotalAmount item
  | None => ci_TotalAmount item
  end.

Definition unit_number (units : list Unit) (id : UUID) : string :=
  match List.find (λ u, bool_decide (u_ID u = id)) units with
  | Some u => u_Number u
  | None => ""
  end.

Definition preview_item (units : list Unit) (shares : list CostItemShare) (item : BCostItem)
    : PreviewItem :=
  let its := List.filter (λ s, bool_decide (cs_CostItemID s = ci_ID item)) shares in
  let sum := sum64 (cs_RoundedShare <$> its) in
  let target := preview_target item (length its) in
  MkPreviewItem item target
    ((λ s, MkPreviewShare (cs_UnitID s) (unit_number units (cs_UnitID s)) (cs_ExactShare s)
             (cs_RoundedShare s) (cs_InputsSnapshot s)) <$> its)
    (sum =? target).

Definition CalcAuthorizedPeriod (manager : User) (id : UUID) : M BillingPeriod :=
  p ← map_err (not_found_as msgPeriodNotFound) (GetPeriod_row id);
  ok ← IsManagerOf (us_ID manager) (bp_BuildingID p);
  if negb ok then fail (EApp (Forbidden msgNoBuildingAccess)) else mret p.

Definition Preview_period (manager : User) (periodID : UUID) : M Preview :=
  period ← CalcAuthorizedPeriod manager periodID;
  items ← ListCostItems periodID;
  shares ← ListSharesForPeriod periodID;
  '(invoices, _) ← ListInvoices_rows
    (MkInvoiceFilter (bp_BuildingID period) (Some periodID) None "" 1 100);
  units ← UnitsForBuilding (bp_BuildingID period);
  let its := preview_item units shares <$> items in
  mret (MkPreview period its invoices (forallb pi_Reconciled its)).

Section calc.
Context `{!UuidCodec} `{!BalanceProvider}.

Definition engineItem (item : BCostItem) : CostItem :=
  MkCostItem (uuid_String (ci_ID item)) (ci_TotalAmount item) (ci_Method item)
    (default 0 (ci_FixedAmountPerUnit item))
    ((λ w, MkComboWeight (cw_Method w) (cw_Weight w) (cw_FixedAmountPerUnit w))
       <$> ci_ComboWeights item)
    (ci_IncludeVacant item) (uuid_String <$> ci_UnitIDs item).

Definition engineUnit (bu : buildingUnit) : EUnit :=
  MkEUnit (uuid_String (u_ID (bu_unit bu))) (bu_occupants bu) (u_AreaM2 (bu_unit bu))
    (is_vacant (bu_unit bu)).

Definition snapshot_unit (period : BillingPeriod) (u : Unit) : M buildingUnit :=
  occ ← BillingOccupantCountAsOf (u_ID u) (bp_EndDate period);
  mret (MkBuildingUnit u occ).

(** The last unit with the id: the loop over [bus] overwrites [snap]. *)
Definition inputs_of (bus : list buildingUnit) (unitID : UUID) : option Inputs :=
  match List.find (λ bu, bool_decide (u_ID (bu_unit bu) = unitID)) (reverse bus) with
  | Some bu => Some (MkInputs (bu_occupants bu) (u_AreaM2 (bu_unit bu)) (is_vacant (bu_unit bu)))
  | None => None
  end.

(** The row of one engine share. *)
Definition share_row (bus : list buildingUnit) (itemID : UUID) (sh : Share)
    : M CostItemShare :=
  match uuid_Parse (sh_UnitID sh) with
  | None => fail (EText "invalid UUID")
  | Some unitID =>
      id ← uuid_New;
      mret (MkCostItemShare id itemID unitID (exactShareString (sh_Exact sh)) (sh_Rounded sh)
              (inputs_of bus unitID))
  end.

Definition add_charge (item : BCostItem) (charges : gmap UUID (list chargeLine)) (sh : Share)
    : gmap UUID (list chargeLine) :=
  let unitID := default uuid_Nil (uuid_Parse (sh_UnitID sh)) in
  <[unitID := default [] (charges !! unitID)
      ++ [MkChargeLine (ci_Title item) (ci_ID item) (ci_Method item) (sh_Rounded sh)]]> charges.

(** The loop over the cost items. *)
Fixpoint charge_items (bus : list buildingUnit) (items : list BCostItem)
    (shares : list CostItemShare) (charges : gmap UUID (list chargeLine))
    : M (list CostItemShare * gmap UUID (list chargeLine)) :=
  match items with
  | [] => mret (shares, charges)
  | item :: items' =>
      res ← map_err engineError (lift (Calculate (engineItem item) (engineUnit <$> bus)));
      new ← map_each (share_row bus (ci_ID item)) (ir_Shares res);
      charge_items bus items' (shares ++ new)
        (foldl (add_charge item) charges (ir_Shares res))
  end.

Definition charge_item (line : chargeLine) : M InvoiceItem :=
  id ← uuid_New;
  mret (MkInvoiceItem id uuid_Nil ItemCharge (cl_title line) (Some (cl_itemID line))
          (cl_amount line) (Some (cl_method line)) None 0).

(** The invoice of one unit: base, prior debt, late fee and credit. *)
Definition draft_invoice (period : BillingPeriod) (charges : gmap UUID (list chargeLine))
    (bu : buildingUnit) : M InvoiceWithItems :=
  let lines := default [] (charges !! u_ID (bu_unit bu)) in
  let base := sum64 (cl_amount <$> lines) in
  items ← map_each charge_item lines;
  '(priorDebt, credit) ← Snapshot_of (u_ID (bu_unit bu));
  lateFee ← map_err engineError (lift
    (LateFee (engineLateFeeType (bp_LateFeeType period)) (bp_LateFeeValue period) base 0));
  let final := sub64 (add64 (add64 base priorDebt) lateFee) credit in
  id ← uuid_New;
  number ← uuid_New;
  let inv := MkInvoice id
    ("DRAFT-" +:+ String.substring 0 24 (remove_dashes (uuid_String number)))
    (bp_BuildingID period) (bp_ID period) (u_ID (bu_unit bu)) base priorDebt lateFee credit
    final None (Some (bp_DueDate period)) InvoiceUnpaid 0 None 0 0 in
  if lateFee >? 0 then
    lid ← uuid_New;
    mret (MkInvoiceWithItems inv (items ++
      [MkInvoiceItem lid uuid_Nil ItemLateFee (lateFeeTitle (bp_LateFeeType period)) None
         lateFee (Some (bp_LateFeeType period)) None 0]))
  else mret (MkInvoiceWithItems inv items).

(** [Calculate] up to the composed invoices: reads and checks only. *)
Definition compute_invoices (period : BillingPeriod)
    : M (list CostItemShare * list InvoiceWithItems) :=
  items ← ListCostItems (bp_ID period);
  if decide (items = []) then
    fail (EApp (BadRequest "هیچ قلم هزینه‌ای برای این دوره تعریف نشده است")) else
  units ← UnitsForBuilding (bp_BuildingID period);
  if decide (units = []) then fail (EApp (BadRequest "این ساختمان واحدی ندارد")) else
  bus ← map_each (snapshot_unit period) units;
  '(shares, charges) ← charge_items bus items [] ∅;
  invoices ← map_each (draft_invoice period charges) bus;
  mret (shares, invoices).

Definition calculable (p : BillingPeriod) : bool :=
  in_enum (bp_Status p) [PeriodDraft; PeriodCalculated].

(** The writes of [Calculate]: the replaced calculation, then the status. *)
Definition store_calculation (period : BillingPeriod) (shares : list CostItemShare)
    (invoices : list InvoiceWithItems) : M unit :=
  ReplaceCalculation (bp_ID period) shares invoices;;
  SavePeriod (set_period_status period PeriodCalculated);;
  mret tt.

Definition Calculate_period (manager : User) (periodID : UUID) : M Preview :=
  period ← CalcAuthorizedPeriod manager periodID;
  if negb (calculable period) then
    fail (EApp (Conflict "محاسبه فقط برای دوره در وضعیت پیش‌نویس یا محاسبه‌شده مجاز است"))
  else
  '(shares, invoices) ← compute_invoices period;
  store_calculation period shares invoices;;
  Preview_period manager periodID.
End calc.
