(* ===== verification/Period.v ===== *)
(** * billing.PeriodService

    [internal/billing/period_service.go]: the period state machine, cost-item
    editing, issuance, cancellation and adjustments. *)

From Stdlib Require Import SpecFloat.
From S2P Require Import Prelude Golang Calendar Errors Engine Models Store Schema Logic Notification BillingRepo Calc.

(** The payment domain's hook; [None] before it is wired. *)
Class BalanceRecomputer := { RecomputeInvoice_hook : option (UUID → M unit) }.

Definition msgPeriodDatesInvalid : string :=
  "تاریخ‌های دوره نامعتبر است (پایان ≥ شروع، سررسید ≥ پایان)".
Definition msgPeriodNotDraft : string := "ویرایش فقط در وضعیت پیش‌نویس مجاز است".
Definition msgItemAmountInvalid : string := "مبلغ قلم هزینه باید بزرگ‌تر از صفر باشد".
Definition msgItemMethodInvalid : string := "روش محاسبه نامعتبر است".
Definition msgInvoiceNotFound : string := "صورتحساب یافت نشد".
Definition msgInvoiceNotCancellable : string := "این صورتحساب قابل ابطال نیست".
Definition msgAdjustReasonRequired : string := "دلیل اصلاحیه الزامی است".
Definition msgAdjustAmountInvalid : string := "مبلغ اصلاحیه باید بزرگ‌تر از صفر باشد".
Definition msgIssueConflict : string := "صدور فقط برای دوره محاسبه‌شده مجاز است".

Definition validLateFeeTypes : list string := ["none"; "fixed"; "percent"; "per_day"].

(** ** Periods *)

Record PeriodInput := MkPeriodInput {
  pin_Title : string;
  pin_StartDate : Time;
  pin_EndDate : Time;
  pin_DueDate : Time;
  pin_LateFeeType : string;
  pin_LateFeeValue : spec_float;
}.

Definition applyPeriodInput (p : BillingPeriod) (i : PeriodInput) : Res BillingPeriod :=
  if Before (pin_EndDate i) (pin_StartDate i) || Before (pin_DueDate i) (pin_EndDate i)
  then Err (EApp (BadRequest msgPeriodDatesInvalid)) else
  let lf := if decide (pin_LateFeeType i = "") then "none" else pin_LateFeeType i in
  if negb (in_enum lf validLateFeeTypes) then Err (EApp (BadRequest msgItemMethodInvalid)) else
  Ok (MkBillingPeriod (bp_ID p) (bp_BuildingID p) (pin_Title i) (pin_StartDate i)
        (pin_EndDate i) (pin_DueDate i) lf (pin_LateFeeValue i) (bp_Status p)
        (bp_CalculatedAt p) (bp_IssuedAt p) (bp_ClosedAt p) (bp_CreatedAt p) (bp_UpdatedAt p)).

Definition authorizeBuilding (manager : User) (buildingID : UUID) : M unit :=
  ok ← IsManagerOf (us_ID manager) buildingID;
  guard_or ok (EApp (Forbidden msgNoBuildingAccess)).

Definition CreatePeriod (manager : User) (buildingID : UUID) (i : PeriodInput)
    : M BillingPeriod :=
  authorizeBuilding manager buildingID;;
  id ← uuid_New;
  p ← lift (applyPeriodInput
    (MkBillingPeriod id buildingID "" 0 0 0 "" (S754_zero false) PeriodDraft None None None 0 0) i);
  CreatePeriod_row p.

Definition ListPeriods (manager : User) (buildingID : UUID) : M (list BillingPeriod) :=
  authorizeBuilding manager buildingID;;
  ListPeriods_rows buildingID.

Definition getAuthorizedPeriod (manager : User) (id : UUID) : M BillingPeriod :=
  p ← map_err (not_found_as msgPeriodNotFound) (GetPeriod_row id);
  authorizeBuilding manager (bp_BuildingID p);;
  mret p.

Definition GetPeriod (manager : User) (id : UUID) : M BillingPeriod :=
  getAuthorizedPeriod manager id.

Definition status_is (p : BillingPeriod) (s : string) : bool := bool_decide (bp_Status p = s).

Definition UpdatePeriod (manager : User) (id : UUID) (i : PeriodInput)
    : M (BillingPeriod * BillingPeriod) :=
  p ← getAuthorizedPeriod manager id;
  guard_or (status_is p PeriodDraft) (EApp (Conflict msgPeriodNotDraft));;
  p' ← lift (applyPeriodInput p i);
  p' ← SavePeriod p';
  mret (p', p).

(** ** Cost items *)

Record CostItemInput := MkCostItemInput {
  cin_Title : string;
  cin_TotalAmount : Money;
  cin_Method : string;
  cin_FixedAmountPerUnit : Money;
  cin_ComboWeights : list BComboWeight;
  cin_IncludeVacant : bool;
  cin_UnitIDs : list UUID;
}.

(** The item with the input's fields and the given amounts. *)
Definition fill_item (ci : BCostItem) (i : CostItemInput) (total : Money) (fixed : option Money)
    : BCostItem :=
  MkBCostItem (ci_ID ci) (ci_PeriodID ci) (cin_Title i) total (cin_Method i) fixed
    (cin_ComboWeights i) (cin_IncludeVacant i) (cin_UnitIDs i) (ci_CreatedAt ci)
    (ci_UpdatedAt ci).

Definition bad {A} (msg : string) : M A := fail (EApp (BadRequest msg)).

Definition input_weights_ok (i : CostItemInput) : bool :=
  forallb (λ w, negb ((cw_Weight w <=? 0) || bool_decide (cw_Method w = MethodCombined)))
    (cin_ComboWeights i)
  && (sum64 (cw_Weight <$> cin_ComboWeights i) =? 100).

Definition validateCostItem (ci : BCostItem) (i : CostItemInput) (buildingID : UUID)
    : M BCostItem :=
  let m := cin_Method i in
  if in_enum m [MethodEqual; MethodPerOccupant; MethodPerArea] then
    if cin_TotalAmount i <=? 0 then bad msgItemAmountInvalid else
    mret (fill_item ci i (cin_TotalAmount i) None)
  else if decide (m = MethodFixed) then
    if cin_FixedAmountPerUnit i <=? 0 then bad msgItemAmountInvalid else
    units ← UnitsForBuilding buildingID;
    let n := length (List.filter (λ u, negb (is_vacant u && negb (cin_IncludeVacant i))) units) in
    mret (fill_item ci i (mul64 (cin_FixedAmountPerUnit i) (Z.of_nat n))
            (Some (cin_FixedAmountPerUnit i)))
  else if decide (m = MethodSpecificUnits) then
    if cin_TotalAmount i <=? 0 then bad msgItemAmountInvalid else
    if decide (cin_UnitIDs i = []) then bad (Error ErrSpecificUnitsEmpty) else
    units ← UnitsForBuilding buildingID;
    if negb (forallb (λ id, bool_decide (id ∈ u_ID <$> units)) (cin_UnitIDs i))
    then bad "واحد انتخاب‌شده به این ساختمان تعلق ندارد" else
    mret (fill_item ci i (cin_TotalAmount i) None)
  else if decide (m = MethodCombined) then
    if cin_TotalAmount i <=? 0 then bad msgItemAmountInvalid else
    if decide (cin_ComboWeights i = []) then bad (Error ErrBadWeights) else
    if negb (input_weights_ok i) then bad (Error ErrBadWeights) else
    mret (fill_item ci i (cin_TotalAmount i) None)
  else bad msgItemMethodInvalid.

Definition AddCostItem (manager : User) (periodID : UUID) (i : CostItemInput) : M BCostItem :=
  p ← getAuthorizedPeriod manager periodID;
  guard_or (status_is p PeriodDraft)
    (EApp (Conflict "افزودن قلم هزینه فقط در وضعیت پیش‌نویس مجاز است"));;
  id ← uuid_New;
  ci ← validateCostItem (MkBCostItem id periodID "" 0 "" None [] false [] 0 0) i
         (bp_BuildingID p);
  CreateCostItem ci.

Definition authorizedCostItem (manager : User) (id : UUID) : M (BCostItem * BillingPeriod) :=
  ci ← map_err (not_found_as "قلم هزینه یافت نشد") (GetCostItem id);
  p ← GetPeriod_row (ci_PeriodID ci);
  authorizeBuilding manager (bp_BuildingID p);;
  mret (ci, p).

Definition UpdateCostItem (manager : User) (id : UUID) (i : CostItemInput)
    : M (BCostItem * BCostItem) :=
  '(ci, p) ← authorizedCostItem manager id;
  guard_or (status_is p PeriodDraft)
    (EApp (Conflict "ویرایش قلم هزینه فقط در وضعیت پیش‌نویس مجاز است"));;
  ci' ← validateCostItem ci i (bp_BuildingID p);
  ci' ← SaveCostItem ci';
  mret (ci', ci).

Definition DeleteCostItem (manager : User) (id : UUID) : M unit :=
  '(ci, p) ← authorizedCostItem manager id;
  guard_or (status_is p PeriodDraft)
    (EApp (Conflict "حذف قلم هزینه فقط در وضعیت پیش‌نویس مجاز است"));;
  DeleteCostItem_row (ci_ID ci).

(** ** The state machine *)

Definition Reopen (manager : User) (id : UUID) : M BillingPeriod :=
  p ← getAuthorizedPeriod manager id;
  guard_or (status_is p PeriodCalculated)
    (EApp (Conflict "بازگشایی فقط برای دوره محاسبه‌شده و پیش از صدور مجاز است"));;
  DiscardCalculation id;;
  SavePeriod (set_period_status p PeriodDraft).

Definition close_period (now : Time) (p : BillingPeriod) : BillingPeriod :=
  MkBillingPeriod (bp_ID p) (bp_BuildingID p) (bp_Title p) (bp_StartDate p) (bp_EndDate p)
    (bp_DueDate p) (bp_LateFeeType p) (bp_LateFeeValue p) PeriodClosed (bp_CalculatedAt p)
    (bp_IssuedAt p) (Some now) (bp_CreatedAt p) (bp_UpdatedAt p).

Definition Close (manager : User) (id : UUID) : M BillingPeriod :=
  p ← getAuthorizedPeriod manager id;
  guard_or (status_is p PeriodIssued) (EApp (Conflict "بستن دوره فقط پس از صدور مجاز است"));;
  now ← time_Now;
  SavePeriod (close_period now p).

(** The error of [IssueInvoices] as [Issue] reports it. *)
Definition issue_error (e : GoError) : GoError :=
  if errors_Is e gorm_ErrRecordNotFound then EApp (NotFound msgPeriodNotFound)
  else if errors_Is e ErrNotCalculable then EApp (Conflict msgIssueConflict)
  else e.

Definition authorizedInvoice (manager : User) (invoiceID : UUID) : M InvoiceDetail :=
  v ← map_err (not_found_as msgInvoiceNotFound) (GetInvoice invoiceID);
  authorizeBuilding manager (inv_BuildingID (ivw_Invoice (ivd_View v)));;
  mret v.

Definition adjustmentTitle (kind reason : string) : string :=
  if decide (kind = AdjustmentCredit) then "اصلاحیه بستانکار: " +:+ reason
  else "اصلاحیه بدهکار: " +:+ reason.

Record AdjustmentInput := MkAdjustmentInput {
  ain_Kind : string;
  ain_Amount : Money;
  ain_Reason : string;
}.

Definition cancellable (status : string) : bool :=
  in_enum status [InvoiceUnpaid; InvoicePartial; InvoiceExpired].

Section service.
Context `{!PushNotifier} `{!BalanceRecomputer}.

(** Best effort: a failure is logged and dropped. *)
Definition recomputeBalances (invoiceIDs : list UUID) : M unit :=
  match RecomputeInvoice_hook with
  | None => mret tt
  | Some f => for_each (λ id, ignore_err (f id)) invoiceIDs
  end.

Definition notify_issued (p : BillingPeriod) (inv : Invoice) : M unit :=
  r ← attempt (BillingOccupantUserIDs [inv_UnitID inv]);
  match r with
  | inr _ => mret tt
  | inl uids => for_each (λ uid, ignore_err (Notification_Create uid "invoice_issued"
      ("صورتحساب " +:+ bp_Title p +:+ " صادر شد")
      ("مبلغ قابل پرداخت: " +:+ FormatInt (inv_FinalAmount inv) +:+ " تومان")
      (Some "invoice") (Some (inv_ID inv)))) uids
  end.

Definition audit_issued (manager : User) (inv : Invoice) : M unit :=
  ignore_err (Audit_Append (Some (us_ID manager)) "invoice.issued" "invoice"
    (Some (inv_ID inv)) None (Some (SnInvoice inv))).

Definition Issue {loc : Location} (manager : User) (id : UUID) : M (list Invoice) :=
  p ← getAuthorizedPeriod manager id;
  guard_or (status_is p PeriodCalculated) (EApp (Conflict msgIssueConflict));;
  t ← time_Now;
  now ← time_Now;
  issued ← map_err issue_error (IssueInvoices id (Year (local t)) now);
  for_each (notify_issued p) issued;;
  for_each (audit_issued manager) issued;;
  recomputeBalances (inv_ID <$> issued);;
  mret issued.

Definition with_status (status : string) (i : Invoice) : Invoice :=
  MkInvoice (inv_ID i) (inv_InvoiceNumber i) (inv_BuildingID i) (inv_PeriodID i)
    (inv_UnitID i) (inv_BaseAmount i) (inv_PriorDebt i) (inv_LateFeeAmount i)
    (inv_CreditAmount i) (inv_FinalAmount i) (inv_IssueDate i) (inv_DueDate i) status
    (inv_PaidAmount i) (inv_InputsFrozenAt i) (inv_CreatedAt i) (inv_UpdatedAt i).

Definition CancelInvoice (manager : User) (invoiceID : UUID) (reason : string) : M Invoice :=
  v ← authorizedInvoice manager invoiceID;
  let inv := ivw_Invoice (ivd_View v) in
  guard_or (cancellable (inv_Status inv)) (EApp (Conflict msgInvoiceNotCancellable));;
  SetInvoiceStatus invoiceID InvoiceCanceled;;
  let inv := with_status InvoiceCanceled inv in
  ignore_err (Audit_Append (Some (us_ID manager)) "invoice.cancelled" "invoice"
    (Some invoiceID) None (Some (SnCancelled reason inv)));;
  recomputeBalances [invoiceID];;
  mret inv.

Definition AddAdjustment (manager : User) (invoiceID : UUID) (i : AdjustmentInput)
    : M InvoiceAdjustment :=
  v ← authorizedInvoice manager invoiceID;
  let inv := ivw_Invoice (ivd_View v) in
  if bool_decide (inv_Status inv = InvoiceCanceled)
  then fail (EApp (Conflict "اصلاحیه برای صورتحساب ابطال‌شده مجاز نیست")) else
  if negb (in_enum (ain_Kind i) [AdjustmentDebit; AdjustmentCredit])
  then bad "نوع اصلاحیه باید بدهکار یا بستانکار باشد" else
  if ain_Amount i <=? 0 then bad msgAdjustAmountInvalid else
  if bool_decide (ain_Reason i = "") then bad msgAdjustReasonRequired else
  aid ← uuid_New;
  iid ← uuid_New;
  adj ← CreateAdjustment
    (MkInvoiceAdjustment aid invoiceID (ain_Kind i) (ain_Amount i) (ain_Reason i)
       (Some (us_ID manager)) 0)
    (MkInvoiceItem iid invoiceID ItemAdjustment (adjustmentTitle (ain_Kind i) (ain_Reason i))
       None (ain_Amount i) None None 0);
  ignore_err (Audit_Append (Some (us_ID manager)) "invoice.adjusted" "invoice"
    (Some invoiceID) None (Some (SnAdjustment adj)));;
  recomputeBalances [invoiceID];;
  mret adj.
End service.

Definition ListInvoices (manager : User) (f : InvoiceFilter) : M (list InvoiceView * Z) :=
  authorizeBuilding manager (if_BuildingID f);;
  ListInvoices_rows f.
