(* ===== verification/PaymentRepo.v ===== *)
(** * payment.Repository and payment.BalanceService

    [internal/payment/repository.go] and [internal/payment/balance_service.go]:
    the locked read of an invoice with its adjustments, the payment rows, and
    the balance of a unit derived from the rows of its invoices, adjustments and
    payments. *)

From S2P Require Import Prelude Golang Errors Models Store Schema Logic Notification BillingRepo Calc Period.

(** ** Invoices *)

(** [ledgerInvoice]: an invoice with the sums of its adjustments. *)
Record ledgerInvoice := MkLedgerInvoice {
  li_ID : UUID;
  li_BuildingID : UUID;
  li_UnitID : UUID;
  li_InvoiceNumber : string;
  li_Status : string;
  li_PaidAmount : Money;
  li_FinalAmount : Money;
  li_DebitAdj : Money;
  li_CreditAdj : Money;
}.

Definition effective (l : ledgerInvoice) : Money :=
  sub64 (add64 (li_FinalAmount l) (li_DebitAdj l)) (li_CreditAdj l).

(** A SUM is exact; scanning it into an [int64] fails out of range. *)
Definition scan_int64 (z : Z) : Res Z :=
  if decide (in64 z) then Ok z else Err (EText "sql: Scan error: value out of range").

(** [COALESCE(SUM(CASE WHEN kind = ? THEN amount ELSE 0 END), 0)] over the
    adjustments of the invoices satisfying [P]. *)
Definition adjustments_sum (kind : string) (P : UUID → bool) (d : DB) : Z :=
  sum_of ad_Amount (List.filter (λ a, bool_decide (ad_Kind a = kind) && P (ad_InvoiceID a)) (rows d)).

Definition ledger_of (d : DB) (inv : Invoice) : Res ledgerInvoice :=
  let of_invoice id := bool_decide (id = inv_ID inv) in
  debit ← scan_int64 (adjustments_sum AdjustmentDebit of_invoice d);
  credit ← scan_int64 (adjustments_sum AdjustmentCredit of_invoice d);
  Ok (MkLedgerInvoice (inv_ID inv) (inv_BuildingID inv) (inv_UnitID inv) (inv_InvoiceNumber inv)
        (inv_Status inv) (inv_PaidAmount inv) (inv_FinalAmount inv) debit credit).

(** The row lock, then the aggregate query; a nil id counts as no row. *)
Definition InvoiceForUpdate (invoiceID : UUID) : M ledgerInvoice :=
  locked ← query (λ d, match row_at (R := Invoice) d invoiceID with
                       | Some inv => inv_ID inv | None => uuid_Nil end);
  if bool_decide (locked = uuid_Nil) then fail gorm_ErrRecordNotFound else
  stmt (λ _ _ d, match row_at (R := Invoice) d invoiceID with
                 | Some inv =>
                     li ← ledger_of d inv;
                     if bool_decide (li_ID li = uuid_Nil) then Err gorm_ErrRecordNotFound
                     else Ok (li, d)
                 | None => Err gorm_ErrRecordNotFound
                 end).

Definition pay_invoice (newPaid : Money) (status : string) (now : Time) (i : Invoice) : Invoice :=
  MkInvoice (inv_ID i) (inv_InvoiceNumber i) (inv_BuildingID i) (inv_PeriodID i) (inv_UnitID i)
    (inv_BaseAmount i) (inv_PriorDebt i) (inv_LateFeeAmount i) (inv_CreditAmount i)
    (inv_FinalAmount i) (inv_IssueDate i) (inv_DueDate i) status newPaid
    (inv_InputsFrozenAt i) (inv_CreatedAt i) now.

Definition ApplyInvoicePaid (invoiceID : UUID) (newPaid : Money) (status : string) : M unit :=
  Update_where (λ i, bool_decide (inv_ID i = invoiceID)) (pay_invoice newPaid status);;
  mret tt.

(** ** Payments *)

Definition CreatePayment (p : Payment) : M Payment := Create p.

Definition GetPayment (id : UUID) : M Payment := First_id id.

Definition GetPaymentByAuthority (authority : string) : M Payment :=
  First_where by_key (λ p, opt_eqb (pay_Authority p) (Some authority)
                           && bool_decide (pay_Status p = StatusRecorded)).

Definition SavePayment (p : Payment) : M Payment := Save p.

Record PaymentFilter := MkPaymentFilter {
  pf_BuildingID : UUID;
  pf_UnitID : UUID;
  pf_UnitIDs : list UUID;
  pf_From : option Time;
  pf_To : option Time;
  pf_Method : string;
  pf_Page : Z;
  pf_Size : Z;
}.

(** A payment with the read-only column [unit_number]. *)
Record PaymentView := MkPaymentView { pvw_Payment : Payment; pvw_UnitNumber : string }.

(** The widest scope given wins, in the order of the [switch]. *)
Definition in_scope (f : PaymentFilter) (p : Payment) : bool :=
  if decide (0 < length (pf_UnitIDs f))%nat then bool_decide (pay_UnitID p ∈ pf_UnitIDs f)
  else if decide (pf_UnitID f ≠ uuid_Nil) then bool_decide (pay_UnitID p = pf_UnitID f)
  else if decide (pf_BuildingID f ≠ uuid_Nil) then bool_decide (pay_BuildingID p = pf_BuildingID f)
  else true.

Definition payment_matches (f : PaymentFilter) (p : Payment) : bool :=
  in_scope f p
  && (bool_decide (pf_Method f = "") || bool_decide (pay_Method p = pf_Method f))
  && match pf_From f with Some t => TruncateDay t <=? pay_PaidAt p | None => true end
  && match pf_To f with Some t => pay_PaidAt p <=? TruncateDay t | None => true end.

Definition view_payment (d : DB) (p : Payment) : PaymentView :=
  MkPaymentView p
    (match row_at (R := Unit) d (pay_UnitID p) with Some u => u_Number u | None => "" end).

Definition ListPayments (f : PaymentFilter) : M (list PaymentView * Z) :=
  total ← Count (payment_matches f);
  let '(page, size) := normalizePage (pf_Page f) (pf_Size f) in
  out ← query (λ d, view_payment d <$> page_of page size
          (sort_by (λ a b, pay_CreatedAt b <? pay_CreatedAt a)
             (List.filter (payment_matches f) (rows d))));
  mret (out, total).

Definition OccupantUserIDs (unitID : UUID) : M (list UUID) :=
  query (λ d, us_ID <$> occupant_users (λ o, bool_decide (o_UnitID o = unitID) && o_IsActive o) d).

(** ** Scope *)

(** The units where a live person with the phone has an open occupancy. *)
Definition resident_units (phone : string) (d : DB) : list UUID :=
  remove_dups (o_UnitID <$> List.filter (λ o, is_null (o_EndDate o)
    && existsb (λ p, bool_decide (p_ID p = o_PersonID o) && opt_eqb (p_Phone p) (Some phone)
                     && is_null (p_DeletedAt p)) (rows d)) (rows d)).

Definition ResidentUnitIDs (phone : string) : M (list UUID) := query (resident_units phone).

Definition isManagerOf (userID buildingID : UUID) : M bool :=
  query (λ d, bool_decide (is_Some (db_user_buildings d !! (userID, buildingID)))).

Definition UnitByID (unitID : UUID) : M Unit :=
  First_where by_key (λ u, bool_decide (u_ID u = unitID) && is_null (u_DeletedAt u)).

(** ** Balances *)

Record balanceAggregates := MkBalanceAggregates {
  ag_Prior : Z;
  ag_Current : Z;
  ag_Late : Z;
  ag_Paid : Z;
  ag_Credit : Z;
  ag_DebitAdj : Z;
  ag_CreditAdj : Z;
  ag_Verified : Z;
  ag_AbsorbedPaid : Z;
  ag_AbsorbedCredit : Z;
}.

(** [nc]: the invoices of the unit that are not cancelled. *)
Definition nc (unitID : UUID) (d : DB) : list Invoice :=
  List.filter (λ i, bool_decide (inv_UnitID i = unitID)
                    && negb (bool_decide (inv_Status i = InvoiceCanceled))) (rows d).

Definition is_open (i : Invoice) : bool :=
  in_enum (inv_Status i) [InvoiceUnpaid; InvoicePartial; InvoiceExpired].

Definition open_inv (unitID : UUID) (d : DB) : list Invoice := List.filter is_open (nc unitID d).

Definition verified_payments (unitID : UUID) (d : DB) : list Payment :=
  List.filter (λ p, bool_decide (pay_UnitID p = unitID)
                    && bool_decide (pay_Status p = StatusVerified)) (rows d).

Definition in_nc (unitID : UUID) (d : DB) (id : UUID) : bool :=
  existsb (λ i, bool_decide (inv_ID i = id)) (nc unitID d).

(** [balanceAggregatesQuery]. *)
Definition aggregates (unitID : UUID) (d : DB) : Res balanceAggregates :=
  let open := open_inv unitID d in
  prior ← scan_int64 (sum_of inv_PriorDebt open);
  current ← scan_int64 (sum_of inv_BaseAmount open);
  late ← scan_int64 (sum_of inv_LateFeeAmount open);
  paid ← scan_int64 (sum_of inv_PaidAmount open);
  credit ← scan_int64 (sum_of inv_CreditAmount open);
  debit ← scan_int64 (adjustments_sum AdjustmentDebit (in_nc unitID d) d);
  credit_adj ← scan_int64 (adjustments_sum AdjustmentCredit (in_nc unitID d) d);
  verified ← scan_int64 (sum_of pay_Amount (verified_payments unitID d));
  absorbed_paid ← scan_int64 (sum_of inv_PaidAmount (nc unitID d));
  absorbed_credit ← scan_int64 (sum_of inv_CreditAmount (nc unitID d));
  Ok (MkBalanceAggregates prior current late paid credit debit credit_adj verified
        absorbed_paid absorbed_credit).

(** The position the aggregates give, as of [now]. *)
Definition balance_of (unitID : UUID) (agg : balanceAggregates) (now : Time) : UnitBalance :=
  let priorDebt := add64 (ag_Prior agg) (ag_DebitAdj agg) in
  let credit := add64 (ag_Credit agg) (ag_CreditAdj agg) in
  let balance := sub64 (sub64 (add64 (add64 priorDebt (ag_Current agg)) (ag_Late agg))
                          (ag_Paid agg)) credit in
  let absorbed := add64 (ag_AbsorbedPaid agg) (ag_AbsorbedCredit agg) in
  let asset := sub64 (ag_Verified agg) absorbed in
  MkUnitBalance unitID priorDebt (ag_Current agg) (ag_Late agg) credit (ag_Paid agg)
    (if asset <? 0 then 0 else asset) (if balance <? 0 then 0 else balance) now.

#[global] Arguments balance_of : simpl never.

(** [INSERT ... ON CONFLICT (unit_id) DO UPDATE]. *)
Definition upsert_balance (ub : UnitBalance) : M unit :=
  stmt (λ env now d, r ← accept env d (touch now ub); Ok (tt, put r d)).

Definition recomputeBalance (unitID : UUID) : M UnitBalance :=
  agg ← stmt (λ _ _ d, agg ← aggregates unitID d; Ok (agg, d));
  now ← time_Now;
  let ub := balance_of unitID agg now in
  upsert_balance ub;;
  mret ub.

Definition GetUnitBalance (unitID : UUID) : M UnitBalance := First_id unitID.

(** ** payment.BalanceService *)

Definition Snapshot (unitID : UUID) : M (Money * Money) :=
  r ← attempt (GetUnitBalance unitID);
  match r with
  | inl ub => mret (bal_Balance ub, bal_CreditAsset ub)
  | inr e => if bool_decide (e = gorm_ErrRecordNotFound) then mret (0, 0) else fail e
  end.

Definition RecomputeUnit (unitID : UUID) : M UnitBalance := recomputeBalance unitID.

Section balance.
Context `{!UuidCodec}.

(** The unit id is read as text; an invoice that is gone reads as the empty
    text. *)
Definition RecomputeInvoice (invoiceID : UUID) : M unit :=
  unitID ← query (λ d, match row_at (R := Invoice) d invoiceID with
                       | Some inv => uuid_String (inv_UnitID inv) | None => "" end);
  match uuid_Parse unitID with
  | None => mret tt
  | Some id => if bool_decide (id = uuid_Nil) then mret tt
               else recomputeBalance id;; mret tt
  end.
End balance.

Definition with_pay_status (status : string) (p : Payment) : Payment :=
  MkPayment (pay_ID p) (pay_BuildingID p) (pay_UnitID p) (pay_InvoiceID p) (pay_Method p)
    (pay_Amount p) (pay_PaidAt p) (pay_TrackingNumber p) (pay_Gateway p) (pay_Authority p)
    (pay_RecordedBy p) status (pay_CreatedAt p) (pay_UpdatedAt p).

Definition ReversePayment (paymentID : UUID) : M Payment :=
  Transaction (
    p ← First_id (R := Payment) paymentID;
    p ← Save (with_pay_status StatusReversed p);
    recomputeBalance (pay_UnitID p);;
    mret p).

(** The payment domain as billing sees it. *)
Definition PaymentBalances : BalanceProvider := {| Snapshot_of := Snapshot |}.

Definition PaymentHook `{!UuidCodec} : BalanceRecomputer :=
  {| RecomputeInvoice_hook := Some RecomputeInvoice |}.
