(* ===== verification/PaymentService.v ===== *)
(** * payment.PaymentService

    [internal/payment/service.go]: manual payments, the gateway flow, the
    ledger, and the URLs handed to browsers. *)

From Stdlib Require Import Ascii.
From S2P Require Import Prelude Golang Net Errors Models Store Schema Logic Gateway Notification BillingRepo Calc Period PaymentRepo.

Definition msgInvoiceCancelled : string := "صورتحساب لغو شده است؛ پرداخت ثبت نمی‌شود".
Definition msgAmountInvalid : string := "مبلغ پرداخت باید بزرگ‌تر از صفر باشد".
Definition msgNotPermitted : string := "شما به این بخش دسترسی ندارید".
Definition msgCallbackUnknown : string := "پرداختی برای این بازگشت یافت نشد".

(** ** URLs *)

(** The configuration of the service. *)
Record PaymentConfig := MkPaymentConfig { cfg_callback : string; cfg_webReturn : string }.

(** [NewPaymentService] trims the return origin. *)
Definition NewPaymentService (callbackURL webReturnURL : string) : PaymentConfig :=
  MkPaymentConfig callbackURL (TrimRight_slash webReturnURL).

(** A path that stays on the origin it is appended to. *)
Definition same_origin_path (path : string) : bool :=
  HasPrefix path "/" && negb (HasPrefix path "//") && negb (Contains path "/\").

Definition callbackURLFor (cfg : PaymentConfig) (returnPath : string) : string :=
  if bool_decide (TrimRight_slash (cfg_webReturn cfg) = "") || bool_decide (returnPath = "")
  then cfg_callback cfg
  else if negb (HasPrefix returnPath "/") || HasPrefix returnPath "//" || Contains returnPath "/\"
  then cfg_callback cfg
  else
    let sep := if Contains (cfg_callback cfg) "?" then "&" else "?" in
    cfg_callback cfg +:+ sep +:+ "return_path=" +:+ QueryEscape returnPath.

Definition BrowserReturnURL (cfg : PaymentConfig) (path paymentID status invoiceID : string)
    : string :=
  let base := TrimRight_slash (cfg_webReturn cfg) in
  if bool_decide (base = "") then "" else
  let path :=
    if bool_decide (path = "") || negb (HasPrefix path "/") || HasPrefix path "//"
       || Contains path "/\"
    then "/payment/result" else path in
  let q := Values_Set "payment_id" paymentID [] in
  let q := Values_Set "status" status q in
  let q := if bool_decide (invoiceID = "") then q else Values_Set "invoice_id" invoiceID q in
  base +:+ path +:+ "?" +:+ Values_Encode q.

(** ** Applying money to an invoice *)

Record ManualPaymentInput := MkManualPaymentInput {
  mp_Amount : string;
  mp_PaidAt : string;
  mp_TrackingNumber : string;
}.

Record paymentApplication := MkPaymentApplication { pa_applied : Money; pa_status : string }.

Definition outstanding_of (inv : ledgerInvoice) : Money :=
  let o := sub64 (effective inv) (li_PaidAmount inv) in if o <? 0 then 0 else o.

Definition applyToInvoice (inv : ledgerInvoice) (amount : Money) : paymentApplication :=
  let eff := effective inv in
  let outstanding := sub64 eff (li_PaidAmount inv) in
  let outstanding := if outstanding <? 0 then 0 else outstanding in
  let applied := if amount >? outstanding then outstanding else amount in
  let newPaid := add64 (li_PaidAmount inv) applied in
  MkPaymentApplication applied
    (if newPaid >=? eff then InvoicePaid
     else if newPaid >? 0 then InvoicePartial else InvoiceUnpaid).

#[global] Arguments applyToInvoice : simpl never.

(** [formatToman]: a comma before every group of three digits. *)
Fixpoint group_thousands (i n : nat) (s : string) : string :=
  match s with
  | EmptyString => EmptyString
  | String c s' =>
      (if bool_decide (0 < i)%nat && bool_decide ((n - i) mod 3 = 0)%nat then "," else "")
        +:+ String c (group_thousands (S i) n s')
  end.

Definition formatToman (v : Money) : string :=
  let s := FormatInt v in
  let n := String.length s in
  if bool_decide (n ≤ 3)%nat then s else group_thousands 0 n s.

(** ** The service *)

Definition canAccessUnit (u : User) (unitID : UUID) : M bool :=
  unit ← UnitByID unitID;
  if bool_decide (us_Role u = RoleManager) then isManagerOf (us_ID u) (u_BuildingID unit) else
  units ← ResidentUnitIDs (us_Phone u);
  mret (bool_decide (unitID ∈ units)).

Definition payAuthorizedInvoice (u : User) (invoiceID : UUID) : M ledgerInvoice :=
  inv ← map_err (not_found_as msgInvoiceNotFound) (InvoiceForUpdate invoiceID);
  ok ← canAccessUnit u (li_UnitID inv);
  if negb ok then fail (EApp (Forbidden msgNotPermitted)) else mret inv.

Definition parse_paid_at (s : string) : M Time :=
  if bool_decide (s = "") then now ← time_Now; mret (TruncateDay now)
  else match ParseDate s with
       | Some t => mret t
       | None => fail (EApp (BadRequest "تاریخ پرداخت نامعتبر است"))
       end.

(** The amount of a request: a positive [int64]. *)
Definition parse_amount (s : string) : option Money :=
  a ← ParseInt s; if a <=? 0 then None else Some a.

Section payment.
Context `{!UuidCodec} `{!PushNotifier} `{!PaymentGateway}.

Definition notifyRecorded (p : Payment) : M unit :=
  r ← attempt (OccupantUserIDs (pay_UnitID p));
  match r with
  | inr _ => mret tt
  | inl users => for_each (λ uid, ignore_err (Notification_Create uid "payment_recorded"
      "پرداخت ثبت شد"
      ("پرداختی به مبلغ " +:+ formatToman (pay_Amount p) +:+ " تومان برای واحد شما ثبت شد.")
      (Some "payment") (Some (pay_ID p)))) users
  end.

(** The transaction of a manual payment, on the invoice as it was read. *)
Definition store_manual (inv : ledgerInvoice) (invoiceID : UUID) (p : Payment) : M Payment :=
  let app := applyToInvoice inv (pay_Amount p) in
  Transaction (
    p ← Create p;
    ApplyInvoicePaid invoiceID (add64 (li_PaidAmount inv) (pa_applied app)) (pa_status app);;
    recomputeBalance (li_UnitID inv);;
    mret p).

Definition manual_payment (id : UUID) (u : User) (inv : ledgerInvoice) (invoiceID : UUID)
    (amount : Money) (paidAt : Time) (tracking : string) : Payment :=
  MkPayment id (li_BuildingID inv) (li_UnitID inv) (Some invoiceID) MethodManual amount paidAt
    (if bool_decide (tracking = "") then None else Some tracking) None None (Some (us_ID u))
    StatusVerified 0 0.

Definition RecordManual (u : User) (invoiceID : UUID) (i : ManualPaymentInput) : M Payment :=
  guard_or (bool_decide (us_Role u = RoleManager)) (EApp (Forbidden msgNotPermitted));;
  match parse_amount (mp_Amount i) with
  | None => fail (EApp (BadRequest msgAmountInvalid))
  | Some amount =>
      paidAt ← parse_paid_at (mp_PaidAt i);
      inv ← payAuthorizedInvoice u invoiceID;
      if bool_decide (li_Status inv = InvoiceCanceled)
      then fail (EApp (Conflict msgInvoiceCancelled)) else
      id ← uuid_New;
      p ← store_manual inv invoiceID
            (manual_payment id u inv invoiceID amount paidAt (mp_TrackingNumber i));
      notifyRecorded p;;
      mret p
  end.

Definition StartGateway (cfg : PaymentConfig) (u : User) (invoiceID : UUID)
    (amount : option Money) (returnPath : string) : M (Payment * string) :=
  inv ← payAuthorizedInvoice u invoiceID;
  if bool_decide (li_Status inv = InvoiceCanceled)
  then fail (EApp (Conflict msgInvoiceCancelled)) else
  amt ← match amount with
        | Some a => if a <=? 0 then fail (EApp (BadRequest msgAmountInvalid)) else mret a
        | None => mret (outstanding_of inv)
        end;
  if amt <=? 0 then fail (EApp (Conflict "این صورتحساب بدهی معوق ندارد")) else
  res ← map_err (λ _, EApp (Internal "ارتباط با درگاه پرداخت ناموفق بود"))
    (gw_Start (MkStartRequest amt (callbackURLFor cfg returnPath)
                 ("پرداخت شارژ صورتحساب " +:+ li_InvoiceNumber inv)));
  id ← uuid_New;
  now ← time_Now;
  p ← CreatePayment
    (MkPayment id (li_BuildingID inv) (li_UnitID inv) (Some invoiceID) MethodGateway amt
       (TruncateDay now) None (Some gw_Name) (Some (sr_Authority res)) (Some (us_ID u))
       StatusRecorded 0 0);
  mret (p, sr_PayURL res).

(** The payment a callback is about. An error of the lookup leaves no payment,
    which is reported as unknown. *)
Definition callback_payment (paymentID authority : string) : M (option Payment) :=
  if negb (bool_decide (paymentID = "")) then
    match uuid_Parse paymentID with
    | None => fail (EApp (NotFound msgCallbackUnknown))
    | Some id => r ← attempt (GetPayment id); mret (match r with inl p => Some p | inr _ => None end)
    end
  else if negb (bool_decide (authority = "")) then
    r ← attempt (GetPaymentByAuthority authority);
    mret (match r with inl p => Some p | inr _ => None end)
  else fail (EApp (BadRequest "پارامتر payment_id یا Authority الزامی است")).

Definition verified_payment (ref : string) (p : Payment) : Payment :=
  MkPayment (pay_ID p) (pay_BuildingID p) (pay_UnitID p) (pay_InvoiceID p) (pay_Method p)
    (pay_Amount p) (pay_PaidAt p) (Some ref) (pay_Gateway p) (pay_Authority p)
    (pay_RecordedBy p) StatusVerified (pay_CreatedAt p) (pay_UpdatedAt p).

(** The transaction of a verified gateway payment. *)
Definition store_verified (p : Payment) : M Payment :=
  Transaction (
    p ← Save p;
    match pay_InvoiceID p with
    | None => mret p
    | Some invoiceID =>
        inv ← InvoiceForUpdate invoiceID;
        let app := applyToInvoice inv (pay_Amount p) in
        ApplyInvoicePaid (li_ID inv) (add64 (li_PaidAmount inv) (pa_applied app)) (pa_status app);;
        recomputeBalance (li_UnitID inv);;
        mret p
    end).

(** The part of [HandleCallback] after the lookup. *)
Definition finalize (p : Payment) : M Payment :=
  match pay_Authority p with
  | Some authority =>
      if bool_decide (pay_Status p = StatusRecorded) && bool_decide (pay_Method p = MethodGateway)
      then
        r ← attempt (gw_Verify authority (pay_Amount p));
        match r with
        | inl (MkVerifyResult true ref) =>
            p ← store_verified (verified_payment ref p);
            notifyRecorded p;;
            mret p
        | _ => SavePayment (with_pay_status StatusFailed p)
        end
      else mret p
  | None => mret p
  end.

Definition HandleCallback (paymentID authority : string) : M Payment :=
  o ← callback_payment paymentID authority;
  match o with
  | None => fail (EApp (NotFound msgCallbackUnknown))
  | Some p => finalize p
  end.
End payment.

Definition UnitBalanceFor (u : User) (unitID : UUID) : M UnitBalance :=
  ok ← map_err (not_found_as "واحد یافت نشد") (canAccessUnit u unitID);
  if negb ok then fail (EApp (Forbidden msgNotPermitted)) else RecomputeUnit unitID.

Definition with_building (b : UUID) (f : PaymentFilter) : PaymentFilter :=
  MkPaymentFilter b (pf_UnitID f) (pf_UnitIDs f) (pf_From f) (pf_To f) (pf_Method f) (pf_Page f)
    (pf_Size f).

Definition with_units (us : list UUID) (f : PaymentFilter) : PaymentFilter :=
  MkPaymentFilter (pf_BuildingID f) (pf_UnitID f) us (pf_From f) (pf_To f) (pf_Method f) (pf_Page f)
    (pf_Size f).

Definition BuildingLedger (u : User) (buildingID : UUID) (f : PaymentFilter)
    : M (list PaymentView * Z) :=
  guard_or (bool_decide (us_Role u = RoleManager)) (EApp (Forbidden msgNotPermitted));;
  ok ← isManagerOf (us_ID u) buildingID;
  if negb ok then fail (EApp (Forbidden msgNotPermitted)) else
  ListPayments (with_building buildingID f).

Definition MyPayments (u : User) (f : PaymentFilter) : M (list PaymentView * Z) :=
  unitIDs ← ResidentUnitIDs (us_Phone u);
  if decide (unitIDs = []) then mret ([], 0) else ListPayments (with_units unitIDs f).
