(* ===== verification/Http.v ===== *)
(** * Requests and replies

    What the handlers of the domains share: the caller and the parameters of a
    gin request, the reply, and the mapping of a service error
    ([writeServiceErr], the same in every package). *)

From S2P Require Import Prelude Golang Errors Models Store Schema Logic Notification AuthUser.

(** A request behind [Authenticate]: the user of the context, the path
    parameters and the query parameters ("" when absent). *)
Record HttpCall := MkHttpCall {
  hc_User : option User;
  hc_Param : string → string;
  hc_Query : string → string;
}.

Inductive Reply (A : Type) :=
  | ReplyJSON (status : Z) (body : A)
  | ReplyStatus (status : Z)
  | ReplyError (e : AppError).
Arguments ReplyJSON {A}.
Arguments ReplyStatus {A}.
Arguments ReplyError {A}.

Definition reply_status {A} (r : Reply A) : Z :=
  match r with ReplyJSON s _ | ReplyStatus s => s | ReplyError e => ae_Status e end.

(** [writeServiceErr]. *)
Definition service_err (e : GoError) : AppError :=
  match errors_As_AppError e with
  | Some a => a
  | None =>
      if errors_Is e gorm_ErrRecordNotFound then NotFound "یافت نشد"
      else Internal "خطای داخلی سرور. لطفاً دوباره تلاش کنید."
  end.

(** Errors written and returned early are errors here; [err] maps those of the
    services. *)
Definition replying {A} (err : GoError → AppError) (m : M (Reply A)) : M (Reply A) :=
  r ← attempt m;
  mret (match r with inl a => a | inr e => ReplyError (err e) end).

(** [currentUser]. *)
Definition current_user (c : HttpCall) : M User :=
  match hc_User c with
  | Some u => mret u
  | None => fail (EApp (Unauthorized "برای این عملیات باید وارد شوید"))
  end.

(** [parseID]. *)
Definition parse_id {codec : UuidCodec} (c : HttpCall) (name : string) : M UUID :=
  match uuid_Parse (hc_Param c name) with
  | Some id => mret id
  | None => fail (EApp (NotFound "شناسه نامعتبر است"))
  end.

(** [c.ShouldBindJSON(&in)] of a payload without binding tags. *)
Definition bind_body {A} (msg : string) (body : option A) : M A :=
  match body with Some a => mret a | None => fail (EApp (BadRequest msg)) end.

(** [atoiDefault]. *)
Definition atoiDefault (s : string) (d : Z) : Z :=
  if bool_decide (s = "") then d
  else match ParseInt s with
       | Some n => if n <? 1 then d else n
       | None => d
       end.

(** A page of a list. *)
Record Page (A : Type) := MkPage {
  pg_Items : list A;
  pg_Total : Z;
  pg_Page : Z;
  pg_Size : Z;
}.
Arguments MkPage {A}.
Arguments pg_Items {A}.

(** A handler under [aud.Middleware(action, objectType)]: it leaves an object,
    and snapshots from before and after, in the context. *)
Record Audited := MkAudited {
  ad_Object : option CtxObject;
  ad_Before : option AuditSnapshot;
  ad_After : option AuditSnapshot;
}.

Definition audited {codec : UuidCodec} {A} (action objectType : string) (c : HttpCall)
    (m : M (Reply A * Audited)) : M (Reply A) :=
  '(r, a) ← m;
  Audit_Middleware action objectType
    (MkGinContext (reply_status r) (hc_User c) (ad_Object a) (ad_Before a) (ad_After a));;
  mret r.

Definition not_audited : Audited := MkAudited None None None.

(** [replying] for a handler that sets the audit context. *)
Definition replying_audited {A} (err : GoError → AppError) (m : M (Reply A * Audited))
    : M (Reply A * Audited) :=
  r ← attempt m;
  mret (match r with inl a => a | inr e => (ReplyError (err e), not_audited) end).
