(* ===== verification/BuildingHandlers.v ===== *)
(** * Handlers of the registry

    [internal/building/handlers.go] and [occupancy_handlers.go]: buildings, their
    managers, units with their history, persons, occupancies, occupant counts.
    The group is mounted behind [Authenticate] and [RequireRole(manager)]. *)

From S2P Require Import Prelude Golang Errors Models Store Schema Logic Notification Crypto Token AuthUser BillingRepo BuildingRepo BuildingService Occupancy Http.

Definition msgManagerOnly : string := "این بخش مخصوص مدیر ساختمان است.".
Definition msgIDInvalid : string := "شناسه نامعتبر است.".
Definition msgQueryInvalid : string := "پارامترهای جست‌وجو معتبر نیست.".

(** [requireManager]. *)
Definition requireManager (c : HttpCall) : M User :=
  match hc_User c with
  | None => fail (EApp (Unauthorized msgAuthRequired))
  | Some u => if bool_decide (us_Role u = RoleManager) then mret u
              else fail (EApp (Forbidden msgManagerOnly))
  end.

(** [uuid.Parse(c.Param(name))], or a 404. *)
Definition param_id {codec : UuidCodec} (c : HttpCall) (name : string) : M UUID :=
  match uuid_Parse (hc_Param c name) with
  | Some id => mret id
  | None => fail (EApp (NotFound msgIDInvalid))
  end.

(** [writeServiceErr] of the package. *)
Definition building_err (e : GoError) : AppError :=
  if errors_Is e ErrNoManager then Unauthorized msgAuthRequired else
  match errors_As_AppError e with
  | Some a => a
  | None => Internal "خطای داخلی سرور. لطفاً دوباره تلاش کنید."
  end.

(** Whatever the service reports becomes this 500. *)
Definition as_internal {A} (msg : string) (m : M A) : M A :=
  map_err (λ _, EApp (Internal msg)) m.

(** [unitFilterFromQuery]; [None] when the floor is no number. *)
Definition unitFilterFromQuery (c : HttpCall) : option UnitFilter :=
  let f floor := MkUnitFilter (hc_Query c "q") (hc_Query c "block") floor (hc_Query c "status")
    (atoiDefault (hc_Query c "page") 1) (atoiDefault (hc_Query c "page_size") 20) in
  if bool_decide (hc_Query c "floor" = "") then Some (f None)
  else v ← ParseInt (hc_Query c "floor"); Some (f (Some v)).

(** What a handler puts into the context of the audit middleware. *)
Definition left_object (id : UUID) (before after_ : option AuditSnapshot) : Audited :=
  MkAudited (Some (CtxUUID id)) before after_.

Record OccupantCountInput := MkOccupantCountInput {
  oci_OccupantCount : Z;
  oci_EffectiveFrom : Time;
}.

(** The query of [unitHistory]: the trail of the unit, newest first. An audit id
    is a serial number, so that its order is that of the trail. *)
Definition newest_log (a b : AuditLog) : bool := au_CreatedAt b <? au_CreatedAt a.

Definition about_unit (id : UUID) (l : AuditLog) : bool :=
  bool_decide (au_ObjectType l = "unit") && bool_decide (au_ObjectID l = Some id).

Definition unit_log (id : UUID) (d : DB) : list AuditLog :=
  sort_by newest_log (List.filter (about_unit id) (rev (db_audit_logs d))).

Section handlers.
Context {codec : UuidCodec} {map_order : MapOrder} (c : HttpCall).

(** ** Buildings *)

Definition listBuildings : M (Reply (list Building)) :=
  replying building_err (
    mgr ← requireManager c;
    items ← as_internal "خطا در دریافت فهرست ساختمان‌ها." (ListBuildings (Some mgr));
    mret (ReplyJSON 200 items)).

Definition createBuilding (body : option BuildingInput) : M (Reply Building) :=
  audited "building.create" "building" c (replying_audited building_err (
    mgr ← requireManager c;
    i ← bind_body msgNameRequired body;
    b ← CreateBuilding (Some mgr) i;
    mret (ReplyJSON 201 b, left_object (b_ID b) None (Some (SnBuilding b))))).

Definition getBuilding : M (Reply Building) :=
  replying building_err (
    mgr ← requireManager c;
    id ← param_id c "id";
    b ← GetBuilding (Some mgr) id;
    mret (ReplyJSON 200 b)).

Definition updateBuilding (body : option BuildingInput) : M (Reply Building) :=
  audited "building.update" "building" c (replying_audited building_err (
    mgr ← requireManager c;
    id ← param_id c "id";
    i ← bind_body msgNameRequired body;
    '(b, before) ← UpdateBuilding (Some mgr) id i;
    mret (ReplyJSON 200 b, left_object id (Some (SnBuilding before)) (Some (SnBuilding b))))).

Definition deleteBuilding : M (Reply ()) :=
  audited "building.delete" "building" c (replying_audited building_err (
    mgr ← requireManager c;
    id ← param_id c "id";
    DeleteBuilding (Some mgr) id;;
    mret (ReplyStatus 204, left_object id None None))).

(** ** Units *)

(** Every error of the service, a refused scope included, is a 500 here. *)
Definition listUnits : M (Reply (Page Unit)) :=
  replying building_err (
    mgr ← requireManager c;
    buildingID ← param_id c "id";
    match unitFilterFromQuery c with
    | None => fail (EApp (BadRequest msgQueryInvalid))
    | Some f =>
        '(items, total) ← as_internal "خطا در دریافت فهرست واحدها."
          (ListUnits (Some mgr) buildingID f);
        mret (ReplyJSON 200 (MkPage items total (uf_Page f) (uf_Size f)))
    end).

Definition createUnit (body : option UnitInput) : M (Reply Unit) :=
  audited "unit.create" "unit" c (replying_audited building_err (
    mgr ← requireManager c;
    buildingID ← param_id c "id";
    i ← bind_body msgNumberRequired body;
    u ← CreateUnit (Some mgr) buildingID i;
    mret (ReplyJSON 201 u, left_object (u_ID u) None (Some (SnUnit u))))).

Definition getUnit : M (Reply Unit) :=
  replying building_err (
    mgr ← requireManager c;
    id ← param_id c "id";
    u ← GetUnit (Some mgr) id;
    mret (ReplyJSON 200 u)).

Definition updateUnit (body : option UnitInput) : M (Reply Unit) :=
  audited "unit.update" "unit" c (replying_audited building_err (
    mgr ← requireManager c;
    id ← param_id c "id";
    i ← bind_body msgNumberRequired body;
    '(u, before) ← UpdateUnit (Some mgr) id i;
    mret (ReplyJSON 200 u, left_object id (Some (SnUnit before)) (Some (SnUnit u))))).

Definition deleteUnit : M (Reply ()) :=
  audited "unit.delete" "unit" c (replying_audited building_err (
    mgr ← requireManager c;
    id ← param_id c "id";
    DeleteUnit (Some mgr) id;;
    now ← time_Now;
    mret (ReplyStatus 204, left_object id None (Some (SnDeleted now))))).

Definition unitHistory : M (Reply (list AuditLog)) :=
  replying building_err (
    mgr ← requireManager c;
    id ← param_id c "id";
    GetUnit (Some mgr) id;;
    items ← as_internal "خطا در دریافت تاریخچه تغییرات." (query (unit_log id));
    mret (ReplyJSON 200 items)).

(** ** Managers *)

Definition listManagers : M (Reply (list BuildingManager)) :=
  replying building_err (
    mgr ← requireManager c;
    buildingID ← param_id c "id";
    items ← ListManagers (Some mgr) buildingID;
    mret (ReplyJSON 200 items)).

(** [grantManagerReq]: its only field is required. *)
Definition bind_phone (body : option string) : M string :=
  match body with
  | Some phone => if bool_decide (phone = "") then fail (EApp (BadRequest "شماره موبایل الزامی است."))
                  else mret phone
  | None => fail (EApp (BadRequest "شماره موبایل الزامی است."))
  end.

Definition grantManager (body : option string) : M (Reply BuildingManager) :=
  audited "building.manager_granted" "building" c (replying_audited building_err (
    mgr ← requireManager c;
    buildingID ← param_id c "id";
    phone ← bind_phone body;
    m ← GrantManagerByPhone (Some mgr) buildingID phone;
    mret (ReplyJSON 201 m,
      left_object buildingID None (Some (SnGranted (bm_UserID m) (bm_Role m)))))).

Definition revokeManager : M (Reply ()) :=
  audited "building.manager_revoked" "building" c (replying_audited building_err (
    mgr ← requireManager c;
    buildingID ← param_id c "id";
    userID ← param_id c "userId";
    RevokeManager (Some mgr) buildingID userID;;
    mret (ReplyStatus 204, left_object buildingID (Some (SnRevoked userID)) None))).

(** ** Persons *)

Definition listPersons : M (Reply (Page Person)) :=
  replying building_err (
    mgr ← requireManager c;
    buildingID ← param_id c "id";
    let page := atoiDefault (hc_Query c "page") 1 in
    let size := atoiDefault (hc_Query c "page_size") 20 in
    '(items, total) ← ListPersons (Some mgr) buildingID (hc_Query c "q") page size;
    mret (ReplyJSON 200 (MkPage items total page size))).

Definition createPerson (body : option PersonInput) : M (Reply Person) :=
  audited "person.create" "person" c (replying_audited building_err (
    mgr ← requireManager c;
    buildingID ← param_id c "id";
    i ← bind_body msgPersonNameRequired body;
    p ← CreatePerson (Some mgr) buildingID i;
    mret (ReplyJSON 201 p, left_object (p_ID p) None (Some (SnPerson p))))).

Definition updatePerson (body : option PersonInput) : M (Reply Person) :=
  audited "person.update" "person" c (replying_audited building_err (
    mgr ← requireManager c;
    id ← param_id c "id";
    i ← bind_body msgPersonNameRequired body;
    '(after_, before) ← UpdatePerson (Some mgr) id i;
    mret (ReplyJSON 200 after_, left_object id (Some (SnPerson before)) (Some (SnPerson after_))))).

Definition deletePerson : M (Reply Time) :=
  audited "person.delete" "person" c (replying_audited building_err (
    mgr ← requireManager c;
    id ← param_id c "id";
    DeletePerson (Some mgr) id;;
    now ← time_Now;
    mret (ReplyJSON 200 now, left_object id None None))).

(** ** Occupancies *)

Definition listOccupancies : M (Reply (list (Occupancy * option Person))) :=
  replying building_err (
    mgr ← requireManager c;
    unitID ← param_id c "id";
    items ← ListOccupancies (Some mgr) unitID;
    mret (ReplyJSON 200 items)).

Definition addOccupancy (body : option OccupancyInput) : M (Reply Occupancy) :=
  audited "resident.changed" "occupancy" c (replying_audited building_err (
    mgr ← requireManager c;
    unitID ← param_id c "id";
    i ← bind_body msgRelInvalid body;
    o ← AddOccupancy (Some mgr) unitID i;
    mret (ReplyJSON 201 o, left_object unitID None (Some (SnOccupancy o))))).

(** The payload is the end date. *)
Definition endOccupancy (body : option Time) : M (Reply Occupancy) :=
  audited "resident.changed" "occupancy" c (replying_audited building_err (
    mgr ← requireManager c;
    id ← param_id c "id";
    end_ ← bind_body msgDateRequired body;
    o ← EndOccupancy (Some mgr) id end_;
    mret (ReplyJSON 200 o, left_object (o_UnitID o) None (Some (SnOccupancy o))))).

(** ** Occupant counts *)

Definition listOccupantCounts : M (Reply (list OccupantCount)) :=
  replying building_err (
    mgr ← requireManager c;
    unitID ← param_id c "id";
    items ← ListOccupantCounts (Some mgr) unitID;
    mret (ReplyJSON 200 items)).

Definition recordOccupantCount (body : option OccupantCountInput) : M (Reply OccupantCount) :=
  replying building_err (
    mgr ← requireManager c;
    unitID ← param_id c "id";
    i ← bind_body msgCountInvalid body;
    oc ← RecordOccupantCount (Some mgr) unitID (oci_OccupantCount i) (oci_EffectiveFrom i);
    mret (ReplyJSON 201 oc)).
End handlers.
