(* ===== verification/BillingHandlers.v ===== *)
(** * Billing handlers

    [internal/billing/handlers.go]: periods, cost items, calculation, invoices of
    a building, and the invoices of a resident. The [binding:"required"] tags of
    the payloads are part of decoding. *)

From Stdlib Require Import Ascii.
From S2P Require Import Prelude Golang Calendar Errors Models Store Schema Logic Notification Crypto Token AuthUser BillingRepo Calc Period Http.

(** The validator of the payloads is not the code's own. A date is a struct, on
    which [required] may or may not reject the zero date, but nothing else. *)
Class RequiredDates := {
  required_date : Time → bool;
  required_date_nonzero t : t ≠ 0 → required_date t = true;
}.

Definition required_text (s : string) : bool := negb (bool_decide (s = "")).

Definition period_required `{RequiredDates} (i : PeriodInput) : bool :=
  required_text (pin_Title i) && required_date (pin_StartDate i) && required_date (pin_EndDate i)
  && required_date (pin_DueDate i).

Definition cost_item_required (i : CostItemInput) : bool :=
  required_text (cin_Title i) && required_text (cin_Method i).

Definition adjustment_required (i : AdjustmentInput) : bool :=
  required_text (ain_Kind i) && negb (ain_Amount i =? 0) && required_text (ain_Reason i).

(** [c.ShouldBindJSON(&in)] of a payload with required fields. *)
Definition bind_required {A} (required : A → bool) (msg : string) (body : option A) : M A :=
  match body with
  | Some a => if required a then mret a else fail (EApp (BadRequest msg))
  | None => fail (EApp (BadRequest msg))
  end.

Definition msgSignIn : string := "ابتدا وارد شوید".
Definition msgNoInvoiceAccess : string := "شما به این صورتحساب دسترسی ندارید".

Definition billing_user (c : HttpCall) : M User :=
  match hc_User c with
  | Some u => mret u
  | None => fail (EApp (Unauthorized msgSignIn))
  end.

(** [requireManager] of the package. *)
Definition billing_manager (c : HttpCall) : M User :=
  u ← billing_user c;
  if bool_decide (us_Role u = RoleManager) then mret u
  else fail (EApp (Forbidden "این عملیات مخصوص مدیر است")).

(** The loop of [atoiDefault]: the [int] of the digits wraps. *)
Fixpoint digits_loop (n : Z) (s : string) : option Z :=
  match s with
  | EmptyString => Some n
  | String ch s' =>
      if is_digit ch
      then digits_loop (add64 (mul64 n 10) (Z.of_nat (nat_of_ascii ch) - 48)) s'
      else None
  end.

Definition billing_atoiDefault (s : string) (d : Z) : Z :=
  if bool_decide (s = "") then d else
  match digits_loop 0 s with
  | Some n => if n =? 0 then d else n
  | None => d
  end.

Example billing_atoiDefault_samples :
  billing_atoiDefault "12" 1 = 12 ∧ billing_atoiDefault "-3" 1 = 1 ∧ billing_atoiDefault "000" 7 = 7
  ∧ billing_atoiDefault "9223372036854775808" 1 = - 2 ^ 63.
Proof. vm_compute. repeat split. Qed.

Section handlers.
Context {codec : UuidCodec} {provider : BalanceProvider}.
Context {pusher : PushNotifier} {hook : BalanceRecomputer} {loc : Location} {dates : RequiredDates}.
Context (c : HttpCall).

(** ** Periods *)

Definition listPeriods : M (Reply (list BillingPeriod)) :=
  replying service_err (
    mgr ← billing_manager c;
    buildingID ← parse_id c "id";
    items ← ListPeriods mgr buildingID;
    mret (ReplyJSON 200 items)).

Definition msgPeriodRequired : string := "عنوان و تاریخ‌های دوره الزامی است".

Definition createPeriod (body : option PeriodInput) : M (Reply BillingPeriod) :=
  audited "period.create" "billing_period" c (replying_audited service_err (
    mgr ← billing_manager c;
    buildingID ← parse_id c "id";
    i ← bind_required period_required msgPeriodRequired body;
    p ← CreatePeriod mgr buildingID i;
    mret (ReplyJSON 201 p, MkAudited (Some (CtxUUID (bp_ID p))) None (Some (SnPeriod p))))).

Definition getPeriod : M (Reply BillingPeriod) :=
  replying service_err (
    mgr ← billing_manager c;
    id ← parse_id c "id";
    p ← GetPeriod mgr id;
    mret (ReplyJSON 200 p)).

Definition updatePeriod (body : option PeriodInput) : M (Reply BillingPeriod) :=
  audited "period.update" "billing_period" c (replying_audited service_err (
    mgr ← billing_manager c;
    id ← parse_id c "id";
    i ← bind_required period_required msgPeriodRequired body;
    '(p, before) ← UpdatePeriod mgr id i;
    mret (ReplyJSON 200 p,
      MkAudited (Some (CtxUUID id)) (Some (SnPeriod before)) (Some (SnPeriod p))))).

(** ** Cost items *)

Definition listCostItems : M (Reply (list BCostItem)) :=
  replying service_err (
    mgr ← billing_manager c;
    periodID ← parse_id c "id";
    GetPeriod mgr periodID;;
    items ← ListCostItems periodID;
    mret (ReplyJSON 200 items)).

Definition msgItemRequired : string := "عنوان قلم هزینه و روش محاسبه الزامی است".

Definition addCostItem (body : option CostItemInput) : M (Reply BCostItem) :=
  audited "cost_item.create" "cost_item" c (replying_audited service_err (
    mgr ← billing_manager c;
    periodID ← parse_id c "id";
    i ← bind_required cost_item_required msgItemRequired body;
    ci ← AddCostItem mgr periodID i;
    mret (ReplyJSON 201 ci, MkAudited (Some (CtxUUID (ci_ID ci))) None (Some (SnCostItem ci))))).

Definition updateCostItem (body : option CostItemInput) : M (Reply BCostItem) :=
  audited "cost_item.update" "cost_item" c (replying_audited service_err (
    mgr ← billing_manager c;
    id ← parse_id c "id";
    i ← bind_required cost_item_required msgItemRequired body;
    '(ci, before) ← UpdateCostItem mgr id i;
    mret (ReplyJSON 200 ci,
      MkAudited (Some (CtxUUID id)) (Some (SnCostItem before)) (Some (SnCostItem ci))))).

Definition deleteCostItem : M (Reply ()) :=
  audited "cost_item.delete" "cost_item" c (replying_audited service_err (
    mgr ← billing_manager c;
    id ← parse_id c "id";
    DeleteCostItem mgr id;;
    mret (ReplyStatus 204, MkAudited (Some (CtxUUID id)) None None))).

(** ** Calculation and the state machine *)

Definition calculate : M (Reply Preview) :=
  audited "period.calculate" "billing_period" c (replying_audited service_err (
    mgr ← billing_manager c;
    id ← parse_id c "id";
    pv ← Calculate_period mgr id;
    mret (ReplyJSON 200 pv,
      MkAudited (Some (CtxUUID id)) None (Some (SnCalculated (pv_Reconciled pv)))))).

Definition preview : M (Reply Preview) :=
  replying service_err (
    mgr ← billing_manager c;
    id ← parse_id c "id";
    pv ← Preview_period mgr id;
    mret (ReplyJSON 200 pv)).

Definition reopen : M (Reply BillingPeriod) :=
  replying service_err (
    mgr ← billing_manager c;
    id ← parse_id c "id";
    p ← Reopen mgr id;
    mret (ReplyJSON 200 p)).

(** The route has no audit middleware: what the handler leaves in the context is
    read by nobody. *)
Definition issue : M (Reply (list Invoice)) :=
  replying service_err (
    mgr ← billing_manager c;
    id ← parse_id c "id";
    issued ← Issue mgr id;
    mret (ReplyJSON 200 issued)).

Definition close : M (Reply BillingPeriod) :=
  replying service_err (
    mgr ← billing_manager c;
    id ← parse_id c "id";
    p ← Close mgr id;
    mret (ReplyJSON 200 p)).

(** ** Invoices *)

(** [if s != "" { if id, err := uuid.Parse(s); err == nil { f = &id } }]. *)
Definition query_id (name : string) : option UUID :=
  if bool_decide (hc_Query c name = "") then None else uuid_Parse (hc_Query c name).

Definition billing_page : Z := billing_atoiDefault (hc_Query c "page") 1.
Definition billing_page_size : Z := billing_atoiDefault (hc_Query c "page_size") 20.

Definition listBuildingInvoices : M (Reply (Page InvoiceView)) :=
  replying service_err (
    mgr ← billing_manager c;
    buildingID ← parse_id c "id";
    '(items, total) ← ListInvoices mgr
      (MkInvoiceFilter buildingID (query_id "period_id") (query_id "unit_id") (hc_Query c "status")
         billing_page billing_page_size);
    mret (ReplyJSON 200 (MkPage items total billing_page billing_page_size))).

(** The authorization of [getInvoice]: a manager by the building, anyone else by
    the occupied units. *)
Definition invoice_allowed (u : User) (inv : Invoice) : M unit :=
  if bool_decide (us_Role u = RoleManager) then
    ok ← IsManagerOf (us_ID u) (inv_BuildingID inv);
    if negb ok then fail (EApp (Forbidden msgNoBuildingAccess)) else mret tt
  else
    units ← Scope_ResidentUnitIDs (us_Phone u);
    guard_or (existsb (λ uid, bool_decide (uid = inv_UnitID inv)) units)
      (EApp (Forbidden msgNoInvoiceAccess)).

Definition getInvoice : M (Reply InvoiceDetail) :=
  replying service_err (
    u ← billing_user c;
    id ← parse_id c "id";
    inv ← GetInvoice id;
    invoice_allowed u (ivw_Invoice (ivd_View inv));;
    mret (ReplyJSON 200 inv)).

Definition cancelInvoice (body : option string) : M (Reply Invoice) :=
  audited "invoice.cancel" "invoice" c (replying_audited service_err (
    mgr ← billing_manager c;
    id ← parse_id c "id";
    reason ← bind_required required_text "دلیل ابطال الزامی است" body;
    inv ← CancelInvoice mgr id reason;
    mret (ReplyJSON 200 inv, MkAudited (Some (CtxUUID id)) None None))).

Definition addAdjustment (body : option AdjustmentInput) : M (Reply InvoiceAdjustment) :=
  audited "invoice.adjust" "invoice" c (replying_audited service_err (
    mgr ← billing_manager c;
    id ← parse_id c "id";
    i ← bind_required adjustment_required "نوع، مبلغ و دلیل اصلاحیه الزامی است" body;
    adj ← AddAdjustment mgr id i;
    mret (ReplyJSON 201 adj, MkAudited (Some (CtxUUID id)) None (Some (SnAdjustment adj))))).

(** ** The resident *)

Definition myInvoices : M (Reply (Page InvoiceView)) :=
  replying service_err (
    u ← billing_user c;
    units ← Scope_ResidentUnitIDs (us_Phone u);
    '(items, total) ← ListInvoicesForUnits units billing_page billing_page_size;
    mret (ReplyJSON 200 (MkPage items total billing_page billing_page_size))).

Definition myInvoice : M (Reply InvoiceDetail) :=
  replying service_err (
    u ← billing_user c;
    id ← parse_id c "id";
    inv ← GetInvoice id;
    units ← Scope_ResidentUnitIDs (us_Phone u);
    if existsb (λ uid, bool_decide (uid = inv_UnitID (ivw_Invoice (ivd_View inv)))) units
    then mret (ReplyJSON 200 inv)
    else fail (EApp (Forbidden msgNoInvoiceAccess))).
End handlers.
