(* ===== verification/PaymentHandlers.v ===== *)
(** * Payment handlers

    [internal/payment/handlers.go]: manual payments, the gateway with its public
    callback, the ledger, the payments of a resident, the balance of a unit. *)

From S2P Require Import Prelude Golang Net Errors Models Store Schema Logic Gateway Notification Crypto Token AuthUser BillingRepo Calc Period PaymentRepo PaymentService Http.

(** [firstNonEmpty]. *)
Fixpoint firstNonEmpty (vals : list string) : string :=
  match vals with
  | [] => ""
  | v :: rest => if bool_decide (v = "") then firstNonEmpty rest else v
  end.

(** [pageSizeFromQuery]: [page_size], or else the legacy [size]. *)
Definition pageSizeFromQuery (c : HttpCall) : Z :=
  if bool_decide (hc_Query c "page_size" = "") then atoiDefault (hc_Query c "size") 20
  else atoiDefault (hc_Query c "page_size") 20.

(** A date of the query; one that does not parse is ignored. *)
Definition query_date (c : HttpCall) (name : string) : option Time :=
  if bool_decide (hc_Query c name = "") then None else ParseDate (hc_Query c name).

(** The filter of the ledger. The building is the service's to set. *)
Definition ledger_filter {codec : UuidCodec} (c : HttpCall) : PaymentFilter :=
  let unitID := if bool_decide (hc_Query c "unit_id" = "") then uuid_Nil
                else default uuid_Nil (uuid_Parse (hc_Query c "unit_id")) in
  MkPaymentFilter uuid_Nil unitID [] (query_date c "from")
    ((λ t, t + 24 * Hour) <$> query_date c "to") (hc_Query c "method")
    (atoiDefault (hc_Query c "page") 1) (pageSizeFromQuery c).

Definition my_filter (c : HttpCall) : PaymentFilter :=
  MkPaymentFilter uuid_Nil uuid_Nil [] None None (hc_Query c "method")
    (atoiDefault (hc_Query c "page") 1) (pageSizeFromQuery c).

(** [writePaymentPage]; the deprecated alias of the items is left out. *)
Definition payment_page (f : PaymentFilter) (rows : list PaymentView) (total : Z)
    : Page PaymentView :=
  MkPage rows total (if pf_Page f <? 1 then 1 else pf_Page f) (if pf_Size f <? 1 then 20 else pf_Size f).

(** The answer to [startGateway]. *)
Record StartedPayment := MkStartedPayment {
  sp_PaymentID : UUID;
  sp_PaymentURL : string;
  sp_Amount : string;
  sp_Status : string;
}.

(** What decoding left of the optional body of [startGateway]. *)
Record StartBody := MkStartBody { sb_Amount : option string; sb_ReturnPath : string }.

(** A browser is redirected, the app is answered. *)
Inductive CallbackAnswer :=
  | CallbackRedirect (location : string)
  | CallbackResult (payment : UUID) (status invoiceID deeplink : string).

Definition callback_answer {codec : UuidCodec} (cfg : PaymentConfig) (returnPath : string)
    (p : Payment) : Reply CallbackAnswer :=
  let invoiceID := match pay_InvoiceID p with Some id => uuid_String id | None => "" end in
  let target := BrowserReturnURL cfg returnPath (uuid_String (pay_ID p)) (pay_Status p) invoiceID in
  if bool_decide (target = "")
  then ReplyJSON 200 (CallbackResult (pay_ID p) (pay_Status p) invoiceID
         ("hamsa://payments/" +:+ uuid_String (pay_ID p)))
  else ReplyJSON 302 (CallbackRedirect target).

Section handlers.
Context {codec : UuidCodec} {pusher : PushNotifier} {gateway : PaymentGateway}.
Context (cfg : PaymentConfig) (c : HttpCall).

(** The handler leaves nothing in the context of the audit middleware. *)
Definition recordManual (body : option ManualPaymentInput) : M (Reply Payment) :=
  audited "payment.record" "payment" c (replying_audited service_err (
    u ← current_user c;
    invoiceID ← parse_id c "id";
    i ← bind_body "داده‌های پرداخت نامعتبر است" body;
    p ← RecordManual u invoiceID i;
    mret (ReplyJSON 201 p, not_audited))).

(** The amount of the body, if it has one. *)
Definition start_amount (b : StartBody) : M (option Money) :=
  match sb_Amount b with
  | None => mret None
  | Some s => match ParseInt s with
              | Some v => mret (Some v)
              | None => fail (EApp (BadRequest "مبلغ نامعتبر است"))
              end
  end.

Definition startGateway (b : StartBody) : M (Reply StartedPayment) :=
  replying service_err (
    u ← current_user c;
    invoiceID ← parse_id c "id";
    amount ← start_amount b;
    '(p, payURL) ← StartGateway cfg u invoiceID amount (sb_ReturnPath b);
    mret (ReplyJSON 201 (MkStartedPayment (pay_ID p) payURL (FormatInt (pay_Amount p)) (pay_Status p)))).

Definition gatewayCallback : M (Reply CallbackAnswer) :=
  replying service_err (
    p ← HandleCallback (hc_Query c "payment_id")
          (firstNonEmpty [hc_Query c "Authority"; hc_Query c "authority"]);
    mret (callback_answer cfg (hc_Query c "return_path") p)).

Definition buildingLedger : M (Reply (Page PaymentView)) :=
  replying service_err (
    u ← current_user c;
    buildingID ← parse_id c "id";
    '(rows, total) ← BuildingLedger u buildingID (ledger_filter c);
    mret (ReplyJSON 200 (payment_page (ledger_filter c) rows total))).

Definition myPayments : M (Reply (Page PaymentView)) :=
  replying service_err (
    u ← current_user c;
    '(rows, total) ← MyPayments u (my_filter c);
    mret (ReplyJSON 200 (payment_page (my_filter c) rows total))).

Definition unitBalance : M (Reply UnitBalance) :=
  replying service_err (
    u ← current_user c;
    unitID ← parse_id c "id";
    b ← UnitBalanceFor u unitID;
    mret (ReplyJSON 200 b)).
End handlers.
