(* ===== verification/Middleware.v ===== *)
(** * The middleware stack

    [internal/platform/httpx/middleware.go] and [router.go]: request ids, the log
    level of a request, panics, and CORS. *)

From Stdlib Require Import Ascii.
From S2P Require Import Prelude Golang Errors Models Store Http.

(** ** strings.ToLower *)

Definition is_ascii (c : ascii) : bool := bool_decide (nat_of_ascii c < 128)%nat.

Definition lower_ascii (c : ascii) : ascii :=
  if bool_decide (65 ≤ nat_of_ascii c ≤ 90)%nat then ascii_of_nat (nat_of_ascii c + 32) else c.

Fixpoint map_bytes (f : ascii → ascii) (s : string) : string :=
  match s with EmptyString => EmptyString | String c s' => String (f c) (map_bytes f s') end.

(** The case mapping of Unicode, for a text that is not ASCII. *)
Class CaseTables := { unicode_lower : string → string }.

Definition ToLower {tables : CaseTables} (s : string) : string :=
  if forallb is_ascii (String.list_ascii_of_string s) then map_bytes lower_ascii s
  else unicode_lower s.

(** ** RequestID *)

Definition RequestIDHeader : string := "X-Request-ID".

(** The inbound id, or else a fresh one; it is put into the context and into the
    response. *)
Definition RequestID {codec : UuidCodec} (inbound : string) : M string :=
  if bool_decide (inbound = "") then id ← uuid_New; mret (uuid_String id) else mret inbound.

(** ** Logger *)

Inductive LogLevel := LevelInfo | LevelWarn | LevelError.

Definition log_level (status : Z) : LogLevel :=
  if status >=? 500 then LevelError else if status >=? 400 then LevelWarn else LevelInfo.

(** ** Recovery *)

(** A panic below is answered with the sanitised 500. *)
Definition Recovery {A} (answer : AppError → A) (m : M A) : M A := λ env w,
  match m env w with
  | (Panic _, w') => (Ok (answer ErrInternal), w')
  | r => r
  end.

(** ** CORS *)

(** The response headers the middleware sets. *)
Record CorsHeaders := MkCorsHeaders {
  AllowOrigin : option string;
  AllowCredentials : bool;
  VaryOrigin : bool;
  AllowMethods : option string;
  AllowHeaders : option string;
  MaxAge : option string;
}.

Section cors.
Context {tables : CaseTables}.

Definition normal_origin (o : string) : string := ToLower (TrimRight_slash o).

Definition allow_all (allowedOrigins : list string) : bool :=
  match allowedOrigins with [o] => bool_decide (o = "*") | _ => false end.

(** The map [allowed]. *)
Definition allowed_set (allowedOrigins : list string) : list string :=
  normal_origin <$>
    List.filter (λ o, negb (bool_decide (o = "")) && negb (bool_decide (o = "*"))) allowedOrigins.

(** What the middleware sets for a request with that [Origin] ("" when absent). *)
Definition CORS (allowedOrigins : list string) (origin : string) : CorsHeaders :=
  let here := negb (bool_decide (origin = "")) in
  let listed := here && bool_decide (normal_origin origin ∈ allowed_set allowedOrigins) in
  let echoed := negb (allow_all allowedOrigins) && listed in
  MkCorsHeaders
    (if allow_all allowedOrigins then Some "*" else if listed then Some origin else None)
    echoed echoed
    (if here then Some "GET, POST, PUT, PATCH, DELETE, OPTIONS" else None)
    (if here then Some "Authorization, Content-Type, X-CSRF-Token, X-Hamsa-Client" else None)
    (if here then Some "600" else None).
End cors.

(** An OPTIONS request is answered here. *)
Definition preflight (method : string) : bool := bool_decide (method = "OPTIONS").

(** ** NewRouter *)

(** [NoRoute]. *)
Definition no_route : AppError := NotFound "مسیر مورد نظر یافت نشد.".
