(* ===== verification/Config.v ===== *)
(** * Configuration

    [internal/platform/config/config.go]: defaults, the YAML file, the overrides
    of the environment, and the validation. *)

From S2P Require Import Prelude Golang Errors.

(** [Config] with its sections flattened. *)
Record Config := MkConfig {
  App_Env : string;
  App_Addr : string;
  App_BaseURL : string;
  App_WebReturnURL : string;
  DB_DSN : string;
  DB_AutoMigrate : bool;
  Auth_JWTSecret : string;
  Auth_AccessTTL : Z;
  Auth_RefreshTTL : Z;
  Payment_Provider : string;
  Zarinpal_MerchantID : string;
  Zarinpal_Sandbox : bool;
  Storage_Path : string;
  Push_FCMCredentialsFile : string;
  CORS_AllowedOrigins : list string;
}.

(** [IsDev]. *)
Definition IsDev (cfg : Config) : bool := bool_decide (App_Env cfg = "dev").

(** What [Load] starts from. *)
Definition default_config : Config :=
  MkConfig "dev" ":8080" "http://localhost:8080" "" "" true "" (15 * 60 * Second) (30 * 24 * Hour)
    "mock" "" false "./data/files" "" ["http://localhost:5173"; "http://127.0.0.1:5173"].

(** [os.ReadFile]. *)
Inductive FileRead := FileText (raw : string) | FileMissing | FileFailed (e : GoError).

(** The process around [Load]; the YAML library is not the code's own: it
    overwrites the fields the text names. *)
Record OS := MkOS {
  Getenv : string → string;
  ReadFile : string → FileRead;
  yaml_Unmarshal : string → Config → Config + GoError;
}.

(** [fmt.Errorf] without a wrapped error. *)
Definition config_error (msg : string) : GoError := EText msg.

(** [if v := os.Getenv(name); v != "" { field = v }]. *)
Definition override (os : OS) (name field : string) : string :=
  if bool_decide (Getenv os name = "") then field else Getenv os name.

Definition applyEnvOverrides (os : OS) (cfg : Config) : Config :=
  MkConfig (override os "HAMSA_APP_ENV" (App_Env cfg)) (App_Addr cfg) (App_BaseURL cfg)
    (override os "HAMSA_WEB_RETURN_URL" (App_WebReturnURL cfg))
    (override os "HAMSA_DB_DSN" (DB_DSN cfg)) (DB_AutoMigrate cfg)
    (override os "HAMSA_JWT_SECRET" (Auth_JWTSecret cfg)) (Auth_AccessTTL cfg) (Auth_RefreshTTL cfg)
    (override os "HAMSA_PAYMENT_PROVIDER" (Payment_Provider cfg)) (Zarinpal_MerchantID cfg)
    (Zarinpal_Sandbox cfg) (Storage_Path cfg) (Push_FCMCredentialsFile cfg) (CORS_AllowedOrigins cfg).

(** [validate]: the first complaint, if any. *)
Definition validate (cfg : Config) : option GoError :=
  if negb (bool_decide (App_Env cfg = "dev")) && negb (bool_decide (App_Env cfg = "production"))
  then Some (config_error ("app.env must be " +:+ quote "dev" +:+ " or " +:+ quote "production"
               +:+ ", got " +:+ quote (App_Env cfg)))
  else if bool_decide (App_Addr cfg = "") then Some (config_error "app.addr must not be empty")
  else if bool_decide (DB_DSN cfg = "") then Some (config_error "db.dsn must not be empty")
  else if bool_decide (Auth_JWTSecret cfg = "")
  then Some (config_error "auth.jwt_secret must not be empty")
  else if (Auth_AccessTTL cfg <=? 0) || (Auth_RefreshTTL cfg <=? 0)
  then Some (config_error "auth token TTLs must be positive")
  else if bool_decide (Storage_Path cfg = "") then Some (config_error "storage.path must not be empty")
  else None.

Definition config_path (os : OS) : string :=
  if bool_decide (Getenv os "HAMSA_CONFIG" = "") then "config.yaml" else Getenv os "HAMSA_CONFIG".

Definition Load (os : OS) : Res Config :=
  match ReadFile os (config_path os) with
  | FileMissing => Err (config_error ("config file not found at " +:+ config_path os
                     +:+ " — copy config.example.yaml to config.yaml"))
  | FileFailed e => Err (EWrap ("read config " +:+ config_path os +:+ ": ") e "")
  | FileText raw =>
      match yaml_Unmarshal os raw default_config with
      | inr e => Err (EWrap ("parse config " +:+ config_path os +:+ ": ") e "")
      | inl cfg =>
          let cfg := applyEnvOverrides os cfg in
          match validate cfg with Some e => Err e | None => Ok cfg end
      end
  end.
