(* ===== verification/Storage.v ===== *)
(** * File storage

    [internal/platform/storage]: uploaded files on the local disk, their registry
    in the table [files], and the two endpoints. *)

From Stdlib Require Import Ascii.
From S2P Require Import Prelude Golang Errors Models Store Schema Logic Crypto AuthUser Http.

(** ** The world outside *)

(** [http.DetectContentType] on the first bytes of a file. *)
Class ContentSniffer := { http_DetectContentType : string → string }.

(** The files of the directory [Root], by their names. *)
Notation Disk := (gmap string string).

(** What the operating system refuses during one call. A write may break off
    after some bytes; a removal may fail silently. *)
Record DiskFaults := MkDiskFaults {
  df_MkdirAll : option GoError;
  df_Create : option GoError;
  df_Write : option (nat * GoError);
  df_Close : option GoError;
  df_Removes : bool;
}.

(** An [io.Reader]: its bytes, and the error that comes after them. *)
Record Reader := MkReader { rd_Data : string; rd_End : GoError }.

Definition io_EOF : GoError := ESentinel "io.EOF" "EOF".
Definition io_ErrUnexpectedEOF : GoError := ESentinel "io.ErrUnexpectedEOF" "unexpected EOF".

(** The first [n] bytes. *)
Definition take_bytes (n : nat) (s : string) : string := String.substring 0 n s.

(** [io.ReadFull(r, make([]byte, n))]: the bytes, and the error unless the buffer
    was filled. *)
Definition io_ReadFull (n : nat) (r : Reader) : string * option GoError :=
  let head := take_bytes n (rd_Data r) in
  (head,
   if (n <=? String.length (rd_Data r))%nat then None
   else if bool_decide (rd_End r = io_EOF) && negb (bool_decide (head = ""))
   then Some io_ErrUnexpectedEOF else Some (rd_End r)).

(** The error of a reader that is read to its end: none when that is [io.EOF]. *)
Definition read_error (r : Reader) : option GoError :=
  if bool_decide (rd_End r = io_EOF) then None else Some (rd_End r).

(** [io.Copy(dst, io.LimitReader(r, n))]: what was written, and the error. *)
Definition io_CopyLimited (faults : DiskFaults) (n : Z) (r : Reader) : string * option GoError :=
  let limit := Z.to_nat n in
  let data := take_bytes limit (rd_Data r) in
  let all := (data, if (limit <=? String.length (rd_Data r))%nat then None else read_error r) in
  match df_Write faults with
  | Some (k, e) => if (k <? String.length data)%nat then (take_bytes k data, Some e) else all
  | None => all
  end.

(** ** storage.go *)

(** 5 MiB. *)
Definition DefaultMaxSize : Z := Z.shiftl 5 20.

Definition ErrUnsupportedType : GoError :=
  ESentinel "storage.ErrUnsupportedType" "unsupported file type".
Definition ErrTooLarge : GoError := ESentinel "storage.ErrTooLarge" "file too large".

Record StorageService := MkStorageService { ss_Root : string; ss_MaxSize : Z }.

(** [New]. *)
Definition NewStorage (root : string) (maxSize : Z) : StorageService :=
  MkStorageService root (if maxSize <=? 0 then DefaultMaxSize else maxSize).

Definition allowed (contentType : string) : bool :=
  HasPrefix contentType "image/" || bool_decide (contentType = "application/pdf").

Definition extFor (contentType : string) : string :=
  if bool_decide (contentType = "image/jpeg") then ".jpg"
  else if bool_decide (contentType = "image/png") then ".png"
  else if bool_decide (contentType = "image/gif") then ".gif"
  else if bool_decide (contentType = "image/webp") then ".webp"
  else if bool_decide (contentType = "application/pdf") then ".pdf"
  else "".

Record SavedFile := MkSavedFile {
  sf_ID : UUID;
  sf_Path : string;
  sf_ContentType : string;
  sf_Size : Z;
}.

(** [os.Remove], its error ignored. *)
Definition os_Remove (faults : DiskFaults) (name : string) (disk : Disk) : Disk :=
  if df_Removes faults then delete name disk else disk.

Section storage.
Context {codec : UuidCodec} {sniffer : ContentSniffer}.
Context (s : StorageService) (faults : DiskFaults).

(** From the creation of the file on: the copy, [Close], and the limit. *)
Definition write_file (r : Reader) (id : UUID) (contentType : string) (disk : Disk)
    : (SavedFile + GoError) * Disk :=
  let relPath := uuid_String id +:+ extFor contentType in
  match df_Create faults with
  | Some e => (inr (EWrap "create file: " e ""), disk)
  | None =>
      let '(data, copyErr) := io_CopyLimited faults (add64 (ss_MaxSize s) 1) r in
      let written := Z.of_nat (String.length data) in
      let disk := <[relPath := data]> disk in
      match copyErr, df_Close faults with
      | Some e, _ => (inr (EWrap "write file: " e ""), os_Remove faults relPath disk)
      | None, Some e => (inr (EWrap "close file: " e ""), os_Remove faults relPath disk)
      | None, None =>
          if written >? ss_MaxSize s then (inr ErrTooLarge, os_Remove faults relPath disk)
          else (inl (MkSavedFile id relPath contentType written), disk)
      end
  end.

(** [Save]: the result and the disk after it. The head is read first and put in
    front of the rest again. *)
Definition Save_file (r : Reader) (disk : Disk) : M ((SavedFile + GoError) * Disk) :=
  let '(head, readErr) := io_ReadFull 512 r in
  match match readErr with
        | Some e => if bool_decide (e = io_EOF) || bool_decide (e = io_ErrUnexpectedEOF)
                    then None else Some e
        | None => None
        end with
  | Some e => mret (inr (EWrap "read file: " e ""), disk)
  | None =>
      let contentType := http_DetectContentType head in
      if negb (allowed contentType) then mret (inr ErrUnsupportedType, disk) else
      match df_MkdirAll faults with
      | Some e => mret (inr (EWrap "create storage root: " e ""), disk)
      | None => id ← uuid_New; mret (write_file r id contentType disk)
      end
  end.

(** ** handler.go *)

(** The form of an upload: the part, and what opening it gives. *)
Inductive FormFile := NoFile | Unopened | FileOf (r : Reader).

(** How the errors of [Save] are answered: the two sentinels by identity. *)
Definition upload_err (e : GoError) : AppError :=
  if bool_decide (e = ErrUnsupportedType) then BadRequest "فقط فایل تصویر یا PDF مجاز است."
  else if bool_decide (e = ErrTooLarge)
  then BadRequest "حجم فایل بیش از حد مجاز است (حداکثر ۵ مگابایت)."
  else Internal "خطا در ذخیره فایل.".

Definition uploadHandler (c : HttpCall) (form : FormFile) (disk : Disk)
    : M (Reply (UUID * string) * Disk) :=
  match form with
  | NoFile => mret (ReplyError (BadRequest "فایل ارسال نشده است."), disk)
  | Unopened => mret (ReplyError (BadRequest "خطا در خواندن فایل."), disk)
  | FileOf r =>
      '(saved, disk) ← Save_file r disk;
      match saved with
      | inr e => mret (ReplyError (upload_err e), disk)
      | inl f =>
          created ← attempt (Create (MkFile (sf_ID f) (sf_Path f) (sf_ContentType f) (sf_Size f)
                                       (us_ID <$> hc_User c) 0));
          mret (match created with
                | inl _ => ReplyJSON 201 (sf_ID f, "/files/" +:+ uuid_String (sf_ID f))
                | inr _ => ReplyError (Internal "خطا در ذخیره فایل.")
                end, disk)
      end
  end.

(** What [c.File] serves under the content type of the registry. *)
Inductive FileAnswer :=
  | FileServed (contentType content : string)
  | FileMissing404.

Definition downloadHandler (c : HttpCall) (disk : Disk) : M (Reply FileAnswer) :=
  let missing := NotFound "فایل یافت نشد." in
  match uuid_Parse (hc_Param c "id") with
  | None => mret (ReplyError missing)
  | Some id =>
      found ← attempt (First_id id);
      mret (match found with
            | inr _ => ReplyError missing
            | inl f => match disk !! fl_Path f with
                       | Some content => ReplyJSON 200 (FileServed (fl_ContentType f) content)
                       | None => ReplyJSON 404 FileMissing404
                       end
            end)
  end.
End storage.

(** ** What is stored

    What an upload leaves on the disk and in the registry, whatever fails. *)

Lemma length_take_bytes n s : String.length (take_bytes n s) = Nat.min n (String.length s).
Proof.
  unfold take_bytes. revert s. induction n as [|n IH]; intros [|c s]; cbn; [done..|]. by rewrite IH.
Qed.

Lemma take_bytes_all n s : (String.length s ≤ n)%nat → take_bytes n s = s.
Proof.
  unfold take_bytes. revert s. induction n as [|n IH]; intros [|c s] H; cbn in *; [done|lia|done|].
  by rewrite IH by lia.
Qed.

(** What may be stored: read to its end, an image or a PDF by its first bytes, no
    larger than the limit. *)
Definition storable {sniffer : ContentSniffer} (s : StorageService) (r : Reader) : Prop :=
  rd_End r = io_EOF ∧ allowed (http_DetectContentType (take_bytes 512 (rd_Data r))) = true ∧
  Z.of_nat (String.length (rd_Data r)) ≤ ss_MaxSize s.

(** The whole of the data is on the disk, under the name that was returned. *)
Record StoredAs {codec : UuidCodec} {sniffer : ContentSniffer} (s : StorageService) (r : Reader)
    (disk disk' : Disk) (f : SavedFile) : Prop := {
  sa_storable : storable s r;
  sa_type : sf_ContentType f = http_DetectContentType (take_bytes 512 (rd_Data r));
  sa_path : sf_Path f = uuid_String (sf_ID f) +:+ extFor (sf_ContentType f);
  sa_size : sf_Size f = Z.of_nat (String.length (rd_Data r));
  sa_disk : disk' = <[sf_Path f := rd_Data r]> disk;
}.

Definition no_faults : DiskFaults := MkDiskFaults None None None None true.

Section storage.
Context {codec : UuidCodec} {sniffer : ContentSniffer} (s : StorageService) (faults : DiskFaults).
Context (Hmax : 0 ≤ ss_MaxSize s < 2 ^ 63 - 1).

(** A refusal leaves at most one name touched, and no file under it as long as
    removals work. *)
Definition refused (disk disk' : Disk) : Prop :=
  ∃ name, (∀ other, other ≠ name → disk' !! other = disk !! other) ∧
    (df_Removes faults = true → disk' !! name = None ∨ disk' = disk).

Lemma refused_removed disk name data : refused disk (os_Remove faults name (<[name := data]> disk)).
Proof.
  exists name. unfold os_Remove. destruct (df_Removes faults); split.
  - intros other Hne. by rewrite lookup_delete_ne, lookup_insert_ne.
  - left. apply lookup_delete_eq.
  - intros other Hne. by rewrite lookup_insert_ne.
  - done.
Qed.

Lemma write_file_spec r id ct disk :
  ct = http_DetectContentType (take_bytes 512 (rd_Data r)) → allowed ct = true →
  let '(out, disk') := write_file s faults r id ct disk in
  match out with
  | inl f => StoredAs s r disk disk' f
  | inr _ => refused disk disk' ∧ (faults = no_faults → ¬ storable s r)
  end.
Proof.
  intros Hct Hall. unfold write_file.
  destruct (df_Create faults) as [e|] eqn:Ec.
  { split; [by exists ""; auto|]. intros ->. discriminate Ec. }
  assert (add64 (ss_MaxSize s) 1 = ss_MaxSize s + 1) as -> by (apply add64_id; unfold in64; lia).
  set (L := String.length (rd_Data r)). set (n := Z.to_nat (ss_MaxSize s + 1)).
  destruct (io_CopyLimited faults _ r) as [data err] eqn:Ecopy.
  assert (err = None → data = take_bytes n (rd_Data r) ∧ ((n ≤ L)%nat ∨ rd_End r = io_EOF)) as Hok.
  { unfold io_CopyLimited, read_error in Ecopy. fold L n in Ecopy. cbv zeta in Ecopy.
    intros ->. revert Ecopy. repeat case_match; intros [= <-];
      (split; [done|]); repeat match goal with H : bool_decide _ = true |- _ => apply bool_decide_eq_true in H end;
      first [by right|left; by apply Nat.leb_le]. }
  destruct err as [e|].
  { split; [apply refused_removed|]. intros ->. revert Ecopy. unfold io_CopyLimited, read_error. cbn.
    fold L n. destruct (Nat.leb_spec n L); [done|]. case_bool_decide; [done|]. by intros _ [? _]. }
  destruct (Hok eq_refl) as [-> Hend]. clear Hok. rewrite length_take_bytes. fold L.
  destruct (df_Close faults) as [e|] eqn:Ecl.
  { split; [apply refused_removed|]. intros ->. discriminate Ecl. }
  rewrite Z.gtb_ltb. destruct (Z.ltb_spec (ss_MaxSize s) (Z.of_nat (n `min` L))).
  { split; [apply refused_removed|]. intros _ (_ & _ & Hl). fold L in Hl. lia. }
  assert (take_bytes n (rd_Data r) = rd_Data r) as -> by (apply take_bytes_all; fold L; lia).
  assert (n `min` L = L)%nat as -> by lia.
  split; [|done..]. split_and!; [destruct Hend; [lia|done]|by rewrite <- Hct|fold L; lia].
Qed.

Lemma Save_file_spec (r : Reader) (disk : Disk) (env : Env) (w : World) :
  ∃ out disk', (Save_file s faults r disk env w).1 = Ok (out, disk') ∧
  w_db (Save_file s faults r disk env w).2 = w_db w ∧
  match out with
  | inl f => StoredAs s r disk disk' f
  | inr _ => refused disk disk' ∧ (faults = no_faults → ¬ storable s r)
  end.
Proof.
  unfold Save_file, io_ReadFull.
  set (readErr := if (512 <=? String.length (rd_Data r))%nat then _ else _).
  assert (∀ e, readErr = Some e → e ≠ io_EOF → e ≠ io_ErrUnexpectedEOF → rd_End r ≠ io_EOF) as Hread.
  { intros e. unfold readErr. destruct (512 <=? _)%nat; [done|].
    case_bool_decide; cbn; [|by intros [= <-]]. by destruct (negb _); intros [= <-]. }
  assert (refused disk disk) as Hsame by (exists ""; auto).
  cbv zeta. clearbody readErr.
  destruct (match readErr with Some e => _ | None => _ end) as [e|] eqn:Ee.
  { eexists _, _. split; [done|]. split; [done|]. split; [done|]. intros _ [Hend _].
    destruct readErr as [e'|]; [|done]. case_bool_decide; [done|]. case_bool_decide; [done|].
    by apply (Hread e'). }
  destruct (allowed _) eqn:Eall; cbn [negb].
  2:{ eexists _, _. split; [done|]. split; [done|]. split; [done|]. intros _ (_ & Hall & _). congruence. }
  destruct (df_MkdirAll faults) as [e|] eqn:Em.
  { eexists _, _. split; [done|]. split; [done|]. split; [done|]. intros ->. discriminate Em. }
  unfold uuid_New, mbind, M_bind, mret, M_ret.
  pose proof (write_file_spec r (env_uuid env (w_tick w)) _ disk eq_refl Eall) as H.
  destruct (write_file _ _ _ _ _ _) as [out disk'] eqn:Ew. exists out, disk'.
  split; [by rewrite <- Ew|]. by split.
Qed.

(** Only files named after an id drawn by the call are touched. *)
Lemma Save_file_others (r : Reader) (disk disk' : Disk) (env : Env) (w : World) out name :
  (Save_file s faults r disk env w).1 = Ok (out, disk') →
  (∀ n ext, name ≠ uuid_String (env_uuid env n) +:+ ext) → disk' !! name = disk !! name.
Proof.
  unfold Save_file. destruct (io_ReadFull 512 r) as [head readErr].
  destruct (match readErr with Some e => _ | None => _ end); [by intros [= _ <-]|].
  cbv zeta. destruct (negb (allowed _)); [by intros [= _ <-]|].
  destruct (df_MkdirAll faults); [by intros [= _ <-]|].
  unfold uuid_New, mbind, M_bind, mret, M_ret, write_file, os_Remove. cbn [fst].
  intros H Hname. revert H. specialize (Hname (w_tick w)).
  repeat case_match; intros [= _ <-]; try done;
    repeat first [rewrite lookup_delete_ne by done | rewrite lookup_insert_ne by done]; done.
Qed.
End storage.

Lemma created_file (row : File) d :
  holds (Create row) d (λ res d', ∀ x, res = Ok x → ∃ x' : File, row_at d' (fl_ID row) = Some x' ∧
    fl_Path x' = fl_Path row ∧ fl_ContentType x' = fl_ContentType row).
Proof.
  apply holds_Create; [by intros e x [=]|]. intros env now r' d' _ _ [= <-] ->. intros x _.
  eexists. rewrite row_at_put, decide_True by done. by split_and!.
Qed.

(** An upload that answers 201 leaves the bytes it read to their end on the disk,
    under the path and the type of the row it leaves in the registry. *)
Lemma upload_stored {codec : UuidCodec} {sniffer : ContentSniffer} (s : StorageService)
    (faults : DiskFaults) (Hmax : 0 ≤ ss_MaxSize s < 2 ^ 63 - 1) (c : HttpCall) (r : Reader)
    (disk disk1 : Disk) (env : Env) (w w1 : World) (id : UUID) (url : string) :
  uploadHandler s faults c (FileOf r) disk env w = (Ok (ReplyJSON 201 (id, url), disk1), w1) →
  ∃ f : File, row_at (w_db w1) id = Some f ∧ disk1 !! fl_Path f = Some (rd_Data r) ∧
    fl_ContentType f = http_DetectContentType (take_bytes 512 (rd_Data r)) ∧
    allowed (http_DetectContentType (take_bytes 512 (rd_Data r))) = true ∧ rd_End r = io_EOF.
Proof.
  destruct (Save_file_spec s faults Hmax r disk env w) as (out & disk' & Hsave & _ & Hout).
  unfold uploadHandler. unfold mbind, M_bind, mret, M_ret.
  destruct (Save_file s faults r disk env w) as [res ws]. cbn in Hsave. subst res.
  destruct out as [f|e]; [|by intros [=]].
  unfold attempt. set (row := MkFile _ _ _ _ _ _).
  pose proof (created_file row (w_db ws) env ws eq_refl) as Hc. cbv beta in Hc.
  destruct (Create row env ws) as [[x|e|x] wc]; cbn in Hc; [|by intros [=]..].
  destruct (Hc x eq_refl) as (x' & Hx & Hpath & Htype). intros [= <- _ <- <-].
  destruct Hout as [[Hend [Hall _]] Ht _ _ Hdisk].
  exists x'. rewrite Hpath, Htype, Hdisk. cbn. by rewrite lookup_insert_eq.
Qed.

Lemma download_serves {codec : UuidCodec} (c : HttpCall) (id : UUID) (f : File) (content : string)
    (disk : Disk) (env : Env) (w : World) :
  uuid_Parse (hc_Param c "id") = Some id → row_at (w_db w) id = Some f →
  disk !! fl_Path f = Some content → env_fault env (w_tick w) = None →
  (downloadHandler c disk env w).1 = Ok (ReplyJSON 200 (FileServed (fl_ContentType f) content)).
Proof.
  intros Hid Hrow Hdisk Hquery. unfold downloadHandler. rewrite Hid.
  unfold First_id, stmt, attempt. unfold mbind, M_bind, mret, M_ret.
  rewrite Hquery, Hrow. cbn. by rewrite Hdisk.
Qed.
