(* ===== verification/CalendarSpec.v ===== *)
(** * Digits and dates

    What a text of digits denotes. The calendar of [time] is right: a date is the
    one its day number was made from, and its text reads back. *)

From Stdlib Require Import Ascii Decimal DecimalString DecimalFacts DecimalN DecimalPos.
From S2P Require Import Prelude Golang Calendar BillingHandlers.

(** ** Digits

    What a text of digits denotes, and the loop over its bytes on an [int] that
    wraps. *)

Lemma wrap64_wrap a b : a mod 2 ^ 64 = b mod 2 ^ 64 → wrap64 a = wrap64 b.
Proof. intros E. unfold wrap64. rewrite Zplus_mod, E, <- Zplus_mod. done. Qed.

(** The number that digits append to [acc]. *)
Fixpoint appended (acc : Z) (u : Decimal.uint) : Z :=
  match u with
  | Decimal.Nil => acc
  | Decimal.D0 u => appended (10 * acc) u
  | Decimal.D1 u => appended (10 * acc + 1) u
  | Decimal.D2 u => appended (10 * acc + 2) u
  | Decimal.D3 u => appended (10 * acc + 3) u
  | Decimal.D4 u => appended (10 * acc + 4) u
  | Decimal.D5 u => appended (10 * acc + 5) u
  | Decimal.D6 u => appended (10 * acc + 6) u
  | Decimal.D7 u => appended (10 * acc + 7) u
  | Decimal.D8 u => appended (10 * acc + 8) u
  | Decimal.D9 u => appended (10 * acc + 9) u
  end.

Lemma appended_pos u acc : Z.pos (Pos.of_uint_acc u acc) = appended (Z.pos acc) u.
Proof.
  revert acc. induction u; intros acc; cbn [Pos.of_uint_acc appended]; [done|..];
    rewrite IHu; f_equal; lia.
Qed.

Lemma appended_of_uint u : Z.of_uint u = appended 0 u.
Proof.
  unfold Z.of_uint. induction u; cbn [Pos.of_uint appended]; [done|exact IHu|..];
    cbn [Z.of_N]; by rewrite appended_pos.
Qed.

Lemma wrap64_step acc i : add64 (mul64 (wrap64 acc) 10) i = wrap64 (10 * acc + i).
Proof.
  unfold add64, mul64. apply wrap64_wrap. unfold wrap64.
  rewrite (Zplus_mod (10 * acc)), (Zplus_mod _ i). f_equal. f_equal.
  rewrite Zminus_mod, Zmod_mod, <- Zminus_mod. replace (_ + 2 ^ 63 - 2 ^ 63) with
    (((acc + 2 ^ 63) mod 2 ^ 64 - 2 ^ 63) * 10) by lia.
  rewrite Zmult_mod, Zminus_mod, Zmod_mod, <- Zminus_mod, <- Zmult_mod. f_equal. lia.
Qed.

(** A character in front of digits: one more digit, or no number. *)
Lemma uint_of_char_Some ch u :
  match uint_of_char ch (Some u) with
  | Some v => is_digit ch = true ∧
      ∀ acc, appended acc v = appended (10 * acc + (Z.of_nat (nat_of_ascii ch) - 48)) u
  | None => is_digit ch = false
  end.
Proof.
  destruct ch as [[] [] [] [] [] [] [] []]; cbn [uint_of_char]; try reflexivity;
    (split; [reflexivity|]); intros acc; cbn [appended];
    first [reflexivity|rewrite <- (Z.add_0_r (10 * acc)) at 1; reflexivity].
Qed.

Lemma uint_of_char_None ch : uint_of_char ch None = None.
Proof. by destruct ch as [[] [] [] [] [] [] [] []]. Qed.

(** A number, character by character. *)
Lemma uint_of_string_cons ch s u : NilEmpty.uint_of_string (String ch s) = Some u →
  is_digit ch = true ∧ ∃ v, NilEmpty.uint_of_string s = Some v ∧
    ∀ acc, appended acc u = appended (10 * acc + (Z.of_nat (nat_of_ascii ch) - 48)) v.
Proof.
  cbn [NilEmpty.uint_of_string]. destruct (NilEmpty.uint_of_string s) as [v|]; [|by rewrite uint_of_char_None].
  intros E. pose proof (uint_of_char_Some ch v) as H. rewrite E in H. destruct H as [Hd Hv].
  split; [done|]. by exists v.
Qed.

Lemma digits_loop_Some s : ∀ u acc, NilEmpty.uint_of_string s = Some u →
  digits_loop (wrap64 acc) s = Some (wrap64 (appended acc u)).
Proof.
  induction s as [|ch s IH]; intros u acc; [by intros [= <-]|].
  intros (Hd & v & Ev & Hv)%uint_of_string_cons. cbn [digits_loop].
  by rewrite Hd, wrap64_step, (IH v), Hv.
Qed.

Lemma digits_loop_None s n : NilEmpty.uint_of_string s = None → digits_loop n s = None.
Proof.
  revert n. induction s as [|ch s IH]; intros n; cbn [NilEmpty.uint_of_string digits_loop]; [done|].
  destruct (NilEmpty.uint_of_string s) as [v|].
  - intros E. pose proof (uint_of_char_Some ch v) as H. rewrite E in H. by rewrite H.
  - intros _. rewrite IH by done. by destruct (is_digit ch).
Qed.

Lemma appended_nonneg u acc : 0 ≤ acc → 0 ≤ appended acc u.
Proof. revert acc. induction u; intros acc H; cbn [appended]; [done|apply IHu; lia..]. Qed.

(** Without a sign, [ParseInt] reads digits. *)
Lemma ParseInt_unsigned ch s : ch ≠ "-"%char → ch ≠ "+"%char →
  ParseInt (String ch s) = z ← parse_digits (String ch s); if decide (in64 z) then Some z else None.
Proof.
  intros Hm Hp. unfold ParseInt.
  assert (∀ (A B C : option Z), match String ch s with
    | String "-"%char _ => A | String "+"%char _ => B | _ => C end = C) as Hsign.
  { intros A B C. destruct ch as [[] [] [] [] [] [] [] []]; done. }
  by rewrite Hsign.
Qed.

Lemma ParseInt_digits s u : NilEmpty.uint_of_string s = Some u → s ≠ "" →
  ParseInt s = if decide (in64 (Z.of_uint u)) then Some (Z.of_uint u) else None.
Proof.
  intros E Hs. destruct s as [|ch s]; [done|].
  assert (is_digit ch = true) as Hd by (by destruct (uint_of_string_cons ch s u E)).
  rewrite ParseInt_unsigned by (by intros ->). unfold parse_digits. by rewrite E.
Qed.

(** A number of at least one that is no plain row of digits has a plus sign. *)
Lemma ParseInt_signed s n : NilEmpty.uint_of_string s = None → ParseInt s = Some n →
  HasPrefix s "+" = false → n < 1.
Proof.
  intros E. unfold ParseInt. destruct s as [|ch s]; [done|].
  assert (parse_digits (String ch s) = None) as Hp by (unfold parse_digits; by rewrite E).
  assert (∀ v, parse_digits s = Some v → 0 ≤ v) as Hpos.
  { intros v. unfold parse_digits. destruct s as [|a s]; [done|].
    destruct (NilEmpty.uint_of_string (String a s)) as [u|]; [|by intros [=]]. intros [= <-]. rewrite appended_of_uint. by apply appended_nonneg. }
  destruct (decide (ch = "-"%char)) as [->|Hm].
  { destruct (parse_digits s) as [v|] eqn:Ev; cbn; [|done]. specialize (Hpos v eq_refl).
    case_decide; [|done]. intros [= <-] _. lia. }
  destruct (decide (ch = "+"%char)) as [->|Hq].
  { intros _. cbn. by destruct s. }
  fold (ParseInt (String ch s)). rewrite ParseInt_unsigned, Hp by done. done.
Qed.

(** ** Years *)

(** The fourth piece of a cycle takes its extra day. *)
Lemma quarter q : 0 ≤ q ≤ 4 → q - q / 4 = Z.min q 3.
Proof.
  intros H. assert (q = 0 ∨ q = 1 ∨ q = 2 ∨ q = 3 ∨ q = 4) as [->|[->|[->|[->| ->]]]] by lia; reflexivity.
Qed.

Lemma quotient r w k : 0 < w → 0 ≤ r < w * (k + 1) → 0 ≤ r / w ≤ k ∧ w * (r / w) ≤ r < w * (r / w + 1).
Proof.
  intros Hw Hr. pose proof (Z.mul_div_le r w Hw). pose proof (Z.mul_succ_div_gt r w Hw).
  split; [|lia]. split; [apply Z.div_pos; lia|]. apply Z.lt_succ_r, Z.div_lt_upper_bound; lia.
Qed.

(** The year of a day number, piece by piece of the 400-year cycle. *)
Lemma Year_bracket t : let n := t / Day in
  days_before_year (Year t) ≤ n < days_before_year (Year t) + (if is_leap (Year t) then 366 else 365).
Proof.
  intros n. unfold Year. fold n. cbv zeta.
  set (a := n / 146097). set (r := n - 146097 * a).
  assert (0 ≤ r < 146097) as Hr by (unfold r, a; pose proof (Z.mod_pos_bound n 146097); pose proof (Z.div_mod n 146097); lia).
  set (b := r / 36524 - r / 36524 / 4).
  assert (0 ≤ b ≤ 3 ∧ 36524 * b ≤ r ∧ (r < 36524 * (b + 1) ∨ b = 3)) as (Hb & Hb1 & Hb2).
  { destruct (quotient r 36524 4) as [Hq Hq1]; [lia..|]. unfold b. rewrite quarter by done. lia. }
  set (r1 := r - 36524 * b). set (c := r1 / 1461).
  assert (0 ≤ c ≤ 24 ∧ 1461 * c ≤ r1 < 1461 * (c + 1)) as [Hc Hc1].
  { apply quotient; lia. }
  set (r2 := r1 - 1461 * c). set (e := r2 / 365 - r2 / 365 / 4).
  assert (0 ≤ e ≤ 3 ∧ 365 * e ≤ r2 ∧ (r2 < 365 * (e + 1) ∨ e = 3 ∧ r2 < 1461)) as (He & He1 & He2).
  { destruct (quotient r2 365 4) as [Hq Hq1]; [lia..|]. unfold e. rewrite quarter by done. lia. }
  clearbody b c e. unfold days_before_year.
  replace (400 * a + 100 * b + 4 * c + e + 1 - 1) with (400 * a + 100 * b + 4 * c + e) by lia.
  assert ((400 * a + 100 * b + 4 * c + e) / 4 = 100 * a + 25 * b + c) as ->
    by (symmetry; apply (Z.div_unique _ _ _ e); lia).
  assert ((400 * a + 100 * b + 4 * c + e) / 100 = 4 * a + b) as ->
    by (symmetry; apply (Z.div_unique _ _ _ (4 * c + e)); lia).
  assert ((400 * a + 100 * b + 4 * c + e) / 400 = a) as ->
    by (symmetry; apply (Z.div_unique _ _ _ (100 * b + 4 * c + e)); lia).
  destruct (is_leap _) eqn:El; [lia|]. split; [lia|].
  (* not a leap year: the fourth year of a cycle that lacks its day *)
  destruct (decide (e = 3)) as [->|]; [|lia].
  unfold is_leap in El.
  assert ((400 * a + 100 * b + 4 * c + 3 + 1) mod 4 = 0) as E4
    by (symmetry; apply (Z.mod_unique _ _ (100 * a + 25 * b + c + 1)); lia).
  rewrite E4 in El. cbn [Z.eqb andb] in El. apply orb_false_iff in El as [El1 El2].
  apply negb_false_iff, Z.eqb_eq in El1. apply Z.eqb_neq in El2.
  destruct (decide (c = 24)) as [->|].
  - destruct (decide (b = 3)) as [->|]; [|lia]. exfalso. apply El2.
    symmetry. apply (Z.mod_unique _ _ (a + 1)); lia.
  - exfalso. revert El1.
    assert ((400 * a + 100 * b + 4 * c + 3 + 1) mod 100 = 4 * c + 4) as ->
      by (symmetry; apply (Z.mod_unique _ _ (4 * a + b)); lia). lia.
Qed.

Lemma days_before_year_succ y :
  days_before_year (y + 1) = days_before_year y + (if is_leap y then 366 else 365).
Proof.
  unfold days_before_year, is_leap. replace (y + 1 - 1) with y by lia.
  pose proof (Z.div_mod y 4). pose proof (Z.div_mod y 100). pose proof (Z.div_mod y 400).
  pose proof (Z.mod_pos_bound y 4). pose proof (Z.mod_pos_bound y 100). pose proof (Z.mod_pos_bound y 400).
  pose proof (Z.div_mod (y - 1) 4). pose proof (Z.div_mod (y - 1) 100). pose proof (Z.div_mod (y - 1) 400).
  pose proof (Z.mod_pos_bound (y - 1) 4). pose proof (Z.mod_pos_bound (y - 1) 100).
  pose proof (Z.mod_pos_bound (y - 1) 400).
  destruct (Z.eqb_spec (y mod 4) 0), (Z.eqb_spec (y mod 100) 0), (Z.eqb_spec (y mod 400) 0); cbn; lia.
Qed.

Lemma days_before_year_mono y y' : y ≤ y' → days_before_year y ≤ days_before_year y'.
Proof.
  intros H. replace y' with (y + Z.of_nat (Z.to_nat (y' - y))) by lia.
  generalize (Z.to_nat (y' - y)) as k. clear H. induction k as [|k IH]; [by rewrite Z.add_0_r|].
  rewrite Nat2Z.inj_succ, Z.add_succ_r, <- Z.add_1_r, days_before_year_succ. destruct (is_leap _); lia.
Qed.

(** A day of a year is in that year. *)
Lemma Year_unique y n t : t / Day = n →
  days_before_year y ≤ n < days_before_year (y + 1) → Year t = y.
Proof.
  intros E H. pose proof (Year_bracket t) as B. cbv zeta in B. rewrite E in B.
  rewrite <- days_before_year_succ in B.
  destruct (Z.lt_trichotomy (Year t) y) as [Hlt|[->|Hgt]]; [|done|].
  - pose proof (days_before_year_mono (Year t + 1) y ltac:(lia)). lia.
  - pose proof (days_before_year_mono (y + 1) (Year t) ltac:(lia)). lia.
Qed.

(** ** Months and days *)

Record ValidDate (y m d : Z) : Prop := {
  vd_month : 1 ≤ m ≤ 12;
  vd_day : 1 ≤ d ≤ days_in_month y m;
}.

Lemma month_cases m : 1 ≤ m ≤ 12 →
  m = 1 ∨ m = 2 ∨ m = 3 ∨ m = 4 ∨ m = 5 ∨ m = 6 ∨ m = 7 ∨ m = 8 ∨ m = 9 ∨ m = 10 ∨ m = 11 ∨ m = 12.
Proof. lia. Qed.

(** The lengths of the months and the days before them, of a year with or without
    the extra day. *)
Definition month_days (leap : bool) (m : Z) : Z :=
  if m =? 2 then (if leap then 29 else 28)
  else if (m =? 4) || (m =? 6) || (m =? 9) || (m =? 11) then 30 else 31.
Definition days_before (leap : bool) (m : Z) : Z :=
  sum_of (λ k, month_days leap (Z.of_nat k)) (seq 1 (Z.to_nat (m - 1))).

Lemma month_days_eq y m : days_in_month y m = month_days (is_leap y) m.
Proof. done. Qed.
Lemma days_before_eq y m : days_before_month y m = days_before (is_leap y) m.
Proof. done. Qed.

Lemma month_days_pos leap m : 28 ≤ month_days leap m.
Proof. unfold month_days. repeat case_match; lia. Qed.

Lemma days_before_succ leap m : 1 ≤ m →
  days_before leap (m + 1) = days_before leap m + month_days leap m.
Proof.
  intros H. unfold days_before. replace (Z.to_nat (m + 1 - 1)) with (S (Z.to_nat (m - 1))) by lia.
  rewrite seq_S, sum_of_app. f_equal. unfold sum_of. cbn. rewrite Z.add_0_r. f_equal. lia.
Qed.

Lemma days_before_mono leap m m' : 1 ≤ m ≤ m' → days_before leap m ≤ days_before leap m'.
Proof.
  intros H. replace m' with (m + Z.of_nat (Z.to_nat (m' - m))) by lia.
  generalize (Z.to_nat (m' - m)) as k. induction k as [|k IH]; [by rewrite Z.add_0_r|].
  rewrite Nat2Z.inj_succ, Z.add_succ_r, <- Z.add_1_r, days_before_succ by lia.
  pose proof (month_days_pos leap (m + Z.of_nat k)). lia.
Qed.

Lemma days_before_year_end leap : days_before leap 13 = if leap then 366 else 365.
Proof. by destruct leap. Qed.

Lemma month_fits y m d : ValidDate y m d →
  0 ≤ days_before_month y m + (d - 1) < (if is_leap y then 366 else 365).
Proof.
  intros [Hm Hd]. rewrite month_days_eq in Hd. rewrite days_before_eq, <- days_before_year_end.
  pose proof (days_before_mono (is_leap y) 1 m ltac:(lia)).
  pose proof (days_before_mono (is_leap y) (m + 1) 13 ltac:(lia)) as H13.
  rewrite days_before_succ in H13 by lia. change (days_before (is_leap y) 1) with 0 in *. lia.
Qed.

(** The months that have begun by a day of the [m]-th are those up to it. *)
Lemma Month_of_day leap m d : 1 ≤ m ≤ 12 → 1 ≤ d ≤ month_days leap m →
  1 + Z.of_nat (length (List.filter (λ k, days_before leap (Z.of_nat k) <=? days_before leap m + (d - 1))
    (seq 2 11))) = m.
Proof.
  intros Hm Hd. rewrite (filter_ext_in _ (λ k, Z.of_nat k <=? m)).
  - apply month_cases in Hm. by repeat destruct Hm as [->|Hm]; try subst m.
  - intros k Hk%in_seq. destruct (Z.leb_spec (Z.of_nat k) m).
    + apply Z.leb_le. pose proof (days_before_mono leap (Z.of_nat k) m ltac:(lia)). lia.
    + apply Z.leb_gt. pose proof (days_before_mono leap (m + 1) (Z.of_nat k) ltac:(lia)) as H1.
      rewrite days_before_succ in H1 by lia. lia.
Qed.

(** *** A date and its day number *)

Lemma DateUTC_days y m d : DateUTC y m d / Day = days_before_year y + days_before_month y m + (d - 1).
Proof. unfold DateUTC. by rewrite Z.div_mul. Qed.

(** The clock of a date reads the date. *)
Lemma DateUTC_reads y m d : ValidDate y m d →
  Year (DateUTC y m d) = y ∧ Month (DateUTC y m d) = m ∧ DayOfMonth (DateUTC y m d) = d.
Proof.
  intros H. pose proof (month_fits y m d H) as Hfit. destruct H as [Hm Hd].
  assert (Year (DateUTC y m d) = y) as Ey.
  { apply (Year_unique y _ _ (DateUTC_days y m d)). rewrite days_before_year_succ. lia. }
  assert (Month (DateUTC y m d) = m) as Em.
  { unfold Month. rewrite Ey, DateUTC_days. cbv zeta.
    replace (_ + days_before_month y m + (d - 1) - _) with (days_before_month y m + (d - 1)) by lia.
    by apply (Month_of_day (is_leap y)). }
  split_and!; [done..|]. unfold DayOfMonth. rewrite Ey, Em, DateUTC_days. cbv zeta. lia.
Qed.

Lemma month_found leap x n : 0 ≤ x → x < days_before leap (Z.of_nat n + 1) →
  ∃ m, 1 ≤ m ≤ Z.of_nat n ∧ days_before leap m ≤ x < days_before leap (m + 1).
Proof.
  intros Hx. induction n as [|n IH]; intros Hn; [change (days_before leap _) with 0 in Hn; lia|].
  destruct (Z.lt_ge_cases x (days_before leap (Z.of_nat n + 1))) as [H|H].
  - destruct (IH H) as (m & Hm & Hb). exists m. split; [lia|done].
  - exists (Z.of_nat (S n)). split; [lia|]. replace (Z.of_nat (S n)) with (Z.of_nat n + 1) in * by lia.
    done.
Qed.

(** Every instant has a valid date, of its own day. *)
Lemma date_of t : ValidDate (Year t) (Month t) (DayOfMonth t) ∧
  DateUTC (Year t) (Month t) (DayOfMonth t) = TruncateDay t.
Proof.
  pose proof (Year_bracket t) as B. cbv zeta in B. rewrite <- days_before_year_end in B.
  set (x := t / Day - days_before_year (Year t)).
  destruct (month_found (is_leap (Year t)) x 12) as (m & Hm & Hx);
    [unfold x; lia|unfold x; change (Z.of_nat 12 + 1) with 13; lia|].
  rewrite days_before_succ in Hx by lia. set (d := x - days_before (is_leap (Year t)) m + 1).
  assert (Month t = m) as Em.
  { rewrite <- (Month_of_day (is_leap (Year t)) m d) by (unfold d; lia). unfold Month. cbv zeta. fold x.
    do 3 f_equal. apply filter_ext. intros k. rewrite days_before_eq. f_equal. unfold d. lia. }
  assert (DayOfMonth t = d) as Ed
    by (unfold DayOfMonth; cbv zeta; rewrite Em, days_before_eq; unfold d, x; lia).
  rewrite Em, Ed. split; [split; [lia|rewrite month_days_eq; unfold d; lia]|].
  unfold DateUTC, TruncateDay. rewrite days_before_eq.
  replace (_ + _ + (d - 1)) with (t / Day) by (unfold d, x; lia).
  pose proof (Z.div_mod t Day ltac:(done)). lia.
Qed.

(** ** The text of a date *)

Fixpoint nb (u : Decimal.uint) : nat :=
  match u with
  | Nil => 0
  | D0 u | D1 u | D2 u | D3 u | D4 u | D5 u | D6 u | D7 u | D8 u | D9 u => S (nb u)
  end.

Lemma string_of_uint_digits u :
  all_digits (NilEmpty.string_of_uint u) = true ∧ String.length (NilEmpty.string_of_uint u) = nb u.
Proof. induction u; cbn; naive_solver. Qed.

Lemma appended_ge u acc : 0 ≤ acc → acc * 10 ^ Z.of_nat (nb u) ≤ appended acc u.
Proof.
  revert acc. induction u; intros acc H; cbn [nb appended]; rewrite ?Nat2Z.inj_succ, ?Z.pow_succ_r by lia;
    [cbn; lia|..];
    match goal with |- _ ≤ appended ?a _ => specialize (IHu a ltac:(lia)) end;
    pose proof (Z.pow_nonneg 10 (Z.of_nat (nb u))); nia.
Qed.

(** A positive number is written without leading zeros. *)
Lemma to_uint_head p u : Pos.to_uint p ≠ D0 u.
Proof.
  intros E. pose proof (DecimalN.Unsigned.to_of (Pos.to_uint p)) as H.
  unfold N.of_uint in H. rewrite DecimalPos.Unsigned.of_to in H. cbn [N.to_uint] in H.
  rewrite E in H. unfold unorm in H. cbn [nzhead] in H.
  destruct (nzhead u) eqn:En; try discriminate H.
  - injection H as ->. pose proof (DecimalPos.Unsigned.of_to p) as Hp. by rewrite E in Hp.
  - by apply (nzhead_nonzero u _) in En.
Qed.

Lemma FormatInt_nat z : 0 ≤ z → ∃ u, FormatInt z = NilEmpty.string_of_uint u ∧ Z.of_uint u = z ∧
  (u = D0 Nil ∨ 10 ^ (Z.of_nat (nb u) - 1) ≤ z ∧ u ≠ Nil).
Proof.
  intros Hz. destruct z as [|p|p]; [|unfold FormatInt; cbn [Z.to_int NilZero.string_of_int]|lia].
  { exists (D0 Nil). split_and!; [done..|]. by left. }
  pose proof (DecimalPos.Unsigned.to_uint_nonnil p) as Hnil.
  assert (Z.of_uint (Pos.to_uint p) = Z.pos p) as Hv
    by (unfold Z.of_uint; by rewrite DecimalPos.Unsigned.of_to).
  exists (Pos.to_uint p). split_and!; [by destruct (Pos.to_uint p)|done|]. right. split; [|done].
  rewrite appended_of_uint in Hv. rewrite <- Hv. pose proof (to_uint_head p) as Hhead.
  destruct (Pos.to_uint p) as [|u|u|u|u|u|u|u|u|u|u] eqn:E; try done; [by destruct (Hhead u)|..];
    cbn [nb appended]; rewrite Nat2Z.inj_succ, <- Z.add_1_r, Z.add_simpl_r;
    match goal with |- _ ≤ appended ?a u => pose proof (appended_ge u a ltac:(lia)) end;
    pose proof (Z.pow_nonneg 10 (Z.of_nat (nb u))); lia.
Qed.

Lemma all_digits_app s t : all_digits (s +:+ t) = all_digits s && all_digits t.
Proof.
  induction s as [|c s IH]; [done|]. change (String c s +:+ t) with (String c (s +:+ t)). cbn.
  by rewrite IH, andb_assoc.
Qed.

Lemma zeros_digits n : all_digits (zeros n) = true ∧ String.length (zeros n) = n.
Proof. induction n; cbn; naive_solver. Qed.

Lemma length_text_app s t : String.length (s +:+ t) = (String.length s + String.length t)%nat.
Proof.
  induction s as [|c s IH]; [done|]. change (String c s +:+ t) with (String c (s +:+ t)). cbn. by rewrite IH.
Qed.

(** The padded text of a number that fits has the width, in digits, and the value. *)
Lemma FormatPad_fits w z : (1 ≤ w)%nat → 0 ≤ z < 10 ^ Z.of_nat w →
  String.length (FormatPad w z) = w ∧ all_digits (FormatPad w z) = true ∧
  parse_digits (FormatPad w z) = Some z.
Proof.
  intros Hw Hz. assert (parse_digits (FormatPad w z) = Some z) as Hp by (apply parse_digits_FormatPad; lia).
  split_and!; [..|done]; unfold FormatPad; destruct (Z.ltb_spec z 0); try lia; rewrite Z.abs_eq by lia;
    destruct (FormatInt_nat z) as (u & -> & _ & Hu); try lia;
    destruct (string_of_uint_digits u) as [Hd Hl];
    destruct (zeros_digits (w - String.length (NilEmpty.string_of_uint u))) as [Hzd Hzl].
  - rewrite length_text_app, Hzl, Hl.
    assert (nb u ≤ w)%nat; [|lia]. destruct Hu as [->|[Hge _]]; [done|].
    assert (Z.of_nat (nb u) - 1 < Z.of_nat w); [|lia]. apply (Z.pow_lt_mono_r_iff 10); lia.
  - by rewrite all_digits_app, Hzd, Hd.
Qed.

(** *** A date's text reads back *)

Lemma ParseDate_Format y m d : 0 ≤ y < 10000 → ValidDate y m d →
  ParseDate (FormatMonth y m +:+ "-" +:+ FormatPad 2 d) = Some (DateUTC y m d).
Proof.
  intros Hy Hv. pose proof Hv as [Hm Hd].
  assert (d ≤ 31) by (unfold days_in_month in Hd; repeat case_match; lia).
  destruct (FormatPad_fits 4 y) as (Ly & Ay & Py); [lia..|].
  destruct (FormatPad_fits 2 m) as (Lm & Am & Pm); [lia..|].
  destruct (FormatPad_fits 2 d) as (Ld & Ad & Pd); [lia..|].
  unfold FormatMonth. revert Ay Py Am Pm Ad Pd.
  generalize dependent (FormatPad 4 y). intros sy Ly. generalize dependent (FormatPad 2 m). intros sm Lm.
  generalize dependent (FormatPad 2 d). intros sd Ld. intros.
  destruct sy as [|c1 [|c2 [|c3 [|c4 [|]]]]]; try discriminate Ly.
  destruct sm as [|c5 [|c6 [|]]]; try discriminate Lm.
  destruct sd as [|c7 [|c8 [|]]]; try discriminate Ld.
  change (ParseDate _) with (ParseDate (String c1 (String c2 (String c3 (String c4 (String "-"
    (String c5 (String c6 (String "-" (String c7 (String c8 ""))))))))))).
  unfold ParseDate. cbv zeta. rewrite Ay, Am, Ad. cbn [andb].
  rewrite !bool_decide_eq_true_2 by done. cbn [andb]. rewrite Py, Pm, Pd. cbn [mbind option_bind].
  destruct (Z.leb_spec 1 m), (Z.leb_spec m 12), (Z.leb_spec 1 d), (Z.leb_spec d (days_in_month y m));
    done || lia.
Qed.

Lemma ParseDate_FormatDate t : 0 ≤ Year t < 10000 → ParseDate (FormatDate t) = Some (TruncateDay t).
Proof.
  intros Hy. destruct (date_of t) as [Hv <-]. unfold FormatDate. by apply ParseDate_Format.
Qed.

(** ** A text that reads is the text of its date *)

Fixpoint text_value (acc : Z) (s : string) : Z :=
  match s with
  | EmptyString => acc
  | String c s' => text_value (10 * acc + (Z.of_nat (nat_of_ascii c) - 48)) s'
  end.

Lemma digit_range c : is_digit c = true → 48 ≤ Z.of_nat (nat_of_ascii c) ≤ 57.
Proof. unfold is_digit. rewrite bool_decide_eq_true. lia. Qed.

Lemma text_value_acc s acc : all_digits s = true →
  text_value acc s = acc * 10 ^ Z.of_nat (String.length s) + text_value 0 s ∧
  0 ≤ text_value 0 s < 10 ^ Z.of_nat (String.length s).
Proof.
  revert acc. induction s as [|c s IH]; intros acc H; cbn [text_value String.length] in *; [lia|].
  cbn in H. apply andb_prop in H as [Hc Hs]. apply digit_range in Hc.
  destruct (IH (10 * acc + (Z.of_nat (nat_of_ascii c) - 48)) Hs) as [E1 Hb].
  destruct (IH (10 * 0 + (Z.of_nat (nat_of_ascii c) - 48)) Hs) as [E2 _].
  rewrite E1, E2, Nat2Z.inj_succ, Z.pow_succ_r by lia. nia.
Qed.

Lemma text_value_uint s : ∀ u acc, NilEmpty.uint_of_string s = Some u → text_value acc s = appended acc u.
Proof.
  induction s as [|ch s IH]; intros u acc; [by intros [= <-]|].
  intros (_ & v & Ev & Hv)%uint_of_string_cons. cbn [text_value]. by rewrite (IH v), Hv.
Qed.

Lemma parse_digits_value s v : parse_digits s = Some v → text_value 0 s = v.
Proof.
  unfold parse_digits. destruct s as [|c s]; [done|].
  destruct (NilEmpty.uint_of_string (String c s)) as [u|] eqn:E; [|by intros [=]]. intros [= <-].
  by rewrite (text_value_uint _ _ _ E), appended_of_uint.
Qed.

Lemma text_value_inj s t : all_digits s = true → all_digits t = true →
  String.length s = String.length t → text_value 0 s = text_value 0 t → s = t.
Proof.
  revert t. induction s as [|c s IH]; intros [|d t] Hs Ht Hl E; try done.
  cbn in Hs, Ht, Hl. apply andb_prop in Hs as [Hc Hs], Ht as [Hd Ht]. injection Hl as Hl.
  cbn [text_value] in E.
  destruct (text_value_acc s (10 * 0 + (Z.of_nat (nat_of_ascii c) - 48)) Hs) as [E1 B1].
  destruct (text_value_acc t (10 * 0 + (Z.of_nat (nat_of_ascii d) - 48)) Ht) as [E2 B2].
  rewrite E1, E2, Hl in E. rewrite Hl in B1.
  assert (nat_of_ascii c = nat_of_ascii d) as Ecd by nia.
  f_equal; [by rewrite <- (ascii_nat_embedding c), <- (ascii_nat_embedding d), Ecd|].
  apply IH; [done..|]. rewrite Ecd in E. lia.
Qed.

(** A row of digits is the padded text of its value. *)
Lemma FormatPad_of_digits w s v : (1 ≤ w)%nat → String.length s = w → all_digits s = true →
  parse_digits s = Some v → FormatPad w v = s.
Proof.
  intros Hw Hl Ha Hp. pose proof (parse_digits_value s v Hp) as Hv.
  destruct (text_value_acc s 0 Ha) as [_ Hb]. rewrite Hv, Hl in Hb.
  destruct (FormatPad_fits w v Hw Hb) as (Lf & Af & Pf). apply text_value_inj; [done..|congruence|].
  by rewrite Hv, (parse_digits_value _ _ Pf).
Qed.

Lemma ParseDate_inv s t : ParseDate s = Some t →
  FormatDate t = s ∧ 0 ≤ Year t < 10000 ∧ TruncateDay t = t.
Proof.
  unfold ParseDate. do 10 (destruct s as [|? s]; [done|]). destruct s; [|done].
  cbv zeta. match goal with |- (if ?b then _ else _) = _ → _ => destruct b eqn:Eb end; [|done].
  rewrite !andb_true_iff, !bool_decide_eq_true in Eb. destruct Eb as [[[[-> ->] Ay] Am] Ad].
  match type of Ay with all_digits ?y = true => set (sy := y) in * end.
  match type of Am with all_digits ?y = true => set (sm := y) in * end.
  match type of Ad with all_digits ?y = true => set (sd := y) in * end.
  destruct (parse_digits sy) as [y|] eqn:Py; [|done]. destruct (parse_digits sm) as [m|] eqn:Pm; [|done].
  destruct (parse_digits sd) as [d|] eqn:Pd; [|done]. cbn [mbind option_bind].
  match goal with |- (if ?b then _ else _) = _ → _ => destruct b eqn:Ev end; [|done]. intros [= <-].
  rewrite !andb_true_iff, !Z.leb_le in Ev.
  assert (ValidDate y m d) as Hv by (split; lia).
  destruct (DateUTC_reads y m d Hv) as (Ey & Em & Ed).
  pose proof (parse_digits_value _ _ Py) as Hy. destruct (text_value_acc sy 0 Ay) as [_ Hb].
  rewrite Hy in Hb. change (10 ^ Z.of_nat (String.length sy)) with 10000 in Hb.
  split_and!; [|lia..|].
  - unfold FormatDate, FormatMonth. rewrite Ey, Em, Ed.
    rewrite (FormatPad_of_digits 4 sy y), (FormatPad_of_digits 2 sm m), (FormatPad_of_digits 2 sd d)
      by (done || lia). done.
  - unfold TruncateDay, DateUTC. rewrite Z_mod_mult. lia.
Qed.
