(* ===== verification/Wire.v ===== *)
(** * The wire

    The marshalling the code writes itself: money as text, dates, the UUID[]
    column of a cost item, and the two payment types
    ([billing/models.go], [building/occupancy_models.go], [payment/marshal.go]). *)

From Stdlib Require Import Ascii.
From S2P Require Import Prelude Golang Net Calendar Errors Models PaymentRepo.

(** ** encoding/json *)

(** A JSON value, its numbers by their literals. *)
Inductive JsonText :=
  | JTNull
  | JTBool (b : bool)
  | JTNumber (literal : string)
  | JTString (s : string)
  | JTArray (l : list JsonText)
  | JTObject (fields : list (string * JsonText)).

(** [json.Unmarshal] into a string: [null] leaves it empty. *)
Definition json_into_string (j : JsonText) : Res string :=
  match j with
  | JTString s => Ok s
  | JTNull => Ok ""
  | _ => Err (EText "json: cannot unmarshal into Go value of type string")
  end.

(** [json.Unmarshal] into an [int64]: [null] leaves it zero. *)
Definition json_into_int64 (j : JsonText) : Res Z :=
  let bad := Err (EText "json: cannot unmarshal into Go value of type int64") in
  match j with
  | JTNumber literal => match ParseInt literal with Some n => Ok n | None => bad end
  | JTNull => Ok 0
  | _ => bad
  end.

(** A value the database driver hands over. *)
Inductive DriverValue :=
  | DvNull
  | DvTime (t : Time)
  | DvString (s : string)
  | DvBytes (s : string)
  | DvOther (type : string).

(** ** Money *)

Definition Money_MarshalJSON (m : Money) : JsonText := JTString (FormatInt m).

(** The text first; a failure there is final, a number is a second form. *)
Definition Money_UnmarshalJSON (j : JsonText) : Res Money :=
  match json_into_string j with
  | Ok s => match ParseInt s with
            | Some v => Ok v
            | None => Err (EText ("مبلغ نامعتبر است: " +:+ s))
            end
  | _ => match json_into_int64 j with
         | Ok n => Ok n
         | _ => Err (EText "مبلغ نامعتبر است")
         end
  end.

(** ** building.Date *)

Definition parsing_time (s : string) : GoError := EText ("parsing time " +:+ quote s).

Definition time_Parse_date (s : string) : Res Time :=
  match ParseDate s with Some t => Ok t | None => Err (parsing_time s) end.

(** [MarshalJSON] of a date, read in UTC. *)
Definition Date_MarshalJSON (d : Time) : JsonText := JTString (FormatDate d).

Definition Date_UnmarshalJSON (j : JsonText) : Res Time :=
  s ← json_into_string j;
  match time_Parse_date s with
  | Err e => Err (EWrap "date must be YYYY-MM-DD: " e "")
  | r => r
  end.

Definition Date_Value (d : Time) : DriverValue := DvTime d.

Definition Date_Scan (v : DriverValue) : Res Time :=
  match v with
  | DvNull => Ok 0
  | DvTime t => Ok t
  | DvBytes s | DvString s => time_Parse_date s
  | DvOther type => Err (EText ("unsupported date scan type " +:+ type))
  end.

(** ** UnitIDList *)

(** [strings.Trim] with a cutset of ASCII bytes. *)
Definition Trim (cutset : list string) (s : string) : string := trim_right cutset (trim_left cutset s).

(** [strings.Split(s, ",")]. *)
Fixpoint split_commas (s : string) : list string :=
  match s with
  | EmptyString => [""]
  | String c s' =>
      if bool_decide (c = ","%char) then "" :: split_commas s'
      else match split_commas s' with
           | part :: parts => String c part :: parts
           | [] => [String c ""]
           end
  end.

Section unit_ids.
Context {codec : UuidCodec}.

Definition UnitIDList_Value (u : list UUID) : DriverValue :=
  DvString ("{" +:+ join "," (uuid_String <$> u) +:+ "}").

Fixpoint parse_ids (parts : list string) : Res (list UUID) :=
  match parts with
  | [] => Ok []
  | p :: parts =>
      match uuid_Parse (Trim [bytes [34%nat]] p) with
      | Some id => rest ← parse_ids parts; Ok (id :: rest)
      | None => Err (EText "invalid UUID")
      end
  end.

(** [None] is the nil list of a NULL column. *)
Definition UnitIDList_Scan (v : DriverValue) : Res (option (list UUID)) :=
  let scan s :=
    let s := Trim ["{"; "}"] s in
    if bool_decide (s = "") then Ok (Some []) else out ← parse_ids (split_commas s); Ok (Some out) in
  match v with
  | DvNull => Ok None
  | DvString s | DvBytes s => scan s
  | DvTime _ => Err (EText "unit_ids: unsupported type time.Time")
  | DvOther type => Err (EText ("unit_ids: unsupported type " +:+ type))
  end.
End unit_ids.

(** ** payment/marshal.go *)

Section payments.
Context {codec : UuidCodec} {loc : Location}.

(** The fraction of a second, without its trailing zeros. *)
Definition FormatNano (t : Time) : string :=
  if t mod Second =? 0 then "" else "." +:+ trim_right ["0"] (FormatPad 9 (t mod Second)).

(** [time.Time.MarshalJSON]: RFC 3339 with the fraction, or an error outside the
    years and zones that it can write. *)
Definition time_MarshalJSON (t : Time) : Res JsonText :=
  let s := local t mod Day / Second in
  if (Year (local t) <? 0) || (9999 <? Year (local t))
  then Err (EText "Time.MarshalJSON: year outside of range [0,9999]")
  else if 24 * Hour <=? Z.abs (utc_offset t)
  then Err (EText "Time.MarshalJSON: timezone hour outside of range [0,23]")
  else Ok (JTString (FormatDate (local t) +:+ "T" +:+ FormatPad 2 (s / 3600) +:+ ":"
    +:+ FormatPad 2 (s / 60 mod 60) +:+ ":" +:+ FormatPad 2 (s mod 60)
    +:+ FormatNano (local t) +:+ FormatZone (utc_offset t))).

Definition json_id (u : UUID) : JsonText := JTString (uuid_String u).

(** A field with [omitempty]. *)
Definition omit_empty {A} (name : string) (f : A → JsonText) (v : option A) : list (string * JsonText) :=
  match v with Some a => [(name, f a)] | None => [] end.

(** The promoted fields come first, without those the outer struct overrides. *)
Definition UnitBalance_MarshalJSON (b : UnitBalance) : Res JsonText :=
  updated ← time_MarshalJSON (bal_UpdatedAt b);
  Ok (JTObject
    [("unit_id", json_id (bal_UnitID b)); ("updated_at", updated);
     ("prior_debt", JTString (FormatInt (bal_PriorDebt b)));
     ("current_invoice_amount", JTString (FormatInt (bal_CurrentInvoiceAmount b)));
     ("late_fee_total", JTString (FormatInt (bal_LateFeeTotal b)));
     ("credit", JTString (FormatInt (bal_Credit b)));
     ("paid_total", JTString (FormatInt (bal_PaidTotal b)));
     ("credit_asset", JTString (FormatInt (bal_CreditAsset b)));
     ("balance", JTString (FormatInt (bal_Balance b)))]).

Definition Payment_MarshalJSON (v : PaymentView) : Res JsonText :=
  let p := pvw_Payment v in
  created ← time_MarshalJSON (pay_CreatedAt p);
  updated ← time_MarshalJSON (pay_UpdatedAt p);
  Ok (JTObject (
    [("id", json_id (pay_ID p)); ("building_id", json_id (pay_BuildingID p));
     ("unit_id", json_id (pay_UnitID p))] ++
    omit_empty "invoice_id" json_id (pay_InvoiceID p) ++
    [("method", JTString (pay_Method p)); ("paid_at", Date_MarshalJSON (pay_PaidAt p))] ++
    omit_empty "tracking_number" JTString (pay_TrackingNumber p) ++
    omit_empty "gateway" JTString (pay_Gateway p) ++
    omit_empty "authority" JTString (pay_Authority p) ++
    omit_empty "recorded_by" json_id (pay_RecordedBy p) ++
    [("status", JTString (pay_Status p)); ("created_at", created); ("updated_at", updated)] ++
    omit_empty "unit_number" JTString
      (if bool_decide (pvw_UnitNumber v = "") then None else Some (pvw_UnitNumber v)) ++
    [("amount", JTString (FormatInt (pay_Amount p)))])).
End payments.
