(* ===== verification/Maintenance.v ===== *)
(** * Maintenance requests

    [internal/maintenance]: the repository, the service with its status workflow,
    and the handlers. *)

From S2P Require Import Prelude Golang Errors Models Store Schema Logic Notification Crypto Token AuthUser BillingRepo BuildingRepo Http.

(** ** models.go *)

Definition validCategories : list string :=
  [CatElevator; CatUtilities; CatElectrical; CatWater; CatCleaning; CatCommonArea; CatParking;
   CatOther].
Definition validPriorities : list string := [PriNormal; PriImportant; PriUrgent].
Definition validStatuses : list string :=
  [StatusNew; StatusUnderReview; StatusInProgress; StatusDone; StatusClosed].

Definition allowedTransitions (s : string) : list string :=
  if bool_decide (s = StatusNew) then [StatusUnderReview]
  else if bool_decide (s = StatusUnderReview) then [StatusInProgress; StatusClosed]
  else if bool_decide (s = StatusInProgress) then [StatusDone; StatusClosed]
  else if bool_decide (s = StatusDone) then [StatusClosed]
  else [].

Definition canTransition (s next : string) : bool := bool_decide (next ∈ allowedTransitions s).

(** ** repository.go *)

(** [SELECT path FROM files WHERE id = ?], scanned into a struct: the empty path
    when there is no row. *)
Definition PhotoPath (fileID : UUID) : M string :=
  path ← query (λ d, match row_at (R := File) d fileID with Some f => fl_Path f | None => "" end);
  if bool_decide (path = "") then fail gorm_ErrRecordNotFound else mret path.

Definition Create_request (m : MaintenanceRequest) : M MaintenanceRequest := Create m.
Definition Get_request (id : UUID) : M MaintenanceRequest := First_id id.
Definition Save_request (m : MaintenanceRequest) : M MaintenanceRequest := Save m.

Record RequestFilter := MkRequestFilter {
  rf_Status : string;
  rf_Priority : string;
  rf_Category : string;
  rf_Page : Z;
  rf_Size : Z;
}.

(** [if v != "" { q = q.Where("column = ?", v) }]. *)
Definition narrowed (value column : string) : bool :=
  bool_decide (value = "") || bool_decide (column = value).

Definition newest_request (a b : MaintenanceRequest) : bool := mr_CreatedAt b <? mr_CreatedAt a.

Definition ListForBuilding_requests (buildingID : UUID) (f : RequestFilter)
    : M (list MaintenanceRequest * Z) :=
  let q m := bool_decide (mr_BuildingID m = buildingID) && narrowed (rf_Status f) (mr_Status m)
    && narrowed (rf_Priority f) (mr_Priority m) && narrowed (rf_Category f) (mr_Category m) in
  total ← Count q;
  items ← Find newest_request q;
  mret (page_of (rf_Page f) (rf_Size f) items, total).

Definition ListForUser_requests (userID : UUID) (page size : Z) : M (list MaintenanceRequest * Z) :=
  let q m := bool_decide (mr_SubmittedBy m = userID) in
  total ← Count q;
  items ← Find newest_request q;
  mret (page_of page size items, total).

(** An open occupancy of a person with the phone, archived or not, in a live
    unit: the join, without its order and limit. *)
Definition resident_of (phone : string) (d : DB) (o : Occupancy) : option Unit :=
  p ← row_at (R := Person) d (o_PersonID o);
  u ← row_at (R := Unit) d (o_UnitID o);
  if bool_decide (p_Phone p = Some phone) && is_null (o_EndDate o) && is_null (u_DeletedAt u)
  then Some u else None.

(** [ORDER BY o.created_at DESC LIMIT 1]. *)
Definition newest_created (a b : Occupancy) : bool := o_CreatedAt b <? o_CreatedAt a.

Definition ResolveResidentUnit (phone : string) : M (option (UUID * UUID)) :=
  query (λ d,
    match omap (λ o, resident_of phone d o) (sort_by newest_created (rows d)) with
    | u :: _ => if bool_decide (u_ID u = uuid_Nil) then None else Some (u_BuildingID u, u_ID u)
    | [] => None
    end).

(** [SELECT building_id FROM units WHERE id = ?], scanned into a variable. *)
Definition UnitBuildingID (unitID : UUID) : M UUID :=
  query (λ d, match row_at (R := Unit) d unitID with Some u => u_BuildingID u | None => uuid_Nil end).

Definition PersonExists (personID : UUID) : M bool :=
  n ← Count (λ p : Person, bool_decide (p_ID p = personID) && is_null (p_DeletedAt p));
  mret (n >? 0).

Definition open_request (m : MaintenanceRequest) : bool :=
  bool_decide (mr_Status m ∈ [StatusNew; StatusUnderReview; StatusInProgress; StatusDone]).

Definition CountOpenForUser (userID : UUID) : M Z :=
  Count (λ m, bool_decide (mr_SubmittedBy m = userID) && open_request m).

(** [ORDER BY created_at DESC, id DESC]. *)
Definition latest_request (a b : MaintenanceRequest) : bool :=
  (mr_CreatedAt b <? mr_CreatedAt a)
  || ((mr_CreatedAt a =? mr_CreatedAt b) && (mr_ID b <? mr_ID a)%N).

Definition LatestForUser (userID : UUID) : M (option MaintenanceRequest) :=
  r ← attempt (First_where latest_request (λ m, bool_decide (mr_SubmittedBy m = userID)));
  match r with
  | inl m => mret (Some m)
  | inr e => if bool_decide (e = gorm_ErrRecordNotFound) then mret None else fail e
  end.

(** ** service.go *)

Definition msgTitleRequired : string := "عنوان درخواست الزامی است.".
Definition msgTitleTooLong : string := "عنوان درخواست نباید بیشتر از ۱۵۰ کاراکتر باشد.".
Definition msgCategoryInvalid : string := "دسته‌بندی درخواست نامعتبر است.".
Definition msgPriorityInvalid : string := "اولویت درخواست نامعتبر است.".
Definition msgRequestStatusInvalid : string := "وضعیت درخواست نامعتبر است.".
Definition msgTransitionInvalid : string := "تغییر وضعیت درخواست مجاز نیست.".
Definition msgNotResident : string := "برای ثبت درخواست باید ساکن یک واحد باشید.".
Definition msgRequestNotFound : string := "درخواست یافت نشد.".
Definition msgNoAccess : string := "شما به این درخواست دسترسی ندارید.".
Definition msgNotYourBuilding : string := "شما به این ساختمان دسترسی ندارید.".
Definition msgAssigneeNotFound : string := "شخص مسئول یافت نشد.".
Definition msgCostInvalid : string := "هزینه ثبت‌شده باید صفر یا بیشتر باشد.".
Definition msgPhotoNotFound : string := "فایل تصویر یافت نشد.".
Definition msgDescriptionLong : string := "توضیحات بیش از حد طولانی است.".

Definition invalid (msg field rule : string) : GoError := EApp (WithDetail (BadRequest msg) field rule).

(** [if err == gorm.ErrRecordNotFound { return e }; return err]. *)
Definition if_not_found (e err : GoError) : GoError :=
  if bool_decide (err = gorm_ErrRecordNotFound) then e else err.

Record SubmitInput := MkSubmitInput {
  si_Title : string;
  si_Category : string;
  si_Description : option string;
  si_Location : option string;
  si_PhotoFileID : option UUID;
  si_Priority : string;
}.

(** A [json.Number] is its text. *)
Record UpdateInput := MkUpdateInput {
  ui_Status : option string;
  ui_AssigneePersonID : option UUID;
  ui_RecordedCost : option string;
  ui_Notes : option string;
}.

Definition statusPersian (s : string) : string :=
  if bool_decide (s = StatusNew) then "ثبت‌شده"
  else if bool_decide (s = StatusUnderReview) then "در حال بررسی"
  else if bool_decide (s = StatusInProgress) then "در حال انجام"
  else if bool_decide (s = StatusDone) then "انجام‌شده"
  else if bool_decide (s = StatusClosed) then "بسته‌شده"
  else "".

(** The optional collaborators of [Service]. *)
Record MaintenanceService := MkMaintenanceService { mt_Notif : bool; mt_Audit : bool }.

(** The checks of [Submit] on the payload: title, category, priority. *)
Definition submit_checks (i : SubmitInput) : Res (string * string * string) :=
  let title := TrimSpace (si_Title i) in
  if bool_decide (title = "") then Err (invalid msgTitleRequired "title" "required") else
  if rune_count title >? 150 then Err (invalid msgTitleTooLong "title" "max_length") else
  let cat := TrimSpace (si_Category i) in
  if bool_decide (cat = "") || negb (bool_decide (cat ∈ validCategories))
  then Err (invalid msgCategoryInvalid "category" "invalid") else
  let pri := TrimSpace (si_Priority i) in
  let pri := if bool_decide (pri = "") then PriNormal else pri in
  if negb (bool_decide (pri ∈ validPriorities))
  then Err (invalid msgPriorityInvalid "priority" "invalid") else
  if match si_Description i with Some t => rune_count t >? 2000 | None => false end
  then Err (invalid msgDescriptionLong "description" "max_length") else
  Ok (title, cat, pri).

(** The file of an id, if an id is given. *)
Definition photo_of (fileID : option UUID) : M (option string) :=
  match fileID with
  | None => mret None
  | Some id =>
      p ← map_err (if_not_found (invalid msgPhotoNotFound "photo_file_id" "not_found")) (PhotoPath id);
      mret (Some p)
  end.

Section service.
Context {codec : UuidCodec} {pusher : PushNotifier} (s : MaintenanceService).

Definition notify_request (m : MaintenanceRequest) (typ title body : string) : M unit :=
  if mt_Notif s
  then ignore_err (Notification_Create (mr_SubmittedBy m) typ title body
         (Some "maintenance_request") (Some (mr_ID m)))
  else mret tt.

Definition audit_request (actor : UUID) (action : string) (before : option MaintenanceRequest)
    (m : MaintenanceRequest) : M unit :=
  if mt_Audit s
  then ignore_err (Audit_Append (Some actor) action "maintenance_request" (Some (mr_ID m))
         (SnMaintenance <$> before) (Some (SnMaintenance m)))
  else mret tt.

Definition Submit (user : User) (i : SubmitInput) : M MaintenanceRequest :=
  '(title, cat, pri) ← lift (submit_checks i);
  photo ← photo_of (si_PhotoFileID i);
  home ← ResolveResidentUnit (us_Phone user);
  match home with
  | None => fail (EApp (Forbidden msgNotResident))
  | Some (buildingID, unitID) =>
      now ← time_Now;
      id ← uuid_New;
      m ← Create_request (MkMaintenanceRequest id buildingID (Some unitID) (us_ID user) title cat
            (si_Description i) (si_Location i) photo pri StatusNew None None None now now None);
      notify_request m "request_submitted" "درخواست جدید ثبت شد"
        ("درخواست «" +:+ mr_Title m +:+ "» با موفقیت ثبت شد.");;
      audit_request (us_ID user) "maintenance.create" None m;;
      mret m
  end.

Definition ListForResident_requests (user : User) (page size : Z) : M (list MaintenanceRequest * Z) :=
  let '(page, size) := normalizePage page size in
  ListForUser_requests (us_ID user) page size.

Definition GetForResident_request (user : User) (id : UUID) : M MaintenanceRequest :=
  m ← map_err (if_not_found (EApp (NotFound msgRequestNotFound))) (Get_request id);
  if negb (bool_decide (mr_SubmittedBy m = us_ID user)) then fail (EApp (Forbidden msgNoAccess))
  else mret m.

Definition ListForManager_requests (manager : User) (buildingID : UUID) (f : RequestFilter)
    : M (list MaintenanceRequest * Z) :=
  ok ← IsManagerOf (us_ID manager) buildingID;
  if negb ok then fail (EApp (Forbidden msgNotYourBuilding)) else
  if negb (bool_decide (rf_Status f = "")) && negb (bool_decide (rf_Status f ∈ validStatuses))
  then fail (invalid msgRequestStatusInvalid "status" "invalid") else
  if negb (bool_decide (rf_Priority f = "")) && negb (bool_decide (rf_Priority f ∈ validPriorities))
  then fail (invalid msgPriorityInvalid "priority" "invalid") else
  if negb (bool_decide (rf_Category f = "")) && negb (bool_decide (rf_Category f ∈ validCategories))
  then fail (invalid msgCategoryInvalid "category" "invalid") else
  let '(page, size) := normalizePage (rf_Page f) (rf_Size f) in
  ListForBuilding_requests buildingID
    (MkRequestFilter (rf_Status f) (rf_Priority f) (rf_Category f) page size).

(** The request, for a manager of its building: shared by [GetForManager] and
    [Update]. *)
Definition managed_request (manager : User) (id : UUID) : M MaintenanceRequest :=
  m ← map_err (if_not_found (EApp (NotFound msgRequestNotFound))) (Get_request id);
  ok ← IsManagerOf (us_ID manager) (mr_BuildingID m);
  if negb ok then fail (EApp (Forbidden msgNotYourBuilding)) else mret m.

Definition GetForManager_request (manager : User) (id : UUID) : M MaintenanceRequest :=
  managed_request manager id.

(** The status of an update; [true] when it changes. *)
Definition apply_status (m : MaintenanceRequest) (status : option string)
    : M (MaintenanceRequest * bool) :=
  match status with
  | None => mret (m, false)
  | Some st =>
      let next := TrimSpace st in
      if bool_decide (next = "") || negb (bool_decide (next ∈ validStatuses))
      then fail (invalid msgRequestStatusInvalid "status" "invalid") else
      if bool_decide (next = mr_Status m) then mret (m, false) else
      if negb (canTransition (mr_Status m) next)
      then fail (EApp (WithDetail (Conflict msgTransitionInvalid) "status" "illegal_transition")) else
      closed ← (if bool_decide (next = StatusClosed) then now ← time_Now; mret (Some now)
                else mret (mr_ClosedAt m));
      mret (MkMaintenanceRequest (mr_ID m) (mr_BuildingID m) (mr_UnitID m) (mr_SubmittedBy m)
        (mr_Title m) (mr_Category m) (mr_Description m) (mr_Location m) (mr_PhotoFile m)
        (mr_Priority m) next (mr_AssigneePersonID m) (mr_RecordedCost m) (mr_Notes m)
        (mr_CreatedAt m) (mr_UpdatedAt m) closed, true)
  end.

(** The assignee of an update; the nil id clears it. *)
Definition assignee_of (m : MaintenanceRequest) (assignee : option UUID) : M (option UUID) :=
  match assignee with
  | None => mret (mr_AssigneePersonID m)
  | Some id =>
      if bool_decide (id = uuid_Nil) then mret None else
      exists_ ← PersonExists id;
      if negb exists_ then fail (invalid msgAssigneeNotFound "assignee_person_id" "not_found")
      else mret (Some id)
  end.

Definition cost_of (m : MaintenanceRequest) (cost : option string) : Res (option Z) :=
  match cost with
  | None => Ok (mr_RecordedCost m)
  | Some text =>
      let raw := TrimSpace text in
      if bool_decide (raw = "") || bool_decide (raw = "null") then Ok None else
      match ParseInt raw with
      | Some c => if c <? 0 then Err (invalid msgCostInvalid "recorded_cost" "gte_0") else Ok (Some c)
      | None => Err (invalid msgCostInvalid "recorded_cost" "gte_0")
      end
  end.

Definition notes_of (m : MaintenanceRequest) (notes : option string) : option string :=
  match notes with
  | None => mr_Notes m
  | Some n => if bool_decide (TrimSpace n = "") then None else Some n
  end.

Definition with_details (assignee : option UUID) (cost : option Z) (notes : option string)
    (now : Time) (m : MaintenanceRequest) : MaintenanceRequest :=
  MkMaintenanceRequest (mr_ID m) (mr_BuildingID m) (mr_UnitID m) (mr_SubmittedBy m) (mr_Title m)
    (mr_Category m) (mr_Description m) (mr_Location m) (mr_PhotoFile m) (mr_Priority m)
    (mr_Status m) assignee cost notes (mr_CreatedAt m) now (mr_ClosedAt m).

Definition status_label (st : string) : string :=
  if bool_decide (statusPersian st = "") then st else statusPersian st.

Definition Update_request (manager : User) (id : UUID) (i : UpdateInput)
    : M (MaintenanceRequest * MaintenanceRequest) :=
  before ← managed_request manager id;
  '(m, changed) ← apply_status before (ui_Status i);
  assignee ← assignee_of m (ui_AssigneePersonID i);
  cost ← lift (cost_of m (ui_RecordedCost i));
  now ← time_Now;
  m ← Save_request (with_details assignee cost (notes_of m (ui_Notes i)) now m);
  (if changed : bool then
     notify_request m "request_status_changed" "وضعیت درخواست تغییر کرد"
       ("وضعیت درخواست «" +:+ mr_Title m +:+ "» به «" +:+ status_label (mr_Status m)
        +:+ "» تغییر کرد.");;
     audit_request (us_ID manager) "maintenance.status_changed" (Some before) m
   else mret tt);;
  mret (m, before).
End service.

(** ** handlers.go *)

Definition manager_only (u : User) : M unit :=
  guard_or (bool_decide (us_Role u = RoleManager)) (EApp (Forbidden "این عملیات مخصوص مدیر است")).

Definition page_param (c : HttpCall) : Z := atoiDefault (hc_Query c "page") 1.
Definition size_param (c : HttpCall) : Z := atoiDefault (hc_Query c "page_size") 20.

Section handlers.
Context {codec : UuidCodec} {pusher : PushNotifier} (s : MaintenanceService) (c : HttpCall).

Definition submitResident (body : option SubmitInput) : M (Reply MaintenanceRequest) :=
  replying service_err (
    u ← current_user c;
    i ← bind_body "داده‌های درخواست نگهداری نامعتبر است" body;
    m ← Submit s u i;
    mret (ReplyJSON 201 m)).

Definition listResident : M (Reply (Page MaintenanceRequest)) :=
  replying service_err (
    u ← current_user c;
    '(items, total) ← ListForResident_requests u (page_param c) (size_param c);
    mret (ReplyJSON 200 (MkPage items total (page_param c) (size_param c)))).

Definition getResident : M (Reply MaintenanceRequest) :=
  replying service_err (
    u ← current_user c;
    id ← parse_id c "id";
    m ← GetForResident_request u id;
    mret (ReplyJSON 200 m)).

Definition listForManager : M (Reply (Page MaintenanceRequest)) :=
  replying service_err (
    u ← current_user c;
    manager_only u;;
    buildingID ← parse_id c "id";
    '(items, total) ← ListForManager_requests u buildingID
      (MkRequestFilter (hc_Query c "status") (hc_Query c "priority") (hc_Query c "category")
         (page_param c) (size_param c));
    mret (ReplyJSON 200 (MkPage items total (page_param c) (size_param c)))).

(** An empty status is no status. *)
Definition normalize_status (i : UpdateInput) : UpdateInput :=
  match ui_Status i with
  | Some EmptyString =>
      MkUpdateInput None (ui_AssigneePersonID i) (ui_RecordedCost i) (ui_Notes i)
  | _ => i
  end.

Definition patchForManager (body : option UpdateInput) : M (Reply MaintenanceRequest) :=
  replying service_err (
    u ← current_user c;
    manager_only u;;
    id ← parse_id c "id";
    i ← bind_body "داده‌های به‌روزرسانی نامعتبر است" body;
    '(m, _) ← Update_request s u id (normalize_status i);
    mret (ReplyJSON 200 m)).

Definition getForManager : M (Reply MaintenanceRequest) :=
  replying service_err (
    u ← current_user c;
    manager_only u;;
    id ← parse_id c "id";
    m ← GetForManager_request u id;
    mret (ReplyJSON 200 m)).
End handlers.
