(* ===== verification/Expense.v ===== *)
(** * Expenses and the financial report

    [internal/expense]: the repository, the service and the handlers. *)

From Stdlib Require Import Ascii.
From S2P Require Import Prelude Golang Calendar Errors Models Store Schema Logic Notification Crypto Token AuthUser AuthHandlers BillingRepo Maintenance PaymentRepo Http.

(** ** repository.go *)

(** The same statement as [maintenance.PhotoPath]. *)
Definition ReceiptPath (fileID : UUID) : M string := PhotoPath fileID.

Definition CreateExpense (e : Expense) : M Expense := Create e.

Definition live_expense (e : Expense) : bool := is_null (ex_DeletedAt e).

Definition GetExpense (id : UUID) : M Expense :=
  First_where by_key (λ e, bool_decide (ex_ID e = id) && live_expense e).

Definition SaveExpense (e : Expense) : M Expense := Save e.

Definition soft_deleted (now : Time) (e : Expense) : Expense :=
  MkExpense (ex_ID e) (ex_BuildingID e) (ex_Title e) (ex_Category e) (ex_Amount e)
    (ex_ExpenseDate e) (ex_Description e) (ex_PayerPersonID e) (ex_ReceiptFile e)
    (ex_ApprovalStatus e) (ex_CreatedBy e) (ex_CreatedAt e) now (Some now).

Definition SoftDeleteExpense (id : UUID) : M unit :=
  Update_where (λ e, bool_decide (ex_ID e = id) && live_expense e) soft_deleted;; mret tt.

Record ExpenseFilter := MkExpenseFilter {
  ef_Category : string;
  ef_Approval : string;
  ef_From : option Time;
  ef_To : option Time;
  ef_Page : Z;
  ef_Size : Z;
}.

(** [ORDER BY expense_date DESC, created_at DESC]. *)
Definition newest_expense (a b : Expense) : bool :=
  (ex_ExpenseDate b <? ex_ExpenseDate a)
  || ((ex_ExpenseDate a =? ex_ExpenseDate b) && (ex_CreatedAt b <? ex_CreatedAt a)).

Definition expense_matches (buildingID : UUID) (f : ExpenseFilter) (e : Expense) : bool :=
  bool_decide (ex_BuildingID e = buildingID) && live_expense e
  && narrowed (ef_Category f) (ex_Category e) && narrowed (ef_Approval f) (ex_ApprovalStatus e)
  && match ef_From f with Some t => t <=? ex_ExpenseDate e | None => true end
  && match ef_To f with Some t => ex_ExpenseDate e <=? t | None => true end.

Definition ListExpenses_rows (buildingID : UUID) (f : ExpenseFilter) : M (list Expense * Z) :=
  total ← Count (expense_matches buildingID f);
  items ← Find newest_expense (expense_matches buildingID f);
  mret (page_of (ef_Page f) (ef_Size f) items, total).

(** ** The financial report *)

Definition monthWindow (year month : Z) : Time * Time :=
  (first_of year month, first_of_next year month).

Record FinancialReport := MkFinancialReport {
  fr_Month : string;
  fr_MonthlyIncome : Z;
  fr_MonthlyExpense : Z;
  fr_Net : Z;
  fr_TotalDebt : Z;
  fr_TotalPayments : Z;
  fr_TotalExpenses : Z;
}.

(** The sums of the report; a date column within [[start, end)]. *)
Definition within (w : Time * Time) (t : Time) : bool := (w.1 <=? t) && (t <? w.2).

Definition verified_of (buildingID : UUID) (p : Payment) : bool :=
  bool_decide (pay_BuildingID p = buildingID) && bool_decide (pay_Status p = StatusVerified).

Definition expense_of (buildingID : UUID) (e : Expense) : bool :=
  bool_decide (ex_BuildingID e = buildingID) && live_expense e.

(** A balance of a live unit of the building: the join. *)
Definition balance_in (d : DB) (buildingID : UUID) (b : UnitBalance) : bool :=
  match row_at (R := Unit) d (bal_UnitID b) with
  | Some u => bool_decide (u_BuildingID u = buildingID) && is_null (u_DeletedAt u)
  | None => false
  end.

Definition income_in (d : DB) (buildingID : UUID) (w : Time * Time) : Z :=
  sum_of pay_Amount (List.filter (λ p, verified_of buildingID p && within w (pay_PaidAt p)) (rows d)).

Definition expense_in (d : DB) (buildingID : UUID) (w : Time * Time) : Z :=
  sum_of ex_Amount (List.filter (λ e, expense_of buildingID e && within w (ex_ExpenseDate e)) (rows d)).

Definition total_debt (d : DB) (buildingID : UUID) : Z :=
  sum_of bal_Balance (List.filter (λ b, balance_in d buildingID b && (0 <? bal_Balance b)) (rows d)).

Definition total_payments (d : DB) (buildingID : UUID) : Z :=
  sum_of pay_Amount (List.filter (verified_of buildingID) (rows d)).

Definition total_expenses (d : DB) (buildingID : UUID) : Z :=
  sum_of ex_Amount (List.filter (expense_of buildingID) (rows d)).

(** A SELECT of one sum. *)
Definition select_sum (f : DB → Z) : M Z :=
  stmt (λ _ _ d, z ← scan_int64 (f d); Ok (z, d)).

Definition Report_rows (buildingID : UUID) (year month : Z) : M FinancialReport :=
  let w := monthWindow year month in
  Transaction (
    income ← select_sum (λ d, income_in d buildingID w);
    expense ← select_sum (λ d, expense_in d buildingID w);
    debt ← select_sum (λ d, total_debt d buildingID);
    payments ← select_sum (λ d, total_payments d buildingID);
    expenses ← select_sum (λ d, total_expenses d buildingID);
    mret (MkFinancialReport "" income expense (sub64 income expense) debt payments expenses)).

(** ** service.go *)

(** A [json.Number] is its text. *)
Record ExpenseInput := MkExpenseInput {
  ei_Title : string;
  ei_Category : string;
  ei_Amount : string;
  ei_ExpenseDate : string;
  ei_Description : option string;
  ei_PayerPersonID : option UUID;
  ei_ReceiptFileID : option string;
  ei_ApprovalStatus : string;
}.

Definition msgExpenseInvalid : GoError := EApp (BadRequest "داده‌های هزینه نامعتبر است").
Definition msgReceiptNotFound : GoError := EApp (BadRequest "فایل رسید یافت نشد").

Definition Categories : list string :=
  [CatWater; CatElectricity; CatGas; CatElevator; CatCleaning; CatSecurity; CatRepair;
   CatInsurance; CatEquipment; CatOther].

Definition validCategory (c : string) : bool := existsb (λ v, bool_decide (v = c)) Categories.

(** [strconv.Atoi] of four and two characters, [1 <= m <= 12], [y >= 1]. *)
Definition parseMonth (s : string) : option (Z * Z) :=
  if negb (bool_decide (String.length s = 7%nat)) || negb (bool_decide (String.get 4 s = Some "-"%char))
  then None else
  y ← ParseInt (String.substring 0 4 s);
  m ← ParseInt (String.substring 5 2 s);
  if (m <? 1) || (m >? 12) || (y <? 1) then None else Some (y, m).

(** A field of the payload: kept when it is absent, applied on creation or when
    it is there; [false] when it is not valid. *)
Definition field {A} (given : bool) (old new : A) (ok : bool) : A * bool :=
  if given then (new, ok) else (old, true).

Definition app_title (e : Expense) (i : ExpenseInput) (create : bool) : string * bool :=
  let t := TrimSpace (ei_Title i) in
  field (present (ei_Title i) || create) (ex_Title e) t
    (negb (bool_decide (t = "")) && negb (rune_count t >? 150)).

Definition app_category (e : Expense) (i : ExpenseInput) (create : bool) : string * bool :=
  field (present (ei_Category i) || create) (ex_Category e) (ei_Category i) (validCategory (ei_Category i)).

Definition app_amount (e : Expense) (i : ExpenseInput) (create : bool) : Z * bool :=
  let amt := ParseInt (ei_Amount i) in
  field (present (ei_Amount i) || create) (ex_Amount e) (default 0 amt)
    (match amt with Some a => negb (a <=? 0) | None => false end).

Definition app_date (e : Expense) (i : ExpenseInput) (create : bool) : Time * bool :=
  let d := ParseDate (ei_ExpenseDate i) in
  field (present (ei_ExpenseDate i) || create) (ex_ExpenseDate e) (default 0 d)
    (match d with Some _ => true | None => false end).

Definition app_approval (e : Expense) (i : ExpenseInput) (create : bool) : string * bool :=
  let st := if bool_decide (ei_ApprovalStatus i = "") then ApprovalPending else ei_ApprovalStatus i in
  field (present (ei_ApprovalStatus i) || create) (ex_ApprovalStatus e) st
    (bool_decide (st ∈ [ApprovalPending; ApprovalApproved; ApprovalRejected])).

(** The receipt, looked up even when another field is invalid. *)
Definition receipt_of {codec : UuidCodec} (e : Expense) (fileID : option string) : M (option string) :=
  match fileID with
  | None => mret (ex_ReceiptFile e)
  | Some id =>
      if bool_decide (id = "") then mret None else
      match uuid_Parse id with
      | None => fail msgReceiptNotFound
      | Some fid => p ← map_err (if_not_found msgReceiptNotFound) (ReceiptPath fid); mret (Some p)
      end
  end.

Definition applyExpenseInput {codec : UuidCodec} (e : Expense) (i : ExpenseInput) (create : bool)
    : M Expense :=
  let '(title, ok1) := app_title e i create in
  let '(category, ok2) := app_category e i create in
  let '(amount, ok3) := app_amount e i create in
  let '(date, ok4) := app_date e i create in
  let '(approval, ok5) := app_approval e i create in
  receipt ← receipt_of e (ei_ReceiptFileID i);
  if negb (ok1 && ok2 && ok3 && ok4 && ok5) then fail msgExpenseInvalid else
  mret (MkExpense (ex_ID e) (ex_BuildingID e) title category amount date
    (match ei_Description i with Some t => Some t | None => ex_Description e end)
    (match ei_PayerPersonID i with Some p => Some p | None => ex_PayerPersonID e end)
    receipt approval (ex_CreatedBy e) (ex_CreatedAt e) (ex_UpdatedAt e) (ex_DeletedAt e)).

Definition ErrNoExpenseAccess : GoError := EApp (Forbidden "شما به این ساختمان دسترسی ندارید").

(** [if ok, err := IsManagerOf(...)]. *)
Definition check_manager (manager : User) (buildingID : UUID) : M unit :=
  ok ← IsManagerOf (us_ID manager) buildingID;
  if negb ok then fail ErrNoExpenseAccess else mret tt.

Section service.
Context {codec : UuidCodec}.

Definition Create_expense (manager : User) (buildingID : UUID) (i : ExpenseInput) : M Expense :=
  check_manager manager buildingID;;
  id ← uuid_New;
  e ← applyExpenseInput (MkExpense id buildingID "" "" 0 0 None None None "" (Some (us_ID manager))
        0 0 None) i true;
  CreateExpense e.

Definition Get_expense (manager : User) (id : UUID) : M Expense :=
  e ← GetExpense id;
  check_manager manager (ex_BuildingID e);;
  mret e.

Definition Update_expense (manager : User) (id : UUID) (i : ExpenseInput) : M Expense :=
  e ← Get_expense manager id;
  e ← applyExpenseInput e i false;
  SaveExpense e.

Definition List_expenses (manager : User) (buildingID : UUID) (f : ExpenseFilter)
    : M (list Expense * Z) :=
  check_manager manager buildingID;;
  let '(page, size) := normalizePage (ef_Page f) (ef_Size f) in
  ListExpenses_rows buildingID
    (MkExpenseFilter (ef_Category f) (ef_Approval f) (ef_From f) (ef_To f) page size).

Definition Delete_expense (manager : User) (id : UUID) : M unit :=
  Get_expense manager id;;
  SoftDeleteExpense id.

Definition Report (manager : User) (buildingID : UUID) (month : string) : M FinancialReport :=
  check_manager manager buildingID;;
  match parseMonth month with
  | None => fail (EApp (BadRequest "ماه گزارش نامعتبر است؛ قالب صحیح YYYY-MM است"))
  | Some (y, m) =>
      rep ← Report_rows buildingID y m;
      mret (MkFinancialReport month (fr_MonthlyIncome rep) (fr_MonthlyExpense rep) (fr_Net rep)
        (fr_TotalDebt rep) (fr_TotalPayments rep) (fr_TotalExpenses rep))
  end.

(** ** handlers.go *)

Context (c : HttpCall).

Definition managers_only : M unit := discard (RequireRole [RoleManager] (hc_User c)).

Definition createExpense (body : option ExpenseInput) : M (Reply Expense) :=
  replying service_err (
    managers_only;;
    audited "expense.record" "expense" c (replying_audited service_err (
      u ← current_user c;
      buildingID ← parse_id c "id";
      i ← bind_body "داده‌های هزینه نامعتبر است" body;
      e ← Create_expense u buildingID i;
      mret (ReplyJSON 201 e, MkAudited (Some (CtxUUID (ex_ID e))) None (Some (SnExpense e)))))).

Definition getExpense : M (Reply Expense) :=
  replying service_err (
    managers_only;;
    u ← current_user c;
    id ← parse_id c "id";
    e ← Get_expense u id;
    mret (ReplyJSON 200 e)).

(** A date of the query; absent when empty. *)
Definition date_param (name msg : string) : M (option Time) :=
  if bool_decide (hc_Query c name = "") then mret None else
  match ParseDate (hc_Query c name) with
  | Some t => mret (Some t)
  | None => fail (EApp (BadRequest msg))
  end.

Definition listExpenses : M (Reply (Page Expense)) :=
  replying service_err (
    managers_only;;
    u ← current_user c;
    buildingID ← parse_id c "id";
    from ← date_param "from" "تاریخ شروع نامعتبر است";
    to_ ← date_param "to" "تاریخ پایان نامعتبر است";
    '(items, total) ← List_expenses u buildingID
      (MkExpenseFilter (hc_Query c "category") (hc_Query c "approval") from to_
         (page_param c) (size_param c));
    mret (ReplyJSON 200 (MkPage items total (page_param c) (size_param c)))).

Definition updateExpense (body : option ExpenseInput) : M (Reply Expense) :=
  replying service_err (
    managers_only;;
    audited "expense.update" "expense" c (replying_audited service_err (
      u ← current_user c;
      id ← parse_id c "id";
      i ← bind_body "داده‌های هزینه نامعتبر است" body;
      before ← Get_expense u id;
      e ← Update_expense u id i;
      mret (ReplyJSON 200 e, MkAudited (Some (CtxUUID (ex_ID e))) (Some (SnExpense before))
        (Some (SnExpense e)))))).

Definition deleteExpense : M (Reply bool) :=
  replying service_err (
    managers_only;;
    audited "expense.delete" "expense" c (replying_audited service_err (
      u ← current_user c;
      id ← parse_id c "id";
      before ← Get_expense u id;
      Delete_expense u id;;
      mret (ReplyJSON 200 true, MkAudited (Some (CtxUUID id)) (Some (SnExpense before)) None)))).

Definition financialReport : M (Reply FinancialReport) :=
  replying service_err (
    managers_only;;
    u ← current_user c;
    buildingID ← parse_id c "id";
    rep ← Report u buildingID (hc_Query c "month");
    mret (ReplyJSON 200 rep)).
End service.
