(* ===== verification/Announcement.v ===== *)
(** * Announcements

    [internal/announcement]: targeting, the publish window, read tracking and the
    handlers. Text is UTF-8, as JSON decoding leaves it. *)

From Stdlib Require Import Ascii.
From S2P Require Import Prelude Golang Errors Models Store Schema Logic Notification Crypto Token AuthUser AuthHandlers BillingRepo Maintenance Http.

(** ** fmt and time *)

(** The longest prefix of decimal digits, and the rest. *)
Fixpoint digit_prefix (s : string) : string :=
  match s with
  | String c s' => if is_digit c then String c (digit_prefix s') else EmptyString
  | EmptyString => EmptyString
  end.

(** [fmt.Sscanf(s, "%d", &n)] on a text without leading spaces: a sign and the
    digits that follow; what comes after them is not looked at. *)
Definition Sscanf_d (s : string) : option Z :=
  match s with
  | String "-"%char s' => ParseInt ("-" +:+ digit_prefix s')
  | String "+"%char s' => ParseInt (digit_prefix s')
  | _ => ParseInt (digit_prefix s)
  end.

(** [getnum]: two digits, or one where the layout allows it. *)
Definition getnum (fixed : bool) (s : string) : option (Z * string) :=
  match s with
  | String a (String b s') =>
      if is_digit a then
        if is_digit b then n ← parse_digits (String a (String b EmptyString)); Some (n, s')
        else if fixed then None
        else n ← parse_digits (String a EmptyString); Some (n, String b s')
      else None
  | String a EmptyString =>
      if is_digit a && negb fixed then n ← parse_digits (String a EmptyString); Some (n, EmptyString)
      else None
  | EmptyString => None
  end.

(** A literal character of the layout. *)
Definition literal (c : ascii) (s : string) : option string :=
  match s with
  | String c' s' => if bool_decide (c' = c) then Some s' else None
  | EmptyString => None
  end.

(** A fraction of a second after the seconds, of at most nine digits. *)
Definition fraction (s : string) : Z * string :=
  match s with
  | String c s' =>
      if (bool_decide (c = "."%char) || bool_decide (c = ","%char))
         && negb (bool_decide (digit_prefix s' = ""))
      then
        let ds := digit_prefix s' in
        let kept := String.substring 0 9 ds in
        (default 0 (parse_digits kept) * 10 ^ (9 - Z.of_nat (String.length kept)),
         drop_bytes (String.length ds) s')
      else (0, s)
  | EmptyString => (0, s)
  end.

(** [Z] or a signed offset, in seconds, at the end. *)
Definition zone (s : string) : option Z :=
  match s with
  | String "Z"%char EmptyString => Some 0
  | String sign s' =>
      if bool_decide (sign = "+"%char) || bool_decide (sign = "-"%char) then
        '(h, s') ← getnum true s';
        s' ← literal ":"%char s';
        '(m, s') ← getnum true s';
        if bool_decide (s' = "") && (h <=? 24) && (m <=? 60)
        then Some (if bool_decide (sign = "+"%char) then (h * 60 + m) * 60 else - ((h * 60 + m) * 60))
        else None
      else None
  | EmptyString => None
  end.

(** [time.Parse(time.RFC3339, s)], the instant. *)
Definition ParseRFC3339 (s : string) : option Time :=
  let y := String.substring 0 4 s in
  if negb (bool_decide (String.length y = 4%nat)) || negb (all_digits y) then None else
  y ← parse_digits y;
  s ← literal "-"%char (drop_bytes 4 s);
  '(mo, s) ← getnum true s;
  s ← literal "-"%char s;
  '(d, s) ← getnum true s;
  s ← literal "T"%char s;
  '(h, s) ← getnum false s;
  s ← literal ":"%char s;
  '(mi, s) ← getnum true s;
  s ← literal ":"%char s;
  '(sec, s) ← getnum true s;
  let '(nanos, s) := fraction s in
  off ← zone s;
  if (1 <=? mo) && (mo <=? 12) && (1 <=? d) && (d <=? days_in_month y mo)
     && (h <? 24) && (mi <? 60) && (sec <? 60)
  then Some (DateUTC y mo d + (h * 3600 + mi * 60 + sec - off) * Second + nanos)
  else None.

Example ParseRFC3339_samples :
  ParseRFC3339 "2026-03-20T10:30:00+03:30" = Some (DateUTC 2026 3 20 + 7 * Hour) ∧
  ParseRFC3339 "2026-03-20T07:00:00.5Z" = Some (DateUTC 2026 3 20 + 7 * Hour + 500000000) ∧
  ParseRFC3339 "2026-02-30T07:00:00Z" = None ∧ ParseRFC3339 "2026-03-20 07:00:00Z" = None.
Proof. vm_compute. repeat split. Qed.

(** [string([]rune(s)[:n])]. *)
Fixpoint take_runes (n : nat) (s : string) : string :=
  match s with
  | EmptyString => EmptyString
  | String c s' =>
      if (128 <=? nat_of_ascii c)%nat && (nat_of_ascii c <? 192)%nat then String c (take_runes n s')
      else match n with O => EmptyString | S n' => String c (take_runes n' s') end
  end.

(** ** repository.go *)

Record UnitInfo := MkUnitInfo {
  un_ID : UUID;
  un_BuildingID : UUID;
  un_Block : option string;
  un_Floor : Z;
}.

Definition unit_info (u : Unit) : UnitInfo :=
  MkUnitInfo (u_ID u) (u_BuildingID u) (u_Block u) (u_Floor u).

#[export] Instance UnitInfo_eq_dec : EqDecision UnitInfo.
Proof. solve_decision. Defined.

(** An open occupancy of a live person with the phone, in a live unit. *)
Definition lives_in (d : DB) (phone : string) (o : Occupancy) : option Unit :=
  p ← row_at (R := Person) d (o_PersonID o);
  u ← row_at (R := Unit) d (o_UnitID o);
  if bool_decide (p_Phone p = Some phone) && is_null (p_DeletedAt p) && is_null (u_DeletedAt u)
     && is_null (o_EndDate o)
  then Some u else None.

(** One row per occupancy. *)
Definition ResidentUnits (phone : string) : M (list UnitInfo) :=
  if bool_decide (phone = "") then mret [] else
  query (λ d, unit_info <$> omap (lives_in d phone) (rows d)).

Definition AttachmentPath (fileID : UUID) : M string :=
  f ← First_id (R := File) fileID; mret (fl_Path f).

Definition Create_announcement (a : Announcement) : M Announcement := Create a.
Definition Get_announcement (id : UUID) : M Announcement := First_id id.
Definition Save_announcement (a : Announcement) : M Announcement := Save a.
Definition Delete_announcement_row (id : UUID) : M unit :=
  Delete_where (λ _ a, bool_decide (an_ID a = id));; mret tt.

(** [if size <= 0 || size > 100 { size = 20 }]: the normalisation of the other
    lists. *)
Definition newest_announcement (a b : Announcement) : bool := an_CreatedAt b <? an_CreatedAt a.

Definition ListForBuilding_announcements (buildingID : UUID) (page size : Z)
    : M (list Announcement * Z) :=
  let '(page, size) := normalizePage page size in
  let q a := bool_decide (an_BuildingID a = buildingID) in
  total ← Count q;
  items ← Find newest_announcement q;
  mret (page_of page size items, total).

(** The condition on the unit of the audience; [None] when there is no match at
    all. *)
Definition audience_unit {codec : UuidCodec} (a : Announcement) : option (Unit → bool) :=
  if bool_decide (an_AudienceType a = AudienceAll) then Some (λ _, true)
  else if bool_decide (an_AudienceType a = AudienceBlock) then
    v ← an_AudienceValue a; Some (λ u, bool_decide (default "" (u_Block u) = v))
  else if bool_decide (an_AudienceType a = AudienceFloor) then
    v ← an_AudienceValue a; Some (λ u, bool_decide (FormatInt (u_Floor u) = v))
  else if bool_decide (an_AudienceType a = AudienceUnit) then
    v ← an_AudienceValue a; uid ← uuid_Parse v; Some (λ u, bool_decide (u_ID u = uid))
  else None.

(** A user of the join [users, persons, occupancies, units]. *)
Definition targeted (d : DB) (buildingID : UUID) (P : Unit → bool) (u : User) : bool :=
  is_null (us_DeletedAt u) && us_IsActive u
  && existsb (λ un, bool_decide (u_BuildingID un = buildingID) && P un)
       (omap (lives_in d (us_Phone u)) (rows d)).

Definition TargetUserIDs {codec : UuidCodec} (a : Announcement) : M (list UUID) :=
  match audience_unit a with
  | None => mret []
  | Some P => query (λ d, us_ID <$> List.filter (targeted d (an_BuildingID a) P) (rows d))
  end.

(** The maps the units of a resident give: their buildings, and the blocks, the
    floors and the units in them. *)
Definition in_building (units : list UnitInfo) (b : UUID) : bool :=
  existsb (λ u, bool_decide (un_BuildingID u = b)) units.

Definition has_block (units : list UnitInfo) (b : UUID) (v : string) : bool :=
  existsb (λ u, bool_decide (un_BuildingID u = b) && bool_decide (un_Block u = Some v)
                && negb (bool_decide (v = ""))) units.

Definition has_floor (units : list UnitInfo) (b : UUID) (v : string) : bool :=
  existsb (λ u, bool_decide (un_BuildingID u = b) && bool_decide (FormatInt (un_Floor u) = v)) units.

Definition has_unit (units : list UnitInfo) (id : UUID) : bool :=
  existsb (λ u, bool_decide (un_ID u = id)) units.

Definition isVisible {codec : UuidCodec} (a : Announcement) (units : list UnitInfo) : bool :=
  if bool_decide (an_AudienceType a = AudienceAll) then true
  else if bool_decide (an_AudienceType a = AudienceBlock) then
    match an_AudienceValue a with Some v => has_block units (an_BuildingID a) v | None => false end
  else if bool_decide (an_AudienceType a = AudienceFloor) then
    match an_AudienceValue a with Some v => has_floor units (an_BuildingID a) v | None => false end
  else if bool_decide (an_AudienceType a = AudienceUnit) then
    match an_AudienceValue a with
    | Some v => match uuid_Parse v with Some uid => has_unit units uid | None => false end
    | None => false
    end
  else false.

(** [publish_at <= now] and [expire_at > now], where they are set. *)
Definition in_window (now : Time) (a : Announcement) : bool :=
  match an_PublishAt a with Some t => t <=? now | None => true end
  && match an_ExpireAt a with Some t => now <? t | None => true end.

Definition visibleAnnouncements {codec : UuidCodec} (units : list UnitInfo) (now : Time)
    : M (list Announcement) :=
  candidates ← Find newest_announcement (λ a, in_building units (an_BuildingID a) && in_window now a);
  mret (List.filter (λ a, isVisible a units) candidates).

Record AnnouncementWithRead := MkAnnouncementWithRead {
  ar_Announcement : Announcement;
  ar_IsRead : bool;
}.

Definition VisibleAnnouncements {codec : UuidCodec} (units : list UnitInfo) (now : Time)
    : M (list AnnouncementWithRead) :=
  l ← visibleAnnouncements units now;
  mret ((λ a, MkAnnouncementWithRead a false) <$> l).

(** [visible[start:end]] of a slice: out of range it panics. *)
Definition slice {A} (start end_ : Z) (l : list A) : Res (list A) :=
  if (0 <=? start) && (start <=? end_) && (end_ <=? Z.of_nat (length l))
  then Ok (take (Z.to_nat (end_ - start)) (drop (Z.to_nat start) l))
  else Panic "runtime error: slice bounds out of range".

Definition ListForResident_rows {codec : UuidCodec} (units : list UnitInfo) (now : Time)
    (page size : Z) : M (list AnnouncementWithRead * Z) :=
  if bool_decide (units = []) then mret ([], 0) else
  let '(page, size) := normalizePage page size in
  visible ← visibleAnnouncements units now;
  let total := Z.of_nat (length visible) in
  let start := mul64 (sub64 page 1) size in
  if start >=? total then mret ([], total) else
  let end_ := add64 start size in
  let end_ := if end_ >? total then total else end_ in
  items ← lift (slice start end_ visible);
  mret ((λ a, MkAnnouncementWithRead a false) <$> items, total).

Definition ListAllVisibleIDs {codec : UuidCodec} (units : list UnitInfo) (now : Time)
    : M (list UUID) :=
  l ← visibleAnnouncements units now; mret (an_ID <$> l).

Definition IsVisible_row {codec : UuidCodec} (id : UUID) (units : list UnitInfo) (now : Time)
    : M bool :=
  a ← Get_announcement id;
  mret (in_window now a && in_building units (an_BuildingID a) && isVisible a units).

(** [INSERT ... ON CONFLICT DO NOTHING]. *)
Definition MarkRead_row (announcementID userID : UUID) : M unit :=
  stmt (λ _ now d, Ok (tt,
    match db_announcement_reads d !! (announcementID, userID) with
    | Some _ => d
    | None => set_announcement_reads (<[(announcementID, userID) :=
        MkAnnouncementRead announcementID userID now]> (db_announcement_reads d)) d
    end)).

Definition is_read (d : DB) (userID id : UUID) : bool :=
  bool_decide (is_Some (db_announcement_reads d !! (id, userID))).

(** The announcements a user has read, as a predicate on their ids. *)
Definition ReadsForUser (userID : UUID) : M (UUID → bool) := query (λ d, is_read d userID).

Definition UnreadCountForResident {codec : UuidCodec} (units : list UnitInfo) (userID : UUID)
    (now : Time) : M Z :=
  ids ← ListAllVisibleIDs units now;
  if bool_decide (ids = []) then mret 0 else
  reads_ ← ReadsForUser userID;
  mret (Z.of_nat (length (List.filter (λ id, negb (reads_ id)) ids))).

(** ** service.go *)

Definition msgAnnouncementForbidden : GoError := EApp (Forbidden "دسترسی غیرمجاز است").
Definition msgAnnouncementUnauthorized : GoError :=
  EApp (Unauthorized "برای این عملیات باید وارد شوید").
Definition msgAnnouncementNotFound : GoError := EApp (NotFound "اطلاعیه یافت نشد").
Definition msgTitleMissing : GoError := EApp (BadRequest "عنوان اطلاعیه الزامی است").
Definition msgTitleLong : GoError := EApp (BadRequest "عنوان نباید بیش از ۲۰۰ نویسه باشد").
Definition msgBodyRequired : GoError := EApp (BadRequest "متن اطلاعیه الزامی است").
Definition msgAudienceInvalid : GoError := EApp (BadRequest "نوع مخاطب نامعتبر است").
Definition msgAudienceValueRequired : GoError :=
  EApp (BadRequest "مقدار مخاطب برای این نوع الزامی است").
Definition msgAudienceAllNoValue : GoError :=
  EApp (BadRequest "برای مخاطب «همه» مقدار نباید ارسال شود").
Definition msgAudienceValueInvalid (rule : string) : GoError :=
  EApp (WithDetail (BadRequest "مقدار مخاطب نامعتبر است") "audience_value" rule).
Definition msgUnitNotFound : GoError := EApp (BadRequest "واحد مورد نظر در این ساختمان یافت نشد").
Definition msgBlockLong : GoError := EApp (BadRequest "نام بلوک نباید بیش از ۲۰ نویسه باشد").
Definition msgPublishAtInvalid : GoError := EApp (BadRequest "تاریخ انتشار نامعتبر است").
Definition msgExpireAtInvalid : GoError := EApp (BadRequest "تاریخ انقضا نامعتبر است").
Definition msgExpireBeforePublish : GoError :=
  EApp (BadRequest "تاریخ انقضا باید بعد از تاریخ انتشار باشد").
Definition msgAttachmentInvalid : GoError := EApp (BadRequest "شناسه فایل پیوست نامعتبر است").
Definition msgAttachmentNotFound : GoError := EApp (BadRequest "فایل پیوست یافت نشد").

Definition validAudience (t : string) : bool :=
  bool_decide (t ∈ [AudienceAll; AudienceBlock; AudienceFloor; AudienceUnit]).

Record AnnouncementInput := MkAnnouncementInput {
  ai_Title : string;
  ai_Body : string;
  ai_AudienceType : string;
  ai_AudienceValue : option string;
  ai_PublishAt : option string;
  ai_ExpireAt : option string;
  ai_AttachmentFileID : option string;
}.

(** The optional collaborators of [Service]. *)
Record AnnouncementService := MkAnnouncementService { an_Notif : bool; an_Audit : bool }.

Definition input_title (a : Announcement) (i : AnnouncementInput) (create : bool) : Res string :=
  if create || negb (bool_decide (ai_Title i = "")) then
    if bool_decide (TrimSpace (ai_Title i) = "") then Err msgTitleMissing else
    if rune_count (ai_Title i) >? 200 then Err msgTitleLong else
    Ok (TrimSpace (ai_Title i))
  else Ok (an_Title a).

Definition input_body (a : Announcement) (i : AnnouncementInput) (create : bool) : Res string :=
  if create || negb (bool_decide (ai_Body i = "")) then
    if bool_decide (TrimSpace (ai_Body i) = "") then Err msgBodyRequired else Ok (ai_Body i)
  else Ok (an_Body a).

(** The audience value without the spaces around it; an empty one is none. *)
Definition trimmed_value (v : option string) : option string :=
  match v with
  | Some v => if bool_decide (TrimSpace v = "") then None else Some (TrimSpace v)
  | None => None
  end.

(** The value an audience of the type carries: of a unit of the building, of a
    floor in its canonical text, or of a block. *)
Definition audience_value {codec : UuidCodec} (buildingID : UUID) (typ v : string) : M string :=
  if bool_decide (typ = AudienceUnit) then
    match uuid_Parse v with
    | None => fail (msgAudienceValueInvalid "uuid")
    | Some uid =>
        cnt ← Count (λ u : Unit, bool_decide (u_ID u = uid) && bool_decide (u_BuildingID u = buildingID)
                       && is_null (u_DeletedAt u));
        if cnt =? 0 then fail msgUnitNotFound else mret v
    end
  else if bool_decide (typ = AudienceFloor) then
    match Sscanf_d v with
    | None => fail (msgAudienceValueInvalid "floor_integer")
    | Some n => mret (FormatInt n)
    end
  else if (Z.of_nat (String.length v) >? 20) then fail msgBlockLong else mret v.

Definition input_audience {codec : UuidCodec} (a : Announcement) (i : AnnouncementInput)
    (create : bool) : M (string * option string) :=
  if create || negb (bool_decide (ai_AudienceType i = "")) then
    if negb (validAudience (ai_AudienceType i)) then fail msgAudienceInvalid else
    if bool_decide (ai_AudienceType i = AudienceAll) then
      match trimmed_value (ai_AudienceValue i) with
      | Some _ => fail msgAudienceAllNoValue
      | None => mret (ai_AudienceType i, None)
      end
    else
      match trimmed_value (ai_AudienceValue i) with
      | None => fail msgAudienceValueRequired
      | Some v =>
          v ← audience_value (an_BuildingID a) (ai_AudienceType i) v;
          mret (ai_AudienceType i, Some v)
      end
  else match ai_AudienceValue i with
       | Some _ => fail msgAudienceInvalid
       | None => mret (an_AudienceType a, an_AudienceValue a)
       end.

(** An instant of the payload: blank clears it, absent keeps it (and on creation
    there is none to keep). *)
Definition input_time (old : option Time) (v : option string) (create : bool) (msg : GoError)
    : Res (option Time) :=
  match v with
  | Some v =>
      if bool_decide (TrimSpace v = "") then Ok None else
      match ParseRFC3339 v with Some t => Ok (Some t) | None => Err msg end
  | None => Ok (if create then None else old)
  end.

Definition input_attachment {codec : UuidCodec} (a : Announcement) (v : option string)
    (create : bool) : M (option string) :=
  match v with
  | Some v =>
      if bool_decide (TrimSpace v = "") then mret None else
      match uuid_Parse (TrimSpace v) with
      | None => fail msgAttachmentInvalid
      | Some fid =>
          path ← map_err (if_not_found msgAttachmentNotFound) (AttachmentPath fid);
          mret (Some path)
      end
  | None => mret (if create then None else an_AttachmentFile a)
  end.

(** [a.ExpireAt.After( *a.PublishAt)] where both are set. *)
Definition ordered (publish expire : option Time) : bool :=
  match publish, expire with Some p, Some e => p <? e | _, _ => true end.

Definition applyInput {codec : UuidCodec} (a : Announcement) (i : AnnouncementInput) (create : bool)
    : M Announcement :=
  title ← lift (input_title a i create);
  body ← lift (input_body a i create);
  '(typ, value) ← input_audience a i create;
  publish ← lift (input_time (an_PublishAt a) (ai_PublishAt i) create msgPublishAtInvalid);
  expire ← lift (input_time (an_ExpireAt a) (ai_ExpireAt i) create msgExpireAtInvalid);
  if negb (ordered publish expire) then fail msgExpireBeforePublish else
  attachment ← input_attachment a (ai_AttachmentFileID i) create;
  mret (MkAnnouncement (an_ID a) (an_BuildingID a) title body typ value publish expire attachment
    (an_CreatedBy a) (an_CreatedAt a) (an_UpdatedAt a)).

(** The text of a notification: the first 200 runes. *)
Definition excerpt (body : string) : string :=
  if rune_count body >? 200 then take_runes 200 body +:+ "…" else body.

Section service.
Context {codec : UuidCodec} {pusher : PushNotifier} (s : AnnouncementService).

Definition notifyTargets (a : Announcement) : M unit :=
  if an_Notif s then
    ignore_err (
      ids ← TargetUserIDs a;
      for_each (λ uid, ignore_err (Notification_Create uid "announcement_published"
        ("اطلاعیه جدید: " +:+ an_Title a) (excerpt (an_Body a)) (Some "announcement")
        (Some (an_ID a)))) ids)
  else mret tt.

Definition audit_announcement (actor : UUID) (action : string) (id : UUID)
    (before after_ : option Announcement) : M unit :=
  if an_Audit s
  then ignore_err (Audit_Append (Some actor) action "announcement" (Some id)
         (SnAnnouncement <$> before) (SnAnnouncement <$> after_))
  else mret tt.

(** [if manager == nil]. *)
Definition signed_in (u : option User) : M User :=
  match u with Some u => mret u | None => fail msgAnnouncementUnauthorized end.

Definition check_announcer (manager : User) (buildingID : UUID) : M unit :=
  ok ← IsManagerOf (us_ID manager) buildingID;
  if negb ok then fail msgAnnouncementForbidden else mret tt.

Definition Create_for_building (manager : option User) (buildingID : UUID) (i : AnnouncementInput)
    : M Announcement :=
  manager ← signed_in manager;
  check_announcer manager buildingID;;
  id ← uuid_New;
  a ← applyInput (MkAnnouncement id buildingID "" "" "" None None None None (Some (us_ID manager)) 0 0)
        i true;
  a ← Create_announcement a;
  now ← time_Now;
  (if in_window now a then notifyTargets a else mret tt);;
  audit_announcement (us_ID manager) "announcement.publish" (an_ID a) None (Some a);;
  mret a.

(** The announcement, for a manager of its building. *)
Definition managed_announcement (manager : option User) (id : UUID) : M (User * Announcement) :=
  manager ← signed_in manager;
  a ← map_err (if_not_found msgAnnouncementNotFound) (Get_announcement id);
  check_announcer manager (an_BuildingID a);;
  mret (manager, a).

Definition Update_announcement (manager : option User) (id : UUID) (i : AnnouncementInput)
    : M Announcement :=
  '(manager, before) ← managed_announcement manager id;
  a ← applyInput before i false;
  a ← Save_announcement a;
  audit_announcement (us_ID manager) "announcement.update" (an_ID a) (Some before) (Some a);;
  mret a.

Definition Delete_announcement (manager : option User) (id : UUID) : M unit :=
  '(manager, a) ← managed_announcement manager id;
  Delete_announcement_row id;;
  audit_announcement (us_ID manager) "announcement.delete" (an_ID a) (Some a) None.

Definition GetForManager_announcement (manager : option User) (id : UUID) : M Announcement :=
  '(_, a) ← managed_announcement manager id; mret a.

Definition ListForManager_announcements (manager : option User) (buildingID : UUID) (page size : Z)
    : M (list Announcement * Z) :=
  manager ← signed_in manager;
  check_announcer manager buildingID;;
  ListForBuilding_announcements buildingID page size.

(** [SELECT DISTINCT], in no order. *)
Definition residentUnits (phone : string) : M (list UnitInfo) :=
  query (λ d, remove_dups (unit_info <$> omap (lives_in d phone) (rows d))).

Definition with_reads (reads_ : UUID → bool) (ar : AnnouncementWithRead) : AnnouncementWithRead :=
  MkAnnouncementWithRead (ar_Announcement ar) (reads_ (an_ID (ar_Announcement ar)) || ar_IsRead ar).

Definition ListForResident (resident : option User) (page size : Z)
    : M (list AnnouncementWithRead * Z) :=
  resident ← signed_in resident;
  units ← residentUnits (us_Phone resident);
  if bool_decide (units = []) then mret ([], 0) else
  now ← time_Now;
  '(items, total) ← ListForResident_rows units now page size;
  reads_ ← ReadsForUser (us_ID resident);
  mret (with_reads reads_ <$> items, total).

(** The announcement where the resident may see it now: shared by
    [GetForResident] and [MarkRead]. *)
Definition visible_announcement (resident : User) (id : UUID) : M Announcement :=
  a ← map_err (if_not_found msgAnnouncementNotFound) (Get_announcement id);
  units ← residentUnits (us_Phone resident);
  now ← time_Now;
  visible ← IsVisible_row id units now;
  if negb visible then fail msgAnnouncementNotFound else mret a.

Definition GetForResident (resident : option User) (id : UUID) : M AnnouncementWithRead :=
  resident ← signed_in resident;
  a ← visible_announcement resident id;
  r ← attempt (ReadsForUser (us_ID resident));
  mret (MkAnnouncementWithRead a (match r with inl reads_ => reads_ id | inr _ => false end)).

Definition MarkRead_announcement (resident : option User) (id : UUID) : M unit :=
  resident ← signed_in resident;
  visible_announcement resident id;;
  MarkRead_row id (us_ID resident).

Definition UnreadCount (resident : option User) : M Z :=
  resident ← signed_in resident;
  units ← residentUnits (us_Phone resident);
  if bool_decide (units = []) then mret 0 else
  now ← time_Now;
  UnreadCountForResident units (us_ID resident) now.
End service.

(** ** handlers.go *)

Section handlers.
Context {codec : UuidCodec} {pusher : PushNotifier} (s : AnnouncementService) (c : HttpCall).

Definition announcers_only : M unit := discard (RequireRole [RoleManager] (hc_User c)).

Definition msgPayload : string := "اطلاعات ارسالی نامعتبر است".

Definition createForManager (body : option AnnouncementInput) : M (Reply Announcement) :=
  replying WriteError (
    announcers_only;;
    u ← current_user c;
    buildingID ← parse_id c "id";
    i ← bind_body msgPayload body;
    a ← Create_for_building s (Some u) buildingID i;
    mret (ReplyJSON 201 a)).

Definition listAnnouncementsForManager : M (Reply (Page Announcement)) :=
  replying WriteError (
    announcers_only;;
    u ← current_user c;
    buildingID ← parse_id c "id";
    '(items, total) ← ListForManager_announcements (Some u) buildingID (page_param c) (size_param c);
    mret (ReplyJSON 200 (MkPage items total (page_param c) (size_param c)))).

Definition getAnnouncementForManager : M (Reply Announcement) :=
  replying WriteError (
    announcers_only;;
    u ← current_user c;
    id ← parse_id c "id";
    a ← map_err (if_not_found (EApp (NotFound "اطلاعیه یافت نشد")))
          (GetForManager_announcement (Some u) id);
    mret (ReplyJSON 200 a)).

Definition updateForManager (body : option AnnouncementInput) : M (Reply Announcement) :=
  replying WriteError (
    announcers_only;;
    u ← current_user c;
    id ← parse_id c "id";
    i ← bind_body msgPayload body;
    a ← Update_announcement s (Some u) id i;
    mret (ReplyJSON 200 a)).

Definition deleteForManager : M (Reply Announcement) :=
  replying WriteError (
    announcers_only;;
    u ← current_user c;
    id ← parse_id c "id";
    Delete_announcement s (Some u) id;;
    mret (ReplyStatus 204)).

Definition listForResident : M (Reply (Page AnnouncementWithRead)) :=
  replying WriteError (
    u ← current_user c;
    '(items, total) ← ListForResident (Some u) (page_param c) (size_param c);
    mret (ReplyJSON 200 (MkPage items total (page_param c) (size_param c)))).

Definition getForResident : M (Reply AnnouncementWithRead) :=
  replying WriteError (
    u ← current_user c;
    id ← parse_id c "id";
    a ← GetForResident (Some u) id;
    mret (ReplyJSON 200 a)).

Definition markRead : M (Reply unit) :=
  replying WriteError (
    u ← current_user c;
    id ← parse_id c "id";
    MarkRead_announcement (Some u) id;;
    mret (ReplyStatus 204)).
End handlers.
