(* ===== verification/Dashboard.v ===== *)
(** * Dashboard

    [internal/dashboard]: the resident's home page and the manager's overview of
    a building, both read-only, and their handlers. *)

From S2P Require Import Prelude Golang Calendar Errors Models Store Schema Logic Notification Crypto Token AuthUser BillingRepo Maintenance PaymentRepo Expense Announcement Http.

(** ** models.go *)

Record LatestInvoice := MkLatestInvoice {
  li_ID : string;
  li_InvoiceNo : string;
  li_UnitNumber : string;
  li_PeriodTitle : string;
  li_FinalAmount : Z;
  li_DueDate : string;
  li_Status : string;
}.

Record LatestRequest := MkLatestRequest {
  lr_ID : string;
  lr_Title : string;
  lr_Priority : string;
  lr_Status : string;
  lr_CreatedAt : string;
}.

Record LatestAnnouncement := MkLatestAnnouncement {
  la_ID : string;
  la_Title : string;
  la_CreatedAt : string;
  la_IsRead : bool;
}.

Record HomeSummary := MkHomeSummary {
  hs_PayableAmount : Z;
  hs_UnitCount : Z;
  hs_LatestInvoice : option LatestInvoice;
  hs_OpenRequestCount : Z;
  hs_LatestRequest : option LatestRequest;
  hs_LatestAnnouncements : list LatestAnnouncement;
  hs_UnreadAnnouncementCount : Z;
  hs_GeneratedAt : Time;
}.

Record ManagerQuickAction := MkManagerQuickAction {
  qa_Key : string;
  qa_Title : string;
  qa_Path : string;
}.

Record DashboardAlert := MkDashboardAlert {
  al_Kind : string;
  al_Severity : Z;
  al_UnitID : string;
  al_UnitNumber : string;
  al_Amount : Z;
  al_Title : string;
  al_RefType : string;
  al_RefID : string;
  al_CreatedAt : string;
}.

Record BuildingDashboard := MkBuildingDashboard {
  bd_BuildingID : string;
  bd_UnitCount : Z;
  bd_OccupiedUnitCount : Z;
  bd_DebtorUnitCount : Z;
  bd_TotalDebt : Z;
  bd_MonthIncome : Z;
  bd_MonthExpense : Z;
  bd_OpenRequests : Z;
  bd_PendingExpenses : Z;
  bd_Month : string;
  bd_Alerts : list DashboardAlert;
  bd_QuickActions : list ManagerQuickAction;
  bd_GeneratedAt : Time;
}.

(** The repositories of [Service]; without one its part of the page is empty. *)
Record DashboardService := MkDashboardService { ds_annRepo : bool; ds_maintRepo : bool }.

Definition msgDashboardUnauthorized : GoError := EApp (Unauthorized "برای این عملیات باید وارد شوید").
Definition msgDashboardForbidden : GoError := EApp (Forbidden "دسترسی غیرمجاز است").

(** [fmt.Errorf("pre: %w", err)]. *)
Definition wrapped (pre : string) (e : GoError) : GoError := EWrap (pre +:+ ": ") e "".

(** ** The resident's home *)

(** An invoice with its unit and its period: the join. *)
Definition payable_row (d : DB) (unitIDs : list UUID) (inv : Invoice)
    : option (Invoice * Unit * BillingPeriod) :=
  un ← row_at (R := Unit) d (inv_UnitID inv);
  bp ← row_at (R := BillingPeriod) d (inv_PeriodID inv);
  if bool_decide (inv_UnitID inv ∈ unitIDs)
     && bool_decide (inv_Status inv ∈ [InvoiceUnpaid; InvoicePartial; InvoiceExpired])
  then Some (inv, un, bp) else None.

(** [ORDER BY issue_date DESC NULLS LAST, created_at DESC]. *)
Definition latest_issued (a b : Invoice) : bool :=
  match inv_IssueDate a, inv_IssueDate b with
  | Some x, Some y => (y <? x) || ((x =? y) && (inv_CreatedAt b <? inv_CreatedAt a))
  | Some _, None => true
  | None, Some _ => false
  | None, None => inv_CreatedAt b <? inv_CreatedAt a
  end.

(** [final - paid], not below zero. *)
Definition outstanding (inv : Invoice) : Z :=
  let o := sub64 (inv_FinalAmount inv) (inv_PaidAmount inv) in if o <? 0 then 0 else o.

(** The selected column [invoice_number] has no field: the one of the row is
    [InvoiceNo], whose column is [invoice_no]. *)
Definition latest_invoice {codec : UuidCodec} (r : Invoice * Unit * BillingPeriod) : LatestInvoice :=
  let '(inv, un, bp) := r in
  MkLatestInvoice (uuid_String (inv_ID inv)) "" (u_Number un) (bp_Title bp) (inv_FinalAmount inv)
    (match inv_DueDate inv with Some t => FormatDate t | None => "" end) (inv_Status inv).

(** [payable += outstanding] over the rows. *)
Definition payable_of (rows_ : list (Invoice * Unit * BillingPeriod)) : Z :=
  foldl (λ acc r, add64 acc (outstanding r.1.1)) 0 rows_.

Definition payableAndLatestInvoice {codec : UuidCodec} (unitIDs : list UUID)
    : M (Z * option LatestInvoice) :=
  l ← map_err (wrapped "query resident invoices") (query (λ d,
    omap (payable_row d unitIDs) (sort_by latest_issued (rows d))));
  mret (payable_of l, latest_invoice <$> head l).

(** [sortAnnouncementsNewestFirst]: the outer loop takes the elements in order,
    the inner one moves an element left past the older ones. [acc] is
    [arr[:i]], from its right end. *)
Fixpoint move_left (x : AnnouncementWithRead) (acc : list AnnouncementWithRead)
    : list AnnouncementWithRead :=
  match acc with
  | y :: acc' =>
      if Before (an_CreatedAt (ar_Announcement y)) (an_CreatedAt (ar_Announcement x))
      then y :: move_left x acc' else x :: acc
  | [] => [x]
  end.

Definition sortAnnouncementsNewestFirst (arr : list AnnouncementWithRead)
    : list AnnouncementWithRead :=
  reverse (foldl (λ acc x, move_left x acc) [] arr).

Section home.
Context {codec : UuidCodec} {loc : Location} (s : DashboardService).

Definition openRequestSummary (residentID : UUID) : M (Z * option LatestRequest) :=
  if negb (ds_maintRepo s) then mret (0, None) else
  n ← map_err (wrapped "count open requests") (CountOpenForUser residentID);
  latest ← map_err (wrapped "latest request") (LatestForUser residentID);
  mret (n, (λ m, MkLatestRequest (uuid_String (mr_ID m)) (mr_Title m) (mr_Priority m) (mr_Status m)
              (FormatRFC3339 (mr_CreatedAt m))) <$> latest).

Definition latest_announcement (ar : AnnouncementWithRead) : LatestAnnouncement :=
  let a := ar_Announcement ar in
  MkLatestAnnouncement (uuid_String (an_ID a)) (an_Title a) (FormatRFC3339 (an_CreatedAt a))
    (ar_IsRead ar).

Definition announcementSummary (resident : User) : M (list LatestAnnouncement * Z) :=
  if negb (ds_annRepo s) then mret ([], 0) else
  units ← map_err (wrapped "resolve announcement units") (ResidentUnits (us_Phone resident));
  now ← time_Now;
  unread ← map_err (wrapped "unread count") (UnreadCountForResident units (us_ID resident) now);
  visible ← map_err (wrapped "list visible announcements") (VisibleAnnouncements units now);
  reads_ ← map_err (wrapped "list announcement reads") (ReadsForUser (us_ID resident));
  let visible := with_reads reads_ <$> visible in
  let visible := if (1 <? length visible)%nat then sortAnnouncementsNewestFirst visible else visible in
  mret (latest_announcement <$> take 5 visible, unread).

Definition Home (resident : option User) : M HomeSummary :=
  match resident with
  | None => fail msgDashboardUnauthorized
  | Some resident =>
      unitIDs ← Scope_ResidentUnitIDs (us_Phone resident);
      now ← time_Now;
      let count := Z.of_nat (length unitIDs) in
      if bool_decide (unitIDs = []) then mret (MkHomeSummary 0 count None 0 None [] 0 now) else
      '(payable, latest) ← payableAndLatestInvoice unitIDs;
      '(openCount, latestReq) ← openRequestSummary (us_ID resident);
      '(latestAnn, unread) ← announcementSummary resident;
      mret (MkHomeSummary payable count latest openCount latestReq latestAnn unread now)
  end.
End home.

(** ** The manager's overview *)

(** A SELECT of a count. *)
Definition count_of (context : string) (f : DB → Z) : M Z := map_err (wrapped context) (query f).

Definition sum_scan (context : string) (f : DB → Z) : M Z := map_err (wrapped context) (select_sum f).

Definition unit_of (buildingID : UUID) (u : Unit) : bool :=
  bool_decide (u_BuildingID u = buildingID) && is_null (u_DeletedAt u).

Definition count_where {R} `{!Table R} (P : R → bool) (d : DB) : Z :=
  Z.of_nat (length (List.filter P (rows d))).

(** [SUM(GREATEST(balance, 0))] over the balances of the live units. *)
Definition positive_balances (d : DB) (buildingID : UUID) : Z :=
  sum_of (λ b, Z.max (bal_Balance b) 0) (List.filter (balance_in d buildingID) (rows d)).

Definition debtor (d : DB) (buildingID : UUID) (b : UnitBalance) : bool :=
  balance_in d buildingID b && (0 <? bal_Balance b).

Definition open_in (buildingID : UUID) (m : MaintenanceRequest) : bool :=
  bool_decide (mr_BuildingID m = buildingID) && open_request m.

Definition pending_in (buildingID : UUID) (e : Expense) : bool :=
  expense_of buildingID e && bool_decide (ex_ApprovalStatus e = ApprovalPending).

(** ** Alerts *)

Definition perKindLimit : nat := 10.

(** [ORDER BY less LIMIT 10] of a join. *)
Definition alert_rows {R A} `{!Table R} (less : R → R → bool) (f : DB → R → option A) : M (list A) :=
  query (λ d, take perKindLimit (omap (f d) (sort_by less (rows d)))).

Definition alert_unit (d : DB) (buildingID id : UUID) : option Unit :=
  un ← row_at (R := Unit) d id; if unit_of buildingID un then Some un else None.

Definition debtor_row (buildingID : UUID) (d : DB) (b : UnitBalance) : option (UnitBalance * Unit) :=
  un ← alert_unit d buildingID (bal_UnitID b);
  if 0 <? bal_Balance b then Some (b, un) else None.

(** Due before the date of [now], unpaid or partial. *)
Definition past_due_row {loc : Location} (buildingID : UUID) (now : Time) (d : DB) (inv : Invoice)
    : option (Invoice * Unit * Time) :=
  un ← alert_unit d buildingID (inv_UnitID inv);
  due ← inv_DueDate inv;
  if (due <? local_date now) && bool_decide (inv_Status inv ∈ [InvoiceUnpaid; InvoicePartial])
  then Some (inv, un, due) else None.

Definition severity_of (m : MaintenanceRequest) : Z :=
  if bool_decide (mr_Priority m = PriUrgent) then 2
  else if bool_decide (mr_Priority m = PriImportant) then 1 else 0.

Definition due_first (a b : Invoice) : bool :=
  match inv_DueDate a, inv_DueDate b with
  | Some x, Some y => x <? y
  | Some _, None => true
  | None, _ => false
  end.

Section overview.
Context {codec : UuidCodec} {loc : Location}.

Definition debtor_alert (r : UnitBalance * Unit) : DashboardAlert :=
  MkDashboardAlert "debtor_unit" 1 (uuid_String (bal_UnitID r.1)) (u_Number r.2) (bal_Balance r.1)
    "واحد بدهکار" "unit" (uuid_String (bal_UnitID r.1)) "".

Definition past_due_alert (r : Invoice * Unit * Time) : DashboardAlert :=
  let '(inv, un, due) := r in
  MkDashboardAlert "past_due_invoice" 2 (uuid_String (inv_UnitID inv)) (u_Number un)
    (outstanding inv) "صورتحساب سررسید گذشته" "invoice" (uuid_String (inv_ID inv)) (FormatDate due).

Definition request_alert (m : MaintenanceRequest) : DashboardAlert :=
  MkDashboardAlert "open_request" (severity_of m) "" "" 0 (mr_Title m) "maintenance_request"
    (uuid_String (mr_ID m)) (FormatRFC3339 (mr_CreatedAt m)).

Definition expense_alert (e : Expense) : DashboardAlert :=
  MkDashboardAlert "pending_expense" 1 "" "" (ex_Amount e) (ex_Title e) "expense"
    (uuid_String (ex_ID e)) (FormatDate (ex_ExpenseDate e)).

Definition alerts (buildingID : UUID) (now : Time) : M (list DashboardAlert) :=
  debtors ← map_err (wrapped "alerts.debtors")
    (alert_rows (λ a b, bal_Balance b <? bal_Balance a) (debtor_row buildingID));
  pastDue ← map_err (wrapped "alerts.past_due") (alert_rows due_first (past_due_row buildingID now));
  reqs ← map_err (wrapped "alerts.open_requests")
    (alert_rows newest_request (λ _ m, if open_in buildingID m then Some m else None));
  exps ← map_err (wrapped "alerts.pending_expenses")
    (alert_rows (λ a b, ex_ExpenseDate b <? ex_ExpenseDate a)
      (λ _ e, if pending_in buildingID e then Some e else None));
  mret (take 20 ((debtor_alert <$> debtors) ++ (past_due_alert <$> pastDue)
        ++ (request_alert <$> reqs) ++ (expense_alert <$> exps))).

Definition defaultQuickActions (buildingID : UUID) : list ManagerQuickAction :=
  let bid := uuid_String buildingID in
  [MkManagerQuickAction "issue_charge" "صدور شارژ" ("/manager/periods/" +:+ bid +:+ "/new");
   MkManagerQuickAction "record_expense" "ثبت هزینه" ("/manager/expenses/" +:+ bid +:+ "/new");
   MkManagerQuickAction "record_payment" "ثبت پرداخت" ("/manager/ledger/" +:+ bid);
   MkManagerQuickAction "send_announcement" "انتشار اطلاعیه"
     ("/manager/announcements/" +:+ bid +:+ "/new");
   MkManagerQuickAction "open_requests" "درخواست‌ها" ("/manager/maintenance/" +:+ bid)].

Definition BuildingDashboard_of (manager : option User) (buildingID : UUID) : M BuildingDashboard :=
  match manager with
  | None => fail msgDashboardUnauthorized
  | Some manager =>
      ok ← CanManagerAccessBuilding (us_ID manager) buildingID;
      if negb ok then fail msgDashboardForbidden else
      now ← time_Now;
      let w := (monthFloor now, monthEnd now) in
      units ← count_of "unit count" (count_where (unit_of buildingID));
      occupied ← count_of "occupied unit count"
        (count_where (λ u, unit_of buildingID u && bool_decide (u_Status u = UnitStatusOccupied)));
      debt ← sum_scan "total debt" (λ d, positive_balances d buildingID);
      debtors ← count_of "debtor count" (λ d, count_where (debtor d buildingID) d);
      income ← sum_scan "month income" (λ d, income_in d buildingID w);
      expense ← sum_scan "month expense" (λ d, expense_in d buildingID w);
      open_ ← count_of "open requests" (count_where (open_in buildingID));
      pending ← count_of "pending expenses" (count_where (pending_in buildingID));
      al ← alerts buildingID now;
      mret (MkBuildingDashboard (uuid_String buildingID) units occupied debtors debt income expense
        open_ pending (FormatMonth (Year (local now)) (Month (local now))) al
        (defaultQuickActions buildingID) now)
  end.

(** ** handlers.go *)

Context (s : DashboardService) (c : HttpCall).

Definition home : M (Reply HomeSummary) :=
  replying WriteError (
    u ← current_user c;
    out ← Home s (Some u);
    mret (ReplyJSON 200 out)).

Definition buildingDashboard : M (Reply BuildingDashboard) :=
  replying WriteError (
    discard (RequireRole [RoleManager] (hc_User c));;
    u ← current_user c;
    id ← parse_id c "id";
    out ← BuildingDashboard_of (Some u) id;
    mret (ReplyJSON 200 out)).
End overview.
