(* ===== verification/NotificationHandlers.v ===== *)
(** * Notification handlers

    [internal/notification/handlers.go]. A query parameter is [None] when it is
    absent. *)

From Stdlib Require Import Ascii.
From S2P Require Import Prelude Golang Errors Models Store Schema Logic Notification AuthUser Http.

(** [n, _ := strconv.Atoi(s)]: 0 for a text that is no number, the nearest
    [int64] for one out of range. *)
Definition Atoi_unchecked (s : string) : Z :=
  let clamp z := Z.max (- 2 ^ 63) (Z.min (2 ^ 63 - 1) z) in
  default 0 (match s with
             | String "-"%char s' => (λ z, clamp (- z)) <$> parse_digits s'
             | String "+"%char s' => clamp <$> parse_digits s'
             | _ => clamp <$> parse_digits s
             end).

Example Atoi_unchecked_samples :
  Atoi_unchecked "12" = 12 ∧ Atoi_unchecked "-3" = -3 ∧ Atoi_unchecked "" = 0 ∧
  Atoi_unchecked "1a" = 0 ∧ Atoi_unchecked "99999999999999999999" = 2 ^ 63 - 1.
Proof. vm_compute. repeat split. Qed.

Definition signed_in_or_401 (c : HttpCall) : M User :=
  match hc_User c with
  | Some u => mret u
  | None => fail (EApp (Unauthorized "احراز هویت لازم است."))
  end.

(** [httpx.WriteError(c, httpx.Internal(msg))] for any error of the service. *)
Definition or_internal {A} (msg : string) (m : M A) : M A := map_err (λ _, EApp (Internal msg)) m.

Section handlers.
Context {codec : UuidCodec} {pusher : PushNotifier} (c : HttpCall).

(** The page of the reply is the one asked for, not the normalised one. *)
Definition list_notifications (page pageSize : option string) : M (Reply (Page Notification)) :=
  replying WriteError (
    u ← signed_in_or_401 c;
    let unreadOnly := bool_decide (hc_Query c "unreadOnly" = "true") in
    let page := Atoi_unchecked (default "1" page) in
    let pageSize := Atoi_unchecked (default "20" pageSize) in
    '(items, total) ← or_internal "خطا در دریافت اعلان‌ها."
      (Notification_List (us_ID u) unreadOnly page pageSize);
    mret (ReplyJSON 200 (MkPage items total page pageSize))).

Definition mark_notification_read : M (Reply unit) :=
  replying WriteError (
    u ← signed_in_or_401 c;
    id ← (match uuid_Parse (hc_Param c "id") with
          | Some id => mret id
          | None => fail (EApp (BadRequest "شناسه اعلان نامعتبر است."))
          end);
    or_internal "خطا در ثبت وضعیت اعلان." (MarkRead (us_ID u) id);;
    mret (ReplyStatus 204)).

Definition readAll : M (Reply unit) :=
  replying WriteError (
    u ← signed_in_or_401 c;
    or_internal "خطا در ثبت وضعیت اعلان‌ها." (MarkAllRead (us_ID u));;
    mret (ReplyStatus 204)).
End handlers.
