(* ===== verification/BillingLemmas.v ===== *)
(** * Lemmas about the billing operations

    What the helpers of the two billing services establish (authorisation, the
    period read from the store, read-only prefixes), and the two relations the
    properties of billing are about: the period state machine and the
    preservation of frozen invoices. *)

From S2P Require Import Prelude Golang Calendar Errors Engine LateFee Models Store Schema Logic Notification BillingRepo Calc Period.

(** ** Read-only calls *)

Ltac read_only := unfold ReadOnly; stays_tac.

#[export] Hint Extern 5 (Stays eq ?m) =>
  lazymatch m with mbind _ _ => fail | _ => change (ReadOnly m) end : typeclass_instances.
#[export] Hint Extern 6 (Stays _ ?m) =>
  apply (read_only_stays _ m) : typeclass_instances.

#[export] Instance IsManagerOf_ro u b : ReadOnly (IsManagerOf u b).
Proof. unfold IsManagerOf. read_only. Qed.
#[export] Instance GetPeriod_row_ro id : ReadOnly (GetPeriod_row id).
Proof. unfold GetPeriod_row. read_only. Qed.
#[export] Instance ListPeriods_rows_ro b : ReadOnly (ListPeriods_rows b).
Proof. unfold ListPeriods_rows. read_only. Qed.
#[export] Instance GetCostItem_ro id : ReadOnly (GetCostItem id).
Proof. unfold GetCostItem. read_only. Qed.
#[export] Instance ListCostItems_ro p : ReadOnly (ListCostItems p).
Proof. unfold ListCostItems. read_only. Qed.
#[export] Instance UnitsForBuilding_ro b : ReadOnly (UnitsForBuilding b).
Proof. intros d. by apply holds_stmt. Qed.
#[export] Instance OccupantCountAsOf_ro u r : ReadOnly (BillingOccupantCountAsOf u r).
Proof. unfold BillingOccupantCountAsOf. read_only. Qed.
#[export] Instance ListSharesForPeriod_ro p : ReadOnly (ListSharesForPeriod p).
Proof. unfold ListSharesForPeriod. read_only. Qed.
#[export] Instance list_invoices_ro P pg sz : ReadOnly (list_invoices P pg sz).
Proof. unfold list_invoices, normalizePage. read_only. Qed.
#[export] Instance ListInvoices_rows_ro f : ReadOnly (ListInvoices_rows f).
Proof. unfold ListInvoices_rows. read_only. Qed.
#[export] Instance BillingOccupantUserIDs_ro us : ReadOnly (BillingOccupantUserIDs us).
Proof. unfold BillingOccupantUserIDs. read_only. Qed.
#[export] Instance GetInvoice_ro id : ReadOnly (GetInvoice id).
Proof.
  unfold GetInvoice, ReadOnly. apply stays_bind; [apply _| |intros; stays_tac].
  intros d. apply holds_stmt; [done|]. intros _ _. by destruct (row_at d id).
Qed.
#[export] Instance authorizeBuilding_ro m b : ReadOnly (authorizeBuilding m b).
Proof. unfold authorizeBuilding. read_only. Qed.
#[export] Instance CalcAuthorizedPeriod_ro m id : ReadOnly (CalcAuthorizedPeriod m id).
Proof. unfold CalcAuthorizedPeriod. read_only. Qed.
#[export] Instance getAuthorizedPeriod_ro m id : ReadOnly (getAuthorizedPeriod m id).
Proof. unfold getAuthorizedPeriod. read_only. Qed.
#[export] Instance authorizedCostItem_ro m id : ReadOnly (authorizedCostItem m id).
Proof. unfold authorizedCostItem. read_only. Qed.
#[export] Instance authorizedInvoice_ro m id : ReadOnly (authorizedInvoice m id).
Proof. unfold authorizedInvoice. read_only. Qed.
#[export] Instance Preview_period_ro m id : ReadOnly (Preview_period m id).
Proof. unfold Preview_period. read_only. Qed.
#[export] Instance validateCostItem_ro ci i b : ReadOnly (validateCostItem ci i b).
Proof. unfold validateCostItem, bad. read_only. Qed.

(** The contract of the payment domain: a snapshot only reads, and a recompute
    only writes the balance rows. *)
Class BalanceProviderOk `{!BalanceProvider} : Prop :=
  snapshot_reads :: ∀ u, ReadOnly (Snapshot_of u).

(** Everything but the balances is unchanged. *)
Definition only_balances (d d' : DB) : Prop := ∃ b, d' = set_balances b d.

Class BalanceRecomputerOk `{!BalanceRecomputer} : Prop :=
  recompute_only : ∀ f id, RecomputeInvoice_hook = Some f → Stays only_balances (f id).

#[export] Instance ZeroBalanceProvider_ok : @BalanceProviderOk ZeroBalanceProvider.
Proof. intros u. simpl. read_only. Qed.

Section calc_reads.
Context `{!UuidCodec} `{!BalanceProvider, !BalanceProviderOk}.

#[export] Instance charge_items_ro bus items shares charges :
  ReadOnly (charge_items bus items shares charges).
Proof.
  revert shares charges. induction items as [|item items IH]; intros; simpl; [read_only|].
  unfold ReadOnly. stays_step; [apply _|stays_tac|].
  stays_step; [apply _| |apply IH]. apply stays_map_each; [apply _|].
  intros sh. unfold share_row. stays_tac.
Qed.

#[export] Instance draft_invoice_ro period charges bu : ReadOnly (draft_invoice period charges bu).
Proof. unfold draft_invoice, charge_item. read_only. Qed.

#[export] Instance compute_invoices_ro period : ReadOnly (compute_invoices period).
Proof. unfold compute_invoices, snapshot_unit. read_only. Qed.
End calc_reads.

(** ** What the helpers establish *)

Definition granted (d : DB) (manager : User) (buildingID : UUID) : Prop :=
  is_Some (db_user_buildings d !! (us_ID manager, buildingID)).

Lemma holds_authorizeBuilding manager b d (Q : Res unit → DB → Prop) :
  (∀ e, Q (Err e) d) → (granted d manager b → Q (Ok tt) d) →
  holds (authorizeBuilding manager b) d Q.
Proof.
  intros He Hok. unfold authorizeBuilding, IsManagerOf. steps; simpl; try apply He.
  apply Hok. by apply bool_decide_eq_true in H.
Qed.

Lemma holds_getAuthorizedPeriod manager id d (Q : Res BillingPeriod → DB → Prop) :
  (∀ e, Q (Err e) d) →
  (∀ p, row_at d id = Some p → granted d manager (bp_BuildingID p) → Q (Ok p) d) →
  holds (getAuthorizedPeriod manager id) d Q.
Proof.
  intros He Hok. unfold getAuthorizedPeriod, GetPeriod_row. steps; try apply He.
  apply holds_authorizeBuilding; simpl; [done|]. intros. apply holds_ret. by apply Hok.
Qed.

Lemma holds_CalcAuthorizedPeriod manager id d (Q : Res BillingPeriod → DB → Prop) :
  (∀ e, Q (Err e) d) →
  (∀ p, row_at d id = Some p → granted d manager (bp_BuildingID p) → Q (Ok p) d) →
  holds (CalcAuthorizedPeriod manager id) d Q.
Proof.
  intros He Hok. unfold CalcAuthorizedPeriod, GetPeriod_row, IsManagerOf.
  steps; simpl; try apply He.
  apply Hok; [done|]. rewrite negb_false_iff in Heqb. by apply bool_decide_eq_true in Heqb.
Qed.

Lemma holds_authorizedCostItem manager id d (Q : Res (BCostItem * BillingPeriod) → DB → Prop) :
  (∀ e, Q (Err e) d) →
  (∀ (ci : BCostItem) (p : BillingPeriod), row_at d id = Some ci → row_at d (ci_PeriodID ci) = Some p →
     granted d manager (bp_BuildingID p) → Q (Ok (ci, p)) d) →
  holds (authorizedCostItem manager id) d Q.
Proof.
  intros He Hok. unfold authorizedCostItem, GetCostItem, GetPeriod_row. steps; try apply He.
  apply holds_authorizeBuilding; simpl; [done|]. intros. apply holds_ret. by apply Hok.
Qed.

Lemma holds_authorizedInvoice manager id d (Q : Res InvoiceDetail → DB → Prop) :
  (∀ e, Q (Err e) d) →
  (∀ v, row_at d id = Some (ivw_Invoice (ivd_View v)) →
     granted d manager (inv_BuildingID (ivw_Invoice (ivd_View v))) → Q (Ok v) d) →
  holds (authorizedInvoice manager id) d Q.
Proof.
  intros He Hok. unfold authorizedInvoice, GetInvoice. step. step. step.
  apply holds_stmt; [intros; apply He|]. intros _ _.
  destruct (row_at d id) as [inv|] eqn:E; simpl; [|apply He].
  steps; try apply He.
  apply holds_authorizeBuilding; simpl; [done|]. intros. apply holds_ret. by apply Hok.
Qed.

(** ** The period state machine *)

Definition status_at (d : DB) (id : UUID) : option string := bp_Status <$> row_at d id.

Inductive period_step : option string → option string → Prop :=
  | ps_same s : period_step s s
  | ps_create : period_step None (Some PeriodDraft)
  | ps_calculate : period_step (Some PeriodDraft) (Some PeriodCalculated)
  | ps_reopen : period_step (Some PeriodCalculated) (Some PeriodDraft)
  | ps_issue : period_step (Some PeriodCalculated) (Some PeriodIssued)
  | ps_close : period_step (Some PeriodIssued) (Some PeriodClosed).

#[export] Hint Constructors period_step : hamsa.

Definition PeriodsStep (d d' : DB) : Prop :=
  ∀ id, period_step (status_at d id) (status_at d' id).

Lemma keeps_status d d' id : db_periods d' = db_periods d → status_at d' id = status_at d id.
Proof. intros E. unfold status_at, row_at. simpl. by rewrite E. Qed.

Lemma keeps_PeriodsStep d d' : db_periods d' = db_periods d → PeriodsStep d d'.
Proof. intros E id. rewrite (keeps_status d d') by done. constructor. Qed.

Lemma PeriodsStep_keeps_l d0 d d' :
  db_periods d = db_periods d0 → PeriodsStep d d' → PeriodsStep d0 d'.
Proof. intros E H id. rewrite <- (keeps_status d0 d) by done. apply H. Qed.

Lemma PeriodsStep_keeps_r d d1 d' :
  db_periods d' = db_periods d1 → PeriodsStep d d1 → PeriodsStep d d'.
Proof. intros E H id. rewrite (keeps_status d1 d') by done. apply H. Qed.

Lemma admit_period_inv env d p p' :
  accept env d p = Ok p' → bp_ID p' = bp_ID p ∧ bp_Status p' = bp_Status p ∧
  bp_BuildingID p' = bp_BuildingID p.
Proof.
  simpl. unfold admit_BillingPeriod. destruct (env_numeric _ _); [|done].
  rewrite !require_Ok. intros. destruct_and?. by simplify_eq.
Qed.

Lemma put_period_status (p : BillingPeriod) d id :
  status_at (put p d) id = if decide (id = bp_ID p) then Some (bp_Status p) else status_at d id.
Proof. unfold status_at. rewrite row_at_put. simpl. by case_decide. Qed.

(** Saving a period writes its status at its identifier and nothing else. *)
Lemma save_period_status env now (p : BillingPeriod) d d' :
  save_row env (touch now p) d = Ok d' →
  (∀ id, status_at d' id = if decide (id = bp_ID p) then Some (bp_Status p) else status_at d id) ∧
  ∃ m, d' = set_periods m d.
Proof.
  unfold save_row. destruct (tbl d !! key (touch now p)) as [old|]; intros E.
  - apply update_row_Ok in E as (r' & Ha & _ & ->). apply admit_period_inv in Ha as (E1 & E2 & _).
    split; [|by eexists]. intros id. rewrite put_period_status, E1, E2. done.
  - apply insert_row_Ok in E as (_ & _ & r' & Ha & ->). apply admit_period_inv in Ha as (E1 & E2 & _).
    split; [|by eexists]. intros id. rewrite put_period_status, E1, E2. done.
Qed.

Lemma period_saved_step d d' id s s' :
  status_at d id = s → period_step s (Some s') →
  (∀ i, status_at d' i = if decide (i = id) then Some s' else status_at d i) →
  PeriodsStep d d'.
Proof.
  intros Hs Hst H i. rewrite H. case_decide as E; [rewrite E, Hs; done|constructor].
Qed.

(** Saving a period read under its identifier is one step of the machine. *)
Lemma holds_SavePeriod p s d (Q : Res BillingPeriod → DB → Prop) :
  (∀ e, Q (Err e) d) → status_at d (bp_ID p) = s → period_step s (Some (bp_Status p)) →
  (∀ p' m, let d' := set_periods m d in PeriodsStep d d' →
     bp_Status p' = bp_Status p → bp_ID p' = bp_ID p → Q (Ok p') d') →
  holds (SavePeriod p) d Q.
Proof.
  intros He Hs Hst Hok. unfold SavePeriod. step; [apply He|].
  apply save_period_status in H as (Hst' & m & ->).
  apply Hok; [|done..]. by eapply period_saved_step.
Qed.

(** An UPDATE of the row with a given identifier. *)
Lemma update_by_id `{!Table R, !AdmitSafe R} env f d d' (id : UUID) :
  (∀ r : R, key (f r) = key r) →
  update_rows env f (List.filter (λ r : R, bool_decide (key r = id)) (rows d)) d = Ok d' →
  (row_at (R := R) d id = None ∧ d' = d) ∨
  ∃ r r', row_at d id = Some r ∧ accept env d (f r) = Ok r' ∧ on_update r r' = None ∧
    key r' = id ∧ d' = put r' d.
Proof.
  intros Hk. rewrite filter_rows_id. destruct (row_at d id) as [r|] eqn:E; simpl.
  - destruct (update_row env r (f r) d) as [d1|e|s] eqn:Eu; simpl; [|done..]. intros [= <-].
    right. apply update_row_Ok in Eu as (r' & Ha & Hu & ->). exists r, r'.
    split_and!; [done..| |done]. apply row_at_Some in E as [_ <-].
    by rewrite (admit_key _ _ _ _ Ha), Hk.
  - intros [= <-]. by left.
Qed.

(** ** Which tables the writing helpers touch *)

Section keeps.
Context {X} (π : DB → X).

Lemma keeps_delete_calculation id :
  Indep π CostItemShare → Indep π Invoice → Stays (keeps π) (delete_calculation id).
Proof. intros. unfold delete_calculation. stays_tac. Qed.

Lemma keeps_ReplaceCalculation id shares invoices :
  Indep π CostItemShare → Indep π Invoice → Indep π InvoiceItem →
  Stays (keeps π) (ReplaceCalculation id shares invoices).
Proof.
  intros. unfold ReplaceCalculation, store_share, store_invoice, store_item.
  stays_tac. by apply keeps_delete_calculation.
Qed.

Lemma keeps_DiscardCalculation id :
  Indep π CostItemShare → Indep π Invoice → Stays (keeps π) (DiscardCalculation id).
Proof. intros. unfold DiscardCalculation. stays_tac. by apply keeps_delete_calculation. Qed.

Lemma keeps_number_draft {loc : Location} year count now x :
  Indep π Invoice → Stays (keeps π) (number_draft year count now x).
Proof. intros. destruct x. unfold number_draft. stays_tac. Qed.

Lemma keeps_SetInvoiceStatus id s :
  Indep π Invoice → Stays (keeps π) (SetInvoiceStatus id s).
Proof. intros. unfold SetInvoiceStatus. stays_tac. Qed.

Lemma keeps_CreateAdjustment adj item :
  Indep π InvoiceAdjustment → Indep π InvoiceItem → Stays (keeps π) (CreateAdjustment adj item).
Proof. intros. unfold CreateAdjustment. stays_tac. Qed.

Lemma keeps_Append actor action ot oid b a :
  (∀ l d, π (set_audit_logs l d) = π d) → Stays (keeps π) (Audit_Append actor action ot oid b a).
Proof. intros Hb d. apply holds_Append; [done|]. intros l. apply Hb. Qed.

Lemma keeps_Notification_Create `{!PushNotifier} u t ti b rt ri :
  Indep π Notification → Stays (keeps π) (Notification_Create u t ti b rt ri).
Proof. intros. unfold Notification_Create. stays_tac. Qed.

Lemma keeps_notify_issued `{!PushNotifier} p inv :
  Indep π Notification → Stays (keeps π) (notify_issued p inv).
Proof. intros. unfold notify_issued. stays_tac. by apply keeps_Notification_Create. Qed.

Lemma keeps_recomputeBalances `{!BalanceRecomputer, !BalanceRecomputerOk} ids :
  (∀ b d, π (set_balances b d) = π d) → Stays (keeps π) (recomputeBalances ids).
Proof.
  intros Hb. unfold recomputeBalances. destruct RecomputeInvoice_hook as [f|] eqn:E; stays_tac.
  eapply stays_mono; [|by eapply recompute_only]. intros d d' [b ->]. apply Hb.
Qed.
End keeps.

#[export] Hint Resolve keeps_delete_calculation keeps_ReplaceCalculation keeps_DiscardCalculation
  keeps_number_draft keeps_SetInvoiceStatus keeps_CreateAdjustment keeps_Append
  keeps_Notification_Create keeps_notify_issued keeps_recomputeBalances : hamsa.

(** [keeps_tac]: a call built from those helpers leaves [π] alone. *)
Ltac keeps_leaf :=
  first [ apply keeps_ReplaceCalculation | apply keeps_DiscardCalculation
        | apply keeps_number_draft | apply keeps_SetInvoiceStatus | apply keeps_CreateAdjustment
        | apply keeps_Append | apply keeps_notify_issued | apply keeps_recomputeBalances
        | apply keeps_Notification_Create ]; try apply _; try (intros; reflexivity).
Ltac keeps_tac := repeat first [keeps_leaf | stays_step].

(** ** IssueInvoices *)

Lemma holds_issue_period id now d (Q : Res Z → DB → Prop) :
  (∀ e, Q (Err e) d) →
  (status_at d id = None → Q (Ok 0) d) →
  (∀ p p' : BillingPeriod, row_at d id = Some p → bp_ID p' = id → bp_Status p' = PeriodIssued →
     Q (Ok 1) (put p' d)) →
  holds (Update_where (λ p, bool_decide (bp_ID p = id)) (λ _, issue_period now)) d Q.
Proof.
  intros He Hn Hok. step; [apply He|].
  pose proof (filter_rows_id (R := BillingPeriod) d id) as Hf. simpl in Hf. rewrite Hf.
  destruct (update_by_id (R := BillingPeriod) env (issue_period now) d d' id ltac:(done) H)
    as [[E ->]|(r & r' & E & Ha & _ & Hk & ->)].
  - rewrite E. apply Hn. unfold status_at. by rewrite E.
  - rewrite E. apply admit_period_inv in Ha as (E1 & E2 & _). apply (Hok r r'); [done|done|].
    by rewrite E2.
Qed.
