(* ===== verification/BuildingSpec.v ===== *)
(** * What the registry guarantees

    The operations of [building.Service] as one type, what each of them may
    touch, and the three invariants: a building with managers keeps one, the
    history of occupancies is never rewritten, a unit has at most one open
    occupancy per relationship. *)

From S2P Require Import Prelude Golang Errors Models Store Schema Logic Notification BillingRepo BuildingRepo BuildingService Occupancy.

(** ** The operations *)

Inductive BuildingOp :=
  | OpCreateBuilding (m : option User) (i : BuildingInput)
  | OpUpdateBuilding (m : option User) (b : UUID) (i : BuildingInput)
  | OpDeleteBuilding (m : option User) (b : UUID)
  | OpGrantManager (m : option User) (b : UUID) (phone : string)
  | OpRevokeManager (m : option User) (b user : UUID)
  | OpCreateUnit (m : option User) (b : UUID) (i : UnitInput)
  | OpUpdateUnit (m : option User) (u : UUID) (i : UnitInput)
  | OpDeleteUnit (m : option User) (u : UUID)
  | OpCreatePerson (m : option User) (b : UUID) (i : PersonInput)
  | OpUpdatePerson (m : option User) (p : UUID) (i : PersonInput)
  | OpDeletePerson (m : option User) (p : UUID)
  | OpAddOccupancy (m : option User) (u : UUID) (i : OccupancyInput)
  | OpEndOccupancy (m : option User) (o : UUID) (end_ : Time)
  | OpRecordCount (m : option User) (u : UUID) (count : Z) (effectiveFrom : Time).

Definition run_building `{!MapOrder} (op : BuildingOp) : M unit :=
  match op with
  | OpCreateBuilding m i => discard (CreateBuilding m i)
  | OpUpdateBuilding m b i => discard (UpdateBuilding m b i)
  | OpDeleteBuilding m b => DeleteBuilding m b
  | OpGrantManager m b p => discard (GrantManagerByPhone m b p)
  | OpRevokeManager m b u => RevokeManager m b u
  | OpCreateUnit m b i => discard (CreateUnit m b i)
  | OpUpdateUnit m u i => discard (UpdateUnit m u i)
  | OpDeleteUnit m u => DeleteUnit m u
  | OpCreatePerson m b i => discard (CreatePerson m b i)
  | OpUpdatePerson m p i => discard (UpdatePerson m p i)
  | OpDeletePerson m p => DeletePerson m p
  | OpAddOccupancy m u i => discard (AddOccupancy m u i)
  | OpEndOccupancy m o e => discard (EndOccupancy m o e)
  | OpRecordCount m u c e => discard (RecordOccupantCount m u c e)
  end.

(** The one operation that promotes a resident. *)
Definition grants (op : BuildingOp) : Prop := match op with OpGrantManager _ _ _ => True | _ => False end.

Inductive building_step `{!MapOrder} : DB → DB → Prop :=
  | building_call op env w : building_step (w_db w) (w_db (run_building op env w).2).

(** ** Reads *)

Lemma reads_deref {A} (p : option A) d (P : A → Prop) :
  (∀ a, p = Some a → P a) → reads (deref p) d P.
Proof. intros H. destruct p; [apply reads_ret; auto|by apply reads_lift]. Qed.

Lemma reads_First_id `{!Table R, !AdmitSafe R} id d (P : R → Prop) :
  (∀ r, row_at d id = Some r → P r) → reads (First_id id) d P.
Proof. intros H. apply holds_First_id; naive_solver. Qed.

(** What a check of the scope establishes. *)
Definition in_scope_of (m : option User) (d : DB) (building : UUID) : Prop :=
  ∃ u, m = Some u ∧ is_manager d (us_ID u) building = true.

Lemma reads_scope {A} (u : User) building (d : DB) e (a : A) (P : A → Prop) :
  (is_manager d (us_ID u) building = true → P a) →
  reads (ok ← CanManagerAccess (us_ID u) building;
         if negb ok then fail e else mret a) d P.
Proof.
  intros H. eapply reads_bind; [by apply (reads_query _ d (eq (is_manager d (us_ID u) building)))|].
  intros ok <-. destruct (is_manager _ _ _); simpl; [apply reads_ret; auto|apply reads_fail].
Qed.

Lemma reads_authorizedBuilding m id d :
  reads (authorizedBuilding m id) d (λ b, row_at d id = Some b ∧ in_scope_of m d (b_ID b)).
Proof.
  destruct m as [u|]; simpl; [|apply reads_fail].
  eapply reads_bind; [apply reads_map_err, reads_First_id; intros r H; exact H|].
  intros b Hb. apply reads_scope. intros H. split; [done|]. by exists u.
Qed.

Lemma reads_authorizedUnit m id d :
  reads (authorizedUnit m id) d (λ u, row_at d id = Some u ∧ in_scope_of m d (u_BuildingID u)).
Proof.
  destruct m as [u|]; simpl; [|apply reads_fail].
  eapply reads_bind; [apply reads_map_err, reads_First_id; intros r H; exact H|].
  intros b Hb. apply reads_scope. intros H. split; [done|]. by exists u.
Qed.

Lemma reads_authorizedPerson m id d :
  reads (authorizedPerson m id) d (λ p, row_at d id = Some p ∧ in_scope_of m d (p_BuildingID p)).
Proof.
  destruct m as [u|]; simpl; [|apply reads_fail].
  eapply reads_bind; [apply reads_map_err, reads_First_id; intros r H; exact H|].
  intros b Hb. apply reads_scope. intros H. split; [done|]. by exists u.
Qed.

Lemma reads_FindActiveUserByPhone phone d :
  reads (FindActiveUserByPhone phone) d (λ t, ∃ u : User,
    row_at d (us_ID u) = Some u ∧ active_with_phone phone u = true ∧ t = target_of u).
Proof.
  unfold FindActiveUserByPhone.
  eapply reads_bind with (P := λ t, mt_ID t ≠ uuid_Nil → ∃ u : User,
    row_at d (us_ID u) = Some u ∧ active_with_phone phone u = true ∧ t = target_of u).
  - apply reads_query. destruct (List.filter _ _) as [|u l] eqn:E; [by intros ?|]. intros _.
    exists u. assert (u ∈ List.filter (active_with_phone phone) (rows d)) as Hu
      by (rewrite E; by left).
    apply elem_of_filter_rows in Hu as [? ?]. by split_and!.
  - intros t Ht. case_bool_decide; [apply reads_fail|]. by apply reads_ret, Ht.
Qed.

Lemma reads_ManagerGrantRow u b d : reads (ManagerGrantRow u b) d (λ _, True).
Proof.
  unfold ManagerGrantRow. eapply reads_bind; [by apply (reads_query _ d (λ _, True))|].
  intros m _. case_bool_decide; [apply reads_fail|by apply reads_ret].
Qed.

Lemma reads_revoke_checks m b user d :
  reads (revoke_checks m b user) d (λ _, ∃ bu u, row_at d b = Some bu ∧ m = Some u ∧
    is_manager d (us_ID u) (b_ID bu) = true ∧ is_manager d user b = true ∧
    1 < count_managers d b ∧ user ≠ us_ID u).
Proof.
  unfold revoke_checks. eapply reads_bind; [apply reads_authorizedBuilding|].
  intros bu (Hb & u & -> & Hu).
  eapply reads_bind; [by apply (reads_query _ d (eq (is_manager d user b)))|].
  intros g <-. destruct (is_manager d user b) eqn:Hg; simpl; [|apply reads_fail].
  eapply reads_bind; [by apply (reads_query _ d (eq (count_managers d b)))|].
  intros c <-. destruct (Z.leb_spec (count_managers d b) 1); [apply reads_fail|].
  eapply reads_bind; [by apply (reads_ret u d (λ x, x = u))|].
  intros ? ->. case_bool_decide; [apply reads_fail|]. apply reads_ret.
  exists bu, u. split_and!; done || lia.
Qed.

(** ** What the operations touch *)

(** The tables other than [user_buildings] and [occupancies] do not matter to
    the invariants: an operation respects every preorder that its statements on
    those two respect, and that a change of the others respects. *)
Section building_stays.
Context {map_order : MapOrder} {X : Type} (π : DB → X) (R : relation DB) `{!PreOrder R}.
Context (HR : ∀ d d', keeps π d d' → R d d').
Context (Hb : Indep π Building) (Hu : Indep π Unit) (Hp : Indep π Person).
Context (Hoc : Indep π OccupantCount).
Context (Hgrant : ∀ u b now d, R d (insert_grant u b now d)).
Context (Hrevoke : ∀ u b d, R d (revoke_exec u b d d).2).
Context (Hadd : ∀ o, Stays R (CreateOccupancy o)).
Context (Hend : ∀ m o e, Stays R (EndOccupancy m o e)).

Lemma building_leaf {A} (m : M A) : Stays (keeps π) m → Stays R m.
Proof. apply stays_mono, HR. Qed.

Lemma stays_reads {A} (m : M A) (P : DB → A → Prop) : (∀ d, reads m d (P d)) → Stays R m.
Proof. intros H d. eapply holds_mono; [apply H|]. by intros r d' [-> _]. Qed.

Lemma stays_insert (u b : UUID) : Stays R (InsertManagerGrant u b).
Proof.
  intros d. unfold InsertManagerGrant. apply holds_bind, holds_stmt; [intros e; simpl; reflexivity|]. intros _ now.
  destruct (is_manager d u b); simpl.
  - apply holds_fail; reflexivity.
  - apply holds_ret, Hgrant.
Qed.

Lemma stays_grant (u b : UUID) : Stays R (GrantManager u b).
Proof.
  intros d. unfold GrantManager. apply holds_bind, holds_query; [intros e; simpl; reflexivity|]. simpl.
  destruct (is_manager d u b) eqn:E; [apply holds_ret; reflexivity|]. apply holds_stmt; [intros e; simpl; reflexivity|].
  intros _ now. rewrite E. apply Hgrant.
Qed.

Lemma stays_revoke (u b : UUID) : Stays R (RevokeManagerGuarded u b).
Proof.
  intros d. unfold RevokeManagerGuarded. apply holds_bind, holds_stmt; [intros e; simpl; reflexivity|]. intros _ _.
  specialize (Hrevoke u b d). destruct (revoke_exec u b d d) as [n d']. simpl in *.
  destruct (n >? 0); [by apply holds_ret|].
  apply holds_bind, holds_query; [by intros e|]. by apply holds_ret.
Qed.

Ltac building_leaf_tac :=
  first [ apply Hadd | apply Hend | apply stays_insert | apply stays_grant | apply stays_revoke
        | apply building_leaf, keeps_Create; apply _
        | apply building_leaf, keeps_Save; apply _
        | apply building_leaf, keeps_Update_where; apply _
        | apply building_leaf, keeps_Delete_where; apply _
        | (eapply stays_reads; intros ?; apply reads_authorizedBuilding)
        | (eapply stays_reads; intros ?; apply reads_authorizedUnit)
        | (eapply stays_reads; intros ?; apply reads_authorizedPerson)
        | (eapply stays_reads; intros ?; apply reads_FindActiveUserByPhone)
        | (eapply stays_reads; intros ?; apply reads_ManagerGrantRow)
        | (eapply stays_reads; intros ?; apply reads_revoke_checks)
        | (eapply stays_reads; intros ?; by apply (reads_deref _ _ (λ _, True))) ].

Lemma stays_building_op op (Hpromote : grants op → ∀ u, Stays R (PromoteResidentToManager u)) :
  Stays R (run_building op).
Proof.
  destruct op; cbn [run_building]; unfold discard, CreateBuilding, UpdateBuilding, DeleteBuilding,
    GrantManagerByPhone, RevokeManager, CreateUnit, UpdateUnit, DeleteUnit, CreatePerson,
    UpdatePerson, DeletePerson, AddOccupancy, RecordOccupantCount, CreateBuilding_row,
    UpdateBuilding_row, DeleteBuilding_row, CreateUnit_row, UpdateUnit_row, DeleteUnit_row,
    CreatePerson_row, UpdatePerson_row, DeletePerson_row, RecordOccupantCount_row,
    revoke_answer;
  repeat first [exact (Hpromote I _) | building_leaf_tac | stays_step].
Qed.
End building_stays.

(** ** Managers *)

Definition managed (d : DB) (b : UUID) : Prop := ∃ u, is_manager d u b = true.

(** The buildings with a manager keep one. *)
Definition ManagedKept (d d' : DB) : Prop := ∀ b, managed d b → managed d' b.

#[export] Instance ManagedKept_preorder : PreOrder ManagedKept.
Proof. split; [by intros d b|]. intros d1 d2 d3 H1 H2 b H. by apply H2, H1. Qed.

Lemma is_manager_Some d u b : is_manager d u b = true ↔ is_Some (db_user_buildings d !! (u, b)).
Proof. unfold is_manager. by rewrite bool_decide_eq_true. Qed.

Lemma managed_count d b : managed d b ↔ 1 ≤ count_managers d b.
Proof.
  unfold managed, count_managers, grants_of. split.
  - intros [u [g Hg]%is_manager_Some].
    assert (((u, b), g) ∈ filter (λ kv : (UUID * UUID) * UserBuilding, kv.1.2 = b)
      (map_to_list (db_user_buildings d))) as Hin
      by (apply list_elem_of_filter; split; [done|by apply elem_of_map_to_list]).
    destruct (filter _ _) as [|x l]; [by apply elem_of_nil in Hin|]. simpl. lia.
  - intros H. destruct (filter _ _) as [|[[u b'] g] l] eqn:E; [simpl in H; lia|].
    assert (((u, b'), g) ∈ filter (λ kv : (UUID * UUID) * UserBuilding, kv.1.2 = b)
      (map_to_list (db_user_buildings d))) as Hin by (rewrite E; by left).
    apply list_elem_of_filter in Hin as [Hb Hin]. simpl in Hb. subst b'.
    apply elem_of_map_to_list in Hin. exists u. apply is_manager_Some. by eexists.
Qed.

Lemma managed_insert u b now d : ManagedKept d (insert_grant u b now d).
Proof.
  intros b' [u' H]. exists u'. apply is_manager_Some in H. apply is_manager_Some.
  unfold insert_grant. simpl. destruct (decide ((u, b) = (u', b'))) as [->|Hne].
  - rewrite lookup_insert_eq. by eexists.
  - by rewrite lookup_insert_ne.
Qed.

(** Deleting a grant takes one manager from its building. *)
Lemma count_managers_delete d u b :
  is_manager d u b = true →
  count_managers d b =
    count_managers (set_user_buildings (delete (u, b) (db_user_buildings d)) d) b + 1.
Proof.
  intros [g Hg]%is_manager_Some. unfold count_managers, grants_of. simpl.
  rewrite <- (map_to_list_delete _ _ _ Hg) at 1. rewrite filter_cons. simpl.
  rewrite decide_True by done. simpl. lia.
Qed.

Lemma managed_revoke u b d : ManagedKept d (revoke_exec u b d d).2.
Proof.
  unfold revoke_exec. destruct (is_manager d u b) eqn:Hm; simpl; [|done].
  destruct (Z.gtb_spec (count_managers d b) 1) as [Hc|]; simpl; [|done].
  intros b' [u' H]. destruct (decide (b' = b)) as [->|Hne].
  - apply managed_count. pose proof (count_managers_delete d u b Hm). lia.
  - exists u'. apply is_manager_Some in H. apply is_manager_Some. simpl.
    rewrite lookup_delete_ne; [done|]. congruence.
Qed.

(** ** Occupancies *)

(** A date column holds midnights: the row as it is stored. *)
Definition day_row (o : Occupancy) : Occupancy :=
  MkOccupancy (o_ID o) (o_UnitID o) (o_PersonID o) (o_Relationship o)
    (TruncateDay (o_StartDate o)) (TruncateDay <$> o_EndDate o) (o_IsActive o) (o_CreatedAt o).

Lemma accept_Occupancy env d (o o' : Occupancy) :
  accept env d o = Ok o' →
  o' = day_row o ∧ in_enum (o_Relationship o) occupancy_relationship = true ∧
  (∀ e, o_EndDate o' = Some e → o_StartDate o' ≤ e).
Proof.
  cbn -[require mbind]. rewrite !require_Ok. intros (He & Hd & _ & [= <-]). split_and!; [done..|].
  intros e E. simpl in *. rewrite E in Hd. lia.
Qed.

(** A closed row stays as it is; an open one keeps whom it is about, and its
    start up to the precision of a date. *)
Definition same_link (o o' : Occupancy) : Prop :=
  o_ID o' = o_ID o ∧ o_UnitID o' = o_UnitID o ∧ o_PersonID o' = o_PersonID o ∧
  o_Relationship o' = o_Relationship o ∧ o_CreatedAt o' = o_CreatedAt o ∧
  TruncateDay (o_StartDate o') = TruncateDay (o_StartDate o).

Definition HistoryKept (d d' : DB) : Prop := ∀ id (o : Occupancy), row_at d id = Some o →
  ∃ o', row_at d' id = Some o' ∧ same_link o o' ∧ (o_EndDate o ≠ None → o' = o).

#[export] Instance same_link_preorder : PreOrder same_link.
Proof.
  split; unfold same_link; [by intros o; split_and!|]. intros o1 o2 o3. intros. destruct_and!.
  split_and!; congruence.
Qed.

#[export] Instance HistoryKept_preorder : PreOrder HistoryKept.
Proof.
  split; [intros d id o H; by exists o|]. intros d1 d2 d3 H1 H2 id o H.
  destruct (H1 id o H) as (o2 & E2 & L2 & C2). destruct (H2 id o2 E2) as (o3 & E3 & L3 & C3).
  exists o3. split_and!; [done|by etransitivity|]. intros Hc. specialize (C2 Hc). subst o2. auto.
Qed.

(** At most one open occupancy of the relationship per unit. *)
Definition OneOpen (rel : string) (d : DB) : Prop := ∀ i j (a b : Occupancy),
  row_at d i = Some a → row_at d j = Some b → o_EndDate a = None → o_EndDate b = None →
  o_Relationship a = rel → o_Relationship b = rel → o_UnitID a = o_UnitID b → i = j.

Definition OpenKept (rel : string) (d d' : DB) : Prop := OneOpen rel d → OneOpen rel d'.

#[export] Instance OpenKept_preorder rel : PreOrder (OpenKept rel).
Proof. split; unfold OpenKept; [by intros d H|]. intros d1 d2 d3 H1 H2 H. auto. Qed.

(** Adding an occupancy: the new row, the open rows of the same relationship
    closed, the rest as it was. *)
Record OccupancyAdded (o : Occupancy) (d d' : DB) : Prop := {
  oa_fresh : row_at (R := Occupancy) d (o_ID o) = None;
  oa_new : row_at d' (o_ID o) = Some (day_row o);
  oa_closed : ∀ id old, row_at d id = Some old →
    open_as (o_UnitID o) (o_Relationship o) old = true →
    row_at d' id = Some (day_row (close_before (o_StartDate o) old));
  oa_kept : ∀ id, id ≠ o_ID o →
    (∀ old, row_at d id = Some old → open_as (o_UnitID o) (o_Relationship o) old = false) →
    row_at (R := Occupancy) d' id = row_at d id;
  oa_dates : ∀ e, o_EndDate (day_row o) = Some e → o_StartDate (day_row o) ≤ e;
  oa_rest : ∃ m, d' = set_occupancies m d;
}.

Lemma update_rows_occupancies env f l d d' :
  update_rows (R := Occupancy) env f l d = Ok d' → ∃ m, d' = set_occupancies m d.
Proof.
  revert d. induction l as [|x l IH]; intros d; simpl.
  - intros [= <-]. exists (db_occupancies d). by destruct d.
  - destruct (update_row env x (f x) d) as [d1|e|s] eqn:E; simpl; [|done..]. intros H.
    apply IH in H as [m ->]. apply update_row_Ok in E as (r' & _ & _ & ->). by exists m.
Qed.

Lemma holds_CreateOccupancy o d (Q : Res Occupancy → DB → Prop) :
  (∀ e, Q (Err e) d) → (∀ s, Q (Panic s) d) →
  (∀ now d', OccupancyAdded (stamp now o) d d' → Q (Ok (stamp now o)) d') →
  holds (CreateOccupancy o) d Q.
Proof.
  intros He Hs Hok. unfold CreateOccupancy. apply holds_transaction; [done..|].
  apply holds_bind, holds_Update_where; [done|]. intros env now dm E. simpl.
  pose proof (update_rows_occupancies _ _ _ _ _ E) as [mm Hmm].
  apply update_rows_at in E as [Hin Hout]; [|apply NoDup_filter_rows_ids|done].
  apply holds_map_err, holds_Create; [done|]. intros env' now' r' d' _ Hf Ha ->. apply Hok.
  apply accept_Occupancy in Ha as (-> & _ & Hd).
  assert (∀ id, id ∈ key <$> List.filter (open_as (o_UnitID o) (o_Relationship o)) (rows d) →
    ∃ old, row_at d id = Some old ∧ open_as (o_UnitID o) (o_Relationship o) old = true ∧
      row_at dm id = Some (day_row (close_before (o_StartDate o) old))) as Hsel.
  { intros id (old & -> & Hold)%list_elem_of_fmap. destruct (Hin _ Hold) as (d2 & r2 & Ha & E2).
    apply accept_Occupancy in Ha as (-> & _). apply elem_of_filter_rows in Hold as [? ?].
    by exists old. }
  assert (∀ id old, row_at d id = Some old → open_as (o_UnitID o) (o_Relationship o) old = true →
    id ∈ key <$> List.filter (open_as (o_UnitID o) (o_Relationship o)) (rows d)) as Hopen.
  { intros id old H Ho. apply row_at_Some in H as Hr. destruct Hr as [_ <-].
    apply list_elem_of_fmap_2, elem_of_filter_rows. done. }
  assert (row_at (R := Occupancy) dm (o_ID o) = None) as Hfm
    by (unfold row_at; change (o_ID o) with (key (stamp now' o)); by rewrite Hf).
  assert (∀ id old, row_at d id = Some old → open_as (o_UnitID o) (o_Relationship o) old = true →
    row_at dm id = Some (day_row (close_before (o_StartDate o) old))) as Hclosed.
  { intros id old H Ho. destruct (Hsel id (Hopen _ _ H Ho)) as (old' & E1 & _ & E2). congruence. }
  assert (∀ id, row_at (put (day_row (stamp now' o)) dm) id =
    if decide (id = o_ID o) then Some (day_row (stamp now' o)) else row_at dm id) as Hput
    by (intros id; exact (row_at_put (day_row (stamp now' o)) dm id)).
  split; cbn [o_ID o_UnitID o_Relationship o_StartDate stamp Occupancy_table].
  - rewrite <- (Hout (o_ID o)); [done|].
    intros (old & E1 & Ho & E2)%Hsel. congruence.
  - rewrite Hput. by rewrite decide_True.
  - intros id old H Ho. rewrite Hput. case_decide as Eid; [|by apply Hclosed].
    subst id. pose proof (Hclosed _ _ H Ho). congruence.
  - intros id Hid Hno. rewrite Hput, decide_False by done. apply Hout.
    intros (old & E1 & Ho & _)%Hsel. rewrite (Hno _ E1) in Ho. done.
  - exact Hd.
  - subst dm. by eexists.
Qed.

Lemma OccupancyAdded_history o d d' : OccupancyAdded o d d' → HistoryKept d d'.
Proof.
  intros H id old E. destruct (open_as (o_UnitID o) (o_Relationship o) old) eqn:Ho.
  - exists (day_row (close_before (o_StartDate o) old)).
    split; [by apply (oa_closed _ _ _ H)|]. split.
    + unfold same_link. simpl. rewrite TruncateDay_idem. by split_and!.
    + unfold open_as in Ho. apply andb_prop in Ho as [_ Ho]. by destruct (o_EndDate old).
  - exists old. split; [|done]. rewrite (oa_kept _ _ _ H); [done| |congruence].
    intros ->. rewrite (oa_fresh _ _ _ H) in E. done.
Qed.

Lemma OccupancyAdded_open rel o d d' : OccupancyAdded o d d' → OpenKept rel d d'.
Proof.
  intros H Hone.
  assert (∀ id a, row_at d' id = Some a → o_EndDate a = None →
    (id = o_ID o ∧ a = day_row o) ∨ (id ≠ o_ID o ∧ row_at d id = Some a ∧
      open_as (o_UnitID o) (o_Relationship o) a = false)) as Hcase.
  { intros id a Ha Hopen. destruct (decide (id = o_ID o)) as [->|Hid].
    - left. rewrite (oa_new _ _ _ H) in Ha. by simplify_eq.
    - right. split; [done|]. destruct (row_at (R := Occupancy) d id) as [old|] eqn:E.
      + destruct (open_as (o_UnitID o) (o_Relationship o) old) eqn:Ho.
        * rewrite (oa_closed _ _ _ H _ _ E Ho) in Ha. by simplify_eq.
        * rewrite (oa_kept _ _ _ H) in Ha; [|done|congruence]. rewrite E in Ha. by simplify_eq.
      + rewrite (oa_kept _ _ _ H), E in Ha; [done|done|congruence]. }
  intros i j a b Ha Hb Ea Eb Hra Hrb Hu. assert (o_Relationship a = o_Relationship b) as Hr by congruence.
  destruct (Hcase _ _ Ha Ea) as [[-> ->]|(Hi & Hai & Hai')];
    destruct (Hcase _ _ Hb Eb) as [[-> ->]|(Hj & Hbj & Hbj')]; [done| | |by eapply Hone].
  - exfalso. unfold open_as in Hbj'. rewrite Eb in Hbj'. simpl in *. rewrite <- Hu, <- Hr in Hbj'.
    by rewrite !bool_decide_eq_true_2 in Hbj'.
  - exfalso. unfold open_as in Hai'. rewrite Ea in Hai'. simpl in *. rewrite Hu, Hr in Hai'.
    by rewrite !bool_decide_eq_true_2 in Hai'.
Qed.

(** Ending an occupancy: an open row, and only it, gets its end date. *)
Record OccupancyEnded (id : UUID) (end_ : Time) (old : Occupancy) (d d' : DB) : Prop := {
  oe_old : row_at d id = Some old;
  oe_open : o_EndDate old = None;
  oe_date : end_ ≠ 0 ∧ o_StartDate old ≤ end_;
  oe_new : row_at d' id = Some (day_row (end_dated end_ old));
  oe_kept : ∀ id', id' ≠ id → row_at (R := Occupancy) d' id' = row_at d id';
  oe_rest : ∃ m, d' = set_occupancies m d;
}.

Lemma holds_EndOccupancy m id end_ d (Q : Res Occupancy → DB → Prop) :
  (∀ e, Q (Err e) d) → (∀ s, Q (Panic s) d) →
  (∀ old d', OccupancyEnded id end_ old d d' →
     (∃ u, row_at d (o_UnitID old) = Some u ∧ in_scope_of m d (u_BuildingID u)) →
     Q (Ok (end_dated end_ old)) d') →
  holds (EndOccupancy m id end_) d Q.
Proof.
  intros He Hs Hok. unfold EndOccupancy. apply holds_bind, holds_map_err, holds_First_id;
    [intros e; apply He|]. intros old Hold. cbn [after].
  apply holds_bind. eapply holds_mono; [apply reads_authorizedUnit|].
  intros [u|e|s] d1 [-> Hu]; cbn [after]; [|done..].
  destruct (o_EndDate old) eqn:Hopen; simpl; [by apply holds_fail|].
  destruct (IsZero end_) eqn:Hz; [by apply holds_fail|].
  destruct (Before end_ (o_StartDate old)) eqn:Hb; [by apply holds_fail|].
  unfold EndOccupancy_row. apply holds_bind, holds_bind, holds_Update_where; [done|].
  intros env now d' E. cbn [after]. apply holds_ret. cbn [after]. apply holds_ret.
  pose proof (update_rows_occupancies _ _ _ _ _ E) as Hrest.
  apply update_rows_at in E as [Hin Hout]; [|apply NoDup_filter_rows_ids|done].
  assert (old ∈ List.filter (λ o : Occupancy, bool_decide (o_ID o = id)) (rows d)) as Hmem.
  { apply row_at_Some in Hold as Hr. destruct Hr as [_ Hk]. apply elem_of_filter_rows.
    rewrite Hk. split; [done|]. by apply bool_decide_eq_true. }
  assert (key old = id) as Hk by (by apply row_at_Some in Hold as [_ Hk]).
  apply Hok; [split; try done|].
  - unfold IsZero, Before in *. lia.
  - destruct (Hin _ Hmem) as (dm & r' & Ha & Hr). apply accept_Occupancy in Ha as (-> & _).
    by rewrite Hk in Hr.
  - intros id' Hne. apply Hout. intros (x & -> & Hx)%list_elem_of_fmap.
    apply elem_of_filter_rows in Hx as [_ Hx%bool_decide_eq_true]. done.
  - exists u. by apply Hu.
Qed.

Lemma OccupancyEnded_history id e old d d' : OccupancyEnded id e old d d' → HistoryKept d d'.
Proof.
  intros [Hold Hopen Hd Hnew Hkept _] id' o Ho. destruct (decide (id' = id)) as [->|Hne].
  - rewrite Hold in Ho. injection Ho as ->. exists (day_row (end_dated e o)).
    split; [done|]. split; [|done].
    unfold same_link. simpl. rewrite TruncateDay_idem. by split_and!.
  - exists o. by rewrite Hkept.
Qed.

Lemma OccupancyEnded_open rel id e old d d' : OccupancyEnded id e old d d' → OpenKept rel d d'.
Proof.
  intros [Hold Hopen Hd Hnew Hkept _] Hone i j a b Ha Hb Ea Eb.
  assert (∀ k x, row_at d' k = Some x → o_EndDate x = None → row_at d k = Some x) as H.
  { intros k x Hx Ex. destruct (decide (k = id)) as [->|Hne]; [|by rewrite <- Hkept].
    rewrite Hnew in Hx. by simplify_eq. }
  apply (Hone i j a b); auto.
Qed.

(** ** The invariants, per operation *)

Section invariants.
Context {map_order : MapOrder}.

Lemma building_managed op : Stays ManagedKept (run_building op).
Proof.
  apply (stays_building_op db_user_buildings); try apply _.
  - intros d d' E b [u Hu]. exists u. unfold is_manager in *. by rewrite E.
  - intros. apply managed_insert.
  - intros. apply managed_revoke.
  - intros o d. apply holds_CreateOccupancy; [done..|]. intros now d' H.
    destruct (oa_rest _ _ _ H) as [m ->]. by intros b.
  - intros m o e d. apply holds_EndOccupancy; [done..|]. intros old d' H _.
    destruct (oe_rest _ _ _ _ _ H) as [mm ->]. by intros b.
  - intros _ u. apply (stays_mono (keeps db_user_buildings)); [|unfold PromoteResidentToManager; stays_tac].
    intros d d' E b [v Hv]. exists v. unfold is_manager in *. by rewrite E.
Qed.

Lemma building_history op : Stays HistoryKept (run_building op).
Proof.
  apply (stays_building_op db_occupancies); try apply _.
  - intros d d' E id o H. exists o. split; [|done]. unfold row_at in *. simpl in *. by rewrite E.
  - intros u b now d id o H. by exists o.
  - intros u b d id o H. exists o. split; [|done]. revert H. unfold revoke_exec. by case_match.
  - intros o d. apply holds_CreateOccupancy; [done..|]. intros now d' H.
    by eapply OccupancyAdded_history.
  - intros m o e d. apply holds_EndOccupancy; [done..|]. intros old d' H _.
    by eapply OccupancyEnded_history.
  - intros _ u. apply (stays_mono (keeps db_occupancies)); [|unfold PromoteResidentToManager; stays_tac].
    intros d d' E id o H. exists o. split; [|done]. unfold row_at in *. simpl in *. by rewrite E.
Qed.

Lemma building_open rel op : Stays (OpenKept rel) (run_building op).
Proof.
  apply (stays_building_op db_occupancies); try apply _.
  - intros d d' E H i j a b. unfold row_at. simpl. rewrite E. apply H.
  - intros u b now d H. exact H.
  - intros u b d H. unfold revoke_exec. by case_match.
  - intros o d. apply holds_CreateOccupancy; [by intros; intros H..|]. intros now d' H.
    by eapply OccupancyAdded_open.
  - intros m o e d. apply holds_EndOccupancy; [by intros; intros H..|]. intros old d' H _.
    by eapply OccupancyEnded_open.
  - intros _ u. apply (stays_mono (keeps db_occupancies)); [|unfold PromoteResidentToManager; stays_tac].
    intros d d' E H i j a b. unfold row_at. simpl. rewrite E. apply H.
Qed.
End invariants.
