(* ===== verification/AuthSpec.v ===== *)
(** * What authentication guarantees

    The roles of the users over the calls of [auth] and [building], the
    redemption of an invite, and the rotation of refresh tokens. *)

From S2P Require Import Prelude Golang Errors Models Store Schema Logic Notification Crypto Token Invite Password AuthUser AuthHandlers BillingRepo BuildingRepo BuildingService Occupancy BuildingSpec.

Lemma filter_andb {A} (f g : A → bool) l :
  List.filter (λ x, f x && g x) l = List.filter g (List.filter f l).
Proof. induction l as [|x l IH]; [done|]. simpl. destruct (f x); simpl; [|done]. by rewrite IH. Qed.

Lemma holds_and {A} (m : M A) d (Q Q' : Res A → DB → Prop) :
  holds m d Q → holds m d Q' → holds m d (λ r d', Q r d' ∧ Q' r d').
Proof. intros H H' env w Hw. split; [by apply H|by apply H']. Qed.

(** ** Calls that leave a part of the tables alone *)

Section keeps.
Context {codec : UuidCodec} {jwt : JwtLibrary} {bcrypt : Bcrypt} {unicode : UnicodeTables}.
Context {X : Type} (π : DB → X).
Context (Haudit : ∀ l d, π (set_audit_logs l d) = π d).

Lemma keeps_audit h actor action ot oid a : Stays (keeps π) (audit_append h actor action ot oid a).
Proof.
  unfold audit_append. stays_tac. intros d. apply holds_Append; [done|]. intros l. apply Haudit.
Qed.

Lemma keeps_session h rq u : Indep π RefreshToken → Stays (keeps π) (respondSession h rq u).
Proof.
  intros. unfold respondSession, IssueAccessToken, IssueRefreshToken, setSessionCookies, randomHex,
    rand_bytes, Create_token.
  repeat first [apply keeps_audit | stays_step].
Qed.

Lemma keeps_refresh h rq b : Indep π RefreshToken → Stays (keeps π) (refresh h rq b).
Proof.
  intros. unfold refresh. destruct (refreshTokenFrom rq b) as [raw c].
  unfold RotateRefreshToken, rotate, FindByHash, RevokeFamily, IssueAccessToken, setSessionCookies,
    randomHex, rand_bytes, Create_token, Save_token.
  stays_tac.
Qed.

Lemma keeps_logout h rq b : Indep π RefreshToken → Stays (keeps π) (logout h rq b).
Proof.
  intros. unfold logout. destruct (refreshTokenFrom rq b) as [raw c].
  unfold RevokeFamilyByToken, FindByHash, RevokeFamily. stays_tac.
Qed.
End keeps.

(** ** Reads *)

Section reads.
Context {codec : UuidCodec} {jwt : JwtLibrary} {bcrypt : Bcrypt} {unicode : UnicodeTables}.

Lemma reads_time d (P : Time → Prop) : (∀ t, P t) → reads time_Now d P.
Proof. intros H. apply holds_now. intros t. split; [done|]. by intros ? [= <-]. Qed.

Lemma reads_ParseAccessToken s token d : reads (ParseAccessToken s token) d (λ _, True).
Proof.
  unfold ParseAccessToken. eapply reads_bind; [by apply (reads_time d (λ _, True))|]. intros now _.
  repeat case_match; [by apply reads_ret|apply reads_fail..].
Qed.

Lemma reads_Authenticate s header d :
  reads (Authenticate s header) d (λ u, row_at d (us_ID u) = Some u ∧ us_IsActive u = true).
Proof.
  unfold Authenticate. destruct (HasPrefix header "Bearer "); simpl; [|apply reads_fail].
  eapply reads_bind; [apply reads_map_err, reads_ParseAccessToken|]. intros id _.
  eapply reads_bind; [apply reads_map_err, reads_First_id; intros r Hr; exact Hr|].
  intros u Hu. destruct (us_IsActive u) eqn:Ea; simpl; [|apply reads_fail]. apply reads_ret.
  split; [|done]. by apply row_at_Some in Hu as Hk; destruct Hk as [_ <-].
Qed.

Lemma Authenticate_401 tokens header env w e w1 :
  Authenticate tokens header env w = (Err e, w1) → ae_Status (WriteError e) = 401.
Proof.
  unfold Authenticate, map_err, fail, mbind, M_bind, mret, M_ret.
  destruct (HasPrefix header "Bearer "); simpl; [|by intros [= <- _]].
  destruct (ParseAccessToken _ _ env w) as [[id|x|x] w2]; simpl; [|by intros [= <- _]|done].
  destruct (FindByID id env w2) as [[u|x|x] w3]; simpl; [|by intros [= <- _]|done].
  destruct (us_IsActive u); simpl; [done|by intros [= <- _]].
Qed.

Lemma reads_RequireRole roles u d :
  reads (RequireRole roles u) d (λ v, u = Some v ∧ us_Role v ∈ roles).
Proof.
  destruct u as [u|]; simpl; [|apply reads_fail].
  case_bool_decide; simpl; [by apply reads_ret|apply reads_fail].
Qed.

Lemma reads_attempt {A} (m : M A) d P :
  reads m d P → reads (attempt m) d (λ r, match r with inl a => P a | inr _ => True end).
Proof.
  intros H. apply holds_attempt. eapply holds_mono; [exact H|].
  intros [a|e|s] d' [-> Ha]; (split; [done|]); naive_solver.
Qed.

Lemma reads_me u d : reads (me u) d (λ _, True).
Proof.
  destruct u as [u|]; simpl; [|apply reads_fail].
  case_bool_decide; [by apply reads_ret|]. case_bool_decide.
  - eapply reads_bind; [by apply (reads_attempt _ d (λ _, True)), reads_query|].
    intros [l|e] _; [by apply reads_ret|]. case_bool_decide; [by apply reads_ret|apply reads_fail].
  - case_bool_decide; [|by apply reads_ret].
    eapply reads_bind; [by apply (reads_attempt _ d (λ _, True)), reads_query|].
    intros [l|e] _; [by apply reads_ret|]. case_bool_decide; [by apply reads_ret|apply reads_fail].
Qed.

Lemma reads_rand_bytes n d : reads (rand_bytes n) d (λ _, True).
Proof.
  unfold rand_bytes. eapply reads_bind with (P := λ _, True).
  - apply holds_rand; naive_solver.
  - intros. by apply reads_ret.
Qed.

Lemma reads_randomHex n d : reads (randomHex n) d (λ _, True).
Proof.
  unfold randomHex. eapply reads_bind; [apply reads_rand_bytes|]. intros. by apply reads_ret.
Qed.

Lemma reads_HashPassword p d : reads (HashPassword p) d (λ hash, CheckPassword hash p = true).
Proof.
  unfold HashPassword. eapply reads_bind; [apply reads_rand_bytes|]. intros salt _.
  apply reads_lift. intros hash E. destruct (bcrypt_Generate _ _) eqn:Eg; [|done].
  injection E as <-. by eapply bcrypt_Compare_Generate.
Qed.
End reads.

(** ** Roles *)

(** The superadmin, if there is one, is one; no invite makes a superadmin. *)
Record OneAdmin (d : DB) : Prop := {
  oa_user : ∀ i j (u v : User), row_at d i = Some u → row_at d j = Some v →
    us_Role u = RoleSuperAdmin → us_Role v = RoleSuperAdmin → i = j;
  oa_invite : ∀ i (c : InviteCode), row_at d i = Some c → iv_Role c ≠ RoleSuperAdmin;
}.

(** A role stays as it is; where residents may be promoted, a resident may become a
    manager. *)
Definition role_moves (promotes : Prop) (r r' : string) : Prop :=
  r' = r ∨ promotes ∧ r = RoleResident ∧ r' = RoleManager.

(** No account disappears or changes its phone, and no role changes but by a
    promotion, where there are any. *)
Definition RolesKept (promotes : Prop) (d d' : DB) : Prop := ∀ id (u : User), row_at d id = Some u →
  ∃ u', row_at d' id = Some u' ∧ us_Phone u' = us_Phone u ∧ role_moves promotes (us_Role u) (us_Role u').

Definition RolesStep (promotes : Prop) (d d' : DB) : Prop :=
  (OneAdmin d → OneAdmin d') ∧ RolesKept promotes d d'.

Lemma role_moves_trans promotes r1 r2 r3 :
  role_moves promotes r1 r2 → role_moves promotes r2 r3 → role_moves promotes r1 r3.
Proof.
  unfold role_moves. intros [->|(Hp & -> & ->)] [->|(Hp' & E & ->)]; [by left|by right|by right|done].
Qed.

#[export] Instance RolesKept_preorder promotes : PreOrder (RolesKept promotes).
Proof.
  split; [intros d id u H; exists u; by split_and!; [|..|left]|].
  intros d1 d2 d3 H1 H2 id u H. destruct (H1 id u H) as (u2 & E2 & P2 & R2).
  destruct (H2 id u2 E2) as (u3 & E3 & P3 & R3). exists u3. split_and!; [done|congruence|].
  by eapply role_moves_trans.
Qed.

#[export] Instance RolesStep_preorder promotes : PreOrder (RolesStep promotes).
Proof.
  split; [by intros d|]. intros d1 d2 d3 [H1 K1] [H2 K2]. split; [auto|]. by transitivity d2.
Qed.

(** The tables the roles are in. *)
Definition role_tables (d : DB) : gmap UUID User * gmap UUID InviteCode :=
  (db_users d, db_invite_codes d).

Section roles.
Context (promotes : Prop).

Lemma keeps_RolesStep d d' : keeps role_tables d d' → RolesStep promotes d d'.
Proof.
  unfold keeps, role_tables. intros [= E1 E2]. split; [intros [H1 H2]; split|].
  - intros i j u v. unfold row_at. simpl. rewrite E1. apply H1.
  - intros i c. unfold row_at. simpl. rewrite E2. apply H2.
  - intros id u H. exists u. unfold row_at in *. simpl in *. rewrite E1. by split_and!; [|..|left].
Qed.

(** Rewriting user rows to rows of the same identity, with roles as allowed. *)
Lemma RolesStep_put (u u' : User) d :
  row_at d (us_ID u) = Some u → us_ID u' = us_ID u → us_Phone u' = us_Phone u →
  role_moves promotes (us_Role u) (us_Role u') →
  RolesStep promotes d (put u' d).
Proof.
  intros Hu Hid Hph Hr.
  assert (us_Role u' = RoleSuperAdmin → us_Role u = RoleSuperAdmin) as Hadm
    by (intros E; destruct Hr as [<-|(_ & _ & Hr)]; [done|by rewrite E in Hr]).
  assert (∀ i v, row_at (put u' d) i = Some v →
    (i = us_ID u ∧ v = u') ∨ (i ≠ us_ID u ∧ row_at d i = Some v)) as Hcase.
  { intros i v. rewrite row_at_put. change (key u') with (us_ID u'). rewrite Hid.
    case_decide; [intros [= <-]; by left|by right]. }
  split; [intros [H1 H2]; split|].
  - intros i j a b Ha Hb Ra Rb. destruct (Hcase _ _ Ha) as [[-> ->]|[? Ha']],
      (Hcase _ _ Hb) as [[-> ->]|[? Hb']]; [done| | |by eapply H1].
    + exact (H1 _ _ _ _ Hu Hb' (Hadm Ra) Rb).
    + exact (H1 _ _ _ _ Ha' Hu Ra (Hadm Rb)).
  - intros i c Hc. by apply (H2 i c).
  - intros id v Hv. destruct (decide (id = us_ID u)) as [->|Hne].
    + rewrite Hu in Hv. injection Hv as <-. exists u'. split; [|done].
      rewrite row_at_put. change (key u') with (us_ID u'). by rewrite Hid, decide_True.
    + exists v. rewrite row_at_put. change (key u') with (us_ID u'). rewrite Hid, decide_False by done.
      by split_and!; [|..|left].
Qed.

Lemma accept_User env d (u u' : User) : accept env d u = Ok u' → u' = u.
Proof. cbn -[require mbind]. rewrite !require_Ok. intros (_ & _ & [= <-]). done. Qed.

Lemma accept_Invite env d (c c' : InviteCode) : accept env d c = Ok c' → c' = c.
Proof. cbn -[require mbind]. rewrite !require_Ok. intros (_ & [= <-]). done. Qed.

(** A rewriting of users that the roles allow. *)
Definition role_allows (f : User → User) (u : User) : Prop :=
  us_ID (f u) = us_ID u ∧ us_Phone (f u) = us_Phone u ∧
  role_moves promotes (us_Role u) (us_Role (f u)).

Lemma roles_update_rows env f (l : list User) d d' :
  NoDup (key <$> l) → (∀ u, u ∈ l → row_at d (us_ID u) = Some u ∧ role_allows f u) →
  update_rows env f l d = Ok d' → RolesStep promotes d d'.
Proof.
  revert d. induction l as [|x l IH]; intros d Hnd Hl; simpl; [by intros [= ->]|].
  csimpl in *. inv Hnd. destruct (update_row env x (f x) d) as [d1|e|s] eqn:E; simpl; [|done..].
  intros E2. apply update_row_Ok in E as (x' & ->%accept_User & _ & ->).
  destruct (Hl x ltac:(by left)) as (Hx & Hid & Hph & Hr).
  transitivity (put (f x) d); [by apply (RolesStep_put x)|]. apply IH; [done| |done].
  intros u Hu. destruct (Hl u ltac:(by right)) as [Hu' ?]. split; [|done].
  rewrite row_at_put. change (key (f x)) with (us_ID (f x)). rewrite Hid, decide_False; [done|].
  intros Eu. apply H1. change (key x) with (us_ID x). rewrite <- Eu.
  by apply (list_elem_of_fmap_2 us_ID).
Qed.

Lemma roles_Update_where P (f : Time → User → User) :
  (∀ now u, P u = true → role_allows (f now) u) → Stays (RolesStep promotes) (Update_where P f).
Proof.
  intros Hf d. apply holds_Update_where; [done|]. intros env now d' E.
  eapply roles_update_rows; [apply NoDup_filter_rows_ids| |exact E].
  intros u [Hu HP]%elem_of_filter_rows. split; [done|by apply Hf].
Qed.

Lemma roles_promote u : promotes → Stays (RolesStep promotes) (PromoteResidentToManager u).
Proof.
  intros Hpromotes. unfold PromoteResidentToManager. apply stays_bind; [apply _| |intros; apply stays_ret; apply _].
  apply roles_Update_where. intros now v Hv. apply andb_prop in Hv as [_ Hv%bool_decide_eq_true].
  split_and!; [done..|]. by right.
Qed.

Lemma roles_UpdatePassword u : Stays (RolesStep promotes) (UpdatePassword u).
Proof.
  unfold UpdatePassword. apply stays_bind; [apply _| |intros; apply stays_ret; apply _].
  apply roles_Update_where. intros now v _. split_and!; [done..|]. by left.
Qed.

(** A new account is no superadmin, or it is the first account. *)
Lemma roles_Create_user (u : User) d (Q : Res User → DB → Prop) :
  (OneAdmin d → us_Role u ≠ RoleSuperAdmin ∨ ∀ i (v : User), row_at d i = Some v → False) →
  (∀ e, Q (Err e) d) →
  (∀ now d', db_users d !! us_ID u = None → d' = put (stamp now u) d → RolesStep promotes d d' →
     Q (Ok (stamp now u)) d') →
  holds (Create_user u) d Q.
Proof.
  intros Hrole He Hok. apply holds_Create; [done|].
  intros env now u' d' _ Hfree ->%accept_User ->. apply (Hok now _ Hfree eq_refl).
  assert (∀ i v, row_at (put (stamp now u) d) i = Some v →
    (i = us_ID u ∧ us_Role v = us_Role u) ∨ (i ≠ us_ID u ∧ row_at d i = Some v)) as Hcase.
  { intros i v. rewrite row_at_put. change (key (stamp now u)) with (us_ID u).
    case_decide; [intros [= <-]; by left|by right]. }
  split; [intros Hone; specialize (Hrole Hone); destruct Hone as [H1 H2]; split|].
  - intros i j a b Ha Hb Ra Rb. destruct (Hcase _ _ Ha) as [[-> Ea]|[? Ha']],
      (Hcase _ _ Hb) as [[-> Eb]|[? Hb']]; [done| | |by eapply H1]; destruct Hrole as [Hr|Hr];
      (congruence || by (exfalso; eapply Hr)).
  - intros i c Hc. by apply (H2 i c).
  - intros id v Hv. exists v. split; [|by split; [|left]]. rewrite row_at_put.
    change (key (stamp now u)) with (us_ID u). rewrite decide_False; [done|]. intros ->.
    unfold row_at in Hv. change (us_ID u) with (key (stamp now u)) in Hv. by rewrite Hfree in Hv.
Qed.

(** ** Invites *)

(** A redemption: the newest invite of the phone, unexpired, with that code, not
    consumed before; afterwards it is. *)
Record Redeemed (phone code : string) (c : InviteCode) (now : Time) (d d' : DB) : Prop := {
  rd_row : row_at d (iv_ID c) = Some c;
  rd_phone : iv_Phone c = phone;
  rd_newest : ∀ c', row_at d (iv_ID c') = Some c' → iv_Phone c' = phone →
    newest_invite c' c = false;
  rd_unexpired : now ≤ iv_ExpiresAt c;
  rd_code : iv_CodeHash c = hashCode code;
  rd_unconsumed : iv_ConsumedAt c = None;
  rd_tables : d' = put (consume_invite now c) d;
}.

#[export] Instance newest_invite_strict : StrictWeak newest_invite.
Proof. split; unfold newest_invite; intros *; rewrite ?orb_true_iff, ?orb_false_iff, ?andb_true_iff,
  ?andb_false_iff, ?Z.ltb_lt, ?Z.ltb_ge, ?Z.eqb_eq, ?Z.eqb_neq, ?N.ltb_lt, ?N.ltb_ge; lia. Qed.

Lemma filter_unconsumed id (d : DB) :
  List.filter (unconsumed id) (rows d) =
  match row_at d id with
  | Some c => if is_null (iv_ConsumedAt c) then [c] else []
  | None => []
  end.
Proof.
  unfold unconsumed. rewrite filter_andb.
  pose proof (filter_rows_id (R := InviteCode) d id) as E. cbn [key InviteCode_table] in E.
  rewrite E. by destruct (row_at d id).
Qed.

Lemma holds_Redeem phone code d (Q : Res string → DB → Prop) :
  (∀ e, Q (Err e) d) →
  (∀ c now d', Redeemed phone code c now d d' → Q (Ok (invite_role c)) d') →
  holds (Redeem phone code) d Q.
Proof.
  intros He Hok. unfold Redeem. destruct (iranianMobile phone); simpl; [|by apply holds_fail].
  apply holds_bind, holds_map_err, holds_First_where; [intros e; apply He|].
  intros c l E. cbn [after]. apply sort_by_head in E as [Hc Hnew]; [|apply _].
  apply elem_of_filter_rows in Hc as [Hrow Hphone%bool_decide_eq_true].
  apply holds_bind, holds_now. intros now. cbn [after].
  destruct (After now (iv_ExpiresAt c)) eqn:Hexp; [by apply holds_fail|].
  destruct (ConstantTimeCompare _ _) eqn:Hcode; simpl; [|by apply holds_fail].
  apply holds_bind. unfold Consume. apply holds_bind, holds_Update_where; [intros e; apply He|].
  intros env t d'. rewrite filter_unconsumed. change (key c) with (iv_ID c) in Hrow. rewrite Hrow.
  destruct (iv_ConsumedAt c) eqn:Hcon; simpl.
  - intros [= ->]. apply holds_fail, He.
  - destruct (update_row _ _ _ _) as [d1|e|s] eqn:Eu; simpl; [|done..]. intros [= ->].
    apply update_row_Ok in Eu as (c' & ->%accept_Invite & _ & ->).
    apply holds_ret, holds_ret. apply (Hok c now). split; try done.
    + intros c' Hc' Hp. apply Hnew, elem_of_filter_rows. split; [done|by apply bool_decide_eq_true].
    + unfold After in Hexp. lia.
    + by apply bool_decide_eq_true in Hcode.
Qed.

Lemma Redeemed_roles phone code c now d d' :
  Redeemed phone code c now d d' → RolesStep promotes d d' ∧ (OneAdmin d' → invite_role c ≠ RoleSuperAdmin).
Proof.
  intros [Hrow _ _ _ _ _ ->]. split.
  - split; [intros [H1 H2]; split|].
    + intros i j u v. apply H1.
    + intros i c'. rewrite row_at_put. case_decide; [intros [= <-]; by apply (H2 (iv_ID c) c)|apply H2].
    + intros id u Hu. exists u. by split_and!; [|..|left].
  - intros [_ H2]. unfold invite_role. case_bool_decide; [done|].
    apply (H2 (iv_ID c) (consume_invite now c)). rewrite row_at_put. by rewrite decide_True.
Qed.

Lemma roles_Create_invite (c : InviteCode) :
  iv_Role c ≠ RoleSuperAdmin → Stays (RolesStep promotes) (Create_invite c).
Proof.
  intros Hc. unfold Create_invite. apply stays_Create; [apply _..|].
  intros env now c' d _ Hfree ->%accept_Invite. split; [intros [H1 H2]; split|].
  - intros i j u v. apply H1.
  - intros i v. rewrite row_at_put. case_decide; [by intros [= <-]|apply H2].
  - intros id u Hu. exists u. by split_and!; [|..|left].
Qed.

Section role_calls.
Context {codec : UuidCodec} {jwt : JwtLibrary} {bcrypt : Bcrypt} {unicode : UnicodeTables}.

Lemma roles_leaf {A} (m : M A) : Stays (keeps role_tables) m → Stays (RolesStep promotes) m.
Proof. apply stays_mono, keeps_RolesStep. Qed.

Lemma roles_session h rq u : Stays (RolesStep promotes) (respondSession h rq u).
Proof. apply roles_leaf, keeps_session; [done|apply _]. Qed.

Lemma roles_reads {A} (m : M A) P : (∀ d, reads m d (P d)) → Stays (RolesStep promotes) m.
Proof. intros H d. eapply holds_mono; [apply H|]. by intros r d' [-> _]. Qed.

Lemma reads_setup_checks b d :
  reads (setup_checks b) d (λ _, ∀ i (u : User), row_at d i = Some u → False).
Proof.
  unfold setup_checks. eapply reads_bind with (P := λ _, True).
  { destruct b; simpl; [|apply reads_fail]. case_match; [by apply reads_ret|apply reads_fail]. }
  intros req _. destruct (iranianMobile _); simpl; [|apply reads_fail].
  eapply reads_bind; [by apply (reads_lift _ d (λ _, True))|]. intros _ _.
  eapply reads_bind; [apply reads_map_err, (reads_query _ d (λ n, n =
    Z.of_nat (length (List.filter (λ _ : User, true) (rows d))))); reflexivity|].
  intros n ->. destruct (Z.gtb_spec (Z.of_nat (length (List.filter (λ _ : User, true) (rows d)))) 0)
    as [|Hn]; [apply reads_fail|]. apply reads_ret. intros i u Hu.
  assert (u ∈ List.filter (λ _ : User, true) (rows d)) as Hin.
  { apply elem_of_filter_rows. by apply row_at_Some in Hu as Hk; destruct Hk as [_ ->]. }
  destruct (List.filter _ _); [by apply elem_of_nil in Hin|simpl in Hn; lia].
Qed.

Lemma roles_setup h rq b : Stays (RolesStep promotes) (setup h rq b).
Proof.
  intros d. unfold setup, setup_account. apply holds_bind.
  eapply holds_mono; [apply reads_setup_checks|].
  intros [req|e|s] d1 [-> Hempty]; cbn [after]; [|done..]. specialize (Hempty req eq_refl).
  apply holds_bind, holds_bind. eapply holds_mono; [apply reads_map_err, reads_HashPassword|].
  intros [hash|e|s] d1 [-> _]; cbn [after]; [|done..].
  apply holds_bind, holds_uuid. intros id. cbn [after]. apply holds_map_err.
  apply roles_Create_user; [by right|done|]. intros now d' _ _ Hr. cbn [after].
  eapply holds_stays; [apply roles_session|]. intros r d2 H2. by transitivity d'.
Qed.

(** The account of a redeemed invite, in a database with the admin invariant. *)
Lemma roles_account_of req role hash d :
  (OneAdmin d → role ≠ RoleSuperAdmin) →
  holds (account_of req role hash) d (λ _ d', RolesStep promotes d d').
Proof.
  intros Hrole. unfold account_of. apply holds_bind, holds_attempt. unfold FindByPhone.
  apply holds_First_where; cbn [after].
  - intros e. destruct (errors_Is e gorm_ErrRecordNotFound); [|by apply holds_fail].
    apply holds_bind, holds_uuid. intros id. cbn [after]. apply holds_map_err.
    apply roles_Create_user; [intros H; left; by apply Hrole|done|done].
  - intros u l _. apply holds_bind, holds_map_err. eapply holds_mono; [apply roles_UpdatePassword|].
    intros [[]|e|s] d1 H; cbn [after]; [|done..]. by apply holds_ret.
Qed.

Lemma reads_bind_json {A} (f : A → bool) msg b d :
  reads (bind_json f msg b) d (λ a, b = Some a ∧ f a = true).
Proof.
  destruct b as [a|]; simpl; [|apply reads_fail].
  destruct (f a) eqn:E; [by apply reads_ret|apply reads_fail].
Qed.

Lemma roles_register h rq b : Stays (RolesStep promotes) (register h rq b).
Proof.
  intros d. unfold register. apply holds_bind. eapply holds_mono; [apply reads_bind_json|].
  intros [req|e|s] d1 [-> _]; cbn [after]; [|done..].
  cbv zeta. destruct (iranianMobile _); simpl; [|by apply holds_fail].
  apply holds_bind, holds_lift. destruct (ValidatePassword _); cbn [after]; [|done..].
  apply holds_bind, holds_Redeem; cbn [after]; [done|]. intros c now d1 [Hr1 Hrole]%Redeemed_roles.
  apply holds_bind. eapply holds_mono; [apply reads_map_err, reads_HashPassword|].
  intros [hash|e|s] d2 [-> _]; cbn [after]; [|done..].
  apply holds_bind. eapply holds_mono; [by apply (roles_account_of _ (invite_role c) hash d1); auto|].
  intros [u|e|s] d2 Hr2; cbn [after]; [|by transitivity d1..].
  eapply holds_stays; [apply roles_session|]. intros r d3 Hr3.
  transitivity d1; [done|]. by transitivity d2.
Qed.

Lemma keeps_randomInviteCode {X} (π : DB → X) n : Stays (keeps π) (randomInviteCode n).
Proof.
  induction n as [|n IH]; [apply stays_ret; apply _|].
  apply stays_bind; [apply _|unfold rand_bits, rand_bytes; stays_tac|]. intros i.
  apply stays_bind; [apply _|exact IH|]. intros. apply stays_ret; apply _.
Qed.

Lemma roles_createInvite h u b : Stays (RolesStep promotes) (createInvite h u b).
Proof.
  unfold createInvite. apply stays_bind; [apply _|eapply roles_reads; intros; apply reads_bind_json|].
  intros req. cbv zeta. set (role := if bool_decide (cq_Role req = "") then _ else _).
  destruct (negb _ && negb _) eqn:Hr; [apply stays_fail; apply _|].
  destruct u as [u|]; [|apply stays_lift; apply _].
  apply stays_bind; [apply _| |].
  - unfold Issue_invite. destruct (iranianMobile _); cbn [negb]; [|apply stays_fail; apply _].
    apply stays_bind; [apply _| |].
    { apply stays_map_err, roles_leaf. exact (keeps_randomInviteCode role_tables inviteCodeLength). }
    intros code. apply stays_bind; [apply _|apply stays_now; apply _|]. intros now.
    apply stays_bind; [apply _|apply stays_uuid; apply _|]. intros id.
    apply stays_bind; [apply _| |intros; apply stays_ret; apply _].
    apply stays_map_err, roles_Create_invite. simpl.
    apply andb_false_iff in Hr as [Hr|Hr]; apply negb_false_iff, bool_decide_eq_true in Hr;
      by rewrite Hr.
  - intros code. apply stays_bind; [apply _|by apply roles_leaf, keeps_audit|].
    intros. apply stays_ret; apply _.
Qed.

Lemma roles_changePassword u b : Stays (RolesStep promotes) (changePassword u b).
Proof.
  unfold changePassword. destruct u as [u|]; [|apply stays_fail; apply _].
  apply stays_bind; [apply _|eapply roles_reads; intros; apply reads_bind_json|].
  intros req. apply stays_bind; [apply _|apply stays_lift; apply _|]. intros _.
  destruct (password_ok _ _); simpl; [|apply stays_fail; apply _].
  apply stays_bind; [apply _|eapply roles_reads; intros; apply reads_map_err, reads_HashPassword|].
  intros hash. apply stays_bind; [apply _|apply stays_map_err, roles_UpdatePassword|].
  intros. apply stays_ret; apply _.
Qed.

Lemma roles_serve h rq call : Stays (RolesStep promotes) (serve h rq call).
Proof.
  unfold serve, handle. apply stays_bind; [apply _| |intros []; apply stays_ret; apply _].
  apply stays_attempt. destruct call.
  - apply roles_setup.
  - apply roles_register.
  - unfold login. apply stays_bind; [apply _|eapply roles_reads; intros; apply reads_bind_json|].
    intros req. destruct (iranianMobile _); simpl; [|apply stays_fail; apply _].
    apply stays_bind; [apply _|apply stays_map_err, stays_First_where; apply _|]. intros u.
    destruct (password_ok _ _); simpl; [apply roles_session|apply stays_fail; apply _].
  - apply roles_leaf, keeps_refresh. apply _.
  - apply roles_leaf, keeps_logout. apply _.
  - apply stays_bind; [apply _|eapply roles_reads; intros; apply reads_Authenticate|].
    intros u. eapply roles_reads. intros. apply reads_me.
  - apply stays_bind; [apply _|eapply roles_reads; intros; apply reads_Authenticate|].
    intros u. apply roles_changePassword.
  - apply stays_bind; [apply _|eapply roles_reads; intros; apply reads_Authenticate|].
    intros u. apply stays_bind; [apply _|eapply roles_reads; intros; apply reads_RequireRole|].
    intros v. apply roles_createInvite.
Qed.
End role_calls.

Lemma roles_building {map_order : MapOrder} op :
  (grants op → promotes) → Stays (RolesStep promotes) (run_building op).
Proof.
  intros Hop. apply (stays_building_op role_tables); try apply _.
  - apply keeps_RolesStep.
  - intros u b now d. by apply keeps_RolesStep.
  - intros u b d. unfold revoke_exec. case_match; by apply keeps_RolesStep.
  - intros o. apply (stays_mono (keeps role_tables)); [apply keeps_RolesStep|].
    unfold CreateOccupancy. stays_tac.
  - intros m o e d. apply holds_EndOccupancy; [done..|]. intros old d' H _.
    destruct (oe_rest _ _ _ _ _ H) as [mm ->]. by apply keeps_RolesStep.
  - intros H u. by apply roles_promote, Hop.
Qed.
End roles.
