(* ===== verification/SessionSpec.v ===== *)
(** * Families of refresh tokens

    The number of live tokens of a family, over the calls of [auth]: a rotation
    replaces one token by one, a revocation ends them, and only a login opens a
    family. *)

From S2P Require Import Prelude Golang Errors Models Store Schema Logic Notification Crypto Token Invite Password AuthUser AuthHandlers BuildingSpec AuthSpec.

(** ** Live tokens *)

Definition live_count (family : UUID) (d : DB) : nat :=
  length (List.filter (live_in family) (rows d)).

Definition LiveLe (family : UUID) (d d' : DB) : Prop :=
  (live_count family d' ≤ live_count family d)%nat.

#[export] Instance LiveLe_preorder family : PreOrder (LiveLe family).
Proof. split; unfold LiveLe; intros d; [|intros d2 d3]; lia. Qed.

Definition one_if (b : bool) : nat := if b then 1 else 0.

Lemma filter_length_perm {A} (P : A → bool) l1 l2 :
  l1 ≡ₚ l2 → length (List.filter P l1) = length (List.filter P l2).
Proof. induction 1 as [|x l1 l2 _ IH|x y l|]; simpl; repeat case_match; simpl; congruence. Qed.

Lemma filter_length_cons {A} (P : A → bool) x l :
  length (List.filter P (x :: l)) = (one_if (P x) + length (List.filter P l))%nat.
Proof. simpl. by destruct (P x). Qed.

Lemma live_put family (t : RefreshToken) d :
  (live_count family (put t d) +
    one_if (match row_at d (key t) with Some old => live_in family old | None => false end) =
  live_count family d + one_if (live_in family t))%nat.
Proof.
  destruct (rows_put t d) as (l & E1 & E2). unfold live_count.
  rewrite (filter_length_perm _ _ _ E1), (filter_length_perm _ _ _ E2), filter_length_cons.
  destruct (row_at d (key t)) as [old|]; cbn [app]; rewrite ?filter_length_cons; simpl; lia.
Qed.

Lemma live_revoked family at_ (t : RefreshToken) : live_in family (revoke_token at_ t) = false.
Proof. apply andb_false_r. Qed.

Lemma live_put_dead family (t : RefreshToken) d :
  live_in family t = false → LiveLe family d (put t d).
Proof. intros H. pose proof (live_put family t d) as E. rewrite H in E. unfold LiveLe. simpl in *. lia. Qed.

Lemma keeps_live family d d' : keeps db_refresh_tokens d d' → LiveLe family d d'.
Proof. unfold LiveLe, live_count, rows, keeps. simpl. by intros ->. Qed.

(** ** The store *)

Lemma accept_Token env d (t t' : RefreshToken) : accept env d t = Ok t' → t' = t.
Proof. cbn -[require mbind]. rewrite !require_Ok. intros (_ & [= <-]). done. Qed.

Lemma live_update_rows family env at_ (l : list RefreshToken) d d' :
  update_rows env (revoke_token at_) l d = Ok d' → LiveLe family d d'.
Proof.
  revert d. induction l as [|t l IH]; intros d; simpl; [by intros [= ->]|].
  destruct (update_row _ _ _ _) as [d1|e|s] eqn:E; simpl; [|done..]. intros E2.
  apply update_row_Ok in E as (t' & ->%accept_Token & _ & ->).
  transitivity (put (revoke_token at_ t) d); [apply live_put_dead, live_revoked|by apply IH].
Qed.

Lemma live_RevokeFamily family f at_ : Stays (LiveLe family) (RevokeFamily f at_).
Proof.
  unfold RevokeFamily. apply stays_bind; [apply _| |intros; apply stays_ret; apply _].
  intros d. apply holds_Update_where; [done|]. intros env now d' E. by eapply live_update_rows.
Qed.

Lemma live_Create_other family (t : RefreshToken) :
  rt_FamilyID t ≠ family → Stays (LiveLe family) (Create_token t).
Proof.
  intros Hne. apply stays_Create; [apply _..|]. intros env now t' d _ _ ->%accept_Token.
  apply live_put_dead. unfold live_in. simpl. by rewrite bool_decide_eq_false_2.
Qed.

(** A stored token, revoked. *)
Lemma holds_Save_revoked now (rec : RefreshToken) d (Q : Res RefreshToken → DB → Prop) :
  row_at d (rt_ID rec) = Some rec → (∀ e, Q (Err e) d) →
  Q (Ok (revoke_token now rec)) (put (revoke_token now rec) d) →
  holds (Save_token (revoke_token now rec)) d Q.
Proof.
  intros Hrow He Hok. apply holds_Save; [done|]. intros env t d' E.
  change (touch t (revoke_token now rec)) with (revoke_token now rec) in *.
  apply row_at_Some in Hrow as [Hrow _].
  apply (save_row_old env (revoke_token now rec) rec) in E as (r' & ->%accept_Token & _ & ->); done.
Qed.

Lemma holds_Create_token (t : RefreshToken) d (Q : Res RefreshToken → DB → Prop) :
  (∀ e, Q (Err e) d) →
  (∀ now d', row_at (R := RefreshToken) d (rt_ID t) = None → d' = put (stamp now t) d → Q (Ok (stamp now t)) d') →
  holds (Create_token t) d Q.
Proof.
  intros He Hok. apply holds_Create; [done|]. intros env now t' d' _ Hfree ->%accept_Token ->.
  eapply Hok; [|done]. unfold row_at. change (rt_ID t) with (key (stamp now t)). by rewrite Hfree.
Qed.

Lemma live_FindByHash hash d (Q : Res RefreshToken → DB → Prop) :
  (∀ e, Q (Err e) d) →
  (∀ t, row_at d (rt_ID t) = Some t → rt_TokenHash t = hash → Q (Ok t) d) →
  holds (FindByHash hash) d Q.
Proof.
  intros He Hok. apply holds_First_where; [done|]. intros t l E.
  assert (t ∈ List.filter (hash_is hash) (rows d)) as Ht.
  { rewrite <- (sort_by_Permutation by_key), E. by left. }
  apply elem_of_filter_rows in Ht as [Hrow Hh%bool_decide_eq_true]. by apply Hok.
Qed.

(** ** The service *)

(** What a rotation of the token [old] to [new] is: the stored token with the
    hash of [raw], live and unexpired, is revoked, and one new live token of the
    same user and family is there. *)
Record Rotated (s : TokenService) (raw raw' : string) (old new : RefreshToken) (now : Time)
    (d d' : DB) : Prop := {
  rt_at : row_at d (rt_ID old) = Some old;
  rt_hash : rt_TokenHash old = hashToken raw;
  rt_live : rt_RevokedAt old = None;
  rt_unexpired : now ≤ rt_ExpiresAt old;
  rt_new_hash : rt_TokenHash new = hashToken raw';
  rt_new_user : rt_UserID new = rt_UserID old;
  rt_new_family : rt_FamilyID new = rt_FamilyID old;
  rt_new_live : rt_RevokedAt new = None;
  rt_new_expiry : rt_ExpiresAt new = now + ts_refreshTTL s;
  rt_new_id : row_at (R := RefreshToken) d (rt_ID new) = None;
  rt_tables : d' = put new (put (revoke_token now old) d);
}.

(** A presented token that is revoked: after a successful revocation its whole
    family is. *)
Record Replayed (raw : string) (old : RefreshToken) (d d' : DB) : Prop := {
  rp_at : row_at d (rt_ID old) = Some old;
  rp_hash : rt_TokenHash old = hashToken raw;
  rp_revoked : rt_RevokedAt old ≠ None;
  rp_family : live_count (rt_FamilyID old) d' = 0%nat;
}.

Lemma live_zero family d :
  (∀ t, row_at d (rt_ID t) = Some t → live_in family t = false) → live_count family d = 0%nat.
Proof.
  intros H. unfold live_count. destruct (List.filter _ _) as [|t l] eqn:E; [done|].
  assert (t ∈ List.filter (live_in family) (rows d)) as [Ht Hl]%elem_of_filter_rows
    by (rewrite E; by left). by rewrite (H t Ht) in Hl.
Qed.

Lemma dead_RevokeFamily family at_ d :
  holds (RevokeFamily family at_) d (λ r d', r = Ok tt → live_count family d' = 0%nat).
Proof.
  unfold RevokeFamily. apply holds_bind, holds_Update_where; [done|]. intros env now d' E.
  apply holds_ret. intros _. apply live_zero. intros t Ht.
  apply update_rows_at in E as [E1 E2]; [|apply NoDup_filter_rows_ids|done].
  destruct (decide (rt_ID t ∈ key <$> List.filter (live_in family) (rows d))) as [Hin|Hout].
  - apply list_elem_of_fmap in Hin as (o & Eo & Ho). apply E1 in Ho as (dm & t' & Ha & Hr).
    apply accept_Token in Ha as ->. change (key o) with (rt_ID o) in *. rewrite <- Eo, Ht in Hr.
    injection Hr as ->. apply live_revoked.
  - rewrite E2 in Ht by done. destruct (live_in family t) eqn:El; [|done]. exfalso. apply Hout.
    apply (list_elem_of_fmap_2 rt_ID). by apply elem_of_filter_rows.
Qed.

Section service.
Context {codec : UuidCodec} {jwt : JwtLibrary} {bcrypt : Bcrypt} {unicode : UnicodeTables}.

(** An error of a statement, of the random source or of the signer: wrapped. *)
Definition wrapped {A} (r : Res A) : Prop :=
  match r with Ok _ => False | Err e => ∃ pre e', e = wrap pre e' | Panic _ => True end.

(** The two writes of a rotation. *)
Lemma holds_rotate s rec now d (Q : Res Rotation → DB → Prop) :
  row_at d (rt_ID rec) = Some rec →
  (∀ r, wrapped r → Q r d) →
  (∀ r, wrapped r → Q r (put (revoke_token now rec) d)) →
  (∀ r new, row_at (R := RefreshToken) d (rt_ID new) = None →
     rt_UserID new = rt_UserID rec → rt_FamilyID new = rt_FamilyID rec →
     rt_RevokedAt new = None → rt_ExpiresAt new = now + ts_refreshTTL s →
     match r with Ok ro => rt_TokenHash new = hashToken (ro_RefreshToken ro) | _ => wrapped r end →
     Q r (put new (put (revoke_token now rec) d))) →
  holds (rotate s rec now) d Q.
Proof.
  intros Hrow He Hfail Hok. unfold rotate.
  apply holds_bind, holds_map_err. eapply holds_mono; [apply reads_randomHex|].
  intros [raw'|e|x] d1 [-> Hx]; cbn [after]; [|apply He; by repeat eexists..].
  apply holds_bind, holds_map_err, holds_Save_revoked;
    [done|intros e; apply He; by repeat eexists|]. cbn [after].
  apply holds_bind, holds_uuid. intros id. cbn [after].
  apply holds_bind, holds_map_err, holds_Create_token;
    [intros e; apply Hfail; by repeat eexists|].
  intros t0 d' Hfree ->. cbn [after]. set (new := stamp _ _).
  assert (row_at (R := RefreshToken) d (rt_ID new) = None) as Hnew.
  { rewrite row_at_put in Hfree. case_decide; [done|]. exact Hfree. }
  unfold IssueAccessToken. apply holds_bind, holds_bind, holds_now. intros t1. cbn [after].
  apply holds_bind, holds_map_err, holds_lift.
  destruct (jwt_SignedString _ _) as [tok|e]; cbn [after of_sum];
    [|apply Hok; try done; by repeat eexists].
  apply holds_ret. cbn [after]. apply holds_bind, holds_now. intros t2. cbn [after].
  apply holds_ret. by apply Hok.
Qed.

(** The presented token, and what follows its checks. *)
Lemma holds_RotateRefreshToken family s raw d (Q : Res Rotation → DB → Prop) :
  Q (Err ErrInvalidToken) d → Q (Err ErrTokenExpired) d →
  (∀ r d', LiveLe family d d' → wrapped r → Q r d') →
  (∀ old d', LiveLe family d d' → Replayed raw old d d' → Q (Err ErrTokenReused) d') →
  (∀ old now, row_at d (rt_ID old) = Some old → rt_TokenHash old = hashToken raw →
     rt_RevokedAt old = None → now ≤ rt_ExpiresAt old → holds (rotate s old now) d Q) →
  holds (RotateRefreshToken s raw) d Q.
Proof.
  intros Hinv Hexp Hwrap Hrep Hrot. unfold RotateRefreshToken.
  apply holds_bind, holds_map_err, live_FindByHash; [done|]. intros old Hrow Hh. cbn [after].
  apply holds_bind, holds_now. intros now. cbn [after].
  destruct (rt_RevokedAt old) as [t|] eqn:Hrev; cbn [is_null negb].
  - apply holds_bind, holds_map_err.
    eapply holds_mono; [exact (holds_and _ _ _ _ (live_RevokeFamily family (rt_FamilyID old) now d)
      (dead_RevokeFamily (rt_FamilyID old) now d))|].
    intros [[]|e|x] d' [Hle Hz]; cbn [after]; [|by apply Hwrap; [|repeat eexists]..].
    apply holds_fail. apply (Hrep old); [done|]. split; [done..|by rewrite Hrev|by apply Hz].
  - destruct (After now (rt_ExpiresAt old)) eqn:Ha; [by apply holds_fail|].
    apply Hrot; try done. unfold After in Ha. lia.
Qed.
End service.

(** ** Every call *)

Section live.
Context {codec : UuidCodec} {jwt : JwtLibrary} {bcrypt : Bcrypt} {unicode : UnicodeTables}.
Context (family : UUID).

Lemma live_rotate s rec now d :
  row_at d (rt_ID rec) = Some rec → rt_RevokedAt rec = None →
  holds (rotate s rec now) d (λ _ d', LiveLe family d d').
Proof.
  intros Hrow Hlive. pose proof (live_put family (revoke_token now rec) d) as E1.
  change (key (revoke_token now rec)) with (rt_ID rec) in E1. rewrite Hrow, live_revoked in E1.
  apply holds_rotate; [done|done| |].
  - intros r _. unfold LiveLe. simpl in E1. lia.
  - intros r new Hid _ Hf _ _ _. pose proof (live_put family new (put (revoke_token now rec) d)) as E2.
    assert (live_in family new = true → live_in family rec = true) as Himp.
    { unfold live_in. rewrite Hf, Hlive, !andb_true_iff. by intros [? _]. }
    unfold LiveLe. destruct (live_in family new), (live_in family rec), (row_at _ _);
      simpl in *; try destruct (live_in family r0); simpl in *; try lia;
      exfalso; by discriminate Himp.
Qed.

Lemma live_RotateRefreshToken s raw : Stays (LiveLe family) (RotateRefreshToken s raw).
Proof.
  intros d. apply (holds_RotateRefreshToken family); [done..|]. intros old now Hrow _ Hlive _.
  by apply live_rotate.
Qed.

(** What a call does in one environment. *)
Definition stays_in {A} (env : Env) (R : relation DB) (m : M A) : Prop :=
  ∀ w, R (w_db w) (w_db (m env w).2).

Lemma stays_in_of {A} env R (m : M A) : Stays R m → stays_in env R m.
Proof. intros H w. by apply stays_run. Qed.

Lemma stays_in_bind {A B} env R `{!PreOrder R} (m : M A) (f : A → M B) :
  stays_in env R m → (∀ a, stays_in env R (f a)) → stays_in env R (m ≫= f).
Proof.
  intros Hm Hf w. specialize (Hm w). unfold mbind, M_bind.
  destruct (m env w) as [[a|e|s] w']; simpl in *; [|done..]. etransitivity; [exact Hm|apply Hf].
Qed.

Lemma stays_in_uuid {A} env R (f : UUID → M A) :
  (∀ t, stays_in env R (f (env_uuid env t))) → stays_in env R (uuid_New ≫= f).
Proof. intros H w. apply (H (w_tick w) (next_tick w)). Qed.

Lemma stays_in_map_err {A} env R f (m : M A) : stays_in env R m → stays_in env R (map_err f m).
Proof. intros H w. specialize (H w). unfold map_err. by destruct (m env w) as [[]]. Qed.

Lemma stays_in_attempt {A} env R (m : M A) : stays_in env R m → stays_in env R (attempt m).
Proof. intros H w. specialize (H w). unfold attempt. by destruct (m env w) as [[]]. Qed.

Context (env : Env) (Hfresh : ∀ t, env_uuid env t ≠ family).

Ltac stays_in_step := first
  [ apply stays_in_uuid; intros
  | apply stays_in_bind; [apply _| |intros]
  | apply stays_in_map_err
  | match goal with |- stays_in _ _ (let '(_, _) := ?p in _) => destruct p end
  | apply stays_in_of; solve [stays_tac] ].
Ltac stays_in_tac := repeat stays_in_step.

Lemma live_IssueRefreshToken s u : stays_in env (LiveLe family) (IssueRefreshToken s u).
Proof.
  unfold IssueRefreshToken, randomHex, rand_bytes. stays_in_tac.
  apply stays_in_of, live_Create_other, Hfresh.
Qed.

Lemma live_leaf {A} (m : M A) : Stays (keeps db_refresh_tokens) m → stays_in env (LiveLe family) m.
Proof. intros H. apply stays_in_of. by apply (stays_mono _ _ _ (keeps_live family)). Qed.

Lemma live_session h rq u : stays_in env (LiveLe family) (respondSession h rq u).
Proof.
  unfold respondSession, IssueAccessToken, setSessionCookies, randomHex, rand_bytes.
  repeat lazymatch goal with
    | |- stays_in _ _ (IssueRefreshToken _ _) => apply live_IssueRefreshToken
    | |- stays_in _ _ (audit_append _ _ _ _ _ _) => by apply live_leaf, keeps_audit
    | _ => stays_in_step end.
Qed.

Lemma live_reads {A} (m : M A) P : (∀ d, reads m d (P d)) → stays_in env (LiveLe family) m.
Proof. intros H. apply stays_in_of. intros d. eapply holds_mono; [apply H|]. by intros r d' [-> _]. Qed.

Ltac live_leaf_tac := apply live_leaf; unfold UpdatePassword, FindByPhone, Create_user, rand_bits,
  rand_bytes; solve [stays_tac].

Lemma live_HashPassword p : Stays (LiveLe family) (HashPassword p).
Proof. unfold HashPassword, rand_bytes. stays_tac. Qed.

Lemma live_setup h rq b : stays_in env (LiveLe family) (setup h rq b).
Proof.
  unfold setup. apply stays_in_bind; [apply _|eapply live_reads; intros; apply reads_setup_checks|].
  intros req. apply stays_in_bind; [apply _| |intros; apply live_session].
  unfold setup_account. apply stays_in_of.
  apply stays_bind; [apply _|apply stays_map_err, live_HashPassword|]. intros hash.
  apply (stays_mono _ _ _ (keeps_live family)). unfold Create_user. stays_tac.
Qed.

Lemma live_register h rq b : stays_in env (LiveLe family) (register h rq b).
Proof.
  unfold register. apply stays_in_bind; [apply _|eapply live_reads; intros; apply reads_bind_json|].
  intros req. cbv zeta. destruct (negb _); [apply stays_in_of; stays_tac|].
  apply stays_in_bind; [apply _|apply stays_in_of; stays_tac|]. intros _.
  apply stays_in_bind; [apply _|unfold Redeem, Latest, Consume; live_leaf_tac|]. intros role.
  apply stays_in_bind; [apply _|apply stays_in_of, stays_map_err, live_HashPassword|]. intros hash.
  apply stays_in_bind; [apply _|unfold account_of; live_leaf_tac|]. intros u. apply live_session.
Qed.

Lemma live_login h rq b : stays_in env (LiveLe family) (login h rq b).
Proof.
  unfold login. apply stays_in_bind; [apply _| |intros].
  { eapply live_reads. intros. apply reads_bind_json. }
  destruct (negb _); [apply stays_in_of; stays_tac|].
  apply stays_in_bind; [apply _|live_leaf_tac|]. intros u.
  destruct (negb _); [apply stays_in_of; stays_tac|]. apply live_session.
Qed.

Lemma live_serve h rq call : stays_in env (LiveLe family) (serve h rq call).
Proof.
  unfold serve, handle. apply stays_in_bind; [apply _| |intros []; apply stays_in_of, stays_ret; apply _].
  apply stays_in_attempt. destruct call.
  - apply live_setup.
  - apply live_register.
  - apply live_login.
  - apply stays_in_of. unfold refresh. destruct (refreshTokenFrom rq body) as [raw c].
    unfold setSessionCookies, randomHex, rand_bytes.
    repeat lazymatch goal with
      | |- Stays _ (RotateRefreshToken _ _) => apply live_RotateRefreshToken | _ => stays_step end.
  - apply stays_in_of. unfold logout. destruct (refreshTokenFrom rq body) as [raw c].
    unfold RevokeFamilyByToken, FindByHash. repeat lazymatch goal with
      | |- Stays _ (RevokeFamily _ _) => apply live_RevokeFamily | _ => stays_step end.
  - eapply live_reads. intros. eapply reads_bind; [apply reads_Authenticate|]. intros. apply reads_me.
  - apply stays_in_bind; [apply _|eapply live_reads; intros; apply reads_Authenticate|]. intros u.
    apply stays_in_bind; [apply _|eapply live_reads; intros; apply reads_bind_json|]. intros req.
    apply stays_in_bind; [apply _|apply stays_in_of; stays_tac|]. intros _.
    destruct (negb _); [apply stays_in_of; stays_tac|].
    apply stays_in_bind; [apply _|apply stays_in_of, stays_map_err, live_HashPassword|]. intros hash.
    live_leaf_tac.
  - apply stays_in_bind; [apply _|eapply live_reads; intros; apply reads_Authenticate|]. intros u.
    apply stays_in_bind; [apply _|eapply live_reads; intros; apply reads_RequireRole|]. intros v.
    apply stays_in_bind; [apply _|eapply live_reads; intros; apply reads_bind_json|]. intros req.
    apply live_leaf. cbv zeta. unfold Issue_invite, Create_invite.
    repeat first [by apply keeps_audit | apply keeps_randomInviteCode | stays_step].
Qed.
End live.

(** A call of [auth] in an environment that never hands out the id [family]. *)
Inductive auth_step {codec : UuidCodec} {jwt : JwtLibrary} {bcrypt : Bcrypt}
    {unicode : UnicodeTables} (family : UUID) : DB → DB → Prop :=
  | auth_call h rq call env w : (∀ t, env_uuid env t ≠ family) →
      auth_step family (w_db w) (w_db (serve h rq call env w).2).
