(* ===== verification/AccountSpec.v ===== *)
(** * Invites and accounts

    Invites over the calls of [auth] and [building]; what a registration leaves
    behind for a login; the answers of the endpoints. *)

From S2P Require Import Prelude Golang Errors Models Store Schema Logic Notification Crypto Token Invite Password AuthUser AuthHandlers BillingRepo BuildingRepo BuildingService Occupancy BuildingSpec AuthSpec.

(** ** Invites are kept *)

(** An invite stays as it is, or is consumed, once. *)
Definition InvitesKept (d d' : DB) : Prop := ∀ id (c : InviteCode), row_at d id = Some c →
  ∃ c', row_at d' id = Some c' ∧
    (c' = c ∨ iv_ConsumedAt c = None ∧ ∃ t, c' = consume_invite t c).

#[export] Instance InvitesKept_preorder : PreOrder InvitesKept.
Proof.
  split; [intros d id c H; exists c; auto|].
  intros d1 d2 d3 H1 H2 id c H. destruct (H1 id c H) as (c2 & E2 & [->|(Hn & t & ->)]); [by apply H2|].
  destruct (H2 id _ E2) as (c3 & E3 & [->|(Hn' & _)]); [|done]. exists (consume_invite t c). eauto.
Qed.

Lemma keeps_InvitesKept d d' : keeps db_invite_codes d d' → InvitesKept d d'.
Proof. intros E id c. unfold row_at. simpl. unfold keeps in E. rewrite E. eauto. Qed.

Lemma invites_leaf {A} (m : M A) : Stays (keeps db_invite_codes) m → Stays InvitesKept m.
Proof. apply stays_mono, keeps_InvitesKept. Qed.

Lemma invites_reads {A} (m : M A) P : (∀ d, reads m d (P d)) → Stays InvitesKept m.
Proof. intros H d. eapply holds_mono; [apply H|]. by intros r d' [-> _]. Qed.

Lemma invites_consume d (c : InviteCode) t :
  row_at d (iv_ID c) = Some c → iv_ConsumedAt c = None → InvitesKept d (put (consume_invite t c) d).
Proof.
  intros Hc Hn id c' Hc'. rewrite row_at_put. change (key (consume_invite t c)) with (iv_ID c).
  case_decide as E; [|eauto]. subst id. rewrite Hc in Hc'. injection Hc' as <-. eexists. split; [done|]. eauto.
Qed.

Lemma invites_Redeem phone code : Stays InvitesKept (Redeem phone code).
Proof.
  intros d. apply holds_Redeem; [done|]. intros c now d' [Hrow _ _ _ _ Hn ->]. by apply invites_consume.
Qed.

Lemma invites_Create (c : InviteCode) : Stays InvitesKept (Create_invite c).
Proof.
  unfold Create_invite. apply stays_Create; [apply _..|].
  intros env now c0 d _ Hfree ->%accept_Invite id c' Hc'. exists c'. split; [|by left].
  rewrite row_at_put, decide_False; [done|]. intros ->. apply row_at_Some in Hc' as [Hc' _].
  by rewrite Hfree in Hc'.
Qed.

Section invites.
Context {codec : UuidCodec} {jwt : JwtLibrary} {bcrypt : Bcrypt} {unicode : UnicodeTables}.

Lemma invites_session h rq u : Stays InvitesKept (respondSession h rq u).
Proof. apply invites_leaf, keeps_session; [done|apply _]. Qed.

Lemma keeps_HashPassword {X} (π : DB → X) p : Stays (keeps π) (HashPassword p).
Proof. unfold HashPassword, rand_bytes. stays_tac. Qed.

Lemma invites_register h rq b : Stays InvitesKept (register h rq b).
Proof.
  unfold register. apply stays_bind; [apply _|eapply invites_reads; intros; apply reads_bind_json|].
  intros req. cbv zeta. destruct (negb _); [stays_tac|].
  apply stays_bind; [apply _|stays_tac|]. intros _.
  apply stays_bind; [apply _|apply invites_Redeem|]. intros role.
  apply stays_bind; [apply _|apply stays_map_err, invites_leaf, keeps_HashPassword|]. intros hash.
  apply stays_bind; [apply _| |intros u; apply invites_session].
  apply invites_leaf. unfold account_of, FindByPhone, UpdatePassword, Create_user. stays_tac.
Qed.

Lemma invites_createInvite h u b : Stays InvitesKept (createInvite h u b).
Proof.
  unfold createInvite. apply stays_bind; [apply _|eapply invites_reads; intros; apply reads_bind_json|].
  intros req. cbv zeta. destruct (negb _ && _); [stays_tac|]. destruct u as [u|]; [|stays_tac].
  apply stays_bind; [apply _| |].
  - unfold Issue_invite. repeat lazymatch goal with
    | |- Stays _ (randomInviteCode _) => apply invites_leaf, keeps_randomInviteCode
    | |- Stays _ (Create_invite _) => apply invites_Create
    | _ => stays_step end.
  - intros code. apply stays_bind; [apply _|by apply invites_leaf, keeps_audit|]. intros. stays_tac.
Qed.

Lemma keeps_setup_account {X} (π : DB → X) req : Indep π User → Stays (keeps π) (setup_account req).
Proof.
  intros. unfold setup_account. apply stays_bind; [apply _|apply stays_map_err, keeps_HashPassword|].
  intros hash. unfold Create_user. stays_tac.
Qed.

Lemma keeps_login {X} (π : DB → X) (Haudit : ∀ l d, π (set_audit_logs l d) = π d) h rq b :
  Indep π RefreshToken → Stays (keeps π) (login h rq b).
Proof.
  intros. unfold login. apply stays_bind; [apply _| |].
  { unfold bind_json. stays_tac. }
  intros req. destruct (negb _); [stays_tac|]. apply stays_bind; [apply _|unfold FindByPhone; stays_tac|].
  intros u. destruct (negb _); [stays_tac|]. by apply keeps_session.
Qed.

Lemma keeps_changePassword {X} (π : DB → X) u b : Indep π User → Stays (keeps π) (changePassword u b).
Proof.
  intros. unfold changePassword. destruct u as [u|]; [|stays_tac].
  apply stays_bind; [apply _|unfold bind_json; stays_tac|]. intros req.
  apply stays_bind; [apply _|stays_tac|]. intros _. destruct (negb _); [stays_tac|].
  apply stays_bind; [apply _|apply stays_map_err, keeps_HashPassword|]. intros hash.
  unfold UpdatePassword. stays_tac.
Qed.

Lemma invites_serve h rq call : Stays InvitesKept (serve h rq call).
Proof.
  unfold serve, handle. apply stays_bind; [apply _| |intros []; apply stays_ret; apply _].
  apply stays_attempt. destruct call.
  - apply stays_bind; [apply _|eapply invites_reads; intros; apply reads_setup_checks|]. intros req.
    apply stays_bind; [apply _|apply invites_leaf, keeps_setup_account; apply _|].
    intros u. apply invites_session.
  - apply invites_register.
  - apply invites_leaf, keeps_login; [done|apply _].
  - apply invites_leaf, keeps_refresh. apply _.
  - apply invites_leaf, keeps_logout. apply _.
  - eapply invites_reads. intros. eapply reads_bind; [apply reads_Authenticate|]. intros. apply reads_me.
  - apply stays_bind; [apply _|eapply invites_reads; intros; apply reads_Authenticate|]. intros u.
    apply invites_leaf, keeps_changePassword. apply _.
  - apply stays_bind; [apply _|eapply invites_reads; intros; apply reads_Authenticate|]. intros u.
    apply stays_bind; [apply _|eapply invites_reads; intros; apply reads_RequireRole|]. intros v.
    apply invites_createInvite.
Qed.
End invites.

Lemma invites_building {map_order : MapOrder} op : Stays InvitesKept (run_building op).
Proof.
  apply (stays_building_op db_invite_codes); try apply _.
  - apply keeps_InvitesKept.
  - intros u b now d. by apply keeps_InvitesKept.
  - intros u b d. unfold revoke_exec. case_match; by apply keeps_InvitesKept.
  - intros o. apply invites_leaf. unfold CreateOccupancy. stays_tac.
  - intros m o e d. apply holds_EndOccupancy; [done..|]. intros old d' H _.
    destruct (oe_rest _ _ _ _ _ H) as [mm ->]. by apply keeps_InvitesKept.
  - intros _ u. apply invites_leaf. unfold PromoteResidentToManager. stays_tac.
Qed.

(** A call of [auth] or of [building]. *)
Inductive account_step {codec : UuidCodec} {jwt : JwtLibrary} {bcrypt : Bcrypt}
    {unicode : UnicodeTables} {map_order : MapOrder} : DB → DB → Prop :=
  | account_auth h rq call env w : account_step (w_db w) (w_db (serve h rq call env w).2)
  | account_building op env w : account_step (w_db w) (w_db (run_building op env w).2).

Lemma account_steps {codec : UuidCodec} {jwt : JwtLibrary} {bcrypt : Bcrypt}
    {unicode : UnicodeTables} {map_order : MapOrder} (R : relation DB) `{!PreOrder R} :
  (∀ h rq call, Stays R (serve h rq call)) → (∀ op, Stays R (run_building op)) →
  ∀ d d', rtc account_step d d' → R d d'.
Proof.
  intros H1 H2 d d' H. induction H as [d|d1 d2 d3 H _ IH]; [done|]. etransitivity; [|exact IH].
  destruct H; [by apply stays_run; apply H1|by apply stays_run; apply H2].
Qed.

(** A call that succeeded, then the rest. *)
Lemma bind_Ok {A B} (m : M A) (f : A → M B) env w a w1 :
  m env w = (Ok a, w1) → (m ≫= f) env w = f a env w1.
Proof. intros E. unfold mbind, M_bind. by rewrite E. Qed.

(** ** Answers *)

(** A call that does not panic. *)
Definition Answers {A} (m : M A) : Prop := ∀ d, holds m d (λ r _, ∀ s, r ≠ Panic s).

Lemma answers_bind {A B} (m : M A) (f : A → M B) :
  Answers m → (∀ a, Answers (f a)) → Answers (m ≫= f).
Proof.
  intros Hm Hf d. apply holds_bind. eapply holds_mono; [apply Hm|].
  intros [a|e|s] d' H; cbn [after]; [apply Hf|done|by destruct (H s)].
Qed.

Lemma answers_map_err {A} f (m : M A) : Answers m → Answers (map_err f m).
Proof.
  intros H d. apply holds_map_err. eapply holds_mono; [apply H|]. by intros [a|e|s] d' E.
Qed.

Lemma answers_attempt {A} (m : M A) : Answers m → Answers (attempt m).
Proof.
  intros H d. apply holds_attempt. eapply holds_mono; [apply H|].
  intros [a|e|s] d' E; [done|done|by destruct (E s)].
Qed.

Lemma answers_lift {A} (r : Res A) : (∀ s, r ≠ Panic s) → Answers (lift r).
Proof. intros H d. by apply holds_lift. Qed.

Lemma answers_of_sum {A} (r : A + GoError) : Answers (lift (of_sum r)).
Proof. apply answers_lift. by destruct r. Qed.

Lemma answers_rule {A} (m : M A) :
  (∀ d, holds m d (λ r _, match r with Panic _ => False | _ => True end)) → Answers m.
Proof. intros H d. eapply holds_mono; [apply H|]. by intros [] d' Hr. Qed.

Ltac answers_step :=
  lazymatch goal with
  | |- Answers (mbind _ _) => apply answers_bind; [|intros]
  | |- Answers (map_err _ _) => apply answers_map_err
  | |- Answers (attempt _) => apply answers_attempt
  | |- Answers (ignore_err _) => unfold ignore_err
  | |- Answers (lift (of_sum _)) => apply answers_of_sum
  | |- Answers (if ?b then _ else _) => destruct b
  | |- Answers (match ?x with _ => _ end) => destruct x
  | |- Answers (let _ := _ in _) => cbv zeta
  | |- Answers _ => solve [apply answers_rule; intros; step; done]
  end.
Ltac answers_tac := repeat answers_step.

Section answers.
Context {codec : UuidCodec} {jwt : JwtLibrary} {bcrypt : Bcrypt} {unicode : UnicodeTables}.

Lemma answers_audit h actor action ot oid a : Answers (audit_append h actor action ot oid a).
Proof.
  unfold audit_append. answers_tac. apply answers_rule. intros d. by apply holds_Append.
Qed.

Lemma answers_randomHex n : Answers (randomHex n).
Proof. unfold randomHex, rand_bytes. answers_tac. Qed.

Lemma answers_cookies h t : Answers (setSessionCookies h t).
Proof. unfold setSessionCookies. apply answers_bind; [apply answers_attempt, answers_randomHex|]. intros. answers_tac. Qed.

Lemma answers_session h rq u : Answers (respondSession h rq u).
Proof.
  unfold respondSession, IssueAccessToken, IssueRefreshToken, Create_token.
  repeat lazymatch goal with
  | |- Answers (audit_append _ _ _ _ _ _) => apply answers_audit
  | |- Answers (setSessionCookies _ _) => apply answers_cookies
  | |- Answers (randomHex _) => apply answers_randomHex
  | _ => answers_step end.
Qed.

Lemma answers_Rotate s raw : Answers (RotateRefreshToken s raw).
Proof.
  unfold RotateRefreshToken, rotate, FindByHash, RevokeFamily, Save_token, Create_token, IssueAccessToken.
  repeat lazymatch goal with
  | |- Answers (randomHex _) => apply answers_randomHex
  | _ => answers_step end.
Qed.

Lemma answers_ValidatePassword p : Answers (lift (ValidatePassword p)).
Proof. apply answers_lift. unfold ValidatePassword. by case_match. Qed.

Lemma answers_HashPassword p : Answers (HashPassword p).
Proof. unfold HashPassword, rand_bytes. answers_tac. Qed.

Lemma answers_bind_json {A} (f : A → bool) msg b : Answers (bind_json f msg b).
Proof. unfold bind_json. answers_tac. Qed.

Lemma answers_Authenticate s header : Answers (Authenticate s header).
Proof. unfold Authenticate, ParseAccessToken, FindByID. answers_tac. Qed.

Lemma answers_randomInviteCode n : Answers (randomInviteCode n).
Proof. induction n as [|n IH]; simpl; [|unfold rand_bits, rand_bytes]; answers_tac; exact IH. Qed.

Ltac answers_call :=
  repeat lazymatch goal with
  | |- Answers (audit_append _ _ _ _ _ _) => apply answers_audit
  | |- Answers (setSessionCookies _ _) => apply answers_cookies
  | |- Answers (randomHex _) => apply answers_randomHex
  | |- Answers (respondSession _ _ _) => apply answers_session
  | |- Answers (lift (ValidatePassword _)) => apply answers_ValidatePassword
  | |- Answers (HashPassword _) => apply answers_HashPassword
  | |- Answers (bind_json _ _ _) => apply answers_bind_json
  | |- Answers (Authenticate _ _) => apply answers_Authenticate
  | |- Answers (randomInviteCode _) => apply answers_randomInviteCode
  | _ => answers_step end.

(** Behind the middleware there is a user, so [createInvite] has its caller. *)
Lemma answers_serve h rq call : Answers (serve h rq call).
Proof.
  unfold serve, handle. apply answers_bind; [|intros []; answers_tac]. apply answers_attempt.
  destruct call; unfold setup, setup_checks, setup_account, register, account_of, Redeem, Latest,
    Consume, login, refresh, RotateRefreshToken, rotate, logout, RevokeFamilyByToken, FindByHash,
    RevokeFamily, Save_token, Create_token, IssueAccessToken, me, changePassword, createInvite,
    Issue_invite, Create_invite, RequireRole, FindByPhone, Create_user, UpdatePassword, CountActive,
    ManagerBuildingIDs, Scope_ResidentUnitIDs; answers_call.
Qed.
End answers.

(** ** Sessions *)

(** A session of an account: 200, the account in the body, the refresh token
    only for a client that is no browser. *)
Record SessionOf (rq : Request) (u : User) (rs : Response) : Prop := {
  so_status : rs_Status rs = 200;
  so_body : ∃ tok n rt, rs_Body rs = SessionBody tok n (us_ID u) (us_Name u) (us_Role u) rt ∧
    (browserClient rq = true → rt = None);
}.

Definition session_result (rq : Request) (u : User) (r : Res Response) : Prop :=
  match r with
  | Ok rs => SessionOf rq u rs
  | Err e => e = EApp ErrInternal
  | Panic _ => False
  end.

#[export] Instance by_key_strict `{!Table R} : StrictWeak (by_key (R := R)).
Proof. split; unfold by_key; intros *; rewrite ?N.ltb_lt, ?N.ltb_ge; lia. Qed.

(** The account that a login with a phone finds. *)
Definition account_at (phone : string) (d : DB) : option User :=
  match sort_by by_key (List.filter (λ u, bool_decide (us_Phone u = phone)) (rows d)) with
  | u :: _ => Some u
  | [] => None
  end.

(** A login with the phone and the password finds an account it opens. *)
Definition account_ready (phone password : string) {bcrypt : Bcrypt} (d : DB) : Prop :=
  ∃ u, account_at phone d = Some u ∧ password_ok u password = true.

Section session.
Context {codec : UuidCodec} {jwt : JwtLibrary} {bcrypt : Bcrypt} {unicode : UnicodeTables}.

Lemma holds_session h rq u d :
  holds (respondSession h rq u) d (λ r d', session_result rq u r ∧ keeps db_users d d').
Proof.
  apply holds_and; [|by apply keeps_session; [|apply _]].
  eapply holds_mono; [apply (holds_and _ _ _ (λ r _,
    match r with Ok rs => SessionOf rq u rs | Err e => e = EApp ErrInternal | _ => True end)
    (answers_session h rq u d))|by intros [a|e|s] d' [H H']; [| |destruct (H s)]].
  unfold respondSession.
  apply holds_bind, holds_map_err. apply (holds_mono _ _ (λ _ _, True)); [done|].
  intros [[tok exp]|e|s] d1 _; cbn [after]; [|done..].
  apply holds_bind, holds_map_err. apply (holds_mono _ _ (λ _ _, True)); [done|].
  intros [raw|e|s] d2 _; cbn [after]; [|done..].
  apply holds_bind. unfold audit_append.
  eapply (holds_mono _ _ (λ r _, match r with Err _ => False | _ => True end)).
  { destruct (h_Audited h); [|by apply holds_ret]. unfold ignore_err.
    apply holds_bind, holds_attempt. apply (holds_mono _ _ (λ _ _, True)); [done|].
    intros [[]|e|s] d3 _; cbn [after]; [by apply holds_ret..|done]. }
  intros [[]|e|s] d3 Hr; cbn [after]; [|done..].
  apply holds_bind. unfold setSessionCookies. apply holds_bind, holds_attempt.
  apply (holds_mono _ _ (λ _ _, True)); [done|]. intros [csrf|e|s] d4 _; cbn [after]; [..|done].
  all: apply holds_ret; cbn [after]; apply holds_bind, holds_now; intros now; cbn [after].
  all: apply holds_ret; split; [done|]; cbn; do 3 eexists; split; [done|]; by intros ->.
Qed.

Lemma account_at_keeps phone d d' : keeps db_users d d' → account_at phone d' = account_at phone d.
Proof. unfold account_at, rows, keeps. simpl. by intros ->. Qed.

Lemma account_at_Some phone d u :
  account_at phone d = Some u ↔ row_at d (us_ID u) = Some u ∧ us_Phone u = phone ∧
    ∀ v, row_at d (us_ID v) = Some v → us_Phone v = phone → (us_ID u ≤ us_ID v)%N.
Proof.
  unfold account_at. set (l := List.filter _ _).
  assert (∀ v, v ∈ l ↔ row_at d (us_ID v) = Some v ∧ us_Phone v = phone) as Hl.
  { intros v. unfold l. rewrite elem_of_filter_rows. by rewrite bool_decide_eq_true. }
  destruct (sort_by by_key l) as [|x l'] eqn:E.
  - split; [done|]. intros (Hu & Hp & _). assert (u ∈ l) as Hin by by apply Hl.
    rewrite <- (sort_by_Permutation by_key), E in Hin. by apply elem_of_nil in Hin.
  - apply sort_by_head in E as [Hx Hmin]; [|apply _]. pose proof Hx as [Hrow Hp]%Hl.
    assert (∀ v, v ∈ l → (us_ID x ≤ us_ID v)%N) as Hle.
    { intros v Hv%Hmin. by apply N.ltb_ge in Hv. }
    split; [intros [= <-]; split_and!; [done..|]; intros v Hv Hvp; apply Hle; by apply Hl|].
    intros (Hu & Hup & Hmin'). specialize (Hmin' x Hrow Hp). specialize (Hle u ltac:(by apply Hl)).
    assert (us_ID u = us_ID x) as Eid by lia. rewrite Eid in Hu. congruence.
Qed.

(** The account a registration leads to is ready. *)
Lemma ready_account_of req role hash d :
  CheckPassword hash (cr_Password req) = true →
  holds (account_of req role hash) d (λ r d', ∀ u, r = Ok u →
    ∃ v, account_at (cr_Phone req) d' = Some v ∧ us_ID v = us_ID u ∧
      password_ok v (cr_Password req) = true).
Proof.
  intros Hpw. unfold account_of. apply holds_bind, holds_attempt, holds_First_where; cbn [after].
  - intros e. destruct (errors_Is _ _); [|by apply holds_fail].
    apply holds_bind, holds_uuid. intros id. cbn [after]. apply holds_map_err, holds_Create; [done|].
    intros env now u' d' _ Hfree Hacc ->. pose proof (accept_User _ _ _ _ Hacc) as ->.
    intros u [= <-]. set (u := stamp now _) in *. exists u. split_and!; [|done|done].
    apply account_at_Some. split_and!; [|done|].
    { rewrite row_at_put. change (key u) with (us_ID u). by rewrite decide_True. }
    intros v. rewrite row_at_put. change (key u) with (us_ID u). case_decide as E; [by rewrite E|].
    intros Hv Hp. exfalso. cbn -[require mbind] in Hacc. rewrite !require_Ok in Hacc.
    destruct Hacc as (_ & Huniq & _). apply negb_true_iff, not_true_iff_false in Huniq. apply Huniq.
    apply existsb_exists. exists v. split.
    + apply list_elem_of_In. change (us_ID v) with (key v) in Hv. apply elem_of_rows in Hv. exact Hv.
    + rewrite !bool_decide_eq_false_2, bool_decide_eq_true_2 by done. done.
  - intros u l E.
    assert (account_at (cr_Phone req) d = Some u) as Hu by (unfold account_at; by rewrite E).
    apply account_at_Some in Hu as (Hrow & Hp & Hmin).
    apply holds_bind, holds_map_err. unfold UpdatePassword.
    apply holds_bind, holds_Update_where; [done|]. intros env now d'.
    cbn [us_ID us_PasswordHash us_Name]. pose proof (filter_rows_id (R := User) d (us_ID u)) as Ef.
    cbn [key User_table] in Ef. rewrite Ef, Hrow. clear Ef. cbn [update_rows].
    destruct (update_row _ _ _ _) as [d1|e|s] eqn:Eu; simpl; [|done..]. intros [= <-].
    apply update_row_Ok in Eu as (u' & ->%accept_User & _ & ->).
    apply holds_ret. cbn [after]. apply holds_ret. intros w [= <-].
    eexists. split_and!; [apply account_at_Some; split_and!|..].
    + rewrite row_at_put. by rewrite decide_True.
    + done.
    + intros v. rewrite row_at_put. case_decide as Ev; [by rewrite Ev|]. apply Hmin.
    + done.
    + done.
Qed.

Lemma holds_register h rq req d :
  holds (register h rq (Some req)) d (λ r d', ∀ rs, r = Ok rs →
    ∃ u, SessionOf rq u rs ∧ ∃ v, account_at (cr_Phone (rr_Credentials req)) d' = Some v ∧
      us_ID v = us_ID u ∧ password_ok v (cr_Password (rr_Credentials req)) = true).
Proof.
  unfold register. apply holds_bind. eapply holds_mono; [apply reads_bind_json|].
  intros [req'|e|s] d1 [-> Hreq]; cbn [after]; [|done..].
  destruct (Hreq req' eq_refl) as [[= ->] _]. cbv zeta. set (cred := rr_Credentials req').
  destruct (negb _); [by apply holds_fail|].
  apply holds_bind, holds_lift. destruct (ValidatePassword _); cbn [after]; [|done..].
  apply holds_bind. eapply (holds_mono _ _ (λ _ _, True)); [done|]. intros [role|e|s] d1 _; cbn [after]; [|done..].
  apply holds_bind. eapply holds_mono; [apply reads_map_err, reads_HashPassword|].
  intros [hash|e|s] d2 [-> Hpw]; cbn [after]; [|done..].
  apply holds_bind. eapply holds_mono; [by apply (ready_account_of cred role hash), Hpw|].
  intros [u|e|s] d2 Hu; cbn [after]; [|done..]. destruct (Hu u eq_refl) as (v & Hv & Hid & Hok).
  eapply holds_mono; [apply holds_session|]. intros r d3 [Hr Hk] rs ->. exists u. split; [exact Hr|].
  exists v. rewrite (account_at_keeps _ _ _ Hk). done.
Qed.

(** Without a failure of the database, a login on a ready account opens it. *)
Lemma login_ready h rq req env w v :
  env_fault env (w_tick w) = None → credentials_required req = true → iranianMobile (cr_Phone req) = true →
  account_at (cr_Phone req) (w_db w) = Some v → password_ok v (cr_Password req) = true →
  session_result rq v (login h rq (Some req) env w).1.
Proof.
  intros Hf Hreq Hphone Hv Hok. unfold login, bind_json. rewrite Hreq.
  unfold mbind at 1, M_bind at 1. cbn [mret M_ret]. rewrite Hphone. cbn [negb].
  unfold account_at in Hv. unfold mbind, M_bind, map_err, FindByPhone, First_where, stmt. rewrite Hf.
  destruct (sort_by _ _) as [|u l]; [done|]. injection Hv as ->. rewrite Hok. cbn [negb].
  apply (holds_run _ (λ r _, session_result rq v r)). cbn [w_db set_db].
  eapply holds_mono; [apply holds_session|]. by intros r d' [H _].
Qed.
End session.
