(* ===== verification/PanelSpec.v ===== *)
(** * The panels

    The calls of the requests, expenses, announcements, dashboard and
    notification endpoints as one system, what they may touch, and that they
    answer. *)

From S2P Require Import Prelude Golang Calendar Errors Models Store Schema Logic Notification Crypto Token AuthUser AuthHandlers BillingRepo BuildingRepo Http Maintenance PaymentRepo Expense Announcement Dashboard NotificationHandlers BuildingSpec AuthSpec AccountSpec.

(** ** The endpoints *)

(** The payload of a request is [None] when it does not decode. *)
Inductive PanelCall :=
  | PSubmitRequest (b : option SubmitInput)
  | PMyRequests
  | PMyRequest
  | PRequests
  | PRequest
  | PPatchRequest (b : option UpdateInput)
  | PCreateExpense (b : option ExpenseInput)
  | PExpenses
  | PExpense
  | PUpdateExpense (b : option ExpenseInput)
  | PDeleteExpense
  | PFinancialReport
  | PCreateAnnouncement (b : option AnnouncementInput)
  | PAnnouncements
  | PAnnouncement
  | PUpdateAnnouncement (b : option AnnouncementInput)
  | PDeleteAnnouncement
  | PMyAnnouncements
  | PMyAnnouncement
  | PMarkRead
  | PHome
  | PDashboard
  | PNotifications (page pageSize : option string)
  | PReadNotification
  | PReadAll.

(** The services behind the endpoints. *)
Record Services := MkServices {
  sv_Maintenance : MaintenanceService;
  sv_Announcement : AnnouncementService;
  sv_Dashboard : DashboardService;
}.

(** The status a handler answers with. *)
Definition status_of {A} (m : M (Reply A)) : M Z := r ← m; mret (reply_status r).

Definition serve_panel {codec : UuidCodec} {pusher : PushNotifier} {loc : Location}
    (sv : Services) (c : HttpCall) (call : PanelCall) : M Z :=
  match call with
  | PSubmitRequest b => status_of (submitResident (sv_Maintenance sv) c b)
  | PMyRequests => status_of (listResident c)
  | PMyRequest => status_of (getResident c)
  | PRequests => status_of (listForManager c)
  | PRequest => status_of (getForManager c)
  | PPatchRequest b => status_of (patchForManager (sv_Maintenance sv) c b)
  | PCreateExpense b => status_of (createExpense c b)
  | PExpenses => status_of (listExpenses c)
  | PExpense => status_of (getExpense c)
  | PUpdateExpense b => status_of (updateExpense c b)
  | PDeleteExpense => status_of (deleteExpense c)
  | PFinancialReport => status_of (financialReport c)
  | PCreateAnnouncement b => status_of (createForManager (sv_Announcement sv) c b)
  | PAnnouncements => status_of (listAnnouncementsForManager c)
  | PAnnouncement => status_of (getAnnouncementForManager c)
  | PUpdateAnnouncement b => status_of (updateForManager (sv_Announcement sv) c b)
  | PDeleteAnnouncement => status_of (deleteForManager (sv_Announcement sv) c)
  | PMyAnnouncements => status_of (listForResident c)
  | PMyAnnouncement => status_of (getForResident c)
  | PMarkRead => status_of (markRead c)
  | PHome => status_of (home (sv_Dashboard sv) c)
  | PDashboard => status_of (buildingDashboard c)
  | PNotifications page pageSize => status_of (list_notifications c page pageSize)
  | PReadNotification => status_of (mark_notification_read c)
  | PReadAll => status_of (readAll c)
  end.

(** A call of any endpoint, in any environment. *)
Inductive panel_step {codec : UuidCodec} {pusher : PushNotifier} {loc : Location} (sv : Services)
    : DB → DB → Prop :=
  | panel_call c call env w :
      panel_step sv (w_db w) (w_db (serve_panel sv c call env w).2).

(** ** What the calls touch *)

Lemma stays_ignore_err {A} R `{!PreOrder R} (m : M A) : Stays R m → Stays R (ignore_err m).
Proof.
  intros H. unfold ignore_err. apply stays_bind; [apply _|by apply stays_attempt|]. intros; stays_tac.
Qed.

Section keeps.
Context {codec : UuidCodec} {pusher : PushNotifier} {X : Type} (π : DB → X).
Context (Hnotif : Indep π Notification) (Haudit : ∀ l d, π (set_audit_logs l d) = π d).

Lemma keeps_Audit_Append a b c i x y : Stays (keeps π) (Audit_Append a b c i x y).
Proof. intros d. apply holds_Append; [done|]. intros l. apply Haudit. Qed.

Lemma keeps_notification u t ti bo rt ri :
  Stays (keeps π) (Notification_Create u t ti bo rt ri).
Proof. unfold Notification_Create. stays_tac. Qed.

Lemma keeps_notify_request s m t ti bo : Stays (keeps π) (notify_request s m t ti bo).
Proof.
  unfold notify_request. destruct (mt_Notif s); [|stays_tac].
  apply stays_ignore_err, keeps_notification. apply _.
Qed.

Lemma keeps_audit_request s a t b m : Stays (keeps π) (audit_request s a t b m).
Proof.
  unfold audit_request. destruct (mt_Audit s); [|stays_tac].
  apply stays_ignore_err, keeps_Audit_Append. apply _.
Qed.

Lemma keeps_audit_announcement s a t i b m : Stays (keeps π) (audit_announcement s a t i b m).
Proof.
  unfold audit_announcement. destruct (an_Audit s); [|stays_tac].
  apply stays_ignore_err, keeps_Audit_Append. apply _.
Qed.

Lemma keeps_notifyTargets s a : Stays (keeps π) (notifyTargets s a).
Proof.
  unfold notifyTargets. destruct (an_Notif s); [|stays_tac].
  apply stays_ignore_err; [apply _|].
  apply stays_bind; [apply _|unfold TargetUserIDs; stays_tac|]. intros ids.
  apply stays_for_each; [apply _|]. intros uid.
  apply stays_ignore_err, keeps_notification. apply _.
Qed.
End keeps.

(** [calls_tac]: [stays_tac], which opens the calls without a rule. *)
Ltac head_of t := lazymatch t with ?f _ => head_of f | _ => t end.

Ltac open_call m := let h := head_of m in unfold h; cbv beta.

Lemma stays_select_sum R `{!PreOrder R} f : Stays R (select_sum f).
Proof. apply (stays_read R (λ _ _ d, scan_int64 (f d))). Qed.

Ltac calls_step :=
  lazymatch goal with
  | |- Stays _ (select_sum _) => apply stays_select_sum
  | |- Stays _ (ignore_err _) => apply stays_ignore_err
  | |- Stays (keeps _) (Notification_Create _ _ _ _ _ _) => apply keeps_notification; apply _
  | |- Stays (keeps _) (notify_request _ _ _ _ _) => apply keeps_notify_request; apply _
  | |- Stays (keeps _) (notifyTargets _ _) => apply keeps_notifyTargets; apply _
  | |- Stays (keeps _) (audit_request _ _ _ _ _) => apply keeps_audit_request; intros; reflexivity
  | |- Stays (keeps _) (audit_announcement _ _ _ _ _ _) =>
      apply keeps_audit_announcement; intros; reflexivity
  | |- Stays _ ?m => first [stays_step | open_call m]
  | |- _ => stays_step
  end.
Ltac calls_tac := repeat calls_step.

(** ** The endpoints respect what their services respect *)

Section panel_stays.
Context {codec : UuidCodec} {pusher : PushNotifier} {loc : Location} {X : Type} (π : DB → X).
Context (R : relation DB) `{!PreOrder R} (HR : ∀ d d', keeps π d d' → R d d').
Context (Hnotif : Indep π Notification) (Haudit : ∀ l d, π (set_audit_logs l d) = π d).
Context (Hreads : ∀ m d, π (set_announcement_reads m d) = π d).
Context (Hsubmit : ∀ s u i, Stays R (Submit s u i)).
Context (Hpatch : ∀ s u id i, Stays R (Update_request s u id i)).
Context (Hrecord : ∀ u b i, Stays R (Create_expense u b i)).
Context (Hamend : ∀ u id i, Stays R (Update_expense u id i)).
Context (Hdrop : ∀ u id, Stays R (Delete_expense u id)).
Context (Hpublish : ∀ s u b i, Stays R (Create_for_building s u b i)).
Context (Hedit : ∀ s u id i, Stays R (Update_announcement s u id i)).
Context (Hremove : ∀ s u id, Stays R (Delete_announcement s u id)).

Lemma panel_leaf {A} (m : M A) : Stays (keeps π) m → Stays R m.
Proof. apply stays_mono, HR. Qed.

Lemma stays_mark_row a u : Stays R (MarkRead_row a u).
Proof.
  intros d. unfold MarkRead_row. apply holds_stmt; [reflexivity|]. intros env now.
  destruct (_ !! _); [reflexivity|]. apply HR, Hreads.
Qed.

Lemma stays_audited {A} a t c (m : M (Reply A * Audited)) : Stays R m → Stays R (audited a t c m).
Proof.
  intros H. unfold audited. apply stays_bind; [apply _|exact H|]. intros [r ad].
  apply stays_bind; [apply _| |intros; stays_tac]. unfold Audit_Middleware.
  destruct (_ >=? _); [stays_tac|]. apply stays_ignore_err, panel_leaf, keeps_Audit_Append, Haudit. apply _.
Qed.

Ltac panel_leaf_step :=
  lazymatch goal with
  | |- Stays _ (Submit _ _ _) => apply Hsubmit
  | |- Stays _ (Update_request _ _ _ _) => apply Hpatch
  | |- Stays _ (Create_expense _ _ _) => apply Hrecord
  | |- Stays _ (Update_expense _ _ _) => apply Hamend
  | |- Stays _ (Delete_expense _ _) => apply Hdrop
  | |- Stays _ (Create_for_building _ _ _ _) => apply Hpublish
  | |- Stays _ (Update_announcement _ _ _ _) => apply Hedit
  | |- Stays _ (Delete_announcement _ _ _) => apply Hremove
  | |- Stays _ (MarkRead_row _ _) => apply stays_mark_row
  | |- Stays _ (audited _ _ _ _) => apply stays_audited
  | |- Stays _ (Update_where _ _) => apply panel_leaf, keeps_Update_where; apply _
  | |- _ => calls_step
  end.

Lemma stays_panel sv c call : Stays R (serve_panel sv c call).
Proof. destruct call; unfold serve_panel; repeat panel_leaf_step. Qed.
End panel_stays.

(** ** The endpoints answer *)

Lemma answers_for_each {A} (f : A → M ()) l : (∀ a, Answers (f a)) → Answers (for_each f l).
Proof.
  intros H. induction l as [|x l IH]; simpl; [answers_tac|]. by apply answers_bind.
Qed.

Lemma answers_Transaction {A} (m : M A) : Answers m → Answers (Transaction m).
Proof.
  intros H d env w Hw. specialize (H d env w Hw). unfold Transaction.
  destruct (m env w) as [[a|e|s] w']; simpl in *; [|done|by destruct (H s)].
  by destruct (env_fault _ _).
Qed.

Lemma answers_stmt {A} (f : Env → Time → DB → Res (A * DB)) :
  (∀ env now d s, f env now d ≠ Panic s) → Answers (stmt f).
Proof.
  intros H d. apply holds_stmt; [done|]. intros env now. specialize (H env now d).
  destruct (f env now d) as [[a d']|e|s]; [done|done|by destruct (H s)].
Qed.

(** [visible[start:end]] is within bounds on every page that does not make the
    offset overflow. *)
Lemma answers_resident_rows {codec : UuidCodec} units now page size :
  page ≤ 2 ^ 56 → Answers (ListForResident_rows units now page size).
Proof.
  intros Hpage. unfold ListForResident_rows. case_bool_decide; [answers_tac|].
  destruct (normalizePage page size) as [p sz] eqn:E.
  assert (1 ≤ p ≤ 2 ^ 56 ∧ 1 ≤ sz ≤ 100) as [Hp Hs].
  { unfold normalizePage in E. injection E as <- <-.
    destruct (Z.ltb_spec page 1), (Z.ltb_spec size 1), (Z.gtb_spec size 100); simpl; lia. }
  apply answers_bind; [unfold visibleAnnouncements; answers_tac|]. intros visible. cbv zeta.
  assert (mul64 (sub64 p 1) sz = (p - 1) * sz) as ->.
  { unfold mul64, sub64. rewrite (wrap64_id (p - 1)) by (unfold in64; lia).
    apply wrap64_id. unfold in64. nia. }
  destruct (Z.geb_spec ((p - 1) * sz) (Z.of_nat (length visible))); [answers_tac|].
  rewrite add64_id by (unfold in64; nia).
  apply answers_bind; [|intros; answers_tac]. apply answers_lift. intros s. unfold slice.
  match goal with |- (if ?b then _ else _) ≠ _ => assert (b = true) as -> end; [|done].
  rewrite !andb_true_iff, !Z.leb_le.
  destruct (Z.gtb_spec ((p - 1) * sz + sz) (Z.of_nat (length visible))); nia.
Qed.

Ltac panel_answers_step :=
  lazymatch goal with
  | |- Answers (mbind _ _) => answers_step
  | |- Answers (mret _) => answers_step
  | |- Answers (for_each _ _) => apply answers_for_each; intros
  | |- Answers (Transaction _) => apply answers_Transaction
  | |- Answers (stmt _) => apply answers_stmt; intros; cbv zeta beta;
      repeat case_match; first [done | unfold scan_int64; case_match; done]
  | |- Answers (lift (of_sum _)) => answers_step
  | |- Answers (lift _) => apply answers_lift; intros;
      unfold submit_checks, cost_of, input_title, input_body, input_time; cbv zeta;
      repeat case_match; done
  | |- Answers (if _ then _ else _) => answers_step
  | |- Answers (match _ with _ => _ end) => answers_step
  | |- Answers (let _ := _ in _) => cbv zeta
  | |- Answers (ListForResident_rows _ _ _ _) => apply answers_resident_rows; auto
  | |- Answers ?m => first [answers_step | open_call m]
  end.

Section answers.
Context {codec : UuidCodec} {pusher : PushNotifier} {loc : Location}.

Lemma answers_panel sv c call :
  (call = PMyAnnouncements → page_param c ≤ 2 ^ 56) → Answers (serve_panel sv c call).
Proof.
  intros Hpage. destruct call; unfold serve_panel; repeat panel_answers_step.
Qed.
End answers.
