(* ===== verification/Server.v ===== *)
(** * The server

    [cmd/server/main.go] and the [Register] functions of the packages: the
    services as they are wired, the routes, and what stands in front of them. *)

From S2P Require Import Prelude Golang Calendar Errors Models Store Schema Logic Net Gateway Notification Crypto Token Invite Password AuthUser AuthHandlers BillingRepo BuildingRepo BuildingService Occupancy Calc Period PaymentRepo PaymentService Http Maintenance Expense Announcement Dashboard NotificationHandlers BuildingHandlers BillingHandlers PaymentHandlers Middleware Config PanelSpec.

(** ** Wiring *)

Record Server := MkServer {
  sv_Auth : Handler;
  sv_Payments : PaymentConfig;
  sv_Panels : Services;
  sv_Origins : list string;
}.

(** The services of [main] over a configuration. *)
Definition server_of (cfg : Config) : Server :=
  MkServer
    (MkHandler (MkTokenService (Auth_JWTSecret cfg) (Auth_AccessTTL cfg) (Auth_RefreshTTL cfg))
       true (negb (IsDev cfg)))
    (NewPaymentService (App_BaseURL cfg +:+ "/api/v1/payments/callback") (App_WebReturnURL cfg))
    (MkServices (MkMaintenanceService true true) (MkAnnouncementService true true)
       (MkDashboardService true true))
    (CORS_AllowedOrigins cfg).

(** The gateway: anything but "zarinpal" is the mock. *)
Definition gateway_of {api : ZarinpalAPI} (cfg : Config) : PaymentGateway :=
  if bool_decide (Payment_Provider cfg = "zarinpal")
  then ZarinpalGateway (MkZarinpal (Zarinpal_MerchantID cfg) (Zarinpal_Sandbox cfg))
  else MockGateway.

(** ** Routes *)

(** [building.Register] and [RegisterOccupancy]. *)
Inductive RegistryCall :=
  | RListBuildings
  | RCreateBuilding (b : option BuildingInput)
  | RGetBuilding
  | RUpdateBuilding (b : option BuildingInput)
  | RDeleteBuilding
  | RListUnits
  | RCreateUnit (b : option UnitInput)
  | RListManagers
  | RGrantManager (phone : option string)
  | RRevokeManager
  | RGetUnit
  | RUpdateUnit (b : option UnitInput)
  | RDeleteUnit
  | RUnitHistory
  | RListPersons
  | RCreatePerson (b : option PersonInput)
  | RUpdatePerson (b : option PersonInput)
  | RDeletePerson
  | RListOccupancies
  | RAddOccupancy (b : option OccupancyInput)
  | REndOccupancy (b : option Time)
  | RListOccupantCounts
  | RRecordOccupantCount (b : option OccupantCountInput).

(** [billing.Register]. *)
Inductive BillingCall :=
  | BListPeriods
  | BCreatePeriod (b : option PeriodInput)
  | BGetPeriod
  | BUpdatePeriod (b : option PeriodInput)
  | BListCostItems
  | BAddCostItem (b : option CostItemInput)
  | BUpdateCostItem (b : option CostItemInput)
  | BDeleteCostItem
  | BCalculate
  | BPreview
  | BReopen
  | BIssue
  | BClose
  | BListInvoices
  | BGetInvoice
  | BCancelInvoice (reason : option string)
  | BAddAdjustment (b : option AdjustmentInput)
  | BMyInvoices
  | BMyInvoice.

(** [payment.Register], without the public callback. *)
Inductive PaymentCall :=
  | PayRecord (b : option ManualPaymentInput)
  | PayStart (b : StartBody)
  | PayLedger
  | PayMine
  | PayBalance.

Inductive ServerCall :=
  | SAuth (call : AuthCall)
  | SRegistry (call : RegistryCall)
  | SBilling (call : BillingCall)
  | SPayment (call : PaymentCall)
  | SCallback
  | SPanel (call : PanelCall)
  | SHealth
  | SNoRoute.

(** A request: its method, the headers of [auth], the origin, the parameters. *)
Record ServerRequest := MkServerRequest {
  sr_Method : string;
  sr_Headers : Request;
  sr_Param : string → string;
  sr_Query : string → string;
}.

(** What the services need that the code does not bring along. *)
Section server.
Context {codec : UuidCodec} {jwt : JwtLibrary} {bcrypt : Bcrypt} {unicode : UnicodeTables}.
Context {map_order : MapOrder} {pusher : PushNotifier} {gateway : PaymentGateway}.
Context {loc : Location} {dates : RequiredDates}.

#[local] Existing Instances PaymentBalances PaymentHook.

Definition serve_registry (c : HttpCall) (call : RegistryCall) : M Z :=
  match call with
  | RListBuildings => status_of (listBuildings c)
  | RCreateBuilding b => status_of (createBuilding c b)
  | RGetBuilding => status_of (getBuilding c)
  | RUpdateBuilding b => status_of (updateBuilding c b)
  | RDeleteBuilding => status_of (deleteBuilding c)
  | RListUnits => status_of (listUnits c)
  | RCreateUnit b => status_of (createUnit c b)
  | RListManagers => status_of (listManagers c)
  | RGrantManager b => status_of (grantManager c b)
  | RRevokeManager => status_of (revokeManager c)
  | RGetUnit => status_of (getUnit c)
  | RUpdateUnit b => status_of (updateUnit c b)
  | RDeleteUnit => status_of (deleteUnit c)
  | RUnitHistory => status_of (unitHistory c)
  | RListPersons => status_of (listPersons c)
  | RCreatePerson b => status_of (createPerson c b)
  | RUpdatePerson b => status_of (updatePerson c b)
  | RDeletePerson => status_of (deletePerson c)
  | RListOccupancies => status_of (listOccupancies c)
  | RAddOccupancy b => status_of (addOccupancy c b)
  | REndOccupancy b => status_of (endOccupancy c b)
  | RListOccupantCounts => status_of (listOccupantCounts c)
  | RRecordOccupantCount b => status_of (recordOccupantCount c b)
  end.

Definition serve_billing (c : HttpCall) (call : BillingCall) : M Z :=
  match call with
  | BListPeriods => status_of (listPeriods c)
  | BCreatePeriod b => status_of (createPeriod c b)
  | BGetPeriod => status_of (getPeriod c)
  | BUpdatePeriod b => status_of (updatePeriod c b)
  | BListCostItems => status_of (listCostItems c)
  | BAddCostItem b => status_of (addCostItem c b)
  | BUpdateCostItem b => status_of (updateCostItem c b)
  | BDeleteCostItem => status_of (deleteCostItem c)
  | BCalculate => status_of (calculate c)
  | BPreview => status_of (preview c)
  | BReopen => status_of (reopen c)
  | BIssue => status_of (issue c)
  | BClose => status_of (close c)
  | BListInvoices => status_of (listBuildingInvoices c)
  | BGetInvoice => status_of (getInvoice c)
  | BCancelInvoice b => status_of (cancelInvoice c b)
  | BAddAdjustment b => status_of (addAdjustment c b)
  | BMyInvoices => status_of (myInvoices c)
  | BMyInvoice => status_of (myInvoice c)
  end.

Definition serve_payment (cfg : PaymentConfig) (c : HttpCall) (call : PaymentCall) : M Z :=
  match call with
  | PayRecord b => status_of (recordManual c b)
  | PayStart b => status_of (startGateway cfg c b)
  | PayLedger => status_of (buildingLedger c)
  | PayMine => status_of (myPayments c)
  | PayBalance => status_of (unitBalance c)
  end.

(** ** In front of the handlers *)

Context (sv : Server).

Definition call_as (rq : ServerRequest) (u : option User) : HttpCall :=
  MkHttpCall u (sr_Param rq) (sr_Query rq).

(** A middleware that refuses answers with its error; else the handler runs for
    the user it found. *)
Definition guarded (check : M User) (k : User → M Z) : M Z :=
  r ← attempt check;
  match r with
  | inl u => k u
  | inr e => mret (ae_Status (WriteError e))
  end.

(** [authMW]. *)
Definition authenticated (rq : ServerRequest) (k : HttpCall → M Z) : M Z :=
  guarded (Authenticate (h_Tokens (sv_Auth sv)) (rq_Authorization (sr_Headers rq)))
    (λ u, k (call_as rq (Some u))).

(** [authMW] and [RequireRole(manager)], in front of the registry. *)
Definition for_managers (rq : ServerRequest) (k : HttpCall → M Z) : M Z :=
  guarded (u ← Authenticate (h_Tokens (sv_Auth sv)) (rq_Authorization (sr_Headers rq));
           RequireRole [RoleManager] (Some u))
    (λ u, k (call_as rq (Some u))).

Definition route (rq : ServerRequest) (call : ServerCall) : M Z :=
  match call with
  | SAuth call => rs ← serve (sv_Auth sv) (sr_Headers rq) call; mret (rs_Status rs)
  | SRegistry call => for_managers rq (λ c, serve_registry c call)
  | SBilling call => authenticated rq (λ c, serve_billing c call)
  | SPayment call => authenticated rq (λ c, serve_payment (sv_Payments sv) c call)
  | SCallback => status_of (gatewayCallback (sv_Payments sv) (call_as rq None))
  | SPanel call => authenticated rq (λ c, serve_panel (sv_Panels sv) c call)
  | SHealth => mret 200
  | SNoRoute => mret (ae_Status no_route)
  end.

(** The whole stack: a preflight is answered before any route. *)
Definition handle_request (rq : ServerRequest) (call : ServerCall) : M Z :=
  Recovery ae_Status (if preflight (sr_Method rq) then mret 204 else route rq call).

(** A request, in any environment. *)
Inductive server_step : DB → DB → Prop :=
  | server_request rq call env w :
      server_step (w_db w) (w_db (handle_request rq call env w).2).
End server.
