(* ===== verification/Process.v ===== *)
(** * The processes

    [cmd/server/main.go], [cmd/migrate/main.go] and [platform/db/db.go]: what is
    done before the first request, the stack around every request, the routes of
    the stored files, and the end. *)

From S2P Require Import Prelude Golang Calendar Errors Models Store Schema Logic Net Gateway Notification Crypto Token Invite Password AuthUser AuthHandlers PaymentService Http PaymentHandlers BillingHandlers Middleware Config Storage PanelSpec Server.

(** ** Logging *)

Inductive LogHandler := TextHandler | JSONHandler.

(** [slog.Logger]: its handler, and whether it writes what is logged at debug level. *)
Record Logger := MkLogger { lg_Handler : LogHandler; lg_Debug : bool }.

Definition newLogger (env : string) : Logger :=
  if bool_decide (env = "production") then MkLogger JSONHandler false else MkLogger TextHandler true.

Record LogRecord := MkLogRecord {
  lr_Level : LogLevel;
  lr_Message : string;
  lr_Attrs : list (string * string);
}.

Definition log_Error (msg : string) (e : GoError) : LogRecord :=
  MkLogRecord LevelError msg [("error", Error e)].

(** [logWriter.Printf], the text formatted. *)
Definition logWriter_Printf (text : string) : LogRecord := MkLogRecord LevelWarn text [].

(** ** The database *)

(** The drivers and the migration library are not the code's own. A handle of
    [database/sql] is a number; [pg_Open] are the handles that are open,
    [pg_Version] is the version of the schema, [pg_Latest] the one that the files
    in the directory of the migrations lead to. *)
Class PostgresDrivers := {
  PgState : Type;
  pg_Open : PgState → gset nat;
  pg_Version : PgState → nat;
  pg_Latest : nat;
  gorm_Open : string → PgState → (nat + GoError) * PgState;
  gorm_DB : nat → PgState → option GoError * PgState;
  sql_Ping : nat → PgState → option GoError * PgState;
  sql_Open : string → string → PgState → (nat + GoError) * PgState;
  sql_Close : nat → PgState → PgState;
  migratepg_WithInstance : nat → PgState → option GoError * PgState;
  migrate_NewWithDatabaseInstance : string → nat → PgState → option GoError * PgState;
  migrate_Up : nat → PgState → option GoError * PgState;
  migrate_Close : nat → PgState → PgState;
  migrate_ErrNoChange : GoError;
}.

(** What their documentation promises: an opened handle is a new one, a closed
    one is gone, the other calls open and close nothing, and only [Up] moves the
    schema, forward, to the latest version unless it reports an error that is not
    [ErrNoChange]. *)
Class DriversOk {drivers : PostgresDrivers} : Prop := {
  gorm_Open_ok dsn s : match gorm_Open dsn s with
    | (inl h, s') => h ∉ pg_Open s ∧ pg_Open s' = {[h]} ∪ pg_Open s ∧ pg_Version s' = pg_Version s
    | (inr _, s') => pg_Open s ⊆ pg_Open s' ∧ pg_Version s' = pg_Version s
    end;
  gorm_DB_ok h s : pg_Open (gorm_DB h s).2 = pg_Open s ∧ pg_Version (gorm_DB h s).2 = pg_Version s;
  sql_Ping_ok h s : pg_Open (sql_Ping h s).2 = pg_Open s ∧ pg_Version (sql_Ping h s).2 = pg_Version s;
  sql_Open_ok driver dsn s : match sql_Open driver dsn s with
    | (inl h, s') => h ∉ pg_Open s ∧ pg_Open s' = {[h]} ∪ pg_Open s ∧ pg_Version s' = pg_Version s
    | (inr _, s') => pg_Open s' = pg_Open s ∧ pg_Version s' = pg_Version s
    end;
  sql_Close_ok h s : pg_Open (sql_Close h s) = pg_Open s ∖ {[h]} ∧ pg_Version (sql_Close h s) = pg_Version s;
  WithInstance_ok h s : pg_Open (migratepg_WithInstance h s).2 = pg_Open s ∧
    pg_Version (migratepg_WithInstance h s).2 = pg_Version s;
  NewWithDatabaseInstance_ok url h s : pg_Open (migrate_NewWithDatabaseInstance url h s).2 = pg_Open s ∧
    pg_Version (migrate_NewWithDatabaseInstance url h s).2 = pg_Version s;
  Up_ok h s : pg_Open (migrate_Up h s).2 = pg_Open s ∧
    (pg_Version s ≤ pg_Version (migrate_Up h s).2)%nat ∧
    (pg_Version s ≤ pg_Latest → pg_Version (migrate_Up h s).2 ≤ pg_Latest)%nat ∧
    match (migrate_Up h s).1 with
    | Some e => errors_Is e migrate_ErrNoChange = true → pg_Version (migrate_Up h s).2 = pg_Latest
    | None => pg_Version (migrate_Up h s).2 = pg_Latest
    end;
  migrate_Close_ok h s : pg_Open (migrate_Close h s) = pg_Open s ∖ {[h]} ∧
    pg_Version (migrate_Close h s) = pg_Version s;
}.

Section db.
Context {drivers : PostgresDrivers}.

(** [Connect]: the pool, or the error. The limits of the pool are not modelled. *)
Definition Connect (dsn : string) (s : PgState) : (nat + GoError) * PgState :=
  let '(opened, s) := gorm_Open dsn s in
  match opened with
  | inr e => (inr (EWrap "open postgres: " e ""), s)
  | inl pool =>
      let '(err, s) := gorm_DB pool s in
      match err with
      | Some e => (inr (EWrap "underlying sql db: " e ""), s)
      | None =>
          let '(err, s) := sql_Ping pool s in
          match err with
          | Some e => (inr (EWrap "ping postgres: " e ""), s)
          | None => (inl pool, s)
          end
      end
  end.

(** [Migrate]: over a handle of its own, which [m.Close] closes too. *)
Definition Migrate (dsn dir : string) (s : PgState) : option GoError * PgState :=
  let '(opened, s) := sql_Open "pgx" dsn s in
  match opened with
  | inr e => (Some (EWrap "open migrate connection: " e ""), s)
  | inl h =>
      let '(err, s) := migratepg_WithInstance h s in
      match err with
      | Some e => (Some (EWrap "init migrate driver: " e ""), sql_Close h s)
      | None =>
          let '(err, s) := migrate_NewWithDatabaseInstance ("file://" +:+ dir) h s in
          match err with
          | Some e => (Some (EWrap ("init migrate (dir=" +:+ dir +:+ "): ") e ""), sql_Close h s)
          | None =>
              let '(err, s) := migrate_Up h s in
              (match err with
               | Some e => if errors_Is e migrate_ErrNoChange then None
                           else Some (EWrap "apply migrations: " e "")
               | None => None
               end, migrate_Close h s)
          end
      end
  end.

(** ** [main] of the two commands *)

(** How far [main] of the server gets before it listens. *)
Inductive Startup :=
  | Exit1 (log : LogRecord)
  | Listening (cfg : Config) (pool : nat)
  | Crashed (panic : string).

Definition server_main (os : OS) (s : PgState) : Startup * PgState :=
  match Load os with
  | Panic x => (Crashed x, s)
  | Err e => (Exit1 (log_Error "failed to load config" e), s)
  | Ok cfg =>
      let '(connected, s) := Connect (DB_DSN cfg) s in
      match connected with
      | inr e => (Exit1 (log_Error "failed to connect to database" e), s)
      | inl pool =>
          let '(err, s) := gorm_DB pool s in
          match err with
          | Some e => (Exit1 (log_Error "failed to access database handle" e), s)
          | None =>
              let '(err, s) := if DB_AutoMigrate cfg then Migrate (DB_DSN cfg) "migrations" s
                               else (None, s) in
              match err with
              | Some e => (Exit1 (log_Error "failed to run migrations" e), s)
              | None => (Listening cfg pool, s)
              end
          end
      end
  end.

(** The exit code and the last line of the log. *)
Definition migrate_main (os : OS) (s : PgState) : Res (Z * LogRecord) * PgState :=
  match Load os with
  | Panic x => (Panic x, s)
  | Err e => (Ok (1, log_Error "failed to load config" e), s)
  | Ok cfg =>
      let '(err, s) := Migrate (DB_DSN cfg) "migrations" s in
      (Ok match err with
          | Some e => (1, log_Error "failed to run migrations" e)
          | None => (0, MkLogRecord LevelInfo "migrations applied" [("dsn_host_db", DB_DSN cfg)])
          end, s)
  end.
End db.

(** ** The stack around a request *)

(** What [Logger] writes of a request. *)
Record AccessLine := MkAccessLine {
  al_Level : LogLevel;
  al_RequestID : string;
  al_Method : string;
  al_Status : Z;
}.

Record HttpResponse (A : Type) := MkHttpResponse {
  hr_RequestID : string;
  hr_Cors : CorsHeaders;
  hr_Answer : A;
  hr_Line : AccessLine;
}.
Arguments MkHttpResponse {A}.
Arguments hr_RequestID {A}.
Arguments hr_Cors {A}.
Arguments hr_Answer {A}.
Arguments hr_Line {A}.

(** The headers the stack reads. *)
Record StackHeaders := MkStackHeaders { sh_RequestID : string; sh_Origin : string }.

(** [NewRouter]: [RequestID], [Logger], [Recovery] and [CORS] around a call, the
    last two inside of [m]. *)
Definition NewRouter {codec : UuidCodec} {tables : CaseTables} {A} (status : A → Z)
    (origins : list string) (method : string) (hs : StackHeaders) (m : M A) : M (HttpResponse A) :=
  id ← RequestID (sh_RequestID hs);
  a ← m;
  mret (MkHttpResponse id (CORS origins (sh_Origin hs)) a
          (MkAccessLine (log_level (status a)) id method (status a))).

(** ** The stored files *)

(** [storage.Register]. *)
Inductive FileCall := FUpload (form : FormFile) | FDownload.

Inductive FileReply :=
  | Uploaded (rep : Reply (UUID * string))
  | Downloaded (rep : Reply FileAnswer)
  | FileRefused (e : AppError)
  | NoContent.

Definition file_status (r : FileReply) : Z :=
  match r with
  | Uploaded rep => reply_status rep
  | Downloaded rep => reply_status rep
  | FileRefused e => ae_Status e
  | NoContent => 204
  end.

Section files.
Context {codec : UuidCodec} {jwt : JwtLibrary} {sniffer : ContentSniffer}.

Definition serve_files (store : StorageService) (faults : DiskFaults) (c : HttpCall) (call : FileCall)
    (disk : Disk) : M (FileReply * Disk) :=
  match call with
  | FUpload form => '(rep, disk) ← uploadHandler store faults c form disk; mret (Uploaded rep, disk)
  | FDownload => rep ← downloadHandler c disk; mret (Downloaded rep, disk)
  end.

(** Behind [authMW]. *)
Definition route_files (sv : Server) (store : StorageService) (faults : DiskFaults)
    (rq : ServerRequest) (call : FileCall) (disk : Disk) : M (FileReply * Disk) :=
  r ← attempt (Authenticate (h_Tokens (sv_Auth sv)) (rq_Authorization (sr_Headers rq)));
  match r with
  | inl u => serve_files store faults (call_as rq (Some u)) call disk
  | inr e => mret (FileRefused (WriteError e), disk)
  end.

Definition handle_files (sv : Server) (store : StorageService) (faults : DiskFaults)
    (rq : ServerRequest) (call : FileCall) (disk : Disk) : M (FileReply * Disk) :=
  Recovery (λ e, (FileRefused e, disk))
    (if preflight (sr_Method rq) then mret (NoContent, disk)
     else route_files sv store faults rq call disk).
End files.

(** ** The machine *)

(** A process that is up has its configuration and its pool. *)
Inductive Phase :=
  | Down (code : option Z)
  | Up (cfg : Config) (pool : nat).

(** What happens to it. *)
Inductive Event :=
  | EvStart (os : OS)
  | EvMigrate (os : OS)
  | EvRequest (hs : StackHeaders) (rq : ServerRequest) (call : ServerCall) (env : Env)
  | EvFile (hs : StackHeaders) (rq : ServerRequest) (call : FileCall) (faults : DiskFaults) (env : Env)
  | EvKill (hs : StackHeaders) (rq : ServerRequest) (call : ServerCall) (env : Env) (n : nat)
  | EvKillFile (hs : StackHeaders) (rq : ServerRequest) (call : FileCall) (faults : DiskFaults)
      (env : Env) (n : nat)
  | EvListenFailed
  | EvSignal (shutdown : option GoError).

Section machine.
Context {drivers : PostgresDrivers}.

(** The directories of stored files by their path. *)
Record Machine := MkMachine {
  m_Phase : Phase;
  m_World : World;
  m_Disks : gmap string Disk;
  m_Pg : PgState;
}.

Context {codec : UuidCodec} {jwt : JwtLibrary} {bcrypt : Bcrypt} {unicode : UnicodeTables}.
Context {map_order : MapOrder} {api : ZarinpalAPI} {loc : Location} {dates : RequiredDates}.
Context {tables : CaseTables} {sniffer : ContentSniffer}.

#[local] Existing Instance NoopNotifier.

(** The gateway and the services are those of the configuration; the notifier is
    [NoopNotifier]. *)
Definition respond (cfg : Config) (hs : StackHeaders) (rq : ServerRequest) (call : ServerCall)
    : M (HttpResponse Z) :=
  NewRouter id (CORS_AllowedOrigins cfg) (sr_Method rq) hs
    (handle_request (gateway := gateway_of cfg) (server_of cfg) rq call).

Definition disk_at (path : string) (disks : gmap string Disk) : Disk := default ∅ (disks !! path).

Definition respond_files (cfg : Config) (hs : StackHeaders) (rq : ServerRequest) (call : FileCall)
    (faults : DiskFaults) (disk : Disk) : M (HttpResponse (FileReply * Disk)) :=
  NewRouter (file_status ∘ fst) (CORS_AllowedOrigins cfg) (sr_Method rq) hs
    (handle_files (server_of cfg) (NewStorage (Storage_Path cfg) 0) faults rq call disk).

(** A process starts with a mock gateway as [NewMock] makes it. *)
Definition fresh_mock (w : World) : World := MkWorld (w_db w) (MkMock false false) (w_tick w).

(** What a process that is killed leaves of a call: its statements and its
    transactions from tick [n] on have no effect. *)
Definition dying (n : nat) (env : Env) : Env :=
  MkEnv (env_now env) (env_uuid env) (env_rand env)
    (λ t, if (t <? n)%nat then env_fault env t else Some (EText "killed"))
    (env_numeric env) (env_collate env) (env_ilike env).

(** The machine after a request, in the given phase. *)
Definition served (cfg : Config) (hs : StackHeaders) (rq : ServerRequest) (call : ServerCall)
    (env : Env) (phase : Phase) (m : Machine) : Machine :=
  MkMachine phase (respond cfg hs rq call env (m_World m)).2 (m_Disks m) (m_Pg m).

Definition served_files (cfg : Config) (hs : StackHeaders) (rq : ServerRequest) (call : FileCall)
    (faults : DiskFaults) (env : Env) (phase : Phase) (m : Machine) : Machine :=
  let path := Storage_Path cfg in
  let '(r, w) := respond_files cfg hs rq call faults (disk_at path (m_Disks m)) env (m_World m) in
  MkMachine phase w
    match r with
    | Ok resp => <[path := (hr_Answer resp).2]> (m_Disks m)
    | _ => m_Disks m
    end (m_Pg m).

(** An event and the state after it; none for an event the phase does not have.
    On a signal the calls under way are finished and the pool is closed, whatever
    [Shutdown] reports; a listener that fails exits at once. *)
Definition step (m : Machine) (ev : Event) : option Machine :=
  match ev, m_Phase m with
  | EvStart os, Down _ =>
      let '(started, pg) := server_main os (m_Pg m) in
      Some (MkMachine
        match started with
        | Listening cfg pool => Up cfg pool
        | Exit1 _ => Down (Some 1)
        | Crashed _ => Down (Some 2)
        end (fresh_mock (m_World m)) (m_Disks m) pg)
  | EvMigrate os, phase =>
      Some (MkMachine phase (m_World m) (m_Disks m) (migrate_main os (m_Pg m)).2)
  | EvRequest hs rq call env, Up cfg pool => Some (served cfg hs rq call env (Up cfg pool) m)
  | EvFile hs rq call faults env, Up cfg pool =>
      Some (served_files cfg hs rq call faults env (Up cfg pool) m)
  | EvKill hs rq call env n, Up cfg pool => Some (served cfg hs rq call (dying n env) (Down None) m)
  | EvKillFile hs rq call faults env n, Up cfg pool =>
      Some (served_files cfg hs rq call faults (dying n env) (Down None) m)
  | EvListenFailed, Up cfg pool => Some (MkMachine (Down (Some 1)) (m_World m) (m_Disks m) (m_Pg m))
  | EvSignal _, Up cfg pool =>
      Some (MkMachine (Down (Some 0)) (m_World m) (m_Disks m) (sql_Close pool (m_Pg m)))
  | _, _ => None
  end.

(** Some events of [P], one after the other. *)
Definition steps (P : Machine → Event → Prop) : relation Machine :=
  rtc (λ m m', ∃ ev, P m ev ∧ step m ev = Some m').

Definition any_event : Machine → Event → Prop := λ _ _, True.
End machine.
