(* ===== verification/RequestSpec.v ===== *)
(** * The life of a maintenance request

    What a call may do to the requests that are stored: the workflow. *)

From S2P Require Import Prelude Golang Calendar Errors Models Store Schema Logic Notification Crypto Token AuthUser AuthHandlers BillingRepo BuildingRepo Http Maintenance PaymentRepo Expense Announcement BuildingSpec AuthSpec AccountSpec PanelSpec.

(** The part of a request that no call changes. *)
Definition submitted (m : MaintenanceRequest) :=
  (mr_ID m, mr_BuildingID m, mr_UnitID m, mr_SubmittedBy m, mr_Title m, mr_Category m,
   (mr_Description m, mr_Location m, mr_PhotoFile m, mr_Priority m, mr_CreatedAt m)).

Definition moves (s s' : string) : Prop := canTransition s s' = true.

(** A later state of a request: the same submission, further along the
    workflow, and closed once. *)
Record Later (m m' : MaintenanceRequest) : Prop := {
  lt_same : submitted m' = submitted m;
  lt_moves : rtc moves (mr_Status m) (mr_Status m');
  lt_closed : mr_Status m = StatusClosed → mr_ClosedAt m' = mr_ClosedAt m;
}.

Lemma closed_terminal s : ¬ moves StatusClosed s.
Proof.
  unfold moves, canTransition. intros H%bool_decide_eq_true_1.
  vm_compute in H. by apply elem_of_nil in H.
Qed.

#[export] Instance Later_preorder : PreOrder Later.
Proof.
  split; [by intros m; split|]. intros a b c H1 H2. split.
  - by rewrite (lt_same _ _ H2), (lt_same _ _ H1).
  - etransitivity; [apply (lt_moves _ _ H1)|apply (lt_moves _ _ H2)].
  - intros Hc. rewrite <- (lt_closed _ _ H1 Hc). apply (lt_closed _ _ H2).
    pose proof (lt_moves _ _ H1) as Hm. rewrite Hc in Hm.
    inversion Hm as [|? y ? H]; [done|]. by apply closed_terminal in H.
Qed.

(** A well-formed request. *)
Record RequestOk (m : MaintenanceRequest) : Prop := {
  rq_title : mr_Title m ≠ "" ∧ rune_count (mr_Title m) ≤ 150;
  rq_category : mr_Category m ∈ validCategories;
  rq_priority : mr_Priority m ∈ validPriorities;
  rq_status : mr_Status m ∈ validStatuses;
  rq_unit : is_Some (mr_UnitID m);
  rq_closed : is_Some (mr_ClosedAt m) ↔ mr_Status m = StatusClosed;
  rq_cost : ∀ cost, mr_RecordedCost m = Some cost → 0 ≤ cost;
}.

Lemma accept_request env d (m m' : MaintenanceRequest) : accept env d m = Ok m' → m' = m.
Proof.
  cbn -[require mbind]. rewrite !require_Ok. intros (_ & _ & _ & _ & H). congruence.
Qed.

(** No request is lost, each moves along [Later], and well-formed ones make
    well-formed ones. *)
Notation RequestsStep := (HistoryStep Later RequestOk).

(** ** Submitting *)

Lemma submit_checks_ok i t c p : submit_checks i = Ok (t, c, p) →
  (t ≠ "" ∧ rune_count t ≤ 150) ∧ c ∈ validCategories ∧ p ∈ validPriorities.
Proof.
  unfold submit_checks. cbv zeta.
  repeat match goal with |- context [if ?b then _ else _] => destruct b eqn:?; [done|] end.
  intros [= <- <- <-].
  repeat match goal with
  | H : bool_decide _ = false |- _ => apply bool_decide_eq_false in H
  | H : negb _ = false |- _ => apply negb_false_iff, bool_decide_eq_true in H
  | H : _ || _ = false |- _ => apply orb_false_iff in H as [? ?]
  end.
  split_and!; [done|lia|done|]. by destruct (bool_decide _).
Qed.

Section requests.
Context {codec : UuidCodec} {pusher : PushNotifier}.

Ltac leaf_tac := apply (history_leaf (T := MaintenanceRequest)); calls_tac.

Lemma steps_Submit s u i : Stays RequestsStep (Submit s u i).
Proof.
  unfold Submit. intros d. apply holds_bind, holds_lift.
  destruct (submit_checks i) as [[[t c] p]|e|x] eqn:Ec; cbn [after]; [|reflexivity..].
  apply submit_checks_ok in Ec as (Ht & Hc & Hp). revert d.
  apply stays_bind; [apply _|leaf_tac|]. intros photo.
  apply stays_bind; [apply _|leaf_tac|]. intros [[b un]|]; [|leaf_tac].
  apply stays_bind; [apply _|leaf_tac|]. intros now.
  apply stays_bind; [apply _|leaf_tac|]. intros id.
  apply stays_bind; [apply _| |intros m; leaf_tac]. unfold Create_request.
  apply (history_Create _ _ accept_request). intros env d t0 _.
  split; cbn; [done..|apply list_elem_of_here|done| |done].
  split; [by intros [? ?]|intros H; discriminate H].
Qed.

(** ** Updating *)

Lemma reads_managed_request u id d :
  reads (managed_request u id) d (λ m, row_at d id = Some m).
Proof.
  unfold managed_request. eapply reads_bind.
  { apply reads_map_err, (reads_First_id id d (λ m, row_at d id = Some m)). auto. }
  intros m Hm. eapply (reads_bind _ _ _ (λ _, True)); [by apply reads_query|].
  intros ok _. destruct (negb ok); [apply reads_fail|by apply reads_ret].
Qed.

Lemma status_later (m : MaintenanceRequest) next closed :
  canTransition (mr_Status m) next = true →
  next ∈ validStatuses →
  (next = StatusClosed → is_Some closed) → (next ≠ StatusClosed → closed = mr_ClosedAt m) →
  let m' := MkMaintenanceRequest (mr_ID m) (mr_BuildingID m) (mr_UnitID m) (mr_SubmittedBy m)
    (mr_Title m) (mr_Category m) (mr_Description m) (mr_Location m) (mr_PhotoFile m)
    (mr_Priority m) next (mr_AssigneePersonID m) (mr_RecordedCost m) (mr_Notes m)
    (mr_CreatedAt m) (mr_UpdatedAt m) closed in
  Later m m' ∧ (RequestOk m → RequestOk m').
Proof.
  intros Hc Hv Hclosed Hopen m'.
  assert (mr_Status m ≠ StatusClosed) as Hne.
  { intros E. rewrite E in Hc. by apply (closed_terminal next). }
  split.
  - split; [done|by apply rtc_once|done].
  - intros [Ht Hcat Hp _ Hu Hcl Hcost]. split; try done. cbn. split.
    + intros Hs. destruct (decide (next = StatusClosed)) as [->|Hn]; [done|].
      rewrite (Hopen Hn) in Hs. by apply Hcl in Hs.
    + apply Hclosed.
Qed.

Lemma reads_apply_status m st d :
  reads (apply_status m st) d (λ r, Later m r.1 ∧ (RequestOk m → RequestOk r.1)).
Proof.
  unfold apply_status. destruct st as [st|]; [|by apply reads_ret]. cbv zeta.
  destruct (_ || _) eqn:Hv; [apply reads_fail|].
  apply orb_false_iff in Hv as [_ Hv%negb_false_iff%bool_decide_eq_true].
  case_bool_decide as Hsame; [by apply reads_ret|].
  destruct (canTransition _ _) eqn:Hc; cbn [negb]; [|apply reads_fail].
  eapply (reads_bind _ _ _ (λ closed, (TrimSpace st = StatusClosed → is_Some closed) ∧
    (TrimSpace st ≠ StatusClosed → closed = mr_ClosedAt m))).
  - case_bool_decide; [|by apply reads_ret].
    eapply (reads_bind _ _ _ (λ _, True)); [by apply holds_now|]. intros now _. by apply reads_ret.
  - intros closed [H1 H2]. apply reads_ret. by apply status_later.
Qed.

Lemma cost_of_ok m c cost : cost_of m c = Ok cost →
  (∀ x, mr_RecordedCost m = Some x → 0 ≤ x) → ∀ x, cost = Some x → 0 ≤ x.
Proof.
  unfold cost_of. destruct c as [c|]; [|intros [= <-]; auto]. cbv zeta.
  destruct (_ || _); [by intros [= <-] _|]. destruct (ParseInt _) as [z|]; [|done].
  destruct (Z.ltb_spec z 0); [done|]. intros [= <-] _ x [= <-]. lia.
Qed.

Lemma details_later m a c n now cost :
  (RequestOk m → ∀ x, cost = Some x → 0 ≤ x) → c = cost →
  Later m (with_details a c n now m) ∧ (RequestOk m → RequestOk (with_details a c n now m)).
Proof.
  intros Hcost ->. split; [by split|]. intros H. specialize (Hcost H). by destruct H.
Qed.

Lemma steps_Update s u id i : Stays RequestsStep (Update_request s u id i).
Proof.
  intros d. unfold Update_request. apply holds_bind.
  eapply holds_mono; [apply reads_managed_request|].
  intros [before|e|x] d1 [-> Hrow]; cbn [after]; [|reflexivity..]. specialize (Hrow before eq_refl).
  apply holds_bind. eapply holds_mono; [apply reads_apply_status|].
  intros [[m changed]|e|x] d1 [-> Hm]; cbn [after]; [|reflexivity..].
  destruct (Hm _ eq_refl) as [Hlater Hok]. cbn in Hlater, Hok. clear Hm.
  apply holds_bind. eapply (holds_mono _ _ (λ _ d', d' = d)).
  { apply (holds_stays (keeps (λ d : DB, d))); [calls_tac|]. auto. }
  intros [a|e|x] d1 ->; cbn [after]; [|reflexivity..].
  apply holds_bind, holds_lift. destruct (cost_of m _) as [c|e|x] eqn:Ec; cbn [after]; [|reflexivity..].
  apply holds_bind, holds_now. intros now. cbn [after].
  destruct (details_later m a c (notes_of m (ui_Notes i)) now c) as [L2 Ok2]; [|done|].
  { intros H. apply (cost_of_ok _ _ _ Ec), (rq_cost _ H). }
  revert L2 Ok2. generalize (with_details a c (notes_of m (ui_Notes i)) now m) as m2. intros m2 L2 Ok2.
  apply holds_bind, holds_Save; [intros e; cbn [after]; reflexivity|]. intros env t d2 Hsave. cbn [after].
  assert (RequestsStep d d2) as Hstep.
  { apply (history_save _ _ accept_request env d id before (touch t m2)); [done| | | |done].
    - apply row_at_Some in Hrow as [_ <-]. pose proof (lt_same _ _ L2) as S2.
      pose proof (lt_same _ _ Hlater) as S1. unfold submitted in S1, S2. cbn. congruence.
    - transitivity m; [done|]. transitivity m2; [done|by split].
    - intros _ H. specialize (Ok2 (Hok H)). by destruct Ok2. }
  apply (holds_stays RequestsStep); [leaf_tac|]. intros r d3 H. exact (transitivity Hstep H).
Qed.

(** ** Every endpoint *)

Lemma steps_panel {loc : Location} sv c call : Stays RequestsStep (serve_panel sv c call).
Proof.
  apply (stays_panel db_maintenance); try apply _; try done.
  - exact (keeps_HistoryStep Later RequestOk).
  - apply steps_Submit.
  - apply steps_Update.
  - intros; leaf_tac.
  - intros; leaf_tac.
  - intros; leaf_tac.
  - intros; leaf_tac.
  - intros; leaf_tac.
  - intros; leaf_tac.
Qed.
End requests.
