(* ===== verification/ExpenseSpec.v ===== *)
(** * The history of the expenses

    What a call may do to the expenses that are stored. *)

From S2P Require Import Prelude Golang Calendar Errors Models Store Schema Logic Notification Crypto Token AuthUser AuthHandlers BillingRepo BuildingRepo Http Maintenance PaymentRepo Expense Announcement BuildingSpec AuthSpec AccountSpec PanelSpec.

(** A later state of an expense: it stays in its building and keeps its author,
    and a deleted one is final. *)
Record Amended (e e' : Expense) : Prop := {
  am_id : ex_ID e' = ex_ID e;
  am_building : ex_BuildingID e' = ex_BuildingID e;
  am_author : ex_CreatedBy e' = ex_CreatedBy e ∧ ex_CreatedAt e' = ex_CreatedAt e;
  am_final : live_expense e = false → e' = e;
}.

#[export] Instance Amended_preorder : PreOrder Amended.
Proof.
  split; [by intros e; split|]. intros a b c [E1 B1 [A1 C1] F1] [E2 B2 [A2 C2] F2].
  split; [congruence|congruence|split; congruence|]. intros H. specialize (F1 H) as ->. auto.
Qed.

(** A well-formed expense. *)
Record ExpenseOk (e : Expense) : Prop := {
  xp_title : ex_Title e ≠ "" ∧ rune_count (ex_Title e) ≤ 150;
  xp_category : ex_Category e ∈ Categories;
  xp_amount : 0 < ex_Amount e;
  xp_approval : ex_ApprovalStatus e ∈ [ApprovalPending; ApprovalApproved; ApprovalRejected];
}.

Lemma accept_expense env d (e e' : Expense) : accept env d e = Ok e' → e' = e.
Proof. cbn -[require mbind]. rewrite !require_Ok. intros (_ & _ & _ & H). congruence. Qed.

(** What the schema has checked of a stored row. *)
Lemma accept_expense_ok env d (e : Expense) : accept env d e = Ok e →
  ex_Title e ≠ "" ∧ rune_count (ex_Title e) ≤ 150 → ExpenseOk e.
Proof.
  cbn -[require mbind]. rewrite !require_Ok. unfold in_enum. intros (H1 & H2 & H3 & _) Ht.
  split; [done| |by apply Z.ltb_lt|]; by eapply bool_decide_eq_true_1.
Qed.

Notation ExpensesStep := (HistoryStep Amended ExpenseOk).

Section expenses.
Context {codec : UuidCodec} {pusher : PushNotifier}.

Ltac leaf_tac := apply (history_leaf (T := Expense)); calls_tac.

(** The row a payload makes of an expense. *)
Record Applied (e : Expense) (create : bool) (e' : Expense) : Prop := {
  ap_amended : ex_ID e' = ex_ID e ∧ ex_BuildingID e' = ex_BuildingID e ∧
    ex_CreatedBy e' = ex_CreatedBy e ∧ ex_CreatedAt e' = ex_CreatedAt e;
  ap_deleted : ex_DeletedAt e' = ex_DeletedAt e;
  ap_title : create = true ∨ (ex_Title e ≠ "" ∧ rune_count (ex_Title e) ≤ 150) →
    ex_Title e' ≠ "" ∧ rune_count (ex_Title e') ≤ 150;
}.

Lemma app_title_ok e i create t : app_title e i create = (t, true) →
  create = true ∨ (ex_Title e ≠ "" ∧ rune_count (ex_Title e) ≤ 150) →
  t ≠ "" ∧ rune_count t ≤ 150.
Proof.
  unfold app_title, field. cbv zeta. destruct (present (ei_Title i) || create) eqn:E.
  - intros [= <- Hok] _. apply andb_true_iff in Hok as [H1 H2].
    apply negb_true_iff, bool_decide_eq_false in H1. split; [done|lia].
  - intros [= <-] [->|H]; [|done]. by rewrite orb_true_r in E.
Qed.

Lemma reads_applyExpenseInput e i create d :
  reads (applyExpenseInput e i create) d (Applied e create).
Proof.
  unfold applyExpenseInput. destruct (app_title e i create) as [t ok1] eqn:Et.
  destruct (app_category e i create) as [c ok2], (app_amount e i create) as [a ok3],
    (app_date e i create) as [dt ok4], (app_approval e i create) as [ap ok5].
  eapply (reads_bind _ _ _ (λ _, True)).
  { apply (holds_stays (keeps (λ d : DB, d))); [calls_tac|]. auto. }
  intros r _. destruct (negb _) eqn:Hok; [apply reads_fail|].
  apply negb_false_iff in Hok. repeat apply andb_true_iff in Hok as [Hok ?]. subst ok1.
  apply reads_ret. split; [done..|]. by apply (app_title_ok _ _ _ _ Et).
Qed.

Lemma keeps_check_manager {X} (π : DB → X) u b : Stays (keeps π) (check_manager u b).
Proof. calls_tac. Qed.

Lemma reads_Get_expense u id d :
  reads (Get_expense u id) d (λ e, row_at d id = Some e ∧ live_expense e = true).
Proof.
  unfold Get_expense, GetExpense.
  eapply (reads_bind _ _ _ (λ e, row_at d id = Some e ∧ live_expense e = true)).
  - apply holds_First_where; [done|]. intros r l E. split; [done|]. intros e [= <-].
    assert (r ∈ List.filter (λ e, bool_decide (ex_ID e = id) && live_expense e) (rows d)) as Hin.
    { rewrite <- (sort_by_Permutation by_key), E. by left. }
    apply elem_of_filter_rows in Hin as [Hrow [<-%bool_decide_eq_true Hl]%andb_true_iff]. done.
  - intros e He. eapply (reads_bind _ _ _ (λ _, True)); [|intros _ _; by apply reads_ret].
    apply (holds_stays (keeps (λ d : DB, d))); [calls_tac|]. auto.
Qed.

Lemma steps_Create_expense u b i : Stays ExpensesStep (Create_expense u b i).
Proof.
  unfold Create_expense. apply stays_bind; [apply _|leaf_tac|]. intros _.
  apply stays_bind; [apply _|leaf_tac|]. intros id d. apply holds_bind.
  eapply holds_mono; [apply reads_applyExpenseInput|].
  intros [e|x|x] d1 [-> He]; cbn [after]; [|reflexivity..]. specialize (He e eq_refl).
  revert d. unfold CreateExpense. apply (history_Create _ _ accept_expense). intros env d now Ha.
  apply (accept_expense_ok _ _ _ Ha). apply (ap_title _ _ _ He). by left.
Qed.

Lemma steps_Update_expense u id i : Stays ExpensesStep (Update_expense u id i).
Proof.
  intros d. unfold Update_expense. apply holds_bind. eapply holds_mono; [apply reads_Get_expense|].
  intros [before|x|x] d1 [-> Hb]; cbn [after]; [|reflexivity..].
  destruct (Hb before eq_refl) as [Hrow Hlive]. apply holds_bind.
  eapply holds_mono; [apply reads_applyExpenseInput|].
  intros [e|x|x] d1 [-> He]; cbn [after]; [|reflexivity..]. specialize (He e eq_refl).
  destruct (ap_amended _ _ _ He) as (Hid & Hbu & Hby & Hat).
  unfold SaveExpense. apply holds_Save; [reflexivity|]. intros env now d' Hs.
  apply (history_save _ _ accept_expense env d id before (touch now e)); [done| | | |done].
  - apply row_at_Some in Hrow as [_ <-]. exact Hid.
  - split; [done..|]. by rewrite Hlive.
  - intros Ha Hok. apply (accept_expense_ok _ _ _ Ha). apply (ap_title _ _ _ He). right.
    apply (xp_title _ Hok).
Qed.

Lemma steps_Delete_expense u id : Stays ExpensesStep (Delete_expense u id).
Proof.
  unfold Delete_expense. apply stays_bind; [apply _|leaf_tac|]. intros _.
  unfold SoftDeleteExpense. apply stays_bind; [apply _| |intros; leaf_tac].
  apply (history_Update_where _ _ accept_expense).
  - intros now e [_ Hl]%andb_true_iff. split; [done|]. split; [done..|]. by rewrite Hl.
  - intros env d now e _ Ha Hok. apply (accept_expense_ok _ _ _ Ha). apply (xp_title _ Hok).
Qed.

Lemma expenses_panel {loc : Location} sv c call : Stays ExpensesStep (serve_panel sv c call).
Proof.
  apply (stays_panel db_expenses); try apply _; try done.
  - exact (keeps_HistoryStep Amended ExpenseOk).
  - intros; leaf_tac.
  - intros; leaf_tac.
  - apply steps_Create_expense.
  - apply steps_Update_expense.
  - apply steps_Delete_expense.
  - intros; leaf_tac.
  - intros; leaf_tac.
  - intros; leaf_tac.
Qed.
End expenses.
