(* ===== verification/AnnouncementSpec.v ===== *)
(** * Announcements and their readers

    The announcements that are stored are well formed, whatever calls are made,
    and the residents who are notified of one are those who can open it. *)

From S2P Require Import Prelude Golang Calendar Errors Models Store Schema Logic Notification Crypto Token AuthUser AuthHandlers BillingRepo BuildingRepo Http Maintenance PaymentRepo Expense Announcement BuildingSpec AuthSpec AccountSpec PanelSpec.

(** ** Well-formed announcements *)

(** The audience: everybody; a block, by a name of at most 20 bytes; a floor, by
    its number in decimal; a unit of the building, by its id. *)
Inductive Audience {codec : UuidCodec} (d : DB) (b : UUID) : string → option string → Prop :=
  | aud_all : Audience d b AudienceAll None
  | aud_block v : v ≠ "" → Z.of_nat (String.length v) ≤ 20 → Audience d b AudienceBlock (Some v)
  | aud_floor n : Audience d b AudienceFloor (Some (FormatInt n))
  | aud_unit v uid un : v ≠ "" → uuid_Parse v = Some uid → row_at (R := Unit) d uid = Some un →
      u_BuildingID un = b → Audience d b AudienceUnit (Some v).

Record AnnouncementOk {codec : UuidCodec} (d : DB) (a : Announcement) : Prop := {
  ak_title : an_Title a ≠ "";
  ak_body : TrimSpace (an_Body a) ≠ "";
  ak_audience : Audience d (an_BuildingID a) (an_AudienceType a) (an_AudienceValue a);
  ak_window : ordered (an_PublishAt a) (an_ExpireAt a) = true;
}.

Definition AnnouncementsOk {codec : UuidCodec} (d : DB) : Prop := ∀ id a,
  row_at d id = Some a → AnnouncementOk d a.

Lemma accept_announcement env d (a a' : Announcement) : accept env d a = Ok a' → a' = a.
Proof. cbn -[require mbind]. rewrite !require_Ok. intros (_ & _ & _ & H). congruence. Qed.

(** A payload applied to an announcement. *)
Record Edited {codec : UuidCodec} (d : DB) (a : Announcement) (create : bool) (a' : Announcement)
    : Prop := {
  ed_same : an_ID a' = an_ID a ∧ an_BuildingID a' = an_BuildingID a ∧
    an_CreatedBy a' = an_CreatedBy a ∧ an_CreatedAt a' = an_CreatedAt a;
  ed_ok : create = true ∨ AnnouncementOk d a → AnnouncementOk d a';
}.

Lemma reads_only {A} (m : M A) d : Stays (keeps (λ d : DB, d)) m → reads m d (λ _, True).
Proof. intros H. apply (holds_stays _ _ _ _ H). auto. Qed.

Section apply_input.
Context {codec : UuidCodec}.

Lemma input_title_ok a i create t : input_title a i create = Ok t →
  create = true ∨ an_Title a ≠ "" → t ≠ "".
Proof.
  unfold input_title. destruct (create || _) eqn:E.
  - clear E. case_bool_decide; [done|]. destruct (_ >? _); [done|]. by intros [= <-].
  - intros [= <-] [->|H]; [discriminate E|exact H].
Qed.

Lemma input_body_ok a i create t : input_body a i create = Ok t →
  create = true ∨ TrimSpace (an_Body a) ≠ "" → TrimSpace t ≠ "".
Proof.
  unfold input_body. destruct (create || _) eqn:E.
  - clear E. case_bool_decide; [done|]. by intros [= <-].
  - intros [= <-] [->|H]; [discriminate E|exact H].
Qed.

Lemma trimmed_value_ne v x : trimmed_value v = Some x → x ≠ "".
Proof. destruct v as [v|]; [|done]. simpl. case_bool_decide; [done|]. by intros [= <-]. Qed.

Lemma count_row {R} `{!Table R} (P : R → bool) d :
  (Z.of_nat (length (List.filter P (rows d))) =? 0) = false →
  ∃ r : R, row_at d (key r) = Some r ∧ P r = true.
Proof.
  intros H. destruct (List.filter P (rows d)) as [|r l] eqn:E; [done|]. exists r.
  apply elem_of_filter_rows. rewrite E. by left.
Qed.

Lemma reads_audience_value b typ v d :
  typ ∈ [AudienceBlock; AudienceFloor; AudienceUnit] → v ≠ "" →
  reads (audience_value b typ v) d (λ v', Audience d b typ (Some v')).
Proof.
  intros Ht Hv. unfold audience_value. case_bool_decide as Hu; [|case_bool_decide as Hf].
  - subst typ. destruct (uuid_Parse v) as [uid|] eqn:Ep; [|apply reads_fail].
    apply holds_bind, holds_Count; [done|]. cbn [after].
    destruct (_ =? 0) eqn:E; [by apply holds_fail|]. apply holds_ret. split; [done|]. intros ? [= <-].
    apply count_row in E as (un & Hrow & HP). apply andb_true_iff in HP as [HP _].
    apply andb_true_iff in HP as [<-%bool_decide_eq_true Hb%bool_decide_eq_true].
    by apply (aud_unit _ _ _ (u_ID un) un).
  - subst typ. destruct (Sscanf_d v) as [n|]; [|apply reads_fail]. apply reads_ret. constructor.
  - destruct (Z.gtb_spec (Z.of_nat (String.length v)) 20); [apply reads_fail|]. apply reads_ret.
    rewrite !elem_of_cons in Ht. destruct Ht as [->|[->|[->|Ht]]]; [by constructor|done|done|].
    by apply elem_of_nil in Ht.
Qed.

Lemma reads_input_audience a i create d :
  reads (input_audience a i create) d (λ r,
    create = true ∨ Audience d (an_BuildingID a) (an_AudienceType a) (an_AudienceValue a) →
    Audience d (an_BuildingID a) r.1 r.2).
Proof.
  unfold input_audience. destruct (create || _) eqn:E.
  - clear E. unfold validAudience. case_bool_decide as Hv; cbn [negb]; [|apply reads_fail].
    case_bool_decide as Hall.
    + destruct (trimmed_value _); [apply reads_fail|]. apply reads_ret. intros _. cbn. rewrite Hall. constructor.
    + destruct (trimmed_value _) as [v|] eqn:Et; [|apply reads_fail].
      eapply reads_bind; [apply reads_audience_value; [|by eapply trimmed_value_ne]|].
      * rewrite elem_of_cons in Hv. destruct Hv as [?|Hv]; [done|exact Hv].
      * intros v' Hv'. by apply reads_ret.
  - destruct (ai_AudienceValue i); [apply reads_fail|]. apply reads_ret. intros [->|H]; [discriminate E|exact H].
Qed.

Lemma reads_applyInput a i create d : reads (applyInput a i create) d (Edited d a create).
Proof.
  unfold applyInput. eapply reads_bind; [apply reads_lift; intros t Ht; exact (input_title_ok _ _ _ _ Ht)|].
  intros t Ht. eapply reads_bind; [apply reads_lift; intros b Hb; exact (input_body_ok _ _ _ _ Hb)|].
  intros b Hb. eapply reads_bind; [apply reads_input_audience|]. intros [typ v] Ha. cbn in Ha.
  eapply (reads_bind _ _ _ (λ _, True)); [by apply reads_lift|]. intros p _.
  eapply (reads_bind _ _ _ (λ _, True)); [by apply reads_lift|]. intros e _.
  destruct (ordered p e) eqn:Ho; cbn [negb]; [|apply reads_fail].
  eapply (reads_bind _ _ _ (λ _, True)); [apply reads_only; calls_tac|]. intros f _.
  apply reads_ret. split; [done|]. intros H.
  split; cbn; [apply Ht|apply Hb|apply Ha|exact Ho]; (destruct H as [H|[]]; [by left|by right]).
Qed.
End apply_input.

(** ** Calls keep the announcements well formed *)

(** The units stay, and well-formed announcements stay well formed. *)
Definition AnnouncementsStep {codec : UuidCodec} (d d' : DB) : Prop :=
  keeps db_units d d' ∧ (AnnouncementsOk d → AnnouncementsOk d').

Definition announcement_tables (d : DB) := (db_units d, db_announcements d).

Section announcements.
Context {codec : UuidCodec} {pusher : PushNotifier}.

#[export] Instance AnnouncementsStep_preorder : PreOrder AnnouncementsStep.
Proof.
  split; [by intros d; split|]. intros d1 d2 d3 [U1 O1] [U2 O2]. split; [|auto].
  exact (transitivity U1 U2).
Qed.

Lemma AnnouncementOk_units d d' a : keeps db_units d d' → AnnouncementOk d a → AnnouncementOk d' a.
Proof.
  intros Hu [Ht Hb Ha Hw]. split; [done..| |done]. destruct Ha as [|? ? ?|n|v uid un Hv Hp Hrow Hbu].
  - constructor.
  - by constructor.
  - constructor.
  - apply (aud_unit _ _ _ uid un); [done..| |done]. unfold row_at in *. cbn in *. by rewrite Hu.
Qed.

Lemma keeps_AnnouncementsStep d d' : keeps announcement_tables d d' → AnnouncementsStep d d'.
Proof.
  intros [= Hu Ha]. split; [done|]. intros H id a Hrow.
  apply (AnnouncementOk_units d); [done|]. apply (H id). unfold row_at in *. cbn in *. by rewrite <- Ha.
Qed.

Ltac leaf_tac := apply (stays_mono _ _ _ keeps_AnnouncementsStep); calls_tac.

Lemma put_AnnouncementsStep d (a : Announcement) :
  (AnnouncementsOk d → AnnouncementOk d a) → AnnouncementsStep d (put a d).
Proof.
  intros Ha. split; [reflexivity|]. intros H id a'. rewrite row_at_put. intros Hrow.
  apply (AnnouncementOk_units d); [reflexivity|]. case_decide; [|by eapply H].
  injection Hrow as <-. by apply Ha.
Qed.

Lemma stamped_ok d (a a' : Announcement) :
  an_Title a' = an_Title a → an_Body a' = an_Body a → an_BuildingID a' = an_BuildingID a →
  an_AudienceType a' = an_AudienceType a → an_AudienceValue a' = an_AudienceValue a →
  an_PublishAt a' = an_PublishAt a → an_ExpireAt a' = an_ExpireAt a →
  AnnouncementOk d a → AnnouncementOk d a'.
Proof. intros E1 E2 E3 E4 E5 E6 E7 [? ? ? ?]. split; congruence. Qed.

Lemma steps_publish s u b i : Stays AnnouncementsStep (Create_for_building s u b i).
Proof.
  unfold Create_for_building. apply stays_bind; [apply _|leaf_tac|]. intros m.
  apply stays_bind; [apply _|leaf_tac|]. intros _. apply stays_bind; [apply _|leaf_tac|]. intros id d.
  apply holds_bind. eapply holds_mono; [apply reads_applyInput|].
  intros [a|e|x] d1 [-> Ha]; cbn [after]; [|reflexivity..]. specialize (Ha a eq_refl).
  apply holds_bind. unfold Create_announcement. apply holds_Create; [intros e; cbn [after]; reflexivity|].
  intros env now a' d' _ _ ->%accept_announcement ->. cbn [after].
  assert (AnnouncementsStep d (put (stamp now a) d)) as Hstep.
  { apply put_AnnouncementsStep. intros _. apply (stamped_ok _ a); [done..|]. apply (ed_ok _ _ _ _ Ha). by left. }
  apply (holds_stays AnnouncementsStep); [leaf_tac|]. intros r d3 H. exact (transitivity Hstep H).
Qed.

Lemma reads_managed_announcement u id d :
  reads (managed_announcement u id) d (λ r, row_at d id = Some r.2).
Proof.
  unfold managed_announcement. eapply (reads_bind _ _ _ (λ _, True)); [apply reads_only; calls_tac|].
  intros m _. eapply reads_bind.
  { apply reads_map_err, (reads_First_id id d (λ a, row_at d id = Some a)). auto. }
  intros a Ha. eapply (reads_bind _ _ _ (λ _, True)); [apply reads_only; calls_tac|].
  intros _ _. by apply reads_ret.
Qed.

Lemma steps_edit s u id i : Stays AnnouncementsStep (Update_announcement s u id i).
Proof.
  intros d. unfold Update_announcement. apply holds_bind.
  eapply holds_mono; [apply reads_managed_announcement|].
  intros [[m before]|e|x] d1 [-> Hrow]; cbn [after]; [|reflexivity..].
  specialize (Hrow _ eq_refl). cbn in Hrow. apply holds_bind.
  eapply holds_mono; [apply reads_applyInput|].
  intros [a|e|x] d1 [-> Ha]; cbn [after]; [|reflexivity..]. specialize (Ha a eq_refl).
  apply holds_bind. unfold Save_announcement. apply holds_Save; [intros e; cbn [after]; reflexivity|].
  intros env now d' Hs. cbn [after].
  assert (AnnouncementsStep d d') as Hstep.
  { pose proof Hrow as [Htbl Hid]%row_at_Some. destruct (ed_same _ _ _ _ Ha) as [E _].
    apply (save_row_old _ _ before) in Hs as (a' & Hacc & _ & ->).
    - apply accept_announcement in Hacc as ->. apply put_AnnouncementsStep. intros H.
      apply (stamped_ok _ a); [done..|]. apply (ed_ok _ _ _ _ Ha). right. by apply (H id).
    - cbn in *. by rewrite E, Hid. }
  apply (holds_stays AnnouncementsStep); [leaf_tac|]. intros r d3 H. exact (transitivity Hstep H).
Qed.

Lemma delete_AnnouncementsStep (a : Announcement) d : AnnouncementsStep d (delete_row d a).
Proof.
  split; [reflexivity|]. intros H id a' Hrow. apply (AnnouncementOk_units d); [reflexivity|].
  apply (H id). apply row_at_Some in Hrow as [Htbl Hk]. apply row_at_Some. split; [|done].
  unfold delete_row in Htbl. cbn in *. by apply lookup_delete_Some in Htbl as [_ Htbl].
Qed.

Lemma steps_remove s u id : Stays AnnouncementsStep (Delete_announcement s u id).
Proof.
  unfold Delete_announcement. apply stays_bind; [apply _|leaf_tac|]. intros [m a].
  apply stays_bind; [apply _| |intros; leaf_tac]. unfold Delete_announcement_row.
  apply stays_bind; [apply _| |intros; leaf_tac]. apply stays_Delete_where; [apply _..|].
  apply delete_AnnouncementsStep.
Qed.

Lemma announcements_panel {loc : Location} sv c call : Stays AnnouncementsStep (serve_panel sv c call).
Proof.
  apply (stays_panel announcement_tables); try apply _; try done.
  - exact keeps_AnnouncementsStep.
  - intros; leaf_tac.
  - intros; leaf_tac.
  - intros; leaf_tac.
  - intros; leaf_tac.
  - intros; leaf_tac.
  - apply steps_publish.
  - apply steps_edit.
  - apply steps_remove.
Qed.
End announcements.

(** ** Targets and viewers *)

Lemma existsb_ext {A} (f g : A → bool) l : (∀ x, x ∈ l → f x = g x) → existsb f l = existsb g l.
Proof.
  induction l as [|x l IH]; intros H; [done|]. simpl. rewrite H by (by left). f_equal.
  apply IH. intros. apply H. by right.
Qed.

Lemma existsb_true {A} (f : A → bool) l : existsb f l = true ↔ ∃ x, x ∈ l ∧ f x = true.
Proof.
  rewrite existsb_exists. split; intros (x & Hx & Hf); exists x; (split; [|done]);
    [by apply list_elem_of_In|by apply list_elem_of_In in Hx].
Qed.

Lemma existsb_and {A} (f g : A → bool) l :
  existsb f l && existsb (λ x, f x && g x) l = existsb (λ x, f x && g x) l.
Proof.
  apply eq_true_iff_eq. rewrite andb_true_iff, !existsb_true. split; [by intros [_ H]|].
  intros (x & Hx & Hf). split; exists x; [|done]. split; [done|]. by apply andb_true_iff in Hf as [Hf _].
Qed.

Lemma existsb_units (f : UnitInfo → bool) (l : list Unit) :
  existsb f (remove_dups (unit_info <$> l)) = existsb (λ un, f (unit_info un)) l.
Proof.
  apply eq_true_iff_eq. rewrite !existsb_true. split.
  - intros (x & Hx & Hf). apply elem_of_remove_dups, list_elem_of_fmap in Hx as (un & -> & Hun). by exists un.
  - intros (un & Hun & Hf). exists (unit_info un). split; [|done].
    by apply elem_of_remove_dups, list_elem_of_fmap_2.
Qed.

(** The units of the occupancies of a phone. *)
Definition homes (d : DB) (phone : string) : list Unit := omap (lives_in d phone) (rows d).

Lemma homes_stored d phone un : un ∈ homes d phone → row_at d (u_ID un) = Some un.
Proof.
  intros (o & _ & Ho)%list_elem_of_omap. unfold lives_in in Ho.
  apply bind_Some in Ho as (p & _ & Ho). apply bind_Some in Ho as (u & E & Ho).
  case_match; [|done]. injection Ho as <-. pose proof E as [_ Hk]%row_at_Some.
  cbn in Hk. by rewrite Hk.
Qed.

Section viewers.
Context {codec : UuidCodec}.

(** Decides the comparisons of two audience types. *)
Ltac decide_audience :=
  repeat match goal with
  | |- context [bool_decide (?x = ?y)] =>
      lazymatch type of x with string =>
        let b := eval vm_compute in (bool_decide (x = y)) in
        lazymatch b with true => idtac | false => idtac end;
        change (bool_decide (x = y)) with b
      end
  end; cbv beta iota.

(** The join of [TargetUserIDs] and the maps of [isVisible] agree. *)
Lemma targeted_visible d a u P :
  AnnouncementOk d a → audience_unit a = Some P → us_DeletedAt u = None → us_IsActive u = true →
  let units := remove_dups (unit_info <$> homes d (us_Phone u)) in
  targeted d (an_BuildingID a) P u = in_building units (an_BuildingID a) && isVisible a units.
Proof.
  intros Hok HP Hdel Hact units. unfold targeted. rewrite Hdel, Hact. cbn [is_null andb].
  change (omap (lives_in d (us_Phone u)) (rows d)) with (homes d (us_Phone u)).
  revert HP. unfold in_building, isVisible, audience_unit, units. pose proof (ak_audience _ _ Hok) as Ha.
  destruct Ha as [|v Hv _|n|v uid un Hv Hp Hrow Hbu]; decide_audience; cbn [mbind option_bind];
    unfold has_block, has_floor, has_unit; rewrite !existsb_units; cbn [un_BuildingID un_Block un_Floor un_ID unit_info].
  - intros [= <-]. rewrite andb_true_r. apply existsb_ext. intros un _. by rewrite andb_true_r.
  - intros [= <-]. rewrite (existsb_ext
      (λ un : Unit, bool_decide (u_BuildingID un = an_BuildingID a)
        && bool_decide (u_Block un = Some v) && negb (bool_decide (v = "")))
      (λ un, bool_decide (u_BuildingID un = an_BuildingID a)
        && bool_decide (default "" (u_Block un) = v))); [symmetry; apply existsb_and|].
    intros un _. rewrite <- andb_assoc. f_equal. rewrite (bool_decide_eq_false_2 (v = "")) by done.
    rewrite andb_true_r. apply bool_decide_ext. destruct (u_Block un); cbn; naive_solver.
  - intros [= <-]. symmetry. apply existsb_and.
  - rewrite Hp. intros [= <-]. rewrite existsb_units.
    apply eq_true_iff_eq. rewrite andb_true_iff, !existsb_true.
    setoid_rewrite andb_true_iff. setoid_rewrite bool_decide_eq_true. split.
    + intros (x & Hx & Hbx & Hid). by split; exists x.
    + intros [_ (x & Hx & Hid)]. cbn in Hid. exists x. split_and!; [done| |done].
      apply homes_stored in Hx. rewrite Hid, Hrow in Hx. by injection Hx as <-.
Qed.

Lemma targeted_iff d a u P : row_at d (us_ID u) = Some u →
  us_ID u ∈ us_ID <$> List.filter (targeted d (an_BuildingID a) P) (rows d)
  ↔ targeted d (an_BuildingID a) P u = true.
Proof.
  intros Hu. rewrite list_elem_of_fmap. split.
  - intros (v & E & Hv). apply elem_of_filter_rows in Hv as [Hv Ht]. cbn in Hv.
    rewrite <- E, Hu in Hv. by injection Hv as <-.
  - intros Ht. exists u. split; [done|]. by apply elem_of_filter_rows.
Qed.

Lemma audience_unit_Some d a : AnnouncementOk d a → is_Some (audience_unit a).
Proof.
  intros Hok. unfold audience_unit. pose proof (ak_audience _ _ Hok) as Ha.
  destruct Ha as [|v Hv _|n|v uid un Hv Hp Hrow Hbu]; cbn; [done..|]. by rewrite Hp.
Qed.
End viewers.
