(* ===== verification/DashboardSpec.v ===== *)
(** * The dashboard against the pages it sums up

    Months and their text; what the overview of a building and the home page of
    a resident are made of. *)

From Stdlib Require Import Ascii DecimalString DecimalPos DecimalFacts.
From S2P Require Import Prelude Golang Calendar Errors Models Store Schema Logic Notification Crypto Token AuthUser AuthHandlers BillingRepo BuildingRepo Http Maintenance PaymentRepo Expense Announcement Dashboard BuildingSpec AuthSpec AccountSpec PanelSpec AnnouncementSpec.

(** ** The text of a month *)

Lemma Month_range t : 1 ≤ Month t ≤ 12.
Proof.
  unfold Month. cbv zeta. pose proof (filter_length_le
    (λ k, days_before_month (Year t) (Z.of_nat k) <=? t / Day - days_before_year (Year t)) (seq 2 11)) as H.
  rewrite length_seq in H. lia.
Qed.

(** A number without leading zeros is at least the power of ten of its other
    digits. *)
Lemma of_uint_acc_ge d acc : (Z.pos acc * 10 ^ Z.of_nat (Decimal.nb_digits d) ≤ Z.pos (Pos.of_uint_acc d acc)).
Proof.
  revert acc. induction d; intros acc; simpl Decimal.nb_digits; simpl Pos.of_uint_acc; [lia|..];
    (etransitivity; [|apply IHd]); rewrite Nat2Z.inj_succ, Z.pow_succ_r by lia;
    pose proof (Z.pow_pos_nonneg 10 (Z.of_nat (Decimal.nb_digits d)) ltac:(lia) ltac:(lia)); nia.
Qed.

Lemma to_uint_ge p : ∃ n, Decimal.nb_digits (Pos.to_uint p) = S n ∧ 10 ^ Z.of_nat n ≤ Z.pos p.
Proof.
  pose proof (DecimalPos.Unsigned.of_to p) as Hof.
  pose proof (DecimalPos.Unsigned.to_of (Pos.to_uint p)) as Hto. rewrite Hof in Hto. cbn in Hto.
  destruct (Pos.to_uint p) as [|d|d|d|d|d|d|d|d|d|d]; [done| |..];
    try (exists (Decimal.nb_digits d); split; [done|]; cbn in Hof; injection Hof as <-;
         etransitivity; [|apply of_uint_acc_ge]; lia).
  exfalso. unfold Decimal.unorm in Hto. cbn [Decimal.nzhead] in Hto.
  destruct (Decimal.nzhead d) as [|d'|d'|d'|d'|d'|d'|d'|d'|d'|d'] eqn:E; try discriminate Hto.
  - injection Hto as ->. discriminate Hof.
  - by apply DecimalFacts.nzhead_nonzero in E.
Qed.

Lemma length_string_of_uint u :
  String.length (NilEmpty.string_of_uint u) = Decimal.nb_digits u.
Proof. induction u; simpl; auto. Qed.

Lemma length_FormatInt z n : 0 ≤ z < 10 ^ Z.of_nat n → (1 ≤ n)%nat → (String.length (FormatInt z) ≤ n)%nat.
Proof.
  intros Hz Hn. destruct z as [|p|p]; [done| |lia]. unfold FormatInt. cbn [Z.to_int NilZero.string_of_int].
  destruct (to_uint_ge p) as (k & Hk & Hp).
  assert (String.length (NilZero.string_of_uint (Pos.to_uint p)) = S k) as ->.
  { rewrite <- Hk, <- length_string_of_uint. by destruct (Pos.to_uint p). }
  assert (Z.of_nat k < Z.of_nat n); [|lia]. apply (Z.pow_lt_mono_r_iff 10); lia.
Qed.

Lemma length_zeros n s : String.length (zeros n +:+ s) = (n + String.length s)%nat.
Proof. induction n as [|n IH]; simpl; [done|]. by rewrite IH. Qed.

Lemma length_FormatPad w z : 0 ≤ z < 10 ^ Z.of_nat w → (1 ≤ w)%nat → String.length (FormatPad w z) = w.
Proof.
  intros Hz Hw. unfold FormatPad. destruct (Z.ltb_spec z 0); [lia|]. rewrite Z.abs_eq by lia.
  rewrite length_zeros. pose proof (length_FormatInt z w Hz Hw). lia.
Qed.

Lemma ParseInt_FormatPad w z : 0 ≤ z → in64 z → ParseInt (FormatPad w z) = Some z.
Proof.
  intros Hz H64. pose proof (parse_digits_FormatPad w z Hz) as Hp.
  assert (∀ s, FormatPad w z ≠ String "-" s ∧ FormatPad w z ≠ String "+" s) as Hh.
  { intros s. unfold FormatPad. destruct (Z.ltb_spec z 0); [lia|]. rewrite Z.abs_eq by lia.
    destruct (w - String.length (FormatInt z))%nat; simpl; [by apply FormatInt_nonneg_head|done]. }
  destruct (FormatPad w z) as [|c s]; [done|]. unfold ParseInt.
  assert (c ≠ "-"%char) by (intros ->; by destruct (Hh s)).
  assert (c ≠ "+"%char) by (intros ->; by destruct (Hh s)).
  assert (∀ (A B C : option Z), match String c s with
    | String "-"%char _ => A | String "+"%char _ => B | _ => C end = C) as Hm.
  { intros A B C. destruct c as [[] [] [] [] [] [] [] []]; done. }
  rewrite Hm, Hp. simpl. by rewrite decide_True.
Qed.

Lemma padded w z : (1 ≤ w)%nat → 0 ≤ z < 10 ^ Z.of_nat w → in64 z →
  String.length (FormatPad w z) = w ∧ ParseInt (FormatPad w z) = Some z.
Proof. intros. split; [by apply length_FormatPad|apply ParseInt_FormatPad; [lia|done]]. Qed.

Lemma substring_app_l a b : String.substring 0 (String.length a) (a +:+ b) = a.
Proof. induction a as [|c a IH]; simpl; [by destruct b|by rewrite IH]. Qed.

Lemma substring_skip a b n k : String.length a = n → String.substring n k (a +:+ b) = String.substring 0 k b.
Proof. revert n. induction a as [|c a IH]; intros n <-; simpl; [done|by apply IH]. Qed.

Lemma get_app a b n : String.length a = n → String.get n (a +:+ b) = String.get 0 b.
Proof. revert n. induction a as [|c a IH]; intros n <-; simpl; [done|by apply IH]. Qed.

Lemma length_string_app a b : String.length (a +:+ b) = (String.length a + String.length b)%nat.
Proof. induction a as [|c a IH]; simpl; [done|by rewrite IH]. Qed.

Lemma substring_all s : String.substring 0 (String.length s) s = s.
Proof. induction s as [|c s IH]; simpl; [done|by rewrite IH]. Qed.

(** [parseMonth] reads what [FormatMonth] writes. *)
Lemma parseMonth_FormatMonth y m : 1 ≤ y ≤ 9999 → 1 ≤ m ≤ 12 →
  parseMonth (FormatMonth y m) = Some (y, m).
Proof.
  intros Hy Hm. destruct (padded 4 y) as [Ly Py]; [lia..|unfold in64; lia|].
  destruct (padded 2 m) as [Lm Pm]; [lia..|unfold in64; lia|]. unfold parseMonth, FormatMonth.
  rewrite !length_string_app, Ly, Lm, (get_app _ _ 4) by done. cbn [String.length String.get].
  rewrite !bool_decide_eq_true_2 by done. cbn [negb orb].
  assert (String.substring 5 2 (FormatPad 4 y +:+ "-" +:+ FormatPad 2 m) = FormatPad 2 m) as ->.
  { clear Py Pm. revert Ly Lm. generalize (FormatPad 4 y) (FormatPad 2 m). intros a b.
    destruct a as [|c1 [|c2 [|c3 [|c4 [|c5 a]]]]]; intros Ly; try discriminate Ly.
    destruct b as [|b1 [|b2 [|b3 b]]]; intros Lb; try discriminate Lb. reflexivity. }
  rewrite <- Ly at 1. rewrite substring_app_l, Py, Pm. cbn.
  assert (m <? 1 = false) as -> by lia. assert (m >? 12 = false) as -> by lia.
  by assert (y <? 1 = false) as -> by lia.
Qed.

(** ** Reading the two pages *)

Lemma reads_select_sum f d : reads (select_sum f) d (λ z, z = f d).
Proof.
  unfold select_sum. apply holds_stmt; [done|]. intros _ _. unfold scan_int64.
  destruct (decide _); simpl; [|done]. split; [done|]. by intros z [= <-].
Qed.

(** The debt of the overview is the one of the report. *)
Lemma positive_balances_total d b : positive_balances d b = total_debt d b.
Proof.
  unfold positive_balances, total_debt. induction (rows d) as [|x l IH]; [done|]. simpl.
  destruct (balance_in d b x); cbn [andb]; [|exact IH].
  destruct (Z.ltb_spec 0 (bal_Balance x)); rewrite ?sum_of_cons, IH; lia.
Qed.

Section pages.
Context {codec : UuidCodec} {loc : Location}.

Record OverviewOf (d : DB) (b : UUID) (bd : BuildingDashboard) : Prop := {
  ov_month : ∃ now, let y := Year (local now) in let m := Month (local now) in
    bd_Month bd = FormatMonth y m ∧ bd_GeneratedAt bd = now ∧
    bd_MonthIncome bd = income_in d b (monthWindow y m) ∧
    bd_MonthExpense bd = expense_in d b (monthWindow y m);
  ov_debt : bd_TotalDebt bd = total_debt d b;
  ov_alerts : (length (bd_Alerts bd) ≤ 20)%nat;
}.

Lemma reads_alerts b now d : reads (alerts b now) d (λ l, (length l ≤ 20)%nat).
Proof.
  unfold alerts. do 4 (eapply (reads_bind _ _ _ (λ _, True)); [apply reads_only; calls_tac|intros ? _]).
  apply reads_ret. rewrite length_take. lia.
Qed.

Lemma reads_sum_scan c f d : reads (sum_scan c f) d (λ z, z = f d).
Proof. apply reads_map_err, reads_select_sum. Qed.

Lemma reads_overview u b d : reads (BuildingDashboard_of (Some u) b) d (OverviewOf d b).
Proof.
  unfold BuildingDashboard_of.
  eapply (reads_bind _ _ _ (λ _, True)); [apply reads_only; calls_tac|]. intros ok _.
  destruct (negb ok); [apply reads_fail|].
  eapply (reads_bind _ _ _ (λ _, True)); [apply reads_only; calls_tac|]. intros now _. cbv zeta.
  do 2 (eapply (reads_bind _ _ _ (λ _, True)); [apply reads_only; calls_tac|intros ? _]).
  eapply reads_bind; [apply reads_sum_scan|]. intros debt ->.
  eapply (reads_bind _ _ _ (λ _, True)); [apply reads_only; calls_tac|intros ? _].
  eapply reads_bind; [apply reads_sum_scan|]. intros income ->.
  eapply reads_bind; [apply reads_sum_scan|]. intros expense ->.
  do 2 (eapply (reads_bind _ _ _ (λ _, True)); [apply reads_only; calls_tac|intros ? _]).
  eapply reads_bind; [apply reads_alerts|]. intros al Hal. apply reads_ret.
  split; cbn; [by exists now|apply positive_balances_total|done].
Qed.

Record ReportOf (d : DB) (b : UUID) (y m : Z) (rep : FinancialReport) : Prop := {
  ro_income : fr_MonthlyIncome rep = income_in d b (monthWindow y m);
  ro_expense : fr_MonthlyExpense rep = expense_in d b (monthWindow y m);
  ro_debt : fr_TotalDebt rep = total_debt d b;
}.

Lemma reads_Transaction {A} (m : M A) d (P : A → Prop) : reads m d P → reads (Transaction m) d P.
Proof.
  intros H env w Hw. specialize (H env w Hw). unfold Transaction. subst d.
  destruct (m env w) as [[a|e|s] w']; simpl in *; [|done..]. destruct H as [H1 H2].
  destruct (env_fault _ _); [done|]. split; [done|exact H2].
Qed.

Lemma reads_Report u b text y m d : parseMonth text = Some (y, m) →
  reads (Report u b text) d (ReportOf d b y m).
Proof.
  intros Hp. unfold Report. rewrite Hp.
  eapply (reads_bind _ _ _ (λ _, True)); [apply reads_only; calls_tac|]. intros _ _.
  eapply (reads_bind _ _ _ (ReportOf d b y m)); [|intros rep [? ? ?]; by apply reads_ret].
  unfold Report_rows. apply reads_Transaction.
  do 5 (eapply reads_bind; [apply reads_select_sum|intros ? ->]). by apply reads_ret.
Qed.
End pages.

(** ** The announcements of the home page *)

(** The insertion sort leaves a list that is in order as it is. *)
Definition newest_with_read (a b : AnnouncementWithRead) : bool :=
  newest_announcement (ar_Announcement a) (ar_Announcement b).

Lemma move_left_sorted x acc :
  Forall (λ y, newest_with_read x y = false) acc → move_left x acc = x :: acc.
Proof.
  destruct acc as [|y acc]; [done|]. intros H. inversion H as [|? ? Hy _]; subst. simpl.
  unfold Before. unfold newest_with_read, newest_announcement in Hy. by rewrite Hy.
Qed.

Lemma sorted_untouched l :
  StronglySorted (sort_le newest_with_read) l → sortAnnouncementsNewestFirst l = l.
Proof.
  unfold sortAnnouncementsNewestFirst. intros Hs.
  assert (∀ acc, Forall (λ x, Forall (λ y, newest_with_read x y = false) acc) l →
    foldl (λ acc x, move_left x acc) acc l = reverse l ++ acc) as H.
  { induction Hs as [|x l Hs IH Hx]; intros acc Hacc; [done|].
    apply Forall_cons in Hacc as [Hxa Hla]. simpl. rewrite move_left_sorted by done.
    rewrite IH, reverse_cons, <- app_assoc; [done|].
    rewrite Forall_forall in Hx, Hla |- *. intros z Hz. constructor; [by apply Hx|by apply Hla]. }
  rewrite H by (apply Forall_true; constructor). by rewrite app_nil_r, reverse_involutive.
Qed.

Lemma newest_announcement_sorted (l : list Announcement) (reads_ : UUID → bool) :
  StronglySorted (sort_le newest_announcement) l →
  sortAnnouncementsNewestFirst (with_reads reads_ <$> ((λ a, MkAnnouncementWithRead a false) <$> l))
  = with_reads reads_ <$> ((λ a, MkAnnouncementWithRead a false) <$> l).
Proof.
  intros Hs. apply sorted_untouched. induction Hs as [|a l Hs IH Ha]; csimpl; constructor; [done|].
  rewrite !Forall_fmap. eapply Forall_impl; [exact Ha|]. by intros b Hb.
Qed.

#[export] Instance newest_announcement_strict : StrictWeak newest_announcement.
Proof. split; unfold newest_announcement; intros; lia. Qed.

Lemma StronglySorted_filter_bool {A} (R : relation A) (P : A → bool) l :
  StronglySorted R l → StronglySorted R (List.filter P l).
Proof.
  induction 1 as [|x l Hs IH Hx]; simpl; [constructor|]. destruct (P x); [|exact IH].
  constructor; [exact IH|]. rewrite Forall_forall in Hx |- *. intros y Hy. apply Hx.
  apply list_elem_of_In, filter_In in Hy as [Hy _]. by apply list_elem_of_In.
Qed.

(** What a resident with the units sees at an instant, newest first. *)
Definition visible_at {codec : UuidCodec} (d : DB) (units : list UnitInfo) (now : Time) : list Announcement :=
  List.filter (λ a, isVisible a units)
    (sort_by newest_announcement
      (List.filter (λ a, in_building units (an_BuildingID a) && in_window now a) (rows d))).

Lemma visible_at_sorted {codec : UuidCodec} d units now :
  StronglySorted (sort_le newest_announcement) (visible_at d units now).
Proof. apply StronglySorted_filter_bool, sort_by_sorted, _. Qed.

(** Only the units matter, not how often each is listed. *)
Lemma existsb_dups (f : UnitInfo → bool) l : existsb f (remove_dups l) = existsb f l.
Proof.
  apply eq_true_iff_eq. rewrite !existsb_true. by setoid_rewrite elem_of_remove_dups.
Qed.

Lemma filter_ext_bool {A} (f g : A → bool) l : (∀ x, f x = g x) → List.filter f l = List.filter g l.
Proof. intros H. induction l as [|x l IH]; [done|]. simpl. by rewrite H, IH. Qed.

Lemma visible_at_dups {codec : UuidCodec} d l now :
  visible_at d (remove_dups l) now = visible_at d l now.
Proof.
  assert (∀ b, in_building (remove_dups l) b = in_building l b) as Hb by (intros; apply existsb_dups).
  unfold visible_at. rewrite (filter_ext_bool _ (λ a, isVisible a l)).
  - do 2 f_equal. apply filter_ext_bool. intros a. by rewrite Hb.
  - intros a. unfold isVisible, has_block, has_floor, has_unit.
    destruct (an_AudienceValue a) as [v|]; [|done].
    destruct (uuid_Parse v); by rewrite !existsb_dups.
Qed.

(** ** The two pages of a resident *)

Section resident_pages.
Context {codec : UuidCodec} {loc : Location}.

(** The units of a phone, as the home page and as the list see them. *)
Definition units_of (d : DB) (phone : string) : list UnitInfo := unit_info <$> homes d phone.

(** An announcement with the read mark of the user. *)
Definition marked (d : DB) (userID : UUID) (a : Announcement) : AnnouncementWithRead :=
  with_reads (is_read d userID) (MkAnnouncementWithRead a false).

(** The clock stands still. *)
Definition frozen_at (env : Env) (now : Time) : Prop := ∀ t, env_now env t = now.

(** A call that returns, in an environment whose clock stands still. *)
Definition yields {A} (m : M A) (now : Time) (d : DB) (P : A → Prop) : Prop :=
  ∀ env w a, frozen_at env now → w_db w = d → (m env w).1 = Ok a →
    w_db (m env w).2 = d ∧ P a.

Lemma yields_reads {A} (m : M A) now d P : reads m d P → yields m now d P.
Proof. intros H env w a _ Hw E. destruct (H env w Hw) as [H1 H2]. split; [exact H1|by apply H2]. Qed.

Lemma yields_bind {A B} (m : M A) (f : A → M B) now d P Q :
  yields m now d P → (∀ a, P a → yields (f a) now d Q) → yields (m ≫= f) now d Q.
Proof.
  intros Hm Hf env w b He Hw E. unfold mbind, M_bind in *.
  specialize (Hm env w). destruct (m env w) as [[a|e|s] w']; [|done..].
  destruct (Hm a He Hw eq_refl) as [Hd Ha]. by apply (Hf a Ha env w' b).
Qed.

Lemma yields_now now d : yields time_Now now d (λ t, t = now).
Proof. intros env w t He Hw [= <-]. by split. Qed.

Lemma reads_query_eq {A} (f : DB → A) d : reads (query f) d (λ a, a = f d).
Proof. by apply reads_query. Qed.

Lemma reads_visibleAnnouncements units now d :
  reads (visibleAnnouncements units now) d (λ l, l = visible_at d units now).
Proof.
  unfold visibleAnnouncements, Find. eapply reads_bind; [apply reads_query_eq|]. intros l ->.
  by apply reads_ret.
Qed.

Lemma reads_ResidentUnits phone d : phone ≠ "" →
  reads (ResidentUnits phone) d (λ l, l = units_of d phone).
Proof.
  intros H. unfold ResidentUnits. rewrite bool_decide_eq_false_2 by done.
  exact (reads_query_eq (λ d, units_of d phone) d).
Qed.

Definition unread_at (d : DB) (userID : UUID) (l : list Announcement) : Z :=
  Z.of_nat (length (List.filter (λ id, negb (is_read d userID id)) (an_ID <$> l))).

Lemma reads_UnreadCountForResident units userID now d :
  reads (UnreadCountForResident units userID now) d
    (λ n, n = unread_at d userID (visible_at d units now)).
Proof.
  unfold UnreadCountForResident, ListAllVisibleIDs.
  eapply (reads_bind _ _ _ (λ ids, ids = an_ID <$> visible_at d units now)).
  { eapply reads_bind; [apply reads_visibleAnnouncements|]. intros l ->. by apply reads_ret. }
  intros ids ->. case_bool_decide as E.
  - apply reads_ret. unfold unread_at. by rewrite E.
  - eapply reads_bind; [apply reads_query_eq|]. intros r ->. by apply reads_ret.
Qed.

(** What the home page says about announcements. *)
Lemma yields_announcementSummary s u now d :
  ds_annRepo s = true → us_Phone u ≠ "" →
  let visible := visible_at d (units_of d (us_Phone u)) now in
  yields (announcementSummary s u) now d (λ r,
    r.1 = (latest_announcement ∘ marked d (us_ID u)) <$> take 5 visible ∧
    r.2 = unread_at d (us_ID u) visible).
Proof.
  intros Hs Hp visible. unfold announcementSummary. rewrite Hs. cbn [negb].
  eapply yields_bind; [apply yields_reads, reads_map_err, reads_ResidentUnits, Hp|]. intros units ->.
  eapply yields_bind; [apply yields_now|]. intros t ->.
  eapply yields_bind; [apply yields_reads, reads_map_err, reads_UnreadCountForResident|]. intros n ->.
  eapply yields_bind; [apply yields_reads, reads_map_err|].
  { unfold VisibleAnnouncements. eapply reads_bind; [apply reads_visibleAnnouncements|]. intros l ->.
    apply (reads_ret _ _ (λ l, l = (λ a, MkAnnouncementWithRead a false) <$> visible)). done. }
  intros l ->. eapply yields_bind; [apply yields_reads, reads_map_err, reads_query_eq|]. intros r ->.
  apply yields_reads, reads_ret. cbn. split; [|done].
  rewrite newest_announcement_sorted by apply visible_at_sorted.
  case_match; rewrite <- !list_fmap_compose, <- fmap_take; symmetry;
    apply (list_fmap_compose (marked d (us_ID u)) latest_announcement).
Qed.

Lemma slice_first n {A} (l : list A) x :
  slice 0 (if Z.of_nat n >? Z.of_nat (length l) then Z.of_nat (length l) else Z.of_nat n) l = Ok x →
  x = take n l.
Proof.
  unfold slice. destruct (_ && _); [|done]. intros [= <-]. change (Z.to_nat 0) with 0%nat.
  rewrite drop_0. destruct (Z.gtb_spec (Z.of_nat n) (Z.of_nat (length l))).
  - rewrite !take_ge by lia. done.
  - f_equal. lia.
Qed.

Lemma reads_first_rows units now d : units ≠ [] →
  reads (ListForResident_rows units now 1 20) d (λ r,
    r.1 = (λ a, MkAnnouncementWithRead a false) <$> take 20 (visible_at d units now) ∧
    r.2 = Z.of_nat (length (visible_at d units now))).
Proof.
  intros Hu. unfold ListForResident_rows. rewrite bool_decide_eq_false_2 by done.
  change (normalizePage 1 20) with (1, 20). cbv beta iota zeta.
  eapply reads_bind; [apply reads_visibleAnnouncements|]. intros l ->.
  generalize (visible_at d units now) as l. intros l.
  change (mul64 (sub64 1 1) 20) with 0. change (add64 0 20) with (Z.of_nat 20).
  destruct (Z.geb_spec 0 (Z.of_nat (length l))) as [Hle|Hlt].
  - apply reads_ret. by destruct l.
  - eapply reads_bind; [apply reads_lift; intros x Hx; exact (slice_first 20 l x Hx)|].
    intros x ->. by apply reads_ret.
Qed.

(** A page of the resident's list. *)
Lemma yields_first_page u now d : us_Phone u ≠ "" →
  let visible := visible_at d (units_of d (us_Phone u)) now in
  yields (ListForResident (Some u) 1 20) now d (λ r,
    r.1 = marked d (us_ID u) <$> take 20 visible ∧ r.2 = Z.of_nat (length visible)).
Proof.
  intros Hp visible. unfold ListForResident. cbn [signed_in].
  eapply (yields_bind _ _ _ _ (λ v, v = u)); [by apply yields_reads, reads_ret|]. intros v ->.
  eapply yields_bind; [apply yields_reads, reads_query_eq|]. intros units ->.
  assert (visible_at d (remove_dups (units_of d (us_Phone u))) now = visible) as Hv by apply visible_at_dups.
  change (unit_info <$> omap (lives_in d (us_Phone u)) (rows d)) with (units_of d (us_Phone u)).
  case_bool_decide as E.
  - apply yields_reads, reads_ret. rewrite <- Hv, E. unfold visible_at.
    assert (∀ l : list Announcement, List.filter (λ a, isVisible a [])
      (sort_by newest_announcement (List.filter (λ a, in_building [] (an_BuildingID a) && in_window now a) l)) = []) as ->; [|done].
    intros l. induction l; done.
  - eapply yields_bind; [apply yields_now|]. intros t ->.
    eapply (yields_bind _ _ _ _ (λ r, r.1 = (λ a, MkAnnouncementWithRead a false) <$> take 20 visible
      ∧ r.2 = Z.of_nat (length visible))).
    + apply yields_reads. rewrite <- Hv. by apply reads_first_rows.
    + intros [items total] [Hi Ht]. cbn in Hi, Ht. subst items total.
      eapply yields_bind; [apply yields_reads, reads_query_eq|]. intros r ->.
      apply yields_reads, reads_ret. cbn. split; [|done]. by rewrite <- list_fmap_compose.
Qed.
End resident_pages.
