(* ===== verification/Sample.v ===== *)
(** * A sample world

    A small building with its people and one billing period, and an environment
    without failures: the concrete inputs the theorems are applied to. *)

From Stdlib Require Import SpecFloat.
From S2P Require Import Prelude Golang Calendar Errors Engine LateFee Models Store Schema Logic Notification BillingRepo Calc Period BillingLemmas.

#[export] Existing Instance digits_codec.

Definition sample_env : Env := {|
  env_now t := DateUTC 2026 3 20 + Z.of_nat t * Second;
  env_uuid t := (100000 + N.of_nat t)%N;
  env_rand t := Some ((λ i, N.of_nat (7 * i + t)) <$> seq 0 32);
  env_fault _ := None;
  env_numeric v := Some v;
  env_collate a b := str_lt a b;
  env_ilike s pat := Contains s (String.substring 1 (String.length pat - 2) pat);
|}.

(** The same world where every statement fails. *)
Definition failing_env : Env := {|
  env_now := env_now sample_env; env_uuid := env_uuid sample_env;
  env_rand := env_rand sample_env; env_fault _ := Some (EText "connection refused");
  env_numeric := env_numeric sample_env; env_collate := env_collate sample_env; env_ilike := env_ilike sample_env;
|}.

Definition sample_manager : User :=
  MkUser 1 "09120000001" None RoleManager "m" None true 1 1 None.
Definition sample_stranger : User :=
  MkUser 2 "09120000002" None RoleManager "s" None true 1 1 None.
Definition sample_resident : User :=
  MkUser 3 "09120000003" None RoleResident "r" None true 1 1 None.

Definition sample_unit (id : UUID) (number : string) (area : Z) (status : string) : Unit :=
  MkUnit id 10 number None 1 area 0 None 0 None status None 1 1 None.

Definition sample_period (status late : string) (value : spec_float) : BillingPeriod :=
  MkBillingPeriod 1000 10 "فروردین" (DateUTC 2026 3 1) (DateUTC 2026 3 31) (DateUTC 2026 4 10)
    late value status None None None 1 1.

Definition sample_item : BCostItem :=
  MkBCostItem 2000 1000 "نظافت" 1000 "per_area" None [] true [] 1 1.

Definition of_rows {R} (key : R → UUID) (l : list R) : gmap UUID R :=
  list_to_map ((λ r, (key r, r)) <$> l).

Definition sample_db (p : BillingPeriod) : DB :=
  set_periods (of_rows bp_ID [p])
  (set_cost_items (of_rows ci_ID [sample_item])
  (set_units (of_rows u_ID [sample_unit 100 "1" 80 "occupied"; sample_unit 101 "2" 120 "occupied";
                            sample_unit 102 "3" 100 "vacant"])
  (set_persons (of_rows p_ID [MkPerson 50 10 "r" (Some "09120000003") None 1 1 None])
  (set_occupancies (of_rows o_ID
     [MkOccupancy 60 100 50 RelTenant (DateUTC 2026 1 1) None true 1])
  (set_occupant_counts (of_rows oc_ID
     [MkOccupantCount 70 100 2 (DateUTC 2026 1 1) 1; MkOccupantCount 71 101 3 (DateUTC 2026 2 1) 1])
  (set_users (of_rows us_ID [sample_manager; sample_stranger; sample_resident])
  (set_buildings (of_rows b_ID [MkBuilding 10 "b" None 1 1 3 None None None None 1 1 None])
  (set_user_buildings {[ (1%N, 10%N) := MkUserBuilding 1 10 1 ]} empty_db)))))))).

Definition sample_world (d : DB) : World := MkWorld d (MkMock false false) 0.

(** Runs a call in the sample environment, from a given tick. *)
Definition run_at {A} (t : nat) (m : M A) (d : DB) : Res A * DB :=
  let '(r, w) := m sample_env (MkWorld d (MkMock false false) t) in (r, w_db w).

Definition run {A} (m : M A) (d : DB) : Res A * DB := run_at 0 m d.

(** Nobody listens to billing: the wiring before the payment domain is there. *)
Definition NoHook : BalanceRecomputer := {| RecomputeInvoice_hook := None |}.

Lemma NoHook_ok : @BalanceRecomputerOk NoHook.
Proof. intros f id H. discriminate H. Qed.

(** The entries of a map literal in source order: a choice the language allows. *)
Definition source_order : MapOrder := {|
  range_order A l := l;
  range_order_perm A l := reflexivity l;
|}.
