(* ===== verification/PanelTheorems.v ===== *)
(** * Theorems on the panels

    Requests, expenses, announcements and the dashboards. *)

From Stdlib Require Import Ascii SpecFloat.
From S2P Require Import Prelude Golang Calendar Errors Models Store Schema Logic Notification Crypto Token AuthUser AuthHandlers BillingRepo BuildingRepo Http Maintenance PaymentRepo Expense Announcement Dashboard NotificationHandlers BuildingSpec AuthSpec AccountSpec PanelSpec RequestSpec ExpenseSpec AnnouncementSpec DashboardSpec Sample.

(** ** A sample *)

#[local] Instance silent : PushNotifier := NoopNotifier.
#[local] Existing Instance tehran.

Definition all_services : Services :=
  MkServices (MkMaintenanceService true true) (MkAnnouncementService true true)
    (MkDashboardService true true).

Definition sample_request : MaintenanceRequest :=
  MkMaintenanceRequest 900 10 (Some 100%N) 3 "آسانسور" CatElevator None None None PriUrgent StatusNew
    None None None 1 1 None.

Definition sample_expense : Expense :=
  MkExpense 910 10 "نظافت" CatCleaning 5000 (DateUTC 2026 3 5) None None None ApprovalPending
    (Some 1%N) 1 1 None.

Definition sample_announcement : Announcement :=
  MkAnnouncement 920 10 "قطع آب" "فردا" AudienceFloor (Some "1") None None None (Some 1%N) 5 5.

Definition panel_db : DB :=
  set_maintenance (of_rows mr_ID [sample_request])
  (set_expenses (of_rows ex_ID [sample_expense])
  (set_announcements (of_rows an_ID [sample_announcement])
  (sample_db (sample_period PeriodDraft "none" (S754_zero false))))).

(** A request of a user about an object, and about a page. *)
Definition call_on (u : User) (id : UUID) : HttpCall :=
  MkHttpCall (Some u) (λ _, uuid_String id) (λ _, "").

Definition call_page (u : User) (page : string) : HttpCall :=
  MkHttpCall (Some u) (λ _, "") (λ name, if String.eqb name "page" then page else "").

Lemma panel_run {codec : UuidCodec} {pusher : PushNotifier} {loc : Location} (R : relation DB)
    `{!PreOrder R} sv d d' :
  (∀ c call, Stays R (serve_panel sv c call)) → rtc (panel_step sv) d d' → R d d'.
Proof.
  intros HR H. induction H as [d|d1 d2 d3 [c call env w] _ IH]; [reflexivity|].
  etransitivity; [|exact IH]. apply stays_run, HR.
Qed.

(** ** Maintenance requests *)

(** Over every sequence of calls of the panel endpoints no maintenance
    request is lost or resubmitted; its status moves only along the allowed
    transitions, so that a closed request stays closed with its closing time; and
    well-formed requests stay well formed: a title, a known category, priority
    and status, no negative cost, and a closing time exactly when closed. *)
Theorem requests_follow_workflow {codec : UuidCodec} {pusher : PushNotifier} {loc : Location}
    (sv : Services) (d d' : DB) (Hrun : rtc (panel_step sv) d d') :
  Kept_rows Later d d' ∧ (Fine_rows RequestOk d → Fine_rows RequestOk d').
Proof. apply (panel_run (HistoryStep Later RequestOk) sv); [apply steps_panel|done]. Qed.

Definition take_up : PanelCall :=
  PPatchRequest (Some (MkUpdateInput (Some StatusUnderReview) None (Some "1500") None)).

Definition taken_up : DB :=
  w_db (serve_panel all_services (call_on sample_manager 900) take_up sample_env
    (sample_world panel_db)).2.

Lemma requests_follow_workflow_witness :
  ∃ m, row_at taken_up 900 = Some m ∧ Later sample_request m ∧ mr_Status m = StatusUnderReview.
Proof.
  destruct (proj1 (requests_follow_workflow all_services panel_db taken_up
    (rtc_once _ _ (panel_call all_services (call_on sample_manager 900) take_up sample_env
      (sample_world panel_db)))) 900%N sample_request) as (m & Hm & Hl); [vm_compute; reflexivity|].
  exists m. split; [exact Hm|]. split; [exact Hl|].
  assert (mr_Status <$> row_at (R := MaintenanceRequest) taken_up 900 = Some StatusUnderReview) as E
    by (vm_compute; reflexivity).
  rewrite Hm in E. by injection E.
Defined.

(** ** Expenses *)

(** Over every sequence of calls of the panel endpoints no expense is lost,
    moves to another building or changes its author; a deleted one is final; and
    well-formed expenses stay well formed: a title, a known category and approval
    status and a positive amount. *)
Theorem expenses_kept {codec : UuidCodec} {pusher : PushNotifier} {loc : Location}
    (sv : Services) (d d' : DB) (Hrun : rtc (panel_step sv) d d') :
  Kept_rows Amended d d' ∧ (Fine_rows ExpenseOk d → Fine_rows ExpenseOk d').
Proof. apply (panel_run (HistoryStep Amended ExpenseOk) sv); [apply expenses_panel|done]. Qed.

Definition deleted_db : DB :=
  w_db (serve_panel all_services (call_on sample_manager 910) PDeleteExpense sample_env
    (sample_world panel_db)).2.

Lemma expenses_kept_witness :
  ∃ e, row_at deleted_db 910 = Some e ∧ Amended sample_expense e ∧ live_expense e = false.
Proof.
  destruct (proj1 (expenses_kept all_services panel_db deleted_db
    (rtc_once _ _ (panel_call all_services (call_on sample_manager 910) PDeleteExpense sample_env
      (sample_world panel_db)))) 910%N sample_expense) as (e & He & Ha); [vm_compute; reflexivity|].
  exists e. split; [exact He|]. split; [exact Ha|].
  assert (live_expense <$> row_at (R := Expense) deleted_db 910 = Some false) as E
    by (vm_compute; reflexivity).
  rewrite He in E. by injection E.
Defined.

(** ** Announcements *)

(** C36: over every sequence of calls of the panel endpoints the announcements
    stay well formed: a title, a body, a publish window in order, and an audience
    that is everybody, a block, a floor written in decimal or an existing unit of
    the announcement's own building. *)
Theorem announcements_well_formed {codec : UuidCodec} {pusher : PushNotifier} {loc : Location}
    (sv : Services) (d d' : DB) (Hrun : rtc (panel_step sv) d d') (Hok : AnnouncementsOk d) :
  AnnouncementsOk d'.
Proof.
  apply (panel_run AnnouncementsStep sv d d'); [apply announcements_panel|done|done].
Qed.

Definition to_floor (floor : string) : PanelCall :=
  PCreateAnnouncement (Some (MkAnnouncementInput "جلسه" "شنبه" AudienceFloor (Some floor) None None None)).

Definition published : DB :=
  w_db (serve_panel all_services (call_on sample_manager 10) (to_floor "+2x") sample_env
    (sample_world panel_db)).2.

Lemma panel_db_announcements : AnnouncementsOk panel_db.
Proof.
  intros id a. unfold row_at, panel_db. cbn. destruct (decide (id = 920%N)) as [->|Hne].
  - intros [= <-]. split; cbn; [done|by vm_compute|exact (aud_floor _ _ 1)|done].
  - rewrite lookup_insert_ne, lookup_empty by done. done.
Qed.

Lemma announcements_well_formed_witness : AnnouncementsOk published.
Proof.
  exact (announcements_well_formed all_services panel_db published
    (rtc_once _ _ (panel_call all_services (call_on sample_manager 10) (to_floor "+2x") sample_env
      (sample_world panel_db))) panel_db_announcements).
Defined.

(** C19: while an announcement is within its window, the active users it notifies
    are exactly those it opens for: the join of [TargetUserIDs] in the database
    and the matching of [IsVisible] in memory select the same residents. *)
Theorem targets_are_viewers {codec : UuidCodec} (env : Env) (w : World) (u : User) (id : UUID)
    (a : Announcement) (Hfaultless : ∀ t, env_fault env t = None)
    (Hwindow : ∀ t, in_window (env_now env t) a = true)
    (Hrow : row_at (w_db w) id = Some a) (Hok : AnnouncementOk (w_db w) a)
    (Hu : row_at (w_db w) (us_ID u) = Some u)
    (Hactive : us_DeletedAt u = None ∧ us_IsActive u = true) :
  (∃ ids, (TargetUserIDs a env w).1 = Ok ids ∧ us_ID u ∈ ids) ↔
  (∃ r, (GetForResident (Some u) id env w).1 = Ok (MkAnnouncementWithRead a r)).
Proof.
  destruct (audience_unit_Some _ _ Hok) as [P HP]. destruct Hactive as [Hdel Hact].
  pose proof (targeted_visible _ _ _ _ Hok HP Hdel Hact) as Hv. cbv zeta in Hv.
  unfold TargetUserIDs. rewrite HP. unfold GetForResident, signed_in, visible_announcement,
    residentUnits, IsVisible_row, Get_announcement, ReadsForUser, query, First_id, stmt, map_err,
    attempt, time_Now. unfold mbind, M_bind, mret, M_ret.
  do 4 (rewrite ?Hfaultless, ?Hrow; cbn). rewrite Hwindow.
  change (omap (lives_in (w_db w) (us_Phone u)) (rows (w_db w))) with (homes (w_db w) (us_Phone u)).
  cbn [andb]. rewrite <- Hv.
  assert (us_ID u ∈ us_ID <$> List.filter (targeted (w_db w) (an_BuildingID a) P) (rows (w_db w))
    ↔ targeted (w_db w) (an_BuildingID a) P u = true) as Ht by by apply targeted_iff.
  destruct (targeted (w_db w) (an_BuildingID a) P u); cbn.
  - rewrite ?Hfaultless. cbn. split; intros _; [by eexists|eexists; split; [done|by apply Ht]].
  - split; [intros (ids & [= <-] & Hin); by apply Ht in Hin|by intros [r Hr]].
Qed.

Lemma targets_are_viewers_witness :
  ∃ r, (GetForResident (Some sample_resident) 920 sample_env (sample_world panel_db)).1
    = Ok (MkAnnouncementWithRead sample_announcement r).
Proof.
  refine (proj1 (targets_are_viewers sample_env (sample_world panel_db) sample_resident 920
    sample_announcement (λ _, eq_refl) (λ _, eq_refl) eq_refl (panel_db_announcements 920%N _ eq_refl)
    eq_refl (conj eq_refl eq_refl)) _).
  exists [3%N]. split; [vm_compute; reflexivity|by left].
Defined.

Lemma huge_page_rows {codec : UuidCodec} units now env w :
  (∀ t, env_fault env t = None) → units ≠ [] →
  ∃ why w', ListForResident_rows units now 576460752303423489 20 env w = (Panic why, w').
Proof.
  intros Hf Hu. unfold ListForResident_rows. rewrite bool_decide_eq_false_2 by done.
  change (normalizePage 576460752303423489 20) with (576460752303423489, 20). cbv beta iota zeta.
  unfold visibleAnnouncements, Find, query, stmt. unfold mbind, M_bind, mret, M_ret. rewrite Hf. cbn.
  set (l := List.filter _ _).
  change (mul64 (sub64 576460752303423489 1) 20) with (-6917529027641081856).
  destruct (Z.geb_spec (-6917529027641081856) (Z.of_nat (length l))); [lia|]. cbn. eauto.
Qed.

(** A page number whose offset overflows makes the slice bounds negative: the
    list of a resident with a home panics, whatever there is to see. *)
Theorem huge_page_panics {codec : UuidCodec} (env : Env) (w : World) (u : User)
    (Hfaultless : ∀ t, env_fault env t = None)
    (Hhome : remove_dups (units_of (w_db w) (us_Phone u)) ≠ []) :
  ∃ why, (listForResident (call_page u "576460752303423489") env w).1 = Panic why.
Proof.
  unfold listForResident, replying, current_user, ListForResident, residentUnits, attempt, query,
    stmt, signed_in, time_Now.
  change (page_param (call_page u "576460752303423489")) with 576460752303423489.
  change (size_param (call_page u "576460752303423489")) with 20.
  cbn [hc_User call_page]. unfold mbind, M_bind, mret, M_ret. rewrite !Hfaultless. cbn.
  change (unit_info <$> omap (lives_in (w_db w) (us_Phone u)) (rows (w_db w)))
    with (units_of (w_db w) (us_Phone u)).
  rewrite bool_decide_eq_false_2 by done. cbn.
  match goal with |- context [ListForResident_rows ?l ?t _ _ env ?v] =>
    destruct (huge_page_rows l t env v Hfaultless Hhome) as (why & w' & ->) end.
  by exists why.
Qed.

Lemma huge_page_panics_witness :
  ∃ why, (listForResident (call_page sample_resident "576460752303423489") sample_env
    (sample_world panel_db)).1 = Panic why.
Proof.
  refine (huge_page_panics sample_env (sample_world panel_db) sample_resident (λ _, eq_refl) _).
  vm_compute. discriminate.
Defined.

(** ** The endpoints answer *)

Lemma replying_answers {A} err (m : M (Reply A)) env w e :
  (status_of (replying err m) env w).1 ≠ Err e.
Proof.
  unfold status_of, replying, attempt. unfold mbind, M_bind, mret, M_ret.
  by destruct (m env w) as [[a|x|x] w'].
Qed.

(** Every call of the panel endpoints, whatever the payload, the parameters
    and the failures of the database, is answered: no error escapes the handlers
    and none panics, the resident's list as long as its page number is at most
    2^56. *)
Theorem panel_answers {codec : UuidCodec} {pusher : PushNotifier} {loc : Location}
    (sv : Services) (c : HttpCall) (call : PanelCall) (env : Env) (w : World)
    (Hpage : call = PMyAnnouncements → page_param c ≤ 2 ^ 56) :
  ∃ status, (serve_panel sv c call env w).1 = Ok status.
Proof.
  pose proof (answers_panel sv c call Hpage (w_db w) env w eq_refl) as Hp. cbv beta in Hp.
  assert (∀ e, (serve_panel sv c call env w).1 ≠ Err e) as He.
  { intros e. destruct call; apply replying_answers. }
  destruct (serve_panel sv c call env w).1 as [s|e|x]; [by exists s|by destruct (He e)|by destruct (Hp x)].
Qed.

Lemma panel_answers_witness :
  ∃ status, (serve_panel all_services (call_page sample_resident "3") PMyAnnouncements failing_env
    (sample_world panel_db)).1 = Ok status.
Proof.
  apply panel_answers. intros _. vm_compute. discriminate.
Defined.

(** ** The dashboard *)

(** C35: the overview of a building and the financial report of the month the
    overview names tell the same story: the report accepts the month's text, and
    on the same tables its income, expense and debt are those of the overview. *)
Theorem overview_agrees_with_report {codec : UuidCodec} {loc : Location} (env env' : Env)
    (w w' : World) (u v : User) (b : UUID) (bd : BuildingDashboard)
    (Hbd : (BuildingDashboard_of (Some u) b env w).1 = Ok bd) (Hsame : w_db w' = w_db w)
    (Hyear : 1 ≤ Year (local (bd_GeneratedAt bd)) ≤ 9999) :
  is_Some (parseMonth (bd_Month bd)) ∧
  ∀ rep, (Report v b (bd_Month bd) env' w').1 = Ok rep →
    fr_MonthlyIncome rep = bd_MonthIncome bd ∧ fr_MonthlyExpense rep = bd_MonthExpense bd ∧
    fr_TotalDebt rep = bd_TotalDebt bd.
Proof.
  destruct (proj2 (reads_overview u b (w_db w) env w eq_refl) bd Hbd)
    as [(now & Hm & Hnow & Hi & He) Hd _]. subst now.
  pose proof (parseMonth_FormatMonth _ _ Hyear (Month_range (local (bd_GeneratedAt bd)))) as Hp.
  rewrite <- Hm in Hp. split; [by rewrite Hp|]. intros rep Hrep.
  destruct (proj2 (reads_Report v b _ _ _ (w_db w) Hp env' w' Hsame) rep Hrep) as [Ri Re Rd].
  rewrite Hi, He, Hd. auto.
Qed.

Definition overview_of (d : DB) : option BuildingDashboard :=
  match (BuildingDashboard_of (Some sample_manager) 10 sample_env (sample_world d)).1 with
  | Ok bd => Some bd
  | _ => None
  end.

Lemma overview_agrees_with_report_witness :
  ∃ bd rep, overview_of panel_db = Some bd ∧ bd_Month bd = "2026-03" ∧ bd_MonthExpense bd = 5000 ∧
    (Report sample_manager 10 "2026-03" sample_env (sample_world panel_db)).1 = Ok rep ∧
    fr_MonthlyExpense rep = bd_MonthExpense bd.
Proof.
  destruct (BuildingDashboard_of (Some sample_manager) 10 sample_env (sample_world panel_db)).1
    as [bd| |] eqn:E; [|vm_compute in E; discriminate E..].
  destruct (Report sample_manager 10 "2026-03" sample_env (sample_world panel_db)).1
    as [rep| |] eqn:R; [|vm_compute in R; discriminate R..].
  assert (bd_Month bd = "2026-03" ∧ bd_MonthExpense bd = 5000 ∧ Year (local (bd_GeneratedAt bd)) = 2026)
    as (Hm & He & Hy) by (vm_compute in E; injection E as <-; vm_compute; auto).
  exists bd, rep. unfold overview_of. rewrite E. split_and!; [done..|].
  destruct (overview_agrees_with_report sample_env sample_env (sample_world panel_db)
    (sample_world panel_db) sample_manager sample_manager 10 bd E eq_refl ltac:(rewrite Hy; lia))
    as [_ H]. rewrite Hm in H. apply (H rep R).
Defined.

(** Without a home there is nothing to see. *)
Lemma no_units_no_homes d phone :
  remove_dups (o_UnitID <$> occupied_by phone d) = [] → units_of d phone = [].
Proof.
  intros H. destruct (units_of d phone) as [|x l] eqn:E; [done|exfalso].
  assert (x ∈ units_of d phone) as Hx by (rewrite E; by left).
  apply list_elem_of_fmap in Hx as (un & _ & (o & Ho & Hl)%list_elem_of_omap).
  unfold lives_in in Hl. apply bind_Some in Hl as (p & Hp & Hl). apply bind_Some in Hl as (u & _ & Hl).
  destruct (bool_decide (p_Phone p = Some phone)) eqn:E1; [|done].
  destruct (is_null (p_DeletedAt p)) eqn:E2; [|done]. destruct (is_null (u_DeletedAt u)); [|done].
  destruct (is_null (o_EndDate o)) eqn:E3; [|done].
  apply (not_elem_of_nil (o_UnitID o)). rewrite <- H. apply elem_of_remove_dups, list_elem_of_fmap_2.
  unfold occupied_by. apply list_elem_of_In, filter_In. split; [by apply list_elem_of_In|].
  unfold person_with_phone. rewrite Hp, E2, E3. apply bool_decide_eq_true in E1. rewrite E1.
  cbn. rewrite !andb_true_r. unfold opt_eqb. by rewrite bool_decide_eq_true_2.
Qed.

(** C37: the home page of a resident and the resident's list of announcements
    agree: at one instant and on the same tables the home page shows the first
    five entries of the first page, with the same read marks, and counts as unread
    the visible announcements without a read mark. *)
Theorem home_agrees_with_list {codec : UuidCodec} {loc : Location} (s : DashboardService)
    (env env' : Env) (w w' : World) (u : User) (now : Time) (hs : HomeSummary)
    (page : list AnnouncementWithRead) (total : Z)
    (Hrepo : ds_annRepo s = true) (Hphone : us_Phone u ≠ "")
    (Hclock : frozen_at env now ∧ frozen_at env' now) (Hsame : w_db w' = w_db w)
    (Hhome : (Home s (Some u) env w).1 = Ok hs)
    (Hpage : (ListForResident (Some u) 1 20 env' w').1 = Ok (page, total)) :
  hs_LatestAnnouncements hs = latest_announcement <$> take 5 page ∧
  hs_UnreadAnnouncementCount hs
    = unread_at (w_db w) (us_ID u) (visible_at (w_db w) (units_of (w_db w) (us_Phone u)) now).
Proof.
  destruct Hclock as [Hc Hc'].
  destruct (yields_first_page u now (w_db w) Hphone env' w' _ Hc' Hsame Hpage) as [_ [Hl _]].
  cbn in Hl. subst page. set (visible := visible_at _ _ _) in *.
  refine (proj2 ((_ : yields (Home s (Some u)) now (w_db w) (λ hs,
    hs_LatestAnnouncements hs = latest_announcement <$> take 5 (marked (w_db w) (us_ID u) <$> take 20 visible)
    ∧ hs_UnreadAnnouncementCount hs = unread_at (w_db w) (us_ID u) visible)) env w hs Hc eq_refl Hhome)).
  rewrite <- fmap_take, take_take, <- list_fmap_compose. change (5 `min` 20)%nat with 5%nat.
  unfold Home. eapply yields_bind; [apply yields_reads, reads_query_eq|]. intros ids ->.
  eapply yields_bind; [apply yields_now|]. intros t ->. cbv zeta. case_bool_decide as E.
  - apply yields_reads, reads_ret. unfold visible. rewrite (no_units_no_homes _ _ E).
    assert (visible_at (w_db w) [] now = []) as ->; [|done]. unfold visible_at.
    by induction (rows (R := Announcement) (w_db w)).
  - eapply (yields_bind _ _ _ _ (λ _, True)); [apply yields_reads, reads_only; calls_tac|].
    intros [payable latest] _.
    eapply (yields_bind _ _ _ _ (λ _, True)); [apply yields_reads, reads_only; calls_tac|].
    intros [n req] _. eapply yields_bind; [by apply yields_announcementSummary|].
    intros [l k] [El Ek]. cbn in El, Ek. subst l k. by apply yields_reads, reads_ret.
Qed.

(** The clock of the sample stands still. *)
Definition frozen_env : Env := {|
  env_now _ := DateUTC 2026 3 20;
  env_uuid := env_uuid sample_env; env_rand := env_rand sample_env; env_fault := env_fault sample_env;
  env_numeric := env_numeric sample_env; env_collate := env_collate sample_env; env_ilike := env_ilike sample_env;
|}.

Lemma home_agrees_with_list_witness :
  ∃ hs page total, (Home (sv_Dashboard all_services) (Some sample_resident) frozen_env
      (sample_world panel_db)).1 = Ok hs ∧
    (ListForResident (Some sample_resident) 1 20 frozen_env (sample_world panel_db)).1
      = Ok (page, total) ∧ total = 1 ∧
    hs_LatestAnnouncements hs = latest_announcement <$> take 5 page.
Proof.
  destruct (Home (sv_Dashboard all_services) (Some sample_resident) frozen_env
    (sample_world panel_db)).1 as [hs| |] eqn:E; [|vm_compute in E; discriminate E..].
  destruct (ListForResident (Some sample_resident) 1 20 frozen_env (sample_world panel_db)).1
    as [[page total]| |] eqn:R; [|vm_compute in R; discriminate R..].
  exists hs, page, total. split_and!; [done..|vm_compute in R; by injection R as <- <-|].
  apply (home_agrees_with_list (sv_Dashboard all_services) frozen_env frozen_env (sample_world panel_db)
    (sample_world panel_db) sample_resident (DateUTC 2026 3 20) hs page total eq_refl); [done|by split|done|exact E|exact R].
Defined.

(** ** What the code accepts or shows against its documentation *)

(** [parseMonth] means to be strict, but a sign passes for a digit. *)
Theorem parseMonth_accepts_signs : parseMonth "2026-+1" = Some (2026, 1) ∧ parseMonth "+026-03" = Some (26, 3).
Proof. vm_compute. by split. Qed.

(** A floor only has to start with a number. *)
Theorem floor_suffix_ignored : Sscanf_d "3abc" = Some 3.
Proof. vm_compute. reflexivity. Qed.
