(* ===== verification/BuildingTheorems.v ===== *)
(** * Theorems on the registry of buildings

    The managers of a building, the occupancies of a unit, the national-id
    check, and the operations that can never succeed. *)

From Stdlib Require Import Ascii.
From S2P Require Import Prelude Golang Errors Models Store Schema Logic Notification BillingRepo BuildingRepo BuildingService Occupancy BuildingSpec Sample PaymentRepo.

#[local] Existing Instance source_order.

(** ** Managers *)

Definition draft_db : DB := sample_db (sample_period PeriodDraft "none" (SpecFloat.S754_zero false)).

Definition two_managers : DB := insert_grant 2 10 1 draft_db.

(** Whatever calls of the registry run, in whatever environment, a building
    that has a manager keeps at least one. *)
Theorem managers_never_emptied {map_order : MapOrder} (d d' : DB) (b : UUID)
    (Hrun : rtc building_step d d') (Hmanaged : managed d b) : managed d' b.
Proof.
  revert Hmanaged. induction Hrun as [d|d1 d2 d3 [op env w] _ IH]; [done|]. intros H. apply IH.
  exact (holds_run _ _ env w (building_managed op (w_db w)) b H).
Qed.

Lemma managers_never_emptied_witness :
  managed (w_db (run_building (OpRevokeManager (Some sample_manager) 10 2) sample_env
    (sample_world two_managers)).2) 10.
Proof.
  refine (managers_never_emptied _ _ 10 (rtc_once _ _ (building_call _ _ _)) _).
  exists 1%N. vm_compute. reflexivity.
Defined.

(** What [RevokeManager] promises: the answer, [None] for success, as a function
    of the grants, in the order of the rules: whoever does not manage the building
    is refused first. *)
Definition revoke_spec (d : DB) (caller : User) (b user : UUID) : option GoError :=
  if negb (is_manager d (us_ID caller) b) then Some (EApp (Forbidden msgForbidden))
  else if negb (is_manager d user b) then Some (EApp (NotFound msgGrantNF))
  else if count_managers d b <=? 1 then Some (EApp (Conflict msgLastManager))
  else if bool_decide (user = us_ID caller) then Some (EApp (BadRequest msgSelfRevoke))
  else None.

(** C20: for a building that exists and without failures of the database,
    [RevokeManager] implements its specification: the prescribed refusal with
    nothing changed, or success with exactly that grant gone. For a missing building
    the comment of [authorizedBuilding] and the code disagree
    ([stranger_learns_of_building] below). *)
Theorem RevokeManager_refines (env : Env) (w : World) (caller : User) (b user : UUID)
    (Hbuilding : is_Some (row_at (R := Building) (w_db w) b))
    (Hfaultless : ∀ t, env_fault env t = None) :
  let d := w_db w in
  let '(r, w') := RevokeManager (Some caller) b user env w in
  match revoke_spec d caller b user with
  | Some e => r = Err e ∧ w_db w' = d
  | None => r = Ok tt ∧
      w_db w' = set_user_buildings (delete (user, b) (db_user_buildings d)) d
  end.
Proof.
  unfold RevokeManager, revoke_checks, authorizedBuilding, FindBuilding, CanManagerAccess,
    CountBuildingManagers, RevokeManagerGuarded, revoke_spec, First_id, query, stmt, map_err.
  unfold mbind, M_bind. rewrite !Hfaultless.
  destruct Hbuilding as [bu Hb]. rewrite Hb. cbn.
  apply row_at_Some in Hb as Hk. destruct Hk as [_ Hk]. cbn in Hk. rewrite Hk, Hfaultless.
  destruct (is_manager (w_db w) (us_ID caller) b) eqn:Hc; cbn; [|done]. rewrite Hfaultless.
  destruct (is_manager (w_db w) user b) eqn:Hu; cbn; [|done]. rewrite Hfaultless.
  destruct (count_managers (w_db w) b <=? 1) eqn:Hn; cbn; [done|].
  case_bool_decide; cbn; [done|]. rewrite Hfaultless. unfold revoke_exec.
  assert (count_managers (w_db w) b >? 1 = true) as -> by lia. by rewrite !Hu.
Qed.

Lemma RevokeManager_refines_witness :
  let '(r, w') := RevokeManager (Some sample_manager) 10 2 sample_env (sample_world two_managers) in
  r = Ok tt ∧ w_db w' = set_user_buildings
    (delete (2%N, 10%N) (db_user_buildings (w_db (sample_world two_managers))))
    (w_db (sample_world two_managers)).
Proof.
  pose proof (RevokeManager_refines sample_env (sample_world two_managers) sample_manager 10 2
    ltac:(vm_compute; eexists; reflexivity) (λ _, eq_refl)) as H. cbv zeta in H.
  assert (revoke_spec (w_db (sample_world two_managers)) sample_manager 10 2 = None) as E
    by (vm_compute; reflexivity).
  rewrite E in H. exact H.
Defined.

(** A caller without permission gets 403 for a building that exists and 404 for one
    that does not, in every operation that loads the building before the
    permission; the comment promises 403 in both cases. *)
Theorem stranger_learns_of_building :
  let stranger := Some sample_stranger in
  (run (authorizedBuilding stranger 10) draft_db).1 = Err (EApp (Forbidden msgForbidden)) ∧
  (run (authorizedBuilding stranger 11) draft_db).1 = Err (EApp (NotFound msgBuildingNF)) ∧
  (run (RevokeManager stranger 11 1) draft_db).1 = Err (EApp (NotFound msgBuildingNF)).
Proof. vm_compute. repeat split. Qed.

(** The guard inside the DELETE does not order concurrent statements. Two
    managers who revoke each other, both statements starting before either has
    finished, both succeed: the building is left without managers. *)
Theorem concurrent_revokes_empty_building :
  let d := two_managers in
  let other := sample_stranger in
  (run (revoke_checks (Some sample_manager) 10 2) d).1 = Ok tt ∧
  (run (revoke_checks (Some other) 10 1) d).1 = Ok tt ∧
  let '(n1, d1) := revoke_exec 2 10 d d in
  let '(n2, d2) := revoke_exec 1 10 d d1 in
  n1 = 1 ∧ n2 = 1 ∧ count_managers d 10 = 2 ∧ count_managers d2 10 = 0.
Proof. vm_compute. repeat split. Qed.

(** ** Occupancies *)

(** Over every sequence of registry calls no occupancy disappears, changes
    hands or changes once it is closed; and when the units start with at most
    one open occupancy of a relationship they keep at most one. *)
Theorem occupancies_kept {map_order : MapOrder} (d d' : DB) (Hrun : rtc building_step d d') :
  HistoryKept d d' ∧ ∀ rel, OneOpen rel d → OneOpen rel d'.
Proof.
  induction Hrun as [d|d1 d2 d3 [op env w] _ [IH1 IH2]]; [by split; [reflexivity|]|].
  pose proof (holds_run _ _ env w (building_history op (w_db w))) as H1.
  split; [exact (transitivity (R := HistoryKept) H1 IH1)|]. intros rel H. apply IH2.
  exact (holds_run _ _ env w (building_open rel op (w_db w)) H).
Qed.

Lemma sample_one_open rel : OneOpen rel draft_db.
Proof.
  assert (∀ i (o : Occupancy), row_at draft_db i = Some o → i = 60%N) as H.
  { intros i o. unfold row_at, draft_db, sample_db. cbn.
    destruct (decide (i = 60%N)) as [->|Hne]; [done|].
    rewrite lookup_insert_ne by done. by rewrite lookup_empty. }
  intros i j a b Ha Hb _ _ _ _ _. by rewrite (H _ _ Ha), (H _ _ Hb).
Qed.

Definition next_tenant : OccupancyInput := MkOccupancyInput 50 RelTenant (DateUTC 2026 4 1) None.

Lemma occupancies_kept_witness :
  OneOpen RelTenant (w_db (run_building (OpAddOccupancy (Some sample_manager) 100 next_tenant) sample_env
    (sample_world draft_db)).2).
Proof.
  refine (proj2 (occupancies_kept _ _ (rtc_once _ _ (building_call
    (OpAddOccupancy (Some sample_manager) 100 next_tenant) sample_env (sample_world draft_db)))) _ _).
  exact (sample_one_open RelTenant).
Defined.

Lemma reads_lift_ok d (r : Res unit) : reads (lift r) d (λ _, r = Ok tt).
Proof. apply reads_lift. by intros [] ->. Qed.

(** What a successful [AddOccupancy] means. *)
Record AddOccupancyOk (manager : option User) (unitID : UUID) (i : OccupancyInput)
    (o : Occupancy) (d d' : DB) : Prop := {
  ao_scope : ∃ (u : Unit) (p : Person), row_at d unitID = Some u ∧
    row_at d (oin_PersonID i) = Some p ∧ in_scope_of manager d (u_BuildingID u) ∧
    p_BuildingID p = u_BuildingID u;
  ao_input : occupancy_input_ok i = Ok tt;
  ao_row : ∃ id now, o = stamp now (new_occupancy id unitID i);
  ao_tables : OccupancyAdded o d d';
}.

Lemma holds_AddOccupancy manager unitID i d :
  holds (AddOccupancy manager unitID i) d (λ r d',
    match r with Ok o => AddOccupancyOk manager unitID i o d d' | _ => d' = d end).
Proof.
  unfold AddOccupancy. apply holds_bind. eapply holds_mono; [apply reads_authorizedUnit|].
  intros [u|e|s] d1 [-> Hu]; cbn [after]; [|done..].
  destruct (Hu u eq_refl) as [Hrow Hscope].
  apply holds_bind. eapply holds_mono; [apply reads_lift_ok|].
  intros [[]|e|s] d1 [-> Hin]; cbn [after]; [|done..].
  apply holds_bind. eapply holds_mono; [apply reads_authorizedPerson|].
  intros [p|e|s] d1 [-> Hp]; cbn [after]; [|done..]. destruct (Hp p eq_refl) as [Hprow _].
  case_bool_decide as Hb; cbn [negb]; [|by apply holds_fail].
  apply holds_bind, holds_uuid. intros id. cbn [after].
  apply holds_map_err, holds_CreateOccupancy; [done..|]. intros now d' H.
  split; [by exists u, p|by apply (Hin tt)|by exists id, now|exact H].
Qed.

(** [AddOccupancy] either changes nothing, or the caller manages the unit's
    building, the person is of that building, the dates are in order, and then:
    the row is stored, every open occupancy of the unit with the relationship is
    closed on the day before the new start (but not before its own), and no
    other row of any table changes. *)
Theorem AddOccupancy_outcome (env : Env) (w : World) (manager : option User) (unitID : UUID)
    (i : OccupancyInput) :
  match (AddOccupancy manager unitID i env w).1 with
  | Ok o => AddOccupancyOk manager unitID i o (w_db w) (w_db (AddOccupancy manager unitID i env w).2)
  | _ => w_db (AddOccupancy manager unitID i env w).2 = w_db w
  end.
Proof. exact (holds_run _ _ env w (holds_AddOccupancy manager unitID i (w_db w))). Qed.

(** The end date of the new occupancy plays no part in closing the open one:
    recording a past tenancy, over before the current one began, ends the current
    tenant's, and the new row is active although it has an end date. *)
Theorem past_tenancy_evicts_tenant :
  let past := MkOccupancyInput 50 RelTenant (DateUTC 2020 1 1) (Some (DateUTC 2020 12 31)) in
  let '(r, d') := run (AddOccupancy (Some sample_manager) 100 past) draft_db in
  (∃ o, r = Ok o ∧ o_EndDate o = Some (DateUTC 2020 12 31) ∧ o_IsActive o = true) ∧
  (∃ o, row_at draft_db 60 = Some o ∧ open_tenant o = true) ∧
  (∃ o, row_at d' 60 = Some o ∧ open_tenant o = false) ∧
  (run (ResidentUnitIDs "09120000003") draft_db).1 = Ok [100%N] ∧
  (run (ResidentUnitIDs "09120000003") d').1 = Ok [].
Proof.
  vm_compute. split; [eexists; by split_and!|]. split; [eexists; by split_and!|].
  split; [eexists; by split_and!|]. done.
Qed.

(** The open occupancy of any relationship is closed, not a tenant's only: a second
    owner of the unit ends the ownership of the first, although several owners of a
    unit are to coexist. *)
Theorem second_owner_ends_first :
  let owner := MkOccupancyInput 50 RelOwner (DateUTC 2026 1 1) None in
  let second := MkOccupancyInput 51 RelOwner (DateUTC 2026 4 1) None in
  let d := set_persons (<[51%N := MkPerson 51 10 "s" None None 1 1 None]> (db_persons draft_db)) draft_db in
  let '(r1, d1) := run (AddOccupancy (Some sample_manager) 100 owner) d in
  let '(r2, d2) := run_at 500 (AddOccupancy (Some sample_manager) 100 second) d1 in
  ∃ o1 o2, r1 = Ok o1 ∧ r2 = Ok o2 ∧
    (o_EndDate <$> row_at d1 (o_ID o1)) = Some None ∧
    (o_EndDate <$> row_at d2 (o_ID o1)) = Some (Some (DateUTC 2026 3 31)) ∧
    (o_PersonID <$> row_at d2 (o_ID o2)) = Some 51%N ∧
    (o_EndDate <$> row_at d2 (o_ID o2)) = Some None.
Proof. vm_compute. do 2 eexists. by split_and!. Qed.

(** ** The national id *)

(** The check digit a remainder asks for. *)
Definition check_digit (r : Z) : Z := if r <? 2 then r else 11 - r.

Lemma list_ascii_app s1 s2 :
  String.list_ascii_of_string (s1 +:+ s2) =
  String.list_ascii_of_string s1 ++ String.list_ascii_of_string s2.
Proof. induction s1 as [|c s1 IH]; [done|]. simpl. by rewrite <- IH. Qed.

Lemma digit_of_range c : 0 ≤ digit_of c < 256.
Proof. unfold digit_of. apply Z.mod_pos_bound. lia. Qed.

Lemma digit_of_inj c c' : digit_of c = digit_of c' → c = c'.
Proof.
  unfold digit_of. intros E. pose proof (nat_ascii_bounded c). pose proof (nat_ascii_bounded c').
  rewrite <- (ascii_nat_embedding c), <- (ascii_nat_embedding c'). f_equal.
  Z.to_euclidean_division_equations. lia.
Qed.

(** The weighted sum, as a function of one of its digits. *)
Lemma weighted_sum_at w p c s x :
  weighted_sum w (p ++ c :: s) = Some x →
  digit_of c ≤ 9 ∧ ∃ y, x = y + digit_of c * (w - Z.of_nat (length p)) ∧
  ∀ c', digit_of c' ≤ 9 →
    weighted_sum w (p ++ c' :: s) = Some (y + digit_of c' * (w - Z.of_nat (length p))).
Proof.
  revert w x. induction p as [|a p IH]; intros w x; simpl.
  - destruct (Z.gtb_spec (digit_of c) 9); [done|].
    destruct (weighted_sum (w - 1) s) as [y|]; simpl; [|done]. intros [= <-]. split; [lia|].
    exists y. split; [lia|]. intros c' Hc'. destruct (Z.gtb_spec (digit_of c') 9); [lia|].
    f_equal. lia.
  - destruct (digit_of a >? 9); [done|].
    destruct (weighted_sum (w - 1) (p ++ c :: s)) as [x'|] eqn:E; simpl; [|done]. intros [= <-].
    apply IH in E as (Hc & y & -> & Hy). split; [done|].
    exists (digit_of a * w + y). split; [lia|]. intros c' Hc'. rewrite (Hy c' Hc'). simpl. f_equal. lia.
Qed.

Lemma nationalIDValid_inv id : nationalIDValid id = true →
  ∃ l k sum, String.list_ascii_of_string id = l ++ [k] ∧ length l = 9%nat ∧
    weighted_sum 10 l = Some sum ∧ digit_of k = check_digit (sum mod 11).
Proof.
  unfold nationalIDValid. destruct (String.list_ascii_of_string id) as [|c rest] eqn:E; [done|].
  case_bool_decide as Hlen; [|done]. simpl negb. cbv iota. destruct (forallb _ _); [done|].
  destruct (weighted_sum 10 (take 9 (c :: rest))) as [sum|] eqn:Es; [|done].
  destruct ((c :: rest) !! 9%nat) as [k|] eqn:Ek; [|done]. cbv zeta.
  destruct (Z.gtb_spec (digit_of k) 9); [done|]. intros Hd.
  assert (length (c :: rest) = 10%nat) as Hl.
  { rewrite <- E, <- Hlen. clear. induction id as [|a id IH]; [done|]. simpl. by rewrite IH. }
  exists (take 9 (c :: rest)), k, sum. split_and!; [|by rewrite length_take, Hl|done|].
  - rewrite <- (take_drop_middle _ _ _ Ek) at 1. f_equal. f_equal. apply drop_ge. lia.
  - unfold check_digit. pose proof (digit_of_range k). destruct (Z.ltb_spec (sum mod 11) 2); lia.
Qed.

Lemma sum_changes y d d' k :
  0 ≤ d ≤ 9 → 0 ≤ d' ≤ 9 → d ≠ d' → 2 ≤ k ≤ 10 → (y + d * k) mod 11 ≠ (y + d' * k) mod 11.
Proof.
  intros Hd Hd' Hne Hk.
  assert (k = 2 ∨ k = 3 ∨ k = 4 ∨ k = 5 ∨ k = 6 ∨ k = 7 ∨ k = 8 ∨ k = 9 ∨ k = 10) as Hc by lia.
  destruct_or! Hc; subst k; Z.to_euclidean_division_equations; lia.
Qed.

(** The check digit detects a single wrong digit at any position of a valid
    national id whose check digit is not 1 (for the check digit 1, remainders 1
    and 10 cannot be told apart). *)
Theorem nationalIDValid_detects (p s : string) (c c' : ascii)
    (Hvalid : nationalIDValid (p +:+ String c s) = true) (Hne : c ≠ c')
    (Hnot1 : ∀ s', s ≠ s' +:+ "1") :
  nationalIDValid (p +:+ String c' s) = false.
Proof.
  destruct (nationalIDValid (p +:+ String c' s)) eqn:H2; [|done]. exfalso.
  apply nationalIDValid_inv in Hvalid as (l & k & sum & E & Hl & Hs & Hk).
  apply nationalIDValid_inv in H2 as (l' & k' & sum' & E' & Hl' & Hs' & Hk').
  rewrite list_ascii_app in E, E'. simpl in E, E'.
  set (pl := String.list_ascii_of_string p) in *.
  destruct (String.list_ascii_of_string s) as [|z sl _] eqn:Esl using rev_ind.
  - apply app_inj_2 in E as [<- [= <-]]; [|done]. apply app_inj_2 in E' as [<- [= <-]]; [|done].
    apply Hne, digit_of_inj. congruence.
  - rewrite app_comm_cons, app_assoc in E, E'.
    apply app_inj_2 in E as [<- [= <-]]; [|done]. apply app_inj_2 in E' as [<- [= <-]]; [|done].
    apply weighted_sum_at in Hs as Hat. destruct Hat as (Hc & y & -> & Hy).
    apply weighted_sum_at in Hs' as Hat'. destruct Hat' as (Hc' & _).
    rewrite (Hy c' Hc') in Hs'. injection Hs' as <-.
    pose proof (digit_of_range c). pose proof (digit_of_range c').
    rewrite length_app in Hl. simpl in Hl.
    assert (digit_of c ≠ digit_of c') as Hd by (by intros ?%digit_of_inj).
    pose proof (sum_changes y (digit_of c) (digit_of c') (10 - Z.of_nat (length pl))
      ltac:(lia) ltac:(lia) Hd ltac:(lia)) as Hr.
    set (r := (y + digit_of c * _) mod 11) in *. set (r' := (y + digit_of c' * _) mod 11) in *.
    assert (0 ≤ r < 11 ∧ 0 ≤ r' < 11) as [? ?] by (split; apply Z.mod_pos_bound; lia).
    unfold check_digit in Hk, Hk'.
    assert (digit_of z = 1) as Hz by (destruct (Z.ltb_spec r 2), (Z.ltb_spec r' 2); lia).
    assert (z = "1"%char) as -> by (by apply digit_of_inj).
    apply (Hnot1 (String.string_of_list_ascii sl)).
    rewrite <- (String.string_of_list_ascii_of_string s), Esl. clear.
    induction sl as [|a sl IH]; [done|]. simpl. by rewrite IH.
Qed.

Lemma nationalIDValid_detects_witness : nationalIDValid ("0499" +:+ String "4" "70899") = false.
Proof.
  apply (nationalIDValid_detects "0499" "70899" "3" "4"); [reflexivity|done|].
  intros s' E. apply (f_equal (λ s, last (String.list_ascii_of_string s))) in E.
  rewrite list_ascii_app in E. cbn [String.list_ascii_of_string] in E. rewrite last_snoc in E. done.
Defined.

(** ** Occupant counts *)

#[local] Instance newest_count_strict : StrictWeak newest_count.
Proof. split; unfold newest_count; intros *; lia. Qed.

#[local] Instance latest_from_strict :
  StrictWeak (λ a b : OccupantCount, oc_EffectiveFrom b <? oc_EffectiveFrom a).
Proof. split; intros *; lia. Qed.

(** The count [building] reads as of a date and the one the charge
    calculation snapshots are the same, provided no two data points of the unit
    take effect on the same day: only [building] breaks such ties by creation. *)
Theorem OccupantCountAsOf_agrees (env : Env) (w : World) (unitID : UUID) (ref : Time)
    (Hdays : ∀ a b : OccupantCount, a ∈ rows (w_db w) → b ∈ rows (w_db w) →
       oc_UnitID a = unitID → oc_UnitID b = unitID →
       oc_EffectiveFrom a = oc_EffectiveFrom b → a = b) :
  OccupantCountAsOf unitID ref env w = BillingOccupantCountAsOf unitID ref env w.
Proof.
  unfold OccupantCountAsOf, BillingOccupantCountAsOf, query, stmt.
  destruct (env_fault _ _); [done|]. do 2 f_equal. unfold counts_until.
  fold (counted_until unitID ref (w_db w)).
  assert (∀ c, c ∈ counted_until unitID ref (w_db w) → c ∈ rows (w_db w) ∧ oc_UnitID c = unitID) as Hin.
  { intros c Hc. apply list_elem_of_In, filter_In in Hc as [Hc Hu].
    apply andb_prop in Hu as [Hu%bool_decide_eq_true _]. split; [by apply list_elem_of_In|done]. }
  revert Hin. generalize (counted_until unitID ref (w_db w)) as l. intros l Hin.
  destruct (sort_by newest_count l) as [|x lx] eqn:Ex, (sort_by _ l) as [|y ly] eqn:Ey in |- *; try done.
  - pose proof (sort_by_Permutation newest_count l) as H1. rewrite Ex in H1.
    pose proof (sort_by_Permutation (λ a b, oc_EffectiveFrom b <? oc_EffectiveFrom a) l) as H2.
    rewrite Ey, <- H1 in H2. by apply Permutation_nil_r in H2.
  - pose proof (sort_by_Permutation newest_count l) as H1. rewrite Ex in H1.
    pose proof (sort_by_Permutation (λ a b, oc_EffectiveFrom b <? oc_EffectiveFrom a) l) as H2.
    rewrite Ey, <- H1 in H2. by apply Permutation_nil_l in H2.
  - apply sort_by_head in Ex as [Hx Hmx]; [|apply _]. apply sort_by_head in Ey as [Hy Hmy]; [|apply _].
    specialize (Hmx y Hy). specialize (Hmy x Hx). unfold newest_count in Hmx.
    destruct (Hin x Hx), (Hin y Hy). f_equal. apply Hdays; [done..|]. lia.
Qed.

Lemma OccupantCountAsOf_agrees_witness :
  OccupantCountAsOf 100 (DateUTC 2026 3 31) sample_env (sample_world draft_db) =
  BillingOccupantCountAsOf 100 (DateUTC 2026 3 31) sample_env (sample_world draft_db).
Proof.
  apply OccupantCountAsOf_agrees. intros a b Ha Hb. change (w_db (sample_world draft_db)) with draft_db in *.
  assert (rows (R := OccupantCount) draft_db = [MkOccupantCount 70 100 2 (DateUTC 2026 1 1) 1;
    MkOccupantCount 71 101 3 (DateUTC 2026 2 1) 1] ∨ rows (R := OccupantCount) draft_db =
    [MkOccupantCount 71 101 3 (DateUTC 2026 2 1) 1; MkOccupantCount 70 100 2 (DateUTC 2026 1 1) 1]) as E
    by (vm_compute; (left; reflexivity) || (right; reflexivity)).
  destruct E as [E|E]; rewrite E in Ha, Hb; intros; set_solver.
Defined.

(** ** Operations that cannot succeed *)

(** [m] returns no value and changes no table. *)
Definition never_succeeds {A} (m : M A) : Prop :=
  ∀ env w, (∀ a, (m env w).1 ≠ Ok a) ∧ w_db (m env w).2 = w_db w.

Lemma holds_never_succeeds {A} (m : M A) :
  (∀ d, holds m d (λ r d', (∀ a, r ≠ Ok a) ∧ d' = d)) → never_succeeds m.
Proof. intros H env w. exact (holds_run m _ env w (H (w_db w))). Qed.

Lemma first_error_cons `{!Table R} (f : R → option GoError) e x l :
  f x = Some e → first_error f (x :: l) = Some e.
Proof. intros H. simpl. by rewrite H. Qed.

Lemma grant_blocks_delete d u (b : Building) :
  is_manager d u (b_ID b) = true → building_fk d b = Some foreign_key_violation.
Proof.
  intros [g Hg]%is_manager_Some. unfold building_fk, if_referenced.
  assert (existsb (λ kv : (UUID * UUID) * UserBuilding, bool_decide (kv.1.2 = b_ID b))
    (map_to_list (db_user_buildings d)) = true) as ->.
  { apply existsb_exists. exists ((u, b_ID b), g). split; [|by apply bool_decide_eq_true].
    by apply list_elem_of_In, elem_of_map_to_list. }
  by rewrite orb_true_r.
Qed.

(** Two operations of the registry can never succeed. Deleting a building
    needs a grant on it, and that grant's row references the building; creating
    a unit without giving its status writes the empty text in an enum column,
    the DEFAULT of the column notwithstanding. *)
Theorem operations_that_never_succeed {map_order : MapOrder} (manager : option User) (id : UUID) :
  never_succeeds (DeleteBuilding manager id) ∧
  (∀ i, ui_Status i = None → never_succeeds (CreateUnit manager id i)).
Proof.
  split; [|intros i Hi]; apply holds_never_succeeds; intros d.
  - unfold DeleteBuilding, DeleteBuilding_row. apply holds_bind.
    eapply holds_mono; [apply reads_authorizedBuilding|]. intros [b|e|s] d1 [-> Hb]; cbn [after]; [|done..].
    destruct (Hb b eq_refl) as (Hrow & u & -> & Hu). apply holds_bind, holds_Delete_where; [done|].
    pose proof (filter_rows_id (R := Building) d id) as Ef. cbn [key Building_table] in Ef.
    rewrite Ef, Hrow. by rewrite (first_error_cons _ foreign_key_violation)
      by (by eapply grant_blocks_delete).
  - unfold CreateUnit, CreateUnit_row. apply holds_bind.
    eapply holds_mono; [apply reads_authorizedBuilding|]. intros [b|e|s] d1 [-> Hb]; cbn [after]; [|done..].
    apply holds_bind, holds_uuid. intros uid. cbn [after].
    apply holds_bind, holds_lift. destruct (applyUnitInput _ i) as [u|e|s] eqn:Eu; cbn [after]; [|done..].
    assert (u_Status u = "") as Hs.
    { revert Eu. unfold applyUnitInput. rewrite Hi. cbn [mbind Res_bind u_Status].
      repeat case_match; try done. destruct (check_counts _); cbn [mbind Res_bind]; [|done..].
      by intros [= <-]. }
    apply holds_map_err, holds_map_err, holds_Create; [done|].
    intros env now r' d' _ _ Ha _. exfalso. revert Ha. cbn -[require mbind]. rewrite !require_Ok.
    intros (_ & Henum & _). rewrite Hs in Henum. by vm_compute in Henum.
Qed.
