(* ===== verification/AuthTheorems.v ===== *)
(** * Theorems on authentication

    Roles, invites, refresh-token families, registrations and logins, and the
    shape of every answer. *)

From stdpp Require Import countable.
From S2P Require Import Prelude Golang Errors Models Store Schema Logic Notification Crypto Token Invite Password AuthUser AuthHandlers BillingRepo BuildingRepo BuildingService Occupancy BuildingSpec AuthSpec SessionSpec AccountSpec Sample.

(** ** Libraries to run the model with *)

(** A token that carries its key and its claims in clear. *)
Definition plain_token (secret : string) (c : RegisteredClaims) : string :=
  FormatInt (Zpos (encode (secret, rc_Subject c, (rc_IssuedAt c, rc_ExpiresAt c)))).

Definition plain_sign (secret : string) (c : RegisteredClaims) : string + GoError :=
  if bool_decide (TrimSpace (plain_token secret c) = plain_token secret c)
  then inl (plain_token secret c) else inr (EText "jwt: not printable").

Definition plain_parse (keyfunc : bool → option string) (now : Time) (token : string) :
    option RegisteredClaims :=
  match parse_digits token with
  | Some (Zpos p) =>
      match decode p with
      | Some (secret, sub, (iat, exp)) =>
          if bool_decide (keyfunc true = Some secret) && Before now exp
          then Some (MkRegisteredClaims sub iat exp) else None
      | None => None
      end
  | _ => None
  end.

Lemma plain_sign_inl secret c token : plain_sign secret c = inl token →
  token = plain_token secret c ∧ TrimSpace token = token.
Proof. unfold plain_sign. case_bool_decide; [|done]. by intros [= <-]. Qed.

Lemma plain_parse_signed secret token c keyfunc now :
  plain_sign secret c = inl token → keyfunc true = Some secret →
  NewNumericDate (rc_IssuedAt c) = rc_IssuedAt c → NewNumericDate (rc_ExpiresAt c) = rc_ExpiresAt c →
  plain_parse keyfunc now token = if Before now (rc_ExpiresAt c) then Some c else None.
Proof.
  intros [-> _]%plain_sign_inl Hk _ _. unfold plain_parse, plain_token.
  rewrite parse_digits_FormatInt by done. rewrite decode_encode, bool_decide_eq_true_2 by done.
  simpl. destruct (Before _ _); [|done]. by destruct c.
Qed.

Lemma plain_signed_trimmed secret token c : plain_sign secret c = inl token → TrimSpace token = token.
Proof. by intros [_ ?]%plain_sign_inl. Qed.

Definition plain_jwt : JwtLibrary := {|
  jwt_SignedString := plain_sign;
  jwt_ParseWithClaims := plain_parse;
  jwt_parse_signed := plain_parse_signed;
  jwt_signed_trimmed := plain_signed_trimmed;
|}.

(** A hash that is the password itself. *)
Definition plain_hash (salt : list Z) (p : string) : string + GoError :=
  if (72 <? Z.of_nat (String.length p)) then inr (EText "bcrypt: password length exceeds 72 bytes")
  else inl p.

Lemma plain_compare salt p h : plain_hash salt p = inl h → bool_decide (h = p) = true.
Proof. unfold plain_hash. case_match; [done|]. intros [= <-]. by apply bool_decide_eq_true. Qed.

Lemma plain_too_long salt p : (72 < String.length p)%nat → ∃ e, plain_hash salt p = inr e.
Proof. intros H. unfold plain_hash. destruct (Z.ltb_spec 72 (Z.of_nat (String.length p))); [eauto|lia]. Qed.

Definition plain_bcrypt : Bcrypt := {|
  bcrypt_Generate := plain_hash;
  bcrypt_Compare h p := bool_decide (h = p);
  bcrypt_Compare_Generate := plain_compare;
  bcrypt_too_long := plain_too_long;
|}.

(** The letters and the digits of ASCII and of Persian. *)
Definition is_letter (r : Z) : bool :=
  (65 <=? r) && (r <=? 90) || (97 <=? r) && (r <=? 122) || (1574 <=? r) && (r <=? 1740).
Definition is_number (r : Z) : bool := (48 <=? r) && (r <=? 57) || (1776 <=? r) && (r <=? 1785).

Lemma is_letter_ascii r : (65 ≤ r ≤ 90 ∨ 97 ≤ r ≤ 122) → is_letter r = true.
Proof. unfold is_letter. lia. Qed.
Lemma is_number_ascii r : 48 ≤ r ≤ 57 → is_number r = true.
Proof. unfold is_number. lia. Qed.

Definition plain_unicode : UnicodeTables := {|
  unicode_L := is_letter; unicode_N := is_number;
  unicode_L_ascii := is_letter_ascii; unicode_N_ascii := is_number_ascii;
|}.

#[local] Existing Instance plain_jwt.
#[local] Existing Instance plain_bcrypt.
#[local] Existing Instance plain_unicode.
#[local] Existing Instance source_order.

Definition sample_tokens : TokenService := MkTokenService "secret" (15 * 60 * Second) (30 * 24 * Hour).
Definition sample_handler : Handler := MkHandler sample_tokens true true.
Definition sample_request : Request := MkRequest "" "" "" None None.
Definition sample_credentials : credentialsReq := MkCredentialsReq "09120000009" "passw0rd" "n".

(** The first account. *)
Definition setup_db : DB :=
  w_db (serve sample_handler sample_request (CallSetup (Some sample_credentials)) sample_env
    (sample_world empty_db)).2.

Lemma empty_one_admin : OneAdmin empty_db.
Proof. split; intros *; unfold row_at; simpl; by rewrite lookup_empty. Qed.

(** ** Roles *)

(** Over any calls of [auth] and of [building], in any environment, a
    superadmin stays the only one if it was and no invite carries that role, no account
    disappears or changes its phone, and no role changes except that of a
    resident who becomes a manager. *)
Theorem roles_change_by_promotion {codec : UuidCodec} {jwt : JwtLibrary} {bcrypt : Bcrypt}
    {unicode : UnicodeTables} {map_order : MapOrder} (d d' : DB)
    (Hrun : rtc account_step d d') : (OneAdmin d → OneAdmin d') ∧ RolesKept True d d'.
Proof.
  apply (account_steps (RolesStep True)); [intros; apply roles_serve|intros; by apply roles_building|done].
Qed.

Lemma roles_change_by_promotion_witness : OneAdmin setup_db.
Proof.
  refine (proj1 (roles_change_by_promotion empty_db _ (rtc_once _ _ (account_auth _ _ _ _ (sample_world empty_db)))) _).
  exact empty_one_admin.
Defined.

(** ** Families of refresh tokens *)

(** C8: over any calls of [auth], the number of live tokens of a family never
    grows, unless a session is opened under the very id of the family: a rotated
    token is dead for good, and so is a family that was revoked. *)
Theorem live_tokens_never_multiply {codec : UuidCodec} {jwt : JwtLibrary} {bcrypt : Bcrypt}
    {unicode : UnicodeTables} (family : UUID) (d d' : DB) (Hrun : rtc (auth_step family) d d') :
  (live_count family d' ≤ live_count family d)%nat.
Proof.
  induction Hrun as [d|d1 d2 d3 [h rq call env w Hfresh] _ IH]; [done|].
  pose proof (live_serve family env Hfresh h rq call w) as H. unfold LiveLe in H. lia.
Qed.

(** The refresh token of a session. *)
Definition session_token (r : Res Response) : string :=
  match r with
  | Ok rs => match rs_Body rs with
             | SessionBody _ _ _ _ _ rt | RefreshBody _ _ rt => default "" rt
             | _ => "" end
  | _ => ""
  end.

Definition setup_token : string := session_token
  (serve sample_handler sample_request (CallSetup (Some sample_credentials)) sample_env
    (sample_world empty_db)).1.

(** The next request, with ids of its own. *)
Definition later_env : Env := {|
  env_now t := env_now sample_env (1000 + t); env_uuid t := (200000 + N.of_nat t)%N;
  env_rand t := env_rand sample_env (500 + t); env_fault _ := None;
  env_numeric := env_numeric sample_env; env_collate := env_collate sample_env;
  env_ilike := env_ilike sample_env |}.

Definition setup_refreshed : DB :=
  w_db (serve sample_handler sample_request (CallRefresh (Some setup_token)) later_env
    (sample_world setup_db)).2.

Lemma later_env_fresh t : env_uuid later_env t ≠ 100008%N.
Proof. change ((200000 + N.of_nat t)%N ≠ 100008%N). lia. Qed.

Lemma setup_refresh_step : auth_step 100008 setup_db setup_refreshed.
Proof.
  exact (auth_call 100008 sample_handler sample_request (CallRefresh (Some setup_token)) later_env
    (sample_world setup_db) later_env_fresh).
Qed.

Lemma live_tokens_never_multiply_witness :
  (live_count 100008 setup_refreshed ≤ live_count 100008 setup_db)%nat.
Proof. exact (live_tokens_never_multiply _ _ _ (rtc_once _ _ setup_refresh_step)). Defined.

Example setup_refreshed_live : live_count 100008 setup_db = 1%nat ∧ live_count 100008 setup_refreshed = 1%nat.
Proof. split; vm_compute; reflexivity. Qed.

(** C14: what a rotation answers, in any environment: a rotated token (the old one
    revoked, one new live token of the same user and family), or a refusal that
    changes nothing (unknown or expired), or a replay that left no live token in
    the family, or a wrapped failure of the database or of the libraries. *)
Theorem RotateRefreshToken_outcome {codec : UuidCodec} {jwt : JwtLibrary} (s : TokenService)
    (raw : string) (env : Env) (w : World) :
  let d := w_db w in
  let '(r, w') := RotateRefreshToken s raw env w in
  match r with
  | Ok ro => ∃ old new now, Rotated s raw (ro_RefreshToken ro) old new now d (w_db w')
  | Err e =>
      (e = ErrInvalidToken ∨ e = ErrTokenExpired) ∧ w_db w' = d ∨
      e = ErrTokenReused ∧ (∃ old, Replayed raw old d (w_db w')) ∨
      ∃ pre cause, e = wrap pre cause
  | Panic _ => False
  end.
Proof.
  cbv zeta. set (P := λ (r : Res Rotation) d', match r with
    | Ok ro => ∃ old new now, Rotated s raw (ro_RefreshToken ro) old new now (w_db w) d'
    | Err e => (e = ErrInvalidToken ∨ e = ErrTokenExpired) ∧ d' = w_db w ∨
        e = ErrTokenReused ∧ (∃ old, Replayed raw old (w_db w) d') ∨ ∃ pre cause, e = wrap pre cause
    | Panic _ => True end).
  assert (∀ (r : Res Rotation) d', wrapped r → P r d') as Hw.
  { intros [ro|e|x] d' H; [done|right; by right|done]. }
  assert (holds (RotateRefreshToken s raw) (w_db w) (λ r d', (∀ x, r ≠ Panic x) ∧ P r d')) as H.
  { apply holds_and; [apply answers_Rotate|]. apply (holds_RotateRefreshToken uuid_Nil).
    - left. eauto.
    - left. eauto.
    - auto.
    - intros old d' _ Hr. right. left. eauto.
    - intros old now Hrow Hh Hlive Hexp. apply holds_rotate; [done|auto..|].
      intros [ro|e|x] new Hid Hu Hf Hrev He Hr; [|by apply Hw..].
      exists old, new, now. by split. }
  specialize (H env w eq_refl). destruct (RotateRefreshToken s raw env w) as [[ro|e|x] w'];
    simpl in *; destruct H as [Hp H]; [exact H..|by destruct (Hp x)].
Qed.

Definition succeeded {A} (r : Res A) : bool := match r with Ok _ => true | _ => false end.

(** Two rotations of one token at the same time: both read it live before
    either writes, both succeed, and the family has two live tokens where it had
    one. Nothing serialises them. *)
Theorem concurrent_rotations_fork_family :
  let '(found1, w1) := FindByHash (hashToken setup_token) later_env (sample_world setup_db) in
  let '(found2, w2) := FindByHash (hashToken setup_token) later_env w1 in
  match found1, found2 with
  | Ok old1, Ok old2 =>
      let now := env_now later_env 5 in
      is_null (rt_RevokedAt old1) = true ∧ is_null (rt_RevokedAt old2) = true ∧
      After now (rt_ExpiresAt old1) = false ∧
      let '(r1, w3) := rotate sample_tokens old1 now later_env w2 in
      let '(r2, w4) := rotate sample_tokens old2 now later_env w3 in
      succeeded r1 = true ∧ succeeded r2 = true ∧
      live_count (rt_FamilyID old1) (w_db w2) = 1%nat ∧
      live_count (rt_FamilyID old1) (w_db w4) = 2%nat
  | _, _ => False
  end.
Proof. vm_compute. repeat split. Qed.

(** ** Invites *)

(** C15: once an invite of a phone was redeemed, no redemption for that phone
    succeeds, with whatever code, until a new invite is issued for it: whatever
    calls of [auth] and [building] run in between. *)
Theorem invite_redeemed_once {codec : UuidCodec} {jwt : JwtLibrary} {bcrypt : Bcrypt}
    {unicode : UnicodeTables} {map_order : MapOrder} (phone code code' role : string)
    (env env' : Env) (w w' : World)
    (Hredeem : (Redeem phone code env w).1 = Ok role)
    (Hrun : rtc account_step (w_db (Redeem phone code env w).2) (w_db w'))
    (Hno_new : ∀ c : InviteCode, row_at (w_db w') (iv_ID c) = Some c → iv_Phone c = phone →
       is_Some (row_at (R := InviteCode) (w_db w) (iv_ID c))) :
  ∃ e, (Redeem phone code' env' w').1 = Err e ∧ w_db (Redeem phone code' env' w').2 = w_db w'.
Proof.
  assert (∃ c now, Redeemed phone code c now (w_db w) (w_db (Redeem phone code env w).2)) as (c & now & Hc).
  { apply (holds_run (Redeem phone code) (λ r d', r = Ok role → ∃ c now, Redeemed phone code c now (w_db w) d'));
      [|done]. apply holds_Redeem; [done|eauto]. }
  apply (account_steps InvitesKept) in Hrun; [|intros; apply invites_serve|apply invites_building].
  destruct Hc as [Hrow Hphone Hnew _ _ Hun Htab]. rewrite Htab in Hrun.
  assert (∀ id c0, row_at (w_db w) id = Some c0 → ∃ c1, row_at (w_db w') id = Some c1 ∧
    (c1 = c0 ∨ ∃ t, c1 = consume_invite t c0)) as Hkept.
  { assert (InvitesKept (w_db w) (w_db w')) as Hk by (etransitivity; [by apply invites_consume|exact Hrun]).
    intros id c0 H0. destruct (Hk id c0 H0) as (c1 & H1 & [->|[_ H2]]); eauto. }
  destruct (Hrun (iv_ID c) (consume_invite now c)) as (cc & Hcc & Hcase).
  { rewrite row_at_put. by rewrite decide_True. }
  assert (cc = consume_invite now c) as -> by (destruct Hcase as [?|[? _]]; done). clear Hcase.
  apply (holds_run (Redeem phone code') (λ r d', ∃ e, r = Err e ∧ d' = w_db w')).
  apply holds_Redeem; [eauto|]. intros c2 now2 d2 [Hrow2 Hphone2 Hnew2 _ _ Hun2 _]. exfalso.
  destruct (Hno_new c2 Hrow2 Hphone2) as [c0 H0]. pose proof H0 as [_ Hid0]%row_at_Some.
  change (key c0) with (iv_ID c0) in Hid0. rewrite <- Hid0 in H0.
  destruct (Hkept _ _ H0) as (c1 & H1 & H2). rewrite Hid0, Hrow2 in H1. injection H1 as <-.
  assert (iv_Phone c0 = phone) as Hp0 by (destruct H2 as [<-|[t ->]]; done).
  specialize (Hnew c0 H0 Hp0).
  specialize (Hnew2 (consume_invite now c) Hcc Hphone).
  assert (iv_ID c2 = iv_ID c) as Eid.
  { unfold newest_invite in *. destruct H2 as [->|[t ->]]; simpl in *;
      rewrite orb_false_iff, andb_false_iff, Z.ltb_ge, Z.eqb_neq, N.ltb_ge in Hnew, Hnew2; lia. }
  rewrite Eid, Hcc in Hrow2. by injection Hrow2 as <-.
Qed.

Definition sample_invite : InviteCode :=
  MkInviteCode 500 "09120000009" (hashCode "ABCD2345") RoleManager None (DateUTC 2026 4 1) None
    (DateUTC 2026 3 15).

Definition invite_db : DB := set_invite_codes (of_rows iv_ID [sample_invite]) empty_db.

Definition sample_redeem : M string := Redeem "09120000009" "ABCD2345".

Definition redeemed_db : DB := w_db (sample_redeem sample_env (sample_world invite_db)).2.

Lemma only_invite d (c c0 : InviteCode) :
  db_invite_codes d = {[iv_ID c0 := c0]} → row_at d (iv_ID c) = Some c → c = c0.
Proof.
  intros E [H _]%row_at_Some. simpl in H. rewrite E in H.
  by apply lookup_singleton_Some in H as [_ <-].
Qed.

Lemma redeemed_invites : db_invite_codes redeemed_db =
  {[iv_ID sample_invite := consume_invite (env_now sample_env 1) sample_invite]}.
Proof. vm_compute. reflexivity. Qed.

Lemma sample_redeem_Ok : (sample_redeem sample_env (sample_world invite_db)).1 = Ok RoleManager.
Proof. vm_compute. reflexivity. Qed.

Lemma redeemed_still_there c : row_at redeemed_db (iv_ID c) = Some c →
  is_Some (row_at (R := InviteCode) invite_db (iv_ID c)).
Proof.
  intros H. rewrite (only_invite _ c _ redeemed_invites H). exists sample_invite. vm_compute. reflexivity.
Qed.

Lemma invite_redeemed_once_witness :
  ∃ e, (sample_redeem later_env (sample_world redeemed_db)).1 = Err e ∧
    w_db (sample_redeem later_env (sample_world redeemed_db)).2 = w_db (sample_world redeemed_db).
Proof.
  exact (invite_redeemed_once _ _ _ _ _ _ _ (sample_world redeemed_db) sample_redeem_Ok
    (rtc_refl account_step (w_db (sample_redeem sample_env (sample_world invite_db)).2))
    (λ c H _, redeemed_still_there c H)).
Defined.

(** An invitation accepted with a password that bcrypt refuses: when the
    policy lets a password of more than 72 bytes through and the invite is
    redeemed, the registration fails and the redemption stays. *)
Theorem long_password_burns_invite {codec : UuidCodec} {jwt : JwtLibrary} {bcrypt : Bcrypt}
    {unicode : UnicodeTables} (h : Handler) (rq : Request) (req : registerReq) (env : Env) (w : World)
    (role : string)
    (Hlong : (72 < String.length (cr_Password (rr_Credentials req)))%nat)
    (Hreq : register_required req = true)
    (Hphone : iranianMobile (cr_Phone (rr_Credentials req)) = true)
    (Hpolicy : ValidatePassword (cr_Password (rr_Credentials req)) = Ok tt)
    (Hredeem : (Redeem (cr_Phone (rr_Credentials req)) (rr_Code req) env w).1 = Ok role) :
  (register h rq (Some req) env w).1 = Err (EApp ErrInternal) ∧
  w_db (register h rq (Some req) env w).2 =
    w_db (Redeem (cr_Phone (rr_Credentials req)) (rr_Code req) env w).2.
Proof.
  destruct (Redeem _ _ env w) as [r1 w1] eqn:E1. simpl in Hredeem. subst r1.
  unfold register. rewrite (bind_Ok _ _ _ _ req w) by (unfold bind_json; by rewrite Hreq).
  cbv zeta. rewrite Hphone. cbn [negb].
  rewrite (bind_Ok _ _ _ _ tt w) by (unfold lift; by rewrite Hpolicy).
  rewrite (bind_Ok _ _ _ _ role w1) by exact E1.
  apply (holds_run _ (λ r d', r = Err (EApp ErrInternal) ∧ d' = w_db w1) env w1).
  apply holds_bind, holds_map_err. unfold HashPassword, rand_bytes.
  apply holds_bind, holds_bind, holds_rand; [|done]. intros salt. cbn [after].
  apply holds_ret, holds_lift. match goal with
  | |- context [bcrypt_Generate ?s ?p] => by destruct (bcrypt_too_long s p Hlong) as [e ->]
  end.
Qed.

Definition long_registration : registerReq := MkRegisterReq
  (MkCredentialsReq "09120000009"
     "aaaaaaaaaaaaaaaaaaaaaaaaaaaaaaaaaaaaaaaa1111111111111111111111111111111111111111" "n")
  "ABCD2345".

Lemma long_password_burns_invite_witness :
  (register sample_handler sample_request (Some long_registration) sample_env (sample_world invite_db)).1
    = Err (EApp ErrInternal) ∧
  db_users (w_db (register sample_handler sample_request (Some long_registration) sample_env
    (sample_world invite_db)).2) = ∅ ∧
  iv_ConsumedAt <$> row_at (w_db (register sample_handler sample_request (Some long_registration)
    sample_env (sample_world invite_db)).2) 500%N = Some (Some (env_now sample_env 1)).
Proof.
  destruct (long_password_burns_invite sample_handler sample_request long_registration sample_env
    (sample_world invite_db) RoleManager) as [H1 H2].
  - apply Nat.ltb_lt. vm_compute. reflexivity.
  - vm_compute. reflexivity.
  - vm_compute. reflexivity.
  - vm_compute. reflexivity.
  - vm_compute. reflexivity.
  - rewrite H2. split; [exact H1|]. split; vm_compute; reflexivity.
Defined.

(** Two first-run setups at the same time, with two phones: both find no
    account before either creates one, both succeed, and there are two
    superadmins. The check and the creation are separate statements. *)
Theorem concurrent_setups_two_superadmins :
  let other := MkCredentialsReq "09120000008" "passw0rd" "m" in
  let '(c1, w1) := setup_checks (Some sample_credentials) sample_env (sample_world empty_db) in
  let '(c2, w2) := setup_checks (Some other) sample_env w1 in
  let '(u1, w3) := setup_account sample_credentials sample_env w2 in
  let '(u2, w4) := setup_account other sample_env w3 in
  c1 = Ok sample_credentials ∧ c2 = Ok other ∧ succeeded u1 = true ∧ succeeded u2 = true ∧
  ((λ u, (us_Phone u, us_Role u)) <$> rows (R := User) (w_db w4)) =
    [("09120000008", RoleSuperAdmin); ("09120000009", RoleSuperAdmin)].
Proof. vm_compute. repeat split. Qed.

(** ** Logging in *)

Definition created (r : Res Response) : option UUID :=
  match r with
  | Ok rs => match rs_Body rs with SessionBody _ _ id _ _ _ => Some id | _ => None end
  | _ => None
  end.

(** C24: after a registration that opened a session, a login with the same phone
    and password opens a session of the same account, whenever it comes, unless
    the server fails: it is never refused. *)
Theorem register_then_login {codec : UuidCodec} {jwt : JwtLibrary} {bcrypt : Bcrypt}
    {unicode : UnicodeTables} (h : Handler) (rq rq' : Request) (req : registerReq)
    (env env' : Env) (w w' : World) (rs : Response)
    (Hregister : (register h rq (Some req) env w).1 = Ok rs)
    (Hkept : db_users (w_db w') = db_users (w_db (register h rq (Some req) env w).2))
    (Hfaultless : env_fault env' (w_tick w') = None) :
  let r := (login h rq' (Some (rr_Credentials req)) env' w').1 in
  match r with
  | Ok rs' => rs_Status rs' = 200 ∧ created r = created (Ok rs) ∧ is_Some (created r)
  | Err e => e = EApp ErrInternal
  | Panic _ => False
  end.
Proof.
  pose proof (holds_run _ _ env w (holds_register h rq req (w_db w)) rs Hregister) as
    (u & [_ (tok & n & rt & Hbody & _)] & v & Hv & Hid & Hok).
  assert (credentials_required (rr_Credentials req) = true ∧
    iranianMobile (cr_Phone (rr_Credentials req)) = true) as [Hreq Hphone].
  { apply (holds_run (register h rq (Some req)) (λ r _, r = Ok rs → _) env w); [|done].
    unfold register. apply holds_bind. eapply holds_mono; [apply reads_bind_json|].
    intros [req'|e|s] d1 [-> Hr]; cbn [after]; [|done..]. destruct (Hr req' eq_refl) as [[= ->] Hq].
    cbv zeta. destruct (iranianMobile _) eqn:Hp; cbn [negb]; [|by apply holds_fail].
    intros env1 w1 _ _. unfold register_required in Hq. by apply andb_prop in Hq as [Hq _]. }
  rewrite <- (account_at_keeps _ _ (w_db w') Hkept) in Hv.
  pose proof (login_ready h rq' _ env' w' v Hfaultless Hreq Hphone Hv Hok) as H.
  cbv zeta. destruct (login h rq' _ env' w').1 as [rs'|e|s]; [|exact H..].
  destruct H as [Hs (tok' & n' & rt' & Hb' & _)]. split; [done|]. cbn. rewrite Hbody, Hb', Hid. eauto.
Qed.

Definition good_registration : registerReq := MkRegisterReq sample_credentials "ABCD2345".

Definition registered : Res Response * World :=
  register sample_handler sample_request (Some good_registration) sample_env (sample_world invite_db).

Definition registered_rs : Response :=
  match registered.1 with Ok rs => rs | _ => MkResponse 500 [] NoBody end.

Lemma registered_Ok : registered.1 = Ok registered_rs.
Proof. vm_compute. reflexivity. Qed.

Definition relogin : Res Response :=
  (login sample_handler sample_request (Some (rr_Credentials good_registration)) later_env registered.2).1.

Lemma register_then_login_witness :
  match relogin with
  | Ok rs' => rs_Status rs' = 200 ∧ created relogin = created (Ok registered_rs) ∧ is_Some (created relogin)
  | Err e => e = EApp ErrInternal
  | Panic _ => False
  end.
Proof.
  exact (register_then_login sample_handler sample_request sample_request good_registration
    sample_env later_env (sample_world invite_db) registered.2 registered_rs registered_Ok
    eq_refl eq_refl).
Defined.

Example relogin_succeeds : succeeded relogin = true.
Proof. vm_compute. reflexivity. Qed.

Lemma HasPrefix_app pre s : HasPrefix (pre +:+ s) pre = true.
Proof. induction pre as [|c pre IH]; [by destruct s|]. simpl. by rewrite bool_decide_eq_true_2. Qed.

Lemma TrimPrefix_app pre s : TrimPrefix (pre +:+ s) pre = s.
Proof.
  unfold TrimPrefix. rewrite HasPrefix_app. induction pre as [|c pre IH]; [by destruct s|]. exact IH.
Qed.

Lemma NewNumericDate_idem t : NewNumericDate (NewNumericDate t) = NewNumericDate t.
Proof.
  unfold NewNumericDate. assert ((t - t mod Second) mod Second = 0) as E; [|lia].
  by rewrite Zminus_mod_idemp_r, Z.sub_diag, Z.mod_0_l.
Qed.

(** C32: the access token issued for a user authenticates its requests as that
    user, as long as the account is there and active, until the expiry in whole
    seconds. *)
Theorem access_token_roundtrip {codec : UuidCodec} {jwt : JwtLibrary} (s : TokenService) (u : User)
    (env env' : Env) (w w' : World) (token : string) (expiry : Time)
    (Hissued : (IssueAccessToken s (us_ID u) env w).1 = Ok (token, expiry))
    (Hfaultless : env_fault env' (S (w_tick w')) = None)
    (Hin_time : env_now env' (w_tick w') < NewNumericDate expiry)
    (Huser : row_at (w_db w') (us_ID u) = Some u) (Hactive : us_IsActive u = true) :
  (Authenticate s ("Bearer " +:+ token) env' w').1 = Ok u.
Proof.
  unfold IssueAccessToken, mbind, M_bind, time_Now, map_err, lift in Hissued.
  destruct (jwt_SignedString _ _) as [t|e] eqn:Hs; cbn in Hissued; [|done].
  injection Hissued as -> <-. unfold Authenticate. rewrite HasPrefix_app, TrimPrefix_app. cbn [negb].
  cbv zeta. rewrite (jwt_signed_trimmed _ _ _ Hs).
  rewrite (bind_Ok _ _ _ _ (us_ID u) (next_tick w')).
  2:{ unfold map_err, ParseAccessToken, mbind, M_bind, time_Now.
      rewrite (jwt_parse_signed _ _ _ _ _ Hs eq_refl (NewNumericDate_idem _) (NewNumericDate_idem _)).
      unfold Before. cbn [rc_ExpiresAt access_claims].
      rewrite (proj2 (Z.ltb_lt _ _) Hin_time).
      unfold access_claims. cbn [rc_Subject]. by rewrite uuid_Parse_String. }
  rewrite (bind_Ok _ _ _ _ u (set_db (w_db w') (next_tick (next_tick w')))).
  2:{ unfold map_err, FindByID, First_id, stmt. cbn [w_tick next_tick w_db]. rewrite Hfaultless.
      by rewrite Huser. }
  by rewrite Hactive.
Qed.

Definition setup_user : User := default sample_manager (account_at "09120000009" setup_db).

Definition issued : string * Time :=
  match (IssueAccessToken sample_tokens (us_ID setup_user) later_env (sample_world setup_db)).1 with
  | Ok p => p | _ => ("", 0) end.

Lemma access_token_roundtrip_witness :
  (Authenticate sample_tokens ("Bearer " +:+ issued.1) later_env (sample_world setup_db)).1 = Ok setup_user.
Proof.
  apply (access_token_roundtrip sample_tokens setup_user later_env later_env (sample_world setup_db)
    (sample_world setup_db) issued.1 issued.2); [vm_compute; reflexivity..|].
  vm_compute. reflexivity.
Defined.

(** ** Answers *)

(** What each endpoint may answer. *)
Definition answer_of (rq : Request) (call : AuthCall) (rs : Response) : Prop :=
  match rs_Body rs, call with
  | ErrorBody e, _ => rs_Status rs = ae_Status e ∧ rs_Cookies rs = []
  | SessionBody _ _ _ _ _ rt, (CallSetup _ | CallRegister _ | CallLogin _) =>
      rs_Status rs = 200 ∧ (browserClient rq = true → rt = None)
  | RefreshBody _ _ rt, CallRefresh b =>
      rs_Status rs = 200 ∧ (browserClient rq = true ∨ (refreshTokenFrom rq b).2 = true → rt = None)
  | NoBody, (CallLogout _ | CallChangePassword _) => rs_Status rs = 204
  | MeBody _ _ _ _ _ _, CallMe => rs_Status rs = 200 ∧ rs_Cookies rs = []
  | InviteBody _ _ _, CallCreateInvite _ => rs_Status rs = 201 ∧ rs_Cookies rs = []
  | _, _ => False
  end.

Definition answers_as {A} (P : A → Prop) (m : M A) : Prop :=
  ∀ d, holds m d (λ r _, ∀ a, r = Ok a → P a).

Lemma answers_as_bind {A B} P (m : M A) (f : A → M B) :
  (∀ a, answers_as P (f a)) → answers_as P (m ≫= f).
Proof.
  intros Hf d. apply holds_bind, (holds_mono _ _ (λ _ _, True)); [done|].
  intros [a|e|s] d' _; cbn [after]; [apply Hf|done..].
Qed.

Lemma answers_as_ret {A} (P : A → Prop) a : P a → answers_as P (mret a).
Proof. intros H d. apply holds_ret. by intros ? [= <-]. Qed.

Lemma answers_as_fail {A} (P : A → Prop) e : answers_as P (fail e).
Proof. intros d. by apply holds_fail. Qed.

Lemma answers_as_panic {A} (P : A → Prop) s : answers_as P (lift (Panic s)).
Proof. intros d. by apply holds_lift. Qed.

Lemma answers_as_session {codec : UuidCodec} {jwt : JwtLibrary} {bcrypt : Bcrypt}
    {unicode : UnicodeTables} h rq u (P : Response → Prop) :
  (∀ rs, SessionOf rq u rs → P rs) → answers_as P (respondSession h rq u).
Proof.
  intros H d. eapply holds_mono; [apply holds_session|]. intros r d' [Hr _] rs ->. by apply H.
Qed.

Ltac answers_as_tac := repeat lazymatch goal with
  | |- answers_as _ (respondSession _ _ _) => apply answers_as_session; intros ? [? (? & ? & ? & E & ?)];
      unfold answer_of; rewrite E
  | |- answers_as _ (mbind _ _) => apply answers_as_bind; intros
  | |- answers_as _ (mret _) => apply answers_as_ret
  | |- answers_as _ (fail _) => apply answers_as_fail
  | |- answers_as _ (lift (Panic _)) => apply answers_as_panic
  | |- answers_as _ (if ?b then _ else _) => destruct b eqn:?
  | |- answers_as _ (match ?x with _ => _ end) => destruct x eqn:?
  | |- answers_as _ (let _ := _ in _) => cbv zeta
  end.

(** C33: every call of [auth] answers (no error escapes and nothing panics), with
    the status and the body of its endpoint or with a rendered error and no
    cookies; a browser client never reads a refresh token from a body, and
    neither does a caller whose token came from the cookie. *)
Theorem auth_answers_well_formed {codec : UuidCodec} {jwt : JwtLibrary} {bcrypt : Bcrypt}
    {unicode : UnicodeTables} (h : Handler) (rq : Request) (call : AuthCall) (env : Env) (w : World) :
  ∃ rs, (serve h rq call env w).1 = Ok rs ∧ answer_of rq call rs.
Proof.
  assert (answers_as (answer_of rq call) (serve h rq call)) as H.
  { intros d. unfold serve, handle. apply holds_bind, holds_attempt.
    match goal with |- holds ?m _ _ => assert (answers_as (answer_of rq call) m) as Hm end.
    { destruct call; unfold setup, register, login, refresh, logout, me, changePassword, createInvite;
        answers_as_tac; cbn; split_and?; try done.
      intros [->|E]; [by rewrite andb_false_r|].
      match goal with H : refreshTokenFrom _ _ = _ |- _ => rewrite H in E end. simpl in E. by subst. }
    apply (holds_mono _ _ _ _ (Hm d)). intros [rs|e|s] d' Hr; cbn [after]; [..|done].
    - apply holds_ret. intros a [= <-]. by apply Hr.
    - apply holds_ret. intros a [= <-]. cbn. by split. }
  pose proof (holds_run _ _ env w (H (w_db w))) as H1.
  pose proof (holds_run _ _ env w (answers_serve h rq call (w_db w))) as H2.
  assert (∀ e, (serve h rq call env w).1 ≠ Err e) as H3.
  { apply (holds_run (serve h rq call) (λ r _, ∀ e, r ≠ Err e)). unfold serve, handle.
    apply holds_bind, holds_attempt. apply (holds_mono _ _ (λ _ _, True)); [done|].
    intros [rs|e|s] d' _; cbn [after]; [by apply holds_ret..|done]. }
  destruct (serve h rq call env w).1 as [rs|e|s]; [eauto|by destruct (H3 e)|by destruct (H2 s)].
Qed.

(** C34: a refresh or a logout whose token came from the cookie, without the
    matching CSRF header, is answered 403 and reaches no statement: the world is
    as before, its clock included. *)
Theorem cookie_needs_csrf {codec : UuidCodec} {jwt : JwtLibrary} {bcrypt : Bcrypt}
    {unicode : UnicodeTables} (h : Handler) (rq : Request) (body : option string) (env : Env)
    (w : World) (Hcookie : (refreshTokenFrom rq body).2 = true) (Hcsrf : validCSRF rq = false) :
  let refused := MkResponse 403 [] (ErrorBody (Forbidden "توکن CSRF نامعتبر است.")) in
  serve h rq (CallRefresh body) env w = (Ok refused, w) ∧
  serve h rq (CallLogout body) env w = (Ok refused, w).
Proof.
  assert (present (refreshTokenFrom rq body).1 = true) as Hraw.
  { unfold refreshTokenFrom in *. destruct (present (default "" body)); [done|].
    by destruct (present (default "" (rq_RefreshCookie rq))) eqn:E. }
  cbv zeta. unfold serve, handle, refresh, logout.
  destruct (refreshTokenFrom rq body) as [raw c]. simpl in *. subst c. rewrite Hraw, Hcsrf. done.
Qed.

Definition browser_request : Request :=
  MkRequest "" ClientWeb "forged" (Some setup_token) (Some "the-csrf-cookie").

Lemma cookie_needs_csrf_witness :
  let refused := MkResponse 403 [] (ErrorBody (Forbidden "توکن CSRF نامعتبر است.")) in
  serve sample_handler browser_request (CallRefresh None) later_env (sample_world setup_db) =
    (Ok refused, sample_world setup_db) ∧
  serve sample_handler browser_request (CallLogout None) later_env (sample_world setup_db) =
    (Ok refused, sample_world setup_db).
Proof. apply cookie_needs_csrf; vm_compute; reflexivity. Defined.
