(* ===== verification/Frozen.v ===== *)
(** * Issued invoices are preserved

    The relation [Kept]: what every statement of the backend leaves alone once
    the period of an invoice is issued or closed. It rests on the triggers of
    [0004_billing.up.sql], and on the services never moving a period back. *)

From S2P Require Import Prelude Golang Calendar Errors Models Store Schema Logic Notification BillingRepo Calc Period BillingLemmas.

(** The immutable part of an invoice is the same; the number too, unless it was
    still a draft number. *)
Definition same_invoice (a b : Invoice) : Prop :=
  same_amounts a b = true ∧
  (is_draft_number (inv_InvoiceNumber a) = false → inv_InvoiceNumber b = inv_InvoiceNumber a).

Record Kept (d d' : DB) : Prop := {
  k_periods : ∀ id, period_frozen d id = true → period_frozen d' id = true;
  k_invoices : ∀ id (i : Invoice), row_at d id = Some i →
    period_frozen d (inv_PeriodID i) = true →
    ∃ i', row_at d' id = Some i' ∧ same_invoice i i';
  k_items : ∀ id (x : InvoiceItem), row_at d id = Some x →
    item_frozen d (ii_InvoiceID x) = true → row_at d' id = Some x;
  k_adjustments : ∀ id (a : InvoiceAdjustment), row_at d id = Some a →
    item_frozen d (ad_InvoiceID a) = true → row_at d' id = Some a;
}.

Lemma same_amounts_eq a b : same_amounts a b = true ↔
  (inv_BaseAmount a = inv_BaseAmount b ∧ inv_PriorDebt a = inv_PriorDebt b ∧
   inv_LateFeeAmount a = inv_LateFeeAmount b ∧ inv_CreditAmount a = inv_CreditAmount b ∧
   inv_FinalAmount a = inv_FinalAmount b) ∧
  (inv_BuildingID a = inv_BuildingID b ∧ inv_PeriodID a = inv_PeriodID b ∧
   inv_UnitID a = inv_UnitID b ∧ inv_DueDate a = inv_DueDate b).
Proof. unfold same_amounts. rewrite !andb_true_iff, !bool_decide_eq_true. tauto. Qed.

#[export] Instance same_invoice_preorder : PreOrder same_invoice.
Proof.
  split; unfold same_invoice.
  - intros a. rewrite same_amounts_eq. tauto.
  - intros a b c [H1 N1] [H2 N2]. rewrite same_amounts_eq in *.
    split; [intuition congruence|]. intros Hd. rewrite N2, N1; [done..|by rewrite N1].
Qed.

Lemma Kept_item_frozen d d' id : Kept d d' → item_frozen d id = true → item_frozen d' id = true.
Proof.
  intros K. unfold item_frozen. destruct (row_at d id) as [i|] eqn:E; [|done]. intros Hf.
  destruct (k_invoices _ _ K id i E Hf) as (i' & -> & [Hs _]).
  apply same_amounts_eq in Hs as (_ & _ & <- & _). by apply (k_periods _ _ K).
Qed.

#[export] Instance Kept_preorder : PreOrder Kept.
Proof.
  split.
  - intros d. split; [done| |done..]. intros id i Hi _. exists i. by split.
  - intros d1 d2 d3 K1 K2. split.
    + intros id H. by apply (k_periods _ _ K2), (k_periods _ _ K1).
    + intros id i Hi Hf. destruct (k_invoices _ _ K1 id i Hi Hf) as (i2 & H2 & S2).
      destruct (k_invoices _ _ K2 id i2 H2) as (i3 & H3 & S3).
      { destruct S2 as [S2 _]. apply same_amounts_eq in S2 as (_ & _ & <- & _).
        by apply (k_periods _ _ K1). }
      exists i3. split; [done|]. by transitivity i2.
    + intros id x Hx Hf. apply (k_items _ _ K2); [by apply (k_items _ _ K1)|].
      by eapply Kept_item_frozen.
    + intros id x Hx Hf. apply (k_adjustments _ _ K2); [by apply (k_adjustments _ _ K1)|].
      by eapply Kept_item_frozen.
Qed.

(** The four tables [Kept] looks at. *)
Definition ledger (d : DB) :=
  (db_periods d, db_invoices d, db_invoice_items d, db_adjustments d).

Lemma keeps_Kept d d' : keeps ledger d d' → Kept d d'.
Proof.
  unfold keeps, ledger. intros [= E1 E2 E3 E4].
  assert (∀ id, period_frozen d' id = period_frozen d id) as Hp.
  { intros id. unfold period_frozen, row_at. simpl. by rewrite E1. }
  split.
  - intros id. by rewrite Hp.
  - intros id i Hi _. exists i. split; [|done]. revert Hi. unfold row_at. simpl. by rewrite E2.
  - intros id x Hx _. revert Hx. unfold row_at. simpl. by rewrite E3.
  - intros id x Hx _. revert Hx. unfold row_at. simpl. by rewrite E4.
Qed.

(** ** The statements *)

Lemma row_at_fresh `{!Table R} (r x : R) d id :
  tbl d !! key r = None → row_at d id = Some x → row_at (put r d) id = Some x.
Proof.
  intros Hf Hx. rewrite row_at_put. case_decide as E; [|done].
  apply row_at_Some in Hx as [Hx _]. congruence.
Qed.

Lemma Kept_put_invoice (r old : Invoice) d :
  row_at d (inv_ID r) = Some old → same_invoice old r → Kept d (put r d).
Proof.
  intros Hold Hs. split; [done| |done..]. intros id i Hi _. rewrite row_at_put. simpl.
  case_decide as E; [|by exists i]. exists r. split; [done|]. congruence.
Qed.

Lemma kept_Create_invoice (r : Invoice) : Stays Kept (Create r).
Proof.
  apply stays_Create; [apply _..|]. intros env now r' d _ Hf Ha. split; [done| |done..].
  intros id i Hi _. exists i. split; [|done]. apply row_at_fresh; [|done].
  by rewrite (admit_key _ _ _ _ Ha).
Qed.

Lemma kept_Create_item (r : InvoiceItem) : Stays Kept (Create r).
Proof.
  apply stays_Create; [apply _..|]. intros env now r' d _ Hf Ha. split; [done| | |done].
  - intros id i Hi _. by exists i.
  - intros id x Hx _. apply row_at_fresh; [|done]. by rewrite (admit_key _ _ _ _ Ha).
Qed.

Lemma kept_Create_adjustment (r : InvoiceAdjustment) : Stays Kept (Create r).
Proof.
  apply stays_Create; [apply _..|]. intros env now r' d _ Hf Ha. split; [done| |done|].
  - intros id i Hi _. by exists i.
  - intros id x Hx _. apply row_at_fresh; [|done]. by rewrite (admit_key _ _ _ _ Ha).
Qed.

Lemma kept_Create_period (r : BillingPeriod) : Stays Kept (Create r).
Proof.
  apply stays_Create; [apply _..|]. intros env now r' d _ Hf Ha. split; [|by intros id i ? ?; exists i|done..].
  intros id. unfold period_frozen. destruct (row_at d id) as [p|] eqn:E; [|done].
  erewrite row_at_fresh; [done| |exact E]. by rewrite (admit_key _ _ _ _ Ha).
Qed.

(** The UPDATE trigger of invoices. *)
Lemma guard_update_same old r :
  billing_invoice_guard_update old r = None → same_invoice old r.
Proof.
  unfold billing_invoice_guard_update, same_invoice.
  destruct (same_amounts old r); [|by rewrite andb_false_r].
  rewrite andb_true_r. simpl. destruct (is_draft_number _) eqn:Ed; simpl; [done|].
  case_bool_decide; simpl; [|done]. by intros.
Qed.

Lemma kept_Update_invoice P f :
  (∀ now r, inv_ID (f now r) = inv_ID r) → Stays Kept (Update_where (R := Invoice) P f).
Proof.
  intros Hk d. step; [done|].
  assert (∀ r, r ∈ List.filter P (rows d) → row_at d (inv_ID r) = Some r) as Hl.
  { intros r Hr. by apply elem_of_filter_rows in Hr as [? _]. }
  assert (NoDup (inv_ID <$> List.filter P (rows d))) as Hnd.
  { pose proof (rows_NoDup (R := Invoice) d) as H0. revert H0. clear.
    change (key (R := Invoice)) with inv_ID. generalize (rows (R := Invoice) d) as l.
    induction l as [|x l IH]; [done|]. csimpl. intros Hnd. inv Hnd. simpl.
    destruct (P x); [|by apply IH]. csimpl. constructor; [|by apply IH].
    intros Hin. apply H1. apply list_elem_of_fmap in Hin as (y & -> & Hy).
    apply list_elem_of_fmap_2. apply list_elem_of_In, filter_In in Hy as [Hy _].
    by apply list_elem_of_In. }
  revert H Hl Hnd. generalize (List.filter P (rows (R := Invoice) d)) as l. intros l.
  revert d. induction l as [|r l IH]; intros d; simpl; [by intros [= ->]|].
  destruct (update_row env r (f now r) d) as [d1|e|s] eqn:E; simpl; [|done..].
  intros E2 Hl Hnd. csimpl in Hnd. inv Hnd.
  apply update_row_Ok in E as (r' & Ha & Hu & ->).
  assert (inv_ID r' = inv_ID r) as Hr'.
  { pose proof (admit_key _ _ _ _ Ha) as H. simpl in H. by rewrite H, Hk. }
  transitivity (put r' d).
  - apply (Kept_put_invoice r' r); [rewrite Hr'; apply Hl; by left|by apply guard_update_same].
  - apply IH; [done| |done]. intros x Hx. rewrite row_at_put. simpl. rewrite Hr'.
    rewrite decide_False; [apply Hl; by right|].
    intros E. apply H1. rewrite <- E. by apply list_elem_of_fmap_2.
Qed.

(** ** Deleting draft invoices *)

Lemma row_at_filter {R} `{!Table R} (d d' : DB) (P : UUID * R → Prop) `{∀ x, Decision (P x)} id x :
  tbl (R := R) d' = filter P (tbl d) → row_at d id = Some x → P (id, x) → row_at d' id = Some x.
Proof.
  intros E Hx Hp. apply row_at_Some in Hx as [Hx Hk]. apply row_at_Some. split; [|done].
  rewrite E. by apply map_lookup_filter_Some.
Qed.

Lemma row_at_delete (r : Invoice) d id :
  row_at (R := Invoice) (delete_row d r) id =
  if decide (id = inv_ID r) then None else row_at (R := Invoice) d id.
Proof.
  unfold row_at, delete_row. simpl. case_decide as E.
  - by rewrite E, lookup_delete_eq.
  - by rewrite lookup_delete_ne.
Qed.

(** Deleting the row of a period that is not frozen, with its cascade. *)
Lemma Kept_delete_row (r : Invoice) d :
  (∀ i, row_at d (inv_ID r) = Some i → period_frozen d (inv_PeriodID i) = false) →
  Kept d (delete_row d r).
Proof.
  intros Hr.
  assert (item_frozen d (inv_ID r) = false) as Hif.
  { unfold item_frozen. destruct (row_at d (inv_ID r)) as [i|] eqn:E; [by apply Hr|done]. }
  split; [done| | |].
  - intros id i Hi Hf. exists i. split; [|done]. rewrite row_at_delete.
    case_decide as E; [|done]. rewrite E in Hi. rewrite (Hr i Hi) in Hf. done.
  - intros id x Hx Hf. apply (row_at_filter d _ (λ '(_, i), ii_InvoiceID i ≠ inv_ID r));
      [done..|]. simpl. intros E. rewrite E, Hif in Hf. done.
  - intros id x Hx Hf. apply (row_at_filter d _ (λ '(_, a), ad_InvoiceID a ≠ inv_ID r));
      [done..|]. simpl. intros E. rewrite E, Hif in Hf. done.
Qed.

Lemma first_error_None {R} (f : R → option GoError) l :
  first_error f l = None → Forall (λ r, f r = None) l.
Proof.
  induction l as [|r l IH]; simpl; [constructor|]. destruct (f r) eqn:E; [done|].
  intros H. constructor; [done|by apply IH].
Qed.

Lemma kept_Delete_invoice P : Stays Kept (Delete_where (R := Invoice) P).
Proof.
  intros d. step; [done|]. apply first_error_None in H.
  assert (∀ r, r ∈ List.filter (P d) (rows d) → row_at d (inv_ID r) = Some r ∧
    period_frozen d (inv_PeriodID r) = false) as Hl.
  { intros r Hr. rewrite Forall_forall in H. specialize (H r Hr). simpl in H.
    unfold invoice_delete, billing_invoice_guard_delete in H. split.
    - by apply elem_of_filter_rows in Hr as [? _].
    - by destruct (period_frozen d (inv_PeriodID r)). }
  clear H. revert Hl. generalize (List.filter (P d) (rows (R := Invoice) d)) as l. intros l Hl.
  assert (∀ r i, r ∈ l → row_at d (inv_ID r) = Some i →
    period_frozen d (inv_PeriodID i) = false) as Hl'.
  { intros r i Hr Hi. destruct (Hl r Hr) as [E Hp]. rewrite E in Hi. by simplify_eq. }
  clear Hl. revert d Hl'. induction l as [|r l IH]; intros d Hl; simpl; [done|].
  transitivity (delete_row d r); [apply Kept_delete_row; intros i; apply Hl; by left|].
  apply IH. intros r' i Hr' Hi. rewrite row_at_delete in Hi.
  case_decide; [done|]. change (period_frozen (delete_row d r)) with (period_frozen d).
  eapply Hl; [by right|done].
Qed.

Lemma kept_leaf {A} (m : M A) : Stays (keeps ledger) m → Stays Kept m.
Proof. apply stays_mono, keeps_Kept. Qed.

Lemma kept_delete_calculation id : Stays Kept (delete_calculation id).
Proof.
  unfold delete_calculation. stays_step; [apply _|apply kept_leaf; stays_tac|].
  stays_step; [apply _|apply kept_Delete_invoice|stays_tac].
Qed.

Lemma kept_ReplaceCalculation id shares invoices : Stays Kept (ReplaceCalculation id shares invoices).
Proof.
  unfold ReplaceCalculation, store_share, store_invoice, store_item.
  stays_tac; [apply kept_delete_calculation|apply kept_leaf; stays_tac
    |apply kept_Create_invoice|apply kept_Create_item].
Qed.

Lemma kept_DiscardCalculation id : Stays Kept (DiscardCalculation id).
Proof. unfold DiscardCalculation. stays_tac. apply kept_delete_calculation. Qed.

Lemma kept_number_draft {loc : Location} year count now x : Stays Kept (number_draft year count now x).
Proof. destruct x. unfold number_draft. stays_tac. by apply kept_Update_invoice. Qed.

Lemma kept_SetInvoiceStatus id s : Stays Kept (SetInvoiceStatus id s).
Proof. unfold SetInvoiceStatus. stays_tac. by apply kept_Update_invoice. Qed.

Lemma kept_CreateAdjustment adj item : Stays Kept (CreateAdjustment adj item).
Proof.
  unfold CreateAdjustment. stays_tac; [apply kept_Create_adjustment|apply kept_Create_item].
Qed.

(** Writing one period along a step of the state machine. *)
Lemma frozen_status d id : period_frozen d id = true ↔
  status_at d id = Some PeriodIssued ∨ status_at d id = Some PeriodClosed.
Proof.
  unfold period_frozen, status_at, in_enum.
  destruct (row_at d id) as [p|]; simpl; [|naive_solver].
  rewrite bool_decide_eq_true. split.
  - intros H. apply elem_of_cons in H as [->|H]; [by left|].
    apply list_elem_of_singleton in H as ->. by right.
  - intros [[= ->]|[= ->]]; [by left|by right; left].
Qed.

Lemma step_frozen d d' id :
  PeriodsStep d d' → period_frozen d id = true → period_frozen d' id = true.
Proof.
  rewrite !frozen_status. intros H. specialize (H id).
  destruct H as [s| | | | | ]; naive_solver.
Qed.

Lemma Kept_set_periods d m : PeriodsStep d (set_periods m d) → Kept d (set_periods m d).
Proof.
  intros H. split; [intros id; by apply step_frozen| |done..]. intros id i Hi _. by exists i.
Qed.

Ltac kept_leaf_tac :=
  first [ apply kept_ReplaceCalculation | apply kept_DiscardCalculation
        | apply kept_number_draft | apply kept_SetInvoiceStatus | apply kept_CreateAdjustment
        | apply kept_Create_period ].
Ltac kept_tac := repeat first [kept_leaf_tac | stays_step | apply kept_leaf; solve [keeps_tac]].
