(* ===== verification/PaymentSpec.v ===== *)
(** * Reasoning about payments

    What the repository calls of the payment domain establish, and that the
    payment domain keeps the contract billing was proved against. *)

From S2P Require Import Prelude Golang Errors Models Store Schema Logic Gateway Notification BillingRepo Calc Period PaymentRepo PaymentService BillingLemmas Frozen.

(** ** Balances *)

Lemma only_balances_refl d : only_balances d d.
Proof. exists (db_balances d). by destruct d. Qed.

#[export] Instance only_balances_preorder : PreOrder only_balances.
Proof.
  split; [exact only_balances_refl|]. intros d1 d2 d3 [b1 ->] [b2 ->]. by exists b2.
Qed.

(** The row a balance is stored as. *)
Definition stored_balance (now : Time) (ub : UnitBalance) : UnitBalance := touch now ub.

Lemma bind_no_panic {A B} (m : Res A) (f : A → Res B) s :
  m ≠ Panic s → (∀ a, f a ≠ Panic s) → m ≫= f ≠ Panic s.
Proof. destruct m; simpl; auto. intros H _ [= ->]. by apply H. Qed.

Lemma scan_no_panic z s : scan_int64 z ≠ Panic s.
Proof. unfold scan_int64. destruct (decide (in64 z)); discriminate. Qed.

Lemma aggregates_no_panic u d s : aggregates u d ≠ Panic s.
Proof.
  unfold aggregates. cbv zeta. repeat (apply bind_no_panic; [apply scan_no_panic|intros ?]). done.
Qed.

Lemma holds_recomputeBalance u d (Q : Res UnitBalance → DB → Prop) :
  (∀ e, Q (Err e) d) →
  (∀ agg t now, aggregates u d = Ok agg →
     Q (Ok (balance_of u agg t)) (put (stored_balance now (balance_of u agg t)) d)) →
  holds (recomputeBalance u) d Q.
Proof.
  intros He Hok. unfold recomputeBalance. step. apply holds_stmt; [intros; apply He|].
  intros env now. destruct (aggregates u d) as [agg|e|s] eqn:E; simpl; [|apply He|].
  - step. step. step. unfold upsert_balance. apply holds_stmt; [intros; apply He|].
    intros env' now'. cbn [accept UnitBalance_table mbind Res_bind]. step. by eapply Hok.
  - by apply aggregates_no_panic in E.
Qed.

Lemma recompute_only_balances u : Stays only_balances (recomputeBalance u).
Proof.
  intros d. apply holds_recomputeBalance; [intros; apply only_balances_refl|].
  intros agg t now _. by eexists.
Qed.

#[export] Instance Snapshot_ro u : ReadOnly (Snapshot u).
Proof. unfold Snapshot, GetUnitBalance. read_only. Qed.

#[export] Instance PaymentBalances_ok : @BalanceProviderOk PaymentBalances.
Proof. intros u. apply Snapshot_ro. Qed.

#[export] Instance PaymentHook_ok `{!UuidCodec} : @BalanceRecomputerOk PaymentHook.
Proof.
  intros f id [= <-]. unfold RecomputeInvoice. stays_tac. apply recompute_only_balances.
Qed.

(** ** Reading an invoice and checking access *)

Lemma ledger_of_Ok d inv li :
  ledger_of d inv = Ok li → li_ID li = inv_ID inv ∧ li_UnitID li = inv_UnitID inv ∧
    li_BuildingID li = inv_BuildingID inv ∧ li_Status li = inv_Status inv ∧
    li_PaidAmount li = inv_PaidAmount inv ∧ li_FinalAmount li = inv_FinalAmount inv.
Proof.
  unfold ledger_of. cbv zeta.
  destruct (scan_int64 (adjustments_sum AdjustmentDebit _ _)); simpl; [|discriminate..].
  destruct (scan_int64 _); simpl; [|discriminate..]. intros [= <-]. by split_and!.
Qed.

(** What a read of [InvoiceForUpdate] returns. *)
Definition locked_invoice (d : DB) (id : UUID) (li : ledgerInvoice) : Prop :=
  ∃ inv, row_at d id = Some inv ∧ ledger_of d inv = Ok li.

Lemma reads_InvoiceForUpdate id d :
  reads (InvoiceForUpdate id) d (locked_invoice d id).
Proof.
  unfold InvoiceForUpdate. eapply reads_bind.
  { by apply (reads_query _ d (λ _, True)). }
  intros locked _. case_bool_decide; [apply reads_fail|].
  apply holds_stmt; [done|]. intros env now. destruct (row_at d id) as [inv|] eqn:E; [|done].
  destruct (ledger_of d inv) as [li|e|s] eqn:El; simpl; [|done..].
  case_bool_decide; [done|]. split; [done|]. intros a [= <-]. by exists inv.
Qed.

(** Object-level access to a unit: its building's manager, or an occupant. *)
Definition may_access (d : DB) (u : User) (unitID : UUID) : Prop :=
  ∃ unit : Unit, row_at d unitID = Some unit ∧ u_DeletedAt unit = None ∧
    if decide (us_Role u = RoleManager) then granted d u (u_BuildingID unit)
    else unitID ∈ resident_units (us_Phone u) d.

Lemma reads_UnitByID id d :
  reads (UnitByID id) d (λ unit, row_at d id = Some unit ∧ u_DeletedAt unit = None).
Proof.
  unfold UnitByID. apply holds_First_where; [done|]. intros unit l E. split; [done|].
  intros a [= <-].
  assert (unit ∈ sort_by by_key (List.filter (λ u, bool_decide (u_ID u = id) && is_null (u_DeletedAt u)) (rows d)))
    as Hin by (rewrite E; by left).
  rewrite sort_by_Permutation, elem_of_filter_rows in Hin. destruct Hin as [Hr Hp].
  apply andb_prop in Hp as [H1 H2]. apply bool_decide_eq_true in H1 as <-.
  split; [exact Hr|]. by destruct (u_DeletedAt unit).
Qed.

Lemma reads_canAccessUnit u unitID d :
  reads (canAccessUnit u unitID) d (λ ok, ok = true → may_access d u unitID).
Proof.
  unfold canAccessUnit. eapply reads_bind; [apply reads_UnitByID|]. intros unit [Hu Hd].
  unfold may_access. case_bool_decide as Hr.
  - apply reads_query. intros Hg%bool_decide_eq_true. exists unit. by rewrite decide_True.
  - eapply reads_bind; [by apply (reads_query _ d (λ us, us = resident_units (us_Phone u) d))|].
    intros us ->. apply reads_ret. intros Hg%bool_decide_eq_true. exists unit. by rewrite decide_False.
Qed.

Lemma reads_payAuthorizedInvoice u id d :
  reads (payAuthorizedInvoice u id) d (λ li, locked_invoice d id li ∧ may_access d u (li_UnitID li)).
Proof.
  unfold payAuthorizedInvoice. eapply reads_bind; [apply reads_map_err, reads_InvoiceForUpdate|].
  intros li Hli. eapply reads_bind; [apply reads_canAccessUnit|]. intros [] Hok; simpl.
  - apply reads_ret. auto.
  - apply reads_fail.
Qed.

(** ** Writing to an invoice *)

Lemma holds_ApplyInvoicePaid id newPaid status inv d (Q : Res unit → DB → Prop) :
  row_at d id = Some inv → (∀ e, Q (Err e) d) →
  (∀ inv', inv_ID inv' = id → inv_PaidAmount inv' = newPaid → inv_Status inv' = status →
     0 ≤ newPaid → same_invoice inv inv' → Q (Ok tt) (put inv' d)) →
  holds (ApplyInvoicePaid id newPaid status) d Q.
Proof.
  intros Hr He Hok. unfold ApplyInvoicePaid. step. step; [apply He|]. step.
  destruct (update_by_id (R := Invoice) env (pay_invoice newPaid status now) d d' id
    ltac:(done) H) as [[E _]|(r & r' & E & Ha & Hu & Hk & ->)]; [congruence|].
  assert (r = inv) as -> by congruence.
  simpl in Ha. rewrite !require_Ok in Ha. destruct Ha as (_ & Hp & _ & [= <-]).
  apply Hok; [exact Hk|done|done|lia|by apply guard_update_same].
Qed.

Lemma kept_ApplyInvoicePaid id newPaid status : Stays Kept (ApplyInvoicePaid id newPaid status).
Proof. unfold ApplyInvoicePaid. stays_tac. by apply kept_Update_invoice. Qed.

(** ** The service touches only its tables *)

Lemma keeps_recomputeBalance {X} (π : DB → X) u :
  (∀ b d, π (set_balances b d) = π d) → Stays (keeps π) (recomputeBalance u).
Proof.
  intros Hb. eapply stays_mono; [|apply recompute_only_balances]. intros d d' [b ->]. apply Hb.
Qed.

Lemma keeps_notifyRecorded {X} (π : DB → X) `{!PushNotifier} p :
  Indep π Notification → Stays (keeps π) (notifyRecorded p).
Proof.
  intros. unfold notifyRecorded, OccupantUserIDs. stays_tac. by apply keeps_Notification_Create.
Qed.

(** ** The outcome of a manual payment *)

(** The payment is the one row of its table that changed; it is verified. *)
Definition payment_stored (d d' : DB) (p : Payment) (inv : Invoice) : Prop :=
  ∃ p', db_payments d' = <[pay_ID p := p']> (db_payments d) ∧ pay_ID p' = pay_ID p ∧
    pay_Amount p' = pay_Amount p ∧ pay_Status p' = StatusVerified ∧
    pay_InvoiceID p' = Some (inv_ID inv) ∧ pay_UnitID p' = pay_UnitID p.

(** Money applied to an invoice: the payment is a row, the invoice has advanced
    by what was applied, and the balance of the unit is that of the new rows. *)
Record Applied (d d' : DB) (inv : Invoice) (li : ledgerInvoice) (p : Payment) : Prop := {
  ap_locked : row_at d (inv_ID inv) = Some inv ∧ ledger_of d inv = Ok li;
  ap_payment : payment_stored d d' p inv;
  ap_invoice : ∃ inv', db_invoices d' = <[inv_ID inv := inv']> (db_invoices d) ∧
    inv_ID inv' = inv_ID inv ∧ 0 ≤ inv_PaidAmount inv' ∧
    inv_PaidAmount inv' = add64 (inv_PaidAmount inv) (pa_applied (applyToInvoice li (pay_Amount p))) ∧
    inv_Status inv' = pa_status (applyToInvoice li (pay_Amount p)) ∧ same_invoice inv inv';
  ap_balance : ∃ agg t now, aggregates (li_UnitID li) d' = Ok agg ∧
    row_at d' (li_UnitID li) = Some (stored_balance now (balance_of (li_UnitID li) agg t));
}.

(** Notifying never fails and only adds notifications. *)
Lemma holds_notifyRecorded {pusher : PushNotifier} p d (Q : Res unit → DB → Prop) :
  (∀ n, Q (Ok tt) (set_notifications n d)) → holds (notifyRecorded p) d Q.
Proof.
  intros HQ. unfold notifyRecorded, OccupantUserIDs.
  assert (∀ n, set_notifications (db_notifications (set_notifications n d)) d = set_notifications n d)
    as Hn by done.
  assert (d = set_notifications (db_notifications d) d) as E by (by destruct d).
  rewrite E at 1. generalize (db_notifications d) as n. intros n. step. step. step.
  - simpl. step. apply HQ.
  - simpl. generalize (us_ID <$> occupant_users
      (λ o, bool_decide (o_UnitID o = pay_UnitID p) && o_IsActive o) (set_notifications n d)) as us.
    intros us. revert n. induction us as [|u us IH]; intros n; simpl; [step; apply HQ|].
    step. unfold ignore_err. step. step. unfold Notification_Create. step. step. step. step.
    + step. apply IH.
    + subst d'. step. unfold ignore_err. step. step.
      destruct (Push _ _ _); repeat (step; simpl); apply IH.
Qed.

(** Setting the notifications aside, a statement about the other tables. *)
Lemma Applied_notifications d d' n inv li p :
  Applied d d' inv li p → Applied d (set_notifications n d') inv li p.
Proof. intros []. by split. Qed.

(** The common end of both flows: advance the invoice, recompute the balance. *)
Lemma holds_apply_money d0 d inv li amt p (Q : Res Payment → DB → Prop) :
  amt = pay_Amount p →
  row_at d0 (inv_ID inv) = Some inv → ledger_of d0 inv = Ok li →
  db_invoices d = db_invoices d0 → payment_stored d0 d p inv →
  (∀ e d', Q (Err e) d') → (∀ d', Applied d0 d' inv li p → Q (Ok p) d') →
  let app := applyToInvoice li amt in
  holds (ApplyInvoicePaid (inv_ID inv) (add64 (li_PaidAmount li) (pa_applied app)) (pa_status app);;
         recomputeBalance (li_UnitID li);; mret p) d Q.
Proof.
  intros -> Hi Hl Hd Hp He Hok app. step.
  apply holds_ApplyInvoicePaid with (inv := inv); [unfold row_at in *; simpl; by rewrite Hd|intros; apply He|].
  intros inv' Hid Hpaid Hst Hnn Hsame. simpl. step. apply holds_recomputeBalance; [intros; apply He|].
  intros agg t now Hagg. simpl. step. apply Hok.
  destruct (ledger_of_Ok _ _ _ Hl) as (_ & _ & _ & _ & Hpa & _).
  split.
  - done.
  - exact Hp.
  - exists inv'. split_and!; [|done|by rewrite Hpaid|by rewrite Hpaid, Hpa|done..].
    simpl. by rewrite Hid, Hd.
  - exists agg, t, now. split; [|by rewrite row_at_put; simpl; rewrite decide_True].
    exact Hagg.
Qed.

(** The checks of a manual payment, in the order they are made. *)
Record ManualOk (d : DB) (u : User) (invoiceID : UUID) (i : ManualPaymentInput) (amount : Money)
    (inv : Invoice) (li : ledgerInvoice) : Prop := {
  mo_manager : us_Role u = RoleManager;
  mo_amount : parse_amount (mp_Amount i) = Some amount;
  mo_date : mp_PaidAt i = "" ∨ is_Some (ParseDate (mp_PaidAt i));
  mo_invoice : row_at d invoiceID = Some inv ∧ ledger_of d inv = Ok li;
  mo_access : may_access d u (inv_UnitID inv);
  mo_status : inv_Status inv ≠ InvoiceCanceled;
}.

Lemma reads_parse_paid_at s d :
  reads (parse_paid_at s) d (λ _, s = "" ∨ is_Some (ParseDate s)).
Proof.
  unfold parse_paid_at. case_bool_decide.
  - apply holds_bind, holds_now. intros t. simpl. apply reads_ret. by left.
  - destruct (ParseDate s) eqn:E; [|apply reads_fail]. apply reads_ret. right. by eexists.
Qed.

Lemma holds_store_manual d inv li p :
  row_at d (inv_ID inv) = Some inv → ledger_of d inv = Ok li →
  pay_InvoiceID p = Some (inv_ID inv) → pay_Status p = StatusVerified →
  holds (store_manual li (inv_ID inv) p) d (λ r d',
    match r with
    | Ok q => Applied d d' inv li q ∧ pay_Amount q = pay_Amount p ∧ pay_InvoiceID q = pay_InvoiceID p
        ∧ pay_ID q = pay_ID p ∧ db_payments d !! pay_ID q = None
    | _ => d' = d
    end).
Proof.
  intros Hi Hl Hid Hs. unfold store_manual. apply holds_transaction; [done..|].
  step. step; [done|]. subst d'. pose proof (admit_key _ _ _ _ H1) as Hk.
  assert (pay_Amount r' = pay_Amount p ∧ pay_Status r' = pay_Status p ∧
    pay_InvoiceID r' = pay_InvoiceID p ∧ pay_UnitID r' = pay_UnitID p) as (Ea & Es & Ei & Eu).
  { revert H1. cbn -[require mbind]. rewrite !require_Ok. intros (_ & _ & _ & [= <-]). done. }
  apply (holds_apply_money d _ inv li (pay_Amount p) (stamp now p)); [reflexivity|exact Hi|exact Hl|reflexivity| |done|].
  - exists r'. split_and!; [|exact Hk|simpl; congruence..].
    change (<[pay_ID r' := r']> (db_payments d) = <[pay_ID p := r']> (db_payments d)).
    f_equal. exact Hk.
  - intros d' A. done.
Qed.

Lemma holds_RecordManual {pusher : PushNotifier} u invoiceID i d :
  holds (RecordManual u invoiceID i) d (λ r d',
    match r with
    | Ok p => ∃ amount inv li, ManualOk d u invoiceID i amount inv li ∧
        Applied d d' inv li p ∧ pay_Amount p = amount ∧ pay_InvoiceID p = Some invoiceID ∧
        db_payments d !! pay_ID p = None
    | _ => d' = d
    end).
Proof.
  unfold RecordManual. step. step; [|done].
  destruct (parse_amount (mp_Amount i)) as [amount|] eqn:Ea; [|by step].
  step. eapply holds_mono; [apply reads_parse_paid_at|]. intros [paidAt|e|s] d1 [-> Hd]; simpl; [|done..].
  step. eapply holds_mono; [apply reads_payAuthorizedInvoice|].
  intros [li|e|s] d1 [-> Hli]; simpl; [|done..].
  destruct (Hli _ eq_refl) as [(inv & Hi & Hl) Hacc]. clear Hli.
  step; [by step|]. step. step. step. apply row_at_Some in Hi as Hk. destruct Hk as [_ Hk]. simpl in Hk.
  destruct (ledger_of_Ok _ _ _ Hl) as (_ & Hu & _ & Hst & _).
  rewrite <- Hk. eapply holds_mono.
  { apply holds_store_manual with (inv := inv); [by rewrite Hk|exact Hl|done|done]. }
  intros [p|e|s] d1; simpl; [|done..]. intros (A & Hamt & Hinv & _ & Hfresh).
  step. apply holds_notifyRecorded. intros n. simpl. step.
  exists amount, inv, li. split_and!; [|by apply Applied_notifications|done..].
  split; [by apply bool_decide_eq_true in H|done|exact (Hd _ eq_refl)|by rewrite Hk| |].
  - by rewrite <- Hu.
  - apply bool_decide_eq_false in Heqb. congruence.
Qed.

(** ** The outcome of a callback *)

(** A payment waiting for its verification. *)
Definition pending (p : Payment) : Prop :=
  pay_Status p = StatusRecorded ∧ pay_Method p = MethodGateway ∧ is_Some (pay_Authority p).

(** The gateway confirmed the transaction of this row, for the row's amount. *)
Definition confirmed `{!PaymentGateway} (p : Payment) (ref : string) : Prop :=
  ∃ authority env w, pay_Authority p = Some authority ∧
    (gw_Verify authority (pay_Amount p) env w).1 = Ok (MkVerifyResult true ref).

(** The row a callback finds. *)
Definition callback_finds `{!UuidCodec} (d : DB) (paymentID authority : string) (p : Payment) : Prop :=
  row_at d (pay_ID p) = Some p ∧
  if bool_decide (paymentID = "")
  then pay_Authority p = Some authority ∧ pay_Status p = StatusRecorded
  else uuid_Parse paymentID = Some (pay_ID p).

(** What the verification of a found row may do to the tables. *)
Inductive Finalized `{!PaymentGateway} (d : DB) (row : Payment) : Payment → DB → Prop :=
  | fin_replay : ¬ pending row → Finalized d row row d
  | fin_failed p p' : pending row → pay_Status p = StatusFailed → pay_Status p' = StatusFailed →
      pay_ID p' = pay_ID row → pay_Amount p' = pay_Amount row → pay_InvoiceID p' = pay_InvoiceID row →
      Finalized d row p (put p' d)
  | fin_unlinked p p' n ref : pending row → confirmed row ref → pay_InvoiceID row = None →
      pay_ID p' = pay_ID row → pay_Amount p' = pay_Amount row → pay_InvoiceID p' = None →
      Finalized d row p (set_notifications n (put p' d))
  | fin_applied p d' ref inv li : pending row → confirmed row ref →
      pay_InvoiceID row = Some (inv_ID inv) → pay_ID p = pay_ID row → pay_Amount p = pay_Amount row →
      Applied d d' inv li p → Finalized d row p d'.

Section callback.
Context {codec : UuidCodec} {pusher : PushNotifier} {gateway : PaymentGateway}.
Context {gateway_ok : GatewayOk}.

Lemma reads_callback_payment pid a d :
  reads (callback_payment pid a) d (λ o, ∀ p, o = Some p → callback_finds d pid a p).
Proof.
  unfold callback_payment, callback_finds. case_bool_decide as Hp; simpl.
  - case_bool_decide as Ha; simpl; [apply reads_fail|]. unfold GetPaymentByAuthority.
    apply holds_bind, holds_attempt, holds_First_where; simpl.
    { intros e. apply reads_ret. done. }
    intros row l E. apply reads_ret. intros p [= <-].
    assert (row ∈ sort_by by_key (List.filter (λ p, opt_eqb (pay_Authority p) (Some a)
      && bool_decide (pay_Status p = StatusRecorded)) (rows d))) as Hin by (rewrite E; by left).
    rewrite sort_by_Permutation, elem_of_filter_rows in Hin. destruct Hin as [Hr Hq].
    apply andb_prop in Hq as [H1 H2]. apply bool_decide_eq_true in H1, H2. done.
  - destruct (uuid_Parse pid) as [id|]; [|apply reads_fail]. unfold GetPayment.
    apply holds_bind, holds_attempt, holds_First_id; simpl.
    { intros e. by apply reads_ret. }
    intros row E. apply reads_ret. intros p [= <-]. apply row_at_Some in E as Hk.
    destruct Hk as [_ Hk]. simpl in Hk. by rewrite Hk.
Qed.

Lemma holds_gw_Verify a amount d :
  holds (gw_Verify a amount) d
    (λ r d', d' = d ∧ ∃ env w, (gw_Verify a amount env w).1 = r).
Proof.
  intros env w Hw. split; [|by eexists _, _].
  symmetry. exact (verify_reads a amount d env w Hw).
Qed.

Lemma save_payment_Ok env now (p old : Payment) d d' :
  row_at d (pay_ID p) = Some old → save_row env (touch now p) d = Ok d' →
  ∃ p', d' = put p' d ∧ pay_ID p' = pay_ID p ∧ pay_Amount p' = pay_Amount p ∧
    pay_Status p' = pay_Status p ∧ pay_InvoiceID p' = pay_InvoiceID p ∧ pay_UnitID p' = pay_UnitID p.
Proof.
  intros Hr E. apply row_at_Some in Hr as [Hr _].
  eapply save_row_old in E as (r' & Ha & _ & ->); [|exact Hr]. exists r'.
  revert Ha. cbn -[require mbind]. rewrite !require_Ok. intros (_ & _ & _ & [= <-]). done.
Qed.

Lemma holds_store_verified d row ref :
  row_at d (pay_ID row) = Some row → pending row → confirmed row ref →
  holds (store_verified (verified_payment ref row)) d (λ r d',
    match r with
    | Ok p => Finalized d row p d' ∧ ∀ n, Finalized d row p (set_notifications n d')
    | _ => d' = d
    end).
Proof.
  intros Hr Hp Hc. unfold store_verified. apply holds_transaction; [done..|].
  step. step; [done|]. eapply save_payment_Ok in H as (p' & -> & E1 & E2 & E3 & E4 & E5);
    [|exact Hr]. simpl in E1, E2, E3, E4, E5.
  change (pay_InvoiceID (touch now (verified_payment ref row))) with (pay_InvoiceID row).
  destruct (pay_InvoiceID row) as [iid|] eqn:Ei.
  - step. eapply holds_mono; [apply reads_InvoiceForUpdate|].
    intros [li|e|s] d1 [-> Hli]; cbn [after]; [|done..].
    destruct (Hli _ eq_refl) as (inv & Hinv & Hl).
    apply row_at_Some in Hinv as Hk. destruct Hk as [_ Hk]. simpl in Hk.
    destruct (ledger_of_Ok _ _ _ Hl) as (-> & _).
    apply (holds_apply_money d _ inv li (pay_Amount row) (touch now (verified_payment ref row)));
      [reflexivity|by rewrite Hk|exact Hl|reflexivity| |done|].
    + exists p'. split_and!; [|done..|congruence|done].
      change (<[pay_ID p' := p']> (db_payments d) = <[pay_ID row := p']> (db_payments d)).
      by rewrite E1.
    + intros d' A. split; [|intros n]; (eapply (fin_applied _ _ _ _ ref inv li); [done|done|by rewrite Ei, Hk|reflexivity..|]);
        [|apply Applied_notifications]; exact A.
  - step. split; [|intros n].
    + exact (fin_unlinked d row _ p' (db_notifications d) ref Hp Hc Ei E1 E2 E4).
    + by eapply fin_unlinked.
Qed.

Lemma holds_finalize d row :
  row_at d (pay_ID row) = Some row →
  holds (finalize row) d (λ r d',
    match r with Ok p => Finalized d row p d' | _ => d' = d end).
Proof.
  intros Hr. unfold finalize. destruct (pay_Authority row) as [a|] eqn:Ea.
  2: { step. apply fin_replay. intros (_ & _ & [x E]). congruence. }
  step.
  2: { step. apply fin_replay. intros (E1 & E2 & _). revert Heqb. rewrite E1, E2. done. }
  apply andb_prop in Heqb as [H1 H2]. apply bool_decide_eq_true in H1, H2.
  assert (pending row) as Hp by (split_and!; [done|done|by eexists]).
  step. step. eapply holds_mono; [apply holds_gw_Verify|].
  intros r d1 [-> (env & w & Hv)].
  assert (holds (SavePayment (with_pay_status StatusFailed row)) d (λ r d',
    match r with Ok p => Finalized d row p d' | _ => d' = d end)) as Hfail.
  { unfold SavePayment. step; [done|]. eapply save_payment_Ok in H as (p' & -> & E1 & E2 & E3 & E4 & _);
      [|exact Hr]. by eapply fin_failed. }
  destruct r as [[[] ref]|e|s]; cbn [after]; [|exact Hfail|exact Hfail|done].
  step. eapply holds_mono; [apply holds_store_verified; [done|done|by exists a, env, w]|].
  intros [p|e|s] d1; cbn [after]; [|done..]. intros [_ HF].
  step. apply holds_notifyRecorded. intros n. cbn [after]. step. apply HF.
Qed.

Lemma holds_HandleCallback pid a d :
  holds (HandleCallback pid a) d (λ r d',
    match r with
    | Ok p => ∃ row, callback_finds d pid a row ∧ Finalized d row p d'
    | _ => d' = d
    end).
Proof.
  unfold HandleCallback. step. eapply holds_mono; [apply reads_callback_payment|].
  intros [[row|]|e|s] d1 [-> Hf]; cbn [after]; [|by step|done..].
  specialize (Hf _ eq_refl _ eq_refl). eapply holds_mono; [apply holds_finalize; apply Hf|].
  intros [p|e|s] d1 H; [|done..]. by exists row.
Qed.
End callback.
