(* ===== verification/BillingSpec.v ===== *)
(** * What billing guarantees

    The period state machine, the preservation of issued invoices, cost-item
    editing, authorisation and the numbering of invoices. *)

From S2P Require Import Prelude Golang Calendar Errors Engine LateFee Models Store Schema Logic Notification BillingRepo Calc Period BillingLemmas Frozen.

(** ** The operations of billing *)

Inductive BillingOp :=
  | OpCreatePeriod (m : User) (building : UUID) (i : PeriodInput)
  | OpUpdatePeriod (m : User) (period : UUID) (i : PeriodInput)
  | OpAddCostItem (m : User) (period : UUID) (i : CostItemInput)
  | OpUpdateCostItem (m : User) (item : UUID) (i : CostItemInput)
  | OpDeleteCostItem (m : User) (item : UUID)
  | OpCalculate (m : User) (period : UUID)
  | OpPreview (m : User) (period : UUID)
  | OpReopen (m : User) (period : UUID)
  | OpIssue (m : User) (period : UUID)
  | OpClose (m : User) (period : UUID)
  | OpCancelInvoice (m : User) (invoice : UUID) (reason : string)
  | OpAddAdjustment (m : User) (invoice : UUID) (i : AdjustmentInput).

Section ops.
Context `{!UuidCodec, !BalanceProvider, !PushNotifier, !BalanceRecomputer} {loc : Location}.

Definition run_op (op : BillingOp) : M unit :=
  match op with
  | OpCreatePeriod m b i => discard (CreatePeriod m b i)
  | OpUpdatePeriod m p i => discard (UpdatePeriod m p i)
  | OpAddCostItem m p i => discard (AddCostItem m p i)
  | OpUpdateCostItem m c i => discard (UpdateCostItem m c i)
  | OpDeleteCostItem m c => DeleteCostItem m c
  | OpCalculate m p => discard (Calculate_period m p)
  | OpPreview m p => discard (Preview_period m p)
  | OpReopen m p => discard (Reopen m p)
  | OpIssue m p => discard (Issue m p)
  | OpClose m p => discard (Close m p)
  | OpCancelInvoice m v r => discard (CancelInvoice m v r)
  | OpAddAdjustment m v i => discard (AddAdjustment m v i)
  end.
End ops.

(** ** One step of the state machine per operation *)

Section periods.
Context {codec : UuidCodec} {provider : BalanceProvider} {provider_ok : BalanceProviderOk}.
Context {pusher : PushNotifier} {hook : BalanceRecomputer} {hook_ok : BalanceRecomputerOk}.
Context {loc : Location}.

Notation steps_periods d := (λ _ d', PeriodsStep d d').

Lemma same_period d : PeriodsStep d d.
Proof. by apply keeps_PeriodsStep. Qed.
#[local] Hint Resolve same_period : core.

Ltac same := intros; simpl; apply same_period.

Lemma keeps_steps {A} (m : M A) d :
  Stays (keeps db_periods) m → holds m d (steps_periods d).
Proof. intros H. eapply holds_stays; [exact H|]. intros _ d'. apply keeps_PeriodsStep. Qed.

Lemma applyPeriodInput_inv p i p' :
  applyPeriodInput p i = Ok p' →
  bp_ID p' = bp_ID p ∧ bp_Status p' = bp_Status p ∧ bp_BuildingID p' = bp_BuildingID p.
Proof. unfold applyPeriodInput. case_guards; naive_solver. Qed.

Lemma status_of_row d id (p : BillingPeriod) s :
  row_at d id = Some p → status_is p s = true →
  status_at d (bp_ID p) = Some s ∧ bp_ID p = id.
Proof.
  intros E Hs. apply bool_decide_eq_true in Hs. apply row_at_Some in E as H. destruct H as [_ Hk].
  simpl in Hk. subst id. split; [|done]. unfold status_at. rewrite E. simpl. by rewrite Hs.
Qed.

Lemma steps_CreatePeriod m b i d : holds (CreatePeriod m b i) d (steps_periods d).
Proof.
  unfold CreatePeriod, CreatePeriod_row. step.
  apply holds_authorizeBuilding; [same|]. intros _. simpl. steps.
  destruct (applyPeriodInput _ _) as [p|e|s] eqn:E; simpl; [|same..].
  apply applyPeriodInput_inv in E as (E1 & E2 & _). simpl in E1, E2.
  steps. intros id. subst d'. apply admit_period_inv in H1 as (F1 & F2 & _).
  rewrite put_period_status. case_decide as Ei; [|constructor].
  assert (status_at d id = None) as ->.
  { unfold status_at, row_at. rewrite Ei, F1. cbn [tbl BillingPeriod_table key] in H0.
    change (tbl d !! bp_ID (stamp now p)) with (db_periods d !! bp_ID (stamp now p)). by rewrite H0. }
  rewrite F2. simpl. rewrite E2. constructor.
Qed.

Lemma steps_UpdatePeriod m id i d : holds (UpdatePeriod m id i) d (steps_periods d).
Proof.
  unfold UpdatePeriod. step. apply holds_getAuthorizedPeriod; [same|]. intros p Hp _. simpl.
  steps. destruct (applyPeriodInput p i) as [p'|e|s] eqn:E; simpl; [|same..].
  apply applyPeriodInput_inv in E as (E1 & E2 & _).
  destruct (status_of_row _ _ _ _ Hp H) as [Hs _]. step.
  eapply holds_SavePeriod; [same|rewrite E1; exact Hs| |].
  - rewrite E2. apply bool_decide_eq_true in H. rewrite H. constructor.
  - intros. simpl. by apply holds_ret.
Qed.

Lemma steps_AddCostItem m id i d : holds (AddCostItem m id i) d (steps_periods d).
Proof.
  apply keeps_steps. unfold AddCostItem, CreateCostItem. keeps_tac.
Qed.

Lemma steps_UpdateCostItem m id i d : holds (UpdateCostItem m id i) d (steps_periods d).
Proof. apply keeps_steps. unfold UpdateCostItem, SaveCostItem. keeps_tac. Qed.

Lemma steps_DeleteCostItem m id d : holds (DeleteCostItem m id) d (steps_periods d).
Proof. apply keeps_steps. unfold DeleteCostItem, DeleteCostItem_row. keeps_tac. Qed.

Lemma steps_CancelInvoice m id r d : holds (CancelInvoice m id r) d (steps_periods d).
Proof. apply keeps_steps. unfold CancelInvoice. keeps_tac. Qed.

Lemma steps_AddAdjustment m id i d : holds (AddAdjustment m id i) d (steps_periods d).
Proof. apply keeps_steps. unfold AddAdjustment, bad. keeps_tac. Qed.

Lemma steps_Close m id d : holds (Close m id) d (steps_periods d).
Proof.
  unfold Close. step. apply holds_getAuthorizedPeriod; [same|]. intros p Hp _. steps.
  destruct (status_of_row _ _ _ _ Hp H) as [Hs _].
  eapply holds_SavePeriod; [same|exact Hs|constructor|by intros].
Qed.

Lemma steps_Reopen m id d : holds (Reopen m id) d (steps_periods d).
Proof.
  unfold Reopen. step. apply holds_getAuthorizedPeriod; [same|]. intros p Hp _. steps.
  destruct (status_of_row _ _ _ _ Hp H) as [Hs _].
  apply (holds_stays_after (keeps db_periods)); [keeps_tac| |by intros; apply keeps_PeriodsStep..].
  intros _ d1 Hd. eapply holds_SavePeriod; [by intros; apply keeps_PeriodsStep|
    by rewrite (keeps_status _ _ _ Hd)|constructor|].
  intros p' mp d2 Hst _ _. by eapply PeriodsStep_keeps_l.
Qed.

Lemma calculable_step d id (p : BillingPeriod) :
  row_at d id = Some p → calculable p = true →
  bp_ID p = id ∧ period_step (status_at d id) (Some PeriodCalculated).
Proof.
  intros E Hc. apply row_at_Some in E as H. destruct H as [_ Hk]. simpl in Hk. split; [done|].
  unfold status_at. rewrite E. simpl. unfold calculable, in_enum in Hc.
  apply bool_decide_eq_true in Hc. apply elem_of_cons in Hc as [-> |Hc]; [constructor|].
  apply list_elem_of_singleton in Hc as ->. constructor.
Qed.

Lemma steps_Calculate m id d : holds (Calculate_period m id) d (steps_periods d).
Proof.
  unfold Calculate_period. step. apply holds_CalcAuthorizedPeriod; [same|]. intros p Hp _. simpl.
  step; [step; same|]. rewrite negb_false_iff in Heqb.
  destruct (calculable_step _ _ _ Hp Heqb) as [Hid Hst]. subst id.
  apply (holds_bind_stays eq); [apply _| |by intros; subst..].
  intros [shares invoices] d1 <-. step. unfold store_calculation. step.
  apply (holds_stays_after (keeps db_periods)); [keeps_tac| |by intros; apply keeps_PeriodsStep..].
  intros _ d1 Hd. step. eapply holds_SavePeriod.
  - intros e. simpl. by apply keeps_PeriodsStep.
  - apply (keeps_status _ _ _ Hd).
  - exact Hst.
  - intros p' mp d2 Hs _ _. simpl. step. apply (holds_stays eq); [apply _|].
    intros _ d3 <-. by eapply PeriodsStep_keeps_l.
Qed.

Lemma holds_IssueInvoices id year now d (Q : Res (list Invoice) → DB → Prop) :
  (∀ e, Q (Err e) d) → (∀ s, Q (Panic s) d) →
  (∀ issued d', PeriodsStep d d' → Q (Ok issued) d') →
  holds (IssueInvoices id year now) d Q.
Proof.
  intros He Hs Hok. unfold IssueInvoices, GetPeriod_row. apply holds_transaction; [done..|].
  step. step; [done|]. step; [by step|]. step. step; [done|]. step. step; [done|]. step.
  apply (holds_stays_after (keeps db_periods)); [keeps_tac| |done..].
  intros _ d1 Hd. step. apply negb_false_iff, bool_decide_eq_true in Heqb.
  assert (status_at d1 id = Some PeriodCalculated) as Hst.
  { rewrite (keeps_status _ _ _ Hd). unfold status_at. rewrite H. simpl. by rewrite Heqb. }
  apply holds_issue_period; simpl; [done| |].
  - intros Hn. congruence.
  - intros p p' _ Hk Hp. step; [done|]. apply Hok. eapply PeriodsStep_keeps_l; [exact Hd|].
    intros i. rewrite put_period_status, Hk, Hp. case_decide as Ei; [|constructor].
    rewrite Ei, Hst. constructor.
Qed.

Lemma steps_Issue m id d : holds (Issue m id) d (steps_periods d).
Proof.
  unfold Issue. step. apply holds_getAuthorizedPeriod; [same|]. intros p Hp _. simpl.
  step. step; [|same]. do 4 step. step. apply holds_map_err.
  apply holds_IssueInvoices; simpl; [same|same|]. intros issued d' Hd.
  apply (holds_stays (keeps db_periods)); [unfold audit_issued; keeps_tac|].
  intros _ d1 Hk. by eapply PeriodsStep_keeps_r.
Qed.

Lemma run_op_steps op d : holds (run_op op) d (steps_periods d).
Proof.
  destruct op; cbn [run_op]; first [apply steps_DeleteCostItem|apply holds_discard];
    first [ apply steps_CreatePeriod | apply steps_UpdatePeriod | apply steps_AddCostItem
          | apply steps_UpdateCostItem | apply steps_Calculate | apply steps_Reopen
          | apply steps_Issue | apply steps_Close | apply steps_CancelInvoice
          | apply steps_AddAdjustment | apply keeps_steps; stays_tac ].
Qed.
End periods.

(** ** Frozen invoices under every operation *)

Section frozen.
Context {codec : UuidCodec} {provider : BalanceProvider} {provider_ok : BalanceProviderOk}.
Context {pusher : PushNotifier} {hook : BalanceRecomputer} {hook_ok : BalanceRecomputerOk}.
Context {loc : Location}.

Notation kept d := (λ _ d', Kept d d').

Lemma Kept_refl d : Kept d d.
Proof. reflexivity. Qed.

Ltac same := intros; simpl; apply Kept_refl.

(** A period written along a step, after a prefix that kept the invoices. *)
Lemma kept_SavePeriod p s d0 d (Q : Res BillingPeriod → DB → Prop) :
  Kept d0 d → status_at d (bp_ID p) = s → period_step s (Some (bp_Status p)) →
  (∀ e, Q (Err e) d) →
  (∀ p' d', Kept d0 d' → Q (Ok p') d') → holds (SavePeriod p) d Q.
Proof.
  intros K Hs Hst He Hok. eapply holds_SavePeriod; [done|exact Hs|done|].
  intros p' m d' H _ _. apply Hok. transitivity d; [done|]. by apply Kept_set_periods.
Qed.

Lemma kept_op {A} (m : M A) d : Stays Kept m → holds m d (kept d).
Proof. intros H. by eapply holds_stays. Qed.

Lemma kept_UpdatePeriod m id i d : holds (UpdatePeriod m id i) d (kept d).
Proof.
  unfold UpdatePeriod. step. apply holds_getAuthorizedPeriod; [same|]. intros p Hp _. simpl.
  step. step; [|same]. step. step. destruct (applyPeriodInput p i) as [p'|e|s] eqn:E; [|same..].
  apply applyPeriodInput_inv in E as (E1 & E2 & _). simpl.
  destruct (status_of_row _ _ _ _ Hp H) as [Hs _]. step.
  eapply kept_SavePeriod; [same|rewrite E1; exact Hs| |same|].
  - rewrite E2. apply bool_decide_eq_true in H. rewrite H. constructor.
  - intros. simpl. by apply holds_ret.
Qed.

Lemma kept_Close m id d : holds (Close m id) d (kept d).
Proof.
  unfold Close. step. apply holds_getAuthorizedPeriod; [same|]. intros p Hp _. simpl.
  step. step; [|same]. step. step.
  destruct (status_of_row _ _ _ _ Hp H) as [Hs _].
  eapply kept_SavePeriod; [same|exact Hs|constructor|same|by intros].
Qed.

Lemma kept_Reopen m id d : holds (Reopen m id) d (kept d).
Proof.
  unfold Reopen. step. apply holds_getAuthorizedPeriod; [same|]. intros p Hp _. simpl.
  step. step; [|same]. step. destruct (status_of_row _ _ _ _ Hp H) as [Hs _].
  apply (holds_stays_after (both Kept (keeps db_periods)));
    [apply stays_both; [kept_tac|keeps_tac]| |by intros ?? []..].
  intros _ d1 [K Hd]. eapply kept_SavePeriod; [exact K|by rewrite (keeps_status _ _ _ Hd)
    |constructor|done|by intros].
Qed.

Lemma kept_Calculate m id d : holds (Calculate_period m id) d (kept d).
Proof.
  unfold Calculate_period. step. apply holds_CalcAuthorizedPeriod; [same|]. intros p Hp _. simpl.
  step; [step; same|]. rewrite negb_false_iff in Heqb.
  destruct (calculable_step _ _ _ Hp Heqb) as [Hid Hst]. subst id.
  apply (holds_bind_stays eq); [apply _| |by intros; subst; apply Kept_refl..].
  intros [shares invoices] d1 <-. step. unfold store_calculation. step.
  apply (holds_stays_after (both Kept (keeps db_periods)));
    [apply stays_both; [kept_tac|keeps_tac]| |by intros ?? []..].
  intros _ d1 [K Hd]. step. eapply kept_SavePeriod.
  - exact K.
  - apply (keeps_status _ _ _ Hd).
  - exact Hst.
  - by intros.
  - intros p' d2 K2. simpl. step. apply (holds_stays eq); [apply _|]. by intros _ d3 <-.
Qed.

Lemma kept_IssueInvoices id year now d (Q : Res (list Invoice) → DB → Prop) :
  (∀ e, Q (Err e) d) → (∀ s, Q (Panic s) d) →
  (∀ issued d', Kept d d' → Q (Ok issued) d') →
  holds (IssueInvoices id year now) d Q.
Proof.
  intros He Hs Hok. unfold IssueInvoices, GetPeriod_row. apply holds_transaction; [done..|].
  step. step; [done|]. step; [by step|]. step. step; [done|]. step. step; [done|]. step.
  apply (holds_stays_after (both Kept (keeps db_periods)));
    [apply stays_both; [kept_tac|keeps_tac]| |done..].
  intros _ d1 [K Hd]. step. apply negb_false_iff, bool_decide_eq_true in Heqb.
  assert (status_at d1 id = Some PeriodCalculated) as Hst.
  { rewrite (keeps_status _ _ _ Hd). unfold status_at. rewrite H. simpl. by rewrite Heqb. }
  apply holds_issue_period; simpl; [done| |].
  - intros Hn. congruence.
  - intros p p' _ Hk Hp. step; [done|]. apply Hok. transitivity d1; [done|].
    assert (PeriodsStep d1 (put p' d1)) as Hs2.
    { eapply period_saved_step; [exact Hst|apply ps_issue|].
      intros i. by rewrite put_period_status, Hk, Hp. }
    exact (Kept_set_periods d1 _ Hs2).
Qed.

Lemma kept_Issue m id d : holds (Issue m id) d (kept d).
Proof.
  unfold Issue. step. apply holds_getAuthorizedPeriod; [same|]. intros p Hp _. simpl.
  step. step; [|same]. do 4 step. step. apply holds_map_err.
  apply kept_IssueInvoices; simpl; [same|same|]. intros issued d' Hd.
  apply (holds_stays Kept); [unfold audit_issued; kept_tac|].
  intros _ d1 Hk. by transitivity d'.
Qed.

Lemma run_op_kept op d : holds (run_op op) d (kept d).
Proof.
  destruct op; cbn [run_op]; try apply holds_discard;
    try first [ apply kept_UpdatePeriod | apply kept_Calculate | apply kept_Reopen
          | apply kept_Issue | apply kept_Close ].
  all: apply kept_op.
  - unfold CreatePeriod, CreatePeriod_row. kept_tac.
  - apply kept_leaf. unfold AddCostItem, CreateCostItem. keeps_tac.
  - apply kept_leaf. unfold UpdateCostItem, SaveCostItem. keeps_tac.
  - apply kept_leaf. unfold DeleteCostItem, DeleteCostItem_row. keeps_tac.
  - kept_tac.
  - unfold CancelInvoice. kept_tac.
  - unfold AddAdjustment, bad. kept_tac.
Qed.
End frozen.
