(* ===== verification/System.v ===== *)
(** * Billing and payments together

    The operations of billing, wired to the payment domain the way
    [internal/app] does it ([Snapshot] as the source of prior debt and credit,
    [RecomputeInvoice] as the hook), and the operations of the payment domain. *)

From S2P Require Import Prelude Golang Calendar Errors Models Store Schema Logic Gateway Notification BillingRepo Calc Period PaymentRepo PaymentService BillingLemmas Frozen PaymentSpec BillingSpec.

#[local] Existing Instances PaymentBalances PaymentHook.

Inductive SystemOp :=
  | OpBilling (op : BillingOp)
  | OpRecordManual (u : User) (invoice : UUID) (i : ManualPaymentInput)
  | OpStartGateway (cfg : PaymentConfig) (u : User) (invoice : UUID) (amount : option Money)
      (returnPath : string)
  | OpCallback (paymentID authority : string)
  | OpReverse (payment : UUID)
  | OpUnitBalance (u : User) (unit : UUID).

Section system.
Context {codec : UuidCodec} {pusher : PushNotifier} {gateway : PaymentGateway}.
Context {gateway_ok : GatewayOk} {loc : Location}.

Definition run_system (op : SystemOp) : M unit :=
  match op with
  | OpBilling op => run_op op
  | OpRecordManual u v i => discard (RecordManual u v i)
  | OpStartGateway cfg u v a p => discard (StartGateway cfg u v a p)
  | OpCallback p a => discard (HandleCallback p a)
  | OpReverse p => discard (ReversePayment p)
  | OpUnitBalance u b => discard (UnitBalanceFor u b)
  end.

(** One call of the system, in any environment. *)
Inductive system_step : DB → DB → Prop :=
| system_call op env w : system_step (w_db w) (w_db (run_system op env w).2).

Lemma reads_stays {A} (m : M A) (P : DB → A → Prop) R `{!PreOrder R} :
  (∀ d, reads m d (P d)) → Stays R m.
Proof. intros H d. eapply holds_mono; [apply H|]. by intros r d' [-> _]. Qed.

(** What the payment operations share: they respect any preorder that the
  statements on payments, balances and notifications keep, and the update of
  the paid amount respects. *)
Section payment_stays.
Context {X} (π : DB → X) (R : relation DB) `{!PreOrder R}.
Context (HR : ∀ d d', keeps π d d' → R d d').
Context (Hpay : Indep π Payment) (Hbal : ∀ b d, π (set_balances b d) = π d).
Context (Hnot : Indep π Notification).
Context (Happly : ∀ id newPaid status, Stays R (ApplyInvoicePaid id newPaid status)).

Lemma leaf_stays {A} (m : M A) : Stays (keeps π) m → Stays R m.
Proof. apply stays_mono, HR. Qed.

Ltac pay_leaf :=
  first [ apply Happly
        | apply leaf_stays, keeps_recomputeBalance, Hbal
        | apply leaf_stays, keeps_notifyRecorded, Hnot
        | apply leaf_stays, keeps_Create; apply _
        | apply leaf_stays, keeps_Save; apply _
        | (eapply (reads_stays _ _ R); intros ?; apply reads_payAuthorizedInvoice)
        | (eapply (reads_stays _ _ R); intros ?; apply reads_canAccessUnit)
        | (eapply (reads_stays _ _ R); intros ?; apply reads_InvoiceForUpdate)
        | (eapply (reads_stays _ _ R); intros ?; apply reads_parse_paid_at)
        | (eapply (reads_stays _ _ R); intros ?; apply reads_callback_payment)
        | (apply read_only_stays; [apply _|first [apply start_reads | apply verify_reads]]) ].
Ltac pay_tac := repeat first [pay_leaf | stays_step].

Lemma stays_payment_op op :
  match op with OpBilling _ => False | _ => True end → Stays R (run_system op).
Proof.
  destruct op; intros []; cbn [run_system]; (apply stays_bind; [apply _| |intros; stays_tac]).
  - unfold RecordManual, store_manual. pay_tac.
  - unfold StartGateway, CreatePayment. pay_tac.
  - unfold HandleCallback, finalize, store_verified, SavePayment. pay_tac.
  - unfold ReversePayment. pay_tac.
  - unfold UnitBalanceFor, RecomputeUnit. pay_tac.
Qed.
End payment_stays.

Lemma system_kept op d : holds (run_system op) d (λ _ d', Kept d d').
Proof.
  destruct op; [apply run_op_kept|..];
    (apply (stays_payment_op ledger Kept);
       [apply keeps_Kept|apply _|done|apply _|apply kept_ApplyInvoicePaid|exact I]).
Qed.

Lemma system_periods op d : holds (run_system op) d (λ _ d', PeriodsStep d d').
Proof.
  destruct op; [apply run_op_steps|..];
    (eapply holds_mono;
      [apply (stays_payment_op db_periods (keeps db_periods));
         [done|apply _|done|apply _|intros; unfold ApplyInvoicePaid; stays_tac|exact I]
      |intros r d'; apply keeps_PeriodsStep]).
Qed.

Lemma system_steps_kept d d' : rtc system_step d d' → Kept d d'.
Proof.
  induction 1 as [d|d1 d2 d3 [op env w] _ IH]; [done|]. etransitivity; [|exact IH].
  exact (holds_run _ _ env w (system_kept op (w_db w))).
Qed.
End system.
