(* ===== verification/BillingGuards.v ===== *)
(** * Guards of the billing service

    What a call may change depends on who makes it and on the state of the
    period: cost items are edited in drafts only, and a manager without access
    to the building changes nothing. *)

From S2P Require Import Prelude Golang Calendar Errors Models Store Schema Logic Notification BillingRepo Calc Period BillingLemmas BillingSpec.

(** ** Cost items *)

(** The cost items of a period that is there and is not a draft are the same. *)
Definition ItemsKept (d d' : DB) : Prop :=
  ∀ pid s, status_at d pid = Some s → s ≠ PeriodDraft →
  ∀ id (ci : BCostItem), ci_PeriodID ci = pid →
    row_at d' id = Some ci ↔ row_at d id = Some ci.

Lemma keeps_ItemsKept d d' : keeps db_cost_items d d' → ItemsKept d d'.
Proof. intros E pid s _ _ id ci _. unfold row_at. simpl. by rewrite E. Qed.

Lemma row_at_put_other {R} `{!Table R} (r x : R) d id (P : R → Prop) :
  P x → ¬ P r → (∀ old, row_at d (key r) = Some old → ¬ P old) →
  row_at (put r d) id = Some x ↔ row_at d id = Some x.
Proof.
  intros Hx Hr Hold. rewrite row_at_put. case_decide as E; [|done]. rewrite E. split.
  - by intros [= ->].
  - intros H. by destruct (Hold x H).
Qed.

(** A row written for a draft period in place of none or of a row of a draft. *)
Lemma ItemsKept_put ci d :
  status_at d (ci_PeriodID ci) = Some PeriodDraft →
  (∀ old : BCostItem, row_at d (ci_ID ci) = Some old → ci_PeriodID old = ci_PeriodID ci) →
  ItemsKept d (put ci d).
Proof.
  intros Hp Hold pid s Hs Hd id x Hx.
  assert (ci_PeriodID ci ≠ pid) as Hne by (intros E; rewrite E in Hp; congruence).
  apply (row_at_put_other ci x d id (λ c, ci_PeriodID c = pid)); [done|done|].
  intros old Ho. simpl in Ho. by rewrite (Hold old Ho).
Qed.

Lemma ItemsKept_delete ci d :
  status_at d (ci_PeriodID ci) = Some PeriodDraft → row_at d (ci_ID ci) = Some ci →
  ItemsKept d (delete_row d ci).
Proof.
  intros Hp Hci pid s Hs Hd id x Hx.
  assert (row_at (R := BCostItem) (delete_row d ci) id =
    if decide (id = ci_ID ci) then None else row_at d id) as ->.
  { unfold row_at, delete_row. simpl. case_decide as E.
    - by rewrite E, lookup_delete_eq.
    - by rewrite lookup_delete_ne. }
  case_decide as E; [|done]. rewrite E, Hci. split; [done|]. intros [= <-]. congruence.
Qed.

Section items.
Context {codec : UuidCodec} {provider : BalanceProvider} {provider_ok : BalanceProviderOk}.
Context {pusher : PushNotifier} {hook : BalanceRecomputer} {hook_ok : BalanceRecomputerOk}.
Context {loc : Location}.

Notation items d := (λ _ d', ItemsKept d d').

Lemma ItemsKept_refl d : ItemsKept d d.
Proof. by apply keeps_ItemsKept. Qed.

Ltac same := intros; simpl; apply ItemsKept_refl.

Lemma draft_status d id (p : BillingPeriod) :
  row_at d id = Some p → status_is p PeriodDraft = true → status_at d id = Some PeriodDraft.
Proof. intros E Hs. by destruct (status_of_row _ _ _ _ E Hs) as [H <-]. Qed.

(** Validation fills in the fields of the input and keeps the identity. *)
Lemma holds_validateCostItem ci i b d (Q : Res BCostItem → DB → Prop) :
  (∀ e, Q (Err e) d) → (∀ total fixed, Q (Ok (fill_item ci i total fixed)) d) →
  holds (validateCostItem ci i b) d Q.
Proof.
  intros He Hok. unfold validateCostItem, bad, UnitsForBuilding.
  repeat first [apply He | apply Hok | apply holds_stmt | step | progress intros].
Qed.

Lemma items_AddCostItem m pid i d : holds (AddCostItem m pid i) d (items d).
Proof.
  unfold AddCostItem. step. apply holds_getAuthorizedPeriod; [same|]. intros p Hp _. simpl.
  step. step; [|same]. step. step. step. apply holds_validateCostItem; [same|].
  intros total fixed. simpl. unfold CreateCostItem. step; [same|]. subst d'.
  simpl in H1, H2. rewrite !require_Ok in H2. destruct H2 as (_ & _ & [= <-]).
  apply ItemsKept_put; simpl; [eapply draft_status; eassumption|].
  intros old Ho. apply row_at_Some in Ho as [Ho _]. simpl in Ho. congruence.
Qed.

Lemma items_UpdateCostItem m id i d : holds (UpdateCostItem m id i) d (items d).
Proof.
  unfold UpdateCostItem. step. apply holds_authorizedCostItem; [same|].
  intros ci p Hci Hp _. simpl. step. step; [|same]. step.
  apply holds_validateCostItem; [same|]. intros total fixed. simpl. unfold SaveCostItem.
  step. step; [same|]. step. apply row_at_Some in Hci as Hk. destruct Hk as [Hk <-].
  eapply save_row_old in H0 as (r' & Ha & _ & ->); [|exact Hk].
  simpl in Ha. rewrite !require_Ok in Ha. destruct Ha as (_ & _ & [= <-]).
  apply ItemsKept_put; simpl; [eapply draft_status; eassumption|]. intros old Ho. simpl in Hci. congruence.
Qed.

Lemma items_DeleteCostItem m id d : holds (DeleteCostItem m id) d (items d).
Proof.
  unfold DeleteCostItem. step. apply holds_authorizedCostItem; [same|].
  intros ci p Hci Hp _. simpl. step. step; [|same]. unfold DeleteCostItem_row. step.
  apply row_at_Some in Hci as Hk. destruct Hk as [_ <-]. simpl in Hci.
  step; [same|]. step. pose proof (filter_rows_id (R := BCostItem) d (ci_ID ci)) as Hf.
  simpl in Hf. rewrite Hf, Hci. simpl. apply ItemsKept_delete; [|done].
  eapply draft_status; eassumption.
Qed.

Lemma items_leaf {A} (m : M A) d : Stays (keeps db_cost_items) m → holds m d (items d).
Proof. intros H. eapply holds_stays; [exact H|]. intros _ d'. apply keeps_ItemsKept. Qed.

Lemma keeps_IssueInvoices id year now :
  Stays (keeps db_cost_items) (IssueInvoices id year now).
Proof. unfold IssueInvoices, GetPeriod_row. keeps_tac. Qed.

Lemma run_op_items op d : holds (run_op op) d (items d).
Proof.
  destruct op; cbn [run_op]; try apply holds_discard;
    try first [ apply items_AddCostItem | apply items_UpdateCostItem
              | apply items_DeleteCostItem ]; apply items_leaf.
  - unfold CreatePeriod, CreatePeriod_row. keeps_tac.
  - unfold UpdatePeriod, SavePeriod. keeps_tac.
  - unfold Calculate_period, store_calculation, SavePeriod. keeps_tac.
  - keeps_tac.
  - unfold Reopen, SavePeriod. keeps_tac.
  - unfold Issue, audit_issued. keeps_tac. apply keeps_IssueInvoices.
  - unfold Close, SavePeriod. keeps_tac.
  - unfold CancelInvoice. keeps_tac.
  - unfold AddAdjustment, bad. keeps_tac.
Qed.
End items.

(** ** Authorisation *)

(** The building a call is about: that of the period, of the cost item's period
    or of the invoice it names. *)
Definition op_building (d : DB) (op : BillingOp) : option UUID :=
  let of_period id := bp_BuildingID <$> row_at d id in
  let of_item id := (ci ← row_at (R := BCostItem) d id; of_period (ci_PeriodID ci)) in
  let of_invoice id := inv_BuildingID <$> row_at d id in
  match op with
  | OpCreatePeriod _ b _ => Some b
  | OpUpdatePeriod _ p _ | OpAddCostItem _ p _ | OpCalculate _ p | OpPreview _ p
  | OpReopen _ p | OpIssue _ p | OpClose _ p => of_period p
  | OpUpdateCostItem _ c _ | OpDeleteCostItem _ c => of_item c
  | OpCancelInvoice _ v _ | OpAddAdjustment _ v _ => of_invoice v
  end.

Definition op_manager (op : BillingOp) : User :=
  match op with
  | OpCreatePeriod m _ _ | OpUpdatePeriod m _ _ | OpAddCostItem m _ _ | OpUpdateCostItem m _ _
  | OpDeleteCostItem m _ | OpCalculate m _ | OpPreview m _ | OpReopen m _ | OpIssue m _
  | OpClose m _ | OpCancelInvoice m _ _ | OpAddAdjustment m _ _ => m
  end.

Section authorisation.
Context {codec : UuidCodec} {provider : BalanceProvider}.
Context {pusher : PushNotifier} {hook : BalanceRecomputer} {loc : Location}.

(** A call that ends with an error and the tables it found. *)
Definition refuses {A} (m : M A) (d : DB) : Prop :=
  holds m d (λ r d', (∃ e, r = Err e) ∧ d' = d).

Lemma refuses_bind {A B} (m : M A) (f : A → M B) d : refuses m d → refuses (m ≫= f) d.
Proof.
  intros H. apply holds_bind. eapply holds_mono; [exact H|].
  intros r d' [[e ->] ->]. simpl. eauto.
Qed.

Lemma refuses_discard {A} (m : M A) d : refuses m d → refuses (discard m) d.
Proof. apply refuses_bind. Qed.

Lemma run_op_refuses op d :
  (∀ b, op_building d op = Some b → ¬ granted d (op_manager op) b) → refuses (run_op op) d.
Proof.
  intros Hb.
  destruct op; cbn [run_op op_building op_manager] in *;
    try (simple apply refuses_discard).
  all: first
    [ unfold CreatePeriod | unfold UpdatePeriod | unfold AddCostItem | unfold UpdateCostItem
    | unfold DeleteCostItem | unfold Calculate_period | unfold Preview_period | unfold Reopen
    | unfold Issue | unfold Close | unfold CancelInvoice | unfold AddAdjustment ].
  all: apply refuses_bind; unfold refuses.
  all: first
    [ apply holds_authorizeBuilding; [by eauto|intros Hg; by destruct (Hb _ eq_refl)]
    | apply holds_getAuthorizedPeriod; [by eauto|intros p Hp Hg]
    | apply holds_CalcAuthorizedPeriod; [by eauto|intros p Hp Hg]
    | apply holds_authorizedCostItem; [by eauto|intros ci p Hci Hp Hg]
    | apply holds_authorizedInvoice; [by eauto|intros v Hp Hg] ].
  all: exfalso; eapply Hb; [|exact Hg].
  all: try rewrite Hci; simpl; by rewrite Hp.
Qed.
End authorisation.
