(* ===== verification/Issue.v ===== *)
(** * Numbering of invoices

    What [Repository.IssueInvoices] of [internal/billing/repository.go] does to
    the drafts of a period. *)

From S2P Require Import Prelude Golang Calendar Errors Models Store Schema Logic Notification BillingRepo Calc Period BillingLemmas Frozen.

(** The drafts of a period in the order of their units. *)
Definition period_drafts (d : DB) (pid : UUID) : list Invoice :=
  sort_by (λ a b, (inv_UnitID a <? inv_UnitID b)%N)
    (List.filter (λ i, bool_decide (inv_PeriodID i = pid)) (rows d)).

(** The invoices of a building that have a number already. *)
Definition issued_count (d : DB) (b : UUID) : Z :=
  Z.of_nat (length (List.filter (issued_number b) (rows d))).

Lemma elem_of_period_drafts d pid x :
  x ∈ period_drafts d pid ↔ row_at d (inv_ID x) = Some x ∧ inv_PeriodID x = pid.
Proof.
  unfold period_drafts. rewrite sort_by_Permutation, elem_of_filter_rows, bool_decide_eq_true.
  done.
Qed.

Lemma NoDup_period_drafts d pid : NoDup (inv_ID <$> period_drafts d pid).
Proof.
  unfold period_drafts. rewrite sort_by_Permutation.
  exact (NoDup_filter_rows_ids (R := Invoice) _ d).
Qed.

(** An invoice issued at an instant bears its date in the zone of the server. *)
Definition issued_at {loc : Location} (now : Time) (y : Invoice) : Prop :=
  inv_IssueDate y = Some (local_date now) ∧ inv_InputsFrozenAt y = Some now.

(** What one draft has become. *)
Definition numbered {loc : Location} (year : Z) (now : Time) (seq : Z) (d' : DB) (x : Invoice) : Prop :=
  ∃ y, row_at d' (inv_ID x) = Some y ∧ inv_InvoiceNumber y = invoice_number year seq ∧
    same_invoice x y ∧ issued_at now y.

Definition drafts_numbered {loc : Location} (year count : Z) (now : Time) (k : nat) (l : list Invoice) (d d' : DB) : Prop :=
  (∀ id, id ∉ inv_ID <$> l → row_at (R := Invoice) d' id = row_at d id) ∧
  (∀ i x, l !! i = Some x →
     numbered year now (add64 (add64 count (Z.of_nat (k + i))) 1) d' x) ∧
  db_periods d' = db_periods d.

Lemma holds_number_draft {loc : Location} year count now k x d (Q : Res unit → DB → Prop) :
  row_at d (inv_ID x) = Some x → (∀ e, Q (Err e) d) →
  (∀ y, inv_ID y = inv_ID x →
     inv_InvoiceNumber y = invoice_number year (add64 (add64 count (Z.of_nat k)) 1) →
     same_invoice x y → issued_at now y → Q (Ok tt) (put y d)) →
  holds (number_draft year count now (k, x)) d Q.
Proof.
  intros Hx He Hok. unfold number_draft. step. step; [apply He|]. step.
  destruct (update_by_id (R := Invoice) env (issue_invoice (invoice_number year
    (add64 (add64 count (Z.of_nat k)) 1)) now) d d' (inv_ID x) ltac:(done) H)
    as [[E _]|(r & r' & E & Ha & Hu & Hk & ->)].
  - congruence.
  - assert (r = x) as -> by congruence. simpl in Ha. rewrite !require_Ok in Ha. destruct Ha as (_ & _ & _ & [= Er]).
    apply Hok; [exact Hk|by rewrite <- Er|by apply guard_update_same|]. rewrite <- Er.
    split; [|done]. simpl. unfold local_date. by rewrite TruncateDay_idem.
Qed.

(** The numbering loop, from the [k]-th draft on. *)
Lemma holds_numbering {loc : Location} year count now l k d (Q : Res unit → DB → Prop) :
  (∀ x, x ∈ l → row_at d (inv_ID x) = Some x) → NoDup (inv_ID <$> l) →
  (∀ e d', Q (Err e) d') →
  (∀ d', drafts_numbered year count now k l d d' → Q (Ok tt) d') →
  holds (for_each (number_draft year count now) (imap (λ i x, ((k + i)%nat, x)) l)) d Q.
Proof.
  revert k d Q. induction l as [|x l IH]; intros k d Q Hl Hnd He Hok; simpl.
  { step. apply Hok. split_and!; done. }
  csimpl in Hnd. inv Hnd. rewrite Nat.add_0_r. step.
  apply holds_number_draft; [by apply Hl; left|intros; apply He|].
  intros y Hy Hn Hs Hdate. simpl.
  rewrite (imap_ext _ (λ i x, ((S k + i)%nat, x))) by (intros; simpl; f_equal; lia).
  assert (∀ z, z ∈ l → inv_ID z ≠ inv_ID x) as Hne.
  { intros z Hz E. apply H1. rewrite <- E. by apply list_elem_of_fmap_2. }
  apply IH; [|done..|].
  - intros z Hz. rewrite row_at_put. simpl. rewrite Hy, decide_False by by apply Hne.
    by apply Hl; right.
  - intros d' (Hid & Hnum & Hp). apply Hok. split_and!; [| |done].
    + intros id Hni. apply not_elem_of_cons in Hni as [Hn1 Hn2].
      rewrite Hid, row_at_put by done. simpl. by rewrite Hy, decide_False.
    + intros [|i] z; simpl.
      * intros [= <-]. rewrite Nat.add_0_r. exists y. split_and!; [|done..].
        rewrite Hid by done. rewrite row_at_put. simpl. by rewrite decide_True.
      * intros Hz. replace (k + S i)%nat with (S k + i)%nat by lia. by apply Hnum.
Qed.

Lemma invoice_number_inj year a b :
  0 ≤ a → 0 ≤ b → invoice_number year a = invoice_number year b → a = b.
Proof.
  unfold invoice_number. intros Ha Hb E. do 3 apply (inj (String.append _)) in E.
  by apply FormatPad_inj in E.
Qed.

(** The outcome of a successful issuance. *)
Record Issued {loc : Location} (pid : UUID) (year : Z) (now : Time) (d d' : DB) (issued : list Invoice) : Prop := {
  is_status : status_at d pid = Some PeriodCalculated ∧ status_at d' pid = Some PeriodIssued;
  is_numbers : ∀ p i x, row_at d pid = Some p → period_drafts d pid !! i = Some x →
    numbered year now (add64 (add64 (issued_count d (bp_BuildingID p)) (Z.of_nat i)) 1) d' x;
  is_others : ∀ x : Invoice, row_at d (inv_ID x) = Some x → inv_PeriodID x ≠ pid →
    row_at d' (inv_ID x) = Some x;
  is_result : ∀ y, y ∈ issued ↔
    ∃ x, x ∈ period_drafts d pid ∧ row_at d' (inv_ID x) = Some y;
  is_NoDup : NoDup issued;
}.

Lemma issued_result {loc : Location} pid d d' year count now :
  drafts_numbered year count now 0 (period_drafts d pid) d d' →
  ∀ y, y ∈ List.filter (λ i, bool_decide (inv_PeriodID i = pid)) (rows d') ↔
    ∃ x, x ∈ period_drafts d pid ∧ row_at d' (inv_ID x) = Some y.
Proof.
  intros (Hid & Hnum & _) y. rewrite elem_of_filter_rows, bool_decide_eq_true. simpl. split.
  - intros [Hy Hp]. destruct (decide (inv_ID y ∈ inv_ID <$> period_drafts d pid)) as [Hin|Hin].
    + apply list_elem_of_fmap in Hin as (x & E & Hx). exists x. by rewrite <- E.
    + rewrite Hid in Hy by done. exfalso. apply Hin, list_elem_of_fmap_2.
      by apply elem_of_period_drafts.
  - intros (x & Hx & Hy). apply list_elem_of_lookup in Hx as [i Hi].
    destruct (Hnum i x Hi) as (z & Hz & _ & [Hs _] & _).
    rewrite Hy in Hz. injection Hz as <-. apply row_at_Some in Hy as Hk. destruct Hk as [_ Hk].
    simpl in Hk. rewrite Hk. split; [done|].
    apply same_amounts_eq in Hs as (_ & _ & <- & _).
    by apply list_elem_of_lookup_2, elem_of_period_drafts in Hi as [_ Hp].
Qed.

Lemma holds_IssueInvoices_numbers {loc : Location} pid year now d :
  holds (IssueInvoices pid year now) d
    (λ r d', ∀ issued, r = Ok issued → Issued pid year now d d' issued).
Proof.
  unfold IssueInvoices, GetPeriod_row. apply holds_transaction; [done..|].
  step. step; [done|]. step; [by step|]. step. step; [done|]. step. step; [done|]. step.
  apply negb_false_iff, bool_decide_eq_true in Heqb.
  change (holds (for_each (number_draft year (issued_count d (bp_BuildingID r)) now)
    (imap (λ i x, ((0 + i)%nat, x)) (period_drafts d pid))) d (after (λ r d',
      match r with Ok a => ∀ issued, Ok a = Ok issued → Issued pid year now d d' issued | _ => True end)
      (λ _ d1, holds (Update_where (λ p, bool_decide (bp_ID p = pid)) (λ _, issue_period now) ;;
        Find_unordered (λ i, bool_decide (inv_PeriodID i = pid))) d1
        (λ r d', match r with Ok a => ∀ issued, Ok a = Ok issued → Issued pid year now d d' issued | _ => True end)))).
  apply holds_numbering; [|apply NoDup_period_drafts|done|].
  { intros x Hx. by apply elem_of_period_drafts in Hx as [? _]. }
  intros d1 (Hid & Hnum & Hp). simpl. step.
  assert (status_at d1 pid = Some PeriodCalculated) as Hst.
  { rewrite (keeps_status _ _ _ Hp). unfold status_at. rewrite H. simpl. by rewrite Heqb. }
  apply holds_issue_period; simpl; [done|congruence|].
  intros p p' _ Hk Hps. step; [done|]. match goal with E : Ok _ = Ok issued |- _ => injection E as <- end.
  split.
  - split; [by rewrite <- Hst, (keeps_status _ _ _ Hp)|].
    rewrite put_period_status, Hk, decide_True by done. by rewrite Hps.
  - intros p0 i x Hp0 Hi. assert (p0 = r) as -> by congruence. exact (Hnum i x Hi).
  - intros x Hx Hpx. change (row_at (R := Invoice) d1 (inv_ID x) = Some x). rewrite Hid; [done|].
    intros (x' & E & Hx')%list_elem_of_fmap. apply elem_of_period_drafts in Hx' as [Hx' ?].
    rewrite <- E, Hx in Hx'. congruence.
  - intros y. change (rows (R := Invoice) (put p' d1)) with (rows (R := Invoice) d1).
    change (row_at (R := Invoice) (put p' d1)) with (row_at (R := Invoice) d1).
    by eapply issued_result.
  - exact (NoDup_fmap_1 _ _ (NoDup_filter_rows_ids (R := Invoice) _ (put p' d1))).
Qed.

(** Distinct drafts get distinct numbers, as long as the count does not wrap. *)
Lemma Issued_distinct {loc : Location} pid year now d d' issued p :
  Issued pid year now d d' issued → row_at d pid = Some p →
  in64 (issued_count d (bp_BuildingID p) + Z.of_nat (length (period_drafts d pid))) →
  NoDup (inv_InvoiceNumber <$> issued).
Proof.
  intros I Hp Hb. apply NoDup_fmap_2_strong; [|apply I].
  intros y1 y2 Hy1 Hy2 E.
  apply (is_result _ _ _ _ _ _ I) in Hy1 as (x1 & Hx1 & Hr1).
  apply (is_result _ _ _ _ _ _ I) in Hy2 as (x2 & Hx2 & Hr2).
  apply list_elem_of_lookup in Hx1 as [i Hi]. apply list_elem_of_lookup in Hx2 as [j Hj].
  destruct (is_numbers _ _ _ _ _ _ I p i x1 Hp Hi) as (z1 & Hz1 & N1 & _).
  destruct (is_numbers _ _ _ _ _ _ I p j x2 Hp Hj) as (z2 & Hz2 & N2 & _).
  rewrite Hr1 in Hz1. rewrite Hr2 in Hz2. injection Hz1 as <-. injection Hz2 as <-.
  rewrite N1, N2 in E. apply lookup_lt_Some in Hi as Li. apply lookup_lt_Some in Hj as Lj.
  assert (0 ≤ issued_count d (bp_BuildingID p)) by (unfold issued_count; lia).
  unfold in64 in Hb.
  rewrite !add64_id in E by (unfold in64; rewrite ?add64_id by (unfold in64; lia); lia).
  apply invoice_number_inj in E; [|lia..]. assert (i = j) as -> by lia.
  rewrite Hi in Hj. injection Hj as <-. congruence.
Qed.
