(* ===== verification/CalcSpec.v ===== *)
(** * What a calculation composes

    [CalcService.Calculate] of [internal/billing/calc_service.go] against the
    engine: one share row per share of the engine, one invoice per live unit,
    and no Toman lost between the cost items and the invoices. *)

From Stdlib Require Import SpecFloat.
From S2P Require Import Prelude Golang Errors Engine EngineRounding EngineCalc EngineSpec LateFee Models Store Schema Logic Notification BillingRepo Calc BillingLemmas.

(** ** Sums over units *)

Definition if_eq (a b : UUID) (z : Z) : Z := if decide (a = b) then z else 0.

Lemma sum_if_eq (us : list UUID) (v : UUID) z :
  NoDup us → v ∈ us → sum_of (λ u, if_eq v u z) us = z.
Proof.
  induction us as [|u us IH]; intros Hnd Hv; [by apply elem_of_nil in Hv|]. inv Hnd. sums.
  unfold if_eq at 1. case_decide as E.
  - rewrite (sum_of_ext _ (λ _, 0)), sum_of_const; [lia|].
    apply Forall_forall. intros w Hw. unfold if_eq. rewrite decide_False; [done|]. congruence.
  - rewrite IH; [lia|done|]. by apply elem_of_cons in Hv as [->|].
Qed.

Lemma sum_swap {A B} (f : A → B → Z) l k :
  sum_of (λ a, sum_of (f a) k) l = sum_of (λ b, sum_of (λ a, f a b) l) k.
Proof.
  induction l as [|a l IH]; rewrite ?sum_of_cons.
  - change (0 = sum_of (λ _ : B, 0) k). rewrite sum_of_const. lia.
  - rewrite IH. rewrite <- sum_of_plus. apply sum_of_ext, Forall_true. done.
Qed.

Section composition.
Context {codec : UuidCodec} {provider : BalanceProvider} {provider_ok : BalanceProviderOk}.

(** What the rows [shares] charge to a unit. *)
Definition unit_charge (shares : list CostItemShare) (u : UUID) : Z :=
  sum_of (λ s, if_eq (cs_UnitID s) u (cs_RoundedShare s)) shares.

(** What the lines collected so far charge to it. *)
Definition lines_total (charges : gmap UUID (list chargeLine)) (u : UUID) : Z :=
  sum_of cl_amount (default [] (charges !! u)).

(** A row as the image of a share of the engine. *)
Record RowOf (item : BCostItem) (bus : list buildingUnit) (sh : Share) (row : CostItemShare)
    : Prop := {
  ro_item : cs_CostItemID row = ci_ID item;
  ro_unit : uuid_Parse (sh_UnitID sh) = Some (cs_UnitID row);
  ro_exact : cs_ExactShare row = exactShareString (sh_Exact sh);
  ro_rounded : cs_RoundedShare row = sh_Rounded sh;
  ro_inputs : cs_InputsSnapshot row = inputs_of bus (cs_UnitID row);
}.

(** The rows of one cost item: those of its run of the engine. *)
Definition ItemRows (bus : list buildingUnit) (item : BCostItem) (block : list CostItemShare)
    : Prop :=
  ∃ res, Calculate (engineItem item) (engineUnit <$> bus) = Ok res ∧
    Forall2 (RowOf item bus) (ir_Shares res) block.

Lemma reads_share_row bus item sh d :
  reads (share_row bus (ci_ID item) sh) d (RowOf item bus sh).
Proof.
  unfold share_row. destruct (uuid_Parse (sh_UnitID sh)) as [u|] eqn:E; [|apply reads_fail].
  eapply reads_bind; [by apply (reads_uuid _ (λ _, True))|]. intros id _.
  apply reads_ret. by split.
Qed.

Lemma lines_total_add item charges sh v u :
  uuid_Parse (sh_UnitID sh) = Some v →
  lines_total (add_charge item charges sh) u = lines_total charges u + if_eq v u (sh_Rounded sh).
Proof.
  intros E. unfold add_charge, lines_total, if_eq. rewrite E. simpl. case_decide as Hu.
  - subst v. rewrite lookup_insert_eq. simpl. rewrite sum_of_app. unfold sum_of. simpl. lia.
  - rewrite lookup_insert_ne by done. lia.
Qed.

Lemma lines_total_block item bus shs block charges u :
  Forall2 (RowOf item bus) shs block →
  lines_total (foldl (add_charge item) charges shs) u =
    lines_total charges u + unit_charge block u.
Proof.
  intros H. revert charges. induction H as [|sh row shs block Hr _ IH]; intros charges; simpl.
  { unfold unit_charge. sums. lia. }
  rewrite IH, (lines_total_add _ _ _ _ _ (ro_unit _ _ _ _ Hr)).
  unfold unit_charge. sums. rewrite (ro_rounded _ _ _ _ Hr). lia.
Qed.

Lemma unit_charge_app s1 s2 u : unit_charge (s1 ++ s2) u = unit_charge s1 u + unit_charge s2 u.
Proof. apply sum_of_app. Qed.

(** The loop over the cost items. *)
Lemma reads_charge_items bus items shares charges d :
  reads (charge_items bus items shares charges) d (λ '(shares', charges'), ∃ blocks,
    shares' = shares ++ concat blocks ∧ Forall2 (ItemRows bus) items blocks ∧
    ∀ u, lines_total charges' u = lines_total charges u + unit_charge (concat blocks) u).
Proof.
  revert shares charges. induction items as [|item items IH]; intros shares charges; simpl.
  { apply reads_ret. exists []. split_and!; [by rewrite app_nil_r|constructor|].
    intros u. unfold unit_charge. simpl. sums. lia. }
  eapply reads_bind; [apply reads_map_err, (reads_lift _ _ (λ res,
    Calculate (engineItem item) (engineUnit <$> bus) = Ok res)); by intros|].
  intros res Hres.
  eapply reads_bind; [apply reads_map_each; intros sh _; apply reads_share_row|].
  intros block Hb. eapply reads_mono; [apply IH|]. intros [shares' charges'] (blocks & -> & Hf & Hl).
  exists (block :: blocks). simpl. split_and!.
  - by rewrite app_assoc.
  - constructor; [by exists res|done].
  - intros u. rewrite Hl, (lines_total_block _ _ _ _ _ _ Hb), unit_charge_app. lia.
Qed.

(** The invoice of one unit. *)
Record InvoiceOf (period : BillingPeriod) (charge : Z) (u : Unit) (x : InvoiceWithItems)
    : Prop := {
  io_unit : inv_UnitID (iwi_Invoice x) = u_ID u;
  io_period : inv_PeriodID (iwi_Invoice x) = bp_ID period;
  io_building : inv_BuildingID (iwi_Invoice x) = bp_BuildingID period;
  io_due : inv_DueDate (iwi_Invoice x) = Some (bp_DueDate period);
  io_status : inv_Status (iwi_Invoice x) = InvoiceUnpaid ∧ inv_PaidAmount (iwi_Invoice x) = 0 ∧
    is_draft_number (inv_InvoiceNumber (iwi_Invoice x)) = true;
  io_base : inv_BaseAmount (iwi_Invoice x) = wrap64 charge;
  io_late : LateFee (engineLateFeeType (bp_LateFeeType period)) (bp_LateFeeValue period)
    (inv_BaseAmount (iwi_Invoice x)) 0 = Ok (inv_LateFeeAmount (iwi_Invoice x));
  io_final : inv_FinalAmount (iwi_Invoice x) =
    wrap64 (inv_BaseAmount (iwi_Invoice x) + inv_PriorDebt (iwi_Invoice x)
            + inv_LateFeeAmount (iwi_Invoice x) - inv_CreditAmount (iwi_Invoice x));
  io_items : sum_of ii_Amount (iwi_Items x) =
    charge + Z.max 0 (inv_LateFeeAmount (iwi_Invoice x));
  io_late_item : 0 < inv_LateFeeAmount (iwi_Invoice x) →
    ∃ i, i ∈ iwi_Items x ∧ ii_Kind i = ItemLateFee ∧
      ii_Method i = Some (bp_LateFeeType period);
}.

Lemma wrap64_final a b c e :
  sub64 (add64 (add64 a b) c) e = wrap64 (a + b + c - e).
Proof.
  unfold sub64, add64. rewrite wrap64_add_l.
  replace (wrap64 (a + b + c) - e) with (wrap64 (a + b + c) + - e) by lia.
  rewrite wrap64_add_l. by replace (a + b + c + - e) with (a + b + c - e) by lia.
Qed.

Lemma is_draft_prefix s : is_draft_number ("DRAFT-" +:+ s) = true.
Proof. by destruct s. Qed.

Lemma reads_draft_invoice period charges bu d :
  reads (draft_invoice period charges bu) d 
    (InvoiceOf period (lines_total charges (u_ID (bu_unit bu))) (bu_unit bu)).
Proof.
  unfold draft_invoice.
  set (lines := default [] (charges !! u_ID (bu_unit bu))).
  eapply reads_bind.
  { apply reads_map_each with (P := λ line i, ii_Amount i = cl_amount line).
    intros line _. unfold charge_item. eapply reads_bind; [by apply (reads_uuid _ (λ _, True))|].
    intros id _. by apply reads_ret. }
  intros items Hitems.
  assert (sum_of ii_Amount items = lines_total charges (u_ID (bu_unit bu))) as Hsum.
  { unfold lines_total. fold lines. clearbody lines.
    induction Hitems as [|line i ls its E _ IH]; sums; [done|]. by rewrite E, IH. }
  eapply reads_bind; [apply reads_ReadOnly; apply provider_ok|]. intros [prior credit] _.
  eapply reads_bind; [apply reads_map_err, (reads_lift _ _ (λ late,
    LateFee (engineLateFeeType (bp_LateFeeType period)) (bp_LateFeeValue period)
      (sum64 (cl_amount <$> lines)) 0 = Ok late)); by intros|].
  intros late Hlate. cbv zeta.
  eapply reads_bind; [by apply (reads_uuid _ (λ _, True))|]. intros id _.
  eapply reads_bind; [by apply (reads_uuid _ (λ _, True))|]. intros number _.
  case_match eqn:El.
  - eapply reads_bind; [by apply (reads_uuid _ (λ _, True))|]. intros lid _.
    apply reads_ret. split; cbn [iwi_Invoice iwi_Items inv_UnitID inv_PeriodID inv_BuildingID
      inv_DueDate inv_Status inv_PaidAmount inv_InvoiceNumber inv_BaseAmount inv_LateFeeAmount
      inv_FinalAmount inv_PriorDebt inv_CreditAmount]; try done.
    + split_and!; [done..|apply is_draft_prefix].
    + by rewrite sum64_wrap.
    + apply wrap64_final.
    + sums. rewrite Hsum. unfold sum_of. simpl. lia.
    + intros _. eexists. split; [apply elem_of_app; right; by left|done].
  - apply reads_ret. split; cbn [iwi_Invoice iwi_Items inv_UnitID inv_PeriodID inv_BuildingID
      inv_DueDate inv_Status inv_PaidAmount inv_InvoiceNumber inv_BaseAmount inv_LateFeeAmount
      inv_FinalAmount inv_PriorDebt inv_CreditAmount]; try done.
    + split_and!; [done..|apply is_draft_prefix].
    + by rewrite sum64_wrap.
    + apply wrap64_final.
    + rewrite Hsum. lia.
    + lia.
Qed.

(** ** The whole calculation *)

Definition period_items (d : DB) (pid : UUID) : list BCostItem :=
  sort_by (created_then_id ci_CreatedAt ci_ID)
    (List.filter (λ c, bool_decide (ci_PeriodID c = pid)) (rows d)).

(** The occupants of a unit on a date: the last data point up to it. *)
Definition occupants_on (d : DB) (unitID : UUID) (ref : Time) : Z :=
  match counts_until unitID ref d with c :: _ => oc_OccupantCount c | [] => 0 end.

Definition unit_snapshot (d : DB) (period : BillingPeriod) (u : Unit) : buildingUnit :=
  MkBuildingUnit u (occupants_on d (u_ID u) (bp_EndDate period)).

Record Composed (d : DB) (period : BillingPeriod) (units : list Unit)
    (shares : list CostItemShare) (invoices : list InvoiceWithItems) : Prop := {
  co_units : units ≡ₚ List.filter (live_unit_of (bp_BuildingID period)) (rows d);
  co_nonempty : units ≠ [] ∧ period_items d (bp_ID period) ≠ [];
  co_shares : ∃ blocks, shares = concat blocks ∧
    Forall2 (ItemRows (unit_snapshot d period <$> units)) (period_items d (bp_ID period)) blocks;
  co_invoices :
    Forall2 (λ u, InvoiceOf period (unit_charge shares (u_ID u)) u) units invoices;
}.

Lemma reads_UnitsForBuilding b d :
  reads (UnitsForBuilding b) d (λ units, units ≡ₚ List.filter (live_unit_of b) (rows d)).
Proof.
  apply holds_stmt; [done|]. intros env _. split; [done|]. intros units [= <-].
  apply sort_by_Permutation.
Qed.

Lemma reads_snapshots period units d :
  reads (map_each (snapshot_unit period) units) d (λ bus, bus = unit_snapshot d period <$> units).
Proof.
  eapply reads_mono.
  - apply reads_map_each with (P := λ u bu, bu = unit_snapshot d period u).
    intros u _. unfold snapshot_unit. eapply reads_bind.
    + by apply (reads_query _ d (λ occ, occ = occupants_on d (u_ID u) (bp_EndDate period))).
    + intros occ ->. by apply reads_ret.
  - intros bus H. induction H as [|u bu us bus' E _ IH]; [done|]. csimpl. by rewrite E, IH.
Qed.

Lemma reads_compute_invoices period d :
  reads (compute_invoices period) d (λ '(shares, invoices),
    ∃ units, Composed d period units shares invoices).
Proof.
  unfold compute_invoices, ListCostItems.
  eapply reads_bind; [by apply (reads_Find _ _ d (λ its, its = period_items d (bp_ID period)))|].
  intros items ->. case_decide as Hi; [apply reads_fail|].
  eapply reads_bind; [apply reads_UnitsForBuilding|]. intros units Hu.
  case_decide as Hne; [apply reads_fail|].
  eapply reads_bind; [apply reads_snapshots|]. intros bus ->.
  eapply reads_bind; [apply reads_charge_items|].
  intros [shares charges] (blocks & -> & Hb & Hl). cbv beta iota.
  eapply reads_bind; [apply reads_map_each; intros bu _; apply reads_draft_invoice|].
  intros invoices Hinv. apply reads_ret. exists units. split; [done|done|by exists blocks|].
  rewrite Forall2_fmap_l in Hinv. eapply Forall2_impl; [exact Hinv|]. intros u x H.
  simpl in H. rewrite Hl in H. unfold lines_total in H. rewrite lookup_empty in H.
  exact H.
Qed.

(** ** No Toman is lost *)

Definition engine_units (d : DB) (period : BillingPeriod) (units : list Unit) : list EUnit :=
  engineUnit <$> (unit_snapshot d period <$> units).

Lemma engine_units_wf d period units shares invoices :
  Composed d period units shares invoices →
  Forall (λ u, 0 ≤ u_AreaM2 u) (rows d) → Forall (λ c, 0 ≤ oc_OccupantCount c) (rows d) →
  units_wf (engine_units d period units).
Proof.
  intros C Ha Ho. unfold engine_units. rewrite <- list_fmap_compose. split.
  - rewrite <- list_fmap_compose.
    assert (NoDup (u_ID <$> units)) as Hnd.
    { rewrite (co_units _ _ _ _ _ C). exact (NoDup_filter_rows_ids (R := Unit) _ d). }
    change (NoDup ((λ u, uuid_String (u_ID u)) <$> units)).
    change (λ u, uuid_String (u_ID u)) with (uuid_String ∘ u_ID).
    rewrite list_fmap_compose. apply NoDup_fmap_2_strong; [|done].
    intros a b _ _. apply uuid_String_inj.
  - apply Forall_fmap, Forall_forall. intros u Hu. simpl. split.
    + unfold occupants_on. destruct (counts_until _ _ d) as [|c l] eqn:E; [done|].
      assert (c ∈ counts_until (u_ID u) (bp_EndDate period) d) as Hc by (rewrite E; by left).
      unfold counts_until in Hc. rewrite sort_by_Permutation in Hc.
      apply list_elem_of_In, filter_In in Hc as [Hc _]. apply list_elem_of_In in Hc.
      rewrite Forall_forall in Ho. by apply Ho.
    + rewrite (co_units _ _ _ _ _ C) in Hu.
      apply list_elem_of_In, filter_In in Hu as [Hu _]. apply list_elem_of_In in Hu.
      rewrite Forall_forall in Ha. by apply Ha.
Qed.

(** The rows of one item: non-negative, of its units, adding up. *)
Lemma ItemRows_sound d period units item block :
  units_wf (engine_units d period units) →
  item_in_range (engineItem item) (engine_units d period units) →
  ItemRows (unit_snapshot d period <$> units) item block →
  sum_of cs_RoundedShare block = charged (engineItem item) (engine_units d period units) ∧
  Forall (λ s, 0 ≤ cs_RoundedShare s ∧ cs_UnitID s ∈ u_ID <$> units) block.
Proof.
  intros Hwf Hr (res & E & Hb). fold (engine_units d period units) in E.
  pose proof (Calculate_cases _ _ Hwf Hr) as [[e E']|(res' & E' & S)]; [congruence|].
  assert (res' = res) as -> by congruence.
  rewrite <- (sp_sum _ _ _ S).
  assert (Forall (λ sh, 0 ≤ sh_Rounded sh ∧ ∃ u, u ∈ units ∧ sh_UnitID sh = uuid_String (u_ID u))
    (ir_Shares res)) as Hsh.
  { apply Forall_and. split; [apply S|]. apply Forall_forall. intros sh Hsh.
    assert (sh_UnitID sh ∈ eu_ID <$> targets (engineItem item) (engine_units d period units)) as Hin.
    { rewrite <- (sp_units _ _ _ S). by apply list_elem_of_fmap_2. }
    apply list_elem_of_fmap in Hin as (eu & -> & Heu). unfold targets, participants in Heu.
    assert (eu ∈ engine_units d period units) as Heu'
      by (case_decide; by apply list_elem_of_filter in Heu as [_ ?]).
    unfold engine_units in Heu'. rewrite <- list_fmap_compose in Heu'.
    apply list_elem_of_fmap in Heu' as (u & -> & Hu). by exists u. }
  clear -Hb Hsh. induction Hb as [|sh row shs block R _ IH].
  { split; [done|constructor]. }
  inv Hsh. destruct H1 as (Hn & u & Hu & Eu). destruct IH as [IH1 IH2]; [done|]. split.
  - sums. rewrite (ro_rounded _ _ _ _ R). lia.
  - constructor; [|done]. rewrite (ro_rounded _ _ _ _ R). split; [done|].
    pose proof (ro_unit _ _ _ _ R) as Hp. rewrite Eu, uuid_Parse_String in Hp.
    injection Hp as <-. by apply list_elem_of_fmap_2.
Qed.

(** All the rows of a calculation. *)
Lemma rows_sound d period units items blocks :
  units_wf (engine_units d period units) →
  Forall (λ item, item_in_range (engineItem item) (engine_units d period units)) items →
  Forall2 (ItemRows (unit_snapshot d period <$> units)) items blocks →
  sum_of cs_RoundedShare (concat blocks) =
    sum_of (λ item, charged (engineItem item) (engine_units d period units)) items ∧
  Forall (λ s, 0 ≤ cs_RoundedShare s ∧ cs_UnitID s ∈ u_ID <$> units) (concat blocks).
Proof.
  intros Hwf Hr Hb. revert Hr. induction Hb as [|item block items blocks Hi _ IH]; intros Hr; simpl.
  { split; [done|constructor]. }
  inv Hr. destruct IH as [IH1 IH2]; [done|].
  destruct (ItemRows_sound _ _ _ _ _ Hwf H1 Hi) as [E F]. sums. split; [lia|].
  by apply Forall_app.
Qed.

Lemma unit_charge_nonneg shares u :
  Forall (λ s, 0 ≤ cs_RoundedShare s) shares → 0 ≤ unit_charge shares u.
Proof.
  intros H. apply sum_of_nonneg. eapply Forall_impl; [exact H|].
  intros s Hs. unfold if_eq. simpl in *. case_decide; lia.
Qed.

Lemma unit_charges_sum shares (us : list UUID) :
  NoDup us → Forall (λ s, cs_UnitID s ∈ us) shares →
  sum_of (unit_charge shares) us = sum_of cs_RoundedShare shares.
Proof.
  intros Hnd H. unfold unit_charge. rewrite sum_swap. apply sum_of_ext.
  eapply Forall_impl; [exact H|]. intros s Hs. by apply sum_if_eq.
Qed.

Lemma bases_sum d period units shares invoices :
  Composed d period units shares invoices →
  Forall (λ u, 0 ≤ u_AreaM2 u) (rows d) → Forall (λ c, 0 ≤ oc_OccupantCount c) (rows d) →
  Forall (λ item, item_in_range (engineItem item) (engine_units d period units))
    (period_items d (bp_ID period)) →
  in64 (sum_of (λ item, charged (engineItem item) (engine_units d period units))
    (period_items d (bp_ID period))) →
  sum_of (λ x, inv_BaseAmount (iwi_Invoice x)) invoices =
    sum_of (λ item, charged (engineItem item) (engine_units d period units))
      (period_items d (bp_ID period)) ∧
  Forall (λ x, 0 ≤ inv_BaseAmount (iwi_Invoice x)) invoices.
Proof.
  intros C Ha Ho Hr Hb.
  pose proof (engine_units_wf _ _ _ _ _ C Ha Ho) as Hwf.
  destruct (co_shares _ _ _ _ _ C) as (blocks & Eb & Hblocks).
  destruct (rows_sound _ _ _ _ _ Hwf Hr Hblocks) as [Hsum Hrows]. rewrite <- Eb in Hsum, Hrows.
  apply Forall_and in Hrows as [Hnn Hin].
  assert (NoDup (u_ID <$> units)) as Hnd.
  { rewrite (co_units _ _ _ _ _ C). exact (NoDup_filter_rows_ids (R := Unit) _ d). }
  pose proof (unit_charges_sum shares _ Hnd Hin) as Htot. rewrite Hsum in Htot.
  assert (Forall (λ u, 0 ≤ unit_charge shares u ∧ wrap64 (unit_charge shares u)
    = unit_charge shares u) (u_ID <$> units)) as Hw.
  { apply Forall_forall. intros u Hu. pose proof (unit_charge_nonneg shares u Hnn).
    split; [done|]. apply wrap64_id.
    assert (unit_charge shares u ≤ sum_of (unit_charge shares) (u_ID <$> units)) as Hle.
    { apply sum_of_elem_le; [|done]. apply Forall_true. intros v. by apply unit_charge_nonneg. }
    unfold in64 in *. lia. }
  rewrite <- Htot. pose proof (co_invoices _ _ _ _ _ C) as Hi. clear -Hi Hw.
  induction Hi as [|u x us xs I _ IH]; csimpl in *; [by split; [|constructor]|].
  inv Hw. destruct H1 as [Hn Hww]. destruct IH as [E F]; [done|].
  rewrite !sum_of_cons, (io_base _ _ _ _ I). split; [lia|].
  constructor; [|done]. rewrite (io_base _ _ _ _ I). lia.
Qed.
End composition.
