(* ===== verification/Ledger.v ===== *)
(** * The money behind the invoices

    The invariant that the amount an invoice counts as paid is backed by
    verified payments for it, and the relations its preservation rests on. *)

From S2P Require Import Prelude Golang Calendar Errors Engine LateFee Models Store Schema Logic Gateway Notification BillingRepo Calc Period PaymentRepo PaymentService BillingLemmas Frozen PaymentSpec BillingSpec System CalcSpec.

#[local] Existing Instances PaymentBalances PaymentHook.

(** ** Sums over a table *)

Lemma sum_put {R} `{!Table R} (f : R → Z) (r : R) d :
  sum_of f (rows (put r d)) =
    sum_of f (rows d) + f r - match row_at d (key r) with Some old => f old | None => 0 end.
Proof.
  destruct (rows_put r d) as (l & E1 & E2). rewrite E1, E2.
  destruct (row_at d (key r)) as [old|]; sums; lia.
Qed.

Lemma wrap64_le z : - 2 ^ 63 ≤ z → wrap64 z ≤ z.
Proof.
  unfold wrap64. intros H. pose proof (Z.mod_le (z + 2 ^ 63) (2 ^ 64)). lia.
Qed.

(** ** The invariant *)

(** What verified payments have brought in for an invoice. *)
Definition backs (id : UUID) (p : Payment) : Z :=
  if bool_decide (pay_Status p = StatusVerified) && bool_decide (pay_InvoiceID p = Some id)
  then pay_Amount p else 0.

Definition backing (d : DB) (id : UUID) : Z := sum_of (backs id) (rows d).

Record Backed (d : DB) : Prop := {
  bk_amounts : ∀ p : Payment, p ∈ rows d → 0 < pay_Amount p;
  bk_paid : ∀ id (inv : Invoice), row_at d id = Some inv →
    0 ≤ inv_PaidAmount inv ≤ backing d id;
}.

(** Calls that leave the payments alone and the paid amounts too, new invoices
    being unpaid. *)
Definition PaidKept (d d' : DB) : Prop :=
  db_payments d' = db_payments d ∧
  ∀ id (i' : Invoice), row_at d' id = Some i' →
    inv_PaidAmount i' = 0 ∨ ∃ i, row_at d id = Some i ∧ inv_PaidAmount i = inv_PaidAmount i'.

#[export] Instance PaidKept_preorder : PreOrder PaidKept.
Proof.
  split.
  - intros d. split; [done|]. intros id i Hi. right. by exists i.
  - intros d1 d2 d3 [E1 H1] [E2 H2]. split; [congruence|]. intros id i3 Hi3.
    destruct (H2 id i3 Hi3) as [|(i2 & Hi2 & Ei)]; [by left|].
    destruct (H1 id i2 Hi2) as [|(i1 & Hi1 & Ei1)]; [left; lia|]. right. exists i1. split; [done|lia].
Qed.

Lemma PaidKept_refl d : PaidKept d d.
Proof. reflexivity. Qed.
#[export] Hint Resolve PaidKept_refl : core.

Lemma backing_nonneg d id : (∀ p : Payment, p ∈ rows d → 0 < pay_Amount p) → 0 ≤ backing d id.
Proof.
  intros H. apply sum_of_nonneg, Forall_forall. intros p Hp. unfold backs.
  specialize (H p Hp). case_match; lia.
Qed.

Lemma rows_payments d d' : db_payments d' = db_payments d → rows (R := Payment) d' = rows d.
Proof. intros E. unfold rows. simpl. by rewrite E. Qed.

Lemma Backed_PaidKept d d' : PaidKept d d' → Backed d → Backed d'.
Proof.
  intros [Ep Hi] [Ha Hb]. apply rows_payments in Ep. split; [by rewrite Ep|].
  intros id i' Hi'. unfold backing. rewrite Ep. fold (backing d id).
  destruct (Hi id i' Hi') as [->|(i & Hii & <-)]; [|by apply Hb].
  pose proof (backing_nonneg d id Ha). lia.
Qed.

Definition paid_tables (d : DB) := (db_payments d, db_invoices d).

Lemma keeps_PaidKept d d' : keeps paid_tables d d' → PaidKept d d'.
Proof.
  unfold keeps, paid_tables. intros [= E1 E2]. split; [done|]. intros id i Hi. right. exists i.
  split; [|done]. revert Hi. unfold row_at. simpl. by rewrite E2.
Qed.

Lemma paid_leaf {A} (m : M A) : Stays (keeps paid_tables) m → Stays PaidKept m.
Proof. apply stays_mono, keeps_PaidKept. Qed.

(** ** The statements on invoices *)

Lemma PaidKept_put_new (r : Invoice) d :
  inv_PaidAmount r = 0 → PaidKept d (put r d).
Proof.
  intros H0. split; [done|]. intros id i'. rewrite row_at_put. simpl. case_decide.
  - intros [= <-]. by left.
  - intros Hi. right. by exists i'.
Qed.

Lemma paid_Create_invoice (r : Invoice) :
  inv_PaidAmount r = 0 → Stays PaidKept (Create r).
Proof.
  intros H0. apply stays_Create; [apply _..|]. intros env now r' d _ _ Ha. apply PaidKept_put_new.
  revert Ha. cbn -[require mbind]. rewrite !require_Ok. intros (_ & _ & _ & [= <-]). done.
Qed.

Lemma paid_update_row env (old r : Invoice) d d0 d1 :
  inv_ID r = inv_ID old → inv_PaidAmount r = inv_PaidAmount old →
  row_at d (inv_ID old) = Some old → PaidKept d d0 → update_row env old r d0 = Ok d1 → PaidKept d d1.
Proof.
  intros E1 E2 Ho [Kp Ki] E. apply update_row_Ok in E as (r' & Ha & _ & ->).
  assert (inv_ID r' = inv_ID r ∧ inv_PaidAmount r' = inv_PaidAmount r) as [Er Ep].
  { revert Ha. cbn -[require mbind]. rewrite !require_Ok. intros (_ & _ & _ & [= <-]). done. }
  split; [done|]. intros id i'. rewrite row_at_put. simpl. case_decide as Ed; [|by apply Ki].
  intros [= <-]. right. exists old. rewrite Ed, Er, E1, Ep, E2. done.
Qed.

Lemma paid_Update_invoice P f :
  (∀ now r, inv_ID (f now r) = inv_ID r ∧ inv_PaidAmount (f now r) = inv_PaidAmount r) →
  Stays PaidKept (Update_where (R := Invoice) P f).
Proof.
  intros Hf d. step; [done|]. revert H.
  assert (∀ r, r ∈ List.filter P (rows d) → row_at d (inv_ID r) = Some r) as Hl.
  { intros r Hr. by apply elem_of_filter_rows in Hr as [? _]. }
  assert (∀ l d0 d1, (∀ r, r ∈ l → row_at d (inv_ID r) = Some r) → PaidKept d d0 →
    update_rows env (f now) l d0 = Ok d1 → PaidKept d d1) as H; [|by apply H].
  clear Hl d'. induction l as [|r l IH]; intros d0 d1 Hl K; simpl; [by intros [= <-]|].
  destruct (update_row env r (f now r) d0) as [d2|e|s] eqn:E; simpl; [|done..].
  apply IH; [intros x Hx; apply Hl; by right|]. destruct (Hf now r) as [E1 E2].
  eapply paid_update_row; [exact E1|exact E2|apply Hl; by left|exact K|exact E].
Qed.

Lemma paid_Delete_invoice P : Stays PaidKept (Delete_where (R := Invoice) P).
Proof.
  apply stays_Delete_where; [apply _|]. intros r d. split; [done|]. intros id i' Hi'. right.
  exists i'. split; [|done]. rewrite row_at_delete in Hi'. by case_decide.
Qed.

Lemma paid_delete_calculation id : Stays PaidKept (delete_calculation id).
Proof.
  unfold delete_calculation. stays_step; [apply _|apply paid_leaf; stays_tac|].
  stays_step; [apply _|apply paid_Delete_invoice|stays_tac].
Qed.

Lemma paid_for_each {A} (f : A → M ()) l :
  (∀ x, x ∈ l → Stays PaidKept (f x)) → Stays PaidKept (for_each f l).
Proof.
  induction l as [|x l IH]; intros H; simpl; [apply stays_ret, _|].
  apply stays_bind; [apply _|apply H; by left|]. intros. apply IH. intros y Hy. apply H. by right.
Qed.

Lemma paid_ReplaceCalculation id shares invoices :
  Forall (λ x, inv_PaidAmount (iwi_Invoice x) = 0) invoices →
  Stays PaidKept (ReplaceCalculation id shares invoices).
Proof.
  intros Hz. unfold ReplaceCalculation, store_share, store_item.
  stays_step; [apply _|]. stays_step; [apply _|apply paid_delete_calculation|].
  stays_step; [apply _|apply paid_leaf; stays_tac|]. apply paid_for_each. intros x Hx.
  rewrite Forall_forall in Hz. unfold store_invoice.
  stays_step; [apply _|by apply paid_Create_invoice, Hz|].
  apply paid_leaf. unfold store_item. stays_tac.
Qed.

Lemma paid_DiscardCalculation id : Stays PaidKept (DiscardCalculation id).
Proof. unfold DiscardCalculation. stays_tac. apply paid_delete_calculation. Qed.

Lemma paid_number_draft {loc : Location} year count now x : Stays PaidKept (number_draft year count now x).
Proof. destruct x. unfold number_draft. stays_tac. by apply paid_Update_invoice. Qed.

Lemma paid_SetInvoiceStatus id s : Stays PaidKept (SetInvoiceStatus id s).
Proof. unfold SetInvoiceStatus. stays_tac. by apply paid_Update_invoice. Qed.

Ltac paid_leaf_tac :=
  first [ apply paid_DiscardCalculation | apply paid_number_draft | apply paid_SetInvoiceStatus ].
Ltac paid_tac := repeat first [paid_leaf_tac | stays_step | apply paid_leaf; solve [keeps_tac]].

Section operations.
Context {codec : UuidCodec} {pusher : PushNotifier} {gateway : PaymentGateway}.
Context {gateway_ok : GatewayOk} {loc : Location}.

Lemma paid_Calculate m id d : holds (Calculate_period m id) d (λ _ d', PaidKept d d').
Proof.
  unfold Calculate_period. step. apply holds_CalcAuthorizedPeriod; [intros; apply PaidKept_refl|]. intros p _ _.
  cbn [after]. step; [step; apply PaidKept_refl|]. step. eapply holds_mono; [apply reads_compute_invoices|].
  intros [[shares invoices]|e|s] d1 [-> C]; cbn [after]; [|apply PaidKept_refl..].
  destruct (C _ eq_refl) as [units C'].
  apply (holds_stays PaidKept); [|done]. unfold store_calculation, SavePeriod.
  stays_step; [apply _| |intros; stays_tac].
  stays_step; [apply _| |intros; apply paid_leaf; stays_tac].
  apply paid_ReplaceCalculation. pose proof (co_invoices _ _ _ _ _ C') as Hi. clear -Hi.
  induction Hi as [|u x us xs I _ IH]; constructor; [|done].
  by destruct (io_status _ _ _ _ I) as (_ & ? & _).
Qed.

Lemma paid_billing op d : holds (run_op op) d (λ _ d', PaidKept d d').
Proof.
  destruct op; cbn [run_op]; try apply holds_discard; try apply paid_Calculate;
    apply (holds_stays PaidKept); try done.
  - apply paid_leaf. unfold CreatePeriod, CreatePeriod_row. keeps_tac.
  - apply paid_leaf. unfold UpdatePeriod, SavePeriod. keeps_tac.
  - apply paid_leaf. unfold AddCostItem, CreateCostItem. keeps_tac.
  - apply paid_leaf. unfold UpdateCostItem, SaveCostItem. keeps_tac.
  - apply paid_leaf. unfold DeleteCostItem, DeleteCostItem_row. keeps_tac.
  - paid_tac.
  - unfold Reopen, SavePeriod. paid_tac.
  - unfold Issue, audit_issued, IssueInvoices, GetPeriod_row. paid_tac.
  - apply paid_leaf. unfold Close, SavePeriod. keeps_tac.
  - unfold CancelInvoice. paid_tac.
  - apply paid_leaf. unfold AddAdjustment, bad. keeps_tac.
Qed.

(** ** Payments *)

Lemma backing_put (r : Payment) d id :
  backing (put r d) id = backing d id + backs id r -
    match row_at d (pay_ID r) with Some old => backs id old | None => 0 end.
Proof. exact (sum_put (backs id) r d). Qed.

Lemma elem_of_put {R} `{!Table R} (r p : R) d : p ∈ rows (put r d) → p = r ∨ p ∈ rows d.
Proof.
  rewrite !elem_of_rows, row_at_put. case_decide; [|by right]. intros [= ->]. by left.
Qed.

(** Writing a payment that backs no less than the row it replaces. *)
Lemma Backed_put_payment (r : Payment) d :
  Backed d → 0 < pay_Amount r →
  (∀ id old, row_at d (pay_ID r) = Some old → backs id old ≤ backs id r) → Backed (put r d).
Proof.
  intros [Ha Hb] Hr Hold. split.
  - intros p [->|Hp]%elem_of_put; [done|by apply Ha].
  - intros id inv Hi. change (row_at (R := Invoice) d id = Some inv) in Hi.
    specialize (Hb id inv Hi). rewrite backing_put.
    assert (0 ≤ backs id r) by (unfold backs; case_match; lia).
    destruct (row_at d (pay_ID r)) as [old|] eqn:E; [specialize (Hold id old eq_refl)|]; lia.
Qed.

Lemma applied_bounds li amount :
  0 < amount → 0 ≤ pa_applied (applyToInvoice li amount) ≤ amount.
Proof.
  intros H. unfold applyToInvoice. simpl.
  destruct (Z.ltb_spec (sub64 (effective li) (li_PaidAmount li)) 0);
    [destruct (Z.gtb_spec amount 0)
    |destruct (Z.gtb_spec amount (sub64 (effective li) (li_PaidAmount li)))]; lia.
Qed.

(** Applying money keeps the invariant, when the payment did not count yet. *)
Lemma Backed_Applied d d' inv li p :
  Backed d → Applied d d' inv li p → 0 < pay_Amount p →
  (∀ id old, row_at d (pay_ID p) = Some old → backs id old = 0) → Backed d'.
Proof.
  intros B [[Hi Hl] (p' & Ep & Eid & Ea & Es & Ei & _) (inv' & Einv & Hid & Hnn & Hpaid & _) _] Hpos Hold.
  assert (rows (R := Payment) d' = rows (put p' d)) as Er.
  { apply rows_payments. rewrite Ep, <- Eid. reflexivity. }
  assert (Backed (put p' d)) as B'.
  { apply Backed_put_payment; [done|lia|]. intros id old Ho. rewrite Eid in Ho.
    rewrite (Hold id old Ho). unfold backs. case_match; lia. }
  destruct B' as [Ha _]. destruct B as [_ Hb]. split; [by rewrite Er|].
  intros id i Hir.
  assert (backing d' id = backing d id + backs id p') as Hback.
  { unfold backing at 1. rewrite Er. fold (backing (put p' d) id). rewrite backing_put, Eid.
    destruct (row_at d (pay_ID p)) as [old|] eqn:E; [rewrite (Hold id old eq_refl)|]; lia. }
  rewrite Hback. unfold row_at in Hir. simpl in Hir. rewrite Einv in Hir.
  assert (0 ≤ backs id p') by (unfold backs; case_match; lia).
  destruct (decide (id = inv_ID inv)) as [->|Hne].
  - rewrite lookup_insert_eq in Hir. simpl in Hir. case_decide; simplify_eq.
    split; [done|]. rewrite Hpaid.
    assert (backs (inv_ID inv) p' = pay_Amount p) as ->
      by (unfold backs; rewrite !bool_decide_eq_true_2 by done; done).
    pose proof (applied_bounds li _ Hpos). pose proof (Hb _ _ Hi).
    unfold add64. etransitivity; [apply wrap64_le; lia|lia].
  - rewrite lookup_insert_ne in Hir by done.
    assert (row_at d id = Some i) as Hir' by exact Hir. specialize (Hb _ _ Hir'). lia.
Qed.

Lemma Backed_notifications d n : Backed d → Backed (set_notifications n d).
Proof. intros [H1 H2]. by split. Qed.

Lemma Backed_Finalized d row p d' :
  Backed d → row_at d (pay_ID row) = Some row → Finalized d row p d' → Backed d'.
Proof.
  intros B Hr F.
  assert (row ∈ rows d) as Hin by by apply elem_of_rows.
  assert (0 < pay_Amount row) as Hpos by by apply (bk_amounts _ B).
  assert (pending row → ∀ id, backs id row = 0) as Hz.
  { intros (Hs & _) id. unfold backs. by rewrite Hs. }
  destruct F as [|p p' Hp _ _ E1 E2 _|p p' n ref Hp _ _ E1 E2 E3|p d' ref inv li Hp _ _ E1 E2 A].
  - done.
  - apply Backed_put_payment; [done|lia|]. intros id old Ho. rewrite E1, Hr in Ho.
    injection Ho as <-. rewrite (Hz Hp id). unfold backs. case_match; lia.
  - apply Backed_notifications, Backed_put_payment; [done|lia|]. intros id old Ho.
    rewrite E1, Hr in Ho. injection Ho as <-. rewrite (Hz Hp id). unfold backs. case_match; lia.
  - apply (Backed_Applied d d' inv li p); [done|done|lia|]. intros id old Ho.
    rewrite E1, Hr in Ho. injection Ho as <-. by apply Hz.
Qed.

Lemma holds_bind_reads {A B} (m : M A) (f : A → M B) P d (Q : Res B → DB → Prop) :
  reads m d P → (∀ a, P a → holds (f a) d Q) →
  (∀ e, Q (Err e) d) → (∀ s, Q (Panic s) d) → holds (m ≫= f) d Q.
Proof.
  intros Hm Hf He Hs. apply holds_bind. eapply holds_mono; [exact Hm|].
  intros [a|e|s] d' [-> Ha]; cbn [after]; [by apply Hf, Ha|apply He|apply Hs].
Qed.

Lemma Backed_StartGateway cfg u v a path d :
  Backed d → holds (StartGateway cfg u v a path) d (λ _, Backed).
Proof.
  intros B. unfold StartGateway, CreatePayment.
  eapply holds_bind_reads; [apply reads_payAuthorizedInvoice| |done..]. intros li _.
  step; [by step|].
  apply holds_bind_reads with (P := λ _, True); [| |done..].
  { destruct a as [a|]; [destruct (a <=? 0)|]; by (apply reads_fail || apply reads_ret). }
  intros amt _. step; [by step|].
  apply holds_bind_reads with (P := λ _, True); [| |done..].
  { apply reads_map_err, reads_ReadOnly, start_reads. }
  intros res _. step. step. step. step. step. step; [done|]. subst d'. step.
  revert H1. cbn -[require mbind]. rewrite !require_Ok. intros (_ & Hpos & _ & [= <-]).
  apply Backed_put_payment; [done|simpl in *; lia|]. intros id old Ho.
  apply row_at_Some in Ho as [Ho _]. simpl in Ho, H0. congruence.
Qed.

Definition forward (op : SystemOp) : Prop :=
  match op with OpReverse _ => False | _ => True end.

Lemma parse_amount_pos s a : parse_amount s = Some a → 0 < a.
Proof.
  unfold parse_amount. destruct (ParseInt s) as [z|]; simpl; [|done].
  destruct (Z.leb_spec z 0); [done|]. by intros [= <-].
Qed.

Lemma system_backed op d :
  Backed d → forward op → holds (run_system op) d (λ _, Backed).
Proof.
  intros B Hf. destruct op as [op|u v i|cfg u v a path|p a|p|u b]; cbn [run_system].
  - eapply holds_mono; [apply paid_billing|]. intros r d' K. exact (Backed_PaidKept _ _ K B).
  - apply holds_discard. eapply holds_mono; [apply holds_RecordManual|].
    intros [p|e|s] d'; [|by intros ->..].
    intros (amount & inv & li & Ok & A & Ea & _ & Hfresh).
    apply (Backed_Applied _ _ _ _ _ B A).
    + rewrite Ea. eapply parse_amount_pos, mo_amount, Ok.
    + intros id old Ho. apply row_at_Some in Ho as [Ho _]. simpl in Ho. congruence.
  - apply holds_discard, Backed_StartGateway, B.
  - apply holds_discard. eapply holds_mono; [apply holds_HandleCallback|].
    intros [q|e|s] d'; [|by intros ->..]. intros (row & [Hr _] & F).
    by eapply Backed_Finalized.
  - destruct Hf.
  - apply holds_discard. unfold UnitBalanceFor, RecomputeUnit.
    eapply holds_bind_reads; [apply reads_map_err, reads_canAccessUnit| |done..].
    intros ok _. step; [by step|]. apply (holds_stays (keeps paid_tables)).
    + by apply keeps_recomputeBalance.
    + intros r d' K. eapply Backed_PaidKept; [by apply keeps_PaidKept|exact B].
Qed.
End operations.
