(* ===== verification/ServerSpec.v ===== *)
(** * What the requests touch

    Each group of routes writes the tables of its domains only: a call respects
    every relation that a change of the other tables and an entry of the audit
    trail respect. The services are opened down to their statements. *)

From S2P Require Import Prelude Golang Calendar Errors Models Store Schema Logic Net Gateway Notification Crypto Token Invite Password AuthUser AuthHandlers BillingRepo BuildingRepo BuildingService Occupancy Calc Period PaymentRepo PaymentService Http Maintenance Expense Announcement Dashboard NotificationHandlers BuildingHandlers BillingHandlers PaymentHandlers Middleware Config BillingLemmas BuildingSpec AuthSpec AccountSpec PanelSpec Server PaymentSpec BillingSpec System Ledger.

(** A call whose value is dropped moves the tables as the call does. *)
Lemma stays_discard {A} R (m : M A) : Stays R (discard m) → Stays R m.
Proof.
  intros H d env w Hw. specialize (H d env w Hw). unfold discard in H.
  unfold mbind, M_bind, mret, M_ret in H. by destruct (m env w) as [[a|e|s] w'].
Qed.

Section families.
Context {X : Type} (π : DB → X) (R : relation DB) `{!PreOrder R}.
Context (HR : ∀ d d', keeps π d d' → R d d').
Context (Happend : ∀ a b c i x y, Stays R (Audit_Append a b c i x y)).

Lemma family_leaf {A} (m : M A) : Stays (keeps π) m → Stays R m.
Proof. apply stays_mono, HR. Qed.

Lemma family_stmt {A} (f : Env → Time → DB → Res (A * DB)) :
  (∀ env now d a d', f env now d = Ok (a, d') → π d' = π d) → Stays R (stmt f).
Proof.
  intros H d. apply holds_stmt; [reflexivity|]. intros env now. specialize (H env now d).
  destruct (f env now d) as [[a d']|e|s]; [by apply HR, (H a d')|reflexivity..].
Qed.

Ltac stmt_leaf :=
  apply family_stmt; let E := fresh "E" in intros ? ? ? ? ? E; unfold revoke_exec in E; cbv beta zeta in E;
  repeat match type of E with
  | context [mbind _ ?x] => destruct x; simpl in E; try discriminate E
  | context [match ?x with _ => _ end] => destruct x; simpl in E; try discriminate E
  end;
  injection E as <- <-; unfold insert_grant; auto.

Ltac family_step :=
  lazymatch goal with
  | |- Stays _ (Audit_Append _ _ _ _ _ _) => apply Happend
  | |- Stays _ (ignore_err _) => apply stays_ignore_err
  | |- Stays _ (Create _) => apply family_leaf, keeps_Create; apply _
  | |- Stays _ (Save _) => apply family_leaf, keeps_Save; apply _
  | |- Stays _ (Update_where _ _) => apply family_leaf, keeps_Update_where; apply _
  | |- Stays _ (Delete_where _) => apply family_leaf, keeps_Delete_where; apply _
  | |- Stays _ (stmt _) => stmt_leaf
  | |- Stays _ ?m => first [stays_step | open_call m]
  | |- _ => stays_step
  end.
Ltac family_tac := repeat family_step.

(** *** The groups of routes *)

Section registry.
Context {codec : UuidCodec} {map_order : MapOrder}.
Context (Hb : Indep π Building) (Hu : Indep π Unit) (Hp : Indep π Person) (Ho : Indep π Occupancy).
Context (Hc : Indep π OccupantCount) (Hus : Indep π User).
Context (Hub : ∀ m d, π (set_user_buildings m d) = π d).

Lemma family_registry c call : Stays R (serve_registry c call).
Proof. destruct call; unfold serve_registry; family_tac. Qed.
End registry.

Section accounts.
Context {codec : UuidCodec} {jwt : JwtLibrary} {bcrypt : Bcrypt} {unicode : UnicodeTables}.
Context (Hus : Indep π User) (Htok : Indep π RefreshToken) (Hinv : Indep π InviteCode).

Lemma family_randomInviteCode n : Stays R (randomInviteCode n).
Proof. induction n as [|n IH]; simpl; family_tac; exact IH. Qed.

Ltac accounts_step :=
  lazymatch goal with
  | |- Stays _ (randomInviteCode _) => apply family_randomInviteCode
  | |- _ => family_step
  end.

Lemma family_auth h rq call : Stays R (serve h rq call).
Proof. destruct call; unfold serve; repeat accounts_step. Qed.
End accounts.

Section panels.
Context {codec : UuidCodec} {pusher : PushNotifier} {loc : Location}.
Context (Hmr : Indep π MaintenanceRequest) (Hex : Indep π Expense) (Han : Indep π Announcement).
Context (Hnot : Indep π Notification) (Hread : ∀ m d, π (set_announcement_reads m d) = π d).

Lemma family_panel s c call : Stays R (serve_panel s c call).
Proof. destruct call; unfold serve_panel; family_tac. Qed.
End panels.

Section payments.
Context {codec : UuidCodec} {pusher : PushNotifier} {gateway : PaymentGateway}.
Context {gateway_ok : GatewayOk}.
Context (Hinv : Indep π Invoice) (Hpay : Indep π Payment) (Hnot : Indep π Notification).
Context (Hbal : ∀ m d, π (set_balances m d) = π d).

Lemma family_recomputeBalance u : Stays R (recomputeBalance u).
Proof. apply family_leaf, keeps_recomputeBalance, Hbal. Qed.

Ltac payments_step :=
  lazymatch goal with
  | |- Stays _ (recomputeBalance _) => apply family_recomputeBalance
  | |- Stays _ (gw_Start _) => apply (read_only_stays _ _), start_reads
  | |- Stays _ (gw_Verify _ _) => apply (read_only_stays _ _), verify_reads
  | |- _ => family_step
  end.

Lemma family_payment cfg c call : Stays R (serve_payment cfg c call).
Proof. destruct call; unfold serve_payment; repeat payments_step. Qed.

Lemma family_callback cfg c : Stays R (gatewayCallback cfg c).
Proof. repeat payments_step. Qed.
End payments.

Section billing.
Context {codec : UuidCodec} {pusher : PushNotifier} {loc : Location} {dates : RequiredDates}.
Context (Hper : Indep π BillingPeriod) (Hci : Indep π BCostItem) (Hsh : Indep π CostItemShare).
Context (Hinv : Indep π Invoice) (Hit : Indep π InvoiceItem) (Had : Indep π InvoiceAdjustment).
Context (Hnot : Indep π Notification) (Hbal : ∀ m d, π (set_balances m d) = π d).

#[local] Existing Instances PaymentBalances PaymentHook.

Lemma family_recomputeBalances ids : Stays R (recomputeBalances ids).
Proof. apply family_leaf, keeps_recomputeBalances; [apply _|exact Hbal]. Qed.

Ltac billing_step :=
  lazymatch goal with
  | |- Stays _ (recomputeBalances _) => apply family_recomputeBalances
  | |- Stays _ (compute_invoices _) => apply (read_only_stays _ _); apply _
  | |- Stays _ (GetInvoice _) => apply (read_only_stays _ _); apply _
  | |- _ => family_step
  end.
Ltac billing_tac := repeat billing_step.

Lemma family_billing c call : Stays R (serve_billing c call).
Proof. destruct call; unfold serve_billing; billing_tac.

Qed.
End billing.

(** *** The groups through their services *)

(** The one request of the registry that promotes a resident. *)
Definition promoting (call : RegistryCall) : Prop := match call with RGrantManager _ => True | _ => False end.

(** A relation that the operations of the registry respect, one by one, the grant
    of a manager where residents may be promoted. *)
Section through_registry.
Context {codec : UuidCodec} {map_order : MapOrder}.
Context (promotes : Prop) (Hop : ∀ op, (grants op → promotes) → Stays R (run_building op)).

Ltac op_ok :=
  first [by intros [] | lazymatch goal with H : promoting _ → promotes |- _ => exact H end].

Ltac op_step :=
  lazymatch goal with
  | |- Stays _ (CreateBuilding ?m ?i) => refine (stays_discard _ _ (Hop (OpCreateBuilding m i) _)); op_ok
  | |- Stays _ (UpdateBuilding ?m ?b ?i) => refine (stays_discard _ _ (Hop (OpUpdateBuilding m b i) _)); op_ok
  | |- Stays _ (DeleteBuilding ?m ?b) => refine (Hop (OpDeleteBuilding m b) _); op_ok
  | |- Stays _ (GrantManagerByPhone ?m ?b ?p) => refine (stays_discard _ _ (Hop (OpGrantManager m b p) _)); op_ok
  | |- Stays _ (RevokeManager ?m ?b ?u) => refine (Hop (OpRevokeManager m b u) _); op_ok
  | |- Stays _ (CreateUnit ?m ?b ?i) => refine (stays_discard _ _ (Hop (OpCreateUnit m b i) _)); op_ok
  | |- Stays _ (UpdateUnit ?m ?b ?i) => refine (stays_discard _ _ (Hop (OpUpdateUnit m b i) _)); op_ok
  | |- Stays _ (DeleteUnit ?m ?b) => refine (Hop (OpDeleteUnit m b) _); op_ok
  | |- Stays _ (CreatePerson ?m ?b ?i) => refine (stays_discard _ _ (Hop (OpCreatePerson m b i) _)); op_ok
  | |- Stays _ (UpdatePerson ?m ?b ?i) => refine (stays_discard _ _ (Hop (OpUpdatePerson m b i) _)); op_ok
  | |- Stays _ (DeletePerson ?m ?b) => refine (Hop (OpDeletePerson m b) _); op_ok
  | |- Stays _ (AddOccupancy ?m ?b ?i) => refine (stays_discard _ _ (Hop (OpAddOccupancy m b i) _)); op_ok
  | |- Stays _ (EndOccupancy ?m ?b ?e) => refine (stays_discard _ _ (Hop (OpEndOccupancy m b e) _)); op_ok
  | |- Stays _ (RecordOccupantCount ?m ?b ?n ?e) =>
      refine (stays_discard _ _ (Hop (OpRecordCount m b n e) _)); op_ok
  | |- _ => family_step
  end.

Lemma through_registry c call : (promoting call → promotes) → Stays R (serve_registry c call).
Proof. intros Hcall. destruct call; unfold serve_registry; repeat op_step. Qed.
End through_registry.

(** The same for billing and payments. *)
Section through_system.
Context {codec : UuidCodec} {pusher : PushNotifier} {gateway : PaymentGateway}.
Context {loc : Location} {dates : RequiredDates}.
Context (Hop : ∀ op, forward op → Stays R (run_system op)).

#[local] Existing Instances PaymentBalances PaymentHook.

Definition through_op (op : BillingOp) : Stays R (run_op op) := Hop (OpBilling op) I.

Ltac op_step :=
  lazymatch goal with
  | |- Stays _ (CreatePeriod ?m ?b ?i) => exact (stays_discard _ _ (through_op (OpCreatePeriod m b i)))
  | |- Stays _ (UpdatePeriod ?m ?b ?i) => exact (stays_discard _ _ (through_op (OpUpdatePeriod m b i)))
  | |- Stays _ (AddCostItem ?m ?b ?i) => exact (stays_discard _ _ (through_op (OpAddCostItem m b i)))
  | |- Stays _ (UpdateCostItem ?m ?b ?i) =>
      exact (stays_discard _ _ (through_op (OpUpdateCostItem m b i)))
  | |- Stays _ (DeleteCostItem ?m ?b) => exact (through_op (OpDeleteCostItem m b))
  | |- Stays _ (Calculate_period ?m ?b) => exact (stays_discard _ _ (through_op (OpCalculate m b)))
  | |- Stays _ (Reopen ?m ?b) => exact (stays_discard _ _ (through_op (OpReopen m b)))
  | |- Stays _ (Issue ?m ?b) => exact (stays_discard _ _ (through_op (OpIssue m b)))
  | |- Stays _ (Close ?m ?b) => exact (stays_discard _ _ (through_op (OpClose m b)))
  | |- Stays _ (CancelInvoice ?m ?b ?r) => exact (stays_discard _ _ (through_op (OpCancelInvoice m b r)))
  | |- Stays _ (AddAdjustment ?m ?b ?i) => exact (stays_discard _ _ (through_op (OpAddAdjustment m b i)))
  | |- Stays _ (RecordManual ?u ?v ?i) => exact (stays_discard _ _ (Hop (OpRecordManual u v i) I))
  | |- Stays _ (StartGateway ?g ?u ?v ?a ?p) =>
      exact (stays_discard _ _ (Hop (OpStartGateway g u v a p) I))
  | |- Stays _ (HandleCallback ?p ?a) => exact (stays_discard _ _ (Hop (OpCallback p a) I))
  | |- Stays _ (UnitBalanceFor ?u ?b) => exact (stays_discard _ _ (Hop (OpUnitBalance u b) I))
  | |- Stays _ (GetInvoice _) => apply (read_only_stays _ _); apply _
  | |- _ => family_step
  end.

Lemma through_billing c call : Stays R (serve_billing c call).
Proof. destruct call; unfold serve_billing; repeat op_step. Qed.

Lemma through_payment cfg c call : Stays R (serve_payment cfg c call).
Proof. destruct call; unfold serve_payment; repeat op_step. Qed.

Lemma through_callback cfg c : Stays R (gatewayCallback cfg c).
Proof. repeat op_step. Qed.
End through_system.
End families.
