(* ===== verification/ServerRun.v ===== *)
(** * Runs of the server

    A relation that every group of routes respects holds between the tables
    before and after any sequence of requests; the invariants of the domains are
    such relations. *)

From S2P Require Import Prelude Golang Calendar Errors Models Store Schema Logic Net Gateway Notification Crypto Token Invite Password AuthUser AuthHandlers BillingRepo BuildingRepo BuildingService Occupancy Calc Period PaymentRepo PaymentService Http Maintenance Expense Announcement Dashboard NotificationHandlers BuildingHandlers BillingHandlers PaymentHandlers Middleware Config BillingLemmas BuildingSpec AuthSpec AccountSpec PanelSpec RequestSpec ExpenseSpec AnnouncementSpec Frozen PaymentSpec BillingSpec System Ledger Server ServerSpec.

(** ** The audit trail *)

(** The trail only grows, at its end. *)
Definition TrailGrows (d d' : DB) : Prop := ∃ l, db_audit_logs d' = db_audit_logs d ++ l.

#[export] Instance TrailGrows_preorder : PreOrder TrailGrows.
Proof.
  split; [intros d; exists []; by rewrite app_nil_r|].
  intros d1 d2 d3 [l1 E1] [l2 E2]. exists (l1 ++ l2). by rewrite E2, E1, app_assoc.
Qed.

Lemma trail_Append a b c i x y : Stays TrailGrows (Audit_Append a b c i x y).
Proof. intros d. apply holds_stmt; [reflexivity|]. intros env now. by eexists. Qed.

Lemma keeps_TrailGrows d d' : keeps db_audit_logs d d' → TrailGrows d d'.
Proof. intros E. exists []. by rewrite app_nil_r. Qed.

(** ** The periods *)

(** Each period moves along its machine. *)
Definition PeriodsRun (d d' : DB) : Prop := ∀ id, rtc period_step (status_at d id) (status_at d' id).

#[export] Instance PeriodsRun_preorder : PreOrder PeriodsRun.
Proof.
  split; [intros d id; reflexivity|]. intros d1 d2 d3 H1 H2 id. by transitivity (status_at d2 id).
Qed.

Lemma keeps_PeriodsRun d d' : keeps db_periods d d' → PeriodsRun d d'.
Proof.
  intros E id. unfold status_at, row_at. simpl. unfold keeps in E. rewrite E. reflexivity.
Qed.

(** ** The registry of the stored files *)

Definition FilesKept : relation DB := Kept_rows (T := File) eq.

#[export] Instance FilesKept_preorder : PreOrder FilesKept.
Proof.
  split; [intros d id r H; by exists r|]. intros d1 d2 d3 H1 H2 id r H.
  destruct (H1 id r H) as (r' & H' & <-). exact (H2 id r H').
Qed.

Lemma keeps_FilesKept d d' : keeps db_files d d' → FilesKept d d'.
Proof. intros E id r H. exists r. split; [|done]. unfold row_at in *. simpl in *. by rewrite E. Qed.

(** ** From the groups to the server *)

Section run.
Context {codec : UuidCodec} {jwt : JwtLibrary} {bcrypt : Bcrypt} {unicode : UnicodeTables}.
Context {map_order : MapOrder} {pusher : PushNotifier} {gateway : PaymentGateway}.
Context {gateway_ok : GatewayOk} {loc : Location} {dates : RequiredDates}.

(** Every group of routes respects [R], the registry in the calls that [admits]
    admits. *)
Record Upheld_by (admits : RegistryCall → Prop) (R : relation DB) : Prop := {
  up_auth : ∀ h rq call, Stays R (serve h rq call);
  up_registry : ∀ c call, admits call → Stays R (serve_registry c call);
  up_billing : ∀ c call, Stays R (serve_billing c call);
  up_payment : ∀ cfg c call, Stays R (serve_payment cfg c call);
  up_callback : ∀ cfg c, Stays R (gatewayCallback cfg c);
  up_panel : ∀ s c call, Stays R (serve_panel s c call);
}.

Definition Upheld : relation DB → Prop := Upheld_by (λ _, True).

(** The requests [Upheld_by] is about. *)
Definition admitted (admits : RegistryCall → Prop) (call : ServerCall) : Prop :=
  match call with SRegistry call => admits call | _ => True end.

Lemma stays_guarded R `{!PreOrder R} check k :
  (∀ d, ∃ P, reads check d P) → (∀ u, Stays R (k u)) → Stays R (guarded check k).
Proof.
  intros Hc Hk. unfold guarded. apply stays_bind; [apply _| |].
  - apply stays_attempt. intros d. destruct (Hc d) as [P H].
    eapply holds_mono; [exact H|]. by intros r d' [-> _].
  - intros [u|e]; [apply Hk|apply stays_ret; apply _].
Qed.

Lemma reads_for_managers s header d :
  ∃ P, reads (u ← Authenticate s header; RequireRole [RoleManager] (Some u)) d P.
Proof.
  exists (λ _, True). eapply reads_bind; [apply reads_Authenticate|]. intros u _.
  eapply reads_mono; [apply reads_RequireRole|done].
Qed.

Lemma stays_Recovery {A} R (answer : AppError → A) (m : M A) : Stays R m → Stays R (Recovery answer m).
Proof.
  intros H d env w Hw. specialize (H d env w Hw). unfold Recovery. by destruct (m env w) as [[]].
Qed.

Section upheld.
Context (admits : RegistryCall → Prop) (R : relation DB) `{!PreOrder R} (HR : Upheld_by admits R).

Lemma upheld_request sv rq call : admitted admits call → Stays R (handle_request sv rq call).
Proof.
  intros Hcall. destruct HR as [H1 H2 H3 H4 H5 H6]. unfold handle_request. apply stays_Recovery.
  destruct (preflight _); [apply stays_ret; apply _|].
  destruct call; cbn [route]; try (apply stays_ret; apply _).
  - apply stays_bind; [apply _|apply H1|intros; apply stays_ret; apply _].
  - apply stays_guarded; [apply _|intros; apply reads_for_managers|intros; by apply H2].
  - apply stays_guarded; [apply _|intros d; eexists; apply reads_Authenticate|intros; apply H3].
  - apply stays_guarded; [apply _|intros d; eexists; apply reads_Authenticate|intros; apply H4].
  - apply stays_bind; [apply _|apply H5|intros; apply stays_ret; apply _].
  - apply stays_guarded; [apply _|intros d; eexists; apply reads_Authenticate|intros; apply H6].
Qed.

End upheld.

Lemma upheld_run R `{!PreOrder R} (HR : Upheld R) sv d d' : rtc (server_step sv) d d' → R d d'.
Proof.
  intros H. induction H as [d|d1 d2 d3 [rq call env w] _ IH]; [reflexivity|].
  etransitivity; [|exact IH]. apply stays_run, (upheld_request _ _ HR). by destruct call.
Qed.

(** ** The relations of the domains *)

(** An entry of the trail is nothing to a relation on other tables. *)
Lemma append_elsewhere {X} (π : DB → X) (R : relation DB) (HR : ∀ d d', keeps π d d' → R d d')
    (Hlog : ∀ l d, π (set_audit_logs l d) = π d) a b c i x y : Stays R (Audit_Append a b c i x y).
Proof. apply (stays_mono (keeps π)); [exact HR|]. by apply keeps_Audit_Append. Qed.

(** [elsewhere π HR Happ]: the groups that do not write what the relation is
    about; [HR] says that the relation is about [π], [Happ] that it admits an
    entry of the trail. *)
Ltac elsewhere π HR Happ :=
  intros;
  lazymatch goal with
  | |- Stays _ (serve _ _ _) => apply (family_auth π)
  | |- Stays _ (serve_registry _ _) => apply (family_registry π)
  | |- Stays _ (serve_billing _ _) => apply (family_billing π)
  | |- Stays _ (serve_payment _ _ _) => apply (family_payment π)
  | |- Stays _ (gatewayCallback _ _) => apply (family_callback π)
  | |- Stays _ (serve_panel _ _ _) => apply (family_panel π)
  end;
  lazymatch goal with
  | |- PreOrder _ => apply _
  | |- Indep _ _ => apply _
  | |- ∀ d d', keeps _ d d' → _ => exact HR
  | |- ∀ a b c i x y, Stays _ (Audit_Append _ _ _ _ _ _) => exact Happ
  | |- GatewayOk => apply _
  | |- _ => reflexivity
  end.

Lemma upheld_trail : Upheld TrailGrows.
Proof. split; elsewhere db_audit_logs keeps_TrailGrows trail_Append. Qed.

(** Billing and payments own the money: the ledger and the payments. *)
Definition money (d : DB) := (ledger d, db_payments d).

Section money.
Context (R : relation DB) `{!PreOrder R} (HR : ∀ d d', keeps money d d' → R d d').
Context (Hop : ∀ op, forward op → Stays R (run_system op)).

Lemma upheld_money : Upheld R.
Proof.
  assert (∀ a b c i x y, Stays R (Audit_Append a b c i x y)) as Happ
    by by apply (append_elsewhere money).
  split; first [elsewhere money HR Happ | intros].
  - by eapply through_billing, Hop.
  - by eapply through_payment, Hop.
  - by eapply through_callback, Hop.
Qed.
End money.

Lemma upheld_Kept : Upheld Kept.
Proof.
  apply upheld_money; [apply _| |].
  - intros d d' E. apply keeps_Kept. unfold keeps, money in *. congruence.
  - intros op _ d. apply system_kept.
Qed.

Lemma upheld_periods : Upheld PeriodsRun.
Proof.
  apply upheld_money; [apply _| |].
  - intros d d' E. apply keeps_PeriodsRun. unfold keeps, money, ledger in *. congruence.
  - intros op _ d. eapply holds_mono; [apply system_periods|]. intros r d' H id.
    by apply rtc_once, H.
Qed.

(** No request reverses a payment. *)
Definition BackedKept (d d' : DB) : Prop := Backed d → Backed d'.

#[export] Instance BackedKept_preorder : PreOrder BackedKept.
Proof. split; unfold BackedKept; [by intros d H|]. intros d1 d2 d3 H1 H2 H. auto. Qed.

Lemma keeps_BackedKept d d' : keeps money d d' → BackedKept d d'.
Proof.
  intros E [H1 H2]. unfold keeps, money, ledger in E. injection E as _ E _ _ E'. split.
  - intros p. unfold rows. simpl. rewrite E'. apply H1.
  - intros id inv. unfold row_at, backing, rows. simpl. rewrite E, E'. apply H2.
Qed.

Lemma upheld_backed : Upheld BackedKept.
Proof.
  apply upheld_money; [apply _|exact keeps_BackedKept|].
  intros op Hf d env w Hw B. exact (system_backed op d B Hf env w Hw).
Qed.

(** Accounts and the registry own the roles and the invites. *)
Section accounts.
Context {X : Type} (π : DB → X) (R : relation DB) `{!PreOrder R}.
Context (HR : ∀ d d', keeps π d d' → R d d') (Hlog : ∀ l d, π (set_audit_logs l d) = π d).
Context (Hserve : ∀ h rq call, Stays R (serve h rq call)).
Context (promotes : Prop) (Hop : ∀ op, (grants op → promotes) → Stays R (run_building op)).
Context `{!Indep π BillingPeriod, !Indep π BCostItem, !Indep π CostItemShare, !Indep π Invoice}.
Context `{!Indep π InvoiceItem, !Indep π InvoiceAdjustment, !Indep π Notification, !Indep π Payment}.
Context `{!Indep π MaintenanceRequest, !Indep π Expense, !Indep π Announcement}.
Context (Hbal : ∀ m d, π (set_balances m d) = π d).
Context (Hread : ∀ m d, π (set_announcement_reads m d) = π d).

Lemma upheld_accounts : Upheld_by (λ call, promoting call → promotes) R.
Proof.
  assert (∀ a b c i x y, Stays R (Audit_Append a b c i x y)) as Happ
    by by apply (append_elsewhere π).
  split; [apply Hserve|intros; by eapply (through_registry π R HR Happ promotes)|..].
  all: intros; first [apply (family_billing π)|apply (family_payment π)|apply (family_callback π)
    |apply (family_panel π)]; try apply _; done.
Qed.
End accounts.

Ltac accounts_tac := try apply _; try (intros; reflexivity).

(** A relation that every operation of the registry respects. *)
Lemma upheld_always R : Upheld_by (λ call, promoting call → True) R → Upheld R.
Proof. intros [H1 H2 H3 H4 H5 H6]. split; auto. Qed.

Lemma roles_by promotes : Upheld_by (λ call, promoting call → promotes) (RolesStep promotes).
Proof.
  apply (upheld_accounts role_tables); accounts_tac.
  - apply keeps_RolesStep.
  - apply roles_serve.
  - apply roles_building.
Qed.

Lemma upheld_roles : Upheld (RolesStep True).
Proof. apply upheld_always, roles_by. Qed.

Lemma upheld_invites : Upheld InvitesKept.
Proof.
  apply upheld_always, (upheld_accounts db_invite_codes); accounts_tac.
  - apply keeps_InvitesKept.
  - apply invites_serve.
  - intros. apply invites_building.
Qed.

Lemma keeps_ManagedKept d d' : keeps db_user_buildings d d' → ManagedKept d d'.
Proof. intros E b [u Hu]. exists u. unfold is_manager in *. by rewrite E. Qed.

Lemma upheld_managed : Upheld ManagedKept.
Proof.
  apply upheld_always, (upheld_accounts db_user_buildings); accounts_tac.
  - apply keeps_ManagedKept.
  - intros. elsewhere db_user_buildings keeps_ManagedKept
      (append_elsewhere db_user_buildings ManagedKept keeps_ManagedKept (λ _ _, eq_refl)).
  - intros. apply building_managed.
Qed.

Lemma keeps_HistoryKept d d' : keeps db_occupancies d d' → HistoryKept d d'.
Proof.
  intros E id o H. exists o. split; [|done]. unfold row_at in *. simpl in *. by rewrite E.
Qed.

Lemma keeps_OpenKept rel d d' : keeps db_occupancies d d' → OpenKept rel d d'.
Proof. intros E H i j a b. unfold row_at. simpl. rewrite E. apply H. Qed.

Lemma upheld_occupancies : Upheld HistoryKept.
Proof.
  apply upheld_always, (upheld_accounts db_occupancies); accounts_tac.
  - apply keeps_HistoryKept.
  - intros. elsewhere db_occupancies keeps_HistoryKept
      (append_elsewhere db_occupancies HistoryKept keeps_HistoryKept (λ _ _, eq_refl)).
  - intros. apply building_history.
Qed.

Lemma upheld_open rel : Upheld (OpenKept rel).
Proof.
  apply upheld_always, (upheld_accounts db_occupancies); accounts_tac.
  - apply keeps_OpenKept.
  - intros. elsewhere db_occupancies (keeps_OpenKept rel)
      (append_elsewhere db_occupancies (OpenKept rel) (keeps_OpenKept rel) (λ _ _, eq_refl)).
  - intros. apply building_open.
Qed.

(** The panels own the requests and the expenses. *)
Lemma upheld_requests : Upheld RequestsStep.
Proof.
  pose proof (append_elsewhere db_maintenance RequestsStep (keeps_HistoryStep Later RequestOk)
    (λ _ _, eq_refl)) as Happ.
  split; first [elsewhere db_maintenance (keeps_HistoryStep Later RequestOk) Happ|intros].
  apply steps_panel.
Qed.

Lemma upheld_expenses : Upheld ExpensesStep.
Proof.
  pose proof (append_elsewhere db_expenses ExpensesStep (keeps_HistoryStep Amended ExpenseOk)
    (λ _ _, eq_refl)) as Happ.
  split; first [elsewhere db_expenses (keeps_HistoryStep Amended ExpenseOk) Happ|intros].
  apply expenses_panel.
Qed.
(** No request of the server proper touches the registry of the stored files. *)
Lemma upheld_files : Upheld FilesKept.
Proof.
  pose proof (append_elsewhere db_files FilesKept keeps_FilesKept (λ _ _, eq_refl)) as Happ.
  split; elsewhere db_files keeps_FilesKept Happ.
Qed.
End run.
