(* ===== verification/ServerAnswers.v ===== *)
(** * The server answers

    No handler panics, the calculation and an oversized page of the resident's
    announcements apart. *)

From S2P Require Import Prelude Golang Calendar Errors Models Store Schema Logic Net Gateway Notification Crypto Token Invite Password AuthUser AuthHandlers BillingRepo BuildingRepo BuildingService Occupancy Calc Period PaymentRepo PaymentService Http Maintenance Expense Announcement Dashboard NotificationHandlers BuildingHandlers BillingHandlers PaymentHandlers Middleware Config BillingLemmas BuildingSpec AuthSpec AccountSpec PanelSpec PaymentSpec Server ServerSpec ServerRun.

Lemma res_bind_no_panic {A B} (r : Res A) (f : A → Res B) :
  (∀ s, r ≠ Panic s) → (∀ a s, f a ≠ Panic s) → ∀ s, r ≫= f ≠ Panic s.
Proof. intros Hr Hf s. destruct r as [a|e|y]; simpl; [apply Hf|done|by destruct (Hr y)]. Qed.

Lemma answers_deref {A} (a : A) : Answers (deref (Some a)).
Proof. apply answers_rule. intros d. by apply holds_ret. Qed.

Lemma answers_map_each {A B} (f : A → M B) l : (∀ a, Answers (f a)) → Answers (map_each f l).
Proof.
  intros H. induction l as [|x l IH]; simpl; [answers_tac|]. apply answers_bind; [done|]. intros y.
  apply answers_bind; [done|]. intros; answers_tac.
Qed.

Lemma answers_guard b e : Answers (guard_or b e).
Proof. apply answers_rule. intros d. by apply holds_guard. Qed.

Ltac no_panic :=
  intros;
  repeat first
    [ apply res_bind_no_panic; intros
    | progress case_match
    | progress unfold check_counts, require, scan_int64
    | done ].

Ltac request_step :=
  lazymatch goal with
  | |- Answers (mbind _ _) => apply answers_bind; [|intros]
  | |- Answers (for_each _ _) => apply answers_for_each; intros
  | |- Answers (map_each _ _) => apply answers_map_each; intros
  | |- Answers (Transaction _) => apply answers_Transaction
  | |- Answers (guard_or _ _) => apply answers_guard
  | |- Answers (deref (Some _)) => apply answers_deref
  | |- Answers (stmt _) => apply answers_stmt; cbv beta zeta; no_panic
  | |- Answers (lift (of_sum _)) => apply answers_of_sum
  | |- Answers (lift ?r) => let h := head_of r in apply answers_lift; unfold h; cbv zeta; no_panic
  | |- Answers (if ?b then _ else _) => destruct b
  | |- Answers (match ?x with _ => _ end) => destruct x
  | |- Answers (let _ := _ in _) => cbv zeta
  | |- Answers ?m => first [answers_step | open_call m]
  end.

(** ** The gateways *)

(** A gateway that does not panic. *)
Class GatewayTotal `{!PaymentGateway} : Prop := {
  start_answers : ∀ req, Answers (gw_Start req);
  verify_answers : ∀ authority amount, Answers (gw_Verify authority amount);
}.

Lemma answers_mock_switch : Answers mock_switch.
Proof. intros d env w Hw. unfold mock_switch. cbn. done. Qed.

Lemma Mock_total : @GatewayTotal MockGateway.
Proof.
  split; intros; simpl; [unfold mock_Start; repeat request_step|unfold mock_Verify].
  apply answers_bind; [apply answers_mock_switch|intros m]. repeat request_step.
Qed.

(** The endpoint of the provider answers or fails. *)
Lemma Zarinpal_total {api : ZarinpalAPI} z :
  (∀ tick url payload s, zp_post tick url payload ≠ Panic s) → @GatewayTotal (ZarinpalGateway z).
Proof.
  intros H. assert (∀ url payload, Answers (post url payload)) as Hpost by (intros url p d env w _ s; apply H).
  split; intros; simpl; [unfold zarinpal_Start|unfold zarinpal_Verify];
    (apply answers_bind; [apply Hpost|intros; repeat request_step]).
Qed.

(** ** The groups of routes *)

Section answers.
Context {codec : UuidCodec} {map_order : MapOrder} {pusher : PushNotifier}.
Context {gateway : PaymentGateway} {loc : Location} {dates : RequiredDates}.

Lemma answers_registry c call : Answers (serve_registry c call).
Proof. destruct call; unfold serve_registry; repeat request_step. Qed.

Lemma answers_recomputeBalance u : Answers (recomputeBalance u).
Proof.
  intros d. apply holds_recomputeBalance; done.
Qed.

#[local] Existing Instances PaymentBalances PaymentHook.

Lemma answers_recomputeBalances ids : Answers (recomputeBalances ids).
Proof.
  unfold recomputeBalances. cbn. apply answers_for_each. intros id. unfold RecomputeInvoice.
  repeat lazymatch goal with
  | |- Answers (recomputeBalance _) => apply answers_recomputeBalance
  | |- _ => request_step end.
Qed.

Ltac money_step :=
  lazymatch goal with
  | |- Answers (recomputeBalance _) => apply answers_recomputeBalance
  | |- Answers (recomputeBalances _) => apply answers_recomputeBalances
  | |- _ => request_step
  end.

Context {gateway_total : GatewayTotal}.

Ltac gateway_step :=
  lazymatch goal with
  | |- Answers (gw_Start _) => apply start_answers
  | |- Answers (gw_Verify _ _) => apply verify_answers
  | |- _ => money_step
  end.

(** [calculate] runs the engine, whose answer depends on the stored weights. *)
Lemma answers_billing c call : call ≠ BCalculate → Answers (serve_billing c call).
Proof. intros Hc. destruct call; unfold serve_billing; try done; repeat money_step. Qed.

Lemma answers_payment cfg c call : Answers (serve_payment cfg c call).
Proof. destruct call; unfold serve_payment; repeat gateway_step. Qed.

Lemma answers_callback cfg c : Answers (gatewayCallback cfg c).
Proof. repeat gateway_step. Qed.
End answers.

(** ** No error escapes *)

(** A call that reports no error to its caller. *)
Definition Settled {A} (m : M A) : Prop := ∀ env w e, (m env w).1 ≠ Err e.

Lemma settled_attempt {A} (m : M A) : Settled (attempt m).
Proof. intros env w e. unfold attempt. by destruct (m env w) as [[a|x|x] w']. Qed.

Lemma settled_ret {A} (a : A) : Settled (mret a).
Proof. done. Qed.

Lemma settled_bind {A B} (m : M A) (f : A → M B) :
  Settled m → (∀ a, Settled (f a)) → Settled (m ≫= f).
Proof.
  intros Hm Hf env w e. unfold mbind, M_bind. specialize (Hm env w).
  destruct (m env w) as [[a|x|x] w']; simpl in *; [apply Hf|by destruct (Hm x)|done].
Qed.

Ltac settled_step :=
  lazymatch goal with
  | |- Settled (attempt _) => apply settled_attempt
  | |- Settled (mret _) => apply settled_ret
  | |- Settled (ignore_err _) => unfold ignore_err
  | |- Settled (mbind _ _) => apply settled_bind; [|intros]
  | |- Settled (match ?x with _ => _ end) => destruct x
  | |- Settled (if ?b then _ else _) => destruct b
  | |- Settled (let _ := _ in _) => cbv zeta
  | |- Settled ?m => open_call m
  end.
Ltac settled_tac := repeat settled_step.

Section settled.
Context {codec : UuidCodec} {jwt : JwtLibrary} {bcrypt : Bcrypt} {unicode : UnicodeTables}.
Context {map_order : MapOrder} {pusher : PushNotifier} {gateway : PaymentGateway}.
Context {gateway_total : GatewayTotal} {loc : Location} {dates : RequiredDates}.

Lemma settled_guarded check k : (∀ u, Settled (k u)) → Settled (guarded check k).
Proof. intros Hk. unfold guarded. apply settled_bind; [apply settled_attempt|]. intros [u|e]; [apply Hk|done]. Qed.

Lemma settled_route sv rq call : Settled (route sv rq call).
Proof.
  destruct call as [[]|call|call|call| |call| |]; cbn [route];
    try (unfold authenticated, for_managers; apply settled_guarded; intros u; destruct call);
    cbn [serve_registry serve_billing serve_payment serve_panel]; settled_tac.
Qed.

(** The calls that may panic: the calculation, and a page of the resident's
    announcements beyond 2^56. *)
Definition steady (rq : ServerRequest) (call : ServerCall) : Prop :=
  call ≠ SBilling BCalculate ∧
  (call = SPanel PMyAnnouncements → page_param (call_as rq None) ≤ 2 ^ 56).

Lemma answers_guarded check k : Answers check → (∀ u, Answers (k u)) → Answers (guarded check k).
Proof.
  intros Hc Hk. unfold guarded. apply answers_bind; [by apply answers_attempt|].
  intros [u|e]; [apply Hk|answers_tac].
Qed.

Lemma answers_route sv rq call : steady rq call → Answers (route sv rq call).
Proof.
  intros [Hb Hp]. destruct call as [call|call|call|call| |call| |]; cbn [route]; try answers_tac;
    unfold authenticated, for_managers.
  - apply answers_serve.
  - apply answers_guarded; [|intros u; apply answers_registry].
    unfold RequireRole. apply answers_bind; [apply answers_Authenticate|intros; answers_tac].
  - apply answers_guarded; [apply answers_Authenticate|intros u; apply answers_billing]. congruence.
  - apply answers_guarded; [apply answers_Authenticate|intros u; apply answers_payment].
  - apply answers_bind; [apply answers_callback|intros; answers_tac].
  - apply answers_guarded; [apply answers_Authenticate|intros u; apply answers_panel].
    intros ->. by apply Hp.
Qed.
End settled.
