(* ===== verification/ProcessSpec.v ===== *)
(** * What a process does

    The start and the end of a process over the drivers' promises; what an event
    does to the tables, to the disks and to the phase. *)

From S2P Require Import Prelude Golang Calendar Errors Models Store Schema Logic Net Gateway Notification Crypto Token Invite Password AuthUser AuthHandlers PaymentService Http PaymentHandlers BillingHandlers Middleware Config Storage PanelSpec AccountSpec AuthSpec RequestSpec ExpenseSpec BuildingSpec Frozen Ledger System Server Process ServerSpec ServerRun ServerAnswers.

(** ** The drivers *)

Section drivers.
Context {drivers : PostgresDrivers} {drivers_ok : DriversOk}.

(** The schema moves forward, never beyond the latest version. *)
Definition Forward (s s' : PgState) : Prop :=
  (pg_Version s ≤ pg_Version s')%nat ∧ (pg_Version s ≤ pg_Latest → pg_Version s' ≤ pg_Latest)%nat.

#[export] Instance Forward_preorder : PreOrder Forward.
Proof. split; [by intros s|]. intros s1 s2 s3 [H1 G1] [H2 G2]. split; [lia|auto]. Qed.

Lemma forward_same s s' : pg_Version s' = pg_Version s → Forward s s'.
Proof. unfold Forward. intros ->. done. Qed.

Lemma opened_closed (h : nat) (X : gset nat) : h ∉ X → ({[h]} ∪ X) ∖ {[h]} = X.
Proof. set_solver. Qed.

Lemma Migrate_spec dsn dir s :
  let '(err, s') := Migrate dsn dir s in
  pg_Open s' = pg_Open s ∧ Forward s s' ∧ (err = None → pg_Version s' = pg_Latest).
Proof.
  unfold Migrate. pose proof (sql_Open_ok "pgx" dsn s) as Hopen.
  destruct (sql_Open _ _ s) as [[h|e] s1]; [|by destruct Hopen as [-> Hv]; split; [|split; [apply forward_same|]]].
  destruct Hopen as (Hfresh & Ho1 & Hv1).
  pose proof (WithInstance_ok h s1) as [Ho2 Hv2]. destruct (migratepg_WithInstance h s1) as [[e|] s2]; cbn in *.
  { pose proof (sql_Close_ok h s2) as [-> Hv]. rewrite Ho2, Ho1, opened_closed by done.
    split; [done|]. split; [apply forward_same; congruence|done]. }
  pose proof (NewWithDatabaseInstance_ok ("file://" +:+ dir) h s2) as [Ho3 Hv3].
  destruct (migrate_NewWithDatabaseInstance _ h s2) as [[e|] s3]; cbn in *.
  { pose proof (sql_Close_ok h s3) as [-> Hv]. rewrite Ho3, Ho2, Ho1, opened_closed by done.
    split; [done|]. split; [apply forward_same; congruence|done]. }
  pose proof (Up_ok h s3) as (Ho4 & Hup & Hle & Hlatest). destruct (migrate_Up h s3) as [err s4]; cbn in *.
  pose proof (migrate_Close_ok h s4) as [-> Hv]. rewrite Ho4, Ho3, Ho2, Ho1, opened_closed by done.
  split; [done|]. unfold Forward. rewrite Hv, <- Hv1, <- Hv2, <- Hv3. split; [done|].
  destruct err as [e|]; [|done]. by destruct (errors_Is e migrate_ErrNoChange); [intros _; apply Hlatest|].
Qed.

Lemma Connect_spec dsn s :
  match Connect dsn s with
  | (inl pool, s') => pool ∉ pg_Open s ∧ pg_Open s' = {[pool]} ∪ pg_Open s ∧ pg_Version s' = pg_Version s
  | (inr _, s') => pg_Version s' = pg_Version s
  end.
Proof.
  unfold Connect. pose proof (gorm_Open_ok dsn s) as Hopen.
  destruct (gorm_Open dsn s) as [[h|e] s1]; [|by destruct Hopen].
  destruct Hopen as (Hfresh & Ho1 & Hv1).
  pose proof (gorm_DB_ok h s1) as [Ho2 Hv2]. destruct (gorm_DB h s1) as [[e|] s2]; cbn in *; [congruence|].
  pose proof (sql_Ping_ok h s2) as [Ho3 Hv3]. destruct (sql_Ping h s2) as [[e|] s3]; cbn in *; [congruence|].
  split_and!; [done|congruence..].
Qed.

Lemma Load_no_panic os x : Load os ≠ Panic x.
Proof. unfold Load. repeat case_match; done. Qed.

(** A server listens with a configuration that was loaded, a pool of its own and,
    when it is told to migrate, the latest schema. *)
Lemma server_main_spec os s :
  match server_main os s with
  | (Listening cfg pool, s') => Load os = Ok cfg ∧ pool ∉ pg_Open s ∧
      pg_Open s' = {[pool]} ∪ pg_Open s ∧ Forward s s' ∧
      (DB_AutoMigrate cfg = true → pg_Version s' = pg_Latest)
  | (Exit1 _, s') => Forward s s'
  | (Crashed _, _) => False
  end.
Proof.
  unfold server_main. pose proof (Load_no_panic os) as Hload.
  destruct (Load os) as [cfg|e|x]; [|reflexivity|by destruct (Hload x)].
  pose proof (Connect_spec (DB_DSN cfg) s) as Hc.
  destruct (Connect (DB_DSN cfg) s) as [[pool|e] s1]; [|by apply forward_same].
  destruct Hc as (Hfresh & Ho1 & Hv1).
  pose proof (gorm_DB_ok pool s1) as [Ho2 Hv2]. destruct (gorm_DB pool s1) as [[e|] s2]; cbn in *.
  { apply forward_same. congruence. }
  assert (Forward s s2) as Hf by (apply forward_same; congruence).
  destruct (DB_AutoMigrate cfg) eqn:Eauto; [|split_and!; [done|done|congruence|done|congruence]].
  pose proof (Migrate_spec (DB_DSN cfg) "migrations" s2) as Hm.
  destruct (Migrate _ _ s2) as [[e|] s3]; destruct Hm as (Ho3 & Hf3 & Hlatest); [by transitivity s2|].
  split_and!; [done|done|congruence|by transitivity s2|by intros _; apply Hlatest].
Qed.

Lemma migrate_main_spec os s :
  pg_Open (migrate_main os s).2 = pg_Open s ∧ Forward s (migrate_main os s).2.
Proof.
  unfold migrate_main. destruct (Load os) as [cfg|e|x]; [|done..].
  pose proof (Migrate_spec (DB_DSN cfg) "migrations" s) as Hm. destruct (Migrate _ _ s) as [err s'].
  by destruct Hm as (? & ? & _).
Qed.
End drivers.

(** ** The stored files *)

Section files.
Context {codec : UuidCodec} {jwt : JwtLibrary} {sniffer : ContentSniffer}.

(** Every table but the registry of the files. *)
Definition but_files (d : DB) : DB := set_files ∅ d.

Section stays.
Context (R : relation DB) `{!PreOrder R} (Hcreate : ∀ f : File, Stays R (Create f)).

Lemma stays_Save_file store faults r disk : Stays R (Save_file store faults r disk).
Proof.
  unfold Save_file. destruct (io_ReadFull 512 r) as [head readErr].
  destruct (match readErr with Some e => _ | None => _ end); [apply stays_ret; apply _|].
  cbv zeta. destruct (negb _); [apply stays_ret; apply _|].
  destruct (df_MkdirAll faults); [apply stays_ret; apply _|].
  apply stays_bind; [apply _|apply stays_uuid; apply _|intros; apply stays_ret; apply _].
Qed.

Lemma stays_handle_files sv store faults rq call disk :
  Stays R (handle_files sv store faults rq call disk).
Proof.
  unfold handle_files. apply stays_Recovery. destruct (preflight _); [apply stays_ret; apply _|].
  unfold route_files. apply stays_bind; [apply _| |].
  - apply stays_attempt. intros d. eapply holds_mono; [apply reads_Authenticate|]. by intros r d' [-> _].
  - intros [u|e]; [|apply stays_ret; apply _]. destruct call as [form|]; cbn [serve_files].
    + apply stays_bind; [apply _| |intros [rep disk']; apply stays_ret; apply _].
      unfold uploadHandler. destruct form as [| |r]; [apply stays_ret; apply _..|].
      apply stays_bind; [apply _|apply stays_Save_file|]. intros [[f|e] disk'];
        [|apply stays_ret; apply _].
      apply stays_bind; [apply _|apply stays_attempt, Hcreate|intros; apply stays_ret; apply _].
    + apply stays_bind; [apply _| |intros; apply stays_ret; apply _].
      unfold downloadHandler. cbv zeta. destruct (uuid_Parse _); [|apply stays_ret; apply _].
      apply stays_bind; [apply _|apply stays_attempt, stays_First_id; apply _|intros; apply stays_ret; apply _].
Qed.
End stays.

(** A relation on the other tables. *)
Lemma files_elsewhere R `{!PreOrder R} : (∀ d d', keeps but_files d d' → R d d') →
  ∀ sv store faults rq call disk, Stays R (handle_files sv store faults rq call disk).
Proof.
  intros HR. intros. apply stays_handle_files; [apply _|]. intros f.
  apply (stays_mono (keeps but_files)); [exact HR|apply keeps_Create; apply _].
Qed.

(** The registry only grows. *)
Lemma files_kept sv store faults rq call disk :
  Stays FilesKept (handle_files sv store faults rq call disk).
Proof.
  apply stays_handle_files; [apply _|]. intros f. apply stays_Create; [apply _..|].
  intros env now r' d _ Hfree Ha id r Hr. injection Ha as <-. exists r. split; [|done].
  rewrite row_at_put. case_decide as E; [|done]. subst id. apply row_at_Some in Hr as [Hr _]. simpl in *. congruence.
Qed.

(** What happens to the disk. *)
Lemma handle_files_disk sv store faults rq call disk env w rep disk' :
  (handle_files sv store faults rq call disk env w).1 = Ok (rep, disk') →
  disk' = disk ∨ ∃ r w' out form, call = FUpload form ∧
    (Save_file store faults r disk env w').1 = Ok (out, disk').
Proof.
  unfold handle_files, Recovery. destruct (preflight _); [by intros [= _ <-]; left|].
  unfold route_files, mbind, M_bind, mret, M_ret, attempt.
  destruct (Authenticate _ _ env w) as [[u|e|x] w1]; [|by intros [= _ <-]; left..].
  destruct call as [form|]; cbn [serve_files]; unfold mbind, M_bind, mret, M_ret.
  2:{ destruct (downloadHandler _ disk env w1) as [[r|e|x] w2]; by intros [= _ <-]; left. }
  unfold uploadHandler. destruct form as [| |r]; unfold mbind, M_bind, mret, M_ret;
    [by intros [= _ <-]; left..|].
  destruct (Save_file store faults r disk env w1) as [[[[f|e] disk1]|e|x] w2] eqn:Es; [| |by intros [=]|by intros [= _ <-]; left].
  - unfold attempt. destruct (Create _ env w2) as [[y|e|x] w3]; [| |by intros [= _ <-]; left];
      intros [= _ <-]; right; exists r, w1, (inl f), (FileOf r); by rewrite Es.
  - intros [= _ <-]; right; exists r, w1, (inr e), (FileOf r); by rewrite Es.
Qed.

(** An upload is answered by its handler, for some caller. *)
Lemma handle_files_upload sv store faults rq form disk env w rep disk' w' :
  handle_files sv store faults rq (FUpload form) disk env w = (Ok (Uploaded rep, disk'), w') →
  ∃ c w0, uploadHandler store faults c form disk env w0 = (Ok (rep, disk'), w').
Proof.
  unfold handle_files, Recovery. destruct (preflight _); [by intros [=]|].
  unfold route_files, mbind, M_bind, mret, M_ret, attempt.
  destruct (Authenticate _ _ env w) as [[u|e|x] w1]; [|by intros [=]..].
  cbn [serve_files]. unfold mbind, M_bind, mret, M_ret.
  destruct (uploadHandler _ _ _ form disk env w1) as [[[rep1 disk1]|e|x] w2] eqn:E; [|by intros [=]..].
  intros [= <- <- <-]. by exists (call_as rq (Some u)), w1.
Qed.

(** A download is refused for want of a live account, or answered by its handler
    on the tables as they were. *)
Lemma handle_files_download sv store faults rq disk env w :
  preflight (sr_Method rq) = false →
  (∃ e, (handle_files sv store faults rq FDownload disk env w).1 = Ok (FileRefused e, disk) ∧
     ae_Status e = 401) ∨
  ∃ c w0, hc_Param c = sr_Param rq ∧ w_db w0 = w_db w ∧
    (handle_files sv store faults rq FDownload disk env w).1 =
    match (downloadHandler c disk env w0).1 with
    | Ok rep => Ok (Downloaded rep, disk)
    | Err e => Err e
    | Panic _ => Ok (FileRefused ErrInternal, disk)
    end.
Proof.
  intros Hm. unfold handle_files, Recovery. rewrite Hm.
  unfold route_files, mbind, M_bind, mret, M_ret, attempt.
  pose proof (reads_Authenticate (h_Tokens (sv_Auth sv)) (rq_Authorization (sr_Headers rq)) (w_db w) env w eq_refl) as [Hdb _].
  pose proof (answers_Authenticate (h_Tokens (sv_Auth sv)) (rq_Authorization (sr_Headers rq)) (w_db w) env w eq_refl) as Hans.
  destruct (Authenticate _ _ env w) as [[u|e|x] w1] eqn:E; [|left|by destruct (Hans x)].
  - right. exists (call_as rq (Some u)), w1. split; [done|]. split; [done|].
    cbn [serve_files]. unfold mbind, M_bind, mret, M_ret.
    by destruct (downloadHandler _ disk env w1) as [[r|e|x] w2].
  - eexists. split; [done|]. by eapply Authenticate_401.
Qed.
End files.

(** ** The machine *)

Definition m_DB {drivers : PostgresDrivers} (m : Machine) : DB := w_db (m_World m).

Section machine.
Context {codec : UuidCodec} {jwt : JwtLibrary} {bcrypt : Bcrypt} {unicode : UnicodeTables}.
Context {map_order : MapOrder} {api : ZarinpalAPI} {loc : Location} {dates : RequiredDates}.
Context {tables : CaseTables} {sniffer : ContentSniffer}.
Context {drivers : PostgresDrivers} {drivers_ok : DriversOk}.

#[local] Existing Instance NoopNotifier.

Lemma gateway_of_ok cfg : @GatewayOk (gateway_of cfg).
Proof. unfold gateway_of. case_bool_decide; [apply Zarinpal_ok|apply Mock_ok]. Qed.

Lemma stays_NewRouter R `{!PreOrder R} {A} (status : A → Z) origins method hs (m : M A) :
  Stays R m → Stays R (NewRouter status origins method hs m).
Proof.
  intros H. unfold NewRouter. apply stays_bind; [apply _| |].
  - unfold RequestID. case_bool_decide; [|apply stays_ret; apply _].
    apply stays_bind; [apply _|apply stays_uuid; apply _|intros; apply stays_ret; apply _].
  - intros id. apply stays_bind; [apply _|exact H|intros; apply stays_ret; apply _].
Qed.

(** An event serves a request, serves a file, or leaves the tables and the disks. *)
Lemma step_cases m ev m' : step m ev = Some m' →
  match ev with
  | EvRequest hs rq call env => ∃ cfg pool, m_Phase m = Up cfg pool ∧
      m' = served cfg hs rq call env (Up cfg pool) m
  | EvKill hs rq call env n => ∃ cfg pool, m_Phase m = Up cfg pool ∧
      m' = served cfg hs rq call (dying n env) (Down None) m
  | EvFile hs rq call faults env => ∃ cfg pool, m_Phase m = Up cfg pool ∧
      m' = served_files cfg hs rq call faults env (Up cfg pool) m
  | EvKillFile hs rq call faults env n => ∃ cfg pool, m_Phase m = Up cfg pool ∧
      m' = served_files cfg hs rq call faults (dying n env) (Down None) m
  | _ => m_DB m' = m_DB m ∧ m_Disks m' = m_Disks m
  end.
Proof.
  unfold step. destruct ev; destruct (m_Phase m) as [code|cfg pool]; try done;
    first [intros [= <-]; by exists cfg, pool | by intros [= <-] | idtac].
  destruct (server_main os (m_Pg m)) as [started pg]. by intros [= <-].
Qed.

(** The events whose request [Upheld_by] is about. *)
Definition event_admitted (admits : RegistryCall → Prop) (ev : Event) : Prop :=
  match ev with
  | EvRequest _ _ call _ | EvKill _ _ call _ _ => admitted admits call
  | _ => True
  end.

Lemma all_admitted ev : event_admitted (λ _, True) ev.
Proof. destruct ev as [| |hs rq call env|hs rq call env n| | | |]; try done; by destruct call. Qed.

(** What every group of routes and the routes of the files respect holds between
    the tables before and after any admitted events. *)
Section tables.
Context (admits : RegistryCall → Prop) (R : relation DB) `{!PreOrder R}.
Context (Hup : ∀ (gateway : PaymentGateway) (ok : GatewayOk), Upheld_by admits R).
Context (Hfiles : ∀ sv store faults rq call disk, Stays R (handle_files sv store faults rq call disk)).

Lemma served_tables cfg hs rq call env phase m : admitted admits call →
  R (m_DB m) (m_DB (served cfg hs rq call env phase m)).
Proof.
  intros Hcall. unfold m_DB, served. cbn [m_World]. apply @stays_run. unfold respond.
  apply stays_NewRouter; [apply _|]. by apply (upheld_request admits); [apply _|apply Hup, gateway_of_ok|].
Qed.

Lemma served_files_tables cfg hs rq call faults env phase m :
  R (m_DB m) (m_DB (served_files cfg hs rq call faults env phase m)).
Proof.
  unfold m_DB, served_files. cbv zeta.
  assert (Stays R (respond_files cfg hs rq call faults (disk_at (Storage_Path cfg) (m_Disks m)))) as H.
  { unfold respond_files. apply stays_NewRouter; [apply _|]. apply Hfiles. }
  pose proof (stays_run R _ env (m_World m)) as Hrun. by destruct (respond_files _ _ _ _ _ _ env _).
Qed.

Lemma step_tables m ev m' : event_admitted admits ev → step m ev = Some m' → R (m_DB m) (m_DB m').
Proof.
  intros Hev H%step_cases. destruct ev; first [destruct H as [-> _]; reflexivity|destruct H as (cfg & pool & _ & ->)];
    first [by apply served_tables|apply served_files_tables].
Qed.

Lemma steps_tables (P : Machine → Event → Prop) m m' : (∀ m ev, P m ev → event_admitted admits ev) →
  steps P m m' → R (m_DB m) (m_DB m').
Proof.
  intros HP. induction 1 as [m|m1 m2 m3 (ev & Hev & Hstep) _ IH]; [reflexivity|].
  etransitivity; [eapply step_tables; eauto|exact IH].
Qed.
End tables.

(** A relation that is nothing to the registry of the files. *)
Lemma steps_elsewhere (admits : RegistryCall → Prop) (R : relation DB) `{!PreOrder R}
    (P : Machine → Event → Prop) m m' :
  (∀ (gateway : PaymentGateway) (ok : GatewayOk), Upheld_by admits R) →
  (∀ m ev, P m ev → event_admitted admits ev) →
  (∀ d d', keeps but_files d d' → R d d') → steps P m m' → R (m_DB m) (m_DB m').
Proof. intros Hup HP HR. by apply (steps_tables admits R Hup); [apply files_elsewhere|]. Qed.

Lemma steps_files P m m' : steps P m m' → FilesKept (m_DB m) (m_DB m').
Proof.
  apply (steps_tables (λ _, True)); [apply _|intros; apply upheld_files|apply files_kept|].
  intros; apply all_admitted.
Qed.

(** ** The disks *)

(** No upload draws an id that already names a file: identifiers do not repeat. *)
Definition fresh_ids (m : Machine) (ev : Event) : Prop :=
  match ev with
  | EvFile _ _ (FUpload _) _ env | EvKillFile _ _ (FUpload _) _ env _ => ∀ path n ext,
      disk_at path (m_Disks m) !! (uuid_String (env_uuid env n) +:+ ext) = None
  | _ => True
  end.

Lemma disk_at_insert path path' disk disks :
  disk_at path' (<[path := disk]> disks) = if decide (path = path') then disk else disk_at path' disks.
Proof. unfold disk_at. case_decide; [subst; by rewrite lookup_insert_eq|by rewrite lookup_insert_ne]. Qed.

(** The stack runs the call after it has drawn an id at most. *)
Lemma NewRouter_run {A} (status : A → Z) origins method hs (m : M A) env w : ∃ id w0,
  w_db w0 = w_db w ∧ NewRouter status origins method hs m env w =
    let '(r, w') := m env w0 in
    (a ← r; Ok (MkHttpResponse id (CORS origins (sh_Origin hs)) a
                  (MkAccessLine (log_level (status a)) id method (status a))), w').
Proof.
  unfold NewRouter, RequestID, uuid_New.
  case_bool_decide; [exists (uuid_String (env_uuid env (w_tick w))), (next_tick w)|exists (sh_RequestID hs), w];
    (split; [done|]); unfold mbind, M_bind, mret, M_ret; by destruct (m env _) as [[a|e|x] w'].
Qed.

Lemma NewRouter_answer {A} (status : A → Z) origins method hs (m : M A) env w resp w' :
  NewRouter status origins method hs m env w = (Ok resp, w') → ∃ w0,
    w_db w0 = w_db w ∧ m env w0 = (Ok (hr_Answer resp), w').
Proof.
  destruct (NewRouter_run status origins method hs m env w) as (id & w0 & Hdb & ->).
  destruct (m env w0) as [[a|e|x] w1] eqn:E; [|done..]. intros [= <- <-]. by exists w0.
Qed.

Lemma served_files_disk cfg hs rq call faults env phase m path name content :
  fresh_ids m (EvFile hs rq call faults env) →
  disk_at path (m_Disks m) !! name = Some content →
  disk_at path (m_Disks (served_files cfg hs rq call faults env phase m)) !! name = Some content.
Proof.
  intros Hfresh Hname. unfold served_files. cbv zeta.
  destruct (respond_files _ _ _ _ _ _ _ _) as [[resp|e|x] w'] eqn:E; [|done..]. cbn [m_Disks].
  rewrite disk_at_insert. case_decide as Ep; [|done].
  apply NewRouter_answer in E as (w0 & _ & E). apply (f_equal fst) in E.
  destruct (hr_Answer resp) as [rep disk']; cbn.
  apply handle_files_disk in E as [->|(r & wq & out & form & -> & E)]; [by rewrite Ep|].
  rewrite <- Ep in Hname. rewrite (Save_file_others _ _ _ _ _ _ _ _ name E); [done|].
  intros n ext ->. by rewrite Hfresh in Hname.
Qed.

Lemma step_disk m ev m' path name content : step m ev = Some m' → fresh_ids m ev →
  disk_at path (m_Disks m) !! name = Some content → disk_at path (m_Disks m') !! name = Some content.
Proof.
  intros H%step_cases Hfresh Hname. destruct ev;
    first [by destruct H as [_ ->]|destruct H as (cfg & pool & _ & ->)]; try done;
    by apply served_files_disk.
Qed.

Lemma steps_disk m m' path name content : steps fresh_ids m m' →
  disk_at path (m_Disks m) !! name = Some content → disk_at path (m_Disks m') !! name = Some content.
Proof.
  induction 1 as [m|m1 m2 m3 (ev & Hfresh & Hstep) _ IH]; [done|]. intros H.
  apply IH. by eapply step_disk.
Qed.

(** An upload answered with 201 leaves its row and its bytes. *)
Lemma stored_by_step m0 m1 cfg pool hs rq r faults env resp id url :
  m_Phase m0 = Up cfg pool →
  (respond_files cfg hs rq (FUpload (FileOf r)) faults (disk_at (Storage_Path cfg) (m_Disks m0)) env
     (m_World m0)).1 = Ok resp →
  (hr_Answer resp).1 = Uploaded (ReplyJSON 201 (id, url)) →
  step m0 (EvFile hs rq (FUpload (FileOf r)) faults env) = Some m1 →
  ∃ f : File, row_at (m_DB m1) id = Some f ∧
    disk_at (Storage_Path cfg) (m_Disks m1) !! fl_Path f = Some (rd_Data r) ∧
    fl_ContentType f = http_DetectContentType (take_bytes 512 (rd_Data r)) ∧
    allowed (fl_ContentType f) = true ∧ rd_End r = io_EOF.
Proof.
  intros Hup Hupload H201 (cfg' & pool' & Hup' & ->)%step_cases. rewrite Hup in Hup'.
  injection Hup' as <- <-. unfold m_DB, served_files. cbv zeta.
  destruct (respond_files _ _ _ _ _ _ env (m_World m0)) as [r0 w1] eqn:E. cbn in Hupload |- *. subst r0.
  rewrite disk_at_insert, decide_True by done.
  apply NewRouter_answer in E as (w0 & _ & E). destruct (hr_Answer resp) as [rep disk1]. cbn in H201 |- *. subst rep.
  apply handle_files_upload in E as (c & w2 & E).
  apply upload_stored in E as (f & ? & ? & Ht & ? & ?); [|by vm_compute].
  exists f. by rewrite Ht.
Qed.

(** A row and its bytes are served, to whoever has a live account. *)
Lemma served_from m cfg hs rq faults env id (f : File) content :
  uuid_Parse (sr_Param rq "id") = Some id → preflight (sr_Method rq) = false →
  (∀ t, env_fault env t = None) → row_at (m_DB m) id = Some f →
  disk_at (Storage_Path cfg) (m_Disks m) !! fl_Path f = Some content →
  ∃ resp, (respond_files cfg hs rq FDownload faults (disk_at (Storage_Path cfg) (m_Disks m)) env
      (m_World m)).1 = Ok resp ∧
    (file_status (hr_Answer resp).1 = 401 ∨
     (hr_Answer resp).1 = Downloaded (ReplyJSON 200 (FileServed (fl_ContentType f) content))).
Proof.
  intros Hid Hmethod Hfaultless Hrow Hdisk. unfold respond_files.
  destruct (NewRouter_run (file_status ∘ fst) (CORS_AllowedOrigins cfg) (sr_Method rq) hs
    (handle_files (server_of cfg) (NewStorage (Storage_Path cfg) 0) faults rq FDownload
       (disk_at (Storage_Path cfg) (m_Disks m))) env (m_World m)) as (rid & w0 & Hdb & ->).
  pose proof (handle_files_download (server_of cfg) (NewStorage (Storage_Path cfg) 0) faults rq
    (disk_at (Storage_Path cfg) (m_Disks m)) env w0 Hmethod) as H.
  destruct (handle_files _ _ _ _ _ _ env w0) as [res w1]. cbn [fst] in H.
  destruct H as [(e & -> & He)|(c & w2 & Hc & Hdb2 & ->)].
  - eexists. split; [done|]. by left.
  - rewrite (download_serves c id f content); [|by rewrite Hc|by rewrite Hdb2, Hdb|done|done].
    eexists. split; [done|]. by right.
Qed.

(** ** Answers *)

Lemma settled_route_files sv store faults rq call disk : Settled (route_files sv store faults rq call disk).
Proof.
  unfold route_files. apply settled_bind; [apply settled_attempt|]. intros [u|e]; [|apply settled_ret].
  destruct call as [[| |r]|]; cbn [serve_files uploadHandler]; by settled_tac.
Qed.

Lemma answers_route_files sv store faults rq call disk : Answers (route_files sv store faults rq call disk).
Proof.
  unfold route_files. apply answers_bind; [apply answers_attempt, answers_Authenticate|].
  intros [u|e]; [|by repeat request_step].
  destruct call as [[| |r]|]; cbn [serve_files uploadHandler]; repeat request_step.
Qed.

(** A gateway that was configured answers if the provider's endpoint does. *)
Lemma gateway_of_total cfg :
  (∀ tick url payload s, zp_post tick url payload ≠ Panic s) → @GatewayTotal (gateway_of cfg).
Proof. intros H. unfold gateway_of. case_bool_decide; [by apply Zarinpal_total|apply Mock_total]. Qed.

(** A call that only panics is answered through the stack and its [Recovery]. *)
Lemma NewRouter_Ok {A} (status : A → Z) origins method hs (m : M A) env w :
  (∀ w, ∃ a, (m env w).1 = Ok a) →
  ∃ resp, (NewRouter status origins method hs m env w).1 = Ok resp ∧
    al_Status (hr_Line resp) = status (hr_Answer resp) ∧ al_RequestID (hr_Line resp) = hr_RequestID resp ∧
    (sh_RequestID hs ≠ "" → hr_RequestID resp = sh_RequestID hs).
Proof.
  intros Hm. unfold NewRouter, RequestID, uuid_New. case_bool_decide; unfold mbind, M_bind, mret, M_ret.
  - destruct (Hm (next_tick w)) as [a Ha]. destruct (m env (next_tick w)) as [r w']; cbn in Ha; subst r.
    by eexists.
  - destruct (Hm w) as [a Ha]. destruct (m env w) as [r w']; cbn in Ha; subst r. by eexists.
Qed.

Lemma Recovery_Ok {A} (answer : AppError → A) (m : M A) env w :
  Settled m → ∃ a, (Recovery answer m env w).1 = Ok a.
Proof.
  intros H. unfold Recovery. specialize (H env w). destruct (m env w) as [[a|e|x] w']; [by exists a|by destruct (H e)|by eexists].
Qed.

(** ** The phase *)

(** What holds of a process that is up. *)
Definition Running (m : Machine) : Prop :=
  match m_Phase m with
  | Up cfg pool => (∃ os, Load os = Ok cfg) ∧ pool ∈ pg_Open (m_Pg m) ∧
      (DB_AutoMigrate cfg = true → pg_Version (m_Pg m) = pg_Latest)
  | Down _ => True
  end.

Lemma step_Running m ev m' : step m ev = Some m' → Running m → Running m'.
Proof.
  unfold Running, step. destruct ev as [os|os| | | | | |]; destruct (m_Phase m) as [code|cfg pool] eqn:Ephase; try done;
    try (intros [= <-]; cbn; by rewrite ?Ephase).
  - pose proof (server_main_spec os (m_Pg m)) as H.
    destruct (server_main os (m_Pg m)) as [[log|cfg pool|x] pg]; intros [= <-]; cbn; [done| |done].
    destruct H as (Hload & _ & -> & _ & Hlatest). intros _. split; [by exists os|]. split; [set_solver|done].
  - intros [= <-]. cbn. pose proof (migrate_main_spec os (m_Pg m)) as (-> & Hlow & Hhigh).
    intros (Hload & Hpool & Hlatest). split; [done|]. split; [done|]. intros E. specialize (Hlatest E). lia.
  - intros [= <-]. unfold served_files. cbv zeta. by destruct (respond_files _ _ _ _ _ _ _ _).
  - intros [= <-]. unfold served_files. cbv zeta. by destruct (respond_files _ _ _ _ _ _ _ _).
Qed.

Lemma steps_Running P m m' : steps P m m' → Running m → Running m'.
Proof. induction 1 as [m|m1 m2 m3 (ev & _ & Hstep) _ IH]; [done|]. intros H. eapply IH, step_Running; eauto. Qed.
End machine.
