(* ===== verification/ServerTheorems.v ===== *)
(** * Theorems on the server

    The promises of the domains together, over any sequence of requests; what
    stands in front of the routes; and that every request is answered. *)

From Stdlib Require Import SpecFloat.
From S2P Require Import Prelude Golang Calendar Errors Models Store Schema Logic Net Gateway Notification Crypto Token Invite Password AuthUser AuthHandlers BillingRepo BuildingRepo BuildingService Occupancy Calc Period PaymentRepo PaymentService Http Maintenance Expense Announcement Dashboard NotificationHandlers BuildingHandlers BillingHandlers PaymentHandlers Middleware Config BillingLemmas BuildingSpec AuthSpec AccountSpec PanelSpec RequestSpec ExpenseSpec Frozen PaymentSpec BillingSpec System Ledger Server ServerSpec ServerRun ServerAnswers Sample AuthTheorems PanelTheorems.

(** ** The state of a server *)

(** What every request preserves. *)
Record StateOk (d : DB) : Prop := {
  st_admin : OneAdmin d;
  st_backed : Backed d;
  st_tenant : OneOpen RelTenant d;
  st_requests : Fine_rows RequestOk d;
  st_expenses : Fine_rows ExpenseOk d;
}.

Lemma state_ok_empty : StateOk empty_db.
Proof.
  assert (∀ T (HT : Table T) id, (tbl empty_db : gmap UUID T) = ∅ → row_at empty_db id = None) as Hnone.
  { intros T HT id E. unfold row_at. by rewrite E. }
  split.
  - exact empty_one_admin.
  - split; [intros p Hp%elem_of_rows; by rewrite Hnone in Hp|intros id inv; by rewrite Hnone].
  - intros i j a b. by rewrite Hnone.
  - intros id r. by rewrite Hnone.
  - intros id r. by rewrite Hnone.
Qed.

Lemma state_ok_moves d d' :
  RolesStep True d d' → BackedKept d d' → OpenKept RelTenant d d' → RequestsStep d d' → ExpensesStep d d' →
  StateOk d → StateOk d'.
Proof.
  intros Hr Hb Ho [_ Hm] [_ He] [A B C D E]. split; [by apply Hr|by apply Hb|by apply Ho|by apply Hm|by apply He].
Qed.

(** What is kept of the state before a request, whatever follows. *)
Record ServerKept (d d' : DB) : Prop := {
  sk_trail : TrailGrows d d';
  sk_issued : Kept d d';
  sk_periods : PeriodsRun d d';
  sk_roles : RolesStep True d d';
  sk_invites : InvitesKept d d';
  sk_managed : ManagedKept d d';
  sk_occupancies : HistoryKept d d';
  sk_requests : Kept_rows Later d d';
  sk_expenses : Kept_rows Amended d d';
}.

Section server.
Context {codec : UuidCodec} {jwt : JwtLibrary} {bcrypt : Bcrypt} {unicode : UnicodeTables}.
Context {map_order : MapOrder} {pusher : PushNotifier} {gateway : PaymentGateway}.
Context {gateway_ok : GatewayOk} {loc : Location} {dates : RequiredDates}.

(** Over any sequence of requests to the server, whatever their routes,
    payloads and callers, and in any environment: the audit trail only grows, no
    issued invoice is altered or lost, every period moves along its machine, no
    role changes but a resident's that becomes a manager's, no invite comes back, no building loses its last manager, no occupancy is
    rewritten, and no maintenance request or expense is lost or leaves its
    workflow. *)
Theorem server_keeps_history (sv : Server) (d d' : DB) (Hrun : rtc (server_step sv) d d') :
  ServerKept d d'.
Proof.
  split.
  - exact (upheld_run _ upheld_trail sv d d' Hrun).
  - exact (upheld_run _ upheld_Kept sv d d' Hrun).
  - exact (upheld_run _ upheld_periods sv d d' Hrun).
  - exact (upheld_run _ upheld_roles sv d d' Hrun).
  - exact (upheld_run _ upheld_invites sv d d' Hrun).
  - exact (upheld_run _ upheld_managed sv d d' Hrun).
  - exact (upheld_run _ upheld_occupancies sv d d' Hrun).
  - exact (proj1 (upheld_run _ upheld_requests sv d d' Hrun)).
  - exact (proj1 (upheld_run _ upheld_expenses sv d d' Hrun)).
Qed.

(** The states that requests lead to from the empty tables are sound: one
    superadmin at most and no invite for one, every paid amount backed by
    verified payments, one open tenancy per unit, and only
    well-formed maintenance requests and expenses. *)
Theorem reachable_state_sound (sv : Server) (d : DB) (Hrun : rtc (server_step sv) empty_db d) :
  StateOk d.
Proof.
  apply (state_ok_moves empty_db); [..|exact state_ok_empty].
  - exact (upheld_run _ upheld_roles sv _ d Hrun).
  - exact (upheld_run _ upheld_backed sv _ d Hrun).
  - exact (upheld_run _ (upheld_open RelTenant) sv _ d Hrun).
  - exact (upheld_run _ upheld_requests sv _ d Hrun).
  - exact (upheld_run _ upheld_expenses sv _ d Hrun).
Qed.

(** ** In front of the handlers *)

(** The routes of requests behind [authMW], and their handlers. *)
Definition behind_auth (sv : Server) (call : ServerCall) : option (HttpCall → M Z) :=
  match call with
  | SRegistry call => Some (λ c, serve_registry c call)
  | SBilling call => Some (λ c, serve_billing c call)
  | SPayment call => Some (λ c, serve_payment (sv_Payments sv) c call)
  | SPanel call => Some (λ c, serve_panel (sv_Panels sv) c call)
  | SAuth CallMe => Some (λ c, rs ← handle (me (hc_User c)); mret (rs_Status rs))
  | SAuth (CallChangePassword b) =>
      Some (λ c, rs ← handle (changePassword (hc_User c) b); mret (rs_Status rs))
  | SAuth (CallCreateInvite b) =>
      Some (λ c, rs ← handle (createInvite (sv_Auth sv) (hc_User c) b); mret (rs_Status rs))
  | _ => None
  end.

(** The routes with a [RequireRole] behind it. *)
Definition role_ok (call : ServerCall) (u : User) : bool :=
  match call with
  | SRegistry _ => bool_decide (us_Role u ∈ [RoleManager])
  | SAuth (CallCreateInvite _) => bool_decide (us_Role u ∈ [RoleManager; RoleSuperAdmin])
  | _ => true
  end.

(** The public routes: the sessions, the callback of the gateway, the health check,
    and a path that is no route. *)
Definition public (call : ServerCall) : bool :=
  match call with
  | SAuth (CallSetup _ | CallRegister _ | CallLogin _ | CallRefresh _ | CallLogout _) => true
  | SCallback | SHealth | SNoRoute => true
  | _ => false
  end.

(** The outcome of a call for the caller that [Authenticate] found, [r] with the
    state [w1] after it: refused with 401 for want of an account, or with 403 for
    want of a role, with the tables as they were; else what [k] does for the live
    account. *)
Definition for_account {A} (r : Res User) (refused : AppError → A) (role : User → bool)
    (k : User → M A) (env : Env) (w w1 : World) (out : Res A * World) : Prop :=
  match r with
  | Err _ => (∃ e, ae_Status e = 401 ∧ out.1 = Ok (refused e)) ∧ w_db out.2 = w_db w
  | Ok u => row_at (w_db w) (us_ID u) = Some u ∧ us_IsActive u = true ∧
      if role u then out = k u env w1
      else (∃ e, ae_Status e = 403 ∧ out.1 = Ok (refused e)) ∧ w_db out.2 = w_db w
  | Panic _ => False
  end.

(** What [Authenticate] answers. *)
Lemma Authenticate_account tokens header env w r w1 :
  Authenticate tokens header env w = (r, w1) → w_db w1 = w_db w ∧
  match r with
  | Ok u => row_at (w_db w) (us_ID u) = Some u ∧ us_IsActive u = true
  | Err e => ae_Status (WriteError e) = 401
  | Panic _ => False
  end.
Proof.
  intros E. pose proof (reads_Authenticate tokens header (w_db w) env w eq_refl) as Hreads.
  pose proof (answers_Authenticate tokens header (w_db w) env w eq_refl) as Hans.
  cbv beta in Hreads, Hans. rewrite E in Hreads, Hans. simpl in Hreads, Hans.
  destruct Hreads as [Hdb Hu]. split; [done|].
  destruct r as [u|e|s]; [by apply Hu|by eapply Authenticate_401|by destruct (Hans s)].
Qed.

Lemma protected_request (sv : Server) (rq : ServerRequest) (call : ServerCall) (k : HttpCall → M Z)
    (env : Env) (w : World) (r : Res User) (w1 : World) :
  Authenticate (h_Tokens (sv_Auth sv)) (rq_Authorization (sr_Headers rq)) env w = (r, w1) →
  behind_auth sv call = Some k → preflight (sr_Method rq) = false →
  for_account r ae_Status (role_ok call) (λ u, Recovery ae_Status (k (call_as rq (Some u))))
    env w w1 (handle_request sv rq call env w).
Proof.
  intros E Hroute Hmethod. destruct (Authenticate_account _ _ _ _ _ _ E) as [Hdb Hr].
  unfold handle_request. rewrite Hmethod. unfold Recovery.
  destruct r as [u|e|s]; cbn [for_account]; [| |done].
  - destruct Hr as [Hrow Hact]. split; [done|]. split; [done|].
    destruct call as [[]| | | | | | |]; try done; injection Hroute as <-; cbn [route role_ok];
      unfold serve, authenticated, for_managers, guarded, handle, RequireRole, attempt, fail,
        mbind, M_bind, mret, M_ret; rewrite E; cbn [hc_User call_as]; try done;
      case_bool_decide; cbn [negb]; try done;
      (split; [by exists (Forbidden "دسترسی غیرمجاز است.")|done]).
  - destruct call as [[]| | | | | | |]; try done; cbn [route];
      unfold serve, authenticated, for_managers, guarded, handle, attempt, mbind, M_bind, mret, M_ret;
      rewrite E; (split; [by exists (WriteError e)|done]).
Qed.
End server.

(** Every request is answered, in any environment: with a status, and but
    for the calculation and a page of announcements beyond 2^56 without a panic
    having to be caught. *)
Theorem requests_answered {codec : UuidCodec} {jwt : JwtLibrary} {bcrypt : Bcrypt}
    {unicode : UnicodeTables} {map_order : MapOrder} {pusher : PushNotifier}
    {gateway : PaymentGateway} {gateway_total : GatewayTotal} {loc : Location}
    {dates : RequiredDates} (sv : Server) (rq : ServerRequest) (call : ServerCall) (env : Env)
    (w : World) :
  (∃ status, (handle_request sv rq call env w).1 = Ok status) ∧
  (steady rq call → ∃ status, (route sv rq call env w).1 = Ok status).
Proof.
  pose proof (settled_route sv rq call env w) as He. split.
  - unfold handle_request, Recovery. destruct (preflight _); [by eexists|].
    destruct (route sv rq call env w) as [[s|e|x] w']; [by exists s|by destruct (He e)|by eexists].
  - intros H. pose proof (answers_route sv rq call H (w_db w) env w eq_refl) as Ha. cbv beta in Ha.
    destruct (route sv rq call env w).1 as [s|e|x]; [by exists s|by destruct (He e)|by destruct (Ha x)].
Qed.

(** ** On the sample building *)

#[local] Existing Instances plain_jwt plain_bcrypt plain_unicode source_order NoopNotifier tehran.
#[local] Existing Instances MockGateway Mock_ok Mock_total.

#[local] Instance any_date : RequiredDates := {|
  required_date _ := true; required_date_nonzero _ _ := eq_refl |}.

Definition sample_server : Server :=
  MkServer sample_handler (NewPaymentService "https://api/callback" "https://app.example")
    all_services [].

Definition april_building : DB := sample_db (sample_period PeriodDraft "none" (S754_zero false)).

(** The header of a signed-in user. *)
Definition bearer (u : User) : string :=
  match (IssueAccessToken sample_tokens (us_ID u) sample_env (sample_world april_building)).1 with
  | Ok (tok, _) => "Bearer " +:+ tok
  | _ => ""
  end.

(** A request about one object. *)
Definition request_as (header : string) (id : UUID) : ServerRequest :=
  MkServerRequest "PATCH" (MkRequest header "" "" None None) (λ _, uuid_String id) (λ _, "").

Definition rename_unit : ServerCall :=
  SRegistry (RUpdateUnit (Some (MkUnitInput "9" None (Some 1) (Some 80) None None None None None None))).

Definition handled (rq : ServerRequest) (call : ServerCall) (d : DB) : Res Z * World :=
  handle_request sample_server rq call sample_env (sample_world d).

Definition renamed_db : DB := w_db (handled (request_as (bearer sample_manager) 100) rename_unit april_building).2.

Example renamed_unit :
  (handled (request_as (bearer sample_manager) 100) rename_unit april_building).1 = Ok 200 ∧
  (u_Number <$> row_at renamed_db 100) = Some "9" ∧ length (db_audit_logs renamed_db) = 1%nat ∧
  (handled (request_as (bearer sample_resident) 100) rename_unit april_building).1 = Ok 403 ∧
  (handled (request_as "" 100) rename_unit april_building).1 = Ok 401.
Proof. vm_compute. repeat split. Qed.

Lemma renamed_step : server_step sample_server april_building renamed_db.
Proof.
  exact (server_request sample_server (request_as (bearer sample_manager) 100) rename_unit sample_env
    (sample_world april_building)).
Qed.

Lemma server_keeps_history_witness :
  TrailGrows april_building renamed_db ∧ managed renamed_db 10.
Proof.
  destruct (server_keeps_history sample_server april_building renamed_db (rtc_once _ _ renamed_step))
    as [Htrail _ _ _ _ Hman _ _ _].
  split; [exact Htrail|]. apply Hman. exists 1%N. reflexivity.
Defined.

Definition founding : ServerCall := SAuth (CallSetup (Some sample_credentials)).

Definition founded_db : DB := w_db (handled (request_as "" 0) founding empty_db).2.

Lemma reachable_state_sound_witness : StateOk founded_db.
Proof.
  exact (reachable_state_sound sample_server founded_db (rtc_once _ _
    (server_request sample_server (request_as "" 0) founding sample_env (sample_world empty_db)))).
Defined.

Lemma requests_answered_witness :
  ∃ status, (route sample_server (request_as (bearer sample_manager) 1000) (SBilling BIssue)
    failing_env (sample_world april_building)).1 = Ok status.
Proof.
  apply (requests_answered sample_server (request_as (bearer sample_manager) 1000) (SBilling BIssue)
    failing_env (sample_world april_building)). split; discriminate.
Defined.
