(* ===== verification/BillingTheorems.v ===== *)
(** * Theorems on billing

    The lock on cost items, authorisation, the numbering of invoices, the
    conservation of money by a calculation, and two ways calculation fails. *)

From Stdlib Require Import SpecFloat.
From S2P Require Import Prelude Golang Calendar Errors Engine LateFee Models Store Schema Logic Notification BillingRepo Calc Period BillingLemmas Sample Frozen BillingSpec BillingGuards Issue CalcSpec EngineSpec.

Section billing.
Context {codec : UuidCodec} {provider : BalanceProvider} {provider_ok : BalanceProviderOk}.
Context {pusher : PushNotifier} {hook : BalanceRecomputer} {hook_ok : BalanceRecomputerOk}.
Context {loc : Location}.

(** C29: a billing call leaves the cost items of a period that is calculated,
    issued or closed exactly as they are: none is added, changed or removed. *)
Theorem cost_items_locked op env w pid s id (ci : BCostItem) :
  status_at (w_db w) pid = Some s → s ≠ PeriodDraft → ci_PeriodID ci = pid →
  row_at (w_db (run_op op env w).2) id = Some ci ↔ row_at (w_db w) id = Some ci.
Proof.
  intros Hs Hd Hp.
  exact (holds_run _ _ env w (run_op_items op (w_db w)) pid s Hs Hd id ci Hp).
Qed.

(** C28: a call by a user who was not granted the building it is about, or
    about a period, cost item or invoice that does not exist, fails and changes
    no table. *)
Theorem unauthorised_call_refused op env w :
  (∀ b, op_building (w_db w) op = Some b → ¬ granted (w_db w) (op_manager op) b) →
  (∃ e, (run_op op env w).1 = Err e) ∧ w_db (run_op op env w).2 = w_db w.
Proof. intros H. exact (holds_run _ _ env w (run_op_refuses op (w_db w) H)). Qed.

(** C27: when the repository issues a period, the period was calculated and is
    issued; the i-th draft in unit order gets the number BLD-year-seq with seq
    the count of the building's numbered invoices plus i plus one and the date of
    issuance in the zone of the server, its amounts untouched; the invoices of
    other periods stay; exactly the former drafts are returned, and their numbers
    are pairwise distinct. *)
Theorem IssueInvoices_numbers pid year now env w issued p :
  (IssueInvoices pid year now env w).1 = Ok issued →
  row_at (w_db w) pid = Some p →
  in64 (issued_count (w_db w) (bp_BuildingID p)
        + Z.of_nat (length (period_drafts (w_db w) pid))) →
  Issued pid year now (w_db w) (w_db (IssueInvoices pid year now env w).2) issued ∧
  NoDup (inv_InvoiceNumber <$> issued).
Proof.
  intros Hr Hp Hb.
  pose proof (holds_run _ _ env w (holds_IssueInvoices_numbers pid year now (w_db w)) issued Hr).
  split; [done|]. by eapply Issued_distinct.
Qed.

(** C12: a calculation composes one draft invoice per live unit of the building
    from the engine's result for each cost item: the base amount of an invoice
    is what the share rows charge its unit, the final amount is base plus prior
    debt plus late fee minus credit. And no Toman is lost: on non-negative
    areas and counts and within int64 the base amounts add up to the sum of the
    amounts the cost items charge. *)
Theorem Calculate_conserves_money period env w shares invoices :
  (compute_invoices period env w).1 = Ok (shares, invoices) →
  Forall (λ u, 0 ≤ u_AreaM2 u) (rows (w_db w)) →
  Forall (λ c, 0 ≤ oc_OccupantCount c) (rows (w_db w)) →
  ∃ units, Composed (w_db w) period units shares invoices ∧
    let items := period_items (w_db w) (bp_ID period) in
    let total := sum_of (λ item, charged (engineItem item)
                   (engine_units (w_db w) period units)) items in
    (Forall (λ item, item_in_range (engineItem item) (engine_units (w_db w) period units)) items →
     in64 total → sum_of (λ x, inv_BaseAmount (iwi_Invoice x)) invoices = total).
Proof.
  intros Hr Ha Ho.
  destruct (holds_run _ _ env w (reads_compute_invoices period (w_db w))) as [_ H].
  destruct (H _ Hr) as [units C]. exists units. split; [done|].
  intros items total Hrange Hb. by apply (bases_sum _ _ _ _ _ C).
Qed.
End billing.

(** ** The theorems on the sample building *)

#[local] Existing Instances ZeroBalanceProvider NoopNotifier NoHook ZeroBalanceProvider_ok NoHook_ok tehran.

Definition fresh_db : DB := sample_db (sample_period PeriodDraft "none" (S754_zero false)).

(** The tables after a calculation, and after the issuance that follows. *)
Definition calculated_db : DB := (run (Calculate_period sample_manager 1000) fresh_db).2.

Definition issued_db : DB := (run (Issue sample_manager 1000) calculated_db).2.

Lemma cost_items_locked_witness :
  row_at (w_db (run_op (OpDeleteCostItem sample_manager 2000) sample_env
    (sample_world calculated_db)).2) 2000 = Some sample_item.
Proof.
  apply (cost_items_locked (OpDeleteCostItem sample_manager 2000) sample_env
    (sample_world calculated_db) 1000 PeriodCalculated);
    [vm_compute; reflexivity|vm_compute; discriminate|reflexivity|vm_compute; reflexivity].
Defined.

Lemma unauthorised_call_refused_witness :
  w_db (run_op (OpIssue sample_stranger 1000) sample_env (sample_world calculated_db)).2
    = calculated_db.
Proof.
  apply (unauthorised_call_refused (OpIssue sample_stranger 1000) sample_env
    (sample_world calculated_db)).
  intros b Hb. vm_compute in Hb. injection Hb as <-. vm_compute. intros [x E]. discriminate E.
Defined.

Lemma IssueInvoices_numbers_witness :
  ∃ issued, (IssueInvoices 1000 2026 7 sample_env (sample_world calculated_db)).1 = Ok issued ∧
    NoDup (inv_InvoiceNumber <$> issued) ∧ length issued = 3%nat.
Proof.
  eexists. split; [vm_compute; reflexivity|]. split; [|reflexivity].
  refine (proj2 (IssueInvoices_numbers 1000 2026 7 sample_env (sample_world calculated_db) _
    _ _ _ _)); [vm_compute; reflexivity|vm_compute; reflexivity|vm_compute; split; done].
Defined.

Lemma Calculate_conserves_money_witness :
  ∃ shares invoices units, (compute_invoices (sample_period PeriodDraft "none" (S754_zero false))
      sample_env (sample_world fresh_db)).1 = Ok (shares, invoices) ∧
    Composed fresh_db (sample_period PeriodDraft "none" (S754_zero false)) units shares invoices ∧
    sum_of (λ x, inv_BaseAmount (iwi_Invoice x)) invoices = 1000.
Proof.
  edestruct (Calculate_conserves_money (sample_period PeriodDraft "none" (S754_zero false))
    sample_env (sample_world fresh_db)) as (units & C & _); [vm_compute; reflexivity|..].
  1, 2: apply (bool_decide_unpack _); vm_compute; exact I.
  eexists _, _, units. split; [vm_compute; reflexivity|]. split; [exact C|vm_compute; reflexivity].
Defined.

(** ** Percent late fees *)

Definition method_storable (i : InvoiceItem) : bool :=
  match ii_Method i with Some m => in_enum m cost_method | None => true end.

Lemma holds_store_items inv items d :
  holds (for_each (store_item inv) items) d (λ r _, r = Ok tt → Forall method_storable items).
Proof.
  revert d. induction items as [|i items IH]; intros d; simpl; [by step|].
  step. unfold store_item at 1. step. step; [done|]. step.
  eapply holds_mono; [apply IH|]. intros r d1 H3 Hr. constructor; [|by apply H3].
  simpl in H1. rewrite !require_Ok in H1. destruct H1 as [H1 _].
  apply andb_prop in H1 as [_ H1]. by apply Is_true_true.
Qed.

Lemma holds_store_invoices invoices d :
  holds (for_each store_invoice invoices) d
    (λ r _, r = Ok tt → Forall (λ x, Forall method_storable (iwi_Items x)) invoices).
Proof.
  revert d. induction invoices as [|x invoices IH]; intros d; simpl; [by step|].
  step. unfold store_invoice at 1. step. step; [done|].
  eapply holds_mono; [apply holds_store_items|]. intros [[]|e|s] d1 Hx; simpl; [|done..].
  eapply holds_mono; [apply IH|]. intros r d2 Hr Er. constructor; [by apply Hx|by apply Hr].
Qed.

(** A late fee of type percent cannot be charged: the item of the late fee is stored
    with the late-fee type as its method, which the column [cost_method] does not
    have, so whenever [Calculate] succeeds on a period with late-fee type percent
    or per_day, the invoices it composed bear no positive late fee. *)
Theorem no_percent_late_fee {codec : UuidCodec} {provider : BalanceProvider}
    {provider_ok : BalanceProviderOk} manager pid period env w v :
  row_at (w_db w) pid = Some period →
  bp_LateFeeType period ∈ ["percent"; "per_day"] →
  (Calculate_period manager pid env w).1 = Ok v →
  ∃ units shares invoices, Composed (w_db w) period units shares invoices ∧
    Forall (λ x, inv_LateFeeAmount (iwi_Invoice x) ≤ 0) invoices.
Proof.
  intros Hp Ht Hr. revert v Hr.
  apply (holds_run _ (λ r _, ∀ v, r = Ok v → ∃ units shares invoices, _) env w).
  unfold Calculate_period. step. apply holds_CalcAuthorizedPeriod; [done|].
  intros p Hp' _. simpl. assert (p = period) as -> by congruence.
  step; [by step|]. step. eapply holds_mono; [apply reads_compute_invoices|].
  intros [[shares invoices]|e|s] d [-> C]; simpl; [|done..].
  destruct (C _ eq_refl) as [units C']. step. unfold store_calculation. step. unfold ReplaceCalculation.
  apply holds_transaction; [done..|]. step.
  apply (holds_stays (λ _ _, True)); [done|]. intros [[]|e|s] d1 _; simpl; [|done..]. step.
  apply (holds_stays (λ _ _, True)); [done|]. intros [[]|e|s] d2 _; simpl; [|done..].
  eapply holds_mono; [apply holds_store_invoices|]. intros [[]|e|s] d3 Hst; simpl; [|done..].
  apply (holds_stays (λ _ _, True)); [done|]. intros r d4 _. 
  destruct r as [[]|e|s]; simpl; [|done..].
  apply (holds_stays (λ _ _, True)); [done|]. intros r d5 _ v _.
  exists units, shares, invoices. split; [done|]. specialize (Hst eq_refl).
  rewrite Forall_forall in Hst |- *. intros x Hx. specialize (Hst x Hx).
  destruct (Z.le_gt_cases (inv_LateFeeAmount (iwi_Invoice x)) 0) as [|Hpos]; [done|exfalso].
  pose proof (co_invoices _ _ _ _ _ C') as Hinv.
  apply list_elem_of_lookup in Hx as [i Hi].
  eapply Forall2_lookup_r in Hinv as (u & _ & I); [|exact Hi].
  destruct (io_late_item _ _ _ _ I) as (it & Hit & _ & Hm); [lia|].
  rewrite Forall_forall in Hst. specialize (Hst it Hit). unfold method_storable in Hst.
  rewrite Hm in Hst. apply elem_of_cons in Ht as [Ht|Ht];
    [|apply list_elem_of_singleton in Ht]; by rewrite Ht in Hst.
Qed.

(** A percentage of zero charges nothing and passes, ten percent fails. *)
Lemma no_percent_late_fee_witness :
  (∃ units shares invoices, Composed (sample_db (sample_period PeriodDraft "percent" (S754_zero false)))
    (sample_period PeriodDraft "percent" (S754_zero false)) units shares invoices) ∧
  (run (Calculate_period sample_manager 1000)
    (sample_db (sample_period PeriodDraft "percent" (float64_of_Z 10)))).1 = Err bad_enum.
Proof.
  split; [|vm_compute; reflexivity].
  edestruct (no_percent_late_fee sample_manager 1000
    (sample_period PeriodDraft "percent" (S754_zero false)) sample_env
    (sample_world (sample_db (sample_period PeriodDraft "percent" (S754_zero false)))))
    as (units & shares & invoices & C & _);
    [vm_compute; reflexivity|apply (bool_decide_unpack _); vm_compute; exact I
    |vm_compute; reflexivity|by exists units, shares, invoices].
Defined.

(** ** A race between calculation and issuance *)

(** [Calculate] as one session runs it, with another session's [Issue] between
    its two writes. *)
Definition Calculate_interleaved {codec : UuidCodec} {provider : BalanceProvider}
    {pusher : PushNotifier} {hook : BalanceRecomputer} (manager other : User) (pid : UUID) : M unit :=
  period ← CalcAuthorizedPeriod manager pid;
  '(shares, invoices) ← compute_invoices period;
  ReplaceCalculation pid shares invoices;;
  Issue other pid;;
  SavePeriod (set_period_status period PeriodCalculated);;
  mret tt.

(** [Calculate] is not atomic: when another session issues the period
    between its two writes, its save of the period it read at the start takes
    the period back from issued to calculated, with its invoices numbered and
    frozen, and a further calculation then deletes them. *)
Theorem calculate_issue_race :
  let d1 := (run (Calculate_interleaved sample_manager sample_manager 1000) calculated_db).2 in
  status_at d1 1000 = Some PeriodCalculated ∧
  (exists inv : Invoice, row_at d1 100011 = Some inv ∧ inv_InvoiceNumber inv = "BLD-2026-0001") ∧
  let d2 := (run (Calculate_period sample_manager 1000) d1).2 in
  existsb (λ i, bool_decide (inv_InvoiceNumber i = "BLD-2026-0001")) (rows d2) = false.
Proof.
  vm_compute. split; [reflexivity|]. split; [|reflexivity]. eexists. split; reflexivity.
Qed.
