(* ===== verification/SystemTheorems.v ===== *)
(** * Theorems on billing and payments together

    The period state machine, the preservation of issued invoices, and the
    backing of paid amounts, over every sequence of calls of both domains. *)

From Stdlib Require Import SpecFloat.
From S2P Require Import Prelude Golang Calendar Errors Engine LateFee Models Store Schema Logic Gateway Notification BillingRepo Calc Period PaymentRepo PaymentService BillingLemmas Sample Frozen PaymentSpec BillingSpec System Ledger BillingTheorems.

Section system.
Context {codec : UuidCodec} {pusher : PushNotifier} {gateway : PaymentGateway}.
Context {gateway_ok : GatewayOk} {loc : Location}.

(** C9: each call of the billing and payment services moves the status of each
    period by at most one step of draft, calculated, issued, closed, with
    reopening the only way back; a period that did not exist can only appear as
    a draft and none disappears. *)
Theorem period_transitions op env w id :
  period_step (status_at (w_db w) id) (status_at (w_db (run_system op env w).2) id).
Proof. exact (holds_run _ _ env w (system_periods op (w_db w)) id). Qed.

(** C4: whatever sequence of billing and payment calls follows, an invoice whose
    period is issued or closed stays, with its amounts, building, period, unit,
    due date and number, and so do its items and its adjustments. *)
Theorem issued_invoices_immutable d d' id inv :
  rtc system_step d d' →
  row_at d id = Some inv →
  period_frozen d (inv_PeriodID inv) = true →
  (∃ inv', row_at d' id = Some inv' ∧ same_invoice inv inv') ∧
  (∀ iid (i : InvoiceItem), row_at d iid = Some i → ii_InvoiceID i = id →
     row_at d' iid = Some i) ∧
  (∀ aid (a : InvoiceAdjustment), row_at d aid = Some a → ad_InvoiceID a = id →
     row_at d' aid = Some a).
Proof.
  intros K%system_steps_kept Hi Hf.
  assert (item_frozen d id = true) as Hif by (unfold item_frozen; by rewrite Hi).
  split_and!.
  - by apply (k_invoices _ _ K).
  - intros iid i Hx <-. by apply (k_items _ _ K).
  - intros aid a Hx <-. by apply (k_adjustments _ _ K).
Qed.

(** One call that is not a reversal. *)
Inductive forward_step : DB → DB → Prop :=
  | forward_call op env w :
      forward op → forward_step (w_db w) (w_db (run_system op env w).2).

(** C5: along any sequence of billing and payment calls without reversals, the
    paid amount of every invoice is between zero and the sum of the verified
    payments for that invoice: no invoice counts money that did not come in. *)
Theorem paid_amounts_backed d d' :
  rtc forward_step d d' → Backed d → Backed d'.
Proof.
  induction 1 as [d|d1 d2 d3 [op env w Hf] _ IH]; [done|]. intros B. apply IH.
  exact (holds_run _ _ env w (system_backed op (w_db w) B Hf)).
Qed.
End system.

(** ** On the sample building *)

#[local] Existing Instances NoopNotifier MockGateway Mock_ok tehran.

Definition sample_due : Time := DateUTC 2026 4 10.

Definition issued_invoice : Invoice :=
  MkInvoice 100011 "BLD-2026-0001" 10 1000 100 267 0 0 0 267 (Some (DateUTC 2026 3 20))
    (Some sample_due) InvoiceUnpaid 0 (Some (DateUTC 2026 3 20 + 3 * Second))
    (DateUTC 2026 3 20 + 24 * Second) (DateUTC 2026 3 20 + 3 * Second).

Lemma period_transitions_witness :
  status_at (run (run_system (OpBilling (OpCalculate sample_manager 1000))) fresh_db).2 1000
    = Some PeriodCalculated ∧
  period_step (status_at fresh_db 1000)
    (status_at (w_db (run_system (OpBilling (OpCalculate sample_manager 1000)) sample_env
       (sample_world fresh_db)).2) 1000).
Proof.
  split; [vm_compute; reflexivity|].
  exact (period_transitions (OpBilling (OpCalculate sample_manager 1000)) sample_env
    (sample_world fresh_db) 1000).
Defined.

Definition pay_100 : ManualPaymentInput := MkManualPaymentInput "100" "2026-04-01" "".

(** The tables after a call in the sample environment. *)
Definition after_call (op : SystemOp) (d : DB) : DB :=
  w_db (run_system op sample_env (sample_world d)).2.

Lemma after_call_step op d : system_step d (after_call op d).
Proof. exact (system_call op sample_env (sample_world d)). Qed.

Lemma after_call_forward op d : forward op → forward_step d (after_call op d).
Proof. exact (forward_call op sample_env (sample_world d)). Qed.

Definition sample_payment : SystemOp := OpRecordManual sample_manager 100011 pay_100.
Definition sample_cancel : SystemOp := OpBilling (OpCancelInvoice sample_manager 100011 "x").

(** A payment, then the cancellation of the invoice. *)
Lemma issued_invoices_immutable_witness :
  ∃ inv', row_at (after_call sample_cancel (after_call sample_payment issued_db)) 100011 = Some inv'
    ∧ same_invoice issued_invoice inv'.
Proof.
  apply (issued_invoices_immutable issued_db
    (after_call sample_cancel (after_call sample_payment issued_db)) 100011 issued_invoice).
  - eapply rtc_l; [apply after_call_step|]. apply rtc_once, after_call_step.
  - vm_compute. reflexivity.
  - vm_compute. reflexivity.
Defined.

Lemma nobody_paid : Backed issued_db.
Proof.
  split.
  - intros p Hp. vm_compute in Hp. inversion Hp.
  - intros id inv Hi. apply row_at_Some in Hi as Hk. destruct Hk as [_ Hk]. simpl in Hk.
    assert (inv ∈ rows issued_db) as Hin by (apply elem_of_rows; simpl; by rewrite Hk).
    assert (Forall (λ i, inv_PaidAmount i = 0) (rows issued_db)) as Hz
      by (apply (bool_decide_unpack _); vm_compute; exact I).
    rewrite Forall_forall in Hz. rewrite (Hz inv Hin).
    split; [done|]. apply sum_of_nonneg, Forall_forall. intros p Hp. vm_compute in Hp. inversion Hp.
Qed.

Lemma paid_amounts_backed_witness :
  Backed (after_call sample_payment issued_db) ∧
  inv_PaidAmount <$> row_at (R := Invoice) (after_call sample_payment issued_db) 100011 = Some 100.
Proof.
  split; [|vm_compute; reflexivity].
  apply (paid_amounts_backed issued_db); [|exact nobody_paid].
  apply rtc_once, after_call_forward. exact I.
Defined.
