(* ===== verification/PaymentTheorems.v ===== *)
(** * Theorems on payments

    Applying money to an invoice, the manual and the gateway flow, the balance of
    a unit, the URLs handed to browsers, and the interleavings that go wrong. *)

From Stdlib Require Import SpecFloat Ascii.
From S2P Require Import Prelude Golang Calendar Net Errors Engine LateFee Models Store Schema Logic Gateway Notification BillingRepo Calc Period PaymentRepo PaymentService BillingLemmas Sample Frozen PaymentSpec BillingSpec System Ledger BillingTheorems SystemTheorems.

(** ** Applying money *)

(** C25: a payment of a positive amount to an invoice is capped at what is
    outstanding: it applies the lesser of the two, never takes the paid amount
    beyond the effective amount (or beyond what was paid already), and leaves the
    invoice paid when nothing is outstanding any more and partial otherwise. *)
Theorem applyToInvoice_spec (inv : ledgerInvoice) (amount : Z) :
  0 < amount → 0 ≤ li_PaidAmount inv → in64 (li_PaidAmount inv) → in64 amount →
  in64 (li_FinalAmount inv + li_DebitAdj inv) →
  in64 (li_FinalAmount inv + li_DebitAdj inv - li_CreditAdj inv) →
  in64 (li_FinalAmount inv + li_DebitAdj inv - li_CreditAdj inv - li_PaidAmount inv) →
  let owed := li_FinalAmount inv + li_DebitAdj inv - li_CreditAdj inv in
  let app := applyToInvoice inv amount in
  let newPaid := add64 (li_PaidAmount inv) (pa_applied app) in
  pa_applied app = Z.min amount (Z.max 0 (owed - li_PaidAmount inv)) ∧
  newPaid = li_PaidAmount inv + pa_applied app ∧
  newPaid ≤ Z.max owed (li_PaidAmount inv) ∧
  pa_status app = (if decide (owed ≤ newPaid) then InvoicePaid else InvoicePartial).
Proof.
  intros Ha Hp Hpi Hai H1 H2 H3 owed app newPaid. subst newPaid app. unfold applyToInvoice.
  assert (effective inv = owed) as ->.
  { unfold effective, sub64. rewrite add64_id, wrap64_id by done. reflexivity. }
  assert (sub64 owed (li_PaidAmount inv) = owed - li_PaidAmount inv) as -> by by apply wrap64_id.
  cbn [pa_applied pa_status].
  assert ((if amount >? (if owed - li_PaidAmount inv <? 0 then 0 else owed - li_PaidAmount inv)
     then if owed - li_PaidAmount inv <? 0 then 0 else owed - li_PaidAmount inv else amount)
     = Z.min amount (Z.max 0 (owed - li_PaidAmount inv))) as ->.
  { destruct (Z.ltb_spec (owed - li_PaidAmount inv) 0);
      match goal with |- context [amount >? ?x] => destruct (Z.gtb_spec amount x) end; lia. }
  fold owed in H2. rewrite add64_id by (unfold in64 in *; lia).
  split_and!; [done|done|lia|].
  match goal with |- context [?x >=? owed] => rewrite (Z.geb_leb x owed) end.
  case_decide as Hd.
  - rewrite (proj2 (Z.leb_le _ _) Hd). done.
  - rewrite (proj2 (Z.leb_gt _ _)) by lia.
    match goal with |- context [?x >? 0] => destruct (Z.gtb_spec x 0) end; [done|lia].
Qed.

Definition sample_ledger : ledgerInvoice :=
  MkLedgerInvoice 100011 10 100 "BLD-2026-0001" InvoicePartial 100 267 50 20.

Lemma applyToInvoice_spec_witness :
  pa_applied (applyToInvoice sample_ledger 500) = 197 ∧
  pa_status (applyToInvoice sample_ledger 500) = InvoicePaid.
Proof.
  destruct (applyToInvoice_spec sample_ledger 500) as (E & _ & _ & S);
    [reflexivity|vm_compute; discriminate|vm_compute; split; done..|].
  split; [rewrite E; reflexivity|rewrite S; vm_compute; reflexivity].
Defined.

(** C13: recording a manual payment either fails and changes no table, or the
    caller is a manager of the invoice's building, the amount a positive int64,
    the date valid and the invoice not cancelled; then exactly one payment row
    is written, verified and linked to the invoice, the invoice's paid amount
    and status are those of the capped application, all its other columns are
    the same, and the stored balance of the unit is the one of the new tables. *)
Theorem RecordManual_outcome {pusher : PushNotifier} u invoiceID i env w :
  let d := w_db w in
  let d' := w_db (RecordManual u invoiceID i env w).2 in
  match (RecordManual u invoiceID i env w).1 with
  | Ok p => ∃ amount inv li, ManualOk d u invoiceID i amount inv li ∧ Applied d d' inv li p ∧
      pay_Amount p = amount ∧ pay_InvoiceID p = Some invoiceID ∧ db_payments d !! pay_ID p = None
  | _ => d' = d
  end.
Proof. exact (holds_run _ _ env w (holds_RecordManual u invoiceID i (w_db w))). Qed.

(** C10: a gateway callback either fails and changes no table, or finds its payment
    in the database by the id or authority given; a payment that is not pending is
    returned as it is with no effect; a pending one is verified with the gateway
    for the amount of the database row, and only a confirmation for that row
    makes it verified and advances its invoice, anything else makes it failed
    and touches no invoice. *)
Theorem HandleCallback_outcome {codec : UuidCodec} {pusher : PushNotifier}
    {gateway : PaymentGateway} {gateway_ok : GatewayOk} paymentID authority env w :
  let d := w_db w in
  let d' := w_db (HandleCallback paymentID authority env w).2 in
  match (HandleCallback paymentID authority env w).1 with
  | Ok p => ∃ row, callback_finds d paymentID authority row ∧ Finalized d row p d'
  | _ => d' = d
  end.
Proof. exact (holds_run _ _ env w (holds_HandleCallback paymentID authority (w_db w))). Qed.

#[local] Existing Instances NoopNotifier MockGateway Mock_ok PaymentBalances PaymentHook tehran.

Definition started_db : DB := (run_at 500 (StartGateway
  (NewPaymentService "https://api.test/payments/callback" "") sample_manager 100011 (Some 200) "")
  issued_db).2.

Definition result {A} (r : Res A) : option A := match r with Ok a => Some a | _ => None end.

Definition started_world : World := MkWorld started_db (MkMock false false) 600.

Lemma HandleCallback_outcome_witness :
  pay_Status <$> result (HandleCallback (uuid_String 100505) "" sample_env started_world).1
    = Some StatusVerified ∧
  match (HandleCallback (uuid_String 100505) "" sample_env started_world).1 with
  | Ok p => ∃ row, callback_finds (w_db started_world) (uuid_String 100505) "" row ∧
      Finalized (w_db started_world) row p
        (w_db (HandleCallback (uuid_String 100505) "" sample_env started_world).2)
  | _ => w_db (HandleCallback (uuid_String 100505) "" sample_env started_world).2
      = w_db started_world
  end.
Proof.
  split; [vm_compute; reflexivity|].
  pose proof (@HandleCallback_outcome digits_codec NoopNotifier MockGateway Mock_ok
    (uuid_String 100505) "" sample_env started_world) as H. exact H.
Defined.

(** A replayed callback that identifies the payment by its authority, as a
    real gateway does, does not get the state of the finalized payment: when no
    payment with that authority is pending, it is answered with 404. *)
Theorem replay_by_authority_not_found {codec : UuidCodec} {pusher : PushNotifier}
    {gateway : PaymentGateway} authority env w :
  authority ≠ "" →
  (∀ p : Payment, p ∈ rows (w_db w) → pay_Authority p = Some authority → pay_Status p ≠ StatusRecorded) →
  (HandleCallback "" authority env w).1 = Err (EApp (NotFound msgCallbackUnknown)) ∧
  w_db (HandleCallback "" authority env w).2 = w_db w.
Proof.
  intros Hne Hno.
  apply (holds_run _ (λ r d', r = Err (EApp (NotFound msgCallbackUnknown)) ∧ d' = w_db w) env w).
  unfold HandleCallback, callback_payment. rewrite bool_decide_eq_true_2 by done. simpl.
  rewrite bool_decide_eq_false_2 by done. unfold GetPaymentByAuthority. cbn [negb].
  step. step. step. apply holds_First_where.
  - intros e. step. by step.
  - intros p l E. exfalso.
    assert (p ∈ sort_by by_key (List.filter (λ p, opt_eqb (pay_Authority p) (Some authority)
      && bool_decide (pay_Status p = StatusRecorded)) (rows (w_db w)))) as Hin by (rewrite E; by left).
    rewrite sort_by_Permutation, elem_of_filter_rows in Hin. destruct Hin as [Hr Hq].
    apply andb_prop in Hq as [H1 H2]. apply bool_decide_eq_true in H1, H2.
    apply (Hno p); [by apply elem_of_rows|done..].
Qed.

Definition finalized_db : DB := (run_at 600 (HandleCallback (uuid_String 100505) "") started_db).2.

Definition finalized_world : World := sample_world finalized_db.

Lemma finalized_verified : Forall (λ p, pay_Status p = StatusVerified) (rows (w_db finalized_world)).
Proof. apply (bool_decide_unpack _). vm_compute. exact I. Qed.

Lemma replay_by_authority_not_found_witness :
  (HandleCallback "" "MOCK-20260320000824.000000000" sample_env finalized_world).1
    = Err (EApp (NotFound msgCallbackUnknown)).
Proof.
  pose proof (@replay_by_authority_not_found digits_codec NoopNotifier MockGateway
    "MOCK-20260320000824.000000000" sample_env finalized_world) as H.
  destruct H as [H _]; [done| |exact H]. pose proof finalized_verified as Hv.
  rewrite Forall_forall in Hv. intros p Hp _. rewrite (Hv p Hp). done.
Defined.

(** ** Interleavings *)

(** A manual payment whose invoice was read before another manager's payment
    committed: the read is outside of the transaction. *)
Definition RecordManual_interleaved {pusher : PushNotifier} (u other : User) (invoiceID : UUID)
    (amount : Money) (i : ManualPaymentInput) : M unit :=
  inv ← payAuthorizedInvoice u invoiceID;
  RecordManual other invoiceID i;;
  id ← uuid_New;
  store_manual inv invoiceID (manual_payment id u inv invoiceID amount 0 "");;
  mret tt.

(** A callback delivered twice at the same time: the status is checked on a row
    read before the other delivery committed, and not again. *)
Definition HandleCallback_interleaved {codec : UuidCodec} {pusher : PushNotifier}
    {gateway : PaymentGateway} (paymentID : string) : M unit :=
  o ← callback_payment paymentID "";
  match o with
  | Some p =>
      HandleCallback paymentID "";;
      finalize p;;
      mret tt
  | None => mret tt
  end.

(** The read of the invoice outside of the transaction loses updates: after two
    concurrent manual payments of 100, both verified, the invoice counts 100 as
    paid. *)
Theorem concurrent_manual_payments_lose_one :
  let d := (run (RecordManual_interleaved sample_manager sample_manager 100011 100 pay_100) issued_db).2 in
  inv_PaidAmount <$> row_at (R := Invoice) d 100011 = Some 100 ∧ backing d 100011 = 200.
Proof. vm_compute. split; reflexivity. Qed.

(** Two concurrent deliveries of one callback apply the payment twice: one
    verified payment of 200 leaves the invoice of 267 fully paid. *)
Theorem concurrent_callbacks_apply_twice :
  let d := (run_at 600 (HandleCallback_interleaved (uuid_String 100505)) started_db).2 in
  inv_PaidAmount <$> row_at (R := Invoice) d 100011 = Some 267 ∧
  inv_Status <$> row_at (R := Invoice) d 100011 = Some InvoicePaid ∧ backing d 100011 = 200.
Proof. vm_compute. split_and!; reflexivity. Qed.

(** ** The balance of a unit *)

(** The sums of a unit are amounts of money a building can have. *)
Definition small_sums (u : UUID) (d : DB) : Prop :=
  Forall (λ z, 0 ≤ z ≤ 2 ^ 60)
    [sum_of inv_PriorDebt (open_inv u d); sum_of inv_BaseAmount (open_inv u d);
     sum_of inv_LateFeeAmount (open_inv u d); sum_of inv_PaidAmount (open_inv u d);
     sum_of inv_CreditAmount (open_inv u d);
     adjustments_sum AdjustmentDebit (in_nc u d) d; adjustments_sum AdjustmentCredit (in_nc u d) d;
     sum_of pay_Amount (verified_payments u d);
     sum_of inv_PaidAmount (nc u d); sum_of inv_CreditAmount (nc u d)].

Lemma scan_small z : 0 ≤ z ≤ 2 ^ 60 → scan_int64 z = Ok z.
Proof. intros H. unfold scan_int64. rewrite decide_True; [done|]. unfold in64. lia. Qed.

Lemma aggregates_small u d :
  small_sums u d → aggregates u d = Ok (MkBalanceAggregates
    (sum_of inv_PriorDebt (open_inv u d)) (sum_of inv_BaseAmount (open_inv u d))
    (sum_of inv_LateFeeAmount (open_inv u d)) (sum_of inv_PaidAmount (open_inv u d))
    (sum_of inv_CreditAmount (open_inv u d))
    (adjustments_sum AdjustmentDebit (in_nc u d) d) (adjustments_sum AdjustmentCredit (in_nc u d) d)
    (sum_of pay_Amount (verified_payments u d))
    (sum_of inv_PaidAmount (nc u d)) (sum_of inv_CreditAmount (nc u d))).
Proof.
  unfold small_sums, aggregates. intros H. rewrite !Forall_cons in H.
  destruct H as (H1 & H2 & H3 & H4 & H5 & H6 & H7 & H8 & H9 & H10 & _). cbv zeta.
  rewrite (scan_small _ H1), (scan_small _ H2), (scan_small _ H3), (scan_small _ H4),
    (scan_small _ H5), (scan_small _ H6), (scan_small _ H7), (scan_small _ H8),
    (scan_small _ H9), (scan_small _ H10). reflexivity.
Qed.

Lemma open_final_sum (l : list Invoice) :
  Forall (λ i, inv_FinalAmount i =
    inv_BaseAmount i + inv_PriorDebt i + inv_LateFeeAmount i - inv_CreditAmount i) l →
  sum_of inv_FinalAmount l = sum_of inv_BaseAmount l + sum_of inv_PriorDebt l
    + sum_of inv_LateFeeAmount l - sum_of inv_CreditAmount l.
Proof. induction 1 as [|i l E _ IH]; [done|]. rewrite !sum_of_cons, E, IH. lia. Qed.

(** The arithmetic of the recompute stays within [int64]. *)
Lemma balance_arith p a c l x cr ca :
  0 ≤ p ≤ 2 ^ 60 → 0 ≤ a ≤ 2 ^ 60 → 0 ≤ c ≤ 2 ^ 60 → 0 ≤ l ≤ 2 ^ 60 → 0 ≤ x ≤ 2 ^ 60 →
  0 ≤ cr ≤ 2 ^ 60 → 0 ≤ ca ≤ 2 ^ 60 →
  sub64 (sub64 (add64 (add64 (add64 p a) c) l) x) (add64 cr ca) = p + a + c + l - x - (cr + ca).
Proof.
  intros. unfold sub64, add64. unfold in64 in *.
  rewrite (wrap64_id (p + a)), (wrap64_id (p + a + c)), (wrap64_id (p + a + c + l)),
    (wrap64_id (cr + ca)), (wrap64_id (p + a + c + l - x)), wrap64_id by (unfold in64; lia).
  reflexivity.
Qed.

Lemma add64_small a c : 0 ≤ a ≤ 2 ^ 60 → 0 ≤ c ≤ 2 ^ 60 → add64 a c = a + c.
Proof. intros. unfold add64. rewrite wrap64_id by (unfold in64; lia). reflexivity. Qed.

Lemma asset_arith v a c :
  0 ≤ v ≤ 2 ^ 60 → 0 ≤ a ≤ 2 ^ 60 → 0 ≤ c ≤ 2 ^ 60 → sub64 v (add64 a c) = v - (a + c).
Proof.
  intros. unfold sub64, add64. rewrite (wrap64_id (a + c)), wrap64_id by (unfold in64; lia).
  reflexivity.
Qed.

Lemma clamp z : (if z <? 0 then 0 else z) = Z.max 0 z.
Proof. destruct (Z.ltb_spec z 0); lia. Qed.

(** What the query promises a unit owes: over the open invoices, what they ask for
    less the debt carried into them and less what was paid, corrected by the notes of
    the invoices that are not cancelled. *)
Definition documented_position (u : UUID) (d : DB) : Z :=
  sum_of inv_FinalAmount (open_inv u d) - sum_of inv_PriorDebt (open_inv u d)
  - sum_of inv_PaidAmount (open_inv u d)
  + adjustments_sum AdjustmentDebit (in_nc u d) d - adjustments_sum AdjustmentCredit (in_nc u d) d.

(** Each open invoice asks for its charge, its carried debt and its late fee, less
    the credit consumed. *)
Definition finals_add_up (u : UUID) (d : DB) : Prop :=
  Forall (λ i, inv_FinalAmount i = inv_BaseAmount i + inv_PriorDebt i + inv_LateFeeAmount i
                                   - inv_CreditAmount i) (open_inv u d).

(** The row a recompute stores. *)
Record Recomputed (u : UUID) (d d' : DB) (ub : UnitBalance) : Prop := {
  rc_prior : bal_PriorDebt ub = sum_of inv_PriorDebt (open_inv u d)
    + adjustments_sum AdjustmentDebit (in_nc u d) d;
  rc_current : bal_CurrentInvoiceAmount ub = sum_of inv_BaseAmount (open_inv u d);
  rc_late : bal_LateFeeTotal ub = sum_of inv_LateFeeAmount (open_inv u d);
  rc_paid : bal_PaidTotal ub = sum_of inv_PaidAmount (open_inv u d);
  rc_credit : bal_Credit ub = sum_of inv_CreditAmount (open_inv u d)
    + adjustments_sum AdjustmentCredit (in_nc u d) d;
  rc_balance : bal_Balance ub = Z.max 0 (bal_PriorDebt ub + bal_CurrentInvoiceAmount ub
    + bal_LateFeeTotal ub - bal_PaidTotal ub - bal_Credit ub);
  rc_asset : bal_CreditAsset ub = Z.max 0 (sum_of pay_Amount (verified_payments u d)
    - sum_of inv_PaidAmount (nc u d) - sum_of inv_CreditAmount (nc u d));
  rc_stored : ∃ now, d' = put (stored_balance now ub) d;
}.

Lemma recomputeBalance_row u env w ub :
  (recomputeBalance u env w).1 = Ok ub → small_sums u (w_db w) →
  Recomputed u (w_db w) (w_db (recomputeBalance u env w).2) ub.
Proof.
  intros Hr Hs. set (d := w_db w) in *.
  pose proof (holds_run (recomputeBalance u) (λ r d', ∀ ub, r = Ok ub → ∃ t now,
    ub = balance_of u (MkBalanceAggregates
    (sum_of inv_PriorDebt (open_inv u d)) (sum_of inv_BaseAmount (open_inv u d))
    (sum_of inv_LateFeeAmount (open_inv u d)) (sum_of inv_PaidAmount (open_inv u d))
    (sum_of inv_CreditAmount (open_inv u d))
    (adjustments_sum AdjustmentDebit (in_nc u d) d) (adjustments_sum AdjustmentCredit (in_nc u d) d)
    (sum_of pay_Amount (verified_payments u d))
    (sum_of inv_PaidAmount (nc u d)) (sum_of inv_CreditAmount (nc u d))) t ∧
    d' = put (stored_balance now ub) d) env w) as H.
  destruct (H ltac:(apply holds_recomputeBalance; [done|]; intros agg t now E;
    fold d in E; rewrite (aggregates_small _ _ Hs) in E; injection E as <-; intros x [= <-]; by exists t, now)
    ub Hr) as (t & now & -> & Hd). clear H Hr.
  unfold small_sums in Hs. rewrite !Forall_cons in Hs.
  destruct Hs as (H1 & H2 & H3 & H4 & H5 & H6 & H7 & H8 & H9 & H10 & _).
  split; unfold balance_of;
    cbn [bal_PriorDebt bal_CurrentInvoiceAmount bal_LateFeeTotal bal_PaidTotal bal_Credit bal_Balance
      bal_CreditAsset ag_Prior ag_Current ag_Late ag_Paid ag_Credit ag_DebitAdj
      ag_CreditAdj ag_Verified ag_AbsorbedPaid ag_AbsorbedCredit];
    try first [done | by apply add64_small | by exists now].
  - rewrite clamp, balance_arith by assumption. rewrite !add64_small by assumption. f_equal; lia.
  - rewrite clamp, asset_arith by assumption. f_equal; lia.
Qed.

(** The documented position, overstated by the debt the open invoices carry. *)
Lemma recomputeBalance_overstates u env w ub :
  (recomputeBalance u env w).1 = Ok ub → small_sums u (w_db w) → finals_add_up u (w_db w) →
  bal_Balance ub = Z.max 0 (documented_position u (w_db w) + sum_of inv_PriorDebt (open_inv u (w_db w))).
Proof.
  intros Hr Hs Hf. destruct (recomputeBalance_row u env w ub Hr Hs) as [H1 H2 H3 H4 H5 -> _ _].
  pose proof (open_final_sum _ Hf) as Ef. unfold documented_position. f_equal. lia.
Qed.

(** C26: when a recompute succeeds for a unit none of whose open invoices carries the
    debt of an earlier one, the balance it stores is the documented position of the
    unit, the open invoices' final amounts less the carried debt and the payments,
    corrected by the notes, at least zero; the columns of the row are the sums they
    are named after; and the credit asset is what verified payments brought in beyond
    what the invoices absorbed. The sums are below 2^60 and each open invoice's
    final amount is base, prior debt and late fee less credit. Where invoices carry
    debt see [carried_debt_counted_twice]. *)
Theorem recomputeBalance_position u env w ub
    (Hok : (recomputeBalance u env w).1 = Ok ub)
    (Hsmall : small_sums u (w_db w)) (Hfinals : finals_add_up u (w_db w))
    (Hcarried : sum_of inv_PriorDebt (open_inv u (w_db w)) = 0) :
  Recomputed u (w_db w) (w_db (recomputeBalance u env w).2) ub ∧
  bal_Balance ub = Z.max 0 (documented_position u (w_db w)).
Proof.
  split; [by apply recomputeBalance_row|].
  rewrite (recomputeBalance_overstates u env w ub), Hcarried by done. f_equal. lia.
Qed.

Definition paid_world : World := sample_world (after_call sample_payment issued_db).

Definition paid_balance : UnitBalance :=
  MkUnitBalance 100 0 267 0 0 100 0 167 (DateUTC 2026 3 20 + Second).

Lemma paid_world_small : small_sums 100 (w_db paid_world).
Proof. apply (bool_decide_unpack _). vm_compute. exact I. Qed.

Lemma paid_world_finals : finals_add_up 100 (w_db paid_world).
Proof. apply (bool_decide_unpack _). vm_compute. exact I. Qed.

Lemma paid_world_balance : (recomputeBalance 100 sample_env paid_world).1 = Ok paid_balance.
Proof. vm_compute. reflexivity. Qed.

Lemma recomputeBalance_position_witness :
  documented_position 100 (w_db paid_world) = 167 ∧ bal_Balance paid_balance = 167.
Proof.
  split; [vm_compute; reflexivity|].
  destruct (recomputeBalance_position 100 sample_env paid_world paid_balance
    paid_world_balance paid_world_small paid_world_finals ltac:(vm_compute; reflexivity)) as [_ ->].
  vm_compute. reflexivity.
Defined.

(** The month after, with the same cost, calculated and issued while nobody has
    paid: the calculation carries the balance into the prior debt. *)
Definition april_db : DB :=
  let d := set_periods (<[1001%N := MkBillingPeriod 1001 10 "اردیبهشت" (DateUTC 2026 4 1)
             (DateUTC 2026 4 30) (DateUTC 2026 5 10) "none" (S754_zero false) PeriodDraft
             None None None 2 2]> (db_periods issued_db))
           (set_cost_items (<[2001%N := MkBCostItem 2001 1001 "نظافت" 1000 "per_area" None []
             true [] 2 2]> (db_cost_items issued_db)) issued_db) in
  let d := (run_at 1000 (recomputeBalance 100) d).2 in
  let d := (run_at 2000 (Calculate_period sample_manager 1001) d).2 in
  (run_at 3000 (Issue sample_manager 1001) d).2.

(** The recompute adds the prior debt of every open invoice, although the prior
    debt of a later invoice is the unpaid amount of the earlier ones: the balance
    exceeds the documented position by exactly the carried debt. A unit charged 267
    in each of two months, with nothing paid, owes 801 by its balance and 534 by its
    charges, which is its documented position. *)
Theorem carried_debt_counted_twice :
  (∀ u env w ub, (recomputeBalance u env w).1 = Ok ub → small_sums u (w_db w) →
     finals_add_up u (w_db w) → bal_Balance ub =
     Z.max 0 (documented_position u (w_db w) + sum_of inv_PriorDebt (open_inv u (w_db w)))) ∧
  bal_Balance <$> row_at (R := UnitBalance) april_db 100 = Some 801 ∧
  documented_position 100 april_db = 534 ∧ sum_of inv_BaseAmount (open_inv 100 april_db) = 534 ∧
  verified_payments 100 april_db = [].
Proof. split; [exact recomputeBalance_overstates|]. vm_compute. split_and!; reflexivity. Qed.

(** ** URLs *)

Lemma HasPrefix_cons c d s p : HasPrefix (String c s) (String d p) = bool_decide (d = c) && HasPrefix s p.
Proof. done. Qed.

Lemma HasPrefix_empty s : HasPrefix s "" = true.
Proof. by destruct s. Qed.

Definition backslash : ascii := "\"%char.

(** A path on the origin: a slash, then no slash and no backslash. *)
Lemma same_origin_shape path :
  HasPrefix path "/" = true → HasPrefix path "//" = false → Contains path "/\" = false →
  ∃ rest, path = String "/" rest ∧
    HasPrefix rest "/" = false ∧ HasPrefix rest (String backslash "") = false.
Proof.
  destruct path as [|c rest]; [done|]. intros H1 H2 H3. exists rest.
  rewrite HasPrefix_cons, HasPrefix_empty, andb_true_r in H1. apply bool_decide_eq_true in H1. subst c.
  split; [done|]. split.
  - rewrite HasPrefix_cons in H2. by rewrite bool_decide_eq_true_2 in H2 by done.
  - cbn [Contains] in H3. apply orb_false_iff in H3 as [H3 _].
    rewrite HasPrefix_cons in H3. by rewrite bool_decide_eq_true_2 in H3 by done.
Qed.

(** The redirect after a gateway payment never leaves the configured origin:
    it is empty when no origin is configured, and otherwise the origin without
    its trailing slashes, a slash, a text that starts neither with a slash nor
    with a backslash (so no other host), and the escaped parameters. *)
Theorem BrowserReturnURL_same_origin cfg path paymentID status invoiceID :
  let base := TrimRight_slash (cfg_webReturn cfg) in
  if bool_decide (base = "") then BrowserReturnURL cfg path paymentID status invoiceID = ""
  else ∃ rest query,
    BrowserReturnURL cfg path paymentID status invoiceID
      = base +:+ String "/" rest +:+ "?" +:+ query ∧
    HasPrefix rest "/" = false ∧ HasPrefix rest (String backslash "") = false.
Proof.
  intros base. unfold BrowserReturnURL. fold base. case_bool_decide as Hb; [done|].
  set (q := Values_Encode _). clearbody q.
  match goal with |- context [base +:+ (if ?b then _ else _) +:+ _] => destruct b eqn:E end.
  - exists "payment/result", q. done.
  - rewrite !orb_false_iff in E. destruct E as [[[_ E1] E2] E3]. apply negb_false_iff in E1.
    destruct (same_origin_shape _ E1 E2 E3) as (rest & -> & Hr1 & Hr2). by exists rest, q.
Qed.

(** The bytes that structure a query. *)
Definition structural : list ascii := ["&"%char; "="%char; "#"%char; "?"%char; "/"%char; " "%char].

Lemma escape_byte_plain c d : d ∈ structural → has_byte d (escape_byte c) = false.
Proof.
  intros Hd. revert Hd. unfold structural. rewrite !elem_of_cons, elem_of_nil.
  destruct c as [[] [] [] [] [] [] [] []]; intros H; repeat destruct H as [->|H];
    (vm_compute; reflexivity) || destruct H.
Qed.

Lemma has_byte_app c s t : has_byte c (s +:+ t) = has_byte c s || has_byte c t.
Proof.
  induction s as [|d s IH]; [done|]. change (String d s +:+ t) with (String d (s +:+ t)).
  simpl. by rewrite IH, orb_assoc.
Qed.

Lemma QueryEscape_plain s d : d ∈ structural → has_byte d (QueryEscape s) = false.
Proof.
  intros Hd. induction s as [|c s IH]; [done|]. cbn [QueryEscape].
  by rewrite has_byte_app, escape_byte_plain, IH.
Qed.

(** The callback URL handed to the gateway is the configured one, or it with one
    more parameter whose value, being escaped, adds no separator to the query;
    and a return path is only passed on when it is a path of the origin. *)
Theorem callbackURLFor_safe cfg returnPath :
  callbackURLFor cfg returnPath = cfg_callback cfg ∨
  ∃ sep, sep ∈ ["?"; "&"] ∧
    callbackURLFor cfg returnPath
      = cfg_callback cfg +:+ sep +:+ "return_path=" +:+ QueryEscape returnPath ∧
    same_origin_path returnPath = true ∧
    Forall (λ d, has_byte d (QueryEscape returnPath) = false) structural.
Proof.
  unfold callbackURLFor, same_origin_path.
  case_match eqn:E1; [by left|]. case_match eqn:E2; [by left|]. right.
  rewrite !orb_false_iff in E2. destruct E2 as [[E2 E3] E4]. apply negb_false_iff in E2.
  rewrite E2, E3, E4.
  eexists. split_and!; [|reflexivity|done|].
  - case_match; [by right; left|by left].
  - apply Forall_forall. intros d Hd. by apply QueryEscape_plain.
Qed.

(** ** formatToman *)

Fixpoint remove_commas (s : string) : string :=
  match s with
  | EmptyString => EmptyString
  | String c s' => if bool_decide (c = ","%char) then remove_commas s' else String c (remove_commas s')
  end.

Lemma remove_group i n s :
  has_byte ","%char s = false → remove_commas (group_thousands i n s) = s.
Proof.
  revert i. induction s as [|c s IH]; intros i; [done|]. simpl. intros H.
  apply orb_false_iff in H as [Hc Hs]. apply bool_decide_eq_false in Hc.
  destruct (_ && _); simpl; rewrite bool_decide_eq_false_2 by done; by rewrite IH.
Qed.

Lemma FormatInt_no_comma z : has_byte ","%char (FormatInt z) = false.
Proof.
  assert (∀ u, has_byte ","%char (DecimalString.NilEmpty.string_of_uint u) = false) as H
    by (intros u; induction u; done).
  unfold FormatInt. destruct (Z.to_int z) as [u|u]; simpl;
    unfold DecimalString.NilZero.string_of_uint; destruct u; try done; apply H.
Qed.

(** The amount in a notification denotes the amount paid: without its
    separators it is read back as the same integer. *)
Theorem formatToman_roundtrip v : in64 v → ParseInt (remove_commas (formatToman v)) = Some v.
Proof.
  intros Hv. transitivity (ParseInt (FormatInt v)); [f_equal|by apply ParseInt_FormatInt].
  unfold formatToman.
  case_bool_decide; [|by apply remove_group, FormatInt_no_comma].
  pose proof (FormatInt_no_comma v) as Hn. clear -Hn.
  induction (FormatInt v) as [|c s IH]; [done|]. simpl in *.
  apply orb_false_iff in Hn as [Hc Hs]. rewrite Hc. by rewrite IH.
Qed.

Lemma formatToman_roundtrip_witness :
  formatToman 1234567 = "1,234,567" ∧ ParseInt (remove_commas (formatToman 1234567)) = Some 1234567.
Proof. split; [reflexivity|]. apply (formatToman_roundtrip 1234567). split; done. Defined.

(** ** The ledger *)

(** A payment of another building, with the manager granted only the first. *)
Definition two_buildings_db : DB :=
  set_payments {[ 7%N := MkPayment 7 20 200 None MethodManual 5000 (DateUTC 2026 4 1) None None None
                          (Some 2%N) StatusVerified 1 1 ]} issued_db.

(** The ledger of a building does not stay within it: the filter prefers a unit
    over the building it was authorised for, so a manager of one building who
    asks for a unit of another gets that unit's payments. *)
Theorem ledger_leaks_other_building :
  let f := MkPaymentFilter 0 200 [] None None "" 1 20 in
  db_user_buildings two_buildings_db !! (us_ID sample_manager, 20%N) = None ∧
  (pay_BuildingID ∘ pvw_Payment <$>
     from_option fst [] (result (run (BuildingLedger sample_manager 10 f) two_buildings_db).1)) = [20%N].
Proof. vm_compute. split; reflexivity. Qed.

(** ** Zarinpal *)

(** The Zarinpal adapter asks for ten times the amount in Toman, that is the
    amount in Rial, and confirms only what the provider answered without errors
    and with code 100 or 101. *)
Theorem zarinpal_Verify_sound {api : ZarinpalAPI} z authority amount env w r :
  in64 (amount * 10) →
  (zarinpal_Verify z authority amount env w).1 = Ok r →
  vr_OK r = true ∧ ∃ answer,
    zp_post (w_tick w) ("https://" +:+ zarinpal_host z +:+ "/pg/v4/payment/verify.json")
      [("merchant_id", PText (MerchantID z)); ("amount", PInt (amount * 10));
       ("authority", PText authority)] = Ok answer ∧
    ze_Errors answer = [] ∧
    int64_of_float (as_float64 (json_lookup "code" (ze_Data answer))) ∈ [100; 101].
Proof.
  intros Hr. unfold zarinpal_Verify, post, mbind, M_bind, zarinpalRial, mul64.
  rewrite wrap64_id by done.
  destruct (zp_post _ _ _) as [answer|e|s] eqn:E; [|done..].
  destruct (ze_Errors answer) eqn:Ee; [|done]. cbv zeta.
  destruct (_ || _) eqn:Ec; [|done]. intros [= <-]. split; [done|].
  exists answer. split_and!; [reflexivity|done|].
  apply orb_prop in Ec as [Ec|Ec]; apply Z.eqb_eq in Ec; rewrite Ec; [by left|by right; left].
Qed.

(** A provider that always confirms. *)
Definition yes_api : ZarinpalAPI := {|
  zp_post _ _ _ := Ok (MkZarinpalEnvelope (Some [("code", JNumber (float64_of_Z 100));
    ("ref_id", JString "r1")]) []);
  zp_text _ := "";
|}.

Lemma zarinpal_Verify_sound_witness :
  (@zarinpal_Verify yes_api (MkZarinpal "m" true) "A1" 2500 sample_env (sample_world issued_db)).1
    = Ok (MkVerifyResult true "r1") ∧ vr_OK (MkVerifyResult true "r1") = true.
Proof.
  split; [vm_compute; reflexivity|].
  apply (@zarinpal_Verify_sound yes_api (MkZarinpal "m" true) "A1" 2500 sample_env
    (sample_world issued_db)); [split; done|vm_compute; reflexivity].
Defined.
