(* ===== verification/HandlerTheorems.v ===== *)
(** * Theorems on the handlers

    What an endpoint shows and to whom, what it leaves in the trail, and what its
    parameters mean. *)

From Stdlib Require Import Ascii DecimalString SpecFloat Sorting.Sorted.
From S2P Require Import Prelude Golang Calendar Errors Models Store Schema Logic Net Gateway Notification Crypto Token Invite Password AuthUser AuthHandlers BillingRepo BuildingRepo BuildingService Occupancy Calc Period PaymentRepo PaymentService Http Maintenance Expense Announcement Dashboard NotificationHandlers BuildingHandlers BillingHandlers CalendarSpec PaymentHandlers Middleware Config BillingLemmas BuildingSpec AuthSpec PanelSpec PaymentSpec Server ServerRun Sample AuthTheorems PanelTheorems BuildingTheorems BillingTheorems SystemTheorems PaymentTheorems ServerTheorems.

Lemma pair_snd {A B} (p : A * B) a : p.1 = a → p = (a, p.2).
Proof. destruct p. by intros <-. Qed.

(** ** The trail an audited handler leaves *)

(** A successful answer of an audited handler, and the entry it appended unless
    the statement failed. *)
Lemma audited_trail {codec : UuidCodec} {A} action ot c (m : M (Reply A * Audited)) env w r w' :
  audited action ot c m env w = (Ok r, w') →
  ∃ a w1, m env w = (Ok (r, a), w1) ∧
    (reply_status r < 400 → env_fault env (w_tick w1) = None →
     w_db w' = set_audit_logs (db_audit_logs (w_db w1) ++
       [MkAuditLog (us_ID <$> hc_User c) action ot (ctx_object_id (ad_Object a)) (ad_Before a)
          (ad_After a) (env_now env (w_tick w1))]) (w_db w1)).
Proof.
  unfold audited, Audit_Middleware, Audit_Append, ignore_err, attempt, stmt. unfold mbind, M_bind, mret, M_ret.
  destruct (m env w) as [[[r1 a]|e|s] w1] eqn:E; cbn; [|by intros [=]..]. rewrite Z.geb_leb.
  destruct (Z.leb_spec 400 (reply_status r1)); cbn.
  { intros [= <- <-]. exists a, w1. split; [done|lia]. }
  destruct (env_fault env (w_tick w1)) eqn:Ef; cbn; intros [= <- <-];
    exists a, w1; (split; [done|]); intros _; rewrite Ef; done.
Qed.

Lemma replying_audited_Ok {A} err (m : M (Reply A * Audited)) env w status (a : A) ad w' :
  replying_audited err m env w = (Ok (ReplyJSON status a, ad), w') →
  m env w = (Ok (ReplyJSON status a, ad), w').
Proof.
  unfold replying_audited, attempt. unfold mbind, M_bind, mret, M_ret.
  destruct (m env w) as [[[r1 a1]|e|s] w1]; cbn; intros [=]; congruence.
Qed.

Lemma replying_Ok {A} err (m : M (Reply A)) env w status (a : A) w' :
  replying err m env w = (Ok (ReplyJSON status a), w') → m env w = (Ok (ReplyJSON status a), w').
Proof.
  unfold replying, attempt. unfold mbind, M_bind, mret, M_ret.
  destruct (m env w) as [[r1|e|s] w1]; cbn; intros [=]; congruence.
Qed.

Lemma reads_requireManager c d :
  reads (requireManager c) d (λ u, hc_User c = Some u ∧ us_Role u = RoleManager).
Proof.
  unfold requireManager. destruct (hc_User c) as [u|]; [|apply reads_fail].
  case_bool_decide; [by apply reads_ret|apply reads_fail].
Qed.

Lemma reads_param_id {codec : UuidCodec} c name d :
  reads (param_id c name) d (λ id, uuid_Parse (hc_Param c name) = Some id).
Proof. unfold param_id. case_match; [by apply reads_ret|apply reads_fail]. Qed.

Lemma holds_reads_bind {A B} (m : M A) (f : A → M B) d P (Q : Res B → DB → Prop) :
  reads m d P → (∀ a, P a → holds (f a) d Q) → (∀ e, Q (Err e) d) → (∀ s, Q (Panic s) d) →
  holds (m ≫= f) d Q.
Proof.
  intros Hm Hf He Hs. apply holds_bind. eapply holds_mono; [exact Hm|].
  intros [a|e|s] d' [-> Ha]; cbn [after]; auto.
Qed.

(** ** The history of a unit *)

#[local] Instance newest_log_strict : StrictWeak newest_log.
Proof. split; unfold newest_log; intros *; rewrite ?Z.ltb_lt, ?Z.ltb_ge; lia. Qed.

Lemma elem_of_unit_log id d l : l ∈ unit_log id d ↔ l ∈ db_audit_logs d ∧ about_unit id l = true.
Proof.
  unfold unit_log. rewrite sort_by_Permutation, !list_elem_of_In, filter_In, <- in_rev. done.
Qed.

(** A successful update: the unit before, and what is left for the trail. *)
Definition UnitUpdated {codec : UuidCodec} (c : HttpCall) (d : DB) (r : Res (Reply Unit * Audited))
    (d' : DB) : Prop :=
  match r with
  | Ok (rep, a) => ∃ mgr id before after_, rep = ReplyJSON 200 after_ ∧ hc_User c = Some mgr ∧
      uuid_Parse (hc_Param c "id") = Some id ∧ row_at d id = Some before ∧
      a = left_object id (Some (SnUnit before)) (Some (SnUnit after_)) ∧
      db_audit_logs d' = db_audit_logs d
  | _ => True
  end.

Lemma holds_updateUnit {codec : UuidCodec} {map_order : MapOrder} c body d :
  holds (mgr ← requireManager c; id ← param_id c "id"; i ← bind_body msgNumberRequired body;
         '(u, before) ← UpdateUnit (Some mgr) id i;
         mret (ReplyJSON 200 u, left_object id (Some (SnUnit before)) (Some (SnUnit u)))) d
    (UnitUpdated c d).
Proof.
  eapply holds_reads_bind; [apply reads_requireManager| |done..]. intros mgr [Hu _].
  eapply holds_reads_bind; [apply reads_param_id| |done..]. intros id Hid.
  eapply (holds_reads_bind _ _ _ (λ _, True)); [destruct body; [by apply reads_ret|apply reads_fail]| |done..].
  intros i _. apply holds_bind. unfold UpdateUnit.
  eapply holds_reads_bind; [apply reads_authorizedUnit| |done..]. intros before [Hrow _].
  eapply (holds_reads_bind _ _ _ (λ _, True)); [by apply reads_lift| |done..]. intros after_ _.
  apply holds_bind, holds_map_err. unfold UpdateUnit_row. apply holds_map_err.
  eapply (holds_mono _ _ (λ _ d', db_audit_logs d' = db_audit_logs d)).
  { apply (keeps_Save db_audit_logs). }
  intros [u|e|s] d' Hlog; cbn [after]; [|done..].
  apply holds_ret. cbn [after]. apply holds_ret. cbn. by exists mgr, id, before, u.
Qed.

(** C17: a unit's update that was recorded is in the unit's history ever after:
    when the handler answered 200 and no statement failed, then after any further
    requests the history of that unit, newest first, holds the entry with the
    manager, the unit as it was and the unit as it became; and the history is
    nothing but the trail's entries about the unit. *)
Theorem unit_update_in_history {codec : UuidCodec} {jwt : JwtLibrary} {bcrypt : Bcrypt}
    {unicode : UnicodeTables} {map_order : MapOrder} {pusher : PushNotifier}
    {gateway : PaymentGateway} {gateway_ok : GatewayOk} {loc : Location} {dates : RequiredDates}
    (sv : Server) (c c' : HttpCall) (body : option UnitInput) (env env' : Env) (w w1 w2 w3 : World)
    (u : Unit) (items : list AuditLog)
    (Hfaultless : ∀ t, env_fault env t = None)
    (Hupdate : updateUnit c body env w = (Ok (ReplyJSON 200 u), w1))
    (Hrun : rtc (server_step sv) (w_db w1) (w_db w2))
    (Hsame : hc_Param c' "id" = hc_Param c "id")
    (Hhistory : unitHistory c' env' w2 = (Ok (ReplyJSON 200 items), w3)) :
  ∃ id mgr before at_, uuid_Parse (hc_Param c "id") = Some id ∧ hc_User c = Some mgr ∧
    row_at (w_db w) id = Some before ∧
    MkAuditLog (Some (us_ID mgr)) "unit.update" "unit" (Some id) (Some (SnUnit before))
      (Some (SnUnit u)) at_ ∈ items ∧
    StronglySorted (sort_le newest_log) items ∧
    ∀ l, l ∈ items ↔ l ∈ db_audit_logs (w_db w2) ∧ about_unit id l = true.
Proof.
  unfold updateUnit in Hupdate. apply audited_trail in Hupdate as (a & wm & Hm & Hlog).
  apply replying_audited_Ok in Hm. specialize (Hlog ltac:(done) (Hfaultless _)).
  pose proof (holds_updateUnit c body (w_db w) env w eq_refl) as H. rewrite Hm in H. cbn in H.
  destruct H as (mgr & id & before & after_ & [= <-] & Hu & Hid & Hrow & -> & Hkeep).
  apply replying_Ok in Hhistory.
  assert (holds (mgr ← requireManager c'; id ← param_id c' "id"; GetUnit (Some mgr) id;;
    items ← as_internal "خطا در دریافت تاریخچه تغییرات." (query (unit_log id));
    mret (ReplyJSON 200 items)) (w_db w2) (λ r _, ∀ l, r = Ok (ReplyJSON 200 l) → l = unit_log id (w_db w2)))
    as Hitems.
  { eapply holds_reads_bind; [apply reads_requireManager| |done..]. intros ? _.
    eapply holds_reads_bind; [apply reads_param_id| |done..]. rewrite Hsame, Hid. intros ? [= <-].
    eapply holds_reads_bind; [apply reads_authorizedUnit| |done..]. intros ? _.
    eapply (holds_reads_bind _ _ _ (eq (unit_log id (w_db w2)))).
    - by apply reads_map_err, reads_query.
    - intros ? <-. apply holds_ret. congruence.
    - done.
    - done. }
  specialize (Hitems env' w2 eq_refl). rewrite Hhistory in Hitems. specialize (Hitems items eq_refl).
  destruct (upheld_run _ upheld_trail sv _ _ Hrun) as [l Hgrow].
  exists id, mgr, before, (env_now env (w_tick wm)). subst items. split_and!; try done.
  - apply elem_of_unit_log. split; [|cbn; unfold about_unit; by rewrite !bool_decide_eq_true_2].
    rewrite Hgrow, Hlog, Hu. cbn. rewrite !elem_of_app. left. right. by left.
  - apply sort_by_sorted, _.
  - intros x. apply elem_of_unit_log.
Qed.

(** ** Who sees an invoice *)

(** The invoice's building is the manager's, or the reader lives in its unit. *)
Definition invoice_reader (d : DB) (u : User) (inv : Invoice) : Prop :=
  us_Role u = RoleManager ∧ is_Some (db_user_buildings d !! (us_ID u, inv_BuildingID inv)) ∨
  ∃ o, o ∈ occupied_by (us_Phone u) d ∧ o_UnitID o = inv_UnitID inv.

Lemma reads_billing_user c d : reads (billing_user c) d (λ u, hc_User c = Some u).
Proof. unfold billing_user. destruct (hc_User c); [by apply reads_ret|apply reads_fail]. Qed.

Lemma reads_parse_id {codec : UuidCodec} c name d :
  reads (parse_id c name) d (λ id, uuid_Parse (hc_Param c name) = Some id).
Proof. unfold parse_id. case_match; [by apply reads_ret|apply reads_fail]. Qed.

Lemma reads_GetInvoice id d :
  reads (GetInvoice id) d (λ v, row_at d id = Some (ivw_Invoice (ivd_View v))).
Proof.
  unfold GetInvoice. eapply (reads_bind _ _ _ (λ v, row_at d id = Some (ivw_Invoice v))).
  - apply holds_stmt; [done|]. intros _ _. destruct (row_at d id) as [inv|]; cbn; [|done].
    split; [done|]. by intros ? [= <-].
  - intros v Hv. eapply (reads_bind _ _ _ (λ _, True)); [by apply reads_Find|]. intros items _.
    eapply (reads_bind _ _ _ (λ _, True)); [by apply reads_Find|]. intros adjs _. by apply reads_ret.
Qed.

Lemma lives_there (units : list UUID) (uid : UUID) :
  existsb (λ x, bool_decide (x = uid)) units = true ↔ uid ∈ units.
Proof.
  rewrite existsb_exists. setoid_rewrite <- list_elem_of_In. setoid_rewrite bool_decide_eq_true. naive_solver.
Qed.

Lemma reads_units phone d :
  reads (Scope_ResidentUnitIDs phone) d (λ l, ∀ uid, uid ∈ l ↔
    ∃ o, o ∈ occupied_by phone d ∧ o_UnitID o = uid).
Proof.
  apply reads_query. intros uid. rewrite elem_of_remove_dups, list_elem_of_fmap. naive_solver.
Qed.

Lemma reads_invoice_allowed u inv d : reads (invoice_allowed u inv) d (λ _, invoice_reader d u inv).
Proof.
  unfold invoice_allowed. case_bool_decide as Hr.
  - eapply reads_bind; [by apply (reads_query _ _ (eq (bool_decide
      (is_Some (db_user_buildings d !! (us_ID u, inv_BuildingID inv))))))|].
    intros ok <-. case_bool_decide as Hg; simpl; [apply reads_ret; by left|apply reads_fail].
  - eapply reads_bind; [apply reads_units|]. intros units Hunits. apply reads_guard.
    intros E%lives_there%Hunits. by right.
Qed.

(** What an endpoint that shows one invoice answers. *)
Definition shown {codec : UuidCodec} (c : HttpCall) (d : DB) (allowed : User → Invoice → Prop)
    (r : Res (Reply InvoiceDetail)) : Prop :=
  ∀ v, r = Ok (ReplyJSON 200 v) → ∃ u id, hc_User c = Some u ∧
    uuid_Parse (hc_Param c "id") = Some id ∧ row_at d id = Some (ivw_Invoice (ivd_View v)) ∧
    allowed u (ivw_Invoice (ivd_View v)).

Lemma holds_shown {codec : UuidCodec} c d allowed (m : M (Reply InvoiceDetail)) err :
  reads m d (λ r, shown c d allowed (Ok r)) →
  holds (replying err m) d (λ r d', d' = d ∧ shown c d allowed r).
Proof.
  intros H. unfold replying. apply holds_bind, holds_attempt. eapply holds_mono; [exact H|].
  intros [r|e|s] d' [-> Hr]; cbn [after]; [| |by split].
  - apply holds_ret. split; [done|]. by apply Hr.
  - apply holds_ret. by split.
Qed.

(** C18: an invoice is shown only to the people it is for: the endpoints change no
    table, and an invoice in the answer is the stored one of the id in the path;
    the general endpoint shows it to a manager of its building or to somebody who
    lives in its unit, the resident's endpoint to the latter only. *)
Theorem invoice_shown_to_its_people {codec : UuidCodec} (c : HttpCall) (env : Env) (w : World) :
  let d := w_db w in
  let '(r, w1) := getInvoice c env w in
  let '(r', w2) := myInvoice c env w in
  w_db w1 = d ∧ shown c d (invoice_reader d) r ∧
  w_db w2 = d ∧ shown c d (λ u inv, ∃ o, o ∈ occupied_by (us_Phone u) d ∧ o_UnitID o = inv_UnitID inv) r'.
Proof.
  intros d. assert (holds (getInvoice c) d (λ r d', d' = d ∧ shown c d (invoice_reader d) r)) as H1.
  { unfold getInvoice. apply holds_shown.
    eapply reads_bind; [apply reads_billing_user|]. intros u Hu.
    eapply reads_bind; [apply reads_parse_id|]. intros id Hid.
    eapply reads_bind; [apply reads_GetInvoice|]. intros v Hv.
    eapply reads_bind; [apply reads_invoice_allowed|]. intros [] Ha.
    apply reads_ret. intros ? [= <-]. by exists u, id. }
  assert (holds (myInvoice c) d (λ r d', d' = d ∧ shown c d (λ u inv, ∃ o,
    o ∈ occupied_by (us_Phone u) d ∧ o_UnitID o = inv_UnitID inv) r)) as H2.
  { unfold myInvoice. apply holds_shown.
    eapply reads_bind; [apply reads_billing_user|]. intros u Hu.
    eapply reads_bind; [apply reads_parse_id|]. intros id Hid.
    eapply reads_bind; [apply reads_GetInvoice|]. intros v Hv.
    eapply reads_bind; [apply reads_units|]. intros units Hunits.
    destruct (existsb _ _) eqn:E; [|apply reads_fail]. apply lives_there, Hunits in E.
    apply reads_ret. intros ? [= <-]. by exists u, id. }
  specialize (H1 env w eq_refl). specialize (H2 env w eq_refl).
  destruct (getInvoice c env w) as [r w1], (myInvoice c env w) as [r' w2].
  destruct H1, H2. by split_and!.
Qed.

(** ** Numbers in the query *)

(** Billing's own reader of a page number agrees with the one of the other
    packages on every unsigned number below 2^63; beyond, it wraps where the
    other one falls back to the default. A text that is no unsigned number gives
    the default; the other one takes a leading plus sign. *)
Theorem billing_atoi_agrees (s : string) (d : Z) :
  match parse_digits s with
  | Some v =>
      if v <? 2 ^ 63 then billing_atoiDefault s d = atoiDefault s d
      else atoiDefault s d = d ∧
           billing_atoiDefault s d = (if wrap64 v =? 0 then d else wrap64 v)
  | None => billing_atoiDefault s d = d ∧ (HasPrefix s "+" = false → atoiDefault s d = d)
  end.
Proof.
  unfold billing_atoiDefault, atoiDefault. destruct s as [|ch s]; [by split|].
  rewrite !bool_decide_eq_false_2 by done. set (t := String ch s).
  assert (parse_digits t = Z.of_uint <$> NilEmpty.uint_of_string t) as -> by done.
  destruct (NilEmpty.uint_of_string t) as [u|] eqn:E; cbn [fmap option_fmap option_map].
  - rewrite appended_of_uint. pose proof (appended_nonneg u 0 ltac:(lia)) as Hpos.
    change 0 with (wrap64 0) at 2 4. rewrite (digits_loop_Some _ _ 0 E).
    rewrite (ParseInt_digits _ _ E) by done. rewrite appended_of_uint.
    destruct (Z.ltb_spec (appended 0 u) (2 ^ 63)).
    + rewrite decide_True, wrap64_id by (unfold in64; lia).
      destruct (Z.eqb_spec (appended 0 u) 0), (Z.ltb_spec (appended 0 u) 1); done || lia.
    + rewrite decide_False by (unfold in64; lia). done.
  - rewrite digits_loop_None by done. split; [done|]. intros Hplus.
    destruct (ParseInt t) as [n|] eqn:Ep; [|done].
    destruct (Z.ltb_spec n 1); [done|]. pose proof (ParseInt_signed _ _ E Ep Hplus). lia.
Qed.

(** ** On the sample building *)

#[local] Existing Instances plain_jwt plain_bcrypt plain_unicode source_order NoopNotifier tehran.
#[local] Existing Instances MockGateway Mock_ok any_date PaymentBalances PaymentHook.

Definition ninth : option UnitInput :=
  Some (MkUnitInput "9" None None None None None None None None None).

Definition shown_unit (r : Res (Reply Unit)) : option Unit :=
  match r with Ok (ReplyJSON _ u) => Some u | _ => None end.
Definition shown_logs (r : Res (Reply (list AuditLog))) : list AuditLog :=
  match r with Ok (ReplyJSON _ l) => l | _ => [] end.

Definition renaming : Res (Reply Unit) * World :=
  updateUnit (call_on sample_manager 100) ninth sample_env (sample_world april_building).
Definition reading : Res (Reply (list AuditLog)) * World :=
  unitHistory (call_on sample_manager 100) sample_env renaming.2.
Definition ninth_unit : Unit := default (sample_unit 100 "1" 80 "occupied") (shown_unit renaming.1).

Lemma unit_update_in_history_witness :
  ∃ before at_, MkAuditLog (Some 1%N) "unit.update" "unit" (Some 100%N) (Some (SnUnit before))
    (Some (SnUnit ninth_unit)) at_ ∈ shown_logs reading.1.
Proof.
  destruct (unit_update_in_history sample_server (call_on sample_manager 100)
    (call_on sample_manager 100) ninth sample_env sample_env (sample_world april_building) renaming.2
    renaming.2 reading.2 ninth_unit (shown_logs reading.1))
    as (id & mgr & before & at_ & Hid & Hu & _ & Hin & _).
  - done.
  - vm_compute. reflexivity.
  - reflexivity.
  - done.
  - vm_compute. reflexivity.
  - exists before, at_. vm_compute in Hid. injection Hid as <-. injection Hu as <-. exact Hin.
Defined.

(** ** The gateway's callback *)

(** C40: the callback is public, and the redirect it answers with never leaves the
    configured origin, whatever the provider or an attacker put in the query: it
    is the origin without its trailing slashes, a slash, a text that starts
    neither with a slash nor with a backslash, and a query; without a configured
    origin there is no redirect. *)
Theorem callback_stays_on_site {codec : UuidCodec} {pusher : PushNotifier}
    {gateway : PaymentGateway} (cfg : PaymentConfig) (c : HttpCall) (env : Env) (w w' : World)
    (status : Z) (a : CallbackAnswer)
    (Hcall : gatewayCallback cfg c env w = (Ok (ReplyJSON status a), w')) :
  let base := TrimRight_slash (cfg_webReturn cfg) in
  match a with
  | CallbackRedirect location => status = 302 ∧ base ≠ "" ∧ ∃ rest query,
      location = base +:+ String "/" rest +:+ "?" +:+ query ∧
      HasPrefix rest "/" = false ∧ HasPrefix rest (String backslash "") = false
  | CallbackResult _ _ _ _ => status = 200 ∧ base = ""
  end.
Proof.
  intros base. apply replying_Ok in Hcall. revert Hcall. unfold mbind, M_bind, mret, M_ret.
  destruct (HandleCallback _ _ env w) as [[p|e|s] w1]; [|by intros [=]..]. intros [= Ha _].
  unfold callback_answer in Ha.
  set (inv := match pay_InvoiceID p with Some id => uuid_String id | None => "" end) in Ha.
  pose proof (BrowserReturnURL_same_origin cfg (hc_Query c "return_path") (uuid_String (pay_ID p))
    (pay_Status p) inv) as H. cbv zeta in H. fold base in H.
  case_bool_decide as Hbase.
  - rewrite H in Ha. cbn in Ha. by injection Ha as <- <-.
  - destruct H as (rest & query & E & H1 & H2). rewrite E in Ha.
    rewrite bool_decide_eq_false_2 in Ha.
    + injection Ha as <- <-. split_and!; [done..|]. by exists rest, query.
    + destruct base; [done|]. by intros [=].
Qed.

(** A callback for a payment of the sample, from a browser. *)
Definition callback_of (path : string) : HttpCall :=
  MkHttpCall None (λ _, "") (λ name,
    if String.eqb name "payment_id" then uuid_String 100505
    else if String.eqb name "return_path" then path else "").

Definition web_cfg : PaymentConfig := NewPaymentService "https://api.test/callback" "https://app.test/".

Definition called_back : Res (Reply CallbackAnswer) * World :=
  gatewayCallback web_cfg (callback_of "//evil.test") sample_env started_world.

Definition redirected (r : Res (Reply CallbackAnswer)) : CallbackAnswer :=
  match r with Ok (ReplyJSON _ a) => a | _ => CallbackRedirect "" end.

Lemma called_back_answer : called_back.1 = Ok (ReplyJSON 302 (redirected called_back.1)).
Proof. vm_compute. reflexivity. Qed.

Lemma callback_stays_on_site_witness :
  ∃ rest query, redirected called_back.1 = CallbackRedirect ("https://app.test/" +:+ rest +:+ "?" +:+ query).
Proof.
  pose proof (callback_stays_on_site web_cfg (callback_of "//evil.test") sample_env started_world
    called_back.2 302 (redirected called_back.1) (pair_snd _ _ called_back_answer)) as H.
  destruct (redirected called_back.1) as [location|p s i d].
  - destruct H as (_ & _ & rest & query & -> & _). exists rest, query. reflexivity.
  - exfalso. destruct H as [H _]. discriminate H.
Defined.

(** ** What the trail and the filters miss *)

(** A recorded manual payment leaves an entry without the payment: the handler
    puts nothing into the context of the audit middleware. *)
Theorem manual_payment_trail_blank {codec : UuidCodec} {pusher : PushNotifier} (c : HttpCall)
    (body : option ManualPaymentInput) (env : Env) (w w' : World) (p : Payment)
    (Hfaultless : ∀ t, env_fault env t = None)
    (Hcall : recordManual c body env w = (Ok (ReplyJSON 201 p), w')) :
  ∃ logs at_, db_audit_logs (w_db w') = logs ++
    [MkAuditLog (us_ID <$> hc_User c) "payment.record" "payment" None None None at_].
Proof.
  unfold recordManual in Hcall. apply audited_trail in Hcall as (a & w1 & Hm & Hlog).
  specialize (Hlog ltac:(done) (Hfaultless _)). apply replying_audited_Ok in Hm.
  assert (a = not_audited) as ->.
  { match type of Hm with ?m env w = _ => assert (answers_as (λ x, x.2 = not_audited) m) as Has end.
    { repeat (apply answers_as_bind; intros). by apply answers_as_ret. }
    specialize (Has (w_db w) env w eq_refl). rewrite Hm in Has. by apply (Has (ReplyJSON 201 p, a)). }
  rewrite Hlog. by eexists _, _.
Qed.

(** The settings of the sample: April is billed, one manual payment is dated the
    first of April. *)
Definition query_of (u : User) (id : UUID) (name v : string) : HttpCall :=
  MkHttpCall (Some u) (λ _, uuid_String id) (λ n, if String.eqb n name then v else "").

Definition ledger_total (to_ : string) (d : DB) : option Z :=
  match (buildingLedger (query_of sample_manager 10 "to" to_) sample_env (sample_world d)).1 with
  | Ok (ReplyJSON _ pg) => Some (pg_Total _ pg)
  | _ => None
  end.

Lemma manual_payment_trail_blank_witness :
  ∃ logs at_ w' p, recordManual (call_on sample_manager 100011) (Some pay_100) sample_env
    (sample_world issued_db) = (Ok (ReplyJSON 201 p), w') ∧
  db_audit_logs (w_db w') = logs ++
    [MkAuditLog (Some 1%N) "payment.record" "payment" None None None at_].
Proof.
  set (x := recordManual (call_on sample_manager 100011) (Some pay_100) sample_env (sample_world issued_db)).
  assert (∃ q, x.1 = Ok (ReplyJSON 201 q)) as [q Hq%pair_snd] by (eexists; vm_compute; reflexivity).
  destruct (manual_payment_trail_blank (call_on sample_manager 100011) (Some pay_100) sample_env
    (sample_world issued_db) x.2 q) as (logs & at_ & H); [done|exact Hq|].
  exists logs, at_, x.2, q. split; [exact Hq|exact H].
Defined.

(** The date to which the ledger is read takes the day after along: the bound is
    the next midnight, inclusive, and a manual payment is dated at midnight. *)
Theorem ledger_to_takes_next_day :
  ledger_total "2026-03-30" (w_db paid_world) = Some 0 ∧
  ledger_total "2026-03-31" (w_db paid_world) = Some 1 ∧
  pay_PaidAt <$> (rows (w_db paid_world) : list Payment) = [DateUTC 2026 4 1].
Proof. vm_compute. split_and!; reflexivity. Qed.

(** A manager without the building is refused it with a 403, and its units with a
    500: the list of units turns every error of the service into one. *)
Theorem listUnits_refusal_is_500 :
  (status_of (getBuilding (call_on sample_stranger 10)) sample_env (sample_world april_building)).1 = Ok 403 ∧
  (status_of (listUnits (call_on sample_stranger 10)) sample_env (sample_world april_building)).1 = Ok 500.
Proof. vm_compute. split; reflexivity. Qed.

(** A new resident is audited under the unit's id but as an "occupancy": the
    history of the unit does not show it. *)
Theorem occupancy_change_not_in_history :
  let '(r, w) := addOccupancy (call_on sample_manager 101) (Some next_tenant) sample_env
    (sample_world april_building) in
  (λ a, reply_status a) <$> result r = Some 201 ∧
  au_ObjectID <$> db_audit_logs (w_db w) = [Some 101%N] ∧
  shown_logs (unitHistory (call_on sample_manager 101) sample_env w).1 = [].
Proof. vm_compute. split_and!; reflexivity. Qed.

Lemma billing_atoi_agrees_witness : billing_atoiDefault "-3" 20 = 20 ∧ atoiDefault "-3" 20 = 20.
Proof.
  destruct (billing_atoi_agrees "-3" 20) as [H1 H2]. split; [exact H1|]. apply H2. reflexivity.
Defined.
