(* ===== verification/PlatformTheorems.v ===== *)
(** * Theorems on the platform

    The configuration a server starts with, and the origins it answers with
    credentials. *)

From S2P Require Import Prelude Golang Errors Models Store Schema Logic Net Gateway AuthHandlers PaymentService Http Maintenance Announcement Dashboard PanelSpec Middleware Config Storage Server Sample.

(** ** Configuration *)

(** What [validate] accepts. *)
Record ValidConfig (cfg : Config) : Prop := {
  vc_env : App_Env cfg = "dev" ∨ App_Env cfg = "production";
  vc_addr : App_Addr cfg ≠ "";
  vc_dsn : DB_DSN cfg ≠ "";
  vc_secret : Auth_JWTSecret cfg ≠ "";
  vc_ttls : 0 < Auth_AccessTTL cfg ∧ 0 < Auth_RefreshTTL cfg;
  vc_storage : Storage_Path cfg ≠ "";
}.

Lemma validate_None cfg : validate cfg = None ↔ ValidConfig cfg.
Proof.
  unfold validate. split.
  - repeat case_bool_decide; cbn; try done; destruct (Z.leb_spec (Auth_AccessTTL cfg) 0),
      (Z.leb_spec (Auth_RefreshTTL cfg) 0); cbn; try done; intros _; split; auto.
  - intros [H ? ? ? [? ?] ?].
    assert (negb (bool_decide (App_Env cfg = "dev")) && negb (bool_decide (App_Env cfg = "production"))
            = false) as -> by (destruct H as [-> | ->]; reflexivity).
    rewrite !bool_decide_eq_false_2 by done.
    destruct (Z.leb_spec (Auth_AccessTTL cfg) 0), (Z.leb_spec (Auth_RefreshTTL cfg) 0); done || lia.
Qed.

Lemma Load_valid os cfg : Load os = Ok cfg → ValidConfig cfg.
Proof.
  unfold Load. repeat case_match; try done. intros [= <-]. by apply validate_None.
Qed.

(** The variables of the environment and the fields they override. *)
Definition overridden : list (string * (Config → string)) :=
  [("HAMSA_APP_ENV", App_Env); ("HAMSA_WEB_RETURN_URL", App_WebReturnURL); ("HAMSA_DB_DSN", DB_DSN);
   ("HAMSA_JWT_SECRET", Auth_JWTSecret); ("HAMSA_PAYMENT_PROVIDER", Payment_Provider)].

(** The process starts exactly with a configuration that was read, decoded
    over the defaults, overridden by the environment and found valid; a variable
    of the environment that is set wins over the file, one that is not leaves the
    file's value, and the server wired from a production configuration marks its
    cookies secure. *)
Theorem Load_sound (os : OS) :
  match Load os with
  | Ok cfg => ∃ raw parsed, ReadFile os (config_path os) = FileText raw ∧
      yaml_Unmarshal os raw default_config = inl parsed ∧ ValidConfig cfg ∧
      (∀ name field, (name, field) ∈ overridden →
        field cfg = if bool_decide (Getenv os name = "") then field parsed else Getenv os name) ∧
      (Auth_AccessTTL cfg, Auth_RefreshTTL cfg, App_Addr cfg, Storage_Path cfg, CORS_AllowedOrigins cfg)
        = (Auth_AccessTTL parsed, Auth_RefreshTTL parsed, App_Addr parsed, Storage_Path parsed,
           CORS_AllowedOrigins parsed) ∧
      (App_Env cfg = "production" → h_Secure (sv_Auth (server_of cfg)) = true)
  | Err _ => ∀ raw parsed, ReadFile os (config_path os) = FileText raw →
      yaml_Unmarshal os raw default_config = inl parsed → ¬ ValidConfig (applyEnvOverrides os parsed)
  | Panic _ => False
  end.
Proof.
  unfold Load. destruct (ReadFile os (config_path os)) as [raw| |e]; [|done..].
  destruct (yaml_Unmarshal os raw default_config) as [parsed|e] eqn:Ey; cycle 1.
  { intros ? ? [= <-]. rewrite Ey. by intros [=]. }
  destruct (validate (applyEnvOverrides os parsed)) as [e|] eqn:Ev.
  - intros raw' parsed' [= <-] E. rewrite Ey in E. injection E as <-.
    intros H%validate_None. congruence.
  - apply validate_None in Ev. exists raw, parsed. split_and!; try done.
    + intros name field. unfold overridden. rewrite !elem_of_cons, elem_of_nil.
      intros [E|[E|[E|[E|[E|[]]]]]]; injection E as -> ->; reflexivity.
    + intros E. unfold server_of, IsDev. simpl in E |- *. by rewrite E.
Qed.

(** Any other provider than "zarinpal", a misspelt one in production included, is
    valid and wires the mock, which confirms every payment. *)
Theorem unknown_provider_is_mock {api : ZarinpalAPI} (cfg : Config) :
  Payment_Provider cfg ≠ "zarinpal" → gateway_of cfg = MockGateway.
Proof. intros H. unfold gateway_of. by rewrite bool_decide_eq_false_2. Qed.

(** ** Origins *)

(** The answer allows credentials only to an origin that the configuration
    lists by name (up to case and trailing slashes) and that it echoes, telling
    caches so; every origin is allowed only by the single entry "*", and then
    without credentials; an origin that is neither listed nor covered is allowed
    nothing; and a request that names no origin is never allowed credentials. *)
Theorem CORS_credentials_listed {tables : CaseTables} (allowedOrigins : list string) (origin : string) :
  let h := CORS allowedOrigins origin in
  AllowCredentials h = VaryOrigin h ∧
  (AllowCredentials h = true ↔ allowedOrigins ≠ ["*"] ∧ origin ≠ "" ∧ ∃ o,
     o ∈ allowedOrigins ∧ o ≠ "" ∧ o ≠ "*" ∧ normal_origin o = normal_origin origin) ∧
  AllowOrigin h = (if decide (allowedOrigins = ["*"]) then Some "*"
                   else if AllowCredentials h then Some origin else None).
Proof.
  cbv zeta. unfold CORS. cbn [AllowCredentials VaryOrigin AllowOrigin].
  assert (allow_all allowedOrigins = bool_decide (allowedOrigins = ["*"])) as ->.
  { unfold allow_all. destruct allowedOrigins as [|o [|]]; try (by rewrite bool_decide_eq_false_2).
    apply bool_decide_ext. naive_solver. }
  split; [done|]. split.
  - rewrite !andb_true_iff, !negb_true_iff, !bool_decide_eq_false, bool_decide_eq_true.
    unfold allowed_set. rewrite list_elem_of_fmap.
    setoid_rewrite list_elem_of_In. setoid_rewrite filter_In.
    setoid_rewrite andb_true_iff. setoid_rewrite negb_true_iff. setoid_rewrite bool_decide_eq_false.
    setoid_rewrite <- list_elem_of_In. naive_solver.
  - destruct (decide (allowedOrigins = ["*"])); [by rewrite bool_decide_eq_true_2|].
    by rewrite (bool_decide_eq_false_2 (allowedOrigins = ["*"])).
Qed.

(** An empty list of origins does not disable the headers: a request with an
    origin is still told the methods, the headers and the age. *)
Theorem empty_origins_still_answer {tables : CaseTables} (origin : string) : origin ≠ "" →
  CORS [] origin = MkCorsHeaders None false false
    (Some "GET, POST, PUT, PATCH, DELETE, OPTIONS")
    (Some "Authorization, Content-Type, X-CSRF-Token, X-Hamsa-Client") (Some "600").
Proof.
  intros H. unfold CORS. cbn -[ToLower]. rewrite bool_decide_eq_false_2 by done. cbn -[ToLower].
  by rewrite bool_decide_eq_false_2 by apply not_elem_of_nil.
Qed.

(** A process with a file that sets a secret, in production by its environment. *)
Definition sample_os : OS := {|
  Getenv name := if String.eqb name "HAMSA_APP_ENV" then "production"
                 else if String.eqb name "HAMSA_DB_DSN" then "postgres://db" else "";
  ReadFile path := if String.eqb path "config.yaml" then FileText "auth: {jwt_secret: s}" else FileMissing;
  yaml_Unmarshal raw cfg := inl (MkConfig (App_Env cfg) (App_Addr cfg) (App_BaseURL cfg)
    (App_WebReturnURL cfg) (DB_DSN cfg) (DB_AutoMigrate cfg) "s" (Auth_AccessTTL cfg)
    (Auth_RefreshTTL cfg) (Payment_Provider cfg) (Zarinpal_MerchantID cfg) (Zarinpal_Sandbox cfg)
    (Storage_Path cfg) (Push_FCMCredentialsFile cfg) (CORS_AllowedOrigins cfg));
|}.

Definition loaded : Config := match Load sample_os with Ok cfg => cfg | _ => default_config end.

Lemma Load_sound_witness :
  ValidConfig loaded ∧ DB_DSN loaded = "postgres://db" ∧ h_Secure (sv_Auth (server_of loaded)) = true.
Proof.
  pose proof (Load_sound sample_os) as H.
  assert (Load sample_os = Ok loaded) as E by reflexivity. rewrite E in H.
  destruct H as (raw & parsed & _ & _ & Hvalid & Hover & _ & Hsecure).
  split; [exact Hvalid|]. split; [|exact (Hsecure eq_refl)].
  assert (("HAMSA_DB_DSN", DB_DSN) ∈ overridden) as Hin by (do 2 right; left).
  exact (Hover _ _ Hin).
Defined.

(** ** Stored files *)

Section storage.
Context {codec : UuidCodec} {sniffer : ContentSniffer} (s : StorageService) (faults : DiskFaults).
Context (Hmax : 0 ≤ ss_MaxSize s < 2 ^ 63 - 1).

(** C38: an upload is stored exactly when it may be: whatever is returned without
    an error is a complete image or PDF within the limit, on the disk as it was
    sent under a name made of a fresh id and the extension of its type; an error
    leaves every other file alone and, as long as removals work, no file behind;
    and without failures of the disk everything that may be stored is. No table
    is touched. *)
Theorem Save_file_stores (r : Reader) (disk : Disk) (env : Env) (w : World) :
  ∃ out disk', (Save_file s faults r disk env w).1 = Ok (out, disk') ∧
  w_db (Save_file s faults r disk env w).2 = w_db w ∧
  match out with
  | inl f => StoredAs s r disk disk' f
  | inr _ => refused faults disk disk' ∧ (faults = no_faults → ¬ storable s r)
  end.
Proof. exact (Save_file_spec s faults Hmax r disk env w). Qed.
End storage.

(** What is uploaded is what is downloaded: after an upload that answered
    201, as long as the registry row and the file are still there, the download
    of the id in the answer serves the bytes that were sent, complete, under the
    type detected in them, which is an image or a PDF. *)
Theorem upload_download_roundtrip {codec : UuidCodec} {sniffer : ContentSniffer}
    (s : StorageService) (faults : DiskFaults) (c c' : HttpCall) (r : Reader) (env env' : Env)
    (w w1 w2 : World) (disk disk1 disk2 : Disk) (id : UUID) (url : string)
    (Hmax : 0 ≤ ss_MaxSize s < 2 ^ 63 - 1)
    (Hupload : uploadHandler s faults c (FileOf r) disk env w = (Ok (ReplyJSON 201 (id, url), disk1), w1))
    (Hid : uuid_Parse (hc_Param c' "id") = Some id)
    (Hrow : row_at (R := File) (w_db w2) id = row_at (w_db w1) id)
    (Hfile : ∀ f : File, row_at (w_db w1) id = Some f → disk2 !! fl_Path f = disk1 !! fl_Path f)
    (Hquery : env_fault env' (w_tick w2) = None) :
  let ct := http_DetectContentType (take_bytes 512 (rd_Data r)) in
  (downloadHandler c' disk2 env' w2).1 = Ok (ReplyJSON 200 (FileServed ct (rd_Data r))) ∧
  allowed ct = true ∧ rd_End r = io_EOF.
Proof.
  destruct (upload_stored s faults Hmax c r disk disk1 env w w1 id url Hupload) as (f & Hf & Hd & Ht & Hall & Hend).
  cbv zeta. split; [|by split]. rewrite <- Ht.
  apply (download_serves c' id f); [done|by rewrite Hrow|by rewrite (Hfile f Hf)|done].
Qed.

(** *** On a sample *)

(** A sniffer that knows the magic bytes of PDF. *)
#[local] Instance magic_bytes : ContentSniffer := {|
  http_DetectContentType head := if HasPrefix head "%PDF-" then "application/pdf" else "text/plain" |}.

Definition sample_pdf : Reader := MkReader "%PDF-1.7 receipt" io_EOF.
Definition sample_storage : StorageService := NewStorage "./data/files" 0.
Definition sample_call (id : UUID) : HttpCall :=
  MkHttpCall (Some sample_manager) (λ _, uuid_String id) (λ _, "").

Lemma sample_storage_max : 0 ≤ ss_MaxSize sample_storage < 2 ^ 63 - 1.
Proof. vm_compute. split; [discriminate|reflexivity]. Qed.

Lemma Save_file_stores_witness :
  ∃ out disk', (Save_file sample_storage no_faults sample_pdf ∅ sample_env (sample_world empty_db)).1
    = Ok (out, disk') ∧ match out with inl f => sf_Size f = 16 | inr _ => False end.
Proof.
  destruct (Save_file_stores sample_storage no_faults sample_storage_max sample_pdf ∅ sample_env
    (sample_world empty_db)) as (out & disk' & H & _ & Hout).
  exists out, disk'. split; [exact H|]. destruct out as [f|e].
  - rewrite (sa_size _ _ _ _ _ Hout). reflexivity.
  - destruct Hout as [_ Hno]. apply (Hno eq_refl). split; [reflexivity|].
    split; [reflexivity|vm_compute; discriminate].
Defined.

Definition upload : M (Reply (UUID * string) * Disk) :=
  uploadHandler sample_storage no_faults (sample_call 0) (FileOf sample_pdf) ∅.
Definition uploaded_id : UUID := 100000.
Definition uploaded_disk : Disk := {[ uuid_String uploaded_id +:+ ".pdf" := "%PDF-1.7 receipt" ]}.
Definition uploaded_world : World := (upload sample_env (sample_world empty_db)).2.

Lemma upload_answer : upload sample_env (sample_world empty_db) =
  (Ok (ReplyJSON 201 (uploaded_id, "/files/" +:+ uuid_String uploaded_id), uploaded_disk), uploaded_world).
Proof. vm_compute. reflexivity. Qed.

Lemma upload_download_roundtrip_witness :
  (downloadHandler (sample_call uploaded_id) uploaded_disk sample_env uploaded_world).1
    = Ok (ReplyJSON 200 (FileServed "application/pdf" "%PDF-1.7 receipt")).
Proof.
  refine (proj1 (upload_download_roundtrip sample_storage no_faults (sample_call 0)
    (sample_call uploaded_id) sample_pdf sample_env sample_env (sample_world empty_db) uploaded_world
    uploaded_world ∅ uploaded_disk uploaded_disk uploaded_id _ sample_storage_max upload_answer _ _ _ _)).
  - vm_compute. reflexivity.
  - reflexivity.
  - reflexivity.
  - reflexivity.
Defined.

(** A file whose registration fails stays on the disk without a row: nothing
    removes it. *)
Theorem failed_registration_orphans_file :
  let '(r, w) := upload failing_env (sample_world empty_db) in
  match r with
  | Ok (rep, disk) => (reply_status rep, map_to_list disk, map_to_list (db_files (w_db w))) =
      (500, [(uuid_String uploaded_id +:+ ".pdf", "%PDF-1.7 receipt")], [])
  | _ => False
  end.
Proof. vm_compute. reflexivity. Qed.
