(* ===== verification/WireTheorems.v ===== *)
(** * Theorems on the wire

    What the code writes, it reads back; and what it reads is what it would write. *)

From Stdlib Require Import Ascii.
From S2P Require Import Prelude Golang Net Calendar Errors Models PaymentRepo CalendarSpec Wire.

(** ** Money *)

Lemma Money_reads j v : Money_UnmarshalJSON j = Ok v ↔
  ∃ s, (j = JTString s ∨ j = JTNumber s) ∧ ParseInt s = Some v.
Proof.
  unfold Money_UnmarshalJSON, json_into_string, json_into_int64. split.
  - destruct j; repeat case_match; intros [= <-]; simplify_eq; eauto.
  - intros (s & [-> | ->] & Hs); cbn; by rewrite Hs.
Qed.

(** The names of the fields, and whether a value has no number in it. *)
Definition field_names (j : JsonText) : list string :=
  match j with JTObject l => l.*1 | _ => [] end.

Definition number_free (j : JsonText) : bool :=
  match j with
  | JTObject l => forallb (λ kv, match kv.2 with JTString _ => true | _ => false end) l
  | _ => false
  end.

Definition json_field (name : string) (j : JsonText) : option JsonText :=
  match j with
  | JTObject l => snd <$> List.find (λ kv, bool_decide (kv.1 = name)) l
  | _ => None
  end.

Lemma time_MarshalJSON_text {loc : Location} t j : time_MarshalJSON t = Ok j → ∃ s, j = JTString s.
Proof. unfold time_MarshalJSON. cbv zeta. repeat case_match; intros [= <-]. by eexists. Qed.

(** C39: no amount loses precision on the wire: money is written as text and that
    text reads back as the amount; a money field accepts exactly the texts and the
    integer literals of an [int64]; and the payments and balances are written
    without a JSON number, each field once, the overridden ones as that text. *)
Theorem money_on_the_wire {codec : UuidCodec} {loc : Location} (m v : Money) (p : PaymentView)
    (b : UnitBalance) (j : JsonText) (Hm : in64 m) :
  Money_UnmarshalJSON (Money_MarshalJSON m) = Ok m ∧
  (Money_UnmarshalJSON j = Ok v ↔ ∃ s, (j = JTString s ∨ j = JTNumber s) ∧ ParseInt s = Some v) ∧
  (Payment_MarshalJSON p = Ok j → number_free j = true ∧ NoDup (field_names j) ∧
     json_field "amount" j = Some (Money_MarshalJSON (pay_Amount (pvw_Payment p)))) ∧
  (UnitBalance_MarshalJSON b = Ok j → number_free j = true ∧ NoDup (field_names j) ∧
     json_field "balance" j = Some (Money_MarshalJSON (bal_Balance b))).
Proof.
  split; [|split; [|split]].
  - unfold Money_UnmarshalJSON, Money_MarshalJSON. cbn. by rewrite ParseInt_FormatInt.
  - apply Money_reads.
  - unfold Payment_MarshalJSON. destruct (time_MarshalJSON (pay_CreatedAt _)) as [c| |] eqn:Ec; cbn; [|done..].
    destruct (time_MarshalJSON (pay_UpdatedAt _)) as [u| |] eqn:Eu; cbn; [|done..]. intros [= <-].
    apply time_MarshalJSON_text in Ec as [? ->], Eu as [? ->].
    destruct (pay_InvoiceID _), (pay_TrackingNumber _), (pay_Gateway _), (pay_Authority _),
      (pay_RecordedBy _), (bool_decide _);
      (split; [reflexivity|split; [apply (bool_decide_unpack _); vm_compute; exact I|reflexivity]]).
  - unfold UnitBalance_MarshalJSON. destruct (time_MarshalJSON _) as [u| |] eqn:Eu; cbn; [|done..].
    intros [= <-]. apply time_MarshalJSON_text in Eu as [? ->].
    split; [reflexivity|split; [apply (bool_decide_unpack _); vm_compute; exact I|reflexivity]].
Qed.

(** ** Dates *)

(** C31: a date is written as the ten bytes of its day and reads back as that day;
    and whatever reads as a date is written the same way again, so that a day has
    one text and a text one day. *)
Theorem date_wire_roundtrip (d : Time) (j : JsonText) (Hyear : 0 ≤ Year d < 10000) :
  Date_UnmarshalJSON (Date_MarshalJSON d) = Ok (TruncateDay d) ∧
  (Date_UnmarshalJSON j = Ok d → j = Date_MarshalJSON d ∧ TruncateDay d = d).
Proof.
  split.
  - unfold Date_UnmarshalJSON, Date_MarshalJSON, time_Parse_date. cbn.
    by rewrite ParseDate_FormatDate.
  - unfold Date_UnmarshalJSON, Date_MarshalJSON, time_Parse_date, json_into_string.
    assert (∀ s, match match ParseDate s with Some t => Ok t | None => Err (parsing_time s) end with
      | Err e => Err (EWrap "date must be YYYY-MM-DD: " e "") | r => r end = Ok d →
      FormatDate d = s ∧ TruncateDay d = d) as H.
    { intros s. destruct (ParseDate s) eqn:E; [|done]. intros [= <-]. destruct (ParseDate_inv _ _ E) as (? & _ & ?). by split. }
    destruct j; cbn [mbind]; try done. intros [<- ?]%H. done.
Qed.

(** ** The UUID[] column *)

(** The text of an id: not empty, and none of the characters of an array literal. *)
Class PlainIds {codec : UuidCodec} : Prop := {
  plain_id u : uuid_String u ≠ "" ∧
    ∀ c, c ∈ ["{"%char; "}"%char; ","%char; ascii_of_nat 34] → has_byte c (uuid_String u) = false;
}.

Lemma text_cons_app c s t : String c s +:+ t = String c (s +:+ t).
Proof. done. Qed.

Lemma text_app_assoc a b c : a +:+ (b +:+ c) = (a +:+ b) +:+ c.
Proof. induction a as [|x a IH]; [done|]. by rewrite !text_cons_app, IH. Qed.

Lemma text_app_nil a : a +:+ "" = a.
Proof. induction a as [|x a IH]; [done|]. by rewrite text_cons_app, IH. Qed.

Lemma rev_app s acc : String.rev_app s acc = String.rev s +:+ acc.
Proof.
  unfold String.rev. revert acc. induction s as [|c s IH]; intros acc; [done|]. cbn.
  rewrite IH, (IH (String c "")), <- text_app_assoc. done.
Qed.

Lemma rev_cons c s : String.rev (String c s) = String.rev s +:+ String c "".
Proof. unfold String.rev at 1. cbn. by rewrite rev_app. Qed.

Lemma rev_append s t : String.rev (s +:+ t) = String.rev t +:+ String.rev s.
Proof.
  induction s as [|c s IH]; [by rewrite text_app_nil|].
  by rewrite text_cons_app, !rev_cons, IH, text_app_assoc.
Qed.

Lemma rev_involutive s : String.rev (String.rev s) = s.
Proof. induction s as [|c s IH]; [done|]. by rewrite rev_cons, rev_append, IH. Qed.

(** The bytes of a cutset of single bytes. *)
Definition bytes_of (cutset : list ascii) : list string := (λ c, String c "") <$> cutset.

Definition head_outside (cutset : list ascii) (s : string) : Prop :=
  match s with EmptyString => True | String c _ => c ∉ cutset end.

Lemma find_cut cutset s : List.find (λ c, HasPrefix s c) (bytes_of cutset) =
  match s with
  | EmptyString => None
  | String c _ => if decide (c ∈ cutset) then Some (String c "") else None
  end.
Proof.
  induction cutset as [|d l IH]; [by destruct s|].
  change (bytes_of (d :: l)) with (String d "" :: bytes_of l). cbn [List.find]. rewrite IH.
  destruct s as [|c s]; [done|]. cbn [HasPrefix]. case_bool_decide as E; cbn [andb].
  - subst. assert (HasPrefix s "" = true) as -> by (by destruct s). by rewrite decide_True by (by left).
  - destruct (decide (c ∈ l)); [rewrite decide_True by (by right)|rewrite decide_False by set_solver]; done.
Qed.

Lemma trim_left_stop cutset s : head_outside cutset s → trim_left (bytes_of cutset) s = s.
Proof.
  intros H. unfold trim_left. destruct s as [|c s]; [done|]. cbn [String.length trim_left_any].
  rewrite find_cut. cbn in H. by rewrite decide_False.
Qed.

Lemma trim_left_cons cutset c s : c ∈ cutset →
  trim_left (bytes_of cutset) (String c s) = trim_left (bytes_of cutset) s.
Proof.
  intros H. unfold trim_left at 1. cbn [String.length trim_left_any]. rewrite find_cut.
  by rewrite decide_True.
Qed.

Lemma rev_bytes_of cutset : String.rev <$> bytes_of cutset = bytes_of cutset.
Proof.
  induction cutset as [|c l IH]; [done|]. unfold bytes_of in *. rewrite !fmap_cons, IH. done.
Qed.

Lemma Trim_plain cutset s : head_outside cutset s → head_outside cutset (String.rev s) →
  Trim (bytes_of cutset) s = s.
Proof.
  intros H1 H2. unfold Trim, trim_right. rewrite rev_bytes_of, (trim_left_stop _ s H1), (trim_left_stop _ _ H2).
  apply rev_involutive.
Qed.

(** A text in brackets is the text again. *)
Lemma Trim_brackets cutset o c s : o ∈ cutset → c ∈ cutset → head_outside cutset s →
  head_outside cutset (String.rev s) → Trim (bytes_of cutset) (String o (s +:+ String c "")) = s.
Proof.
  intros Ho Hc H1 H2. unfold Trim, trim_right. rewrite rev_bytes_of, trim_left_cons by done.
  destruct s as [|d s].
  - change ("" +:+ String c "") with (String c ""). by rewrite trim_left_cons.
  - rewrite (trim_left_stop _ (String d s +:+ String c "")) by exact H1.
    rewrite rev_append. change (String.rev (String c "") +:+ ?x) with (String c x).
    rewrite trim_left_cons by done. rewrite (trim_left_stop _ _ H2). apply rev_involutive.
Qed.

Lemma head_outside_plain cutset s : (∀ c, c ∈ cutset → has_byte c s = false) → head_outside cutset s.
Proof.
  intros H. destruct s as [|c s]; [done|]. cbn. intros Hc. specialize (H c Hc). cbn in H.
  by rewrite bool_decide_eq_true_2 in H.
Qed.

Lemma has_byte_append c s t : has_byte c (s +:+ t) = has_byte c s || has_byte c t.
Proof. induction s as [|d s IH]; [done|]. rewrite text_cons_app. cbn. by rewrite IH, orb_assoc. Qed.

Lemma has_byte_rev c s : has_byte c (String.rev s) = has_byte c s.
Proof.
  induction s as [|d s IH]; [done|]. rewrite rev_cons, has_byte_append, IH. cbn.
  by rewrite orb_false_r, orb_comm.
Qed.

Lemma Trim_no_bytes cutset s : (∀ c, c ∈ cutset → has_byte c s = false) → Trim (bytes_of cutset) s = s.
Proof.
  intros H. apply Trim_plain; apply head_outside_plain; [done|]. intros c Hc. rewrite has_byte_rev. auto.
Qed.

Lemma split_commas_plain s : has_byte "," s = false → split_commas s = [s].
Proof.
  induction s as [|c s IH]; [done|]. cbn. rewrite orb_false_iff. intros [Hc Hs].
  rewrite Hc, IH by done. done.
Qed.

Lemma split_commas_app s t : has_byte "," s = false →
  split_commas (s +:+ String "," t) = s :: split_commas t.
Proof.
  induction s as [|c s IH]; [done|]. cbn [has_byte]. rewrite orb_false_iff. intros [Hc Hs].
  rewrite text_cons_app. cbn [split_commas]. by rewrite Hc, IH.
Qed.

Section unit_ids.
Context {codec : UuidCodec} {plain : PlainIds}.

Lemma id_without c u : c ∈ ["{"%char; "}"%char; ","%char; ascii_of_nat 34] →
  has_byte c (uuid_String u) = false.
Proof. apply plain_id. Qed.

Lemma join_ids_without c l : c ∈ ["{"%char; "}"%char] → has_byte c (join "," (uuid_String <$> l)) = false.
Proof.
  intros Hc. assert (∀ u, has_byte c (uuid_String u) = false) as H by (intros u; apply id_without; set_solver).
  induction l as [|u [|v l] IH]; [done|apply H|].
  change (join "," (uuid_String <$> u :: v :: l)) with
    (uuid_String u +:+ "," +:+ join "," (uuid_String <$> v :: l)).
  rewrite !has_byte_append, H, IH, orb_false_r. cbn [orb has_byte].
  rewrite orb_false_r. apply bool_decide_eq_false. intros <-. set_solver.
Qed.

Lemma join_ids_nonempty u l : join "," (uuid_String <$> u :: l) ≠ "".
Proof.
  pose proof (proj1 (plain_id u)) as H. destruct l as [|v l]; [done|].
  change (join "," (uuid_String <$> u :: v :: l)) with
    (uuid_String u +:+ "," +:+ join "," (uuid_String <$> v :: l)).
  by destruct (uuid_String u).
Qed.

Lemma split_ids u l : split_commas (join "," (uuid_String <$> u :: l)) = uuid_String <$> u :: l.
Proof.
  revert u. induction l as [|v l IH]; intros u; [apply split_commas_plain, id_without; set_solver|].
  change (join "," (uuid_String <$> u :: v :: l)) with
    (uuid_String u +:+ String "," (join "," (uuid_String <$> v :: l))).
  rewrite split_commas_app, IH by (apply id_without; set_solver). done.
Qed.

Lemma parse_ids_texts l : parse_ids (uuid_String <$> l) = Ok l.
Proof.
  induction l as [|u l IH]; [done|]. rewrite fmap_cons. cbn [parse_ids].
  change [bytes [34%nat]] with (bytes_of [ascii_of_nat 34]).
  rewrite Trim_no_bytes, uuid_Parse_String, IH; [done|].
  intros c Hc. apply id_without. set_solver.
Qed.

(** The array literal the code writes into the column of a cost item's units
    scans back to the same units in the same order, from the text and from the
    bytes alike; the empty list stays a list, distinct from the column's NULL. *)
Theorem UnitIDList_roundtrip (l : list UUID) :
  UnitIDList_Scan (UnitIDList_Value l) = Ok (Some l) ∧
  (∀ s, UnitIDList_Value l = DvString s → UnitIDList_Scan (DvBytes s) = Ok (Some l)) ∧
  UnitIDList_Scan DvNull = Ok None.
Proof.
  assert (∀ s, s = "{" +:+ join "," (uuid_String <$> l) +:+ "}" →
    UnitIDList_Scan (DvString s) = Ok (Some l)) as H.
  { intros s ->. unfold UnitIDList_Scan. change ["{"; "}"] with (bytes_of ["{"%char; "}"%char]).
    change ("{" +:+ ?x) with (String "{" x). rewrite Trim_brackets; [|set_solver..| |].
    - destruct l as [|u l]; [done|]. rewrite bool_decide_eq_false_2 by apply join_ids_nonempty.
      by rewrite split_ids, parse_ids_texts.
    - apply head_outside_plain. intros c. apply join_ids_without.
    - apply head_outside_plain. intros c. rewrite has_byte_rev. apply join_ids_without. }
  split; [by apply H|]. split; [|done]. intros s [= <-]. by apply H.
Qed.
End unit_ids.

(** ** On samples *)

Lemma digits_without c s : all_digits s = true → is_digit c = false → has_byte c s = false.
Proof.
  intros Hs Hc. induction s as [|d s IH]; [done|]. cbn in Hs |- *. apply andb_prop in Hs as [Hd Hs].
  rewrite IH, orb_false_r by done. apply bool_decide_eq_false. congruence.
Qed.

#[local] Instance digits_plain : PlainIds (codec := digits_codec).
Proof.
  split. intros u. cbn [uuid_String digits_codec].
  assert (all_digits (FormatPad 24 (Z.of_N u)) = true ∧ FormatPad 24 (Z.of_N u) ≠ "") as [Hd Hne].
  { split.
    - unfold FormatPad. destruct (Z.ltb_spec (Z.of_N u) 0); [lia|]. rewrite Z.abs_eq by lia.
      destruct (FormatInt_nat (Z.of_N u)) as (v & -> & _); [lia|].
      by rewrite all_digits_app, (proj1 (zeros_digits _)), (proj1 (string_of_uint_digits v)).
    - intros E. pose proof (parse_digits_FormatPad 24 (Z.of_N u) ltac:(lia)) as Hp. by rewrite E in Hp. }
  split; [done|]. intros c Hc. apply digits_without; [done|]. revert Hc.
  rewrite !elem_of_cons, elem_of_nil. by intros [->|[->|[->|[->|[]]]]].
Qed.

Lemma UnitIDList_roundtrip_witness :
  UnitIDList_Scan (codec := digits_codec) (DvBytes "{000000000000000000000007,000000000000000000000003}")
    = Ok (Some [7%N; 3%N]).
Proof. exact (proj1 (proj2 (UnitIDList_roundtrip (codec := digits_codec) [7%N; 3%N])) _ eq_refl). Defined.

Lemma money_on_the_wire_witness :
  Money_UnmarshalJSON (JTString "-9223372036854775808") = Ok (- 2 ^ 63).
Proof.
  exact (proj1 (money_on_the_wire (codec := digits_codec) (loc := {| utc_offset _ := 0 |}) (- 2 ^ 63) 0
    (MkPaymentView (MkPayment 0 0 0 None "" 0 0 None None None None "" 0 0) "")
    (MkUnitBalance 0 0 0 0 0 0 0 0 0) JTNull ltac:(unfold in64; lia))).
Defined.

Lemma date_wire_roundtrip_witness :
  Date_UnmarshalJSON (JTString "2024-02-29") = Ok (DateUTC 2024 2 29) ∧
  Date_MarshalJSON (DateUTC 2024 2 29) = JTString "2024-02-29".
Proof.
  assert (0 ≤ Year (DateUTC 2024 2 29) < 10000) as Hy by (vm_compute; split; [discriminate|reflexivity]).
  destruct (date_wire_roundtrip (DateUTC 2024 2 29) (JTString "2024-02-29") Hy) as [H1 H2].
  split; [exact H1|symmetry; exact (proj1 (H2 H1))].
Defined.
