(* ===== verification/ProcessTheorems.v ===== *)
(** * Theorems on the processes

    What a deployment keeps through requests, uploads, restarts and migrations;
    what a process that is up has made sure of; and what is uploaded stays. *)

From Stdlib Require Import Ascii SpecFloat.
From S2P Require Import Prelude Golang Calendar Errors Models Store Schema Logic Net Gateway Notification Crypto Token Invite Password AuthUser AuthHandlers PaymentService Http PaymentHandlers BillingHandlers Middleware Config Storage PanelSpec AccountSpec AuthSpec RequestSpec ExpenseSpec BuildingSpec Frozen Ledger System Server Process ServerSpec ServerRun ServerAnswers ProcessSpec Sample AuthTheorems PanelTheorems PlatformTheorems ServerTheorems.

Section processes.
Context {codec : UuidCodec} {jwt : JwtLibrary} {bcrypt : Bcrypt} {unicode : UnicodeTables}.
Context {map_order : MapOrder} {api : ZarinpalAPI} {loc : Location} {dates : RequiredDates}.
Context {tables : CaseTables} {sniffer : ContentSniffer}.
Context {drivers : PostgresDrivers} {drivers_ok : DriversOk}.

(** The routes of the files, behind [authMW] too. *)
Lemma protected_file sv store faults rq call disk env w r w1 :
  Authenticate (h_Tokens (sv_Auth sv)) (rq_Authorization (sr_Headers rq)) env w = (r, w1) →
  preflight (sr_Method rq) = false →
  for_account r (λ e, (FileRefused e, disk)) (λ _, true)
    (λ u, Recovery (λ e, (FileRefused e, disk)) (serve_files store faults (call_as rq (Some u)) call disk))
    env w w1 (handle_files sv store faults rq call disk env w).
Proof.
  intros E Hmethod. destruct (Authenticate_account _ _ _ _ _ _ E) as [Hdb Hr].
  unfold handle_files. rewrite Hmethod. unfold Recovery, route_files, attempt, mbind, M_bind, mret, M_ret.
  rewrite E. destruct r as [u|e|s]; cbn [for_account]; [| |done].
  - destruct Hr as [Hrow Hact]. by split_and!.
  - split; [|done]. by exists (WriteError e).
Qed.

(** [deployed keeps upheld]: a relation every group of routes upholds and that is
    about other tables than the registry of the files, over the events. *)
Tactic Notation "deployed" uconstr(keeps) uconstr(upheld) :=
  lazymatch goal with H : steps any_event _ _ |- _ =>
    eapply (steps_elsewhere (λ _, True)); [apply _|intros; apply upheld|intros; apply all_admitted| |exact H];
    let E := fresh "E" in intros ? ? E; apply keeps; unfold Logic.keeps;
    first [exact (f_equal db_audit_logs E) | exact (f_equal ledger E) | exact (f_equal db_periods E)
      | exact (f_equal role_tables E) | exact (f_equal db_invite_codes E)
      | exact (f_equal db_user_buildings E) | exact (f_equal db_occupancies E) | exact (f_equal money E)
      | exact (f_equal db_maintenance E) | exact (f_equal db_expenses E)]
  end.

(** Events without a request to make somebody a manager. *)
Definition no_grant : Machine → Event → Prop := λ _, event_admitted (λ call, ¬ promoting call).

Lemma no_grant_roles m m' : steps no_grant m m' → RolesKept False (m_DB m) (m_DB m').
Proof.
  intros H. enough (RolesStep False (m_DB m) (m_DB m')) as [_ HR] by exact HR. revert H.
  apply (steps_elsewhere (λ call, promoting call → False)); [apply _|intros; apply roles_by|done|].
  intros d d' E. apply keeps_RolesStep. exact (f_equal role_tables E).
Qed.

(** C2: over any sequence of requests, uploads, downloads, restarts with any
    configuration, migrations and processes killed amid a call, whatever the
    routes, the payloads, the callers and the faults: the audit trail only grows, no
    issued invoice is altered or lost, every period moves along its machine, no
    account disappears or changes its phone and no role changes but a resident's,
    which becomes a manager's, a superadmin stays the only one if it was, no invite
    comes back, no building loses its last manager, no occupancy is rewritten, no
    maintenance request or expense is lost or leaves its workflow, and no registered
    file is forgotten. Without requests to the endpoint that grants a manager no role
    changes at all. *)
Theorem deployment_keeps_history (m m' : Machine) (Hrun : steps any_event m m') :
  ServerKept (m_DB m) (m_DB m') ∧ FilesKept (m_DB m) (m_DB m') ∧
  (steps no_grant m m' → RolesKept False (m_DB m) (m_DB m')).
Proof.
  split; [|split; [by apply (steps_files any_event)|intros H; by apply (no_grant_roles m m')]]. split.
  - deployed keeps_TrailGrows upheld_trail.
  - deployed keeps_Kept upheld_Kept.
  - deployed keeps_PeriodsRun upheld_periods.
  - deployed (keeps_RolesStep True) upheld_roles.
  - deployed keeps_InvitesKept upheld_invites.
  - deployed keeps_ManagedKept upheld_managed.
  - deployed keeps_HistoryKept upheld_occupancies.
  - enough (RequestsStep (m_DB m) (m_DB m')) as [H _] by exact H.
    deployed (keeps_HistoryStep Later RequestOk) upheld_requests.
  - enough (ExpensesStep (m_DB m) (m_DB m')) as [H _] by exact H.
    deployed (keeps_HistoryStep Amended ExpenseOk) upheld_expenses.
Qed.

(** C3: a deployment that starts on the empty tables is sound for ever: one
    superadmin at most and no invite for one, every paid amount backed by
    verified payments, one open tenancy per unit, and only
    well-formed maintenance requests and expenses. *)
Theorem deployment_state_sound (m m' : Machine) (Hempty : m_DB m = empty_db)
    (Hrun : steps any_event m m') : StateOk (m_DB m').
Proof.
  apply (state_ok_moves (m_DB m)); [..|rewrite Hempty; exact state_ok_empty].
  - deployed (keeps_RolesStep True) upheld_roles.
  - deployed keeps_BackedKept upheld_backed.
  - deployed (keeps_OpenKept RelTenant) (upheld_open RelTenant).
  - deployed (keeps_HistoryStep Later RequestOk) upheld_requests.
  - deployed (keeps_HistoryStep Amended ExpenseOk) upheld_expenses.
Qed.

(** C6: every route but the public ones (the sessions of [auth], the gateway's callback,
    the health check and a path that is no route) stands behind a live account, the
    routes of the files included, for every request but a preflight (OPTIONS), which
    is answered before any route: without a valid token of an active account the
    answer is 401, and the tables and the files stay as they were; the registry answers 403
    to whoever is no manager, and the invites of [auth] to whoever is neither
    manager nor superadmin, again with nothing changed; else the handler runs for the
    account of the token, with the tables as they were. *)
Theorem protected_routes {pusher : PushNotifier} {gateway : PaymentGateway} (sv : Server)
    (store : StorageService) (faults : DiskFaults) (rq : ServerRequest) (disk : Disk) (env : Env)
    (w w1 : World) (r : Res User) (Hmethod : preflight (sr_Method rq) = false)
    (Hauth : Authenticate (h_Tokens (sv_Auth sv)) (rq_Authorization (sr_Headers rq)) env w = (r, w1)) :
  w_db w1 = w_db w ∧
  (∀ call, if public call then behind_auth sv call = None else
     ∃ k, behind_auth sv call = Some k ∧
       for_account r ae_Status (role_ok call) (λ u, Recovery ae_Status (k (call_as rq (Some u))))
         env w w1 (handle_request sv rq call env w)) ∧
  (∀ call, for_account r (λ e, (FileRefused e, disk)) (λ _, true)
     (λ u, Recovery (λ e, (FileRefused e, disk)) (serve_files store faults (call_as rq (Some u)) call disk))
     env w w1 (handle_files sv store faults rq call disk env w)).
Proof.
  split; [by eapply Authenticate_account|]. split; [|by intros call; apply protected_file].
  intros call. destruct (public call) eqn:Hp; [by destruct call as [[]| | | | | | |]|].
  assert (is_Some (behind_auth sv call)) as [k Hk] by (destruct call as [[]| | | | | | |]; first [done|by eexists]).
  exists k. split; [done|]. by apply protected_request.
Qed.

(** C16: every request to a server that is up is answered, in any environment and
    whatever the disk does: with a status, under the request id it came with, if
    any, and that the log names. But for the calculation and a page of
    announcements beyond 2^56 no panic has to be caught for it. *)
Theorem every_request_answered (cfg : Config) (hs : StackHeaders) (rq : ServerRequest) (env : Env) (w : World)
    (Hprovider : ∀ tick url payload s, zp_post tick url payload ≠ Panic s) :
  (∀ call, (∃ resp, (respond cfg hs rq call env w).1 = Ok resp ∧
      al_Status (hr_Line resp) = hr_Answer resp ∧ al_RequestID (hr_Line resp) = hr_RequestID resp ∧
      (sh_RequestID hs ≠ "" → hr_RequestID resp = sh_RequestID hs)) ∧
    (steady rq call → ∃ status,
       (route (pusher := NoopNotifier) (gateway := gateway_of cfg) (server_of cfg) rq call env w).1 = Ok status)) ∧
  (∀ call faults disk, (∃ resp, (respond_files cfg hs rq call faults disk env w).1 = Ok resp ∧
      al_Status (hr_Line resp) = file_status (hr_Answer resp).1 ∧
      al_RequestID (hr_Line resp) = hr_RequestID resp ∧
      (sh_RequestID hs ≠ "" → hr_RequestID resp = sh_RequestID hs)) ∧
    ∃ answer, (route_files (server_of cfg) (NewStorage (Storage_Path cfg) 0) faults rq call disk env w).1
      = Ok answer).
Proof.
  pose proof (gateway_of_total cfg Hprovider) as Htotal. split; intros.
  - pose proof (settled_route (pusher := NoopNotifier) (gateway := gateway_of cfg) (server_of cfg) rq call) as He.
    split.
    + unfold respond. apply (NewRouter_Ok id). intros w0. apply Recovery_Ok.
      destruct (preflight _); [apply settled_ret|exact He].
    + intros H. pose proof (answers_route (pusher := NoopNotifier) (gateway := gateway_of cfg) (server_of cfg) rq call H (w_db w) env w eq_refl) as Ha.
      cbv beta in Ha. specialize (He env w).
      destruct (route _ _ _ env w).1 as [s|e|x]; [by exists s|by destruct (He e)|by destruct (Ha x)].
  - pose proof (settled_route_files (server_of cfg) (NewStorage (Storage_Path cfg) 0) faults rq call disk) as He.
    split.
    + unfold respond_files. apply (NewRouter_Ok (file_status ∘ fst)). intros w0. apply Recovery_Ok.
      destruct (preflight _); [apply settled_ret|exact He].
    + pose proof (answers_route_files (server_of cfg) (NewStorage (Storage_Path cfg) 0) faults rq call disk
        (w_db w) env w eq_refl) as Ha. cbv beta in Ha. specialize (He env w).
      destruct (route_files _ _ _ _ _ _ env w).1 as [a|e|x]; [by exists a|by destruct (He e)|by destruct (Ha x)].
Qed.

(** C30: what is uploaded stays served as it was sent: after an upload that was
    answered with 201, and any further requests, uploads that draw new ids,
    restarts, migrations and killed processes, a download of the id in the answer from a server
    that keeps its files in the same directory serves the bytes that were sent,
    complete, under the type detected in them, which is an image or a PDF, unless
    it is refused with 401 for want of a live account. *)
Theorem uploads_stay_served (m0 m1 m2 : Machine) (cfg cfg2 : Config) (pool pool2 : nat)
    (hs hs2 : StackHeaders) (rq rq2 : ServerRequest) (r : Reader) (faults faults2 : DiskFaults)
    (env env2 : Env) (resp : HttpResponse (FileReply * Disk)) (id : UUID) (url : string)
    (Hup : m_Phase m0 = Up cfg pool)
    (Hupload : (respond_files cfg hs rq (FUpload (FileOf r)) faults
       (disk_at (Storage_Path cfg) (m_Disks m0)) env (m_World m0)).1 = Ok resp)
    (H201 : (hr_Answer resp).1 = Uploaded (ReplyJSON 201 (id, url)))
    (Hstep : step m0 (EvFile hs rq (FUpload (FileOf r)) faults env) = Some m1)
    (Hrun : steps fresh_ids m1 m2) (Hup2 : m_Phase m2 = Up cfg2 pool2)
    (Hpath : Storage_Path cfg2 = Storage_Path cfg)
    (Hid : uuid_Parse (sr_Param rq2 "id") = Some id) (Hmethod : preflight (sr_Method rq2) = false)
    (Hfaultless : ∀ t, env_fault env2 t = None) :
  let ct := http_DetectContentType (take_bytes 512 (rd_Data r)) in
  allowed ct = true ∧ rd_End r = io_EOF ∧
  ∃ resp2, (respond_files cfg2 hs2 rq2 FDownload faults2
      (disk_at (Storage_Path cfg2) (m_Disks m2)) env2 (m_World m2)).1 = Ok resp2 ∧
    (file_status (hr_Answer resp2).1 = 401 ∨
     (hr_Answer resp2).1 = Downloaded (ReplyJSON 200 (FileServed ct (rd_Data r)))).
Proof.
  destruct (stored_by_step m0 m1 cfg pool hs rq r faults env resp id url Hup Hupload H201 Hstep)
    as (f & Hrow & Hdisk & <- & Hall & Hend).
  cbv zeta. split; [done|]. split; [done|].
  apply (served_from m2 cfg2 hs2 rq2 faults2 env2 id f); [done..| |].
  - by destruct (steps_files _ _ _ Hrun id f Hrow) as (f' & Hf' & <-).
  - rewrite Hpath. by apply (steps_disk m1).
Qed.

(** C7: a server that answers requests was started with a configuration that was
    loaded and is valid, holds a pool that is open, and unless it was told not to
    migrate the schema has the latest version; in production its cookies are
    secure. Whatever [Shutdown] reports, a signal stops it with code 0, its pool
    closed, the tables and the files as they were, and from then on it answers
    nothing. *)
Theorem running_server_sound (m m' : Machine) (code : option Z) (cfg : Config) (pool : nat)
    (Hdown : m_Phase m = Down code) (Hrun : steps any_event m m') (Hup : m_Phase m' = Up cfg pool) :
  (∃ os, Load os = Ok cfg) ∧ ValidConfig cfg ∧ pool ∈ pg_Open (m_Pg m') ∧
  (DB_AutoMigrate cfg = true → pg_Version (m_Pg m') = pg_Latest) ∧
  (App_Env cfg = "production" → h_Secure (sv_Auth (server_of cfg)) = true) ∧
  ∀ shutdown, ∃ m'', step m' (EvSignal shutdown) = Some m'' ∧ m_Phase m'' = Down (Some 0) ∧
    pg_Open (m_Pg m'') = pg_Open (m_Pg m') ∖ {[pool]} ∧ m_DB m'' = m_DB m' ∧
    m_Disks m'' = m_Disks m' ∧ ∀ hs rq call env, step m'' (EvRequest hs rq call env) = None.
Proof.
  assert (Running m') as H by (eapply steps_Running; [exact Hrun|]; unfold Running; by rewrite Hdown).
  unfold Running in H. rewrite Hup in H. destruct H as ([os Hload] & Hpool & Hlatest).
  split; [by exists os|]. split; [by eapply Load_valid|]. split; [done|]. split; [done|]. split.
  { intros E. unfold server_of, IsDev. cbn. by rewrite E. }
  intros shutdown. unfold step at 1. rewrite Hup. eexists. split; [done|]. cbn.
  by rewrite (proj1 (sql_Close_ok pool (m_Pg m'))).
Qed.
End processes.

(** ** The line of the log *)

(** A successful [cmd/migrate] writes the whole connection string, the password
    included, under a key that names the host and the database only. *)
Theorem migrate_logs_dsn {drivers : PostgresDrivers} (os : OS) (cfg : Config) (s s' : PgState) (log : LogRecord)
    (Hload : Load os = Ok cfg) (Hrun : migrate_main os s = (Ok (0, log), s')) :
  ("dsn_host_db", DB_DSN cfg) ∈ lr_Attrs log.
Proof.
  revert Hrun. unfold migrate_main. rewrite Hload. destruct (Migrate _ _ s) as [[e|] s1]; intros [=]; subst.
  by apply elem_of_cons; left.
Qed.

(** ** On a sample *)

(** Drivers that keep the handles and the version, and never fail. *)
Definition drop (h : nat) (s : gset nat * nat) : gset nat * nat := (s.1 ∖ {[h]}, s.2).

#[local] Instance plain_drivers : PostgresDrivers := {|
  PgState := gset nat * nat; pg_Open := fst; pg_Version := snd; pg_Latest := 9;
  gorm_Open _ s := (inl (fresh s.1), ({[fresh s.1]} ∪ s.1, s.2));
  gorm_DB _ s := (None, s); sql_Ping _ s := (None, s);
  sql_Open _ _ s := (inl (fresh s.1), ({[fresh s.1]} ∪ s.1, s.2));
  sql_Close := drop;
  migratepg_WithInstance _ s := (None, s); migrate_NewWithDatabaseInstance _ _ s := (None, s);
  migrate_Up _ s := (if (s.2 =? 9)%nat then Some (ESentinel "migrate.ErrNoChange" "no change")
                     else if (s.2 <? 9)%nat then None else Some (EText "no migration found"), (s.1, Nat.max s.2 9));
  migrate_Close := drop; migrate_ErrNoChange := ESentinel "migrate.ErrNoChange" "no change" |}.

#[local] Instance plain_drivers_ok : DriversOk.
Proof.
  split; intros; cbn -[Nat.max Nat.ltb Nat.eqb errors_Is]; try done.
  - split; [apply is_fresh|done].
  - split; [apply is_fresh|done].
  - split; [done|]. split; [lia|]. split; [lia|].
    destruct (Nat.eqb_spec s.2 9) as [->|]; [done|]. destruct (Nat.ltb_spec s.2 9) as [?|?]; cycle 1.
    { intros He. vm_compute in He. discriminate He. }
    apply Nat.max_r. lia.
Qed.

#[local] Existing Instances plain_jwt plain_bcrypt plain_unicode source_order tehran any_date magic_bytes.
#[local] Instance ascii_only : CaseTables := {| unicode_lower s := s |}.
#[local] Instance silent_provider : ZarinpalAPI := {|
  zp_post _ _ _ := Err (EText "timeout"); zp_text _ := "" |}.

Definition resting (d : DB) : Machine := MkMachine (Down None) (sample_world d) ∅ (∅, 0%nat).

(** The machine after some events. *)
Fixpoint after_events (m : Machine) (evs : list Event) : option Machine :=
  match evs with [] => Some m | ev :: evs => m ← step m ev; after_events m evs end.

Lemma after_events_steps P m evs m' : (∀ m ev, ev ∈ evs → P m ev) →
  after_events m evs = Some m' → steps P m m'.
Proof.
  revert m. induction evs as [|ev evs IH]; intros m HP; cbn; [by intros [= ->]|].
  destruct (step m ev) as [m1|] eqn:E; [|done]. cbn. intros H.
  eapply rtc_l; [exists ev; split; [apply HP; by left|exact E]|]. apply IH; [|done].
  intros m2 ev2 Hin. apply HP. by right.
Qed.

(** *** A day of a server *)

(** The header of a signed-in user. *)
Definition session_header (u : User) : string :=
  match (IssueAccessToken (h_Tokens (sv_Auth (server_of loaded))) (us_ID u) sample_env
           (sample_world april_building)).1 with
  | Ok (tok, _) => "Bearer " +:+ tok
  | _ => ""
  end.

Definition no_headers : StackHeaders := MkStackHeaders "" "".

Definition post_file : ServerRequest :=
  MkServerRequest "POST" (MkRequest (session_header sample_manager) "" "" None None) (λ _, "") (λ _, "").

Definition get_file (id : UUID) : ServerRequest :=
  MkServerRequest "GET" (MkRequest (session_header sample_resident) "" "" None None)
    (λ _, uuid_String id) (λ _, "").

Definition upload_pdf : Event :=
  EvFile no_headers post_file (FUpload (FileOf sample_pdf)) no_faults sample_env.
Definition rename_first : Event :=
  EvRequest no_headers (MkServerRequest "PATCH" (MkRequest (session_header sample_manager) "" "" None None)
    (λ _, uuid_String 100%N) (λ _, "")) rename_unit sample_env.

(** The server comes up; a file is uploaded; the server is restarted. *)
Definition up_at (m : Machine) (evs : list Event) : Machine := default m (after_events m evs).
Definition morning : Machine := up_at (resting april_building) [EvStart sample_os].
Definition noon : Machine := up_at morning [upload_pdf].
Definition restart : list Event := [EvSignal None; EvMigrate sample_os; EvStart sample_os].
Definition evening : Machine := up_at noon restart.

Definition uploaded : Res (HttpResponse (FileReply * Disk)) :=
  (respond_files loaded no_headers post_file (FUpload (FileOf sample_pdf)) no_faults
     (disk_at (Storage_Path loaded) (m_Disks morning)) sample_env (m_World morning)).1.

(** The events are those of the phases they come in. *)
Definition possible (m : Machine) (evs : list Event) : bool :=
  match after_events m evs with Some _ => true | None => false end.

Lemma up_at_steps P m evs : (∀ m ev, ev ∈ evs → P m ev) → possible m evs = true → steps P m (up_at m evs).
Proof.
  unfold up_at, possible. intros HP. destruct (after_events m evs) as [m'|] eqn:E; [|done]. intros _.
  by apply (after_events_steps P m evs).
Qed.

Definition renamed : Machine := up_at (resting april_building) [EvStart sample_os; rename_first; upload_pdf].

Lemma deployment_keeps_history_witness :
  TrailGrows april_building (m_DB renamed) ∧ length (db_audit_logs (m_DB renamed)) = 1%nat ∧
  managed (m_DB renamed) 10 ∧ FilesKept april_building (m_DB renamed) ∧
  RolesKept False april_building (m_DB renamed).
Proof.
  destruct (deployment_keeps_history (resting april_building) renamed)
    as ([Htrail _ _ _ _ Hman _ _ _] & Hfiles & Hroles).
  - apply up_at_steps; [intros; exact I|vm_compute; reflexivity].
  - split; [exact Htrail|]. split; [vm_compute; reflexivity|].
    split; [apply Hman; exists 1%N; reflexivity|]. split; [exact Hfiles|].
    apply Hroles, up_at_steps; [|vm_compute; reflexivity].
    intros m ev. rewrite !elem_of_cons, elem_of_nil. intros [->|[->|[->|[]]]]; [exact I|intros []|exact I].
Defined.

(** A resident is refused by the registry; nobody is served a file. *)
Lemma protected_routes_witness :
  (handled (request_as (bearer sample_resident) 100) rename_unit april_building).1 = Ok 403 ∧
  ∃ e, ae_Status e = 401 ∧
    (handle_files sample_server (NewStorage "files" 0) no_faults (request_as "" 100) FDownload ∅
       sample_env (sample_world april_building)).1 = Ok (FileRefused e, ∅).
Proof.
  split.
  - destruct (protected_routes (pusher := NoopNotifier) (gateway := MockGateway) sample_server (NewStorage "files" 0) no_faults
      (request_as (bearer sample_resident) 100) ∅ sample_env (sample_world april_building)
      _ _ eq_refl (surjective_pairing _)) as (_ & H & _).
    destruct (H rename_unit) as (k & Hk & Hout). unfold handled.
    destruct (handle_request _ _ _ _ _) as [s w2].
    assert ((Authenticate (h_Tokens (sv_Auth sample_server)) (rq_Authorization (sr_Headers
      (request_as (bearer sample_resident) 100))) sample_env (sample_world april_building)).1 = Ok sample_resident)
      as E by (vm_compute; reflexivity).
    rewrite E in Hout. destruct Hout as (_ & _ & (e & He & Hs) & _). cbn in Hs. by rewrite Hs, He.
  - destruct (protected_routes (pusher := NoopNotifier) (gateway := MockGateway) sample_server (NewStorage "files" 0) no_faults
      (request_as "" 100) ∅ sample_env (sample_world april_building) _ _ eq_refl (surjective_pairing _))
      as (_ & _ & H).
    exact (proj1 (H FDownload)).
Defined.

(** The superadmin sets the first server up. *)
Definition founded : Machine := up_at (resting empty_db)
  [EvStart sample_os; EvRequest no_headers (request_as "" 0) founding sample_env; EvListenFailed].

Lemma deployment_state_sound_witness : StateOk (m_DB founded) ∧ size (db_users (m_DB founded)) = 1%nat.
Proof.
  split; [|vm_compute; reflexivity].
  apply (deployment_state_sound (resting empty_db) founded); [reflexivity|].
  apply up_at_steps; [intros; exact I|vm_compute; reflexivity].
Defined.

Lemma one_morning : possible (resting april_building) [EvStart sample_os] = true.
Proof. vm_compute. reflexivity. Qed.
Lemma one_noon : possible morning [upload_pdf] = true.
Proof. vm_compute. reflexivity. Qed.
Lemma one_evening : possible noon restart = true.
Proof. vm_compute. reflexivity. Qed.

Lemma every_request_answered_witness : ∃ resp,
  (respond_files loaded (MkStackHeaders "r-1" "") post_file (FUpload (FileOf sample_pdf)) no_faults ∅
     failing_env (sample_world april_building)).1 = Ok resp ∧ hr_RequestID resp = "r-1".
Proof.
  destruct (every_request_answered loaded (MkStackHeaders "r-1" "") post_file failing_env
    (sample_world april_building)) as [_ H]; [discriminate|].
  destruct (H (FUpload (FileOf sample_pdf)) no_faults ∅) as [(resp & Hresp & _ & _ & Hid) _].
  exists resp. split; [exact Hresp|]. apply Hid. discriminate.
Defined.

Lemma running_server_sound_witness :
  m_Phase evening = Up loaded 0 ∧ pg_Version (m_Pg evening) = 9%nat ∧
  h_Secure (sv_Auth (server_of loaded)) = true.
Proof.
  assert (m_Phase evening = Up loaded 0) as Hup by (vm_compute; reflexivity).
  destruct (running_server_sound (resting april_building) evening None loaded 0 eq_refl) as
    (_ & _ & _ & Hlatest & Hsecure & _); [|exact Hup|].
  - transitivity morning; [|transitivity noon].
    + apply (up_at_steps any_event (resting april_building) [EvStart sample_os]); [done|exact one_morning].
    + apply (up_at_steps any_event morning [upload_pdf]); [done|exact one_noon].
    + apply (up_at_steps any_event noon restart); [done|exact one_evening].
  - split; [exact Hup|]. split; [apply Hlatest; reflexivity|apply Hsecure; reflexivity].
Defined.

Lemma fresh_restart : steps fresh_ids noon evening.
Proof.
  apply (up_at_steps fresh_ids noon restart); [|exact one_evening].
  intros m ev. unfold restart. rewrite !elem_of_cons, elem_of_nil. by intros [->|[->|[->|[]]]].
Qed.

Definition answered {A} (a : A) (r : Res A) : A := match r with Ok x => x | _ => a end.

Definition no_response : HttpResponse (FileReply * Disk) :=
  MkHttpResponse "" (MkCorsHeaders None false false None None None) (NoContent, ∅)
    (MkAccessLine LevelInfo "" "" 0).

Definition uploaded_response : HttpResponse (FileReply * Disk) :=
  answered no_response uploaded.

Lemma download_status :
  match (respond_files loaded no_headers (get_file 100003) FDownload no_faults
    (disk_at (Storage_Path loaded) (m_Disks evening)) sample_env (m_World evening)).1 with
  | Ok resp => file_status (hr_Answer resp).1
  | _ => 0
  end = 200.
Proof. vm_compute. reflexivity. Qed.

Lemma uploads_stay_served_witness : ∃ resp,
  (respond_files loaded no_headers (get_file 100003) FDownload no_faults
     (disk_at (Storage_Path loaded) (m_Disks evening)) sample_env (m_World evening)).1 = Ok resp ∧
  (hr_Answer resp).1 = Downloaded (ReplyJSON 200 (FileServed "application/pdf" "%PDF-1.7 receipt")).
Proof.
  destruct (uploads_stay_served morning noon evening loaded loaded 0 0 no_headers no_headers post_file
    (get_file 100003) sample_pdf no_faults no_faults sample_env sample_env uploaded_response 100003%N
    "/files/000000000000000000100003") as (_ & _ & resp & Hresp & Hanswer).
  1-4: vm_compute; reflexivity.
  1: exact fresh_restart.
  1-5: vm_compute; reflexivity.
  exists resp. split; [exact Hresp|]. destruct Hanswer as [H401|H200]; [|exact H200].
  pose proof download_status as H. rewrite Hresp in H. cbn in H. congruence.
Defined.

Definition unmigrated : PgState := ((∅ : gset nat), 0%nat).

Lemma migrate_logs_dsn_witness :
  ("dsn_host_db", "postgres://db") ∈ lr_Attrs (MkLogRecord LevelInfo "migrations applied" [("dsn_host_db", "postgres://db")]).
Proof.
  apply (migrate_logs_dsn sample_os loaded unmigrated (migrate_main sample_os unmigrated).2);
    [reflexivity|vm_compute; reflexivity].
Defined.
